(* ===== verification/_CoqProject ===== *)
-Q . S2P
Prelude.v
Keys.v
CppString.v
SafeQueue.v
SubscriptionRegistry.v
MessageHeader.v
Stats.v
Update.v
ProtoWire.v
Payload.v
Wire.v
Worker.v
WorkerPhases.v
Uuid.v
Discovery.v
DiscoveryThread.v
Broker.v
BrokerFacts.v
BrokerTheorems.v
BrokerStop.v
Mesh.v
MeshSpread.v
Client.v
ClientTheorems.v
System.v
SystemFacts.v
Schedule.v
SystemTheorems.v
SystemDelivery.v
MeshLink.v
SystemRequest.v
SystemResubscribe.v
ConnectionApi.v
HexDump.v
Multipart.v
MultipartClass.v
MultipartObjects.v
Message.v
Handles.v
SocketBase.v
ZmqUtil.v
Poller.v
Monitor.v
Setup.v
Options.v
Examples.v
QtAdapter.v
ProtoTree.v
Logger.v
Inspector.v
InspectorTable.v
Capture.v
CBindings.v
CRuntime.v
Witnesses.v
ClientWitnesses.v
MeshWitnesses.v
SystemWitnesses.v
RequestWitness.v
LibraryWitnesses.v
