(* ===== verification/Prelude.v ===== *)
(** * Wisp: a verified model of a ZeroMQ publish/subscribe broker

    ** The program

    Wisp is a message broker with a client library.  Clients connect to a
    broker's ROUTER socket ([server/zmqbroker.cpp]), announce themselves,
    subscribe to topics and publish messages; a message is an [Envelope], a
    protobuf routing header and an opaque payload, sent as one or two frames
    ([common/wireframe.h]).  The broker delivers a message to the subscribers of
    its topic and of the wildcard topic, kept in the [SubscriptionRegistry], and
    floods it to its peer brokers, which are reached through the same connection
    worker the clients use ([common/zmqworker.cpp]); a history of message ids
    stops loops.  Peers on a LAN find each other by UDP beacons
    ([server/discovery.cpp]).  Once per second the broker publishes statistics.
    Threads hand messages to each other through bounded queues
    ([common/safequeue.h]).  The client library
    ([common/connectionmanager.{h,cpp}], C interface [common/connectionapi.cpp])
    keeps the callbacks of a process and re-sends its subscriptions when the link
    comes up or the broker asks for a reset; the inspector
    ([inspector/*]) captures the traffic, filters it and replays messages.

    ** The files

    - [Prelude]: machine integers, container iteration orders, the state and
      error monad [M], generic lemmas, the hint database [wisp].
    - [Keys], [CppString]: [common/messagekeys.h]; the string operations and
      [std::to_string]/[stoi] the sources use.
    - [SafeQueue]: [common/safequeue.h], the operations on the queue and the
      monitor (mutex, two condition variables) as a step relation.
    - [SubscriptionRegistry]: [server/subscriptionregistry.h], both indices, and
      the finite relation it refines.
    - [MessageHeader], [Stats], [Update]: the generated message classes of
      [common/generated/], with their has-bits; [ProtoWire]: an instance of the
      runtime interfaces (the protobuf wire format) for the witnesses.
    - [Payload]: the typed payload encoding of [common/connectionmanager.h].
    - [Wire]: [common/wireframe.h] and the socket calls of [zmq.hpp] it uses.
    - [Worker], [WorkerPhases]: [common/zmqworker.cpp] and the phases of its loop;
      [Uuid]: [common/uuidhelper.h].
    - [Discovery], [DiscoveryThread]: [server/discovery.cpp], its decisions and its
      thread with the calls on the UDP socket; [Broker]: [server/zmqbroker.cpp] and
      [server/main.cpp]; [BrokerFacts] and [BrokerTheorems]: what they satisfy.
    - [Mesh], [MeshSpread]: brokers linked to each other, as a step relation
      over [processMessage], the workers of the links and their queues;
      [MeshLink]: how a link gets established.
    - [Client], [ClientTheorems], [ConnectionApi]: the client library;
      [QtAdapter]: [bindings/qt/qtconnectionadapter.h] on top of it; [Examples]:
      [client1/main.cpp] and [client2/main.cpp].
    - [System], [SystemFacts], [SystemTheorems], [SystemDelivery]: client
      processes, their workers, the network and a broker as one step relation;
      [Schedule]: runs of it given by a list of commands; [SystemRequest]: a request
      and its reply through the whole system.
    - [Setup]: how the threads of the worker, the broker and the inspector set up
      their sockets.
    - [CBindings]: [common/generated-c/], the structs, descriptor tables and
      wrappers; [CRuntime]: an instance of the runtime they call.
    - [Multipart], [MultipartClass], [MultipartObjects]: the codec and the container of
      [zmq_addon.hpp].  [Message], [Handles], [SocketBase]: the classes of
      [zmq.hpp] the program uses: [message_t]; [context_t] and [socket_t];
      buffers, options and byte transfer of [socket_base].  [Poller], [Monitor]:
      the pollers and [monitor_t].  [Options]: the tables of options and socket types
      and the accessors they select.  [ZmqUtil]: its helpers, from [trivial_optional]
      and the [buffer] overloads to polling, proxies, timers and the deprecated calls.
    - [Logger]: [common/logger.h] with its mutex.  [HexDump], [ProtoTree],
      [Inspector], [InspectorTable], [Capture]: [inspector/hexutils.h],
      [inspector/protoutils.h], the state behind the inspector's window, what its table
      announces, and its capture loop.
    - [Witnesses], [ClientWitnesses], [MeshWitnesses], [SystemWitnesses],
      [RequestWitness], [LibraryWitnesses]: the theorems applied at concrete states, with every
      interface instantiated.

    ** How the code is modelled

    A class is a record with the source's fields, a method a function on it; a
    method that throws, or that uses a socket, is a computation of [M], whose
    result is [Ok] or [Throw] with the error number.  A loop that runs until a
    queue or a message is exhausted has the length of that queue or message as
    its fuel, and is proved to end before the fuel does; decimal conversion has
    20 digits, enough for 64 bits, and a varint 10 bytes.  A thread's loop is the
    body of one iteration; the clock readings of an iteration are arguments.
    Iterations of different threads are atomic with respect to each other except
    where interleavings are explicit: in the monitor of [SafeQueue], in the
    client/broker relation [sync_step] of [ClientTheorems], in [mesh_step], in the
    whole system [sys_step] and in [log_step].  Classes that own memory or handles of
    libzmq are run on pools of objects by address ([pool_step], [lib_step],
    [mon_step]); the handlers of a poller are objects on a heap with reference counts.  Sizes and counters are wrapped to their
    width where the source's types do.

    What is not in the repository is an interface with named laws: the protobuf
    runtime ([ProtoRuntime], [StatsRuntime], [HeaderParser], [AnyRuntime],
    [Reflection]) and the C runtime ([ProtobufC], [HeaderUnpack]), libzmq
    ([ZmqSocket] for frames, [ZmqNetwork] for their arrival, [ZmqMsg] for messages, [LibZmq]
    for contexts and handles, [SocketApi] and [SocketSetup] for options, endpoints and
    bytes, [ZmqPoller], [ZmqMonitor], [TimerApi]), the random
    engine ([HexGen]), the order of unordered containers ([UnorderedOrder]) and
    Qt ([QtText], [QtTypes]).  User callbacks are the argument [user_code].

    ** What is proved

    - Broker: a fresh message reaches exactly its subscribers, once, and every
      peer; duplicates reach nobody for the next 9999 ids; control messages have
      exactly their effect; silent clients are swept; registry, client table and
      history stay consistent in every reachable state; malformed input never
      throws nor shifts the reading of the next message; reports are complete.
    - Mesh: flooding ends, with any losses; without losses it comes to rest with
      every connected broker having routed the message; no broker sends an
      identity the same message twice.  The hypotheses describe an established
      mesh: links registered at their brokers with the wildcard subscription,
      distinct link identities, histories and queues with room.
      A link reaches that state by the handshake of its worker with the dialled broker.
    - System: over every run, with any losses, a client handles a sublist of what
      another one published, in order and never twice; and a message published to a
      subscriber is brought to its callbacks when every party takes a turn; a request sent to a
      subscribed service comes back as the reply its callback gave, to the requester.
    - Set-up: a worker connects only under a usable identity, the broker survives
      addresses it cannot bind.
    - Registry: the two indices refine a relation between clients and topics.
    - Queue: over all interleavings first-in first-out, bounded, no lost wakeup.
    - Wire and generated classes: round trip, one message consumed whatever its
      frames, whole messages or nothing sent, sizes exact.
    - Worker: status changes alternate, queues are drained in order, timeouts.
    - Discovery: beacons round-trip, one side dials, dial and drop alternate and
      agree with the broker's peer table; the thread closes its socket on every path
      and sends its beacons no faster, and hardly slower, than the interval says.
    - Client: no subscription is lost, the first reply answers a request, every
      callback runs although others throw, typed values arrive as sent, the
      goodbye is the last control message on the wire; C buffers are not overrun.
    - Qt adapter: handlers are posted to their context in order and never run on
      the processing thread, and therefore cannot reply to a request.
    - libzmq classes: messages stay valid, every handle has one owner, multipart
      encoding round-trips, receiving never writes past a buffer, options come
      back as set, under the name and type the table declares; a poller never calls a handler that is gone; a monitor reports
      what happened, in order, and leaves no socket monitored behind.
    - C bindings: C and C++ write the same bytes, and read what the other wrote,
      except for an empty [Update.message].
    - Logger: lines are never torn, whatever the interleaving.
    - Examples: each program understands what the other one sends.
    - Inspector: what the broker processes is what the window shows; the history is
      a bounded suffix of the traffic, the view shows exactly what the filter admits, a replay is a marked faithful copy.

    ** What is not modelled

    Thread start and join, and widget layout (they have no state of the program's
    own); arenas, reflection tables and the parser of the generated classes (library
    code, reached through the interfaces above); of [zmq.hpp] the type traits and
    macros, which have no run-time behaviour, and the groups ([join], [leave]) and routing
    ids of libzmq's draft interface, which the program does not use. *)

From stdpp Require Export base tactics option list gmap sets strings sorting fin_maps.
From Stdlib Require Export ZArith Ascii Lia.

Create HintDb wisp.

(** ** Machine integers

    Unsigned arithmetic wraps, a narrowing conversion to a signed type keeps
    the low bits (two's complement). *)

Definition u64 (z : Z) : Z := (z mod 2 ^ 64)%Z.

Definition u16 (z : Z) : Z := (z mod 2 ^ 16)%Z.

Definition i64 (z : Z) : Z := ((z + 2 ^ 63) mod 2 ^ 64 - 2 ^ 63)%Z.

Definition i32 (z : Z) : Z := ((z + 2 ^ 31) mod 2 ^ 32 - 2 ^ 31)%Z.

(** The size of a container as a number. *)
Definition zlen {A} (l : list A) : Z := Z.of_nat (length l).

(** The size of a [std::string]. *)
Definition slen (s : string) : Z := Z.of_nat (String.length s).

(** ** Iteration order of the standard containers

    [std::set] and [std::map] iterate in key order; the order of
    [std::unordered_map] is not specified, so it is a parameter of every
    definition that iterates over one. *)

Definition std_set_iter (s : gset string) : list string :=
  merge_sort String.le (elements s).

Definition pair_le {A} (x y : string * A) : Prop := String.le x.1 y.1.

#[global] Instance pair_le_dec {A} (x y : string * A) : Decision (pair_le x y).
Proof. unfold pair_le. apply _. Defined.

Definition std_map_iter {A} (m : gmap string A) : list (string * A) :=
  merge_sort pair_le (map_to_list m).

Class UnorderedOrder := {
  umap_iter : forall {A : Type}, gmap string A -> list (string * A);
  umap_iter_perm : forall (A : Type) (m : gmap string A), umap_iter m ≡ₚ map_to_list m
}.

(** The order of the trie behind [gmap]: one admissible order. *)
Definition trie_order : UnorderedOrder :=
  {| umap_iter := fun A m => map_to_list m; umap_iter_perm := fun A m => reflexivity _ |}.

(** ** Effects: state and exceptions

    A C++ function that works on a mutable object and may throw: the state is
    kept when it throws. *)

Inductive res (A : Type) :=
  | Ok (a : A)
  | Throw (errno : Z).
Arguments Ok {A} _.
Arguments Throw {A} _.

Definition M (St A : Type) : Type := St -> St * res A.

#[global] Instance M_ret St : MRet (M St) := fun A a s => (s, Ok a).

#[global] Instance M_bind St : MBind (M St) := fun A B k m s =>
  match m s with
  | (s', Ok a) => k a s'
  | (s', Throw e) => (s', Throw e)
  end.

(** [catch (...) {}] around a statement. *)
Definition try_ignore {St} (m : M St unit) : M St unit := fun s =>
  match m s with (s', _) => (s', Ok tt) end.

Definition mget {St} : M St St := fun s => (s, Ok s).
Definition mmodify {St} (f : St -> St) : M St unit := fun s => (f s, Ok tt).

(** Runs an effect on a component of the state. *)
Definition mlift {St Sub A} (get : St -> Sub) (put : Sub -> St -> St) (m : M Sub A) : M St A :=
  fun s => match m (get s) with (x, r) => (put x s, r) end.

(** [for (const auto& x : l) body(x)]. *)
Fixpoint mfor {St A} (body : A -> M St unit) (l : list A) : M St unit :=
  match l with
  | [] => mret tt
  | x :: l => body x ≫= fun _ => mfor body l
  end.

(** ** Vector operations *)

(** [pop_back]. *)
Definition pop_back {A} (l : list A) : list A := take (length l - 1) l.

(** [std::find], overwrite by [back()], [pop_back()]. *)
Definition erase_swap (x : string) (l : list string) : list string :=
  match list_find (x =.) l with
  | Some (i, _) =>
      match last l with
      | Some b => pop_back (<[i := b]> l)
      | None => l
      end
  | None => l
  end.

Lemma zlen_app {A} (l1 l2 : list A) : zlen (l1 ++ l2) = (zlen l1 + zlen l2)%Z.
Proof. unfold zlen. rewrite length_app. lia. Qed.

Lemma zlen_nonneg {A} (l : list A) : (0 <= zlen l)%Z.
Proof. unfold zlen. lia. Qed.

Lemma std_set_iter_perm (s : gset string) : std_set_iter s ≡ₚ elements s.
Proof. apply merge_sort_Permutation. Qed.

Lemma elem_of_std_set_iter (s : gset string) x : x ∈ std_set_iter s <-> x ∈ s.
Proof. by rewrite std_set_iter_perm, elem_of_elements. Qed.

Lemma NoDup_std_set_iter (s : gset string) : NoDup (std_set_iter s).
Proof. rewrite std_set_iter_perm. apply NoDup_elements. Qed.

Lemma std_map_iter_perm {A} (m : gmap string A) : std_map_iter m ≡ₚ map_to_list m.
Proof. apply merge_sort_Permutation. Qed.

Lemma elem_of_umap_iter `{UnorderedOrder} {A} (m : gmap string A) k x :
  (k, x) ∈ umap_iter m <-> m !! k = Some x.
Proof. by rewrite umap_iter_perm, elem_of_map_to_list. Qed.

Lemma NoDup_umap_iter_keys `{UnorderedOrder} {A} (m : gmap string A) :
  NoDup (umap_iter m).*1.
Proof. rewrite umap_iter_perm. apply NoDup_fst_map_to_list. Qed.

Lemma pop_back_snoc {A} (l : list A) x : pop_back (l ++ [x]) = l.
Proof.
  unfold pop_back. rewrite length_app. simpl.
  replace (length l + 1 - 1) with (length l) by lia. by rewrite take_app_length.
Qed.

Lemma erase_swap_notin x l : x ∉ l -> erase_swap x l = l.
Proof.
  intros Hx. unfold erase_swap.
  destruct (list_find (x =.) l) as [[i y]|] eqn:E; [|done].
  apply list_find_Some in E as (E & -> & _).
  by apply list_elem_of_lookup_2 in E.
Qed.

(** The vector keeps the same elements, less one occurrence of [x]. *)
Lemma erase_swap_perm x l : x ∈ l -> x :: erase_swap x l ≡ₚ l.
Proof.
  intros Hx. unfold erase_swap.
  destruct (list_find (x =.) l) as [[i y]|] eqn:E.
  2: { apply list_find_None in E. rewrite Forall_forall in E. by destruct (E x Hx). }
  apply list_find_Some in E as (E & <- & _).
  destruct l as [|b l' _] using rev_ind; [by apply elem_of_nil in Hx|].
  rewrite last_snoc.
  destruct (decide (i < length l')) as [Hi|Hi].
  - rewrite lookup_app_l in E by done.
    rewrite insert_app_l, pop_back_snoc by done.
    rewrite <-(take_drop_middle l' i x E) at 2.
    rewrite (insert_take_drop l' i b) by done.
    rewrite <-(Permutation_cons_append _ b), <-!Permutation_middle. apply perm_swap.
  - apply lookup_app_Some in E as [E|[_ E]]; [apply lookup_lt_Some in E; lia|].
    destruct (i - length l') as [|k] eqn:Ei; simplify_list_eq.
    replace i with (length l' + 0) by lia.
    rewrite insert_app_r. simpl. rewrite pop_back_snoc. apply Permutation_cons_append.
Qed.

(** ** Lists without equal neighbours *)

Definition alternating {A} (l : list A) : Prop :=
  forall i x, l !! i = Some x -> l !! S i <> Some x.

Lemma alternating_app {A} (l1 l2 : list A) x :
  alternating l1 -> last l1 = Some x -> alternating (x :: l2) -> alternating (l1 ++ l2).
Proof.
  intros A1 L1 A2 i b Hi.
  destruct (decide (S i < length l1)) as [Hlt|Hge].
  - rewrite lookup_app_l in Hi by lia. rewrite lookup_app_l by lia. by apply A1.
  - destruct (decide (i < length l1)) as [Hlt|Hge'].
    + rewrite lookup_app_l in Hi by done. rewrite lookup_app_r by lia.
      rewrite last_lookup in L1.
      replace (Init.Nat.pred (length l1)) with i in L1 by lia.
      assert (b = x) as -> by congruence.
      replace (S i - length l1) with 0 by lia. by apply (A2 0).
    + rewrite lookup_app_r in Hi by lia. rewrite lookup_app_r by lia.
      specialize (A2 (S (i - length l1)) b Hi). simpl in A2.
      by replace (S i - length l1) with (S (i - length l1)) by lia.
Qed.

(** ** The effect monad *)

Lemma bind_ok {St A B} (m : M St A) (k : A -> M St B) s s' a :
  m s = (s', Ok a) -> (m ≫= k) s = k a s'.
Proof. unfold mbind, M_bind. by intros ->. Qed.

Lemma bind_throw {St A B} (m : M St A) (k : A -> M St B) s s' e :
  m s = (s', Throw e) -> (m ≫= k) s = (s', Throw e).
Proof. unfold mbind, M_bind. by intros ->. Qed.

(** An effect that keeps a property of the state, whether it returns or
    throws. *)
Definition preserves {St A} (I : St -> Prop) (m : M St A) : Prop := forall s, I s -> I (m s).1.

Section preserves.
Context {St : Type} (I : St -> Prop).

Lemma preserves_ret {A} (a : A) : preserves I (mret a : M St A).
Proof. by intros s. Qed.

Lemma preserves_get : preserves I mget.
Proof. by intros s. Qed.

Lemma preserves_modify f : (forall s, I s -> I (f s)) -> preserves I (mmodify f).
Proof. intros Hf s. apply Hf. Qed.

Lemma preserves_bind {A B} (m : M St A) (k : A -> M St B) :
  preserves I m -> (forall a, preserves I (k a)) -> preserves I (m ≫= k).
Proof.
  intros Hm Hk s Hs. unfold mbind, M_bind. specialize (Hm s Hs).
  destruct (m s) as [s' [a|e]]; [by apply Hk|done].
Qed.

Lemma preserves_mfor {A} (body : A -> M St unit) l :
  (forall a, preserves I (body a)) -> preserves I (mfor body l).
Proof.
  intros Hb. induction l as [|a l IH]; simpl; [apply preserves_ret|].
  apply preserves_bind; [apply Hb|intros _; apply IH].
Qed.

Lemma preserves_lift {Sub A} (J : Sub -> Prop) get put (m : M Sub A) :
  preserves J m -> (forall s, I s -> J (get s)) -> (forall x s, I s -> J x -> I (put x s)) ->
  preserves I (mlift get put m).
Proof.
  intros Hm Hget Hput s Hs. unfold mlift. specialize (Hm (get s) (Hget s Hs)).
  destruct (m (get s)) as [x r]. by apply Hput.
Qed.

End preserves.

(** An effect that returns, and keeps a property of the state. *)
Definition total {St A} (I : St -> Prop) (m : M St A) : Prop :=
  forall s, I s -> exists s' a, m s = (s', Ok a) /\ I s'.

Section total.
Context {St : Type} (I : St -> Prop).

Lemma total_ret {A} (a : A) : total I (mret a : M St A).
Proof. intros s Hs. by exists s, a. Qed.

Lemma total_get : total I mget.
Proof. intros s Hs. by exists s, s. Qed.

Lemma total_modify f : (forall s, I s -> I (f s)) -> total I (mmodify f).
Proof. intros Hf s Hs. exists (f s), tt. auto. Qed.

Lemma total_bind {A B} (m : M St A) (k : A -> M St B) :
  total I m -> (forall a, total I (k a)) -> total I (m ≫= k).
Proof.
  intros Hm Hk s Hs. destruct (Hm s Hs) as (s' & a & E & Hs'). rewrite (bind_ok _ _ _ _ _ E).
  by apply Hk.
Qed.

End total.

#[export] Hint Resolve preserves_ret preserves_get preserves_modify preserves_bind
  preserves_mfor : wisp.

(** ** Sums over finite maps *)

Section sums.
Context {K : Type} `{Countable K} {A : Type}.
Implicit Types (f : A -> nat) (m : gmap K A).

Definition msum f m : nat := map_fold (fun _ x acc => f x + acc) 0 m.

Lemma msum_delete f m k x : m !! k = Some x -> msum f m = f x + msum f (delete k m).
Proof. intros E. unfold msum. apply (map_fold_delete_L (fun _ x acc => f x + acc)); [lia|done]. Qed.

Lemma msum_insert f m k x : m !! k = None -> msum f (<[k := x]> m) = f x + msum f m.
Proof.
  intros E. rewrite (msum_delete f (<[k := x]> m) k x) by apply lookup_insert_eq.
  by rewrite delete_insert_id.
Qed.

Lemma msum_update f m k x y : m !! k = Some x -> msum f (<[k := y]> m) + f x = msum f m + f y.
Proof.
  intros E. rewrite (msum_delete f (<[k := y]> m) k y) by apply lookup_insert_eq.
  rewrite delete_insert_eq, (msum_delete f m k x) by done. lia.
Qed.

Lemma msum_lookup f m k x : m !! k = Some x -> f x <= msum f m.
Proof. intros E. rewrite (msum_delete f m k x) by done. lia. Qed.

Lemma msum_fmap_le (g : A -> A) f m : (forall x, f (g x) <= f x + 1) -> msum f (g <$> m) <= msum f m + size m.
Proof.
  intros Hg. induction m as [|k x m Hk IH] using map_ind; [by rewrite fmap_empty|].
  rewrite fmap_insert, map_size_insert_None by done.
  rewrite (msum_delete f (<[k := g x]> _) k (g x)), (msum_delete f (<[k := x]> m) k x) by apply lookup_insert_eq.
  rewrite !delete_insert_id by (by rewrite ?lookup_fmap, ?Hk). pose proof (Hg x). lia.
Qed.

End sums.

(** ** Strings *)

Lemma string_app_cons c s t : String c s +:+ t = String c (s +:+ t).
Proof. done. Qed.

Lemma string_length_app s t : String.length (s +:+ t) = String.length s + String.length t.
Proof. induction s as [|c s IH]; [done|]. rewrite string_app_cons. simpl. by rewrite IH. Qed.

Lemma slen_app s t : slen (s +:+ t) = (slen s + slen t)%Z.
Proof. unfold slen. rewrite string_length_app. lia. Qed.

Lemma slen_nonneg s : (0 <= slen s)%Z.
Proof. unfold slen. lia. Qed.

Lemma slen_of_list (l : list ascii) : slen (String.string_of_list_ascii l) = Z.of_nat (length l).
Proof. unfold slen. f_equal. induction l as [|c l IH]; [done|]. simpl. by rewrite IH. Qed.

Lemma string_app_nil_r s : s +:+ "" = s.
Proof. induction s as [|c s IH]; [done|]. rewrite !string_app_cons. by f_equal. Qed.

Lemma string_app_assoc s t u : (s +:+ t) +:+ u = s +:+ (t +:+ u).
Proof. induction s as [|c s IH]; [done|]. rewrite !string_app_cons. by f_equal. Qed.
