(* ===== verification/Keys.v ===== *)
(** * Message keys and configuration ([common/messagekeys.h], [common/config.h]) *)

From S2P Require Import Prelude.

Module Keys.

Definition CONNECT : string := "__CONNECT__".
Definition DISCONNECT : string := "__DISCONNECT__".
Definition RESET : string := "__RESET__".
Definition HEARTBEAT : string := "__HEARTBEAT__".
Definition HEARTBEAT_ACK : string := "__HEARTBEAT_ACK__".
Definition SUBSCRIBE : string := "__SUBSCRIBE__".
Definition UNSUBSCRIBE : string := "__UNSUBSCRIBE__".
Definition SYS_STATS : string := "__SYS_STATS__".

Definition isSystemPacket (key : string) : bool :=
  bool_decide (key = HEARTBEAT) || bool_decide (key = HEARTBEAT_ACK) ||
  bool_decide (key = CONNECT) || bool_decide (key = DISCONNECT) || bool_decide (key = RESET).

Definition isControlMessage (key : string) : bool :=
  bool_decide (key = HEARTBEAT) || bool_decide (key = HEARTBEAT_ACK) ||
  bool_decide (key = SUBSCRIBE) || bool_decide (key = UNSUBSCRIBE) ||
  bool_decide (key = CONNECT) || bool_decide (key = DISCONNECT) || bool_decide (key = RESET).

End Keys.

(** 16 MiB. *)
Definition MAX_MESSAGE_SIZE_BYTES : Z := (16 * 1024 * 1024)%Z.

Inductive ProtocolType := ZMQ.

#[export] Instance ProtocolType_eq_dec : EqDecision ProtocolType.
Proof. solve_decision. Defined.

Record ConnectionConfig := mkConfig {
  address : string;
  clientId : string;
  protocol : ProtocolType;
  keepAliveTime : Z;
  keepAliveTimeout : Z;
  compressionAlgorithm : Z
}.

(** The member initializers. *)
Definition config_default : ConnectionConfig := mkConfig "" "" ZMQ 10000 5000 2.
