(* ===== verification/CppString.v ===== *)
(** * The parts of [std::string] and number conversion the code uses

    [find], [rfind], [substr], [std::to_string] on unsigned values and
    [std::stoi], written on byte strings, with the lemmas the codecs of the
    broker need. *)

From S2P Require Import Prelude.

(** ** Searching and slicing *)

Fixpoint str_take (n : nat) (s : string) : string :=
  match n, s with
  | S n, String c s => String c (str_take n s)
  | _, _ => ""
  end.

Fixpoint str_drop (n : nat) (s : string) : string :=
  match n, s with
  | S n, String c s => str_drop n s
  | _, _ => s
  end.

Fixpoint find_char (c : ascii) (s : string) : option nat :=
  match s with
  | EmptyString => None
  | String d s => if decide (d = c) then Some 0 else S <$> find_char c s
  end.

(** [s.find(c, start)]; [npos] is [None]. *)
Definition str_find (s : string) (c : ascii) (start : nat) : option nat :=
  (fun i => start + i) <$> find_char c (str_drop start s).

(** [s.rfind(c)]: the last occurrence. *)
Fixpoint str_rfind (s : string) (c : ascii) : option nat :=
  match s with
  | EmptyString => None
  | String d s => match str_rfind s c with
                  | Some i => Some (S i)
                  | None => if decide (d = c) then Some 0 else None
                  end
  end.

(** [s.substr(pos, len)] and [s.substr(pos)]. *)
Definition str_substr (s : string) (pos len : nat) : string := str_take len (str_drop pos s).
Definition str_substr_end (s : string) (pos : nat) : string := str_drop pos s.

(** [s.rfind(prefix, 0) == 0]. *)
Definition str_starts_with (prefix s : string) : bool := String.prefix prefix s.

(** ** Splitting, as a specification *)

Fixpoint split_on (c : ascii) (s : string) : list string :=
  match s with
  | EmptyString => [""]
  | String d s =>
      if decide (d = c) then "" :: split_on c s
      else match split_on c s with
           | f :: fs => String d f :: fs
           | [] => [String d ""]
           end
  end.

(** ** Numbers *)

Definition digit_char (z : Z) : ascii := ascii_of_N (Z.to_N (48 + z)).

Definition digit_val (c : ascii) : option Z :=
  let n := Z.of_N (N_of_ascii c) in
  if decide (48 <= n <= 57)%Z then Some (n - 48)%Z else None.

Fixpoint to_dec (fuel : nat) (z : Z) : string :=
  if decide (z < 10)%Z then String (digit_char z) ""
  else match fuel with
       | O => ""
       | S fuel => to_dec fuel (z / 10)%Z +:+ String (digit_char (z mod 10)%Z) ""
       end.

(** [std::to_string] of an unsigned value; 64 bits need at most 20 digits. *)
Definition to_string (z : Z) : string := to_dec 20 z.

(** [isspace] in the C locale. *)
Definition is_space (c : ascii) : bool :=
  let n := Z.of_N (N_of_ascii c) in bool_decide (n = 32 \/ 9 <= n <= 13)%Z.

Fixpoint skip_space (s : string) : string :=
  match s with
  | String c s' => if is_space c then skip_space s' else s
  | EmptyString => ""
  end.

(** The digits [strtol] consumes; [None] when there is none. *)
Fixpoint parse_digits (acc : option Z) (s : string) : option Z :=
  match s with
  | EmptyString => acc
  | String c s => match digit_val c with
                  | Some d => parse_digits (Some (default 0 acc * 10 + d)%Z) s
                  | None => acc
                  end
  end.

(** [std::stoi]: white space, an optional sign, digits; anything after them is
    ignored; [None] for either exception. *)
Definition stoi (s : string) : option Z :=
  let s := skip_space s in
  let '(neg, s) := match s with
                   | String c s' => if decide (c = "-"%char) then (true, s')
                                    else if decide (c = "+"%char) then (false, s') else (false, s)
                   | EmptyString => (false, s)
                   end in
  match parse_digits None s with
  | None => None
  | Some v => let v := if neg : bool then (- v)%Z else v in
              if decide (- 2 ^ 31 <= v < 2 ^ 31)%Z then Some v else None
  end.

(** ** Lemmas *)

Definition no_char (c : ascii) (s : string) : Prop := find_char c s = None.

Lemma no_char_cons c d s : no_char c (String d s) <-> d <> c /\ no_char c s.
Proof.
  unfold no_char; simpl. case_decide; [naive_solver|].
  destruct (find_char c s); naive_solver.
Qed.

Lemma no_char_elem c s : no_char c s <-> c ∉ String.list_ascii_of_string s.
Proof.
  induction s as [|d s IH]; simpl; [split; [intros _; apply not_elem_of_nil|done]|].
  rewrite no_char_cons, not_elem_of_cons, IH. naive_solver.
Qed.

Lemma no_char_app c s t : no_char c (s +:+ t) <-> no_char c s /\ no_char c t.
Proof.
  induction s as [|d s IH]; [unfold no_char; simpl; naive_solver|].
  rewrite string_app_cons, !no_char_cons, IH. tauto.
Qed.

Lemma split_on_find c s :
  split_on c s = match find_char c s with
                 | None => [s]
                 | Some i => str_take i s :: split_on c (str_drop (S i) s)
                 end.
Proof.
  induction s as [|d s IH]; [done|]. simpl. case_decide; [done|].
  rewrite IH. by destruct (find_char c s).
Qed.

Lemma split_on_nonempty c s : split_on c s <> [].
Proof. rewrite split_on_find. by destruct (find_char c s). Qed.

Lemma split_on_app c f rest :
  no_char c f -> split_on c (f +:+ String c rest) = f :: split_on c rest.
Proof.
  induction f as [|d f IH]; intros Hn.
  - change ("" +:+ String c rest) with (String c rest). simpl. by rewrite decide_True.
  - apply no_char_cons in Hn as [Hd Hn]. rewrite string_app_cons. simpl.
    rewrite decide_False by done. by rewrite IH.
Qed.

Lemma split_on_no_char c s : no_char c s -> split_on c s = [s].
Proof. intros Hn. rewrite split_on_find. by rewrite Hn. Qed.

Lemma str_drop_drop n m s : str_drop n (str_drop m s) = str_drop (m + n) s.
Proof.
  revert s. induction m as [|m IH]; intros s; [done|]. destruct s as [|c s]; simpl; [|apply IH].
  by destruct n.
Qed.

Lemma find_char_length c s i : find_char c s = Some i -> i < String.length s.
Proof.
  revert i. induction s as [|d s IH]; intros i; simpl; [done|]. case_decide; [intros [= <-]; lia|].
  destruct (find_char c s); [|done]. intros [= <-]. specialize (IH _ eq_refl). lia.
Qed.

Lemma str_drop_length n s : String.length (str_drop n s) = String.length s - n.
Proof. revert s. induction n as [|n IH]; intros [|c s]; simpl; auto. Qed.

Lemma digit_val_char z : (0 <= z < 10)%Z -> digit_val (digit_char z) = Some z.
Proof.
  intros Hz. unfold digit_val, digit_char. rewrite N_ascii_embedding by lia.
  rewrite Z2N.id by lia. rewrite decide_True by lia. f_equal. lia.
Qed.

Lemma to_dec_parse fuel z rest :
  (0 <= z < 10 ^ Z.of_nat (S fuel))%Z ->
  parse_digits None (to_dec fuel z +:+ rest) = parse_digits (Some z) rest.
Proof.
  revert z rest. induction fuel as [|fuel IH]; intros z rest Hz; simpl.
  - change (10 ^ Z.of_nat 1)%Z with 10%Z in Hz.
    rewrite decide_True by lia. rewrite string_app_cons; simpl. by rewrite digit_val_char by lia.
  - case_decide.
    + rewrite string_app_cons; simpl. by rewrite digit_val_char by lia.
    + rewrite string_app_assoc, IH.
      * rewrite string_app_cons; simpl.
        pose proof (Z.mod_pos_bound z 10). rewrite digit_val_char by lia. simpl.
        do 2 f_equal. rewrite (Z.div_mod z 10) at 3 by lia. lia.
      * split; [apply Z.div_pos; lia|].
        apply Z.div_lt_upper_bound; [lia|]. rewrite Nat2Z.inj_succ, Z.pow_succ_r in Hz by lia. lia.
Qed.

(** The first character is a digit. *)
Lemma to_dec_head fuel z :
  (0 <= z < 10 ^ Z.of_nat (S fuel))%Z ->
  exists d s, to_dec fuel z = String (digit_char d) s /\ (0 <= d < 10)%Z.
Proof.
  revert z. induction fuel as [|fuel IH]; intros z Hz; simpl; case_decide;
    try (by exists z, ""; split; [|lia]).
  - change (10 ^ Z.of_nat 1)%Z with 10%Z in Hz. lia.
  - rewrite Nat2Z.inj_succ, Z.pow_succ_r in Hz by lia.
    destruct (IH (z / 10)%Z) as (d & s & -> & Hd).
    { split; [apply Z.div_pos; lia|]. apply Z.div_lt_upper_bound; lia. }
    rewrite string_app_cons. eauto.
Qed.

Lemma digit_char_cases d :
  (0 <= d < 10)%Z -> digit_char d ∈ ["0"; "1"; "2"; "3"; "4"; "5"; "6"; "7"; "8"; "9"]%char.
Proof.
  intros Hd. assert (d = 0 \/ d = 1 \/ d = 2 \/ d = 3 \/ d = 4 \/ d = 5 \/ d = 6 \/ d = 7 \/
    d = 8 \/ d = 9)%Z as Hc by lia.
  repeat destruct Hc as [->|Hc]; try subst; vm_compute; set_solver.
Qed.

Lemma to_dec_no_char c fuel z :
  (0 <= z)%Z -> c ∉ ["0"; "1"; "2"; "3"; "4"; "5"; "6"; "7"; "8"; "9"]%char ->
  no_char c (to_dec fuel z).
Proof.
  intros Hz Hc. revert z Hz. induction fuel as [|fuel IH]; intros z Hz; simpl; case_decide; try done.
  - apply no_char_cons. split; [|done]. intros <-. by apply Hc, digit_char_cases.
  - apply no_char_cons. split; [|done]. intros <-. by apply Hc, digit_char_cases.
  - apply no_char_app. split; [apply IH, Z.div_pos; lia|]. apply no_char_cons. split; [|done].
    intros <-. apply Hc, digit_char_cases, Z.mod_pos_bound. lia.
Qed.

Lemma stoi_to_string z : (0 <= z < 2 ^ 31)%Z -> stoi (to_string z) = Some z.
Proof.
  intros Hz. unfold stoi, to_string.
  assert (Hb : (0 <= z < 10 ^ Z.of_nat 21)%Z) by (simpl; lia).
  destruct (to_dec_head 20 z Hb) as (d & s & E & Hd).
  pose proof (to_dec_parse 20 z "" Hb) as Hp. rewrite string_app_nil_r in Hp.
  rewrite E in Hp |- *. pose proof (digit_char_cases d Hd) as Hc.
  assert (Hnd : is_space (digit_char d) = false /\ digit_char d <> "-"%char /\
                digit_char d <> "+"%char).
  { rewrite !elem_of_cons, elem_of_nil in Hc.
    repeat destruct Hc as [-> |Hc]; try done. }
  destruct Hnd as (N1 & N2 & N3). cbn [skip_space]. rewrite N1.
  rewrite !decide_False by done. rewrite Hp. cbn [parse_digits].
  by rewrite decide_True by lia.
Qed.

Lemma str_rfind_no_char c s : no_char c s -> str_rfind s c = None.
Proof.
  induction s as [|d s IH]; [done|]. intros [Hd Hn]%no_char_cons. simpl.
  rewrite (IH Hn). by rewrite decide_False.
Qed.

(** The last occurrence is the one nothing follows. *)
Lemma str_rfind_app c a b : no_char c b -> str_rfind (a +:+ String c b) c = Some (String.length a).
Proof.
  intros Hb. induction a as [|d a IH].
  - change ("" +:+ String c b) with (String c b). simpl. rewrite str_rfind_no_char by done.
    by rewrite decide_True.
  - rewrite string_app_cons. simpl. by rewrite IH.
Qed.

Lemma str_drop_app a b : str_drop (String.length a) (a +:+ b) = b.
Proof. induction a as [|d a IH]; [done|]. rewrite string_app_cons. apply IH. Qed.

Lemma str_take_app a b : str_take (String.length a) (a +:+ b) = a.
Proof.
  induction a as [|d a IH]; [done|]. rewrite string_app_cons. cbn [str_take String.length].
  by rewrite IH.
Qed.

Lemma prefix_app a b : str_starts_with a (a +:+ b) = true.
Proof.
  unfold str_starts_with. induction a as [|d a IH]; [by destruct b|]. rewrite string_app_cons. simpl.
  by destruct (ascii_dec d d).
Qed.
