(* ===== verification/SafeQueue.v ===== *)
(** * The bounded blocking queue ([common/safequeue.h])

    Every member function of [SafeQueue<T>] runs under one mutex, so its
    critical sections are atomic.  The first part gives the sequential meaning
    of each operation.  The second part is the concurrent monitor: threads
    that call operations, block on the two condition variables, are notified,
    wake spuriously, or time out.  [monitor_step] is its step relation. *)

From S2P Require Import Prelude.

Record SafeQueue (T : Type) := mkQueue {
  m_queue : list T;
  m_stop : bool;
  m_maxSize : Z
}.
Arguments mkQueue {T} _ _ _.
Arguments m_queue {T} _.
Arguments m_stop {T} _.
Arguments m_maxSize {T} _.

Section operations.
Context {T : Type}.
Implicit Types (q : SafeQueue T) (v : T).

Definition queue_new (maxSize : Z) : SafeQueue T := mkQueue [] false maxSize.

(** The default argument of the constructor. *)
Definition queue_default : SafeQueue T := queue_new 5000.

(** The predicate both [push] overloads wait for. *)
Definition push_ready q : bool := (zlen (m_queue q) <? m_maxSize q)%Z || m_stop q.

(** The code of [push] after its wait. *)
Definition push_body v q : SafeQueue T * bool :=
  if m_stop q then (q, false)
  else (mkQueue (m_queue q ++ [v]) (m_stop q) (m_maxSize q), true).

(** [push(value)]: [None] while the caller stays blocked. *)
Definition push v q : option (SafeQueue T * bool) :=
  if push_ready q then Some (push_body v q) else None.

(** [push(value, timeout)]: [wait_for] returns the predicate's value when the
    caller goes on, at the latest at the deadline. *)
Definition push_for v q : SafeQueue T * bool :=
  if push_ready q then push_body v q else (q, false).

(** The predicate [pop] waits for. *)
Definition pop_ready q : bool := negb (bool_decide (m_queue q = [])) || m_stop q.

(** Removal of the front, shared by [pop] and [try_pop]. *)
Definition try_pop q : SafeQueue T * option T :=
  match m_queue q with
  | [] => (q, None)
  | v :: rest => (mkQueue rest (m_stop q) (m_maxSize q), Some v)
  end.

Definition pop q : option (SafeQueue T * option T) :=
  if pop_ready q then Some (try_pop q) else None.

Definition stop q : SafeQueue T := mkQueue (m_queue q) true (m_maxSize q).

End operations.

(** ** The monitor *)

Section monitor.
Context {T : Type}.
Implicit Types (q : SafeQueue T) (v : T).

Inductive call :=
  | CPush (v : T) (timed : bool)
  | CPop
  | CTryPop
  | CStop.

Inductive ret :=
  | RBool (b : bool)
  | RValue (o : option T)
  | RUnit.

(** Where a thread stands: about to take the mutex, asleep on a condition
    variable, awake and about to retake the mutex, or returned. *)
Inductive thread :=
  | Calling (c : call)
  | WaitFull (v : T) (timed : bool)
  | WokenFull (v : T) (timed : bool)
  | WaitEmpty
  | WokenEmpty
  | Returned (r : ret).

Record monitor := mkMonitor {
  mon_queue : SafeQueue T;
  mon_threads : gmap nat thread;
  mon_pushed : list T;   (** history: values accepted, oldest first *)
  mon_popped : list T    (** history: values handed out, oldest first *)
}.

Definition wakeFull (t : thread) : thread :=
  match t with WaitFull v b => WokenFull v b | _ => t end.

Definition wakeEmpty (t : thread) : thread :=
  match t with WaitEmpty => WokenEmpty | _ => t end.

(** [notify_one]: wakes some waiter when there is one. *)
Inductive notify_one_full (th : gmap nat thread) : gmap nat thread -> Prop :=
  | notify_full_none :
      (forall i v b, th !! i <> Some (WaitFull v b)) -> notify_one_full th th
  | notify_full_some i v b :
      th !! i = Some (WaitFull v b) -> notify_one_full th (<[i := WokenFull v b]> th).

Inductive notify_one_empty (th : gmap nat thread) : gmap nat thread -> Prop :=
  | notify_empty_none :
      (forall i, th !! i <> Some WaitEmpty) -> notify_one_empty th th
  | notify_empty_some i :
      th !! i = Some WaitEmpty -> notify_one_empty th (<[i := WokenEmpty]> th).

(** A thread that holds the mutex inside [push] or inside [pop]. *)
Definition runs_push (t : thread) (v : T) (timed : bool) : Prop :=
  t = Calling (CPush v timed) \/ t = WokenFull v timed.

Definition runs_pop (t : thread) : Prop := t = Calling CPop \/ t = WokenEmpty.

Inductive monitor_step : monitor -> monitor -> Prop :=
  | step_call q th pu po i c :
      (th !! i = None \/ exists r, th !! i = Some (Returned r)) ->
      monitor_step (mkMonitor q th pu po) (mkMonitor q (<[i := Calling c]> th) pu po)
  | step_push_wait q th pu po i t v timed :
      th !! i = Some t -> runs_push t v timed -> push_ready q = false ->
      monitor_step (mkMonitor q th pu po) (mkMonitor q (<[i := WaitFull v timed]> th) pu po)
  | step_push_timeout q th pu po i v :
      th !! i = Some (WokenFull v true) -> push_ready q = false ->
      monitor_step (mkMonitor q th pu po)
                   (mkMonitor q (<[i := Returned (RBool false)]> th) pu po)
  | step_push_refused q th pu po i t v timed :
      th !! i = Some t -> runs_push t v timed -> push_ready q = true ->
      (push_body v q).2 = false ->
      monitor_step (mkMonitor q th pu po)
                   (mkMonitor (push_body v q).1 (<[i := Returned (RBool false)]> th) pu po)
  | step_push_accepted q th th' pu po i t v timed :
      th !! i = Some t -> runs_push t v timed -> push_ready q = true ->
      (push_body v q).2 = true ->
      notify_one_empty (<[i := Returned (RBool true)]> th) th' ->
      monitor_step (mkMonitor q th pu po) (mkMonitor (push_body v q).1 th' (pu ++ [v]) po)
  | step_pop_wait q th pu po i t :
      th !! i = Some t -> runs_pop t -> pop_ready q = false ->
      monitor_step (mkMonitor q th pu po) (mkMonitor q (<[i := WaitEmpty]> th) pu po)
  | step_pop_stopped q th pu po i t :
      th !! i = Some t -> (runs_pop t /\ pop_ready q = true \/ t = Calling CTryPop) ->
      (try_pop q).2 = None ->
      monitor_step (mkMonitor q th pu po)
                   (mkMonitor (try_pop q).1 (<[i := Returned (RValue None)]> th) pu po)
  | step_pop_value q th th' pu po i t v :
      th !! i = Some t -> (runs_pop t /\ pop_ready q = true \/ t = Calling CTryPop) ->
      (try_pop q).2 = Some v ->
      notify_one_full (<[i := Returned (RValue (Some v))]> th) th' ->
      monitor_step (mkMonitor q th pu po) (mkMonitor (try_pop q).1 th' pu (po ++ [v]))
  | step_stop q th pu po i :
      th !! i = Some (Calling CStop) ->
      monitor_step (mkMonitor q th pu po)
        (mkMonitor (stop q)
           (<[i := Returned RUnit]> (wakeFull <$> (wakeEmpty <$> th))) pu po)
  | step_spurious q th pu po i t :
      th !! i = Some t ->
      monitor_step (mkMonitor q th pu po)
                   (mkMonitor q (<[i := wakeFull (wakeEmpty t)]> th) pu po).

Definition monitor_init (maxSize : Z) : monitor := mkMonitor (queue_new maxSize) ∅ [] [].

Definition monitor_reachable (maxSize : Z) (s : monitor) : Prop :=
  rtc monitor_step (monitor_init maxSize) s.

End monitor.
Arguments call : clear implicits.
Arguments ret : clear implicits.
Arguments thread : clear implicits.
Arguments monitor : clear implicits.

(** ** Counting threads *)

Section counting.
Context {A : Type} (p : A -> bool).

Definition count_threads (th : gmap nat A) : Z :=
  map_fold (fun _ x n => (Z.b2z (p x) + n)%Z) 0%Z th.

Lemma count_threads_nonneg th : (0 <= count_threads th)%Z.
Proof.
  unfold count_threads. apply (map_fold_weak_ind (fun n _ => (0 <= n)%Z)); [lia|].
  intros i x m n _ IH. destruct (p x); simpl; lia.
Qed.

Lemma count_threads_insert_delete i x th :
  count_threads (<[i := x]> th) = (Z.b2z (p x) + count_threads (delete i th))%Z.
Proof.
  unfold count_threads. rewrite <-insert_delete_eq, map_fold_insert_L; [done| |].
  - intros. lia.
  - apply lookup_delete_eq.
Qed.

Lemma count_threads_lookup i x th :
  th !! i = Some x -> count_threads th = (Z.b2z (p x) + count_threads (delete i th))%Z.
Proof. intros H. rewrite <-count_threads_insert_delete. by rewrite insert_id. Qed.

(** Replacing the state of one thread. *)
Lemma count_threads_update i x y th :
  th !! i = Some x ->
  (count_threads (<[i := y]> th) + Z.b2z (p x) = count_threads th + Z.b2z (p y))%Z.
Proof.
  intros H. rewrite count_threads_insert_delete, (count_threads_lookup i x th H). lia.
Qed.

Lemma count_threads_pos i x th : th !! i = Some x -> p x = true -> (0 < count_threads th)%Z.
Proof.
  intros H Hp. rewrite (count_threads_lookup i x th H), Hp.
  pose proof (count_threads_nonneg (delete i th)). simpl. lia.
Qed.

Lemma count_threads_exists th : (0 < count_threads th)%Z -> exists i x, th !! i = Some x /\ p x = true.
Proof.
  induction th as [|i x th Hi IH] using map_ind; [unfold count_threads; rewrite map_fold_empty; lia|].
  rewrite count_threads_insert_delete, delete_id by done.
  destruct (p x) eqn:E; simpl.
  - intros _. exists i, x. by rewrite lookup_insert_eq.
  - intros (j & y & Hj & Hy)%IH. exists j, y. split; [|done].
    rewrite lookup_insert_ne; [done|]. intros ->. by rewrite Hj in Hi.
Qed.

End counting.

(** ** The monitor invariant *)

Section invariant.
Context {T : Type}.
Implicit Types (th : gmap nat (thread T)) (s : monitor T).

Definition is_wokenFull (t : thread T) : bool := if t is WokenFull _ _ then true else false.
Definition is_wokenEmpty (t : thread T) : bool := if t is WokenEmpty then true else false.
Definition is_waitFull (t : thread T) : bool := if t is WaitFull _ _ then true else false.
Definition is_waitEmpty (t : thread T) : bool := if t is WaitEmpty then true else false.

Record monitor_inv (maxSize : Z) s : Prop := {
  inv_max : m_maxSize (mon_queue s) = maxSize;
  inv_capacity : (zlen (m_queue (mon_queue s)) <= maxSize)%Z;
  inv_fifo : mon_pushed s = mon_popped s ++ m_queue (mon_queue s);
  (** a thread asleep on the full condition: every free slot is already
      promised to an awake pusher *)
  inv_full : (0 < count_threads is_waitFull (mon_threads s))%Z ->
    m_stop (mon_queue s) = false /\
    (maxSize - zlen (m_queue (mon_queue s)) <= count_threads is_wokenFull (mon_threads s))%Z;
  inv_empty : (0 < count_threads is_waitEmpty (mon_threads s))%Z ->
    m_stop (mon_queue s) = false /\
    (zlen (m_queue (mon_queue s)) <= count_threads is_wokenEmpty (mon_threads s))%Z
}.

Lemma push_ready_false q :
  push_ready (T:=T) q = false <-> m_stop q = false /\ (m_maxSize q <= zlen (m_queue q))%Z.
Proof. unfold push_ready. rewrite orb_false_iff, Z.ltb_ge. tauto. Qed.

Lemma pop_ready_false q : pop_ready (T:=T) q = false <-> m_stop q = false /\ m_queue q = [].
Proof.
  unfold pop_ready. rewrite orb_false_iff, negb_false_iff, bool_decide_eq_true. tauto.
Qed.

(** Waking threads by name leaves no sleeper of that kind. *)
Lemma count_fmap_zero {A} (p : A -> bool) (f : A -> A) (th : gmap nat A) :
  (forall t, p (f t) = false) -> count_threads p (f <$> th) = 0%Z.
Proof.
  intros Hf. destruct (decide (0 < count_threads p (f <$> th))%Z) as [H|H].
  - apply count_threads_exists in H as (i & x & Hi & Hx).
    rewrite lookup_fmap in Hi. destruct (th !! i); simplify_eq/=. by rewrite Hf in Hx.
  - pose proof (count_threads_nonneg p (f <$> th)). lia.
Qed.

Lemma notify_full_counts th th' :
  notify_one_full th th' ->
  (th' = th /\ count_threads is_waitFull th = 0%Z) \/
  (count_threads is_waitFull th' = count_threads is_waitFull th - 1 /\
   count_threads is_wokenFull th' = count_threads is_wokenFull th + 1 /\
   count_threads is_waitEmpty th' = count_threads is_waitEmpty th /\
   count_threads is_wokenEmpty th' = count_threads is_wokenEmpty th)%Z.
Proof.
  destruct 1 as [Hno|i v b Hi].
  - left. split; [done|].
    destruct (decide (0 < count_threads is_waitFull th)%Z) as [H|H].
    + apply count_threads_exists in H as (i & [] & Hi & Hx); simplify_eq/=. by destruct (Hno i v timed).
    + pose proof (count_threads_nonneg is_waitFull th). lia.
  - right. pose proof (fun p => count_threads_update p _ _ (WokenFull v b) _ Hi) as C.
    pose proof (C is_waitFull). pose proof (C is_wokenFull).
    pose proof (C is_waitEmpty). pose proof (C is_wokenEmpty). simpl in *. lia.
Qed.

Lemma notify_empty_counts th th' :
  notify_one_empty th th' ->
  (th' = th /\ count_threads is_waitEmpty th = 0%Z) \/
  (count_threads is_waitEmpty th' = count_threads is_waitEmpty th - 1 /\
   count_threads is_wokenEmpty th' = count_threads is_wokenEmpty th + 1 /\
   count_threads is_waitFull th' = count_threads is_waitFull th /\
   count_threads is_wokenFull th' = count_threads is_wokenFull th)%Z.
Proof.
  destruct 1 as [Hno|i Hi].
  - left. split; [done|].
    destruct (decide (0 < count_threads is_waitEmpty th)%Z) as [H|H].
    + apply count_threads_exists in H as (i & [] & Hi & Hx); simplify_eq/=. by destruct (Hno i).
    + pose proof (count_threads_nonneg is_waitEmpty th). lia.
  - right. pose proof (fun p => count_threads_update p _ _ WokenEmpty _ Hi) as C.
    pose proof (C is_waitFull). pose proof (C is_wokenFull).
    pose proof (C is_waitEmpty). pose proof (C is_wokenEmpty). simpl in *. lia.
Qed.

(** The four counts after thread [i] goes from [t] to [t']. *)
Lemma counts_update th i t t' :
  th !! i = Some t ->
  (count_threads is_waitFull (<[i := t']> th) + Z.b2z (is_waitFull t) =
     count_threads is_waitFull th + Z.b2z (is_waitFull t') /\
   count_threads is_wokenFull (<[i := t']> th) + Z.b2z (is_wokenFull t) =
     count_threads is_wokenFull th + Z.b2z (is_wokenFull t') /\
   count_threads is_waitEmpty (<[i := t']> th) + Z.b2z (is_waitEmpty t) =
     count_threads is_waitEmpty th + Z.b2z (is_waitEmpty t') /\
   count_threads is_wokenEmpty (<[i := t']> th) + Z.b2z (is_wokenEmpty t) =
     count_threads is_wokenEmpty th + Z.b2z (is_wokenEmpty t'))%Z.
Proof. intros H. split_and!; by apply count_threads_update. Qed.

Lemma counts_call th i c :
  (th !! i = None \/ exists r, th !! i = Some (Returned r)) ->
  forall p, (forall c, p (Calling c) = false) -> (forall r, p (Returned r) = false) ->
  count_threads p (<[i := Calling c]> th) = count_threads p th.
Proof.
  intros [Hi|[r Hi]] p Hc Hr.
  - rewrite count_threads_insert_delete, delete_id, Hc by done. done.
  - pose proof (count_threads_update p _ _ (Calling c) _ Hi) as C. rewrite Hc, Hr in C.
    simpl in C. lia.
Qed.

Lemma runs_push_class t v b :
  runs_push t v b ->
  is_waitFull t = false /\ is_waitEmpty t = false /\ is_wokenEmpty t = false.
Proof. by intros [-> | ->]. Qed.

Lemma runs_pop_class (t : thread T) :
  runs_pop t -> is_waitFull t = false /\ is_waitEmpty t = false /\ is_wokenFull t = false.
Proof. by intros [-> | ->]. Qed.

Lemma runs_pop_or_try_class (q : SafeQueue T) (t : thread T) :
  (runs_pop t /\ pop_ready q = true \/ t = Calling CTryPop) ->
  is_waitFull t = false /\ is_waitEmpty t = false /\ is_wokenFull t = false.
Proof. intros [[H _]| ->]; [by apply runs_pop_class|done]. Qed.

Lemma b2z_bounds b : (0 <= Z.b2z b <= 1)%Z.
Proof. destruct b; simpl; lia. Qed.

(** Brings the class equations of the running thread into the counts. *)
Ltac use_class H :=
  let H1 := fresh in let H2 := fresh in let H3 := fresh in
  destruct H as (H1 & H2 & H3);
  rewrite ?H1, ?H2, ?H3 in *; clear H1 H2 H3.

Ltac use_counts H :=
  let C1 := fresh "C" in let C2 := fresh "C" in let C3 := fresh "C" in let C4 := fresh "C" in
  pose proof H as (C1 & C2 & C3 & C4); simpl in C1, C2, C3, C4.

Lemma step_preserves_push max q th pu po i t v timed :
  th !! i = Some t -> runs_push t v timed ->
  monitor_inv max (mkMonitor q th pu po) ->
  (push_ready q = false ->
   monitor_inv max (mkMonitor q (<[i := WaitFull v timed]> th) pu po) /\
   monitor_inv max (mkMonitor q (<[i := Returned (RBool false)]> th) pu po)) /\
  (push_ready q = true -> (push_body v q).2 = false ->
   monitor_inv max (mkMonitor (push_body v q).1 (<[i := Returned (RBool false)]> th) pu po)) /\
  (push_ready q = true -> (push_body v q).2 = true ->
   forall th', notify_one_empty (<[i := Returned (RBool true)]> th) th' ->
   monitor_inv max (mkMonitor (push_body v q).1 th' (pu ++ [v]) po)).
Proof.
  intros Hi Hrun [Hmax Hcap Hff Hf He]; simpl in *.
  pose proof (runs_push_class _ _ _ Hrun) as Hcl.
  pose proof (b2z_bounds (is_wokenFull t)) as Hb.
  pose proof (counts_update th i t (WaitFull v timed) Hi) as U1.
  pose proof (counts_update th i t (Returned (RBool false)) Hi) as U2.
  pose proof (counts_update th i t (Returned (RBool true)) Hi) as U3.
  use_class Hcl. use_counts U1. use_counts U2. use_counts U3. clear U1 U2 U3.
  pose proof (count_threads_nonneg is_wokenFull (<[i:=WaitFull v timed]> th)).
  pose proof (count_threads_nonneg is_wokenFull (<[i:=Returned (RBool false)]> th)).
  split_and!.
  - intros [Hs Hlen]%push_ready_false. split; split; simpl; try done; intros; split; try done; lia.
  - unfold push_body. destruct (m_stop q) eqn:Es; simpl; [|done]. intros _ _.
    split; simpl; try done; intros; exfalso; [destruct Hf|destruct He]; try lia; congruence.
  - unfold push_ready, push_body. destruct (m_stop q) eqn:Es; simpl; [done|].
    rewrite orb_false_r, Z.ltb_lt. intros Hroom _ th' Hn.
    apply notify_empty_counts in Hn.
    split; simpl; rewrite ?zlen_app; change (zlen [v]) with 1%Z; try done; try lia.
    + by rewrite Hff, (assoc_L (++)).
    + intros Hw. split; [done|]. destruct Hn as [[-> _]|(? & ? & ? & ?)]; lia.
    + intros Hw. split; [done|]. destruct Hn as [[-> Hz]|(? & ? & ? & ?)]; lia.
Qed.

Lemma step_preserves_pop max q th pu po i t :
  th !! i = Some t ->
  is_waitFull t = false /\ is_waitEmpty t = false /\ is_wokenFull t = false ->
  monitor_inv max (mkMonitor q th pu po) ->
  (pop_ready q = false -> monitor_inv max (mkMonitor q (<[i := WaitEmpty]> th) pu po)) /\
  ((try_pop q).2 = None ->
   monitor_inv max (mkMonitor (try_pop q).1 (<[i := Returned (RValue None)]> th) pu po)) /\
  (forall v th', (try_pop q).2 = Some v ->
   notify_one_full (<[i := Returned (RValue (Some v))]> th) th' ->
   monitor_inv max (mkMonitor (try_pop q).1 th' pu (po ++ [v]))).
Proof.
  intros Hi Hcl [Hmax Hcap Hff Hf He]; simpl in *.
  pose proof (b2z_bounds (is_wokenEmpty t)) as Hb.
  pose proof (counts_update th i t WaitEmpty Hi) as U1.
  pose proof (counts_update th i t (Returned (RValue None)) Hi) as U2.
  pose proof (fun v => counts_update th i t (Returned (RValue (Some v))) Hi) as U3.
  use_class Hcl. use_counts U1. use_counts U2. clear U1 U2.
  pose proof (count_threads_nonneg is_wokenEmpty (<[i:=WaitEmpty]> th)).
  pose proof (count_threads_nonneg is_wokenEmpty (<[i:=Returned (RValue None)]> th)).
  split_and!.
  - intros [Hs Hlen]%pop_ready_false. rewrite Hlen in *. unfold zlen in *; simpl in *.
    split; simpl; rewrite ?Hlen; try done; intros; split; try done; unfold zlen; simpl; lia.
  - unfold try_pop. destruct (m_queue q) eqn:Eq; simpl; [|done]. intros _.
    rewrite ?Eq in Hcap, Hff, Hf, He. unfold zlen in *; simpl in *.
    split; simpl; rewrite ?Eq; unfold zlen; simpl; try done; intros; split;
      [apply Hf| |apply He|]; lia.
  - intros v th'. unfold try_pop. destruct (m_queue q) as [|v0 rest] eqn:Eq; simpl; [done|].
    intros [= ->] Hn. apply notify_full_counts in Hn.
    specialize (U3 v). use_counts U3.
    assert (Hz : zlen (v :: rest) = (1 + zlen rest)%Z) by (unfold zlen; simpl; lia).
    rewrite ?Eq in Hcap, Hff, Hf, He. rewrite Hz in Hcap, Hf, He.
    split; simpl; try done; try lia.
    + by rewrite Hff, <-(assoc_L (++)).
    + intros Hw. destruct Hn as [[-> Hn]|(? & ? & ? & ?)]; [lia|]. split; [apply Hf|]; lia.
    + intros Hw. destruct Hn as [[-> Hn]|(? & ? & ? & ?)]; split; try (apply He); lia.
Qed.

Lemma spurious_counts th i t :
  th !! i = Some t ->
  let th' := <[i := wakeFull (wakeEmpty t)]> th in
  (count_threads is_waitFull th' <= count_threads is_waitFull th /\
   count_threads is_wokenFull th <= count_threads is_wokenFull th' /\
   count_threads is_waitEmpty th' <= count_threads is_waitEmpty th /\
   count_threads is_wokenEmpty th <= count_threads is_wokenEmpty th')%Z.
Proof.
  intros Hi. pose proof (counts_update th i t (wakeFull (wakeEmpty t)) Hi) as (C1 & C2 & C3 & C4).
  destruct t; simpl in *; lia.
Qed.

Lemma stop_counts th i :
  count_threads is_waitFull (<[i := Returned RUnit]> (wakeFull <$> (wakeEmpty <$> th))) = 0%Z /\
  count_threads is_waitEmpty (<[i := Returned RUnit]> (wakeFull <$> (wakeEmpty <$> th))) = 0%Z.
Proof.
  rewrite !count_threads_insert_delete, <-!fmap_delete. split.
  - rewrite count_fmap_zero; [done|]. by intros [].
  - rewrite <-map_fmap_compose, count_fmap_zero; [done|]. by intros [].
Qed.

Lemma monitor_step_inv max s s' : monitor_inv max s -> monitor_step s s' -> monitor_inv max s'.
Proof.
  intros Hinv Hstep. destruct Hstep.
  - destruct Hinv as [H1 H2 H3 H4 H5]; simpl in *.
    split; simpl; try done; rewrite !(counts_call th i c) by done; done.
  - by eapply step_preserves_push.
  - eapply (step_preserves_push _ _ _ _ _ _ _ v true); [done|by right|done|done].
  - by eapply (step_preserves_push max q th).
  - eapply (step_preserves_push max q th); eauto.
  - eapply (step_preserves_pop max q th); eauto using runs_pop_class.
  - eapply (step_preserves_pop max q th); eauto using runs_pop_or_try_class.
  - eapply (step_preserves_pop max q th); eauto using runs_pop_or_try_class.
  - destruct Hinv as [H1 H2 H3 H4 H5]; simpl in *. destruct (stop_counts th i) as [Z1 Z2].
    split; simpl; try done; lia.
  - destruct Hinv as [H1 H2 H3 H4 H5]; simpl in *.
    destruct (spurious_counts th i t H) as (C1 & C2 & C3 & C4).
    split; simpl; try done; intros Hw; [destruct H4|destruct H5]; try split; try done; lia.
Qed.

Lemma monitor_reachable_inv max s :
  (0 <= max)%Z -> monitor_reachable max s -> monitor_inv max s.
Proof.
  intros Hmax Hs. unfold monitor_reachable in Hs.
  assert (H0 : monitor_inv max (monitor_init (T:=T) max)).
  { split; simpl; try done; unfold count_threads; rewrite map_fold_empty; lia. }
  revert H0. induction Hs; eauto using monitor_step_inv.
Qed.

End invariant.

(** ** Theorems *)

(** C14. FIFO, exactly once, bounded: in every interleaving of pushes, timed
    pushes, pops, try_pops and stop, with spurious wakeups and timeouts, the
    queue never exceeds its capacity and the values accepted by push are, in
    order, exactly the values handed out followed by the values still queued. *)
Theorem safequeue_fifo {T} max (s : monitor T) :
  (0 <= max)%Z -> monitor_reachable max s ->
  mon_pushed s = mon_popped s ++ m_queue (mon_queue s) /\
  (zlen (m_queue (mon_queue s)) <= max)%Z.
Proof. intros Hm Hs. by destruct (monitor_reachable_inv max s Hm Hs). Qed.

(** C13. No lost wakeup: a thread asleep in push (in pop) is asleep on a queue
    that is not stopped, and if that queue has room (an element) then another
    thread already woken in push (in pop) is on its way to it.  In
    particular nobody sleeps on a stopped queue. *)
Theorem safequeue_no_lost_wakeup {T} max (s : monitor T) :
  (0 <= max)%Z -> monitor_reachable max s ->
  (forall i v b, mon_threads s !! i = Some (WaitFull v b) ->
     m_stop (mon_queue s) = false /\
     (push_ready (mon_queue s) = true ->
      exists j v' b', mon_threads s !! j = Some (WokenFull v' b'))) /\
  (forall i, mon_threads s !! i = Some WaitEmpty ->
     m_stop (mon_queue s) = false /\
     (pop_ready (mon_queue s) = true -> exists j, mon_threads s !! j = Some WokenEmpty)).
Proof.
  intros Hm Hs. destruct (monitor_reachable_inv max s Hm Hs) as [H1 H2 H3 H4 H5]. split.
  - intros i v b Hi. destruct H4 as [Hst Hle].
    { by eapply (count_threads_pos is_waitFull). }
    split; [done|]. intros Hr. unfold push_ready in Hr. rewrite Hst, orb_false_r, Z.ltb_lt in Hr.
    destruct (count_threads_exists is_wokenFull (mon_threads s)) as (j & [] & Hj & ?);
      [lia|..]; simplify_eq/=; eauto.
  - intros i Hi. destruct H5 as [Hst Hle].
    { by eapply (count_threads_pos is_waitEmpty). }
    split; [done|]. intros Hr.
    assert (Hz : (0 < zlen (m_queue (mon_queue s)))%Z).
    { destruct (decide (m_queue (mon_queue s) = [])) as [E|E].
      - exfalso. assert (pop_ready (mon_queue s) = false) by (by apply pop_ready_false).
        congruence.
      - unfold zlen. destruct (m_queue (mon_queue s)); [done|]. simpl. lia. }
    destruct (count_threads_exists is_wokenEmpty (mon_threads s)) as (j & [] & Hj & ?);
      [lia|..]; simplify_eq/=; eauto.
Qed.

(** After stop, no push is accepted any more, and the elements queued
    before are still handed out in order before pop reports the end. *)
Theorem safequeue_stop_drains {T} (q : SafeQueue T) v :
  push v (stop q) = Some (stop q, false) /\
  push_for v (stop q) = (stop q, false) /\
  (forall x rest, m_queue q = x :: rest ->
     pop (stop q) = Some (stop (mkQueue rest (m_stop q) (m_maxSize q)), Some x)) /\
  (m_queue q = [] -> pop (stop q) = Some (stop q, None)).
Proof.
  unfold push, push_for, pop, push_ready, push_body, pop_ready, try_pop, stop; simpl.
  rewrite !orb_true_r. split_and!; try done.
  - intros x rest ->. done.
  - intros ->. done.
Qed.

(** A run that fills a queue of capacity one, blocks a second pusher, pops,
    and wakes the pusher. *)
Definition blocked_pusher : monitor nat :=
  mkMonitor (mkQueue [7] false 1) {[1 := WaitFull 8 false; 2 := Calling CPop;
    0 := Returned (RBool true)]} [7] [].

Lemma blocked_pusher_reachable : monitor_reachable 1 blocked_pusher.
Proof.
  unfold monitor_reachable, monitor_init, blocked_pusher.
  eapply rtc_l; [by apply (step_call _ _ _ _ 0 (CPush 7 false)); left|].
  eapply rtc_l.
  { eapply (step_push_accepted _ _ _ _ _ 0 _ 7 false); [reflexivity|by left|reflexivity|reflexivity|].
    apply notify_empty_none. intros i. destruct (decide (i = 0)) as [->|]; by simplify_map_eq. }
  eapply rtc_l; [by apply (step_call _ _ _ _ 1 (CPush 8 false)); left|].
  eapply rtc_l; [by eapply (step_push_wait _ _ _ _ 1 _ 8 false); [reflexivity|left|]|].
  eapply rtc_l; [by apply (step_call _ _ _ _ 2 CPop); left|].
  apply reflexive_eq. vm_compute. reflexivity.
Qed.

Lemma safequeue_fifo_witness : (zlen (m_queue (mon_queue blocked_pusher)) <= 1)%Z.
Proof. apply (safequeue_fifo 1 blocked_pusher); [lia|apply blocked_pusher_reachable]. Defined.

Lemma safequeue_no_lost_wakeup_witness : m_stop (mon_queue blocked_pusher) = false.
Proof.
  apply (proj1 (safequeue_no_lost_wakeup 1 blocked_pusher ltac:(lia) blocked_pusher_reachable)
           1 8 false).
  reflexivity.
Defined.
