(* ===== verification/SubscriptionRegistry.v ===== *)
(** * The subscription registry ([server/subscriptionregistry.h])

    The bidirectional client / topic mapping of the broker.  The two
    [unordered_map]s are [gmap]s, the [std::set] of topics a [gset], the
    [std::vector] of subscribers a list kept in the order the code leaves it
    in (a removal moves the last subscriber into the hole).

    The contract is a finite relation between clients and topics; [reg_step]
    refines [spec_step], and the two indices never drift apart. *)

From S2P Require Import Prelude.

Record SubscriptionRegistry := mkRegistry {
  m_clientTopics : gmap string (gset string);
  m_topicSubscribers : gmap string (list string)
}.

(** ** Operations *)

Definition registry_empty : SubscriptionRegistry := mkRegistry ∅ ∅.

(** [operator[]] default-constructs the missing entry; [insert(..).second]
    says whether the topic was new. *)
Definition subscribe (clientId topic : string) (r : SubscriptionRegistry) :
    SubscriptionRegistry * bool :=
  let topics := default ∅ (m_clientTopics r !! clientId) in
  let r1 := mkRegistry (<[clientId := {[topic]} ∪ topics]> (m_clientTopics r))
                       (m_topicSubscribers r) in
  if decide (topic ∈ topics) then (r1, false)
  else
    let subs := default [] (m_topicSubscribers r1 !! topic) in
    (mkRegistry (m_clientTopics r1)
                (<[topic := subs ++ [clientId]]> (m_topicSubscribers r1)), true).

Definition dropSubscriber (topic clientId : string) (r : SubscriptionRegistry) :
    SubscriptionRegistry :=
  match m_topicSubscribers r !! topic with
  | None => r
  | Some subs =>
      let subs' := erase_swap clientId subs in
      mkRegistry (m_clientTopics r)
        (if decide (subs' = []) then delete topic (m_topicSubscribers r)
         else <[topic := subs']> (m_topicSubscribers r))
  end.

Definition unsubscribe (clientId topic : string) (r : SubscriptionRegistry) :
    SubscriptionRegistry * bool :=
  match m_clientTopics r !! clientId with
  | None => (r, false)
  | Some topics =>
      if decide (topic ∈ topics) then
        let topics' := topics ∖ {[topic]} in
        let ct := if decide (topics' = ∅) then delete clientId (m_clientTopics r)
                  else <[clientId := topics']> (m_clientTopics r) in
        (dropSubscriber topic clientId (mkRegistry ct (m_topicSubscribers r)), true)
      else (r, false)
  end.

Definition removeClient (clientId : string) (r : SubscriptionRegistry) : SubscriptionRegistry :=
  match m_clientTopics r !! clientId with
  | None => r
  | Some topics =>
      let r' := foldl (fun r topic => dropSubscriber topic clientId r) r (std_set_iter topics) in
      mkRegistry (delete clientId (m_clientTopics r')) (m_topicSubscribers r')
  end.

(** [nullptr] is [None]. *)
Definition subscribersOf (topic : string) (r : SubscriptionRegistry) : option (list string) :=
  m_topicSubscribers r !! topic.

Definition subscriptionsOf (clientId : string) (r : SubscriptionRegistry) : option (gset string) :=
  m_clientTopics r !! clientId.

(** ** Invariant *)

Definition topics_of (r : SubscriptionRegistry) (c : string) : gset string :=
  default ∅ (m_clientTopics r !! c).

Definition subs_of (r : SubscriptionRegistry) (t : string) : list string :=
  default [] (m_topicSubscribers r !! t).

(** The two indices agree, no subscriber is listed twice, and no empty entry
    is kept in either index. *)
Record registry_wf (r : SubscriptionRegistry) : Prop := {
  wf_agree : forall c t, t ∈ topics_of r c <-> c ∈ subs_of r t;
  wf_nodup : forall t, NoDup (subs_of r t);
  wf_topics_nonempty : forall c s, m_clientTopics r !! c = Some s -> s <> ∅;
  wf_subs_nonempty : forall t l, m_topicSubscribers r !! t = Some l -> l <> []
}.

(** ** The contract: a relation between clients and topics *)

Inductive reg_op :=
  | OpSubscribe (clientId topic : string)
  | OpUnsubscribe (clientId topic : string)
  | OpRemoveClient (clientId : string).

Definition reg_step (op : reg_op) (r : SubscriptionRegistry) : SubscriptionRegistry * bool :=
  match op with
  | OpSubscribe c t => subscribe c t r
  | OpUnsubscribe c t => unsubscribe c t r
  | OpRemoveClient c => (removeClient c r, true)
  end.

Definition spec_step (op : reg_op) (R : gset (string * string)) : gset (string * string) * bool :=
  match op with
  | OpSubscribe c t => ({[(c, t)]} ∪ R, bool_decide ((c, t) ∉ R))
  | OpUnsubscribe c t => (R ∖ {[(c, t)]}, bool_decide ((c, t) ∈ R))
  | OpRemoveClient c => (filter (fun p => p.1 <> c) R, true)
  end.

Fixpoint reg_run (ops : list reg_op) (r : SubscriptionRegistry) : SubscriptionRegistry * list bool :=
  match ops with
  | [] => (r, [])
  | op :: ops => let '(r1, b) := reg_step op r in
                 let '(r2, bs) := reg_run ops r1 in (r2, b :: bs)
  end.

Fixpoint spec_run (ops : list reg_op) (R : gset (string * string)) :
    gset (string * string) * list bool :=
  match ops with
  | [] => (R, [])
  | op :: ops => let '(R1, b) := spec_step op R in
                 let '(R2, bs) := spec_run ops R1 in (R2, b :: bs)
  end.

(** The registry represents the relation. *)
Definition registry_repr (r : SubscriptionRegistry) (R : gset (string * string)) : Prop :=
  registry_wf r /\ forall c t, (c, t) ∈ R <-> t ∈ topics_of r c.

(** ** Lemmas on the two indices *)

Lemma registry_empty_repr : registry_repr registry_empty ∅.
Proof.
  split; [split|].
  - intros c t. unfold topics_of, subs_of, registry_empty; simpl. rewrite !lookup_empty; simpl.
    set_solver.
  - intros t. unfold subs_of, registry_empty; simpl. rewrite lookup_empty. constructor.
  - intros c s H. unfold registry_empty in H; simpl in H. by rewrite lookup_empty in H.
  - intros t l H. unfold registry_empty in H; simpl in H. by rewrite lookup_empty in H.
  - intros c t. unfold topics_of, registry_empty; simpl. rewrite lookup_empty. set_solver.
Qed.

Lemma dropSubscriber_clientTopics topic c r :
  m_clientTopics (dropSubscriber topic c r) = m_clientTopics r.
Proof. unfold dropSubscriber. by destruct (m_topicSubscribers r !! topic). Qed.

(** Only the vector of [topic] changes, and it loses one occurrence of [c]. *)
Lemma dropSubscriber_subs_of topic c r t :
  subs_of (dropSubscriber topic c r) t =
  if decide (t = topic) then erase_swap c (subs_of r topic) else subs_of r t.
Proof.
  unfold dropSubscriber, subs_of.
  destruct (m_topicSubscribers r !! topic) as [subs|] eqn:E; simpl.
  - repeat case_decide; subst; simplify_map_eq; try done; congruence.
  - case_decide; subst; [rewrite E|]; done.
Qed.

Lemma dropSubscriber_nonempty topic c r :
  (forall t l, m_topicSubscribers r !! t = Some l -> l <> []) ->
  forall t l, m_topicSubscribers (dropSubscriber topic c r) !! t = Some l -> l <> [].
Proof.
  intros Hr t l. unfold dropSubscriber.
  destruct (m_topicSubscribers r !! topic) as [subs|] eqn:E; [|apply Hr]; simpl.
  case_decide; destruct (decide (t = topic)) as [->|]; simplify_map_eq; eauto.
  by intros [= <-].
Qed.

Lemma elem_of_erase_swap x y l : NoDup l -> y ∈ erase_swap x l <-> y ∈ l /\ y <> x.
Proof.
  intros Hl. destruct (decide (x ∈ l)) as [Hx|Hx].
  - pose proof (erase_swap_perm x l Hx) as HP. rewrite <-HP in Hl.
    apply NoDup_cons in Hl as [Hn _].
    assert (y ∈ l <-> y = x \/ y ∈ erase_swap x l) as -> by (by rewrite <-HP, elem_of_cons at 1).
    naive_solver.
  - rewrite erase_swap_notin by done. naive_solver.
Qed.

Lemma NoDup_erase_swap x l : NoDup l -> NoDup (erase_swap x l).
Proof.
  intros Hl. destruct (decide (x ∈ l)) as [Hx|Hx].
  - rewrite <-(erase_swap_perm x l Hx) in Hl. by apply NoDup_cons in Hl as [_ ?].
  - by rewrite erase_swap_notin.
Qed.

(** What the loop of [removeClient] does to the topic index. *)
Lemma drop_loop_spec c ts r :
  NoDup ts ->
  let r' := foldl (fun r topic => dropSubscriber topic c r) r ts in
  m_clientTopics r' = m_clientTopics r /\
  (forall t, subs_of r' t = if decide (t ∈ ts) then erase_swap c (subs_of r t) else subs_of r t) /\
  ((forall t l, m_topicSubscribers r !! t = Some l -> l <> []) ->
   forall t l, m_topicSubscribers r' !! t = Some l -> l <> []).
Proof.
  revert r. induction ts as [|t0 ts IH]; intros r Hts; simpl.
  { split_and!; auto. }
  apply NoDup_cons in Hts as [Hn Hts].
  destruct (IH (dropSubscriber t0 c r) Hts) as (H1 & H2 & H3).
  split_and!.
  - by rewrite H1, dropSubscriber_clientTopics.
  - intros t. rewrite H2, dropSubscriber_subs_of.
    repeat case_decide; subst; set_solver.
  - intros Hr. apply H3. by apply dropSubscriber_nonempty.
Qed.

Lemma topics_of_insert r c s ts c' :
  topics_of (mkRegistry (<[c := s]> (m_clientTopics r)) ts) c' =
  if decide (c' = c) then s else topics_of r c'.
Proof. unfold topics_of; simpl. case_decide; subst; by simplify_map_eq. Qed.

Lemma topics_of_delete r c ts c' :
  topics_of (mkRegistry (delete c (m_clientTopics r)) ts) c' =
  if decide (c' = c) then ∅ else topics_of r c'.
Proof. unfold topics_of; simpl. case_decide; subst; by simplify_map_eq. Qed.

(** ** Each operation refines its contract *)

Lemma subscribe_refines c t r R :
  registry_repr r R ->
  registry_repr (subscribe c t r).1 ({[(c, t)]} ∪ R) /\
  (subscribe c t r).2 = bool_decide ((c, t) ∉ R).
Proof.
  intros [[Ha Hn Hc Hs] HR]. unfold subscribe. fold (topics_of r c).
  assert (Hb : bool_decide ((c, t) ∉ R) = bool_decide (t ∉ topics_of r c)).
  { apply bool_decide_ext. by rewrite HR. }
  rewrite Hb. clear Hb. destruct (decide (t ∈ topics_of r c)) as [Ht|Ht]; simpl.
  - split; [|symmetry; apply bool_decide_eq_false_2; tauto].
    replace ({[t]} ∪ topics_of r c) with (topics_of r c) by set_solver.
    assert (Hsame : forall c', topics_of (mkRegistry (<[c:=topics_of r c]> (m_clientTopics r))
              (m_topicSubscribers r)) c' = topics_of r c').
    { intros c'. rewrite topics_of_insert. by case_decide; subst. }
    split; [split|].
    + intros c' t'. rewrite Hsame. apply Ha.
    + apply Hn.
    + intros c' s'. simpl. destruct (decide (c' = c)) as [->|]; simplify_map_eq; [|apply Hc].
      set_solver.
    + apply Hs.
    + intros c' t'. rewrite Hsame, elem_of_union, elem_of_singleton, <-HR.
      split; [|tauto]. intros [[= -> ->]|]; [by apply HR|done].
  - split; [|symmetry; by apply bool_decide_eq_true_2]. fold (subs_of r t).
    assert (Hc' : c ∉ subs_of r t) by (by rewrite <-Ha).
    split; [split|]; unfold subs_of; simpl.
    + intros c' t'. rewrite topics_of_insert.
      destruct (decide (t' = t)) as [->|Hne]; simplify_map_eq.
      * fold (subs_of r t). rewrite elem_of_app, list_elem_of_singleton, <-Ha.
        case_decide; subst; set_solver.
      * fold (subs_of r t'). rewrite <-Ha. case_decide; subst; set_solver.
    + intros t'. destruct (decide (t' = t)) as [->|Hne]; simplify_map_eq; [|apply Hn].
      fold (subs_of r t). apply NoDup_app. split_and!; [apply Hn| |apply NoDup_singleton].
      intros x Hx ->%list_elem_of_singleton. done.
    + intros c' s'. destruct (decide (c' = c)) as [->|]; simplify_map_eq; [|apply Hc].
      set_solver.
    + intros t' l'. destruct (decide (t' = t)) as [->|]; simplify_map_eq; [|apply Hs].
      intros [= <-] [_ ?]%app_nil. done.
    + intros c' t'. rewrite topics_of_insert, elem_of_union, elem_of_singleton, HR.
      case_decide; subst; set_solver.
Qed.

(** Dropping a client's topics from the client index. *)
Lemma topics_of_shrink r c s ts c' :
  topics_of (mkRegistry (if decide (s = ∅) then delete c (m_clientTopics r)
                         else <[c := s]> (m_clientTopics r)) ts) c' =
  if decide (c' = c) then s else topics_of r c'.
Proof.
  destruct (decide (s = ∅)) as [->|]; [apply topics_of_delete|apply topics_of_insert].
Qed.

Lemma topics_of_drop topic c r c' : topics_of (dropSubscriber topic c r) c' = topics_of r c'.
Proof. unfold topics_of. by rewrite dropSubscriber_clientTopics. Qed.

Lemma unsubscribe_refines c t r R :
  registry_repr r R ->
  registry_repr (unsubscribe c t r).1 (R ∖ {[(c, t)]}) /\
  (unsubscribe c t r).2 = bool_decide ((c, t) ∈ R).
Proof.
  intros [[Ha Hn Hc Hs] HR]. unfold unsubscribe.
  assert (Hno : t ∉ topics_of r c ->
     registry_repr r (R ∖ {[(c, t)]}) /\ false = bool_decide ((c, t) ∈ R)).
  { intros Ht. rewrite <-HR in Ht. split; [split; [done|]|symmetry; by apply bool_decide_eq_false_2].
    intros c' t'. rewrite <-HR. set_solver. }
  destruct (m_clientTopics r !! c) as [topics|] eqn:E.
  2: { apply Hno. unfold topics_of. rewrite E. set_solver. }
  assert (Et : topics_of r c = topics) by (unfold topics_of; by rewrite E).
  destruct (decide (t ∈ topics)) as [Ht|Ht]; [|apply Hno; by rewrite Et]. clear Hno. simpl.
  split; [|symmetry; apply bool_decide_eq_true_2, HR; by rewrite Et].
  split; [split|].
  - intros c' t'. rewrite topics_of_drop, topics_of_shrink, dropSubscriber_subs_of.
    specialize (Ha c' t'). unfold subs_of; simpl; fold (subs_of r t') (subs_of r t).
    case_decide; case_decide; subst; rewrite ?elem_of_erase_swap by apply Hn; set_solver.
  - intros t'. rewrite dropSubscriber_subs_of. unfold subs_of; simpl.
    case_decide; [apply NoDup_erase_swap|]; apply Hn.
  - intros c' s'. rewrite dropSubscriber_clientTopics. simpl.
    case_decide; destruct (decide (c' = c)) as [->|]; simplify_map_eq; eauto.
    by intros [= <-].
  - by apply dropSubscriber_nonempty.
  - intros c' t'. rewrite topics_of_drop, topics_of_shrink, elem_of_difference, HR.
    case_decide; subst; set_solver.
Qed.

Lemma removeClient_refines c r R :
  registry_repr r R ->
  registry_repr (removeClient c r) (filter (fun p => p.1 <> c) R).
Proof.
  intros [[Ha Hn Hc Hs] HR]. unfold removeClient.
  destruct (m_clientTopics r !! c) as [topics|] eqn:E.
  2: { split; [done|]. intros c' t'. rewrite elem_of_filter, HR; simpl. split; [tauto|].
       intros H. split; [intros ->|done]. revert H. unfold topics_of. rewrite E. set_solver. }
  assert (Et : topics_of r c = topics) by (unfold topics_of; by rewrite E).
  destruct (drop_loop_spec c (std_set_iter topics) r (NoDup_std_set_iter _)) as (H1 & H2 & H3).
  set (r' := foldl _ _ _) in *. rewrite H1.
  assert (Hsub : forall t', subs_of (mkRegistry (delete c (m_clientTopics r))
     (m_topicSubscribers r')) t' = erase_swap c (subs_of r t')).
  { intros t'. change (subs_of r' t' = erase_swap c (subs_of r t')). rewrite H2.
    case_decide as Hd; [done|]. rewrite elem_of_std_set_iter, <-Et, Ha in Hd.
    by rewrite erase_swap_notin. }
  split; [split|].
  - intros c' t'. rewrite Hsub, elem_of_erase_swap, topics_of_delete, <-Ha by apply Hn.
    case_decide; set_solver.
  - intros t'. rewrite Hsub. apply NoDup_erase_swap, Hn.
  - intros c' s'. simpl. destruct (decide (c' = c)) as [->|]; simplify_map_eq; eauto.
  - simpl. by apply H3.
  - intros c' t'. rewrite elem_of_filter, topics_of_delete, HR. simpl.
    case_decide; subst; set_solver.
Qed.

Lemma reg_step_refines op r R :
  registry_repr r R ->
  registry_repr (reg_step op r).1 (spec_step op R).1 /\ (reg_step op r).2 = (spec_step op R).2.
Proof.
  destruct op; simpl; intros; [by apply subscribe_refines|by apply unsubscribe_refines|].
  split; [by apply removeClient_refines|done].
Qed.

Lemma reg_run_refines ops r R :
  registry_repr r R ->
  registry_repr (reg_run ops r).1 (spec_run ops R).1 /\ (reg_run ops r).2 = (spec_run ops R).2.
Proof.
  revert r R. induction ops as [|op ops IH]; intros r R HR; simpl; [done|].
  destruct (reg_step_refines op r R HR) as [H1 H2].
  destruct (reg_step op r) as [r1 b], (spec_step op R) as [R1 b']; simpl in *; subst.
  destruct (IH r1 R1 H1) as [H3 H4].
  destruct (reg_run ops r1), (spec_run ops R1); simpl in *; by subst.
Qed.

Lemma registry_repr_exists r : registry_wf r -> exists R, registry_repr r R.
Proof.
  intros Hr.
  exists (list_to_set (mjoin ((fun p => (fun t => (p.1, t)) <$> elements p.2) <$>
            map_to_list (m_clientTopics r)))).
  split; [done|]. intros c t.
  rewrite elem_of_list_to_set, list_elem_of_join. unfold topics_of. split.
  - intros (l & Hin & Hl). apply list_elem_of_fmap in Hl as ([c' s] & -> & Hs); simpl in *.
    apply list_elem_of_fmap in Hin as (t' & [= -> ->] & Ht').
    apply elem_of_map_to_list in Hs. rewrite Hs. by apply elem_of_elements in Ht'.
  - destruct (m_clientTopics r !! c) as [s|] eqn:E; simpl; [|set_solver]. intros Ht.
    exists ((fun t => (c, t)) <$> elements s). split.
    + apply list_elem_of_fmap. exists t. by rewrite elem_of_elements.
    + apply list_elem_of_fmap. exists (c, s). by rewrite elem_of_map_to_list.
Qed.

Lemma subscribe_wf c t r : registry_wf r -> registry_wf (subscribe c t r).1.
Proof. intros [R HR]%registry_repr_exists. by apply (subscribe_refines c t r R). Qed.

Lemma unsubscribe_wf c t r : registry_wf r -> registry_wf (unsubscribe c t r).1.
Proof. intros [R HR]%registry_repr_exists. by apply (unsubscribe_refines c t r R). Qed.

Lemma removeClient_wf c r : registry_wf r -> registry_wf (removeClient c r).
Proof. intros [R HR]%registry_repr_exists. by apply (removeClient_refines c r R). Qed.

Lemma elem_of_subs_of_subscribe c t r c' t' :
  registry_wf r ->
  c' ∈ subs_of (subscribe c t r).1 t' <-> (c' = c /\ t' = t) \/ c' ∈ subs_of r t'.
Proof.
  intros Hr. destruct (registry_repr_exists r Hr) as [R HR].
  destruct (subscribe_refines c t r R HR) as [[Hw H] _].
  rewrite <-(wf_agree _ Hw), <-H, <-(wf_agree _ Hr). rewrite <-(proj2 HR). set_solver.
Qed.

Lemma elem_of_subs_of_unsubscribe c t r c' t' :
  registry_wf r ->
  c' ∈ subs_of (unsubscribe c t r).1 t' <-> ~ (c' = c /\ t' = t) /\ c' ∈ subs_of r t'.
Proof.
  intros Hr. destruct (registry_repr_exists r Hr) as [R HR].
  destruct (unsubscribe_refines c t r R HR) as [[Hw H] _].
  rewrite <-(wf_agree _ Hw), <-H, <-(wf_agree _ Hr). rewrite <-(proj2 HR). set_solver.
Qed.

Lemma elem_of_subs_of_removeClient c r c' t' :
  registry_wf r ->
  c' ∈ subs_of (removeClient c r) t' <-> c' <> c /\ c' ∈ subs_of r t'.
Proof.
  intros Hr. destruct (registry_repr_exists r Hr) as [R HR].
  destruct (removeClient_refines c r R HR) as [Hw H].
  rewrite <-(wf_agree _ Hw), <-H, <-(wf_agree _ Hr). rewrite <-(proj2 HR).
  by rewrite elem_of_filter.
Qed.

Lemma subs_of_subscribersOf r t l : subscribersOf t r = Some l -> subs_of r t = l.
Proof. unfold subscribersOf, subs_of. by intros ->. Qed.

#[export] Hint Resolve subscribe_wf unsubscribe_wf removeClient_wf : wisp.

(** ** Theorems *)

(** C12. Refinement: any sequence of registry operations, started on the empty
    registry, behaves as the same sequence on a plain finite relation between
    clients and topics: every call returns the same boolean, the final indices
    represent the final relation, and they satisfy the registry invariant. *)
Theorem registry_refines_relation ops :
  registry_repr (reg_run ops registry_empty).1 (spec_run ops ∅).1 /\
  (reg_run ops registry_empty).2 = (spec_run ops ∅).2.
Proof. apply reg_run_refines, registry_empty_repr. Qed.

(** Removing a client erases every trace of it from both indices and
    leaves the subscriptions of every other client as they were. *)
Theorem removeClient_no_trace c r :
  registry_wf r ->
  subscriptionsOf c (removeClient c r) = None /\
  (forall t l, subscribersOf t (removeClient c r) = Some l -> c ∉ l) /\
  (forall c', c' <> c -> topics_of (removeClient c r) c' = topics_of r c').
Proof.
  intros Hr. pose proof (removeClient_wf c r Hr) as Hw. split_and!.
  - unfold subscriptionsOf, removeClient.
    destruct (m_clientTopics r !! c) eqn:E; [simpl; apply lookup_delete_eq|done].
  - intros t l Hl%subs_of_subscribersOf Hin. rewrite <-Hl in Hin.
    by apply elem_of_subs_of_removeClient in Hin as [? _].
  - intros c' Hne. apply set_eq. intros t. rewrite (wf_agree _ Hw), (wf_agree _ Hr).
    rewrite elem_of_subs_of_removeClient by done. tauto.
Qed.

Definition two_client_registry : SubscriptionRegistry :=
  (reg_run [OpSubscribe "a" "t"; OpSubscribe "b" "t"; OpSubscribe "a" "u"] registry_empty).1.

Lemma removeClient_no_trace_witness :
  subscriptionsOf "a" (removeClient "a" two_client_registry) = None /\
  subscribersOf "t" (removeClient "a" two_client_registry) = Some ["b"].
Proof.
  split; [|reflexivity].
  apply (removeClient_no_trace "a" two_client_registry).
  apply (reg_run_refines _ _ ∅), registry_empty_repr.
Defined.
