(* ===== verification/MessageHeader.v ===== *)
(** * The routing header ([common/generated/broker.pb.{h,cc}], class [MessageHeader])

    The generated message class, with its has-bits word, its fields and its
    unknown fields.  The protobuf runtime the generated code calls (the
    encoders of single fields, the size functions, the unknown-field set, the
    table-driven parser) is not part of the repository: it is the interface
    [ProtoRuntime] / [HeaderParser], whose laws state the documented behaviour
    of that library. *)

From S2P Require Import Prelude.
#[local] Open Scope Z_scope.

(** ** The runtime the generated code calls *)

Class ProtoRuntime := {
  UnknownFieldSet : Type;
  ufs_default_instance : UnknownFieldSet;
  ufs_have_unknown_fields : UnknownFieldSet -> bool;
  ufs_MergeFrom : UnknownFieldSet -> UnknownFieldSet -> UnknownFieldSet;
  ufs_SerializeToArray : UnknownFieldSet -> string;
  ufs_ByteSize : UnknownFieldSet -> Z;
  WriteString : Z -> string -> string;
  WriteInt32 : Z -> Z -> string;
  StringSize : string -> Z;
  Int32SizePlusOne : Z -> Z;
  ufs_merge_default : forall u, ufs_MergeFrom ufs_default_instance u = u;
  ufs_serialize_size : forall u, slen (ufs_SerializeToArray u) = ufs_ByteSize u;
  ufs_none_size : forall u, ufs_have_unknown_fields u = false -> ufs_ByteSize u = 0;
  (** field numbers up to 15 have a one-byte tag *)
  WriteString_size : forall n s, 1 <= n <= 15 -> slen (WriteString n s) = 1 + StringSize s;
  WriteInt32_size : forall n v, 1 <= n <= 15 -> slen (WriteInt32 n v) = Int32SizePlusOne v
}.

Section header.
Context `{ProtoRuntime}.

Record MessageHeader := mkHeader {
  _has_bits_ : Z;
  handler_key_ : string;
  sender_id_ : string;
  topic_ : string;
  origin_broker_id_ : string;
  message_uuid_ : string;
  transfer_id_ : string;
  reply_topic_ : string;
  sequence_number_ : Z;
  sequence_count_ : Z;
  _unknown_fields_ : UnknownFieldSet
}.

Implicit Types h : MessageHeader.

(** The constructor. *)
Definition header_new : MessageHeader :=
  mkHeader 0 "" "" "" "" "" "" "" 0 0 ufs_default_instance.

Definition has_bit (bits mask : Z) : bool := negb (Z.land bits mask =? 0).

(** ** Accessors *)

Definition handler_key h : string := handler_key_ h.
Definition sender_id h : string := sender_id_ h.
Definition topic h : string := topic_ h.
Definition origin_broker_id h : string := origin_broker_id_ h.
Definition message_uuid h : string := message_uuid_ h.
Definition transfer_id h : string := transfer_id_ h.
Definition reply_topic h : string := reply_topic_ h.
Definition sequence_number h : Z := sequence_number_ h.
Definition sequence_count h : Z := sequence_count_ h.

Definition set_handler_key (v : string) h : MessageHeader :=
  mkHeader (Z.lor (_has_bits_ h) 0x001) v (sender_id_ h) (topic_ h) (origin_broker_id_ h)
    (message_uuid_ h) (transfer_id_ h) (reply_topic_ h) (sequence_number_ h) (sequence_count_ h)
    (_unknown_fields_ h).

Definition set_sender_id (v : string) h : MessageHeader :=
  mkHeader (Z.lor (_has_bits_ h) 0x002) (handler_key_ h) v (topic_ h) (origin_broker_id_ h)
    (message_uuid_ h) (transfer_id_ h) (reply_topic_ h) (sequence_number_ h) (sequence_count_ h)
    (_unknown_fields_ h).

Definition set_topic (v : string) h : MessageHeader :=
  mkHeader (Z.lor (_has_bits_ h) 0x004) (handler_key_ h) (sender_id_ h) v (origin_broker_id_ h)
    (message_uuid_ h) (transfer_id_ h) (reply_topic_ h) (sequence_number_ h) (sequence_count_ h)
    (_unknown_fields_ h).

Definition set_origin_broker_id (v : string) h : MessageHeader :=
  mkHeader (Z.lor (_has_bits_ h) 0x008) (handler_key_ h) (sender_id_ h) (topic_ h) v
    (message_uuid_ h) (transfer_id_ h) (reply_topic_ h) (sequence_number_ h) (sequence_count_ h)
    (_unknown_fields_ h).

Definition set_message_uuid (v : string) h : MessageHeader :=
  mkHeader (Z.lor (_has_bits_ h) 0x010) (handler_key_ h) (sender_id_ h) (topic_ h)
    (origin_broker_id_ h) v (transfer_id_ h) (reply_topic_ h) (sequence_number_ h)
    (sequence_count_ h) (_unknown_fields_ h).

Definition set_transfer_id (v : string) h : MessageHeader :=
  mkHeader (Z.lor (_has_bits_ h) 0x020) (handler_key_ h) (sender_id_ h) (topic_ h)
    (origin_broker_id_ h) (message_uuid_ h) v (reply_topic_ h) (sequence_number_ h)
    (sequence_count_ h) (_unknown_fields_ h).

Definition set_reply_topic (v : string) h : MessageHeader :=
  mkHeader (Z.lor (_has_bits_ h) 0x040) (handler_key_ h) (sender_id_ h) (topic_ h)
    (origin_broker_id_ h) (message_uuid_ h) (transfer_id_ h) v (sequence_number_ h)
    (sequence_count_ h) (_unknown_fields_ h).

Definition set_sequence_number (v : Z) h : MessageHeader :=
  mkHeader (Z.lor (_has_bits_ h) 0x080) (handler_key_ h) (sender_id_ h) (topic_ h)
    (origin_broker_id_ h) (message_uuid_ h) (transfer_id_ h) (reply_topic_ h) v
    (sequence_count_ h) (_unknown_fields_ h).

Definition set_sequence_count (v : Z) h : MessageHeader :=
  mkHeader (Z.lor (_has_bits_ h) 0x100) (handler_key_ h) (sender_id_ h) (topic_ h)
    (origin_broker_id_ h) (message_uuid_ h) (transfer_id_ h) (reply_topic_ h)
    (sequence_number_ h) v (_unknown_fields_ h).

(** [clear_x]: the default value, and the has-bit cleared. *)
Definition clear_handler_key h : MessageHeader :=
  mkHeader (Z.ldiff (_has_bits_ h) 0x001) "" (sender_id_ h) (topic_ h) (origin_broker_id_ h)
    (message_uuid_ h) (transfer_id_ h) (reply_topic_ h) (sequence_number_ h) (sequence_count_ h)
    (_unknown_fields_ h).

Definition clear_sender_id h : MessageHeader :=
  mkHeader (Z.ldiff (_has_bits_ h) 0x002) (handler_key_ h) "" (topic_ h) (origin_broker_id_ h)
    (message_uuid_ h) (transfer_id_ h) (reply_topic_ h) (sequence_number_ h) (sequence_count_ h)
    (_unknown_fields_ h).

Definition clear_topic h : MessageHeader :=
  mkHeader (Z.ldiff (_has_bits_ h) 0x004) (handler_key_ h) (sender_id_ h) "" (origin_broker_id_ h)
    (message_uuid_ h) (transfer_id_ h) (reply_topic_ h) (sequence_number_ h) (sequence_count_ h)
    (_unknown_fields_ h).

Definition clear_origin_broker_id h : MessageHeader :=
  mkHeader (Z.ldiff (_has_bits_ h) 0x008) (handler_key_ h) (sender_id_ h) (topic_ h) ""
    (message_uuid_ h) (transfer_id_ h) (reply_topic_ h) (sequence_number_ h) (sequence_count_ h)
    (_unknown_fields_ h).

Definition clear_message_uuid h : MessageHeader :=
  mkHeader (Z.ldiff (_has_bits_ h) 0x010) (handler_key_ h) (sender_id_ h) (topic_ h) (origin_broker_id_ h)
    "" (transfer_id_ h) (reply_topic_ h) (sequence_number_ h) (sequence_count_ h)
    (_unknown_fields_ h).

Definition clear_transfer_id h : MessageHeader :=
  mkHeader (Z.ldiff (_has_bits_ h) 0x020) (handler_key_ h) (sender_id_ h) (topic_ h) (origin_broker_id_ h)
    (message_uuid_ h) "" (reply_topic_ h) (sequence_number_ h) (sequence_count_ h)
    (_unknown_fields_ h).

Definition clear_reply_topic h : MessageHeader :=
  mkHeader (Z.ldiff (_has_bits_ h) 0x040) (handler_key_ h) (sender_id_ h) (topic_ h) (origin_broker_id_ h)
    (message_uuid_ h) (transfer_id_ h) "" (sequence_number_ h) (sequence_count_ h)
    (_unknown_fields_ h).

Definition clear_sequence_number h : MessageHeader :=
  mkHeader (Z.ldiff (_has_bits_ h) 0x080) (handler_key_ h) (sender_id_ h) (topic_ h) (origin_broker_id_ h)
    (message_uuid_ h) (transfer_id_ h) (reply_topic_ h) 0 (sequence_count_ h)
    (_unknown_fields_ h).

Definition clear_sequence_count h : MessageHeader :=
  mkHeader (Z.ldiff (_has_bits_ h) 0x100) (handler_key_ h) (sender_id_ h) (topic_ h) (origin_broker_id_ h)
    (message_uuid_ h) (transfer_id_ h) (reply_topic_ h) (sequence_number_ h) 0
    (_unknown_fields_ h).

(** ** Clear, MergeFrom, CopyFrom *)

(** The strings are reset only when their bit is set, the numbers always. *)
Definition header_Clear h : MessageHeader :=
  let bits := _has_bits_ h in
  let clr (mask : Z) (v : string) :=
    if has_bit bits 0x7f then (if has_bit bits mask then "" else v) else v in
  mkHeader 0 (clr 0x001 (handler_key_ h)) (clr 0x002 (sender_id_ h)) (clr 0x004 (topic_ h))
    (clr 0x008 (origin_broker_id_ h)) (clr 0x010 (message_uuid_ h)) (clr 0x020 (transfer_id_ h))
    (clr 0x040 (reply_topic_ h)) 0 0 ufs_default_instance.

(** A field present in [from] overwrites the target unless it is empty; the
    [IsDefault] branch assigns the empty string to a field that is empty. *)
Definition header_MergeFrom (to from : MessageHeader) : MessageHeader :=
  let bits := _has_bits_ from in
  let outer := has_bit bits 0xff in
  let str (mask : Z) (old new : string) :=
    if outer then (if has_bit bits mask then (if decide (new = "") then old else new) else old)
    else old in
  let num (mask old new : Z) :=
    if has_bit bits mask then (if decide (new = 0) then old else new) else old in
  mkHeader (Z.lor (_has_bits_ to) bits)
    (str 0x001 (handler_key_ to) (handler_key_ from))
    (str 0x002 (sender_id_ to) (sender_id_ from))
    (str 0x004 (topic_ to) (topic_ from))
    (str 0x008 (origin_broker_id_ to) (origin_broker_id_ from))
    (str 0x010 (message_uuid_ to) (message_uuid_ from))
    (str 0x020 (transfer_id_ to) (transfer_id_ from))
    (str 0x040 (reply_topic_ to) (reply_topic_ from))
    (if outer then num 0x080 (sequence_number_ to) (sequence_number_ from)
     else sequence_number_ to)
    (num 0x100 (sequence_count_ to) (sequence_count_ from))
    (ufs_MergeFrom (_unknown_fields_ to) (_unknown_fields_ from)).

Definition header_CopyFrom (to from : MessageHeader) : MessageHeader :=
  header_MergeFrom (header_Clear to) from.

(** [InternalSwap]: every field, the has-bits and the unknown fields change
    places. *)
Definition header_InternalSwap (this other : MessageHeader) : MessageHeader * MessageHeader :=
  let swapped (a b : MessageHeader) :=
    mkHeader (_has_bits_ b) (handler_key_ b) (sender_id_ b) (topic_ b) (origin_broker_id_ b)
      (message_uuid_ b) (transfer_id_ b) (reply_topic_ b) (sequence_number_ b) (sequence_count_ b)
      (_unknown_fields_ b) in
  (swapped this other, swapped other this).

(** The move assignment, to a different object: target and source afterwards;
    [sameArena] is [CanMoveWithInternalSwap]. *)
Definition header_move (sameArena : bool) (to from : MessageHeader) : MessageHeader * MessageHeader :=
  if sameArena then header_InternalSwap to from else (header_CopyFrom to from, from).

(** ** Serialization *)

Definition write_string_field h (mask n : Z) (s : string) : string :=
  if has_bit (_has_bits_ h) mask then (if decide (s = "") then "" else WriteString n s) else "".

Definition write_int32_field h (mask n v : Z) : string :=
  if has_bit (_has_bits_ h) mask then (if decide (v = 0) then "" else WriteInt32 n v) else "".

(** [_InternalSerialize], fields in field-number order. *)
Definition SerializeAsString h : string :=
  write_string_field h 0x001 1 (handler_key_ h) +:+
  write_string_field h 0x002 2 (sender_id_ h) +:+
  write_string_field h 0x004 3 (topic_ h) +:+
  write_string_field h 0x008 5 (origin_broker_id_ h) +:+
  write_string_field h 0x010 6 (message_uuid_ h) +:+
  write_string_field h 0x020 7 (transfer_id_ h) +:+
  write_int32_field h 0x080 8 (sequence_number_ h) +:+
  write_int32_field h 0x100 9 (sequence_count_ h) +:+
  write_string_field h 0x040 11 (reply_topic_ h) +:+
  (if ufs_have_unknown_fields (_unknown_fields_ h)
   then ufs_SerializeToArray (_unknown_fields_ h) else "").

Definition ByteSizeLong h : Z :=
  let bits := _has_bits_ h in
  let str (mask : Z) (s : string) :=
    if has_bit bits mask then (if decide (s = "") then 0 else 1 + StringSize s) else 0 in
  let num (mask v : Z) :=
    if has_bit bits mask then (if decide (v = 0) then 0 else Int32SizePlusOne v) else 0 in
  (if has_bit bits 0xff then
     str 0x001 (handler_key_ h) + str 0x002 (sender_id_ h) + str 0x004 (topic_ h) +
     str 0x008 (origin_broker_id_ h) + str 0x010 (message_uuid_ h) + str 0x020 (transfer_id_ h) +
     str 0x040 (reply_topic_ h) + num 0x080 (sequence_number_ h)
   else 0) + num 0x100 (sequence_count_ h) +
  (if ufs_have_unknown_fields (_unknown_fields_ h)
   then ufs_ByteSize (_unknown_fields_ h) else 0).

(** ** Invariant and value equality *)

(** A field whose bit is clear holds its default. *)
Record header_wf h : Prop := {
  wf_handler_key : has_bit (_has_bits_ h) 0x001 = false -> handler_key_ h = "";
  wf_sender_id : has_bit (_has_bits_ h) 0x002 = false -> sender_id_ h = "";
  wf_topic : has_bit (_has_bits_ h) 0x004 = false -> topic_ h = "";
  wf_origin_broker_id : has_bit (_has_bits_ h) 0x008 = false -> origin_broker_id_ h = "";
  wf_message_uuid : has_bit (_has_bits_ h) 0x010 = false -> message_uuid_ h = "";
  wf_transfer_id : has_bit (_has_bits_ h) 0x020 = false -> transfer_id_ h = "";
  wf_reply_topic : has_bit (_has_bits_ h) 0x040 = false -> reply_topic_ h = "";
  wf_sequence_number : has_bit (_has_bits_ h) 0x080 = false -> sequence_number_ h = 0;
  wf_sequence_count : has_bit (_has_bits_ h) 0x100 = false -> sequence_count_ h = 0
}.

(** Two headers with the same field values; the has-bits may differ (a field
    set to its default looks unset to the receiver). *)
Record header_equiv (h1 h2 : MessageHeader) : Prop := {
  eq_handler_key : handler_key h1 = handler_key h2;
  eq_sender_id : sender_id h1 = sender_id h2;
  eq_topic : topic h1 = topic h2;
  eq_origin_broker_id : origin_broker_id h1 = origin_broker_id h2;
  eq_message_uuid : message_uuid h1 = message_uuid h2;
  eq_transfer_id : transfer_id h1 = transfer_id h2;
  eq_reply_topic : reply_topic h1 = reply_topic h2;
  eq_sequence_number : sequence_number h1 = sequence_number h2;
  eq_sequence_count : sequence_count h1 = sequence_count h2;
  eq_unknown_fields : _unknown_fields_ h1 = _unknown_fields_ h2
}.

#[export] Instance header_Equiv : Equiv MessageHeader := header_equiv.

#[export] Instance header_equivalence : Equivalence (≡@{MessageHeader}).
Proof.
  split.
  - intros h. by split.
  - intros h1 h2 []. by split.
  - intros h1 h2 h3 [] []. split; by etrans.
Qed.

#[export] Instance handler_key_proper : Proper ((≡) ==> (=)) handler_key.
Proof. by intros h1 h2 []. Qed.
#[export] Instance sender_id_proper : Proper ((≡) ==> (=)) sender_id.
Proof. by intros h1 h2 []. Qed.
#[export] Instance topic_proper : Proper ((≡) ==> (=)) topic.
Proof. by intros h1 h2 []. Qed.
#[export] Instance origin_broker_id_proper : Proper ((≡) ==> (=)) origin_broker_id.
Proof. by intros h1 h2 []. Qed.
#[export] Instance message_uuid_proper : Proper ((≡) ==> (=)) message_uuid.
Proof. by intros h1 h2 []. Qed.
#[export] Instance reply_topic_proper : Proper ((≡) ==> (=)) reply_topic.
Proof. by intros h1 h2 []. Qed.
#[export] Instance set_message_uuid_proper v : Proper ((≡) ==> (≡)) (set_message_uuid v).
Proof. intros h1 h2 []. by split. Qed.
#[export] Instance set_origin_broker_id_proper v : Proper ((≡) ==> (≡)) (set_origin_broker_id v).
Proof. intros h1 h2 []. by split. Qed.

(** ** Has-bits *)

Lemma has_bit_lor b m m' : has_bit (Z.lor b m) m' = has_bit b m' || has_bit m m'.
Proof.
  unfold has_bit. rewrite Z.land_lor_distr_l, <-negb_andb. f_equal.
  apply eq_bool_prop_intro. rewrite andb_True, !Is_true_true, !Z.eqb_eq.
  apply Z.lor_eq_0_iff.
Qed.

Lemma has_bit_sub big small bits :
  Z.land big small = small -> has_bit bits big = false -> has_bit bits small = false.
Proof.
  unfold has_bit. rewrite !negb_false_iff, !Z.eqb_eq. intros <- Hb.
  by rewrite Z.land_assoc, Hb, Z.land_0_l.
Qed.

Lemma has_bit_0 m : has_bit 0 m = false.
Proof. done. Qed.

Lemma has_bit_ldiff b m m' : Z.land m m' = 0 -> has_bit (Z.ldiff b m) m' = has_bit b m'.
Proof.
  intros E. unfold has_bit. do 2 f_equal. apply Z.bits_inj'. intros n Hn.
  apply (f_equal (fun z => Z.testbit z n)) in E. rewrite Z.land_spec, Z.bits_0 in E.
  rewrite !Z.land_spec, Z.ldiff_spec. destruct (Z.testbit b n), (Z.testbit m n), (Z.testbit m' n); done.
Qed.

(** Discharges the has-bit side conditions of [header_wf] goals. *)
Ltac solve_wf :=
  repeat match goal with H : header_wf _ |- _ => destruct H end;
  split; simpl; rewrite ?has_bit_lor, ?has_bit_0, ?has_bit_ldiff by done; simpl;
  rewrite ?orb_false_r, ?orb_true_r; auto; try discriminate.

Lemma header_new_wf : header_wf header_new.
Proof. solve_wf. Qed.

Lemma set_handler_key_wf v h : header_wf h -> header_wf (set_handler_key v h).
Proof. intros. solve_wf. Qed.
Lemma set_sender_id_wf v h : header_wf h -> header_wf (set_sender_id v h).
Proof. intros. solve_wf. Qed.
Lemma set_topic_wf v h : header_wf h -> header_wf (set_topic v h).
Proof. intros. solve_wf. Qed.
Lemma set_origin_broker_id_wf v h : header_wf h -> header_wf (set_origin_broker_id v h).
Proof. intros. solve_wf. Qed.
Lemma set_message_uuid_wf v h : header_wf h -> header_wf (set_message_uuid v h).
Proof. intros. solve_wf. Qed.
Lemma set_transfer_id_wf v h : header_wf h -> header_wf (set_transfer_id v h).
Proof. intros. solve_wf. Qed.
Lemma set_reply_topic_wf v h : header_wf h -> header_wf (set_reply_topic v h).
Proof. intros. solve_wf. Qed.
Lemma set_sequence_number_wf v h : header_wf h -> header_wf (set_sequence_number v h).
Proof. intros. solve_wf. Qed.
Lemma set_sequence_count_wf v h : header_wf h -> header_wf (set_sequence_count v h).
Proof. intros. solve_wf. Qed.

Lemma clear_handler_key_wf h : header_wf h -> header_wf (clear_handler_key h).
Proof. intros. solve_wf. Qed.
Lemma clear_sender_id_wf h : header_wf h -> header_wf (clear_sender_id h).
Proof. intros. solve_wf. Qed.
Lemma clear_topic_wf h : header_wf h -> header_wf (clear_topic h).
Proof. intros. solve_wf. Qed.
Lemma clear_origin_broker_id_wf h : header_wf h -> header_wf (clear_origin_broker_id h).
Proof. intros. solve_wf. Qed.
Lemma clear_message_uuid_wf h : header_wf h -> header_wf (clear_message_uuid h).
Proof. intros. solve_wf. Qed.
Lemma clear_transfer_id_wf h : header_wf h -> header_wf (clear_transfer_id h).
Proof. intros. solve_wf. Qed.
Lemma clear_reply_topic_wf h : header_wf h -> header_wf (clear_reply_topic h).
Proof. intros. solve_wf. Qed.
Lemma clear_sequence_number_wf h : header_wf h -> header_wf (clear_sequence_number h).
Proof. intros. solve_wf. Qed.
Lemma clear_sequence_count_wf h : header_wf h -> header_wf (clear_sequence_count h).
Proof. intros. solve_wf. Qed.

(** ** Copying *)

Lemma header_Clear_fresh h : header_wf h -> header_Clear h = header_new.
Proof.
  intros [H1 H2 H3 H4 H5 H6 H7 _ _]. unfold header_Clear, header_new.
  assert (Hc : forall mask v, Z.land 0x7f mask = mask ->
     (has_bit (_has_bits_ h) mask = false -> v = "") ->
     (if has_bit (_has_bits_ h) 0x7f
      then if has_bit (_has_bits_ h) mask then "" else v else v) = "").
  { intros mask v Hm Hv. destruct (has_bit (_has_bits_ h) 0x7f) eqn:E.
    - destruct (has_bit (_has_bits_ h) mask); auto.
    - apply Hv. by eapply has_bit_sub. }
  f_equal; by apply Hc.
Qed.

Lemma header_MergeFrom_new h : header_wf h -> header_MergeFrom header_new h = h.
Proof.
  intros [H1 H2 H3 H4 H5 H6 H7 H8 H9]. unfold header_MergeFrom, header_new; simpl.
  rewrite ufs_merge_default.
  assert (Hs : forall mask v, Z.land 0xff mask = mask ->
     (has_bit (_has_bits_ h) mask = false -> v = "") ->
     (if has_bit (_has_bits_ h) 0xff
      then if has_bit (_has_bits_ h) mask then (if decide (v = "") then "" else v) else ""
      else "") = v).
  { intros mask v Hm Hv. destruct (has_bit (_has_bits_ h) 0xff) eqn:E.
    - destruct (has_bit (_has_bits_ h) mask); [case_decide|symmetry]; auto.
    - symmetry. apply Hv. by eapply has_bit_sub. }
  destruct h as [bits k1 k2 k3 k4 k5 k6 k7 n1 n2 u]; simpl in *.
  f_equal; try by apply Hs.
  - destruct (has_bit bits 0xff) eqn:E.
    + destruct (has_bit bits 128); [case_decide|symmetry]; auto.
    + symmetry. apply H8. by apply (has_bit_sub 0xff).
  - destruct (has_bit bits 256); [case_decide|symmetry]; auto.
Qed.

Lemma header_MergeFrom_wf h1 h2 : header_wf h1 -> header_wf h2 -> header_wf (header_MergeFrom h1 h2).
Proof.
  intros [] []. split; simpl; rewrite has_bit_lor; intros [Hb1 Hb2]%orb_false_iff;
    repeat rewrite Hb2; try destruct (has_bit (_has_bits_ h2) 0xff); auto.
Qed.

(** ** Sizes *)

Lemma write_string_field_size h mask n s :
  1 <= n <= 15 ->
  slen (write_string_field h mask n s) =
  (if has_bit (_has_bits_ h) mask then (if decide (s = "") then 0 else 1 + StringSize s) else 0).
Proof.
  intros Hn. unfold write_string_field.
  destruct (has_bit _ _); [case_decide|]; [done| |done]. by apply WriteString_size.
Qed.

Lemma write_int32_field_size h mask n v :
  1 <= n <= 15 ->
  slen (write_int32_field h mask n v) =
  (if has_bit (_has_bits_ h) mask then (if decide (v = 0) then 0 else Int32SizePlusOne v) else 0).
Proof.
  intros Hn. unfold write_int32_field.
  destruct (has_bit _ _); [case_decide|]; [done| |done]. by apply WriteInt32_size.
Qed.

Lemma write_string_field_wf h mask n s :
  (has_bit (_has_bits_ h) mask = false -> s = "") ->
  write_string_field h mask n s = if decide (s = "") then "" else WriteString n s.
Proof.
  intros Hw. unfold write_string_field. destruct (has_bit _ _) eqn:E; [done|].
  by rewrite decide_True by auto.
Qed.

Lemma write_int32_field_wf h mask n v :
  (has_bit (_has_bits_ h) mask = false -> v = 0) ->
  write_int32_field h mask n v = if decide (v = 0) then "" else WriteInt32 n v.
Proof.
  intros Hw. unfold write_int32_field. destruct (has_bit _ _) eqn:E; [done|].
  by rewrite decide_True by auto.
Qed.

Definition str_field (n : Z) (s : string) : string := if decide (s = "") then "" else WriteString n s.
Definition int_field (n v : Z) : string := if decide (v = 0) then "" else WriteInt32 n v.

(** On a well-formed header the bytes depend on the field values only. *)
Lemma SerializeAsString_wf h :
  header_wf h ->
  SerializeAsString h =
    str_field 1 (handler_key h) +:+ str_field 2 (sender_id h) +:+ str_field 3 (topic h) +:+
    str_field 5 (origin_broker_id h) +:+ str_field 6 (message_uuid h) +:+
    str_field 7 (transfer_id h) +:+ int_field 8 (sequence_number h) +:+
    int_field 9 (sequence_count h) +:+ str_field 11 (reply_topic h) +:+
    (if ufs_have_unknown_fields (_unknown_fields_ h)
     then ufs_SerializeToArray (_unknown_fields_ h) else "").
Proof.
  intros []. unfold SerializeAsString.
  by rewrite !write_string_field_wf, !write_int32_field_wf.
Qed.

Lemma SerializeAsString_equiv h1 h2 :
  header_wf h1 -> header_wf h2 -> h1 ≡ h2 -> SerializeAsString h1 = SerializeAsString h2.
Proof.
  intros Hw1 Hw2 [E1 E2 E3 E4 E5 E6 E7 E8 E9 E10]. rewrite !SerializeAsString_wf by done.
  by rewrite E1, E2, E3, E4, E5, E6, E7, E8, E9, E10.
Qed.

End header.

#[export] Hint Resolve header_new_wf set_handler_key_wf set_sender_id_wf set_topic_wf
  set_origin_broker_id_wf set_message_uuid_wf set_transfer_id_wf set_reply_topic_wf
  set_sequence_number_wf set_sequence_count_wf header_MergeFrom_wf : wisp.

(** ** The parser

    [ParseFromArray] is the table-driven parser of the runtime run on
    [MessageHeader::_table_]: every string field is declared [kUtf8String],
    so bytes that are not valid UTF-8 are refused on parsing although
    serialization only logs them. *)

Definition in_int32 (z : Z) : Prop := -2 ^ 31 <= z < 2 ^ 31.

Record header_encodable `{ProtoRuntime} (utf8 : string -> bool) (h : MessageHeader) : Prop := {
  enc_utf8 : Forall (fun s => utf8 s = true)
    [handler_key h; sender_id h; topic h; origin_broker_id h; message_uuid h; transfer_id h;
     reply_topic h];
  enc_number : in_int32 (sequence_number h);
  enc_count : in_int32 (sequence_count h);
  enc_size : slen (SerializeAsString h) < 2 ^ 31
}.

Lemma header_encodable_equiv `{ProtoRuntime} utf8 h1 h2 :
  header_wf h1 -> header_wf h2 -> h1 ≡ h2 -> header_encodable utf8 h2 -> header_encodable utf8 h1.
Proof.
  intros W1 W2 E [D1 D2 D3 D4]. pose proof (SerializeAsString_equiv _ _ W1 W2 E) as Es.
  destruct E as [E1 E2 E3 E4 E5 E6 E7 E8 E9 _].
  split; rewrite ?E1, ?E2, ?E3, ?E4, ?E5, ?E6, ?E7, ?E8, ?E9, ?Es; done.
Qed.

Class HeaderParser `{ProtoRuntime} := {
  IsStructurallyValidUTF8 : string -> bool;
  ParseFromArray : string -> option MessageHeader;
  ParseFromArray_wf : forall b h, ParseFromArray b = Some h -> header_wf h;
  ParseFromArray_Serialize : forall h, header_wf h ->
    header_encodable IsStructurallyValidUTF8 h ->
    exists h', ParseFromArray (SerializeAsString h) = Some h' /\ h' ≡ h
}.

(** ** Theorems *)

(** The size the generated code announces, [ByteSizeLong], is the number of
    bytes its serializer writes, for every header and every has-bits word (the
    outer has-bits tests of the size function skip nothing that is written). *)
Theorem header_size_exact `{ProtoRuntime} h : slen (SerializeAsString h) = ByteSizeLong h.
Proof.
  unfold SerializeAsString, ByteSizeLong. rewrite !slen_app.
  rewrite !write_string_field_size, !write_int32_field_size by lia.
  assert (Hu : slen (if ufs_have_unknown_fields (_unknown_fields_ h)
                     then ufs_SerializeToArray (_unknown_fields_ h) else "") =
               if ufs_have_unknown_fields (_unknown_fields_ h)
               then ufs_ByteSize (_unknown_fields_ h) else 0).
  { destruct (ufs_have_unknown_fields _); [apply ufs_serialize_size|done]. }
  rewrite Hu. destruct (has_bit (_has_bits_ h) 0xff) eqn:E; [lia|].
  assert (Hs : forall m, Z.land 0xff m = m -> has_bit (_has_bits_ h) m = false)
    by (intros; by eapply has_bit_sub).
  rewrite !(Hs 1), !(Hs 2), !(Hs 4), !(Hs 8), !(Hs 16), !(Hs 32), !(Hs 64), !(Hs 128) by done.
  lia.
Qed.

(** Copying a header is exact: whatever well-formed header the target held
    before, afterwards it is the source, has-bits and unknown fields included
    (no field of the old value survives); the move assignment gives the target
    the same value, on whatever arenas the two messages live. *)
Theorem header_copy_exact `{ProtoRuntime} (to from : MessageHeader) sameArena :
  header_wf to -> header_wf from ->
  header_CopyFrom to from = from /\ (header_move sameArena to from).1 = from.
Proof.
  intros Ht Hf. assert (Hc : header_CopyFrom to from = from).
  { unfold header_CopyFrom. rewrite header_Clear_fresh by done. by apply header_MergeFrom_new. }
  split; [done|]. unfold header_move. destruct sameArena; [by destruct from|done].
Qed.
