(* ===== verification/Stats.v ===== *)
(** * The statistics messages ([common/generated/broker.pb.{h,cc}], classes
    [ClientInfo] and [SystemStats])

    What the broker reports about itself once per second.  [StatsRuntime] adds
    to [ProtoRuntime] the field writers and sizes these two classes call, and
    the packing of a message into a [google::protobuf::Any].  A double is its
    IEEE 754 value ([spec_float]). *)

From S2P Require Import Prelude MessageHeader.
From Stdlib Require Import Floats.SpecFloat.
#[local] Open Scope Z_scope.

(** ** The runtime *)

Class StatsRuntime `{ProtoRuntime} := {
  WriteInt64 : Z -> Z -> string;
  WriteDouble : Z -> spec_float -> string;
  (** [InternalWriteMessage(field, message, cached size)]: tag, size, body *)
  InternalWriteMessage : Z -> Z -> string -> string;
  Int64SizePlusOne : Z -> Z;
  LengthDelimitedSize : Z -> Z;
  (** [any.PackFrom(m); any.SerializeAsString()] for a message of that type
      and serialization *)
  AnyPack : string -> string -> string;
  (** [any.ParseFromString(b)], [any.Is<T>()] and the packed bytes *)
  AnyUnpack : string -> string -> option string;
  WriteInt64_size : forall n v, 1 <= n <= 15 -> slen (WriteInt64 n v) = Int64SizePlusOne v;
  WriteDouble_size : forall n v, 1 <= n <= 15 -> slen (WriteDouble n v) = 9;
  InternalWriteMessage_size : forall n body, 1 <= n <= 15 ->
    slen (InternalWriteMessage n (slen body) body) = 1 + LengthDelimitedSize (slen body);
  (** a message has less than 2 GiB *)
  AnyUnpack_pack : forall name body, slen body < 2 ^ 31 -> AnyUnpack name (AnyPack name body) = Some body;
  AnyPack_nonempty : forall name body, AnyPack name body <> ""
}.

(** ** [double] arithmetic of the report *)

Definition double_of_Z (z : Z) : spec_float := binary_normalize 53 1024 z 0 false.
Definition double_div (x y : spec_float) : spec_float := SFdiv 53 1024 x y.

(** [absl::bit_cast<uint64_t>(v) != 0]: only the positive zero has no bit set. *)
Definition double_bits_nonzero (v : spec_float) : bool :=
  match v with S754_zero false => false | _ => true end.

Section messages.
Context `{StatsRuntime}.

(** ** [ClientInfo] *)

Record ClientInfo := mkClientInfo {
  ci_has_bits : Z;
  ci_id : string;
  ci_subscriptions : list string;
  ci_unknown_fields : UnknownFieldSet
}.

Definition clientinfo_new : ClientInfo := mkClientInfo 0 "" [] ufs_default_instance.

Definition set_id (v : string) (c : ClientInfo) : ClientInfo :=
  mkClientInfo (Z.lor (ci_has_bits c) 0x1) v (ci_subscriptions c) (ci_unknown_fields c).

Definition add_subscriptions (v : string) (c : ClientInfo) : ClientInfo :=
  mkClientInfo (ci_has_bits c) (ci_id c) (ci_subscriptions c ++ [v]) (ci_unknown_fields c).

Definition clientinfo_Clear (c : ClientInfo) : ClientInfo :=
  mkClientInfo 0 (if has_bit (ci_has_bits c) 0x1 then "" else ci_id c) [] ufs_default_instance.

Definition clientinfo_MergeFrom (to from : ClientInfo) : ClientInfo :=
  mkClientInfo (Z.lor (ci_has_bits to) (ci_has_bits from))
    (if has_bit (ci_has_bits from) 0x1
     then (if decide (ci_id from = "") then ci_id to else ci_id from) else ci_id to)
    (ci_subscriptions to ++ ci_subscriptions from)
    (ufs_MergeFrom (ci_unknown_fields to) (ci_unknown_fields from)).

Definition clientinfo_CopyFrom (to from : ClientInfo) : ClientInfo :=
  clientinfo_MergeFrom (clientinfo_Clear to) from.

(** Concatenation of the pieces a loop writes. *)
Definition write_all {A} (f : A -> string) (l : list A) : string :=
  foldr (fun a acc => f a +:+ acc) "" l.

Definition unknown_bytes (u : UnknownFieldSet) : string :=
  if ufs_have_unknown_fields u then ufs_SerializeToArray u else "".

Definition unknown_size (u : UnknownFieldSet) : Z :=
  if ufs_have_unknown_fields u then ufs_ByteSize u else 0.

Definition clientinfo_Serialize (c : ClientInfo) : string :=
  (if has_bit (ci_has_bits c) 0x1
   then (if decide (ci_id c = "") then "" else WriteString 1 (ci_id c)) else "") +:+
  write_all (WriteString 2) (ci_subscriptions c) +:+
  unknown_bytes (ci_unknown_fields c).

Definition sum_map {A} (f : A -> Z) (l : list A) : Z := foldr (fun a acc => f a + acc) 0 l.

Definition clientinfo_ByteSizeLong (c : ClientInfo) : Z :=
  1 * zlen (ci_subscriptions c) + sum_map StringSize (ci_subscriptions c) +
  (if has_bit (ci_has_bits c) 0x1
   then (if decide (ci_id c = "") then 0 else 1 + StringSize (ci_id c)) else 0) +
  unknown_size (ci_unknown_fields c).

(** ** [SystemStats] *)

Record SystemStats := mkStats {
  ss_has_bits : Z;
  ss_connected_clients : list ClientInfo;
  ss_broker_id : string;
  ss_clients_count : Z;
  ss_peers_count : Z;
  ss_kb_per_sec : spec_float;
  ss_total_msgs : Z;
  ss_uptime_sec : Z;
  ss_msgs_per_sec : Z;
  ss_unknown_fields : UnknownFieldSet
}.

Definition stats_new : SystemStats :=
  mkStats 0 [] "" 0 0 (S754_zero false) 0 0 0 ufs_default_instance.

Implicit Types s : SystemStats.

Definition set_broker_id (v : string) s : SystemStats :=
  mkStats (Z.lor (ss_has_bits s) 0x01) (ss_connected_clients s) v (ss_clients_count s)
    (ss_peers_count s) (ss_kb_per_sec s) (ss_total_msgs s) (ss_uptime_sec s) (ss_msgs_per_sec s)
    (ss_unknown_fields s).

(** The [int32] and [int64] setters convert their argument. *)
Definition set_clients_count (v : Z) s : SystemStats :=
  mkStats (Z.lor (ss_has_bits s) 0x02) (ss_connected_clients s) (ss_broker_id s) (i32 v)
    (ss_peers_count s) (ss_kb_per_sec s) (ss_total_msgs s) (ss_uptime_sec s) (ss_msgs_per_sec s)
    (ss_unknown_fields s).

Definition set_peers_count (v : Z) s : SystemStats :=
  mkStats (Z.lor (ss_has_bits s) 0x04) (ss_connected_clients s) (ss_broker_id s)
    (ss_clients_count s) (i32 v) (ss_kb_per_sec s) (ss_total_msgs s) (ss_uptime_sec s)
    (ss_msgs_per_sec s) (ss_unknown_fields s).

Definition set_kb_per_sec (v : spec_float) s : SystemStats :=
  mkStats (Z.lor (ss_has_bits s) 0x08) (ss_connected_clients s) (ss_broker_id s)
    (ss_clients_count s) (ss_peers_count s) v (ss_total_msgs s) (ss_uptime_sec s)
    (ss_msgs_per_sec s) (ss_unknown_fields s).

Definition set_total_msgs (v : Z) s : SystemStats :=
  mkStats (Z.lor (ss_has_bits s) 0x10) (ss_connected_clients s) (ss_broker_id s)
    (ss_clients_count s) (ss_peers_count s) (ss_kb_per_sec s) (i64 v) (ss_uptime_sec s)
    (ss_msgs_per_sec s) (ss_unknown_fields s).

Definition set_uptime_sec (v : Z) s : SystemStats :=
  mkStats (Z.lor (ss_has_bits s) 0x20) (ss_connected_clients s) (ss_broker_id s)
    (ss_clients_count s) (ss_peers_count s) (ss_kb_per_sec s) (ss_total_msgs s) (i64 v)
    (ss_msgs_per_sec s) (ss_unknown_fields s).

Definition set_msgs_per_sec (v : Z) s : SystemStats :=
  mkStats (Z.lor (ss_has_bits s) 0x40) (ss_connected_clients s) (ss_broker_id s)
    (ss_clients_count s) (ss_peers_count s) (ss_kb_per_sec s) (ss_total_msgs s) (ss_uptime_sec s)
    (i32 v) (ss_unknown_fields s).

(** [add_connected_clients] returns the new element; the caller fills it. *)
Definition add_connected_clients (c : ClientInfo) s : SystemStats :=
  mkStats (ss_has_bits s) (ss_connected_clients s ++ [c]) (ss_broker_id s) (ss_clients_count s)
    (ss_peers_count s) (ss_kb_per_sec s) (ss_total_msgs s) (ss_uptime_sec s) (ss_msgs_per_sec s)
    (ss_unknown_fields s).

(** The numbers are zeroed together when any of their bits is set. *)
Definition stats_Clear s : SystemStats :=
  let bits := ss_has_bits s in
  let clr {A} (zero v : A) := if has_bit bits 0x7e then zero else v in
  mkStats 0 [] (if has_bit bits 0x01 then "" else ss_broker_id s) (clr 0 (ss_clients_count s))
    (clr 0 (ss_peers_count s)) (clr (S754_zero false) (ss_kb_per_sec s)) (clr 0 (ss_total_msgs s))
    (clr 0 (ss_uptime_sec s)) (clr 0 (ss_msgs_per_sec s)) ufs_default_instance.

Definition stats_MergeFrom (to from : SystemStats) : SystemStats :=
  let bits := ss_has_bits from in
  let outer := has_bit bits 0x7f in
  let num (mask old new : Z) :=
    if outer then (if has_bit bits mask then (if decide (new = 0) then old else new) else old)
    else old in
  mkStats (Z.lor (ss_has_bits to) bits)
    (ss_connected_clients to ++ ss_connected_clients from)
    (if outer then (if has_bit bits 0x01
       then (if decide (ss_broker_id from = "") then ss_broker_id to else ss_broker_id from)
       else ss_broker_id to) else ss_broker_id to)
    (num 0x02 (ss_clients_count to) (ss_clients_count from))
    (num 0x04 (ss_peers_count to) (ss_peers_count from))
    (if outer then (if has_bit bits 0x08
       then (if double_bits_nonzero (ss_kb_per_sec from) then ss_kb_per_sec from
             else ss_kb_per_sec to)
       else ss_kb_per_sec to) else ss_kb_per_sec to)
    (num 0x10 (ss_total_msgs to) (ss_total_msgs from))
    (num 0x20 (ss_uptime_sec to) (ss_uptime_sec from))
    (num 0x40 (ss_msgs_per_sec to) (ss_msgs_per_sec from))
    (ufs_MergeFrom (ss_unknown_fields to) (ss_unknown_fields from)).

Definition stats_CopyFrom (to from : SystemStats) : SystemStats :=
  stats_MergeFrom (stats_Clear to) from.

(** Fields in field-number order; the size of a nested message is the one
    cached by [ByteSizeLong]. *)
Definition stats_Serialize s : string :=
  let bits := ss_has_bits s in
  let int32 (mask n v : Z) :=
    if has_bit bits mask then (if decide (v = 0) then "" else WriteInt32 n v) else "" in
  let int64 (mask n v : Z) :=
    if has_bit bits mask then (if decide (v = 0) then "" else WriteInt64 n v) else "" in
  (if has_bit bits 0x01
   then (if decide (ss_broker_id s = "") then "" else WriteString 1 (ss_broker_id s)) else "") +:+
  int32 0x02 2 (ss_clients_count s) +:+
  int32 0x04 3 (ss_peers_count s) +:+
  int32 0x40 4 (ss_msgs_per_sec s) +:+
  (if has_bit bits 0x08
   then (if double_bits_nonzero (ss_kb_per_sec s) then WriteDouble 5 (ss_kb_per_sec s) else "")
   else "") +:+
  int64 0x10 6 (ss_total_msgs s) +:+
  int64 0x20 7 (ss_uptime_sec s) +:+
  write_all (fun c => InternalWriteMessage 8 (clientinfo_ByteSizeLong c) (clientinfo_Serialize c))
    (ss_connected_clients s) +:+
  unknown_bytes (ss_unknown_fields s).

Definition stats_ByteSizeLong s : Z :=
  let bits := ss_has_bits s in
  let int32 (mask v : Z) :=
    if has_bit bits mask then (if decide (v = 0) then 0 else Int32SizePlusOne v) else 0 in
  let int64 (mask v : Z) :=
    if has_bit bits mask then (if decide (v = 0) then 0 else Int64SizePlusOne v) else 0 in
  1 * zlen (ss_connected_clients s) +
  sum_map (fun c => LengthDelimitedSize (clientinfo_ByteSizeLong c)) (ss_connected_clients s) +
  (if has_bit bits 0x7f then
     (if has_bit bits 0x01
      then (if decide (ss_broker_id s = "") then 0 else 1 + StringSize (ss_broker_id s)) else 0) +
     int32 0x02 (ss_clients_count s) + int32 0x04 (ss_peers_count s) +
     (if has_bit bits 0x08 then (if double_bits_nonzero (ss_kb_per_sec s) then 9 else 0) else 0) +
     int64 0x10 (ss_total_msgs s) + int64 0x20 (ss_uptime_sec s) + int32 0x40 (ss_msgs_per_sec s)
   else 0) + unknown_size (ss_unknown_fields s).

(** The payload of a report. *)
Definition stats_type_name : string := "broker.SystemStats".

Definition pack_stats s : string := AnyPack stats_type_name (stats_Serialize s).

(** ** Lemmas *)

Lemma unknown_bytes_size u : slen (unknown_bytes u) = unknown_size u.
Proof. unfold unknown_bytes, unknown_size. destruct (ufs_have_unknown_fields u); [apply ufs_serialize_size|done]. Qed.

Lemma write_all_size {A} (f : A -> string) (g : A -> Z) l :
  (forall a, slen (f a) = 1 + g a) -> slen (write_all f l) = 1 * zlen l + sum_map g l.
Proof.
  intros Hf. induction l as [|a l IH]; [done|]. unfold write_all, sum_map, zlen in *. cbn [foldr].
  rewrite slen_app, Hf, IH. cbn [length]. lia.
Qed.

Lemma clientinfo_size_exact c : slen (clientinfo_Serialize c) = clientinfo_ByteSizeLong c.
Proof.
  unfold clientinfo_Serialize, clientinfo_ByteSizeLong. rewrite !slen_app, unknown_bytes_size.
  rewrite (write_all_size _ StringSize) by (intros; apply WriteString_size; lia).
  destruct (has_bit _ _); [case_decide|]; rewrite ?WriteString_size by lia;
    change (slen "") with 0; lia.
Qed.

(** The size announced is the size written, nested messages included. *)
Lemma stats_size_lemma s : slen (stats_Serialize s) = stats_ByteSizeLong s.
Proof.
  unfold stats_Serialize, stats_ByteSizeLong. rewrite !slen_app, unknown_bytes_size.
  rewrite (write_all_size _ (fun c => LengthDelimitedSize (clientinfo_ByteSizeLong c))).
  2: { intros c. rewrite <-clientinfo_size_exact. apply InternalWriteMessage_size. lia. }
  assert (K1 : forall mask n v, 1 <= n <= 15 ->
    slen (if has_bit (ss_has_bits s) mask then (if decide (v = 0) then "" else WriteInt32 n v) else "")
    = if has_bit (ss_has_bits s) mask then (if decide (v = 0) then 0 else Int32SizePlusOne v) else 0).
  { intros. destruct (has_bit _ _); [case_decide|]; rewrite ?WriteInt32_size; done. }
  assert (K2 : forall mask n v, 1 <= n <= 15 ->
    slen (if has_bit (ss_has_bits s) mask then (if decide (v = 0) then "" else WriteInt64 n v) else "")
    = if has_bit (ss_has_bits s) mask then (if decide (v = 0) then 0 else Int64SizePlusOne v) else 0).
  { intros. destruct (has_bit _ _); [case_decide|]; rewrite ?WriteInt64_size; done. }
  rewrite !K1, !K2 by lia.
  destruct (has_bit (ss_has_bits s) 0x7f) eqn:E.
  - destruct (has_bit (ss_has_bits s) 0x01); [case_decide|];
      (destruct (has_bit (ss_has_bits s) 0x08); [destruct (double_bits_nonzero _)|]);
      rewrite ?WriteString_size, ?WriteDouble_size by lia; change (slen "") with 0; lia.
  - assert (Hs : forall m, Z.land 0x7f m = m -> has_bit (ss_has_bits s) m = false)
      by (intros; by eapply has_bit_sub).
    rewrite !(Hs 1), !(Hs 2), !(Hs 4), !(Hs 8), !(Hs 16), !(Hs 32), !(Hs 64) by done.
    change (slen "") with 0. lia.
Qed.

End messages.

(** ** Theorems *)

(** The size of a report is announced exactly: [SystemStats::ByteSizeLong]
    is the number of bytes the serializer writes, for every has-bits word and
    every list of connected clients, so the length prefixes of the nested
    [ClientInfo] messages and of the packed report are right. *)
Theorem stats_size_exact `{StatsRuntime} s : slen (stats_Serialize s) = stats_ByteSizeLong s.
Proof. apply stats_size_lemma. Qed.
