(* ===== verification/Update.v ===== *)
(** * The example payload ([common/generated/update.pb.{h,cc}], class [Update])

    The message the example clients exchange.  Unlike the other generated
    classes it has a field with explicit presence: [message] is written
    whenever it was set, also when it is empty. *)

From S2P Require Import Prelude MessageHeader Stats.
#[local] Open Scope Z_scope.

Section update.
Context `{StatsRuntime}.

Record Update := mkUpdate {
  upd_has_bits : Z;
  upd_id_ : string;
  upd_message_ : string;
  upd_timestamp_utc_ : Z;
  upd_unknown_fields : UnknownFieldSet
}.

Implicit Types u : Update.

Definition update_new : Update := mkUpdate 0 "" "" 0 ufs_default_instance.

(** ** Accessors *)

Definition upd_id u : string := upd_id_ u.
Definition upd_message u : string := upd_message_ u.
Definition upd_timestamp_utc u : Z := upd_timestamp_utc_ u.
Definition has_message u : bool := has_bit (upd_has_bits u) 0x2.

Definition upd_set_id (v : string) u : Update :=
  mkUpdate (Z.lor (upd_has_bits u) 0x1) v (upd_message_ u) (upd_timestamp_utc_ u) (upd_unknown_fields u).
Definition upd_set_message (v : string) u : Update :=
  mkUpdate (Z.lor (upd_has_bits u) 0x2) (upd_id_ u) v (upd_timestamp_utc_ u) (upd_unknown_fields u).
(** The argument is an [int64_t]. *)
Definition upd_set_timestamp_utc (v : Z) u : Update :=
  mkUpdate (Z.lor (upd_has_bits u) 0x4) (upd_id_ u) (upd_message_ u) (i64 v) (upd_unknown_fields u).

Definition upd_clear_id u : Update :=
  mkUpdate (Z.ldiff (upd_has_bits u) 0x1) "" (upd_message_ u) (upd_timestamp_utc_ u) (upd_unknown_fields u).
Definition upd_clear_message u : Update :=
  mkUpdate (Z.ldiff (upd_has_bits u) 0x2) (upd_id_ u) "" (upd_timestamp_utc_ u) (upd_unknown_fields u).
Definition upd_clear_timestamp_utc u : Update :=
  mkUpdate (Z.ldiff (upd_has_bits u) 0x4) (upd_id_ u) (upd_message_ u) 0 (upd_unknown_fields u).

(** ** Clear, MergeFrom, CopyFrom, InternalSwap *)

Definition update_Clear u : Update :=
  let bits := upd_has_bits u in
  let clr (mask : Z) (v : string) :=
    if has_bit bits 0x3 then (if has_bit bits mask then "" else v) else v in
  mkUpdate 0 (clr 0x1 (upd_id_ u)) (clr 0x2 (upd_message_ u)) 0 ufs_default_instance.

(** [message] is assigned as it is, the other fields unless they hold their
    default. *)
Definition update_MergeFrom (to from : Update) : Update :=
  let bits := upd_has_bits from in
  let outer := has_bit bits 0x7 in
  mkUpdate (Z.lor (upd_has_bits to) bits)
    (if outer then (if has_bit bits 0x1
       then (if decide (upd_id_ from = "") then upd_id_ to else upd_id_ from) else upd_id_ to) else upd_id_ to)
    (if outer then (if has_bit bits 0x2 then upd_message_ from else upd_message_ to) else upd_message_ to)
    (if outer then (if has_bit bits 0x4
       then (if decide (upd_timestamp_utc_ from = 0) then upd_timestamp_utc_ to else upd_timestamp_utc_ from)
       else upd_timestamp_utc_ to) else upd_timestamp_utc_ to)
    (ufs_MergeFrom (upd_unknown_fields to) (upd_unknown_fields from)).

Definition update_CopyFrom (to from : Update) : Update := update_MergeFrom (update_Clear to) from.

Definition update_InternalSwap (this other : Update) : Update * Update :=
  let swapped (a b : Update) :=
    mkUpdate (upd_has_bits b) (upd_id_ b) (upd_message_ b) (upd_timestamp_utc_ b) (upd_unknown_fields b) in
  (swapped this other, swapped other this).

(** ** Serialization *)

Definition update_Serialize u : string :=
  let bits := upd_has_bits u in
  (if has_bit bits 0x1 then (if decide (upd_id_ u = "") then "" else WriteString 1 (upd_id_ u)) else "") +:+
  (if has_bit bits 0x2 then WriteString 2 (upd_message_ u) else "") +:+
  (if has_bit bits 0x4
   then (if decide (upd_timestamp_utc_ u = 0) then "" else WriteInt64 3 (upd_timestamp_utc_ u)) else "") +:+
  unknown_bytes (upd_unknown_fields u).

Definition update_ByteSizeLong u : Z :=
  let bits := upd_has_bits u in
  (if has_bit bits 0x7 then
     (if has_bit bits 0x1 then (if decide (upd_id_ u = "") then 0 else 1 + StringSize (upd_id_ u)) else 0) +
     (if has_bit bits 0x2 then 1 + StringSize (upd_message_ u) else 0) +
     (if has_bit bits 0x4
      then (if decide (upd_timestamp_utc_ u = 0) then 0 else Int64SizePlusOne (upd_timestamp_utc_ u)) else 0)
   else 0) + unknown_size (upd_unknown_fields u).

(** ** Theorems *)

(** A field whose bit is clear holds its default. *)
Record update_wf u : Prop := {
  uwf_id : has_bit (upd_has_bits u) 0x1 = false -> upd_id_ u = "";
  uwf_message : has_bit (upd_has_bits u) 0x2 = false -> upd_message_ u = "";
  uwf_timestamp : has_bit (upd_has_bits u) 0x4 = false -> upd_timestamp_utc_ u = 0
}.

Ltac solve_update_wf :=
  intros []; split; simpl; rewrite ?has_bit_lor, ?has_bit_ldiff by done; simpl;
  rewrite ?orb_false_r, ?orb_true_r; auto; try discriminate.

Lemma update_new_wf : update_wf update_new.
Proof. by split. Qed.
Lemma upd_set_id_wf v u : update_wf u -> update_wf (upd_set_id v u).
Proof. solve_update_wf. Qed.
Lemma upd_set_message_wf v u : update_wf u -> update_wf (upd_set_message v u).
Proof. solve_update_wf. Qed.
Lemma upd_set_timestamp_utc_wf v u : update_wf u -> update_wf (upd_set_timestamp_utc v u).
Proof. solve_update_wf. Qed.
Lemma upd_clear_id_wf u : update_wf u -> update_wf (upd_clear_id u).
Proof. solve_update_wf. Qed.
Lemma upd_clear_message_wf u : update_wf u -> update_wf (upd_clear_message u).
Proof. solve_update_wf. Qed.
Lemma upd_clear_timestamp_utc_wf u : update_wf u -> update_wf (upd_clear_timestamp_utc u).
Proof. solve_update_wf. Qed.

(** Copying is exact, presence of the empty message included. *)
Lemma update_copy_exact to from :
  update_wf to -> update_wf from -> update_CopyFrom to from = from.
Proof.
  intros [A1 A2 A3] [B1 B2 B3].
  assert (Hc : update_Clear to = update_new).
  { unfold update_Clear, update_new. destruct (has_bit (upd_has_bits to) 0x3) eqn:E.
    - f_equal; [destruct (has_bit (upd_has_bits to) 0x1)|destruct (has_bit (upd_has_bits to) 0x2)]; auto.
    - f_equal; [apply A1|apply A2]; by apply (has_bit_sub 0x3). }
  unfold update_CopyFrom. rewrite Hc. unfold update_MergeFrom; simpl. rewrite ufs_merge_default.
  assert (Hs : forall m, Z.land 0x7 m = m -> has_bit (upd_has_bits from) 0x7 = false ->
    has_bit (upd_has_bits from) m = false) by (intros; by apply (has_bit_sub 0x7)).
  destruct from as [bits i msg t uf]; simpl in *.
  destruct (has_bit bits 0x7) eqn:E.
  - f_equal; [destruct (has_bit bits 0x1); [case_decide|symmetry]; auto
             |destruct (has_bit bits 0x2); [|symmetry]; auto
             |destruct (has_bit bits 0x4); [case_decide|symmetry]; auto].
  - rewrite B1, B2, B3 by (apply Hs; done). done.
Qed.

(** The size announced is the size written. *)
Lemma update_size_exact u : slen (update_Serialize u) = update_ByteSizeLong u.
Proof.
  unfold update_Serialize, update_ByteSizeLong. rewrite !slen_app, unknown_bytes_size.
  assert (Hs : forall m, Z.land 0x7 m = m -> has_bit (upd_has_bits u) 0x7 = false ->
    has_bit (upd_has_bits u) m = false) by (intros; by apply (has_bit_sub 0x7)).
  destruct (has_bit (upd_has_bits u) 0x7) eqn:E.
  - destruct (has_bit _ 0x1), (has_bit _ 0x2), (has_bit _ 0x4); repeat case_decide;
      rewrite ?WriteString_size, ?WriteInt64_size by lia; change (slen "") with 0; lia.
  - rewrite !Hs by done. change (slen "") with 0. lia.
Qed.

(** Setting [message] to the empty string is not the same as leaving it unset:
    it is written.  The schema file declares the field without presence. *)
Lemma update_empty_message_written :
  has_message (upd_set_message "" update_new) = true /\ has_message update_new = false /\
  slen (update_Serialize (upd_set_message "" update_new)) = 1 + StringSize "" + slen (update_Serialize update_new).
Proof.
  split_and!; [done|done|]. rewrite !update_size_exact. unfold update_ByteSizeLong. simpl.
  cbn [has_bit Z.land Z.eqb negb]. lia.
Qed.

End update.
