(* ===== verification/ProtoWire.v ===== *)
(** * A runtime for the generated code

    The interface [ProtoRuntime] / [HeaderParser] instantiated with the
    published protobuf wire format (base-128 varints, length-delimited
    strings, UTF-8 validation), in a runtime that drops unknown fields.  It
    shows that the laws of the interface can hold together, and it makes
    every definition that is stated over the interface executable. *)

From S2P Require Import Prelude MessageHeader Stats.
From Stdlib Require Import Floats.SpecFloat.
#[local] Open Scope Z_scope.

(** ** Bytes and varints *)

Definition byte_of (z : Z) : ascii := ascii_of_N (Z.to_N z).
Definition byte_val (c : ascii) : Z := Z.of_N (N_of_ascii c).

Fixpoint varint (fuel : nat) (z : Z) : string :=
  match fuel with
  | O => ""
  | S fuel => if z <? 128 then String (byte_of z) ""
              else String (byte_of (z mod 128 + 128)) (varint fuel (z / 128))
  end.

(** Ten bytes hold any 64-bit value. *)
Definition encode_varint (z : Z) : string := varint 10 z.

Fixpoint parse_varint (fuel : nat) (s : string) : option (Z * string) :=
  match fuel, s with
  | S fuel, String c s =>
      let b := byte_val c in
      if b <? 128 then Some (b, s)
      else match parse_varint fuel s with
           | Some (v, r) => Some (b - 128 + 128 * v, r)
           | None => None
           end
  | _, _ => None
  end.

Fixpoint str_split (n : nat) (s : string) : option (string * string) :=
  match n, s with
  | O, _ => Some ("", s)
  | S n, String c s => match str_split n s with
                       | Some (a, b) => Some (String c a, b)
                       | None => None
                       end
  | S _, EmptyString => None
  end.

Definition is_cont (c : ascii) : bool := (128 <=? byte_val c) && (byte_val c <=? 191).

Fixpoint valid_utf8 (s : string) : bool :=
  match s with
  | EmptyString => true
  | String c s =>
      let b := byte_val c in
      if b <? 128 then valid_utf8 s
      else if (194 <=? b) && (b <=? 223) then
        match s with String c1 s => is_cont c1 && valid_utf8 s | _ => false end
      else if (224 <=? b) && (b <=? 239) then
        match s with
        | String c1 (String c2 s) =>
            is_cont c1 && is_cont c2 &&
            (if b =? 224 then 160 <=? byte_val c1 else true) &&
            (if b =? 237 then byte_val c1 <=? 159 else true) && valid_utf8 s
        | _ => false
        end
      else if (240 <=? b) && (b <=? 244) then
        match s with
        | String c1 (String c2 (String c3 s)) =>
            is_cont c1 && is_cont c2 && is_cont c3 &&
            (if b =? 240 then 144 <=? byte_val c1 else true) &&
            (if b =? 244 then byte_val c1 <=? 143 else true) && valid_utf8 s
        | _ => false
        end
      else false
  end.

(** ** The runtime *)

Lemma encode_varint_small z : 0 <= z < 128 -> slen (encode_varint z) = 1.
Proof.
  intros Hz. unfold encode_varint; simpl. by rewrite (proj2 (Z.ltb_lt z 128)) by lia.
Qed.

#[export] Program Instance wire_runtime : ProtoRuntime := {|
  UnknownFieldSet := unit;
  ufs_default_instance := tt;
  ufs_have_unknown_fields := fun _ => false;
  ufs_MergeFrom := fun _ u => u;
  ufs_SerializeToArray := fun _ => "";
  ufs_ByteSize := fun _ => 0;
  WriteString := fun n s => encode_varint (n * 8 + 2) +:+ encode_varint (slen s) +:+ s;
  WriteInt32 := fun n v => encode_varint (n * 8) +:+ encode_varint (u64 v);
  StringSize := fun s => slen (encode_varint (slen s)) + slen s;
  Int32SizePlusOne := fun v => 1 + slen (encode_varint (u64 v))
|}.
Next Obligation. done. Qed.
Next Obligation. done. Qed.
Next Obligation. done. Qed.
Next Obligation.
  intros n s Hn; simpl. rewrite !slen_app, encode_varint_small by lia. lia.
Qed.
Next Obligation.
  intros n v Hn; simpl. rewrite !slen_app, encode_varint_small by lia. lia.
Qed.

(** ** The parser *)

Definition set_string_field (n : Z) (v : string) (h : MessageHeader) : MessageHeader :=
  if n =? 1 then set_handler_key v h else if n =? 2 then set_sender_id v h
  else if n =? 3 then set_topic v h else if n =? 5 then set_origin_broker_id v h
  else if n =? 6 then set_message_uuid v h else if n =? 7 then set_transfer_id v h
  else if n =? 11 then set_reply_topic v h else h.

Definition is_string_field (n : Z) : bool := bool_decide (n ∈ [1; 2; 3; 5; 6; 7; 11]).

Definition set_int_field (n v : Z) (h : MessageHeader) : MessageHeader :=
  if n =? 8 then set_sequence_number (i32 v) h
  else if n =? 9 then set_sequence_count (i32 v) h else h.

(** One tag and its value. *)
Definition parse_field (s : string) (h : MessageHeader) : option (string * MessageHeader) :=
  match parse_varint 10 s with
  | None => None
  | Some (tag, s) =>
      match parse_varint 10 s with
      | None => None
      | Some (v, s) =>
          if tag mod 8 =? 0 then Some (s, set_int_field (tag / 8) v h)
          else if tag mod 8 =? 2 then
            match str_split (Z.to_nat v) s with
            | None => None
            | Some (x, s) =>
                if negb (is_string_field (tag / 8)) || valid_utf8 x
                then Some (s, set_string_field (tag / 8) x h) else None
            end
          else None
      end
  end.

Fixpoint parse_fields (fuel : nat) (s : string) (h : MessageHeader) : option MessageHeader :=
  match s with
  | EmptyString => Some h
  | String _ _ =>
      match fuel with
      | O => None
      | S fuel => match parse_field s h with
                  | Some (s', h') => parse_fields fuel s' h'
                  | None => None
                  end
      end
  end.

Definition parse_from (s : string) (h : MessageHeader) : option MessageHeader :=
  parse_fields (String.length s) s h.

(** ** Lemmas *)

Lemma byte_val_of z : 0 <= z < 256 -> byte_val (byte_of z) = z.
Proof.
  intros Hz. unfold byte_val, byte_of. rewrite N_ascii_embedding by lia. lia.
Qed.

Lemma parse_varint_encode fuel z rest :
  0 <= z < 128 ^ Z.of_nat fuel ->
  (fuel <> 0)%nat ->
  parse_varint fuel (varint fuel z +:+ rest) = Some (z, rest).
Proof.
  revert z. induction fuel as [|fuel IH]; intros z Hz Hf; [done|].
  simpl. destruct (Z.ltb_spec z 128) as [Hlt|Hge]; rewrite string_app_cons; simpl.
  - rewrite byte_val_of by lia. by rewrite (proj2 (Z.ltb_lt _ _)) by lia.
  - pose proof (Z.mod_pos_bound z 128). rewrite byte_val_of by lia.
    rewrite (proj2 (Z.ltb_ge _ _)) by lia.
    rewrite Nat2Z.inj_succ, Z.pow_succ_r in Hz by lia.
    assert (Hq : z / 128 < 128 ^ Z.of_nat fuel) by (apply Z.div_lt_upper_bound; lia).
    assert (1 <= z / 128) by (apply Z.div_le_lower_bound; lia).
    rewrite IH; [|lia|intros ->; simpl in *; lia].
    do 2 f_equal. rewrite (Z.div_mod z 128) at 3 by lia. lia.
Qed.

Lemma parse_varint_10 z rest :
  0 <= z < 2 ^ 64 -> parse_varint 10 (encode_varint z +:+ rest) = Some (z, rest).
Proof. intros Hz. apply parse_varint_encode; [|done]. simpl. lia. Qed.

Lemma parse_varint_length fuel s v r :
  parse_varint fuel s = Some (v, r) -> (String.length r < String.length s)%nat.
Proof.
  revert s v r. induction fuel as [|fuel IH]; intros [|c s] v r Hp; simpl in *; try done.
  destruct (_ <? _); [simplify_eq; lia|].
  destruct (parse_varint fuel s) as [[v' r']|] eqn:E; simplify_eq. apply IH in E. lia.
Qed.

Lemma str_split_length n s a b :
  str_split n s = Some (a, b) -> (String.length b <= String.length s)%nat.
Proof.
  revert s a b. induction n as [|n IH]; intros [|c s] a b Hp; simpl in *; simplify_eq; try done.
  destruct (str_split n s) as [[a' b']|] eqn:E; simplify_eq. apply IH in E. lia.
Qed.

Lemma str_split_app s rest : str_split (String.length s) (s +:+ rest) = Some (s, rest).
Proof.
  induction s as [|c s IH]; [done|]. rewrite string_app_cons; simpl. by rewrite IH.
Qed.

Lemma parse_field_length s h r h' :
  parse_field s h = Some (r, h') -> (String.length r < String.length s)%nat.
Proof.
  unfold parse_field.
  destruct (parse_varint 10 s) as [[tag s1]|] eqn:E1; [|done].
  destruct (parse_varint 10 s1) as [[v s2]|] eqn:E2; [|done].
  apply parse_varint_length in E1, E2.
  repeat case_match; intros; simplify_eq; try lia.
  match goal with H : str_split _ _ = Some _ |- _ => apply str_split_length in H end. lia.
Qed.

Lemma parse_fields_fuel f1 f2 s h :
  (String.length s <= f1)%nat -> (String.length s <= f2)%nat ->
  parse_fields f1 s h = parse_fields f2 s h.
Proof.
  revert f2 s h. induction f1 as [|f1 IH]; intros [|f2] [|c s] h H1 H2; simpl in *; try done; try lia.
  destruct (parse_field (String c s) h) as [[r h']|] eqn:E; [|done].
  apply parse_field_length in E. simpl in E. apply IH; lia.
Qed.

Lemma parse_from_step s h r h' :
  parse_field s h = Some (r, h') -> parse_from s h = parse_from r h'.
Proof.
  intros E. unfold parse_from.
  destruct s as [|c s]; [done|]. change (String.length (String c s)) with (S (String.length s)).
  cbn [parse_fields]. rewrite E. apply parse_field_length in E. simpl in E.
  apply parse_fields_fuel; lia.
Qed.

#[local] Arguments encode_varint : simpl never.
#[local] Arguments parse_varint : simpl never.

Lemma parse_string_field n s rest h :
  1 <= n <= 15 -> slen s < 2 ^ 31 -> valid_utf8 s = true ->
  parse_field (WriteString n s +:+ rest) h = Some (rest, set_string_field n s h).
Proof.
  intros Hn Hs Hu. unfold parse_field; simpl. rewrite !string_app_assoc.
  pose proof (slen_nonneg s).
  rewrite !parse_varint_10 by lia.
  assert ((n * 8 + 2) mod 8 = 2) as -> by (rewrite Z.add_comm, Z.mod_add; done).
  assert ((n * 8 + 2) / 8 = n) as -> by (rewrite Z.div_add_l by lia; change (2 / 8) with 0; lia).
  simpl. unfold slen. rewrite Nat2Z.id, str_split_app, Hu, orb_true_r. done.
Qed.

Lemma parse_int_field n v rest h :
  1 <= n <= 15 ->
  parse_field (WriteInt32 n v +:+ rest) h = Some (rest, set_int_field n (u64 v) h).
Proof.
  intros Hn. unfold parse_field; simpl. rewrite !string_app_assoc.
  rewrite !parse_varint_10; [|unfold u64; apply Z.mod_pos_bound; lia|lia].
  by rewrite Z.mod_mul, Z.div_mul by lia.
Qed.

Lemma parse_str_field n s rest h :
  1 <= n <= 15 -> slen s < 2 ^ 31 -> valid_utf8 s = true ->
  parse_from (str_field n s +:+ rest) h =
  parse_from rest (if decide (s = "") then h else set_string_field n s h).
Proof.
  intros. unfold str_field. case_decide; [done|].
  by apply parse_from_step, parse_string_field.
Qed.

Lemma i32_u64 v : in_int32 v -> i32 (u64 v) = v.
Proof.
  unfold in_int32, i32, u64. intros Hv.
  assert (Hm : (v mod 2 ^ 64 + 2 ^ 31) mod 2 ^ 32 = (v + 2 ^ 31) mod 2 ^ 32).
  { rewrite (Z.mod_eq v (2 ^ 64)) by lia.
    replace (v - 2 ^ 64 * (v / 2 ^ 64) + 2 ^ 31)
      with (v + 2 ^ 31 + - (2 ^ 32 * (v / 2 ^ 64)) * 2 ^ 32) by ring.
    by rewrite Z.mod_add by lia. }
  rewrite Hm, Z.mod_small; lia.
Qed.

(** Setting a field that holds its default, or skipping it when the value is
    the default, gives the same field values. *)
Ltac solve_opt_set :=
  let E := fresh in intros E ?; case_decide; subst; destruct E; split;
  unfold handler_key, sender_id, topic, origin_broker_id, message_uuid, transfer_id, reply_topic,
    sequence_number, sequence_count in *; simpl; congruence.

Lemma opt_handler_key s h g : h ≡ g -> handler_key g = "" ->
  (if decide (s = "") then h else set_handler_key s h) ≡ set_handler_key s g.
Proof. solve_opt_set. Qed.
Lemma opt_sender_id s h g : h ≡ g -> sender_id g = "" ->
  (if decide (s = "") then h else set_sender_id s h) ≡ set_sender_id s g.
Proof. solve_opt_set. Qed.
Lemma opt_topic s h g : h ≡ g -> topic g = "" ->
  (if decide (s = "") then h else set_topic s h) ≡ set_topic s g.
Proof. solve_opt_set. Qed.
Lemma opt_origin s h g : h ≡ g -> origin_broker_id g = "" ->
  (if decide (s = "") then h else set_origin_broker_id s h) ≡ set_origin_broker_id s g.
Proof. solve_opt_set. Qed.
Lemma opt_uuid s h g : h ≡ g -> message_uuid g = "" ->
  (if decide (s = "") then h else set_message_uuid s h) ≡ set_message_uuid s g.
Proof. solve_opt_set. Qed.
Lemma opt_transfer s h g : h ≡ g -> transfer_id g = "" ->
  (if decide (s = "") then h else set_transfer_id s h) ≡ set_transfer_id s g.
Proof. solve_opt_set. Qed.
Lemma opt_reply s h g : h ≡ g -> reply_topic g = "" ->
  (if decide (s = "") then h else set_reply_topic s h) ≡ set_reply_topic s g.
Proof. solve_opt_set. Qed.
Lemma opt_number v h g : h ≡ g -> sequence_number g = 0 ->
  (if decide (v = 0) then h else set_sequence_number v h) ≡ set_sequence_number v g.
Proof. solve_opt_set. Qed.
Lemma opt_count v h g : h ≡ g -> sequence_count g = 0 ->
  (if decide (v = 0) then h else set_sequence_count v h) ≡ set_sequence_count v g.
Proof. solve_opt_set. Qed.

Lemma parse_int n v rest h :
  n = 8 \/ n = 9 -> in_int32 v ->
  parse_from (int_field n v +:+ rest) h =
  parse_from rest (if decide (v = 0) then h
                   else if n =? 8 then set_sequence_number v h else set_sequence_count v h).
Proof.
  intros Hn Hv. unfold int_field. case_decide; [done|].
  erewrite parse_from_step by (apply parse_int_field; lia).
  unfold set_int_field. rewrite i32_u64 by done. by destruct Hn as [-> | ->].
Qed.

Lemma str_field_small n s : 1 <= n <= 15 -> slen s <= slen (str_field n s).
Proof.
  intros Hn. unfold str_field. case_decide; subst; [done|].
  rewrite WriteString_size by done. simpl. pose proof (slen_nonneg (encode_varint (slen s))). lia.
Qed.

Lemma parse_serialize h :
  header_wf h -> header_encodable valid_utf8 h ->
  exists h', parse_from (SerializeAsString h) header_new = Some h' /\ h' ≡ h.
Proof.
  intros Hw [Hutf Hn Hc Hsz]. rewrite SerializeAsString_wf in Hsz |- * by done.
  cbn [ufs_have_unknown_fields wire_runtime]. cbn [ufs_have_unknown_fields wire_runtime] in Hsz.
  rewrite !slen_app in Hsz.
  repeat match type of Hutf with
  | Forall _ (_ :: _) => apply Forall_cons in Hutf as [?U Hutf]
  end.
  pose proof (str_field_small 1 (handler_key h)). pose proof (str_field_small 2 (sender_id h)).
  pose proof (str_field_small 3 (topic h)). pose proof (str_field_small 5 (origin_broker_id h)).
  pose proof (str_field_small 6 (message_uuid h)). pose proof (str_field_small 7 (transfer_id h)).
  pose proof (str_field_small 11 (reply_topic h)).
  pose proof (slen_nonneg (int_field 8 (sequence_number h))).
  pose proof (slen_nonneg (int_field 9 (sequence_count h))).
  pose proof (slen_nonneg (handler_key h)). pose proof (slen_nonneg (sender_id h)).
  pose proof (slen_nonneg (topic h)). pose proof (slen_nonneg (origin_broker_id h)).
  pose proof (slen_nonneg (message_uuid h)). pose proof (slen_nonneg (transfer_id h)).
  pose proof (slen_nonneg (reply_topic h)).
  change (slen "") with 0 in Hsz.
  do 6 (rewrite parse_str_field; [|lia|lia|done]).
  do 2 (rewrite parse_int; [|lia|done]).
  rewrite parse_str_field; [|lia|lia|done].
  eexists. split; [reflexivity|]. cbn [set_string_field Z.eqb Pos.eqb].
  etrans.
  { eapply opt_reply; [eapply opt_count; [eapply opt_number; [eapply opt_transfer;
      [eapply opt_uuid; [eapply opt_origin; [eapply opt_topic; [eapply opt_sender_id;
        [eapply opt_handler_key; [reflexivity|]|]|]|]|]|]|]|]|]; reflexivity. }
  by destruct (_unknown_fields_ h) eqn:E; split.
Qed.

Lemma parse_field_wf s h r h' : header_wf h -> parse_field s h = Some (r, h') -> header_wf h'.
Proof.
  intros Hw. unfold parse_field, set_int_field, set_string_field.
  repeat case_match; intros; simplify_eq; eauto with wisp.
Qed.

Lemma parse_fields_wf fuel s h h' :
  header_wf h -> parse_fields fuel s h = Some h' -> header_wf h'.
Proof.
  revert s h. induction fuel as [|fuel IH]; intros [|c s] h Hw Hp; cbn [parse_fields] in Hp; simplify_eq; try done.
  destruct (parse_field (String c s) h) as [[r h1]|] eqn:E; [|done].
  eapply IH; [|done]. by eapply parse_field_wf.
Qed.

#[export] Program Instance wire_parser : HeaderParser := {|
  IsStructurallyValidUTF8 := valid_utf8;
  ParseFromArray := fun b => parse_from b header_new
|}.
Next Obligation. intros b h Hp. by apply (parse_fields_wf _ _ _ _ header_new_wf Hp). Qed.
Next Obligation. exact parse_serialize. Qed.

(** ** The rest of the runtime: doubles, nested messages, [Any] *)

(** The 64 bits of a double. *)
Definition double_bits (v : spec_float) : Z :=
  let sign (b : bool) := if b then 2 ^ 63 else 0 in
  match v with
  | S754_zero b => sign b
  | S754_infinity b => sign b + 2047 * 2 ^ 52
  | S754_nan => 2047 * 2 ^ 52 + 2 ^ 51
  | S754_finite b m e =>
      sign b + (if 2 ^ 52 <=? Zpos m then (e + 1075) * 2 ^ 52 + (Zpos m - 2 ^ 52) else Zpos m)
  end.

Fixpoint fixed_bytes (n : nat) (z : Z) : string :=
  match n with
  | O => ""
  | S n => String (byte_of (z mod 256)) (fixed_bytes n (z / 256))
  end.

Definition any_prefix (name : string) : string :=
  WriteString 1 ("type.googleapis.com/" +:+ name).

Definition any_pack (name body : string) : string :=
  any_prefix name +:+ (if decide (body = "") then "" else WriteString 2 body).

Definition any_unpack (name b : string) : option string :=
  match str_split (String.length (any_prefix name)) b with
  | Some (p, rest) =>
      if decide (p = any_prefix name) then
        if decide (rest = "") then Some ""
        else match parse_varint 10 rest with
             | Some (tag, rest) =>
                 if tag =? 18 then
                   match parse_varint 10 rest with
                   | Some (n, rest) => match str_split (Z.to_nat n) rest with
                                       | Some (body, "") => Some body
                                       | _ => None
                                       end
                   | None => None
                   end
                 else None
             | None => None
             end
      else None
  | None => None
  end.

Lemma fixed_bytes_length n z : slen (fixed_bytes n z) = Z.of_nat n.
Proof.
  revert z. induction n as [|n IH]; intros z; [done|]. unfold slen in *. simpl.
  specialize (IH (z / 256)). lia.
Qed.

Lemma any_unpack_pack name body : slen body < 2 ^ 31 -> any_unpack name (any_pack name body) = Some body.
Proof.
  intros Hb. unfold any_unpack, any_pack. rewrite str_split_app, decide_True by done.
  destruct (decide (body = "")) as [->|Hne]; [done|].
  cbn [WriteString wire_runtime]. pose proof (slen_nonneg body).
  rewrite decide_False.
  2: { intros E. apply (f_equal slen) in E. rewrite !slen_app, encode_varint_small in E by lia.
       pose proof (slen_nonneg (encode_varint (slen body))). change (slen "") with 0 in E. lia. }
  rewrite parse_varint_10 by lia. cbn [Z.eqb Z.mul Z.add Pos.eqb Pos.mul Pos.add].
  rewrite parse_varint_10 by lia. unfold slen. rewrite Nat2Z.id.
  pose proof (str_split_app body "") as K. rewrite string_app_nil_r in K. by rewrite K.
Qed.

#[export] Program Instance wire_stats : StatsRuntime := {|
  WriteInt64 := fun n v => encode_varint (n * 8) +:+ encode_varint (u64 v);
  WriteDouble := fun n v => encode_varint (n * 8 + 1) +:+ fixed_bytes 8 (double_bits v);
  InternalWriteMessage := fun n size body =>
    encode_varint (n * 8 + 2) +:+ encode_varint size +:+ body;
  Int64SizePlusOne := fun v => 1 + slen (encode_varint (u64 v));
  LengthDelimitedSize := fun size => slen (encode_varint size) + size;
  AnyPack := any_pack;
  AnyUnpack := any_unpack
|}.
Next Obligation. intros n v Hn; simpl. rewrite !slen_app, encode_varint_small by lia. lia. Qed.
Next Obligation.
  intros n v Hn. cbv beta. rewrite slen_app, fixed_bytes_length, encode_varint_small by lia. lia.
Qed.
Next Obligation. intros n b Hn; simpl. rewrite !slen_app, encode_varint_small by lia. lia. Qed.
Next Obligation. exact any_unpack_pack. Qed.
Next Obligation.
  intros name body E. unfold any_pack, any_prefix in E. apply (f_equal slen) in E.
  rewrite slen_app, WriteString_size in E by lia. cbn [StringSize wire_runtime] in E.
  pose proof (slen_nonneg (encode_varint (slen ("type.googleapis.com/" +:+ name)))).
  pose proof (slen_nonneg ("type.googleapis.com/" +:+ name)).
  pose proof (slen_nonneg (if decide (body = "") then "" else WriteString 2 body)).
  change (slen "") with 0 in E. lia.
Qed.

(** ** Witnesses for the header theorems *)

Definition sample_header : MessageHeader :=
  set_topic "lights" (set_sender_id "client1" (set_handler_key "lights" header_new)).

Lemma sample_header_wf : header_wf sample_header.
Proof. unfold sample_header. eauto with wisp. Qed.

Lemma sample_header_encodable : header_encodable valid_utf8 sample_header.
Proof.
  split; [repeat constructor|by vm_compute|by vm_compute|by vm_compute].
Qed.

Lemma header_size_exact_witness :
  slen (SerializeAsString sample_header) = ByteSizeLong sample_header /\
  ByteSizeLong sample_header = 25.
Proof. split; [apply (header_size_exact sample_header)|by vm_compute]. Defined.

Lemma header_copy_exact_witness :
  header_CopyFrom (set_reply_topic "r" sample_header) sample_header = sample_header.
Proof.
  apply (header_copy_exact (set_reply_topic "r" sample_header) sample_header true).
  - apply set_reply_topic_wf, sample_header_wf.
  - apply sample_header_wf.
Defined.
