(* ===== verification/Payload.v ===== *)
(** * Payload encoding ([common/connectionmanager.h], namespace [detail])

    How a C++ value becomes the payload frame and back.  The compile-time
    dispatch on the value's type is a constructor of [payload_codec]; a
    protobuf message class is given by its name, serializer and parser. *)

From S2P Require Import Prelude MessageHeader Stats CppString.
#[local] Open Scope Z_scope.

(** [google::protobuf::Any] on the receiving side: the type url of bytes that
    parse as an [Any]. *)
Class AnyRuntime `{StatsRuntime} := {
  AnyTypeUrl : string -> option string;
  AnyTypeUrl_pack : forall name body, slen body < 2 ^ 31 ->
    slen name < 2 ^ 30 ->
    AnyTypeUrl (AnyPack name body) = Some ("type.googleapis.com/" +:+ name);
  (** [Is<T>] compares the type name after the last slash *)
  AnyUnpack_is : forall name other body, slen body < 2 ^ 31 -> slen other < 2 ^ 30 ->
    slen name < 2 ^ 30 -> no_char "/"%char name -> no_char "/"%char other -> name <> other ->
    AnyUnpack name (AnyPack other body) = None
}.

Inductive payload_codec : Type -> Type :=
  | CodecCustom {T} (serialize : T -> string) (deserialize : string -> option T) : payload_codec T
  | CodecProto {T} (name : string) (serialize : T -> string) (parse : string -> option T) :
      payload_codec T
  | CodecString : payload_codec string
  | CodecStruct {T} (sizeof : Z) (bytes : T -> string) (copy : string -> T) : payload_codec T.

Section payload.
Context `{AnyRuntime}.

Definition tryUnpack {T} (name : string) (parse : string -> option T) (raw : string) : option T :=
  match AnyTypeUrl raw with
  | Some url =>
      if str_starts_with "type.googleapis.com/" url then
        match AnyUnpack name raw with Some body => parse body | None => None end
      else parse raw
  | None => parse raw
  end.

Definition encodePayload {T} (k : payload_codec T) : T -> string :=
  match k with
  | CodecCustom serialize _ => serialize
  | CodecProto name serialize _ => fun v => AnyPack name (serialize v)
  | CodecString => fun v => v
  | CodecStruct _ bytes _ => bytes
  end.

(** [None] is the result false; an exception of a custom deserializer is
    caught. *)
Definition decodePayload {T} (k : payload_codec T) (raw : string) : option T :=
  match k in payload_codec T return option T with
  | CodecCustom _ deserialize => deserialize raw
  | CodecProto name _ parse => tryUnpack name parse raw
  | CodecString => Some raw
  | CodecStruct sizeof _ copy => if decide (slen raw <> sizeof) then None else Some (copy raw)
  end.

(** What the code relies on for a type: its serializer and parser are inverse,
    its bytes are [sizeof] many. *)
Definition codec_lawful {T} (k : payload_codec T) : T -> Prop :=
  match k in payload_codec T return T -> Prop with
  | CodecCustom serialize deserialize => fun v => deserialize (serialize v) = Some v
  | CodecProto name serialize parse => fun v =>
      parse (serialize v) = Some v /\ slen (serialize v) < 2 ^ 31 /\ slen name < 2 ^ 30
  | CodecString => fun _ => True
  | CodecStruct sizeof bytes copy => fun v => slen (bytes v) = sizeof /\ copy (bytes v) = v
  end.

(** The callback built by the typed [registerCallback]: decode, then call. *)
Definition typed_callback {St T} (k : payload_codec T) (func : T -> M St unit) (raw : string) :
    M St unit :=
  match decodePayload k raw with
  | Some value => func value
  | None => mret tt
  end.

(** The other overloads of [registerCallback]: a member function with an
    argument, and functions without one, for which the payload is ignored; an
    empty [std::function] is not called. *)
Definition member_callback {St T Inst} (k : payload_codec T) (method : Inst -> T -> M St unit)
    (instance : Inst) : string -> M St unit := typed_callback k (method instance).

Definition function_callback {St} (func : M St unit) (raw : string) : M St unit := func.

Definition void_callback {St} (callback : option (M St unit)) (raw : string) : M St unit :=
  match callback with Some f => f | None => mret tt end.

Definition member_void_callback {St Inst} (method : Inst -> M St unit) (instance : Inst) :
    string -> M St unit := void_callback (Some (method instance)).

Lemma decode_encodePayload {T} (k : payload_codec T) v :
  codec_lawful k v -> decodePayload k (encodePayload k v) = Some v.
Proof.
  destruct k as [T ser des|T name ser parse| |T size bytes copy]; simpl; try done.
  - intros (Hp & Hs & Hn). unfold tryUnpack. rewrite AnyTypeUrl_pack by done.
    rewrite prefix_app. by rewrite AnyUnpack_pack.
  - intros [Hs Hc]. rewrite decide_False by tauto. by rewrite Hc.
Qed.

(** A value sent with [sendMessage] or [replyToSender] is what the typed
    callback of a receiver with the same type is called with, for all four
    kinds of types. *)
Theorem payload_roundtrip {St T} (k : payload_codec T) v (func : T -> M St unit) :
  codec_lawful k v -> typed_callback k func (encodePayload k v) = func v.
Proof. intros Hk. unfold typed_callback. by rewrite decode_encodePayload. Qed.

(** A packed message of another type never reaches a typed callback: the
    mismatch is a failure, the envelope bytes are not re-parsed as the
    expected type, even if they would parse. *)
Theorem payload_type_mismatch {St T U} name other (ser : T -> string) (parse : string -> option T)
    (ser' : U -> string) (parse' : string -> option U) v (func : T -> M St unit) :
  codec_lawful (CodecProto other ser' parse') v -> slen name < 2 ^ 30 ->
  no_char "/"%char name -> no_char "/"%char other -> name <> other ->
  typed_callback (CodecProto name ser parse) func
    (encodePayload (CodecProto other ser' parse') v) = mret tt.
Proof.
  intros (_ & Hs & Hl) Hsz Hn Ho Hne. unfold typed_callback; simpl. unfold tryUnpack.
  rewrite AnyTypeUrl_pack by done. rewrite prefix_app. by rewrite AnyUnpack_is.
Qed.

End payload.
