(* ===== verification/Wire.v ===== *)
(** * Wire framing ([common/wireframe.h], [zmq.hpp])

    A message in process is an [Envelope]: a routing header and an opaque
    payload.  On the wire it is a multipart message: the header frame (a
    format byte and the encoded header) and, when the payload is not empty,
    the payload frame.

    libzmq is not part of the repository: [ZmqSocket] is its C API as the
    wrapper class [zmq::socket_t] uses it.  The laws are its documented
    behaviour: a multipart message is handed over as a whole or not at all,
    only its first frame can be refused, and frames of a received message come
    out in order with [ZMQ_RCVMORE] telling whether more of them follow. *)

From S2P Require Import Prelude MessageHeader.

Definition EAGAIN : Z := 11.

(** ** The socket API *)

Class ZmqSocket (S : Type) := {
  (** [zmq_msg_send(frame, ZMQ_DONTWAIT | ZMQ_SNDMORE?)]: [None] or an errno *)
  zmq_msg_send : S -> string -> bool -> S * option Z;
  (** [zmq_msg_recv(ZMQ_DONTWAIT?)]: a frame or an errno *)
  zmq_msg_recv : S -> bool -> S * (string + Z);
  (** [ZMQ_RCVMORE] *)
  zmq_rcvmore : S -> bool;
  (** what the two ends can observe: the frames of the message being sent and
      the messages handed over; the unread frames of the message being read
      and the messages waiting *)
  zmq_open : S -> list string;
  zmq_sent : S -> list (list string);
  zmq_current : S -> list string;
  zmq_pending : S -> list (list string);
  zmq_send_rx : forall s f more,
    zmq_current (zmq_msg_send s f more).1 = zmq_current s /\
    zmq_pending (zmq_msg_send s f more).1 = zmq_pending s;
  zmq_send_ok : forall s f more s', zmq_msg_send s f more = (s', None) ->
    if more then zmq_open s' = zmq_open s ++ [f] /\ zmq_sent s' = zmq_sent s
    else zmq_open s' = [] /\ zmq_sent s' = zmq_sent s ++ [zmq_open s ++ [f]];
  zmq_send_err : forall s f more s' e, zmq_msg_send s f more = (s', Some e) ->
    zmq_open s = [] /\ zmq_open s' = [] /\ zmq_sent s' = zmq_sent s;
  zmq_recv_tx : forall s dontwait,
    zmq_open (zmq_msg_recv s dontwait).1 = zmq_open s /\
    zmq_sent (zmq_msg_recv s dontwait).1 = zmq_sent s;
  zmq_recv_more : forall s dontwait f rest, zmq_current s = f :: rest ->
    exists s', zmq_msg_recv s dontwait = (s', inl f) /\
    zmq_current s' = rest /\ zmq_pending s' = zmq_pending s;
  zmq_recv_next : forall s dontwait f rest ms,
    zmq_current s = [] -> zmq_pending s = (f :: rest) :: ms ->
    exists s', zmq_msg_recv s dontwait = (s', inl f) /\
    zmq_current s' = rest /\ zmq_pending s' = ms;
  zmq_recv_again : forall s, zmq_current s = [] -> zmq_pending s = [] ->
    exists s', zmq_msg_recv s true = (s', inr EAGAIN) /\
    zmq_current s' = [] /\ zmq_pending s' = [];
  zmq_rcvmore_spec : forall s, zmq_rcvmore s = true <-> zmq_current s <> [];
  (** a message has at least one frame *)
  zmq_pending_nonempty : forall s, [] ∉ zmq_pending s
}.

Section socket.
Context {S : Type} `{ZmqSocket S}.

(** [socket_base::send]: false on EAGAIN, throws on any other error. *)
Definition socket_send (f : string) (sndmore : bool) : M S bool := fun s =>
  match zmq_msg_send s f sndmore with
  | (s', None) => (s', Ok true)
  | (s', Some e) => if decide (e = EAGAIN) then (s', Ok false) else (s', Throw e)
  end.

(** [socket_base::recv]: nothing on EAGAIN, throws on any other error. *)
Definition socket_recv (dontwait : bool) : M S (option string) := fun s =>
  match zmq_msg_recv s dontwait with
  | (s', inl f) => (s', Ok (Some f))
  | (s', inr e) => if decide (e = EAGAIN) then (s', Ok None) else (s', Throw e)
  end.

Definition socket_rcvmore : M S bool := fun s => (s, Ok (zmq_rcvmore s)).

End socket.

(** ** Codecs *)

Record Envelope `{ProtoRuntime} := mkEnvelope {
  header : MessageHeader;
  payload : string
}.

Section wire.
Context `{HeaderParser}.

(** [enum class Format : uint8_t]: any byte can be cast to it. *)
Definition Format_Protobuf : Z := 1.

Record HeaderCodec := mkCodec {
  codec_format : Z;
  codec_encode : MessageHeader -> string;
  codec_decode : string -> option MessageHeader
}.

Definition ProtobufHeaderCodec : HeaderCodec :=
  mkCodec Format_Protobuf SerializeAsString ParseFromArray.

Definition defaultFormat : Z := Format_Protobuf.

Definition codecFor (format : Z) : option HeaderCodec :=
  if decide (format = Format_Protobuf) then Some ProtobufHeaderCodec else None.

Definition byte_char (z : Z) : ascii := ascii_of_N (Z.to_N z).
Definition char_byte (c : ascii) : Z := Z.of_N (N_of_ascii c).

(** The code dereferences the codec of the default format. *)
Definition encodeHeader (h : MessageHeader) : string :=
  match codecFor defaultFormat with
  | Some codec => String (byte_char (codec_format codec)) (codec_encode codec h)
  | None => ""
  end.

(** The header part of [recv]: format byte, codec, decode. *)
Definition decodeHeaderFrame (frame : string) : option MessageHeader :=
  match frame with
  | EmptyString => None
  | String c rest =>
      match codecFor (char_byte c) with
      | None => None
      | Some codec => codec_decode codec rest
      end
  end.

(** ** Sending and receiving *)

Section io.
Context {S : Type} `{ZmqSocket S}.

Fixpoint drain_loop (fuel : nat) : M S unit :=
  more ← socket_rcvmore;
  if more : bool then
    match fuel with
    | O => mret tt
    | Datatypes.S fuel => _ ← socket_recv false; drain_loop fuel
    end
  else mret tt.

(** One iteration per unread frame of the current message. *)
Definition drainMultipart : M S unit := fun s => drain_loop (length (zmq_current s)) s.

Definition sendFrames (headerFrame payload : string) : M S bool :=
  if decide (payload = "") then socket_send headerFrame false
  else
    ok ← socket_send headerFrame true;
    if negb ok then mret false else socket_send payload false.

Definition send_header (h : MessageHeader) (payload : string) : M S bool :=
  sendFrames (encodeHeader h) payload.

Definition send (env : Envelope) : M S bool := send_header (header env) (payload env).

(** [recv(sock, env, flags)]: [None] where the code returns false. *)
Definition recv (dontwait : bool) : M S (option Envelope) :=
  hf ← socket_recv dontwait;
  match hf with
  | None => mret None
  | Some headerFrame =>
      match decodeHeaderFrame headerFrame with
      | None => _ ← drainMultipart; mret None
      | Some h =>
          more ← socket_rcvmore;
          if more : bool then
            pf ← socket_recv false;
            _ ← drainMultipart;
            mret (Some (mkEnvelope _ h (default "" pf)))
          else mret (Some (mkEnvelope _ h ""))
      end
  end.

(** The multipart message that carries an envelope. *)
Definition payload_frames (p : string) : list string := if decide (p = "") then [] else [p].

Definition wire_frames (env : Envelope) : list string :=
  encodeHeader (header env) :: payload_frames (payload env).

(** ** Lemmas *)

Lemma socket_send_open s f more :
  zmq_open s <> [] ->
  exists s', socket_send f more s = (s', Ok true) /\ zmq_msg_send s f more = (s', None).
Proof.
  intros Ho. unfold socket_send. destruct (zmq_msg_send s f more) as [s' [e|]] eqn:E; [|eauto].
  apply zmq_send_err in E. tauto.
Qed.

(** All or nothing, and the socket is ready for the next message. *)
Lemma sendFrames_spec hf p s s' r :
  zmq_open s = [] -> sendFrames hf p s = (s', r) ->
  zmq_open s' = [] /\ zmq_current s' = zmq_current s /\ zmq_pending s' = zmq_pending s /\
  (r = Ok true /\ zmq_sent s' = zmq_sent s ++ [hf :: payload_frames p] \/
   r <> Ok true /\ zmq_sent s' = zmq_sent s).
Proof.
  intros Ho. unfold sendFrames, payload_frames. case_decide as Hp.
  - unfold socket_send. pose proof (zmq_send_rx s hf false) as [Hc Hq].
    destruct (zmq_msg_send s hf false) as [s1 [e|]] eqn:E; simpl in *.
    + apply zmq_send_err in E as (_ & E1 & E2).
      case_decide; intros [= <- <-]; split_and!; auto; right; auto.
    + apply zmq_send_ok in E as [E1 E2]. rewrite Ho in E2.
      intros [= <- <-]. split_and!; auto.
  - unfold mbind, M_bind, socket_send at 1. pose proof (zmq_send_rx s hf true) as [Hc Hq].
    destruct (zmq_msg_send s hf true) as [s1 [e|]] eqn:E; simpl in *.
    + apply zmq_send_err in E as (_ & E1 & E2).
      case_decide; intros [= <- <-]; split_and!; auto; right; auto.
    + apply zmq_send_ok in E as [E1 E2]. rewrite Ho in E1. simpl in E1.
      destruct (socket_send_open s1 p false) as (s2 & Es & E3); [by rewrite E1|].
      rewrite Es. intros [= <- <-].
      pose proof (zmq_send_rx s1 p false) as [Hc' Hq']. rewrite E3 in Hc', Hq'.
      apply zmq_send_ok in E3 as [E4 E5]. simpl in *.
      split_and!; [done|congruence|congruence|]. left. by rewrite E5, E2, E1.
Qed.

Lemma rcvmore_false s : zmq_current s = [] -> zmq_rcvmore s = false.
Proof. intros E. apply not_true_iff_false. rewrite zmq_rcvmore_spec. tauto. Qed.

Lemma rcvmore_true s : zmq_current s <> [] -> zmq_rcvmore s = true.
Proof. apply zmq_rcvmore_spec. Qed.

Lemma drain_loop_spec fuel s :
  length (zmq_current s) <= fuel ->
  exists s', drain_loop fuel s = (s', Ok tt) /\ zmq_current s' = [] /\
    zmq_pending s' = zmq_pending s /\ zmq_open s' = zmq_open s /\ zmq_sent s' = zmq_sent s.
Proof.
  revert s. induction fuel as [|fuel IH]; intros s Hl;
    destruct (zmq_current s) as [|f rest] eqn:Ec; simpl in *; try lia.
  - exists s. unfold mbind, M_bind, socket_rcvmore. rewrite rcvmore_false by done. by split_and!.
  - exists s. unfold mbind, M_bind, socket_rcvmore. rewrite rcvmore_false by done. by split_and!.
  - unfold mbind, M_bind, socket_rcvmore. rewrite rcvmore_true by congruence.
    unfold socket_recv. pose proof (zmq_recv_tx s false) as [Ht1 Ht2].
    destruct (zmq_recv_more s false f rest Ec) as (s1 & E1 & E2 & E3).
    rewrite E1 in Ht1, Ht2 |- *. simpl in *.
    destruct (IH s1) as (s' & K1 & K2 & K3 & K4 & K5); [rewrite E2; lia|].
    exists s'. split_and!; congruence.
Qed.

Lemma drainMultipart_spec s :
  exists s', drainMultipart s = (s', Ok tt) /\ zmq_current s' = [] /\
    zmq_pending s' = zmq_pending s /\ zmq_open s' = zmq_open s /\ zmq_sent s' = zmq_sent s.
Proof. by apply drain_loop_spec. Qed.

(** Receiving leaves the send side alone, whatever happens. *)
Section receive_side.
Context (I : S -> Prop) (HI : forall s dontwait, I s -> I (zmq_msg_recv s dontwait).1).

Lemma socket_recv_preserves dontwait : preserves I (socket_recv dontwait).
Proof.
  intros s Hs. unfold socket_recv. specialize (HI s dontwait Hs).
  destruct (zmq_msg_recv s dontwait) as [s' [f|e]]; simpl in *; [done|by case_decide].
Qed.

Lemma socket_rcvmore_preserves : preserves I socket_rcvmore.
Proof. by intros s. Qed.

Lemma drain_loop_preserves fuel : preserves I (drain_loop fuel).
Proof.
  induction fuel as [|fuel IH]; simpl; (apply preserves_bind; [apply socket_rcvmore_preserves|]);
    intros []; auto using preserves_bind, preserves_ret, socket_recv_preserves.
Qed.

Lemma recv_preserves dontwait : preserves I (recv dontwait).
Proof.
  assert (Hd : preserves I drainMultipart) by (intros s; apply drain_loop_preserves).
  unfold recv. apply preserves_bind; [apply socket_recv_preserves|]. intros [hf|]; [|apply preserves_ret].
  case_match.
  - apply preserves_bind; [apply socket_rcvmore_preserves|]. intros [];
    auto using preserves_bind, preserves_ret, socket_recv_preserves.
  - auto using preserves_bind, preserves_ret.
Qed.

End receive_side.

(** What [recv] makes of the next message, whatever its frames are. *)
Definition envelope_of_frames (frames : list string) : option Envelope :=
  match frames with
  | [] => None
  | hf :: rest => match decodeHeaderFrame hf with
                  | None => None
                  | Some h => Some (mkEnvelope _ h (hd "" rest))
                  end
  end.

(** The state after reading the first frame of a message. *)
Lemma recv_after_header dontwait s f s1 :
  zmq_msg_recv s dontwait = (s1, inl f) ->
  zmq_open s1 = zmq_open s -> zmq_sent s1 = zmq_sent s ->
  exists s', recv dontwait s = (s', Ok (envelope_of_frames (f :: zmq_current s1))) /\
    zmq_current s' = [] /\ zmq_pending s' = zmq_pending s1 /\
    zmq_open s' = zmq_open s /\ zmq_sent s' = zmq_sent s.
Proof.
  intros E Ho Hs. unfold recv, mbind, M_bind, socket_recv at 1. rewrite E.
  cbn [envelope_of_frames]. destruct (decodeHeaderFrame f) as [h|]; simpl.
  - destruct (zmq_current s1) as [|p rest] eqn:Ec.
    + unfold socket_rcvmore. rewrite rcvmore_false by done. simpl. exists s1. by split_and!.
    + unfold socket_rcvmore. rewrite rcvmore_true by congruence.
      unfold socket_recv. pose proof (zmq_recv_tx s1 false) as [Ht1 Ht2].
      destruct (zmq_recv_more s1 false p rest Ec) as (s2 & E2 & E3 & E4).
      rewrite E2 in Ht1, Ht2 |- *. simpl in *.
      destruct (drainMultipart_spec s2) as (s3 & D1 & D2 & D3 & D4 & D5). rewrite D1.
      exists s3. split_and!; simpl; try congruence; done.
  - destruct (drainMultipart_spec s1) as (s2 & D1 & D2 & D3 & D4 & D5). rewrite D1.
    exists s2. split_and!; try congruence; done.
Qed.

Lemma recv_next dontwait s g ms :
  zmq_current s = [] -> zmq_pending s = g :: ms ->
  exists s', recv dontwait s = (s', Ok (envelope_of_frames g)) /\
    zmq_current s' = [] /\ zmq_pending s' = ms /\
    zmq_open s' = zmq_open s /\ zmq_sent s' = zmq_sent s.
Proof.
  intros Hc Hp. destruct g as [|f rest].
  { destruct (zmq_pending_nonempty s). rewrite Hp. constructor. }
  destruct (zmq_recv_next s dontwait f rest ms Hc Hp) as (s1 & E1 & E2 & E3).
  pose proof (zmq_recv_tx s dontwait) as [Ht1 Ht2]. rewrite E1 in Ht1, Ht2. simpl in Ht1, Ht2.
  destruct (recv_after_header dontwait s f s1 E1 Ht1 Ht2) as (s' & K1 & K2 & K3 & K4 & K5).
  exists s'. rewrite E2 in K1. split_and!; congruence.
Qed.

(** The receiver on a message whose routing-id frame was read already. *)
Lemma recv_rest dontwait s f rest :
  zmq_current s = f :: rest ->
  exists s', recv dontwait s = (s', Ok (envelope_of_frames (f :: rest))) /\
    zmq_current s' = [] /\ zmq_pending s' = zmq_pending s /\
    zmq_open s' = zmq_open s /\ zmq_sent s' = zmq_sent s.
Proof.
  intros Hc. destruct (zmq_recv_more s dontwait f rest Hc) as (s1 & E1 & E2 & E3).
  pose proof (zmq_recv_tx s dontwait) as [Ht1 Ht2]. rewrite E1 in Ht1, Ht2. simpl in Ht1, Ht2.
  destruct (recv_after_header dontwait s f s1 E1 Ht1 Ht2) as (s' & K1 & K2 & K3 & K4 & K5).
  exists s'. rewrite E2 in K1. split_and!; congruence.
Qed.

Lemma decode_encodeHeader h :
  header_wf h -> header_encodable IsStructurallyValidUTF8 h ->
  exists h', decodeHeaderFrame (encodeHeader h) = Some h' /\ h' ≡ h.
Proof. intros Hw He. apply (ParseFromArray_Serialize h Hw He). Qed.

Lemma envelope_of_wire_frames env :
  header_wf (header env) -> header_encodable IsStructurallyValidUTF8 (header env) ->
  exists h', envelope_of_frames (wire_frames env) = Some (mkEnvelope _ h' (payload env)) /\
    h' ≡ header env.
Proof.
  intros Hw He. destruct (decode_encodeHeader _ Hw He) as (h' & E & Heq).
  exists h'. split; [|done]. unfold envelope_of_frames, wire_frames. rewrite E.
  unfold payload_frames. case_decide as Hp; simpl; by rewrite ?Hp.
Qed.

End io.
End wire.

(** ** A concrete socket

    Two in-memory queues: the first frame of a message is refused with the
    errno the peer table gives for it (EAGAIN for a full pipe, EHOSTUNREACH
    for an unroutable identity), everything else is accepted. *)

Record QueueSocket := mkSocket {
  qs_refuses : string -> option Z;
  qs_open : list string;
  qs_sent : list (list string);
  qs_current : list string;
  qs_pending : list (string * list string)
}.

Definition qs_send (s : QueueSocket) (f : string) (more : bool) : QueueSocket * option Z :=
  match qs_open s, qs_refuses s f with
  | [], Some e => (s, Some e)
  | _, _ =>
      if more then (mkSocket (qs_refuses s) (qs_open s ++ [f]) (qs_sent s) (qs_current s)
                      (qs_pending s), None)
      else (mkSocket (qs_refuses s) [] (qs_sent s ++ [qs_open s ++ [f]]) (qs_current s)
              (qs_pending s), None)
  end.

Definition qs_recv (s : QueueSocket) (dontwait : bool) : QueueSocket * (string + Z) :=
  match qs_current s with
  | f :: rest => (mkSocket (qs_refuses s) (qs_open s) (qs_sent s) rest (qs_pending s), inl f)
  | [] => match qs_pending s with
          | (f, rest) :: ms => (mkSocket (qs_refuses s) (qs_open s) (qs_sent s) rest ms, inl f)
          | [] => (s, inr EAGAIN)
          end
  end.

#[export] Program Instance queue_socket : ZmqSocket QueueSocket := {|
  zmq_msg_send := qs_send;
  zmq_msg_recv := qs_recv;
  zmq_rcvmore := fun s => negb (bool_decide (qs_current s = []));
  zmq_open := qs_open;
  zmq_sent := qs_sent;
  zmq_current := qs_current;
  zmq_pending := fun s => (fun m => m.1 :: m.2) <$> qs_pending s
|}.
Next Obligation. intros s f more. unfold qs_send. by repeat case_match. Qed.
Next Obligation.
  intros s f more s'. unfold qs_send. repeat case_match; intros; simplify_eq/=; auto.
Qed.
Next Obligation.
  intros s f more s' e. unfold qs_send. repeat case_match; intros; simplify_eq/=; auto.
Qed.
Next Obligation. intros s dw. unfold qs_recv. by repeat case_match. Qed.
Next Obligation. intros s dw f rest E. unfold qs_recv. rewrite E. eauto. Qed.
Next Obligation.
  intros s dw f rest ms E. unfold qs_recv. rewrite E.
  destruct (qs_pending s) as [|[f' rest'] ms'] eqn:Ep; simpl; intros; simplify_eq. eauto.
Qed.
Next Obligation.
  intros s E. unfold qs_recv. rewrite E.
  destruct (qs_pending s) eqn:Ep; simpl; intros; simplify_eq. exists s. by rewrite Ep.
Qed.
Next Obligation.
  intros s; simpl. rewrite negb_true_iff, bool_decide_eq_false. done.
Qed.
Next Obligation. intros s (m & ? & _)%list_elem_of_fmap. done. Qed.

(** ** Theorems *)

Section theorems.
Context `{HeaderParser} {S : Type} `{ZmqSocket S}.

(** C18. Round trip: an envelope accepted by [send] is handed over as one
    multipart message, and a receiver that gets that message reads back the
    same payload and a header with the same field values, and is aligned on
    the next message. *)
Theorem wire_roundtrip (env : Envelope) (s s' : S) :
  zmq_open s = [] -> header_wf (header env) ->
  header_encodable IsStructurallyValidUTF8 (header env) ->
  send env s = (s', Ok true) ->
  exists frames, zmq_sent s' = zmq_sent s ++ [frames] /\ zmq_open s' = [] /\
    forall (r : S) rest dontwait, zmq_current r = [] -> zmq_pending r = frames :: rest ->
    exists r' h, recv dontwait r = (r', Ok (Some (mkEnvelope _ h (payload env)))) /\
      h ≡ header env /\ zmq_current r' = [] /\ zmq_pending r' = rest.
Proof.
  intros Ho Hw He Hs. exists (wire_frames env).
  destruct (sendFrames_spec _ _ _ _ _ Ho Hs) as (E1 & _ & _ & [[_ E2]|[E2 _]]); [|done].
  split_and!; [done|done|]. intros r rest dw Hc Hp.
  destruct (envelope_of_wire_frames env Hw He) as (h & Eh & Heq).
  destruct (recv_next dw r _ _ Hc Hp) as (r' & K1 & K2 & K3 & _).
  exists r', h. rewrite <-Eh. by split_and!.
Qed.

(** C19. Frame alignment: whatever frames the next message has (an empty or
    unknown format byte, a header that does not decode, extra frames), [recv]
    returns without an exception, consumes exactly that message, and delivers
    an envelope only when the header decodes. *)
Theorem wire_recv_aligned (s : S) dontwait frames rest :
  zmq_current s = [] -> zmq_pending s = frames :: rest ->
  exists s' o, recv dontwait s = (s', Ok o) /\ zmq_current s' = [] /\ zmq_pending s' = rest /\
    (forall env, o = Some env <->
       exists hf more, frames = hf :: more /\ decodeHeaderFrame hf = Some (header env) /\
         payload env = hd "" more).
Proof.
  intros Hc Hp. destruct (recv_next dontwait s _ _ Hc Hp) as (s' & K1 & K2 & K3 & _).
  exists s', (envelope_of_frames frames). split_and!; try done.
  intros [h p]. unfold envelope_of_frames. destruct frames as [|hf more]; simpl; [naive_solver|].
  destruct (decodeHeaderFrame hf) as [h'|] eqn:Ed; naive_solver.
Qed.

(** A send is all or nothing: either the whole message (header frame and,
    if the payload is not empty, payload frame) is handed over and the call
    returns true, or nothing is handed over and it returns false or throws;
    in both cases the next send starts a new message. *)
Theorem wire_send_atomic (env : Envelope) (s s' : S) r :
  zmq_open s = [] -> send env s = (s', r) ->
  zmq_open s' = [] /\
  (r = Ok true /\ zmq_sent s' = zmq_sent s ++ [wire_frames env] \/
   r <> Ok true /\ zmq_sent s' = zmq_sent s).
Proof.
  intros Ho Hs. destruct (sendFrames_spec _ _ _ _ _ Ho Hs) as (E1 & _ & _ & E2).
  by split.
Qed.

End theorems.
