(* ===== verification/Worker.v ===== *)
(** * The connection worker ([common/zmqworker.{h,cpp}], [common/workerinterface.h])

    One worker owns a DEALER socket and a thread.  Other threads hand it
    envelopes through two bounded queues (control and data); the thread sends
    them, reads what the broker sends, keeps the online / offline state and
    emits heartbeats.

    The worker's state is [ZmqWorker]; the socket and the state of its owner
    complete the world [worker_world] its thread acts on.  The owner is
    reached through the callbacks of [worker_callbacks].  Times are
    nanoseconds of the steady clock, read where the code reads it. *)

From S2P Require Import Prelude Keys MessageHeader SafeQueue Wire.

Definition seconds (n : Z) : Z := (n * 1000000000)%Z.

Definition HEARTBEAT_INTERVAL : Z := seconds 3.
Definition SERVER_TIMEOUT : Z := seconds 10.

Section worker.
Context `{HeaderParser}.

Record ZmqWorker := mkWorker {
  m_config : ConnectionConfig;
  m_running : bool;
  m_controlQueue : SafeQueue Envelope;
  m_outboundQueue : SafeQueue Envelope;
  m_isOnline : bool;
  m_lastRxTime : Z
}.

Definition worker_new (config : ConnectionConfig) : ZmqWorker :=
  mkWorker config false queue_default queue_default false 0.

(** ** Operations called from other threads *)

Definition worker_start (w : ZmqWorker) : ZmqWorker :=
  mkWorker (m_config w) true (m_controlQueue w) (m_outboundQueue w) (m_isOnline w)
    (m_lastRxTime w).

(** Joining the thread is the environment running [run] to its end. *)
Definition worker_stop (w : ZmqWorker) : ZmqWorker :=
  mkWorker (m_config w) false (m_controlQueue w) (m_outboundQueue w) (m_isOnline w)
    (m_lastRxTime w).

Definition set_controlQueue (q : SafeQueue Envelope) (w : ZmqWorker) : ZmqWorker :=
  mkWorker (m_config w) (m_running w) q (m_outboundQueue w) (m_isOnline w) (m_lastRxTime w).

Definition set_outboundQueue (q : SafeQueue Envelope) (w : ZmqWorker) : ZmqWorker :=
  mkWorker (m_config w) (m_running w) (m_controlQueue w) q (m_isOnline w) (m_lastRxTime w).

Definition set_isOnline (b : bool) (w : ZmqWorker) : ZmqWorker :=
  mkWorker (m_config w) (m_running w) (m_controlQueue w) (m_outboundQueue w) b (m_lastRxTime w).

Definition set_lastRxTime (t : Z) (w : ZmqWorker) : ZmqWorker :=
  mkWorker (m_config w) (m_running w) (m_controlQueue w) (m_outboundQueue w) (m_isOnline w) t.

(** Both are one timed push (100 ms). *)
Definition writeMessage (msg : Envelope) (w : ZmqWorker) : ZmqWorker * bool :=
  let '(q, ok) := push_for msg (m_outboundQueue w) in (set_outboundQueue q w, ok).

Definition writeControlMessage (msg : Envelope) (w : ZmqWorker) : ZmqWorker * bool :=
  let '(q, ok) := push_for msg (m_controlQueue w) in (set_controlQueue q w, ok).

(** ** The thread *)

Context {X S : Type} `{ZmqSocket S}.

(** [m_statusCallback], [m_pInboundQueue] and [m_messageCallback]; a null
    pointer or an empty function is [None].  Callbacks may call back into the
    worker, so they act on it as well as on the owner. *)
Record worker_callbacks := mkCallbacks {
  cb_status : option (bool -> ZmqWorker * X -> ZmqWorker * X);
  cb_inboundQueue : option (Envelope -> X -> X);
  cb_message : option (Envelope -> ZmqWorker * X -> ZmqWorker * X)
}.

Record worker_world := mkWorld {
  ww_worker : ZmqWorker;
  ww_owner : X;
  ww_socket : S;
  ww_lastHeartbeat : Z;
  ww_didWork : bool
}.

Definition on_worker (f : ZmqWorker -> ZmqWorker) (w : worker_world) : worker_world :=
  mkWorld (f (ww_worker w)) (ww_owner w) (ww_socket w) (ww_lastHeartbeat w) (ww_didWork w).

Definition put_socket (s : S) (w : worker_world) : worker_world :=
  mkWorld (ww_worker w) (ww_owner w) s (ww_lastHeartbeat w) (ww_didWork w).

Definition set_didWork (b : bool) (w : worker_world) : worker_world :=
  mkWorld (ww_worker w) (ww_owner w) (ww_socket w) (ww_lastHeartbeat w) b.

Definition set_lastHeartbeat (t : Z) (w : worker_world) : worker_world :=
  mkWorld (ww_worker w) (ww_owner w) (ww_socket w) t (ww_didWork w).

Definition on_both (f : ZmqWorker * X -> ZmqWorker * X) (w : worker_world) : worker_world :=
  let '(k, x) := f (ww_worker w, ww_owner w) in
  mkWorld k x (ww_socket w) (ww_lastHeartbeat w) (ww_didWork w).

Definition on_owner (f : X -> X) (w : worker_world) : worker_world :=
  mkWorld (ww_worker w) (f (ww_owner w)) (ww_socket w) (ww_lastHeartbeat w) (ww_didWork w).

Definition with_socket {A} (m : M S A) : M worker_world A := mlift ww_socket put_socket m.

Variable cb : worker_callbacks.

Definition call_status (b : bool) : M worker_world unit :=
  match cb_status cb with
  | Some f => mmodify (on_both (f b))
  | None => mret tt
  end.

Definition sendHeartbeat : M worker_world unit :=
  w ← mget;
  let hb := set_topic "" (set_sender_id (clientId (m_config (ww_worker w)))
              (set_handler_key Keys.HEARTBEAT header_new)) in
  _ ← with_socket (send_header hb "");
  mret tt.

(** The part of [run] before its loop, from the socket on. *)
Definition run_prologue (now : Z) : M worker_world unit :=
  _ ← mmodify (set_lastHeartbeat (now - HEARTBEAT_INTERVAL));
  _ ← mmodify (on_worker (set_isOnline false));
  _ ← mmodify (on_worker (set_lastRxTime now));
  _ ← call_status false;
  mmodify (set_didWork false).

(** [revents & ZMQ_POLLIN]: a message is waiting. *)
Definition zmq_pollin (s : S) : bool := negb (bool_decide (zmq_pending s = [])).

(** A received envelope that is not a heartbeat acknowledgement. *)
Definition dispatch_inbound (env : Envelope) : M worker_world unit :=
  if decide (handler_key (header env) = Keys.HEARTBEAT_ACK) then mret tt
  else match cb_inboundQueue cb with
       | Some push => mmodify (on_owner (push env))
       | None => match cb_message cb with
                 | Some f => mmodify (on_both (f env))
                 | None => mret tt
                 end
       end.

Definition receive_one (now_rx : Z) : M worker_world unit :=
  inbound ← with_socket (recv false);
  match inbound with
  | None => mret tt
  | Some env =>
      _ ← mmodify (set_didWork true);
      _ ← mmodify (on_worker (set_lastRxTime now_rx));
      w ← mget;
      _ ← (if m_isOnline (ww_worker w) then mret tt
           else _ ← mmodify (on_worker (set_isOnline true)); call_status true);
      dispatch_inbound env
  end.

(** [while (q.try_pop(envelope)) send(envelope)]. *)
Fixpoint drain_queue (fuel : nat) (get : ZmqWorker -> SafeQueue Envelope)
    (put : SafeQueue Envelope -> ZmqWorker -> ZmqWorker) : M worker_world unit :=
  w ← mget;
  match try_pop (get (ww_worker w)) with
  | (q, Some env) =>
      _ ← mmodify (on_worker (put q));
      _ ← with_socket (send env);
      _ ← mmodify (set_didWork true);
      match fuel with
      | O => mret tt
      | Datatypes.S fuel => drain_queue fuel get put
      end
  | (_, None) => mret tt
  end.

(** One round per queued envelope. *)
Definition drain_control : M worker_world unit := fun w =>
  drain_queue (length (m_queue (m_controlQueue (ww_worker w)))) m_controlQueue
    set_controlQueue w.

Definition drain_outbound : M worker_world unit := fun w =>
  drain_queue (length (m_queue (m_outboundQueue (ww_worker w)))) m_outboundQueue
    set_outboundQueue w.

Definition heartbeat_if_due (now : Z) : M worker_world unit :=
  w ← mget;
  if decide (now - ww_lastHeartbeat w > HEARTBEAT_INTERVAL)%Z
  then _ ← sendHeartbeat; mmodify (set_lastHeartbeat now)
  else mret tt.

Definition offline_if_silent (now : Z) : M worker_world unit :=
  w ← mget;
  if m_isOnline (ww_worker w) && bool_decide (now - m_lastRxTime (ww_worker w) > SERVER_TIMEOUT)%Z
  then _ ← mmodify (on_worker (set_isOnline false)); call_status false
  else mret tt.

(** One iteration of the loop; [now_rx] and [now] are the clock readings. *)
Definition run_iteration (now_rx now : Z) : M worker_world unit :=
  w ← mget;
  _ ← mmodify (set_didWork false);
  _ ← (if zmq_pollin (ww_socket w) then receive_one now_rx else mret tt);
  _ ← drain_control;
  _ ← drain_outbound;
  _ ← heartbeat_if_due now;
  offline_if_silent now.

(** After the loop: the shutdown drain. *)
Definition run_epilogue : M worker_world unit := drain_control.

(** ** What the send side leaves alone *)

(** The online state, the last reception and the owner. *)
Definition worker_core (k : ZmqWorker) : bool * Z := (m_isOnline k, m_lastRxTime k).

Record same_status (w w' : worker_world) : Prop := {
  ss_core : worker_core (ww_worker w') = worker_core (ww_worker w);
  ss_config : m_config (ww_worker w') = m_config (ww_worker w);
  ss_owner : ww_owner w' = ww_owner w;
  ss_heartbeat : ww_lastHeartbeat w' = ww_lastHeartbeat w
}.

#[local] Instance same_status_refl : Reflexive same_status.
Proof. by intros w. Qed.

#[local] Instance same_status_trans : Transitive same_status.
Proof. intros w1 w2 w3 [] []. split; by etrans. Qed.

Lemma with_socket_status {A} (m : M S A) w w' r : with_socket m w = (w', r) -> same_status w w'.
Proof.
  unfold with_socket, mlift. destruct (m (ww_socket w)) as [s r']. intros [= <- <-]. by split.
Qed.

Lemma drain_queue_status fuel get put :
  (forall q k, worker_core (put q k) = worker_core k /\ m_config (put q k) = m_config k) ->
  forall w w' r, drain_queue fuel get put w = (w', r) -> same_status w w'.
Proof.
  intros Hput. induction fuel as [|fuel IH]; intros w w' r; simpl;
    unfold mbind, M_bind, mget, mmodify;
    (destruct (try_pop (get (ww_worker w))) as [q [env|]]; [|by intros [= <- <-]]);
    (destruct (with_socket (send env) (on_worker (put q) w)) as [w1 [b|e]] eqn:E1);
    apply with_socket_status in E1;
    (assert (E2 : same_status w w1);
      [etrans; [|exact E1]; split; simpl; try done; apply Hput|]).
  - intros [= <- <-]. etrans; [exact E2|]. by split.
  - by intros [= <- <-].
  - intros E3%IH. etrans; [exact E2|]. etrans; [|exact E3]. by split.
  - by intros [= <- <-].
Qed.

Lemma drain_control_status w w' r : drain_control w = (w', r) -> same_status w w'.
Proof. by apply drain_queue_status. Qed.

Lemma drain_outbound_status w w' r : drain_outbound w = (w', r) -> same_status w w'.
Proof. by apply drain_queue_status. Qed.

(** The heartbeat changes nothing but the time of the last one. *)
Lemma heartbeat_status now w w' :
  heartbeat_if_due now w = (w', Ok tt) ->
  worker_core (ww_worker w') = worker_core (ww_worker w) /\ ww_owner w' = ww_owner w /\
  (now - ww_lastHeartbeat w' <= HEARTBEAT_INTERVAL)%Z.
Proof.
  unfold heartbeat_if_due, mbind, M_bind, mget. case_decide as Hd.
  - unfold sendHeartbeat, mbind, M_bind, mget, mmodify.
    destruct (with_socket _ w) as [w1 [b|e]] eqn:E1; [|done].
    apply with_socket_status in E1 as []. intros [= <-]. simpl. split_and!; try done.
    unfold HEARTBEAT_INTERVAL, seconds. lia.
  - intros [= <-]. split_and!; try done; lia.
Qed.

(** ** The status machine *)

(** How the owner must behave: it logs every status call, and its other
    callbacks neither touch that log nor the worker's own state. *)
Record logging_owner (log : X -> list bool) : Prop := {
  lo_status : exists f, cb_status cb = Some f /\ forall b k x,
    log (f b (k, x)).2 = log x ++ [b] /\ worker_core (f b (k, x)).1 = worker_core k;
  lo_queue : forall f, cb_inboundQueue cb = Some f -> forall env x, log (f env x) = log x;
  lo_message : forall f, cb_message cb = Some f -> forall env k x,
    log (f env (k, x)).2 = log x /\ worker_core (f env (k, x)).1 = worker_core k
}.

Section status.
Context (log : X -> list bool) (Hlog : logging_owner log).

Lemma call_status_spec b w :
  exists w', call_status b w = (w', Ok tt) /\ log (ww_owner w') = log (ww_owner w) ++ [b] /\
    worker_core (ww_worker w') = worker_core (ww_worker w) /\
    ww_lastHeartbeat w' = ww_lastHeartbeat w.
Proof.
  destruct Hlog as [[f [Hf Hs]] _ _]. unfold call_status. rewrite Hf.
  unfold mmodify, on_both. destruct (Hs b (ww_worker w) (ww_owner w)) as [K1 K2].
  destruct (f b (ww_worker w, ww_owner w)) as [k x]. eexists. split; [reflexivity|]. by simpl.
Qed.

Lemma dispatch_inbound_spec env w w' r :
  dispatch_inbound env w = (w', r) ->
  r = Ok tt /\ log (ww_owner w') = log (ww_owner w) /\
  worker_core (ww_worker w') = worker_core (ww_worker w).
Proof.
  destruct Hlog as [_ Hq Hm]. unfold dispatch_inbound.
  case_decide; [by intros [= <- <-]|].
  destruct (cb_inboundQueue cb) as [f|] eqn:Eq; [intros [= <- <-]; simpl; by rewrite (Hq f)|].
  destruct (cb_message cb) as [f|] eqn:Em; [|by intros [= <- <-]].
  unfold mmodify, on_both. specialize (Hm f eq_refl env (ww_worker w) (ww_owner w)).
  destruct (f env _) as [k x]. by intros [= <- <-].
Qed.

(** The log grows by the status calls of the changes, and only by them. *)
Definition logged (w w' : worker_world) : Prop :=
  log (ww_owner w') = log (ww_owner w) ++
    (if bool_decide (m_isOnline (ww_worker w') = m_isOnline (ww_worker w)) then []
     else [m_isOnline (ww_worker w')]).

Lemma receive_one_logged t w w' :
  receive_one t w = (w', Ok tt) ->
  logged w w' /\ (m_isOnline (ww_worker w) = true -> m_isOnline (ww_worker w') = true).
Proof.
  unfold receive_one, mbind, M_bind.
  destruct (with_socket (recv false) w) as [w1 [o|e]] eqn:E1; [|done].
  apply with_socket_status in E1 as [[= Hon _] _ Hown _].
  destruct o as [env|]; [|intros [= <-]; unfold logged; rewrite Hon, Hown, bool_decide_eq_true_2 by done;
    by rewrite app_nil_r].
  unfold mmodify, mget; simpl. destruct (m_isOnline (ww_worker w1)) eqn:Eo.
  - intros (_ & L & C)%dispatch_inbound_spec. simpl in *. injection C as C1 C2.
    unfold logged. rewrite L, C1, Hown, bool_decide_eq_true_2 by congruence.
    rewrite app_nil_r. split; congruence.
  - destruct (call_status_spec true (on_worker (set_isOnline true)
      (on_worker (set_lastRxTime t) (set_didWork true w1)))) as (w2 & E2 & L2 & C2 & _).
    rewrite E2. intros (_ & L & C)%dispatch_inbound_spec.
    rewrite C2 in C. simpl in *. injection C as C1 C3.
    unfold logged. rewrite L, L2, C1, bool_decide_eq_false_2 by congruence. split; [by rewrite Hown|done].
Qed.

Lemma offline_if_silent_logged t w w' :
  offline_if_silent t w = (w', Ok tt) ->
  logged w w' /\
  (m_isOnline (ww_worker w') = true -> (t - m_lastRxTime (ww_worker w') <= SERVER_TIMEOUT)%Z) /\
  ww_lastHeartbeat w' = ww_lastHeartbeat w.
Proof.
  unfold offline_if_silent, mbind, M_bind, mget, mmodify, logged.
  destruct (m_isOnline (ww_worker w)) eqn:Eo; simpl.
  - case_bool_decide as Ht.
    + destruct (call_status_spec false (on_worker (set_isOnline false) w)) as (w2 & E2 & L2 & C2 & B2).
      rewrite E2. intros [= <-]. simpl in *. injection C2 as C1 C3. by rewrite L2, C1.
    + intros [= <-]. rewrite Eo. simpl. rewrite app_nil_r. split_and!; auto; lia.
  - intros [= <-]. rewrite Eo. simpl. rewrite app_nil_r. done.
Qed.

(** A received message leaves the worker online with a fresh reception time,
    so both changes cannot happen in one iteration unless the clock jumps;
    the log is then extended by both. *)
Definition log_extends (w w' : worker_world) : Prop :=
  exists l, log (ww_owner w') = log (ww_owner w) ++ l /\
    last (m_isOnline (ww_worker w) :: l) = Some (m_isOnline (ww_worker w')) /\
    alternating (m_isOnline (ww_worker w) :: l).

Lemma logged_extends w w' : logged w w' -> log_extends w w'.
Proof.
  unfold logged, log_extends. intros ->. case_bool_decide as Hb.
  - exists []. split_and!; [done|simpl; by rewrite Hb|]. intros [|i] b; simpl; naive_solver.
  - eexists. split_and!; [done|done|]. intros [|[|i]] b; simpl; naive_solver.
Qed.

Lemma log_extends_trans w1 w2 w3 : log_extends w1 w2 -> log_extends w2 w3 -> log_extends w1 w3.
Proof.
  intros (l1 & E1 & L1 & A1) (l2 & E2 & L2 & A2). exists (l1 ++ l2).
  split_and!.
  - by rewrite E2, E1, (assoc_L (++)).
  - destruct l2 as [|b l2]; [simpl in L2; rewrite app_nil_r; congruence|].
    rewrite app_comm_cons, last_app. simpl in *. by rewrite L2.
  - rewrite app_comm_cons. by eapply alternating_app.
Qed.

Lemma same_status_logged w w' : same_status w w' -> logged w w'.
Proof.
  intros [[= C _] _ O _]. unfold logged. rewrite C, O, bool_decide_eq_true_2 by done.
  by rewrite app_nil_r.
Qed.

Lemma run_iteration_spec t_rx t w w' :
  run_iteration t_rx t w = (w', Ok tt) ->
  log_extends w w' /\
  (m_isOnline (ww_worker w') = true -> (t - m_lastRxTime (ww_worker w') <= SERVER_TIMEOUT)%Z) /\
  (t - ww_lastHeartbeat w' <= HEARTBEAT_INTERVAL)%Z.
Proof.
  unfold run_iteration. unfold mbind at 1, M_bind at 1, mget at 1.
  unfold mbind at 1, M_bind at 1, mmodify at 1.
  unfold mbind at 1, M_bind at 1.
  destruct ((if zmq_pollin (ww_socket w) then receive_one t_rx else mret tt)
    (set_didWork false w)) as [w1 [[]|e]] eqn:E1; [|done].
  assert (X1 : log_extends (set_didWork false w) w1).
  { destruct (zmq_pollin (ww_socket w)).
    - by apply logged_extends, (receive_one_logged t_rx).
    - injection E1 as <-. by apply logged_extends, same_status_logged. }
  unfold mbind at 1, M_bind at 1. destruct (drain_control w1) as [w2 [[]|e]] eqn:E2; [|done].
  apply drain_control_status, same_status_logged, logged_extends in E2.
  unfold mbind at 1, M_bind at 1. destruct (drain_outbound w2) as [w3 [[]|e]] eqn:E3; [|done].
  apply drain_outbound_status, same_status_logged, logged_extends in E3.
  unfold mbind at 1, M_bind at 1. destruct (heartbeat_if_due t w3) as [w4 [[]|e]] eqn:E4; [|done].
  apply heartbeat_status in E4 as ([= C4 C4'] & O4 & B4).
  assert (X4 : log_extends w3 w4).
  { apply logged_extends. unfold logged. rewrite C4, O4, bool_decide_eq_true_2 by done.
    by rewrite app_nil_r. }
  intros (L5 & T5 & B5)%offline_if_silent_logged. split_and!; [|done|by rewrite B5].
  apply (log_extends_trans _ w1); [exact X1|]. apply (log_extends_trans _ w2); [done|].
  apply (log_extends_trans _ w3); [done|]. apply (log_extends_trans _ w4); [done|].
  by apply logged_extends.
Qed.

(** The worker's thread, interleaved with other threads that fill its queues
    and with the network. *)
Inductive worker_reach : worker_world -> Prop :=
  | reach_start w now w' :
      log (ww_owner w) = [] -> run_prologue now w = (w', Ok tt) -> worker_reach w'
  | reach_iteration w now_rx now w' :
      worker_reach w -> run_iteration now_rx now w = (w', Ok tt) -> worker_reach w'
  | reach_environment w w' :
      worker_reach w -> worker_core (ww_worker w') = worker_core (ww_worker w) ->
      log (ww_owner w') = log (ww_owner w) -> worker_reach w'.

Lemma worker_reach_inv w :
  worker_reach w ->
  head (log (ww_owner w)) = Some false /\
  last (log (ww_owner w)) = Some (m_isOnline (ww_worker w)) /\
  alternating (log (ww_owner w)).
Proof.
  induction 1 as [w now w' Hl Hp|w t_rx t w' _ IH Hi|w w' _ IH [= C _] L].
  - unfold run_prologue, mbind, M_bind, mmodify in Hp.
    destruct (call_status_spec false (on_worker (set_lastRxTime now)
      (on_worker (set_isOnline false) (set_lastHeartbeat (now - HEARTBEAT_INTERVAL) w))))
      as (w1 & E1 & L1 & C1 & _).
    rewrite E1 in Hp. injection Hp as <-. simpl in *. injection C1 as C1 _.
    rewrite L1, Hl, C1. by split_and!.
  - destruct (run_iteration_spec _ _ _ _ Hi) as [(l & E & L & A) _].
    destruct IH as (I1 & I2 & I3). rewrite E. split_and!.
    + rewrite head_app. by rewrite I1.
    + destruct l as [|b l]; [simpl in L; rewrite app_nil_r; congruence|].
      rewrite last_app. simpl in *. by rewrite L.
    + by eapply alternating_app.
  - by rewrite L, C.
Qed.

End status.

(** ** Sending everything that is queued *)

(** A socket state that keeps accepting. *)
Definition accepting (P : S -> Prop) : Prop :=
  (forall s f more, P s -> exists s', zmq_msg_send s f more = (s', None) /\ P s') /\
  (forall s dontwait, P s -> P (zmq_msg_recv s dontwait).1).

Section sending.
Context (P : S -> Prop) (HP : accepting P).

Lemma sendFrames_accepting hf p s :
  P s -> zmq_open s = [] ->
  exists s', sendFrames hf p s = (s', Ok true) /\ P s' /\ zmq_open s' = [] /\
    zmq_sent s' = zmq_sent s ++ [hf :: payload_frames p].
Proof.
  intros Hs Ho. destruct (sendFrames hf p s) as [s' r] eqn:E.
  destruct (sendFrames_spec _ _ _ _ _ Ho E) as (O & _ & _ & K).
  assert (Hr : r = Ok true /\ P s').
  { clear K. revert E. unfold sendFrames, mbind, M_bind, socket_send.
    destruct HP as [HP1 _]. case_decide.
    - destruct (HP1 s hf false Hs) as (s1 & -> & ?). by intros [= <- <-].
    - destruct (HP1 s hf true Hs) as (s1 & -> & H1s). simpl.
      destruct (HP1 s1 p false H1s) as (s2 & -> & ?). by intros [= <- <-]. }
  destruct Hr as [-> Hs']. exists s'. destruct K as [[_ K]|[K _]]; [|done]. by split_and!.
Qed.

Lemma drain_queue_sends {A} (obs : ZmqWorker -> A) get put :
  (forall q k, get (put q k) = q) -> (forall q k, obs (put q k) = obs k) ->
  forall fuel w, P (ww_socket w) -> zmq_open (ww_socket w) = [] ->
  length (m_queue (get (ww_worker w))) <= fuel ->
  exists w', drain_queue fuel get put w = (w', Ok tt) /\
    P (ww_socket w') /\ zmq_open (ww_socket w') = [] /\
    m_queue (get (ww_worker w')) = [] /\ obs (ww_worker w') = obs (ww_worker w) /\
    zmq_sent (ww_socket w') =
      zmq_sent (ww_socket w) ++ (wire_frames <$> m_queue (get (ww_worker w))).
Proof.
  intros Hgp Hobs. induction fuel as [|fuel IH]; intros w Hs Ho Hl; simpl;
    unfold mbind, M_bind, mget, mmodify, try_pop;
    destruct (m_queue (get (ww_worker w))) as [|env rest] eqn:Eq; simpl in Hl; try lia.
  - exists w. rewrite Eq, app_nil_r. by split_and!.
  - exists w. rewrite Eq, app_nil_r. by split_and!.
  - unfold with_socket, mlift; simpl.
    destruct (sendFrames_accepting (encodeHeader (header env)) (payload env) (ww_socket w) Hs Ho)
      as (s1 & E1 & P1 & O1 & S1).
    unfold send, send_header. rewrite E1.
    edestruct (IH (set_didWork true (put_socket s1 (on_worker (put (mkQueue rest
        (m_stop (get (ww_worker w))) (m_maxSize (get (ww_worker w))))) w))))
      as (w' & K1 & K2 & K3 & K4 & K5 & K6); [done|done|simpl; rewrite Hgp; simpl; lia|].
    exists w'. split_and!; try done; [by rewrite K5; simpl; rewrite Hobs|].
    rewrite K6. simpl. rewrite Hgp, S1. simpl. by rewrite <-(assoc_L (++)).
Qed.

Definition heartbeat_header (config : ConnectionConfig) : MessageHeader :=
  set_topic "" (set_sender_id (clientId config) (set_handler_key Keys.HEARTBEAT header_new)).

Lemma heartbeat_sends now w :
  P (ww_socket w) -> zmq_open (ww_socket w) = [] ->
  exists w', heartbeat_if_due now w = (w', Ok tt) /\ P (ww_socket w') /\
    zmq_open (ww_socket w') = [] /\
    zmq_sent (ww_socket w') = zmq_sent (ww_socket w) ++
      (if decide (now - ww_lastHeartbeat w > HEARTBEAT_INTERVAL)%Z
       then [[encodeHeader (heartbeat_header (m_config (ww_worker w)))]] else []).
Proof.
  intros Hs Ho. unfold heartbeat_if_due, mbind, M_bind, mget. case_decide.
  - unfold sendHeartbeat, mbind, M_bind, mget, mmodify, with_socket, mlift, send_header.
    destruct (sendFrames_accepting (encodeHeader (heartbeat_header (m_config (ww_worker w)))) ""
      (ww_socket w) Hs Ho) as (s1 & E1 & P1 & O1 & S1).
    unfold heartbeat_header in *. rewrite E1. eexists. split; [reflexivity|]. by split_and!.
  - eexists. split; [reflexivity|]. by rewrite app_nil_r.
Qed.

Lemma offline_socket now w :
  exists w', offline_if_silent now w = (w', Ok tt) /\ ww_socket w' = ww_socket w.
Proof.
  unfold offline_if_silent, mbind, M_bind, mget, mmodify, call_status.
  case_match; [|by eexists]. destruct (cb_status cb) as [f|]; [|by eexists].
  unfold mmodify, on_both. destruct (f false _). by eexists.
Qed.

End sending.

(** ** Theorems *)

(** C20. Status callbacks alternate: over any run of the worker's thread,
    interleaved with other threads and the network, the owner is told OFFLINE
    first, then every change of the online state exactly once and nothing
    else: consecutive calls differ and the last one is the current state. *)
Theorem worker_status_alternates (log : X -> list bool) w :
  logging_owner log -> worker_reach log w ->
  head (log (ww_owner w)) = Some false /\
  last (log (ww_owner w)) = Some (m_isOnline (ww_worker w)) /\
  alternating (log (ww_owner w)).
Proof. intros. by apply worker_reach_inv. Qed.

(** Timeouts are enforced by every iteration: when it ends, the worker is
    online only if the broker was heard in the last ten seconds, and a
    heartbeat was sent in the last three. *)
Theorem worker_iteration_timeouts (log : X -> list bool) now_rx now w w' :
  logging_owner log -> run_iteration now_rx now w = (w', Ok tt) ->
  (m_isOnline (ww_worker w') = true ->
     (now - m_lastRxTime (ww_worker w') <= SERVER_TIMEOUT)%Z) /\
  (now - ww_lastHeartbeat w' <= HEARTBEAT_INTERVAL)%Z.
Proof. intros Hlog Hrun. by destruct (run_iteration_spec log Hlog _ _ _ _ Hrun). Qed.

(** What an iteration puts on the wire: on an accepting socket with no
    message waiting, everything queued is sent, control messages before data
    messages and each in FIFO order, followed by a heartbeat exactly when the
    last one is more than three seconds old. *)
Theorem worker_iteration_sends (P : S -> Prop) now_rx now w :
  accepting P -> P (ww_socket w) -> zmq_open (ww_socket w) = [] ->
  zmq_pending (ww_socket w) = [] ->
  exists w', run_iteration now_rx now w = (w', Ok tt) /\
    zmq_sent (ww_socket w') = zmq_sent (ww_socket w) ++
      (wire_frames <$> m_queue (m_controlQueue (ww_worker w)) ++
                       m_queue (m_outboundQueue (ww_worker w))) ++
      (if decide (now - ww_lastHeartbeat w > HEARTBEAT_INTERVAL)%Z
       then [[encodeHeader (heartbeat_header (m_config (ww_worker w)))]] else []).
Proof.
  intros HP Hs Ho Hp. unfold run_iteration.
  unfold mbind at 1, M_bind at 1, mget at 1. unfold mbind at 1, M_bind at 1, mmodify at 1.
  assert (zmq_pollin (ww_socket w) = false) as -> by (unfold zmq_pollin; by rewrite Hp).
  unfold mbind at 1, M_bind at 1, mret at 1, M_ret at 1.
  destruct (drain_queue_sends P HP (fun k => (m_outboundQueue k, m_config k)) m_controlQueue
      set_controlQueue ltac:(done) ltac:(done) _ (set_didWork false w) Hs Ho (le_n _))
    as (w1 & E1 & P1 & O1 & _ & [= B1 B1'] & S1).
  pose proof E1 as [_ _ _ H1b]%drain_queue_status; [|done].
  unfold mbind at 1, M_bind at 1, drain_control. rewrite E1.
  destruct (drain_queue_sends P HP m_config m_outboundQueue
      set_outboundQueue ltac:(done) ltac:(done) _ w1 P1 O1 (le_n _))
    as (w2 & E2 & P2 & O2 & _ & B2 & S2).
  pose proof E2 as [_ _ _ H2b]%drain_queue_status; [|done].
  unfold mbind at 1, M_bind at 1, drain_outbound. rewrite E2.
  destruct (heartbeat_sends P HP now w2 P2 O2) as (w3 & E3 & _ & _ & S3).
  unfold mbind, M_bind. rewrite E3.
  destruct (offline_socket now w3) as (w4 & E4 & S4). exists w4. split; [done|].
  rewrite S4, S3, S2, S1, H2b, H1b, B2, B1', B1. simpl.
  by rewrite fmap_app, <-!(assoc_L (++)).
Qed.

(** The shutdown drain: on an accepting socket every control message still
    queued (the DISCONNECT of a shutdown) is sent before the socket closes. *)
Theorem worker_shutdown_drains (P : S -> Prop) w :
  accepting P -> P (ww_socket w) -> zmq_open (ww_socket w) = [] ->
  exists w', run_epilogue w = (w', Ok tt) /\
    m_queue (m_controlQueue (ww_worker w')) = [] /\
    zmq_sent (ww_socket w') =
      zmq_sent (ww_socket w) ++ (wire_frames <$> m_queue (m_controlQueue (ww_worker w))).
Proof.
  intros HP Hs Ho.
  destruct (drain_queue_sends P HP m_config m_controlQueue set_controlQueue
      ltac:(done) ltac:(done) _ w Hs Ho (le_n _)) as (w1 & E1 & P1 & O1 & Q1 & _ & S1).
  exists w1. by split_and!.
Qed.

End worker.
