(* ===== verification/WorkerPhases.v ===== *)
(** * Phases of a worker's iteration

    The sending half of an iteration of [ZmqWorker::run] ([common/zmqworker.cpp]) on a
    socket that keeps accepting, for any owner of the worker: what is put on the wire
    and what is left alone. *)

From S2P Require Import Prelude Keys SafeQueue MessageHeader Wire Worker.

Section phases.
Context `{HeaderParser} {X S : Type} `{ZmqSocket S} (cb : worker_callbacks (X:=X)).

Implicit Types ww : worker_world (X:=X) (S:=S).

Context (P : S -> Prop) (HP : accepting P).

Record sock_idle (pending : list (list string)) ww : Prop := {
  li_socket : P (ww_socket ww);
  li_open : zmq_open (ww_socket ww) = [];
  li_current : zmq_current (ww_socket ww) = [];
  li_pending : zmq_pending (ww_socket ww) = pending
}.

Lemma send_idle pending env : preserves (sock_idle pending) (with_socket (send env)).
Proof.
  intros ww [K1 K2 K3 K4]. unfold with_socket, mlift.
  destruct (sendFrames_accepting P HP (encodeHeader (Wire.header env)) (Wire.payload env) _ K1 K2)
    as (s' & E & P' & O' & _). unfold send, send_header.
  destruct (sendFrames_spec _ _ _ _ _ K2 E) as (_ & C' & P2' & _). rewrite E. split; simpl; congruence || done.
Qed.

Lemma drain_idle pending fuel get put : preserves (sock_idle pending) (drain_queue fuel get put).
Proof.
  induction fuel as [|fuel IH]; simpl; (apply preserves_bind; [apply preserves_get|]); intros w0;
    destruct (try_pop _) as [q [env|]]; try apply preserves_ret;
    (apply preserves_bind; [by apply preserves_modify; intros ? []|]; intros _;
     apply preserves_bind; [apply send_idle|]; intros _;
     apply preserves_bind; [by apply preserves_modify; intros ? []|]; intros _); [apply preserves_ret|done].
Qed.

Lemma heartbeat_idle pending now ww :
  sock_idle pending ww ->
  exists ww', heartbeat_if_due now ww = (ww', Ok tt) /\ sock_idle pending ww' /\
    ww_worker ww' = ww_worker ww /\ ww_owner ww' = ww_owner ww /\
    ww_lastHeartbeat ww' = (if decide (now - ww_lastHeartbeat ww > HEARTBEAT_INTERVAL)%Z
                            then now else ww_lastHeartbeat ww) /\
    zmq_sent (ww_socket ww') = zmq_sent (ww_socket ww) ++
      (if decide (now - ww_lastHeartbeat ww > HEARTBEAT_INTERVAL)%Z
       then [wire_frames (mkEnvelope _ (heartbeat_header (m_config (ww_worker ww))) "")] else []).
Proof.
  intros Hi. destruct (heartbeat_sends P HP now ww (li_socket _ _ Hi) (li_open _ _ Hi)) as (ww' & E & _ & _ & Es).
  exists ww'. destruct (heartbeat_status now ww ww' E) as (_ & Eo & _).
  split; [done|]. unfold heartbeat_if_due in E. rewrite (bind_ok mget _ ww ww ww) in E by done.
  split_and!; [| |done| |done].
  - case_decide; [|by injection E as <-].
    pose proof (send_idle pending (mkEnvelope _ (heartbeat_header (m_config (ww_worker ww))) "") ww Hi) as K.
    unfold mbind at 1, M_bind at 1, sendHeartbeat, mbind, M_bind, mget in E. unfold send in K.
    change (set_topic "" _) with (heartbeat_header (m_config (ww_worker ww))) in E. simpl in K.
    destruct (with_socket _ ww) as [w1 [b|e]]; [|done]. injection E as <-. by destruct K.
  - case_decide; [|by injection E as <-].
    unfold mbind at 1, M_bind at 1, sendHeartbeat, mbind, M_bind, mget, with_socket, mlift in E.
    destruct (send_header _ _ (ww_socket ww)) as [s1 [b|e]]; [|done]. by injection E as <-.
  - case_decide; [|by injection E as <-].
    unfold mbind at 1, M_bind at 1 in E. destruct (sendHeartbeat ww) as [w1 [[]|e]]; [|done]. by injection E as <-.
Qed.

(** The rest of an iteration after reception, when the broker was heard lately or
    the worker is not online yet. *)
Lemma send_phase pending now ww :
  sock_idle pending ww ->
  (m_isOnline (ww_worker ww) = true -> (now - m_lastRxTime (ww_worker ww) <= SERVER_TIMEOUT)%Z) ->
  exists ww', (_ ← drain_control; _ ← drain_outbound; _ ← heartbeat_if_due now;
      offline_if_silent cb now) ww = (ww', Ok tt) /\
    sock_idle pending ww' /\ m_queue (m_controlQueue (ww_worker ww')) = [] /\
    m_queue (m_outboundQueue (ww_worker ww')) = [] /\ ww_owner ww' = ww_owner ww /\
    m_config (ww_worker ww') = m_config (ww_worker ww) /\
    worker_core (ww_worker ww') = worker_core (ww_worker ww) /\ m_running (ww_worker ww') = m_running (ww_worker ww) /\
    ww_lastHeartbeat ww' = (if decide (now - ww_lastHeartbeat ww > HEARTBEAT_INTERVAL)%Z
                            then now else ww_lastHeartbeat ww) /\
    zmq_sent (ww_socket ww') = zmq_sent (ww_socket ww) ++
      (wire_frames <$> m_queue (m_controlQueue (ww_worker ww)) ++ m_queue (m_outboundQueue (ww_worker ww))) ++
      (if decide (now - ww_lastHeartbeat ww > HEARTBEAT_INTERVAL)%Z
       then [wire_frames (mkEnvelope _ (heartbeat_header (m_config (ww_worker ww))) "")] else []).
Proof.
  intros Hi Hon.
  destruct (drain_queue_sends P HP (fun k => (m_outboundQueue k, m_config k, worker_core k, m_running k)) m_controlQueue
    set_controlQueue ltac:(done) ltac:(done) _ ww (li_socket _ _ Hi) (li_open _ _ Hi) (le_n _))
    as (w1 & E1 & P1 & O1 & Q1 & [= B1 B2 B3 B4 B5] & S1).
  pose proof (drain_idle pending (length (m_queue (m_controlQueue (ww_worker ww)))) m_controlQueue set_controlQueue ww Hi) as I1. rewrite E1 in I1. simpl in I1.
  pose proof E1 as [_ _ W1 H1b]%drain_queue_status; [|done].
  unfold mbind at 1, M_bind at 1, drain_control. rewrite E1.
  destruct (drain_queue_sends P HP (fun k => (m_controlQueue k, m_config k, worker_core k, m_running k)) m_outboundQueue
    set_outboundQueue ltac:(done) ltac:(done) _ w1 P1 O1 (le_n _))
    as (w2 & E2 & P2 & O2 & Q2 & [= C1 C2 C3 C4 C5] & S2).
  pose proof (drain_idle pending (length (m_queue (m_outboundQueue (ww_worker w1)))) m_outboundQueue set_outboundQueue w1 I1) as I2. rewrite E2 in I2. simpl in I2.
  pose proof E2 as [_ _ W2 H2b]%drain_queue_status; [|done].
  unfold mbind at 1, M_bind at 1, drain_outbound. rewrite E2.
  destruct (heartbeat_idle pending now w2 I2) as (w3 & E3 & I3 & K3 & W3 & T3 & S3).
  rewrite (bind_ok _ _ _ _ _ E3). exists w3. split.
  { unfold offline_if_silent. rewrite (bind_ok mget _ w3 w3 w3) by done.
    rewrite K3. replace (m_isOnline (ww_worker w2)) with (m_isOnline (ww_worker ww)) by congruence.
    replace (m_lastRxTime (ww_worker w2)) with (m_lastRxTime (ww_worker ww)) by congruence.
    destruct (m_isOnline (ww_worker ww)); simpl; [|done]. rewrite bool_decide_eq_false_2; [done|].
    specialize (Hon eq_refl). lia. }
  rewrite K3. split_and!; [done|by rewrite C1|done|congruence|congruence|unfold worker_core; congruence|congruence|by rewrite T3, H2b, H1b|].
  rewrite S3, S2, S1, H2b, H1b, C2, B2, B1, fmap_app, <-!(assoc_L (++)). done.
Qed.

(** With nothing queued: only the heartbeat. *)
Lemma idle_phase pending now ww :
  sock_idle pending ww -> m_queue (m_controlQueue (ww_worker ww)) = [] ->
  m_queue (m_outboundQueue (ww_worker ww)) = [] ->
  (m_isOnline (ww_worker ww) = true -> (now - m_lastRxTime (ww_worker ww) <= SERVER_TIMEOUT)%Z) ->
  exists ww', (_ ← drain_control; _ ← drain_outbound; _ ← heartbeat_if_due now;
      offline_if_silent cb now) ww = (ww', Ok tt) /\
    sock_idle pending ww' /\ ww_worker ww' = ww_worker ww /\ ww_owner ww' = ww_owner ww /\
    ww_lastHeartbeat ww' = (if decide (now - ww_lastHeartbeat ww > HEARTBEAT_INTERVAL)%Z
                            then now else ww_lastHeartbeat ww) /\
    zmq_sent (ww_socket ww') = zmq_sent (ww_socket ww) ++
      (if decide (now - ww_lastHeartbeat ww > HEARTBEAT_INTERVAL)%Z
       then [wire_frames (mkEnvelope _ (heartbeat_header (m_config (ww_worker ww))) "")] else []).
Proof.
  intros Hi Hc Ho Hon.
  assert (Ed : forall get put fuel, m_queue (get (ww_worker ww)) = [] -> drain_queue fuel get put ww = (ww, Ok tt)).
  { intros get put fuel Hq. destruct fuel; simpl; unfold mbind, M_bind, mget, try_pop; by rewrite Hq. }
  unfold drain_control, drain_outbound. unfold mbind at 1, M_bind at 1. rewrite Ed by done.
  unfold mbind at 1, M_bind at 1. rewrite Ed by done.
  destruct (heartbeat_idle pending now ww Hi) as (w3 & E3 & I3 & K3 & W3 & T3 & S3).
  rewrite (bind_ok _ _ _ _ _ E3). exists w3. split; [|done].
  unfold offline_if_silent. rewrite (bind_ok mget _ w3 w3 w3) by done. rewrite K3.
  destruct (m_isOnline (ww_worker ww)); [|done]. cbn [andb]. rewrite bool_decide_eq_false_2; [done|].
  specialize (Hon eq_refl). lia.
Qed.

End phases.
