(* ===== verification/Uuid.v ===== *)
(** * UUID generation ([common/uuidhelper.h])

    The pseudo-random engine and its two distributions belong to the C++
    standard library; [HexGen] is their interface: the state of the engine,
    one draw from each distribution, and the range each distribution is
    documented to keep. *)

From S2P Require Import Prelude.

Class HexGen (G : Type) := {
  dis : G -> Z * G;
  dis2 : G -> Z * G;
  dis_range : forall g, (0 <= (dis g).1 <= 15)%Z;
  dis2_range : forall g, (8 <= (dis2 g).1 <= 11)%Z
}.

Definition hex_chars : list ascii :=
  ["0"; "1"; "2"; "3"; "4"; "5"; "6"; "7"; "8"; "9"; "a"; "b"; "c"; "d"; "e"; "f"]%char.

Definition hex_char (n : Z) : ascii := default "0"%char (hex_chars !! Z.to_nat n).

Section uuid.
Context {G : Type} `{HexGen G}.

(** The lambda of the code: overwrites one position with a random digit. *)
Definition set_hex (u : list ascii * G) (index : nat) : list ascii * G :=
  let '(n, g) := dis u.2 in (<[index := hex_char n]> u.1, g).

(** [for (int i = a; i < b; ++i) set_hex(i);] *)
Definition set_hex_range (a b : nat) (u : list ascii * G) : list ascii * G :=
  foldl set_hex u (seq a (b - a)).

Definition set_char (index : nat) (c : ascii) (u : list ascii * G) : list ascii * G :=
  (<[index := c]> u.1, u.2).

Definition generateUUID (g : G) : string * G :=
  let u := (replicate 36 " "%char, g) in
  let u := set_char 8 "-"%char u in
  let u := set_char 13 "-"%char u in
  let u := set_char 18 "-"%char u in
  let u := set_char 23 "-"%char u in
  let u := set_hex_range 0 8 u in
  let u := set_hex_range 9 13 u in
  let u := set_char 14 "4"%char u in
  let u := set_hex_range 15 18 u in
  let '(n, g) := dis2 u.2 in
  let u := (<[19 := hex_char n]> u.1, g) in
  let u := set_hex_range 20 23 u in
  let u := set_hex_range 24 36 u in
  (String.string_of_list_ascii u.1, u.2).

(** ** Lemmas *)

Definition is_hex (c : ascii) : Prop := c ∈ hex_chars.

Lemma hex_char_is_hex n : (0 <= n <= 15)%Z -> is_hex (hex_char n).
Proof.
  intros Hn. unfold hex_char, is_hex.
  destruct (hex_chars !! Z.to_nat n) as [c|] eqn:E; simpl; [by eapply list_elem_of_lookup_2|].
  apply lookup_ge_None in E. simpl in E. lia.
Qed.

Lemma set_hex_length u i : length (set_hex u i).1 = length u.1.
Proof. unfold set_hex. destruct (dis u.2). simpl. apply length_insert. Qed.

Lemma foldl_set_hex_length u l : length (foldl set_hex u l).1 = length u.1.
Proof. revert u. induction l as [|i l IH]; intros u; simpl; [done|]. by rewrite IH, set_hex_length. Qed.

(** Positions in the range hold hex digits, the others are kept. *)
Lemma foldl_set_hex_lookup l u i :
  i < length u.1 ->
  (i ∈ l -> exists c, (foldl set_hex u l).1 !! i = Some c /\ is_hex c) /\
  (i ∉ l -> (foldl set_hex u l).1 !! i = u.1 !! i).
Proof.
  revert u. induction l as [|j l IH]; intros u Hi; simpl; [split; [set_solver|done]|].
  destruct (IH (set_hex u j)) as [H1 H2]; [by rewrite set_hex_length|].
  destruct (decide (i ∈ l)) as [Hin|Hin]; [split; [auto|set_solver]|].
  specialize (H2 Hin). rewrite H2. unfold set_hex.
  pose proof (dis_range u.2) as Hr. destruct (dis u.2) as [n g]; simpl in *. split.
  - intros [->|?]%elem_of_cons; [|done]. exists (hex_char n).
    rewrite list_lookup_insert_eq by done. by split; [|apply hex_char_is_hex].
  - intros Hni. apply list_lookup_insert_ne. set_solver.
Qed.

Lemma set_hex_range_in a b u i :
  i < length u.1 -> a <= i < b -> exists c, (set_hex_range a b u).1 !! i = Some c /\ is_hex c.
Proof.
  intros Hl Hi. apply (foldl_set_hex_lookup _ _ _ Hl). apply elem_of_seq. lia.
Qed.

Lemma set_hex_range_out a b u i :
  i < length u.1 -> ~ (a <= i < b) -> (set_hex_range a b u).1 !! i = u.1 !! i.
Proof.
  intros Hl Hi. apply (foldl_set_hex_lookup _ _ _ Hl). rewrite elem_of_seq. lia.
Qed.

Lemma set_hex_range_length a b u : length (set_hex_range a b u).1 = length u.1.
Proof. apply foldl_set_hex_length. Qed.

Lemma set_char_length i c u : length (set_char i c u).1 = length u.1.
Proof. apply length_insert. Qed.

(** The shape of a version-4 UUID: what stands at each position. *)
Definition uuid_char_ok (i : nat) (c : ascii) : Prop :=
  if decide (i ∈ [8; 13; 18; 23]) then c = "-"%char
  else if decide (i = 14) then c = "4"%char
  else if decide (i = 19) then c ∈ ["8"; "9"; "a"; "b"]%char
  else is_hex c.

Definition uuid_ok (s : string) : Prop :=
  String.length s = 36 /\
  forall i c, String.list_ascii_of_string s !! i = Some c -> uuid_char_ok i c.

Lemma length_string_of_list l : String.length (String.string_of_list_ascii l) = length l.
Proof. induction l; simpl; congruence. Qed.

Lemma dis2_char n : (8 <= n <= 11)%Z -> hex_char n ∈ ["8"; "9"; "a"; "b"]%char.
Proof.
  intros Hn. assert (n = 8 \/ n = 9 \/ n = 10 \/ n = 11)%Z as [->|[->|[->| ->]]] by lia;
    vm_compute; set_solver.
Qed.

Lemma uuid_hex_ok i c :
  is_hex c -> i <> 8 -> i <> 13 -> i <> 14 -> i <> 18 -> i <> 19 -> i <> 23 -> uuid_char_ok i c.
Proof.
  intros Hc. intros. unfold uuid_char_ok.
  rewrite decide_False by (rewrite !elem_of_cons, elem_of_nil; lia).
  by rewrite !decide_False by lia.
Qed.

Definition ok_at (i : nat) (l : list ascii) : Prop :=
  length l = 36 /\ forall c, l !! i = Some c -> uuid_char_ok i c.

(** The writes, latest first: a position is decided by its latest write. *)
Lemma layer_range a b u i :
  length u.1 = 36 -> i < 36 ->
  (a <= i < b -> i <> 8 /\ i <> 13 /\ i <> 14 /\ i <> 18 /\ i <> 19 /\ i <> 23) ->
  (~ (a <= i < b) -> ok_at i u.1) -> ok_at i (set_hex_range a b u).1.
Proof.
  intros L Hi Hpos Hout. split; [by rewrite set_hex_range_length|]. intros c Hc.
  destruct (decide (a <= i < b)) as [D|D].
  - destruct (set_hex_range_in a b u i) as (c' & E & Hh); [lia|done|].
    assert (c' = c) as -> by congruence. apply uuid_hex_ok; [done|apply Hpos, D..].
  - rewrite set_hex_range_out in Hc by lia. by apply (Hout D).
Qed.

Lemma layer_char j ch l i :
  length l = 36 -> i < 36 -> uuid_char_ok j ch -> (i <> j -> ok_at i l) -> ok_at i (<[j := ch]> l).
Proof.
  intros L Hi Hj Hout. split; [by rewrite length_insert|]. intros c.
  destruct (decide (i = j)) as [->|D].
  - rewrite list_lookup_insert_eq by lia. by intros [= <-].
  - rewrite list_lookup_insert_ne by done. by apply Hout.
Qed.

Ltac solve_length :=
  repeat first [rewrite set_hex_range_length | rewrite set_char_length | rewrite length_insert
               | progress cbn [fst]]; reflexivity.

Lemma generateUUID_ok_at (g : G) i :
  i < 36 -> ok_at i (String.list_ascii_of_string (generateUUID g).1).
Proof.
  intros Hi. unfold generateUUID.
  set (u5 := set_hex_range 15 18 _). pose proof (dis2_range u5.2) as Hr.
  destruct (dis2 u5.2) as [n g']. simpl in Hr.
  cbn [fst]. rewrite String.list_ascii_of_string_of_list_ascii. unfold u5.
  apply layer_range; [solve_length|done|lia|intros D8].
  apply layer_range; [solve_length|done|lia|intros D7].
  apply layer_char; [solve_length|done|by apply dis2_char|intros D6].
  apply layer_range; [solve_length|done|lia|intros D5].
  apply layer_char; [solve_length|done|done|intros D4].
  apply layer_range; [solve_length|done|lia|intros D3].
  apply layer_range; [solve_length|done|lia|intros D2].
  do 4 (apply layer_char; [solve_length|done|done|intros ?]). lia.
Qed.

Lemma generateUUID_shape (g : G) : uuid_ok (generateUUID g).1.
Proof.
  pose proof (generateUUID_ok_at g 0 ltac:(lia)) as [L _].
  split; [by rewrite <-(String.string_of_list_ascii_of_string (generateUUID g).1),
    length_string_of_list|].
  intros i c Hc. apply (generateUUID_ok_at g i); [|done].
  apply lookup_lt_Some in Hc. lia.
Qed.

(** No separator of the beacon format, no empty uuid. *)
Lemma uuid_char_not_bar i : ~ uuid_char_ok i "|"%char.
Proof.
  unfold uuid_char_ok, is_hex. repeat case_decide; try done; by apply (bool_decide_unpack _).
Qed.

Lemma generateUUID_not_bar (g : G) : "|"%char ∉ String.list_ascii_of_string (generateUUID g).1.
Proof.
  intros [i Hi]%list_elem_of_lookup_1. destruct (generateUUID_shape g) as [_ K].
  by apply (uuid_char_not_bar i), K.
Qed.

(** ** Theorems *)

(** Every generated UUID is a well-formed version-4 UUID: 36 characters,
    dashes at 8, 13, 18 and 23, the version digit 4 at 14, a variant digit
    8, 9, a or b at 19 and lower-case hex digits everywhere else, whatever
    the random engine draws. *)
Theorem generateUUID_ok (g : G) : uuid_ok (generateUUID g).1.
Proof. apply generateUUID_shape. Qed.

End uuid.
