(* ===== verification/Discovery.v ===== *)
(** * LAN discovery ([server/discovery.{h,cpp}])

    Beacons, the table of peers this broker has dialed, and the loop that
    drives them.  The UDP socket is the environment: an iteration of the loop
    gets the datagram that arrived (if any) and the clock readings, and
    returns what it sent and the callbacks it made, in order. *)

From S2P Require Import Prelude CppString Worker.

Definition kMagic : string := "WISP".
Definition kVersion : string := "1".
Definition kDefaultPort : Z := 5670.

(** ** Beacons *)

Record Beacon := mkBeacon {
  beacon_cluster : string;
  beacon_uuid : string;
  beacon_routerPort : Z
}.

Definition encodeBeacon (cluster uuid : string) (routerPort : Z) : string :=
  kMagic +:+ "|" +:+ kVersion +:+ "|" +:+ cluster +:+ "|" +:+ uuid +:+ "|" +:+
  to_string routerPort.

(** The field loop of [decodeBeacon]; one field per round. *)
Fixpoint fields_loop (fuel : nat) (s : string) (start : nat) (fields : list string) :
    option (list string) :=
  match str_find s "|"%char start with
  | None => Some (fields ++ [str_substr_end s start])
  | Some pos =>
      match fuel with
      | O => None
      | S fuel => fields_loop fuel s (pos + 1) (fields ++ [str_substr s start (pos - start)])
      end
  end.

Definition decodeBeacon (data : string) : option Beacon :=
  match fields_loop (String.length data) data 0 [] with
  | Some [f0; f1; f2; f3; f4] =>
      if decide (f0 <> kMagic \/ f1 <> kVersion) then None
      else match stoi f4 with
           | None => None
           | Some port => if decide (port <= 0 \/ port > 65535)%Z then None
                          else Some (mkBeacon f2 f3 (u16 port))
           end
  | _ => None
  end.

(** ** State *)

Record PeerEntry := mkPeerEntry {
  pe_address : string;
  pe_lastSeen : Z
}.

Record BrokerDiscovery := mkDiscovery {
  m_cluster : string;
  m_selfUuid : string;
  m_routerPort : Z;
  m_discoveryPort : Z;
  m_dial : bool;   (** whether the callback is set *)
  m_drop : bool;
  m_running : bool;
  m_dialed : gmap string PeerEntry
}.

Definition m_beaconInterval : Z := seconds 1.
Definition m_peerTimeout : Z := seconds 5.

(** The callbacks and the socket, as the loop uses them. *)
Inductive discovery_action :=
  | Dial (uuid address : string)
  | Drop (uuid : string)
  | SendBeacon (data : string).

Definition discovery_new (cluster selfUuid : string) (routerPort discoveryPort : Z)
    (dial drop : bool) : BrokerDiscovery :=
  mkDiscovery cluster selfUuid routerPort discoveryPort dial drop false ∅.

Definition set_dialed (m : gmap string PeerEntry) (d : BrokerDiscovery) : BrokerDiscovery :=
  mkDiscovery (m_cluster d) (m_selfUuid d) (m_routerPort d) (m_discoveryPort d) (m_dial d)
    (m_drop d) (m_running d) m.

Definition set_discovery_running (b : bool) (d : BrokerDiscovery) : BrokerDiscovery :=
  mkDiscovery (m_cluster d) (m_selfUuid d) (m_routerPort d) (m_discoveryPort d) (m_dial d)
    (m_drop d) b (m_dialed d).

Definition discovery_start (d : BrokerDiscovery) : BrokerDiscovery := set_discovery_running true d.
Definition discovery_stop (d : BrokerDiscovery) : BrokerDiscovery := set_discovery_running false d.

(** ** The decision logic *)

Definition peer_address (senderIp : string) (port : Z) : string :=
  "tcp://" +:+ senderIp +:+ ":" +:+ to_string port.

Definition onDatagram (senderIp data : string) (now : Z) (d : BrokerDiscovery) :
    BrokerDiscovery * list discovery_action :=
  match decodeBeacon data with
  | None => (d, [])
  | Some beacon =>
      if decide (beacon_cluster beacon <> m_cluster d) then (d, [])
      else if decide (beacon_uuid beacon = m_selfUuid d) then (d, [])
      else if negb (String.ltb (m_selfUuid d) (beacon_uuid beacon)) then (d, [])
      else
        let address := peer_address senderIp (beacon_routerPort beacon) in
        let isNew := bool_decide (m_dialed d !! beacon_uuid beacon = None) in
        let d' := set_dialed (<[beacon_uuid beacon := mkPeerEntry address now]> (m_dialed d)) d in
        (d', if isNew && m_dial d then [Dial (beacon_uuid beacon) address] else [])
  end.

Section iteration.
Context `{UnorderedOrder}.

Definition stale (now : Z) (e : PeerEntry) : bool :=
  bool_decide (now - pe_lastSeen e > m_peerTimeout)%Z.

(** The erase-while-iterating loop: collects and erases the stale entries. *)
Definition expire_loop (now : Z) (entries : list (string * PeerEntry))
    (st : gmap string PeerEntry * list string) : gmap string PeerEntry * list string :=
  foldl (fun '(m, lost) '(uuid, e) =>
           if stale now e then (delete uuid m, lost ++ [uuid]) else (m, lost)) st entries.

Definition expireStale (now : Z) (d : BrokerDiscovery) : BrokerDiscovery * list discovery_action :=
  let '(m, lost) := expire_loop now (umap_iter (m_dialed d)) (m_dialed d, []) in
  (set_dialed m d, if m_drop d then Drop <$> lost else []).

(** One iteration of [run] after the socket is bound: [nextBeacon] is the
    loop's local, the buffer holds 512 bytes, an empty datagram is ignored. *)
Definition discovery_iteration (now : Z) (datagram : option (string * string)) (now_rx : Z)
    (st : BrokerDiscovery * Z) : (BrokerDiscovery * Z) * list discovery_action :=
  let '(d, nextBeacon) := st in
  let '(d, nextBeacon, out) :=
    if decide (now >= nextBeacon)%Z then
      let beacon := encodeBeacon (m_cluster d) (m_selfUuid d) (m_routerPort d) in
      let '(d, drops) := expireStale now d in
      (d, (now + m_beaconInterval)%Z, SendBeacon beacon :: drops)
    else (d, nextBeacon, []) in
  match datagram with
  | Some (ip, data) =>
      let buf := str_take 512 data in
      if decide (buf = "") then ((d, nextBeacon), out)
      else let '(d, dials) := onDatagram ip buf now_rx d in ((d, nextBeacon), out ++ dials)
  | None => ((d, nextBeacon), out)
  end.

End iteration.

#[global] Arguments discovery_iteration : simpl never.

(** ** Lemmas: beacons *)

Lemma fields_loop_split fuel s start acc :
  String.length (str_drop start s) <= fuel ->
  fields_loop fuel s start acc = Some (acc ++ split_on "|"%char (str_drop start s)).
Proof.
  revert start acc. induction fuel as [|fuel IH]; intros start acc Hl; simpl; unfold str_find;
    rewrite split_on_find; destruct (find_char "|"%char (str_drop start s)) as [i|] eqn:E; simpl;
    try done; pose proof (find_char_length _ _ _ E); [lia|].
  replace (start + i + 1) with (start + S i) by lia.
  rewrite IH, <-str_drop_drop; [|rewrite <-str_drop_drop, str_drop_length; lia].
  unfold str_substr. replace (start + i - start) with i by lia.
  by rewrite <-(assoc_L (++)).
Qed.

Lemma decodeBeacon_fields data :
  fields_loop (String.length data) data 0 [] = Some (split_on "|"%char data).
Proof. by rewrite fields_loop_split. Qed.

Lemma split_encodeBeacon cluster uuid port :
  no_char "|"%char uuid -> (0 <= port)%Z ->
  split_on "|"%char (encodeBeacon cluster uuid port) =
  [kMagic; kVersion] ++ split_on "|"%char cluster ++ [uuid; to_string port].
Proof.
  intros Hu Hp. unfold encodeBeacon.
  assert (Hn : no_char "|"%char (to_string port)).
  { apply to_dec_no_char; [done|]. rewrite !elem_of_cons, elem_of_nil; naive_solver. }
  change ("|" +:+ kVersion +:+ "|" +:+ cluster +:+ "|" +:+ uuid +:+ "|" +:+ to_string port)
    with (String "|" (kVersion +:+ String "|" (cluster +:+ String "|" (uuid +:+ String "|"
           (to_string port))))).
  rewrite (split_on_app _ kMagic) by done. rewrite (split_on_app _ kVersion) by done. simpl. do 2 f_equal.
  induction cluster as [|c s IH].
  { rewrite (split_on_app _ "") by done. rewrite split_on_app by done. by rewrite split_on_no_char. }
  rewrite string_app_cons; simpl. case_decide; [by rewrite IH|]. rewrite IH.
  by destruct (split_on "|"%char s) as [|f fs] eqn:Es; [by apply split_on_nonempty in Es|].
Qed.

Lemma split_on_length c s : no_char c s \/ 2 <= length (split_on c s).
Proof.
  rewrite split_on_find. destruct (find_char c s) as [i|] eqn:E; [right|by left].
  pose proof (split_on_nonempty c (str_drop (S i) s)). rewrite length_cons.
  destruct (split_on c _); simpl; [done|lia].
Qed.

(** ** Lemmas: the order on uuids *)

Lemma ltb_antisym a b : a <> b -> String.ltb b a = negb (String.ltb a b).
Proof.
  intros Hne. unfold String.ltb. rewrite (String.compare_antisym b a).
  destruct (String.compare a b) eqn:E; simpl; try done. by apply String.compare_eq_iff in E.
Qed.

(** ** Lemmas: expiry *)

Lemma expire_loop_lost now l m lost :
  (expire_loop now l (m, lost)).2 = lost ++ (filter (fun p => stale now p.2 = true) l).*1.
Proof.
  revert m lost. induction l as [|[u e] l IH]; intros m lost; simpl; [by rewrite app_nil_r|].
  rewrite filter_cons; simpl. destruct (stale now e); simpl.
  - unfold expire_loop in IH |- *. simpl. rewrite IH. by rewrite <-(assoc_L (++)).
  - unfold expire_loop in IH |- *. simpl. by rewrite IH.
Qed.

Lemma expire_loop_lookup now l m lost u :
  (expire_loop now l (m, lost)).1 !! u =
  if decide (u ∈ (filter (fun p => stale now p.2 = true) l).*1) then None else m !! u.
Proof.
  revert m lost. induction l as [|[v e] l IH]; intros m lost; [done|].
  rewrite filter_cons; simpl. unfold expire_loop in IH |- *. simpl.
  destruct (stale now e); simpl; [|by rewrite IH].
  rewrite IH. destruct (decide (u = v)) as [->|Hne].
  - rewrite lookup_delete_eq. repeat case_decide; set_solver.
  - rewrite lookup_delete_ne by done. repeat case_decide; set_solver.
Qed.

Section expiry.
Context `{UnorderedOrder}.

Lemma elem_of_lost now (m : gmap string PeerEntry) u :
  u ∈ (filter (fun p => stale now p.2 = true) (umap_iter m)).*1 <->
  exists e, m !! u = Some e /\ stale now e = true.
Proof.
  rewrite list_elem_of_fmap. split.
  - intros ([v e] & -> & [Hs Hin]%list_elem_of_filter). exists e.
    by rewrite elem_of_umap_iter in Hin.
  - intros (e & He & Hs). exists (u, e). split; [done|]. apply list_elem_of_filter.
    by rewrite elem_of_umap_iter.
Qed.

Lemma NoDup_lost now (m : gmap string PeerEntry) :
  NoDup (filter (fun p => stale now p.2 = true) (umap_iter m)).*1.
Proof.
  eapply sublist_NoDup; [apply (NoDup_umap_iter_keys m)|]. apply fmap_sublist, sublist_filter.
Qed.

Lemma expireStale_actions now d :
  (expireStale now d).2 =
  if m_drop d then Drop <$> (filter (fun p => stale now p.2 = true) (umap_iter (m_dialed d))).*1
  else [].
Proof.
  unfold expireStale. pose proof (expire_loop_lost now (umap_iter (m_dialed d)) (m_dialed d) []) as K.
  destruct (expire_loop _ _ _) as [m lost]. simpl in *. by subst.
Qed.

Lemma expireStale_lookup now d u :
  m_dialed (expireStale now d).1 !! u =
  match m_dialed d !! u with
  | Some e => if stale now e then None else Some e
  | None => None
  end.
Proof.
  unfold expireStale. destruct (expire_loop _ _ _) as [m lost] eqn:E. simpl.
  pose proof (expire_loop_lookup now (umap_iter (m_dialed d)) (m_dialed d) [] u) as K.
  rewrite E in K. simpl in K. rewrite K. case_decide as Hd; rewrite elem_of_lost in Hd.
  - destruct Hd as (e & -> & ->). done.
  - destruct (m_dialed d !! u) as [e|]; [|done]. destruct (stale now e) eqn:Es; [|done].
    destruct Hd; eauto.
Qed.


(** ** The life of a link *)

(** What the actions say about the link to [u]: dialed or dropped. *)
Definition link_event (u : string) (a : discovery_action) : option bool :=
  match a with
  | Dial v _ => if decide (v = u) then Some true else None
  | Drop v => if decide (v = u) then Some false else None
  | SendBeacon _ => None
  end.

Definition link_events (u : string) (acts : list discovery_action) : list bool :=
  omap (link_event u) acts.

Definition linked (u : string) (d : BrokerDiscovery) : bool :=
  bool_decide (is_Some (m_dialed d !! u)).

(** The events of a step lead from one state of the link to the next, without
    repeating one. *)
Definition link_step (u : string) (d d' : BrokerDiscovery) (acts : list discovery_action) : Prop :=
  last (linked u d :: link_events u acts) = Some (linked u d') /\
  alternating (linked u d :: link_events u acts).

Lemma link_step_nil u d d' : linked u d = linked u d' -> link_step u d d' [].
Proof. intros E. split; simpl; [by rewrite E|]. intros [|i] b; simpl; naive_solver. Qed.

Lemma link_step_trans u d1 d2 d3 a1 a2 :
  link_step u d1 d2 a1 -> link_step u d2 d3 a2 -> link_step u d1 d3 (a1 ++ a2).
Proof.
  intros [L1 A1] [L2 A2]. unfold link_step, link_events in *. rewrite omap_app. split.
  - rewrite app_comm_cons, last_app. destruct (omap (link_event u) a2) as [|b l]; simpl in *; [congruence|].
    by rewrite L2.
  - rewrite app_comm_cons. by eapply alternating_app.
Qed.

Lemma onDatagram_link ip data now d u :
  m_dial d = true -> link_step u d (onDatagram ip data now d).1 (onDatagram ip data now d).2.
Proof.
  intros Hd. unfold onDatagram. destruct (decodeBeacon data) as [b|]; [|by apply link_step_nil].
  case_decide; [by apply link_step_nil|]. case_decide; [by apply link_step_nil|].
  destruct (negb _); [by apply link_step_nil|]. simpl. rewrite Hd, andb_true_r. case_bool_decide as Hn.
  - destruct (decide (beacon_uuid b = u)) as [<-|Hne].
    + unfold link_step, link_events, linked; simpl. rewrite lookup_insert_eq, Hn.
      destruct (decide (beacon_uuid b = beacon_uuid b)); [|done]. simpl. split; [done|]. intros [|[|i]] x; simpl; naive_solver.
    + unfold link_step, link_events, linked; simpl. rewrite lookup_insert_ne by done.
      destruct (decide (beacon_uuid b = u)); [done|]. simpl. split; [done|]. intros [|i] x; simpl; naive_solver.
  - apply link_step_nil. unfold linked; simpl. apply bool_decide_ext.
    destruct (decide (beacon_uuid b = u)) as [<-|Hne]; [|by rewrite lookup_insert_ne].
    rewrite lookup_insert_eq. destruct (m_dialed d !! beacon_uuid b); naive_solver.
Qed.

Lemma link_events_cons u a acts :
  link_events u (a :: acts) =
  match link_event u a with Some b => b :: link_events u acts | None => link_events u acts end.
Proof. done. Qed.

Lemma link_events_drops u lost :
  NoDup lost -> link_events u (Drop <$> lost) = if decide (u ∈ lost) then [false] else [].
Proof.
  induction 1 as [|v lost Hv _ IH]; [done|]. rewrite fmap_cons, link_events_cons, IH. simpl.
  destruct (decide (v = u)) as [->|]; simpl; repeat case_decide; set_solver.
Qed.

Lemma expireStale_link now d u :
  m_drop d = true -> link_step u d (expireStale now d).1 (expireStale now d).2.
Proof.
  intros Hd. rewrite expireStale_actions, Hd. unfold link_step, linked.
  rewrite link_events_drops by apply NoDup_lost. rewrite expireStale_lookup.
  case_decide as Hl; rewrite elem_of_lost in Hl.
  - destruct Hl as (e & -> & ->). simpl. split; [done|]. intros [|[|i]] x; simpl; naive_solver.
  - split; [|intros [|i] x; simpl; naive_solver]. simpl. f_equal. apply bool_decide_ext.
    destruct (m_dialed d !! u) as [e|]; [|done]. destruct (stale now e) eqn:E; naive_solver.
Qed.

Lemma onDatagram_callbacks ip data now d :
  m_dial (onDatagram ip data now d).1 = m_dial d /\ m_drop (onDatagram ip data now d).1 = m_drop d.
Proof. unfold onDatagram. by repeat case_match. Qed.

Lemma expireStale_callbacks now d :
  m_dial (expireStale now d).1 = m_dial d /\ m_drop (expireStale now d).1 = m_drop d.
Proof. unfold expireStale. by case_match. Qed.

Lemma link_step_beacon u d d' data acts :
  link_step u d d' acts -> link_step u d d' (SendBeacon data :: acts).
Proof. done. Qed.

Lemma discovery_iteration_link now dg now_rx d nb u :
  m_dial d = true -> m_drop d = true ->
  let r := discovery_iteration now dg now_rx (d, nb) in
  link_step u d r.1.1 r.2 /\ m_dial r.1.1 = true /\ m_drop r.1.1 = true.
Proof.
  intros Hd Hr. unfold discovery_iteration.
  set (first := if decide (now >= nb)%Z then _ else _).
  assert (K : link_step u d first.1.1 first.2 /\ m_dial first.1.1 = true /\ m_drop first.1.1 = true).
  { unfold first. case_decide; [|by split; [apply link_step_nil|]].
    pose proof (expireStale_link now d u Hr). pose proof (expireStale_callbacks now d) as [K1 K2].
    destruct (expireStale now d) as [d1 drops]. simpl in *. by rewrite K1, K2. }
  destruct first as [[d1 nb1] out]. simpl in K. destruct K as (K1 & K2 & K3).
  destruct dg as [[ip data]|]; [|done]. case_decide; [done|].
  pose proof (onDatagram_link ip (str_take 512 data) now_rx d1 u K2).
  pose proof (onDatagram_callbacks ip (str_take 512 data) now_rx d1) as [K4 K5].
  destruct (onDatagram _ _ _ _) as [d2 dials]. simpl in *. rewrite K4, K5.
  split; [|done]. by eapply link_step_trans.
Qed.

(** A run of the loop: what each iteration read. *)
Definition discovery_input : Type := Z * option (string * string) * Z.

Fixpoint discovery_run (inputs : list discovery_input) (st : BrokerDiscovery * Z) :
    (BrokerDiscovery * Z) * list discovery_action :=
  match inputs with
  | [] => (st, [])
  | (now, datagram, now_rx) :: inputs =>
      let '(st, out) := discovery_iteration now datagram now_rx st in
      let '(st, rest) := discovery_run inputs st in (st, out ++ rest)
  end.

Lemma discovery_run_link inputs d nb u :
  m_dial d = true -> m_drop d = true ->
  link_step u d (discovery_run inputs (d, nb)).1.1 (discovery_run inputs (d, nb)).2.
Proof.
  revert d nb. induction inputs as [|[[now dg] now_rx] inputs IH]; intros d nb Hd Hr; simpl.
  - by apply link_step_nil.
  - pose proof (discovery_iteration_link now dg now_rx d nb u Hd Hr) as K. simpl in K.
    destruct (discovery_iteration _ _ _ _) as [[d1 nb1] out]. simpl in K.
    destruct K as (K1 & K2 & K3). specialize (IH d1 nb1 K2 K3).
    destruct (discovery_run inputs (d1, nb1)) as [[d2 nb2] rest]. simpl in *.
    by eapply link_step_trans.
Qed.

End expiry.

(** ** Theorems *)

Lemma decide_no_char c s : Decision (no_char c s).
Proof. unfold no_char. apply _. Defined.

#[export] Existing Instance decide_no_char.

Lemma decode_encodeBeacon cluster uuid port :
  no_char "|"%char uuid -> (0 < port <= 65535)%Z ->
  decodeBeacon (encodeBeacon cluster uuid port) =
  if decide (no_char "|"%char cluster) then Some (mkBeacon cluster uuid port) else None.
Proof.
  intros Hu Hp. unfold decodeBeacon. rewrite decodeBeacon_fields, split_encodeBeacon by (done || lia).
  case_decide as Hc.
  - rewrite (split_on_no_char _ cluster) by done. cbn [app].
    rewrite decide_False by naive_solver. rewrite stoi_to_string by lia.
    rewrite decide_False by lia. unfold u16. by rewrite Z.mod_small by lia.
  - destruct (split_on_length "|"%char cluster) as [?|Hl]; [done|].
    by destruct (split_on "|"%char cluster) as [|f0 [|f1 [|f2 [|f3 fs]]]]; simpl in Hl; try lia.
Qed.

(** C27. Beacon round trip: for a broker uuid without the separator and a valid
    port, a receiver decodes exactly the cluster, uuid and port that were
    advertised when the cluster name has no '|', and rejects the beacon when it
    has one (it never reads a different cluster, uuid or port). *)
Theorem beacon_roundtrip cluster uuid port :
  no_char "|"%char uuid -> (0 < port <= 65535)%Z ->
  decodeBeacon (encodeBeacon cluster uuid port) =
  if decide (no_char "|"%char cluster) then Some (mkBeacon cluster uuid port) else None.
Proof. apply decode_encodeBeacon. Qed.

Lemma beacon_roundtrip_witness :
  decodeBeacon (encodeBeacon "lan" "5f2d" 5555) = Some (mkBeacon "lan" "5f2d" 5555) /\
  decodeBeacon (encodeBeacon "a|b" "5f2d" 5555) = None.
Proof.
  split.
  - apply (beacon_roundtrip "lan" "5f2d" 5555); [reflexivity|lia].
  - apply (beacon_roundtrip "a|b" "5f2d" 5555); [reflexivity|lia].
Defined.

(** The beacon a broker sends. *)
Definition own_beacon (d : BrokerDiscovery) : string :=
  encodeBeacon (m_cluster d) (m_selfUuid d) (m_routerPort d).

Definition valid_identity (d : BrokerDiscovery) : Prop :=
  no_char "|"%char (m_cluster d) /\ no_char "|"%char (m_selfUuid d) /\
  (0 < m_routerPort d <= 65535)%Z.

Lemma onDatagram_own_beacon ip now d d' :
  valid_identity d' -> m_cluster d = m_cluster d' -> m_selfUuid d <> m_selfUuid d' ->
  m_dialed d !! m_selfUuid d' = None -> m_dial d = true ->
  (onDatagram ip (own_beacon d') now d).2 =
  if String.ltb (m_selfUuid d) (m_selfUuid d')
  then [Dial (m_selfUuid d') (peer_address ip (m_routerPort d'))] else [].
Proof.
  intros (V1 & V2 & V3) Hc Hne Hn Hd. unfold onDatagram, own_beacon.
  rewrite decode_encodeBeacon, decide_True by done. simpl.
  rewrite decide_False by naive_solver. rewrite decide_False by done.
  destruct (String.ltb _ _); simpl; [|done]. by rewrite bool_decide_eq_true_2, Hd.
Qed.

(** Exactly one side dials: when two brokers of the same cluster with
    different uuids first hear each other's beacon, one of them dials the
    other's router address and the other one does nothing. *)
Theorem discovery_one_side_dials ip1 ip2 now1 now2 d1 d2 :
  valid_identity d1 -> valid_identity d2 -> m_cluster d1 = m_cluster d2 ->
  m_selfUuid d1 <> m_selfUuid d2 ->
  m_dialed d1 !! m_selfUuid d2 = None -> m_dialed d2 !! m_selfUuid d1 = None ->
  m_dial d1 = true -> m_dial d2 = true ->
  let heard1 := (onDatagram ip2 (own_beacon d2) now1 d1).2 in
  let heard2 := (onDatagram ip1 (own_beacon d1) now2 d2).2 in
  (heard1 = [Dial (m_selfUuid d2) (peer_address ip2 (m_routerPort d2))] /\ heard2 = []) \/
  (heard1 = [] /\ heard2 = [Dial (m_selfUuid d1) (peer_address ip1 (m_routerPort d1))]).
Proof.
  intros V1 V2 Hc Hne N1 N2 D1 D2 heard1 heard2. unfold heard1, heard2.
  rewrite !onDatagram_own_beacon by done. rewrite (ltb_antisym (m_selfUuid d1)) by done.
  destruct (String.ltb _ _); auto.
Qed.

Lemma discovery_one_side_dials_witness :
  let d1 := discovery_new "lan" "aa" 5555 5670 true true in
  let d2 := discovery_new "lan" "bb" 5556 5670 true true in
  (onDatagram "10.0.0.2" (own_beacon d2) 0 d1).2 = [Dial "bb" "tcp://10.0.0.2:5556"] /\
  (onDatagram "10.0.0.1" (own_beacon d1) 0 d2).2 = [].
Proof.
  intros d1 d2.
  destruct (discovery_one_side_dials "10.0.0.1" "10.0.0.2" 0 0 d1 d2) as [K|[K _]];
    try reflexivity; try (split; [reflexivity|split; [reflexivity|simpl; lia]]); try discriminate.
  exact K.
Defined.

Section links.
Context `{UnorderedOrder}.

(** Links are dialed and dropped in turn: over any run of the discovery
    loop, whatever it receives and whenever, the callbacks about a remote uuid
    alternate, starting with a dial, and the last one tells whether the uuid is
    in the table of dialed peers: no peer is dialed twice without a drop in
    between, none is dropped that was not dialed, none is forgotten. *)
Theorem discovery_links_alternate inputs cluster self port dport nextBeacon u :
  let r := discovery_run inputs (discovery_new cluster self port dport true true, nextBeacon) in
  alternating (false :: link_events u r.2) /\
  last (false :: link_events u r.2) = Some (linked u r.1.1).
Proof.
  intros r.
  destruct (discovery_run_link inputs (discovery_new cluster self port dport true true) nextBeacon u)
    as [L A]; done.
Qed.

(** Expiry is exact: when the loop's beacon is due, the entries it keeps are
    precisely those heard within the peer timeout, unchanged, and the drop
    callback runs once for each of the others and for nothing else. *)
Theorem expireStale_exact now d :
  m_drop d = true ->
  (forall u e, m_dialed (expireStale now d).1 !! u = Some e <->
     m_dialed d !! u = Some e /\ (now - pe_lastSeen e <= m_peerTimeout)%Z) /\
  (exists lost, (expireStale now d).2 = Drop <$> lost /\ NoDup lost /\
     forall u, u ∈ lost <->
       exists e, m_dialed d !! u = Some e /\ (now - pe_lastSeen e > m_peerTimeout)%Z).
Proof.
  intros Hd. split.
  - intros u e. rewrite expireStale_lookup. unfold stale.
    destruct (m_dialed d !! u) as [e'|]; [|naive_solver].
    case_bool_decide; split; intros; destruct_and?; simplify_eq; try done; split; try done; lia.
  - eexists. rewrite expireStale_actions, Hd. split_and!; [done|apply NoDup_lost|].
    intros u. rewrite elem_of_lost. unfold stale. by setoid_rewrite bool_decide_eq_true.
Qed.

End links.

Lemma expireStale_exact_witness :
  let _ := trie_order in
  let d := set_dialed {[ "aa" := mkPeerEntry "tcp://h:1" 0; "bb" := mkPeerEntry "tcp://h:2" (seconds 9) ]}
             (discovery_new "lan" "00" 5555 5670 true true) in
  m_dialed (expireStale (seconds 10) d).1 !! "bb" = Some (mkPeerEntry "tcp://h:2" (seconds 9)) /\
  exists lost, (expireStale (seconds 10) d).2 = Drop <$> lost /\ NoDup lost /\ "aa" ∈ lost.
Proof.
  intros o d. destruct (@expireStale_exact o (seconds 10) d eq_refl) as [K1 (lost & L1 & L2 & L3)].
  split.
  - apply K1. split; [reflexivity|]. unfold m_peerTimeout, seconds; simpl; lia.
  - exists lost. split_and!; try done. apply L3. exists (mkPeerEntry "tcp://h:1" 0).
    split; [reflexivity|]. unfold m_peerTimeout, seconds; simpl; lia.
Defined.
