(* ===== verification/DiscoveryThread.v ===== *)
(** * The discovery thread ([BrokerDiscovery::run] of [server/discovery.cpp])

    The whole thread, with its UDP socket: creation, options, binding, the loop and the
    closing, as the calls it makes in order.  The answers of the operating system are
    arguments.  The loop body is related to [Discovery.discovery_iteration]. *)

From S2P Require Import Prelude CppString Worker Discovery.

Inductive udp_option := SO_REUSEADDR | SO_REUSEPORT | SO_BROADCAST.

Inductive udp_call :=
  | UdpSocket (fd : Z)                       (** with its result *)
  | UdpOption (fd : Z) (o : udp_option)
  | UdpBind (fd port : Z) (bound : bool)     (** to any address *)
  | UdpSend (fd port : Z) (data : string)    (** to the broadcast address *)
  | UdpPoll (fd timeout : Z)
  | UdpReceive (fd : Z)
  | UdpClose (fd : Z)
  | UdpLog (text : string)
  | Callback (a : discovery_action).

(** What the environment answers in one round: the clock, whether the socket became
    readable, the datagram with the sender's address as [inet_ntop] gives it ([None] is a
    failure of [recvfrom]), and the clock again. *)
Record round := mkRound {
  rd_now : Z;
  rd_readable : bool;
  rd_received : option (option string * string);
  rd_now_rx : Z
}.

(** [char buf[512]]. *)
Definition buf_size : nat := 512.

Section thread.
Context `{UnorderedOrder}.

Implicit Types d : BrokerDiscovery.

(** ** The loop *)

Definition beacon_part (fd now : Z) (st : BrokerDiscovery * Z) : (BrokerDiscovery * Z) * list udp_call :=
  let '(d, nextBeacon) := st in
  if decide (now >= nextBeacon)%Z then
    let beacon := encodeBeacon (m_cluster d) (m_selfUuid d) (m_routerPort d) in
    let '(d', drops) := expireStale now d in
    ((d', (now + m_beaconInterval)%Z), UdpSend fd (m_discoveryPort d) beacon :: (Callback <$> drops))
  else (st, []).

Definition receive_part (fd : Z) (r : round) (d : BrokerDiscovery) : BrokerDiscovery * list udp_call :=
  if rd_readable r then
    match rd_received r with
    | None => (d, [UdpPoll fd 200; UdpReceive fd])
    | Some (ip, data) =>
        let buf := str_take buf_size data in
        match ip with
        | Some ip =>
            if decide (0 < slen buf)%Z then
              let '(d, dials) := onDatagram ip buf (rd_now_rx r) d in
              (d, [UdpPoll fd 200; UdpReceive fd] ++ (Callback <$> dials))
            else (d, [UdpPoll fd 200; UdpReceive fd])
        | None => (d, [UdpPoll fd 200; UdpReceive fd])
        end
    end
  else (d, [UdpPoll fd 200]).

Definition discovery_round (fd : Z) (r : round) (st : BrokerDiscovery * Z) :
    (BrokerDiscovery * Z) * list udp_call :=
  let '((d, nextBeacon), c1) := beacon_part fd (rd_now r) st in
  let '(d, c2) := receive_part fd r d in ((d, nextBeacon), c1 ++ c2).

(** One element per time that [m_running] was found set. *)
Fixpoint discovery_loop (fd : Z) (rounds : list round) (st : BrokerDiscovery * Z) :
    (BrokerDiscovery * Z) * list udp_call :=
  match rounds with
  | [] => (st, [])
  | r :: rounds =>
      let '(st, c1) := discovery_round fd r st in
      let '(st, c2) := discovery_loop fd rounds st in (st, c1 ++ c2)
  end.

(** ** The thread *)

Definition active_text d : string :=
  "Discovery active on UDP " +:+ to_string (m_discoveryPort d) +:+ " (cluster '" +:+ m_cluster d +:+ "')".

Definition bind_text d : string :=
  "Discovery: bind() failed on UDP port " +:+ to_string (m_discoveryPort d) +:+ "; auto-mesh disabled".

(** [m_socket] is returned with the state. *)
Definition discovery_run (fd : Z) (bound : bool) (start : Z) (rounds : list round) d :
    (BrokerDiscovery * Z) * list udp_call :=
  if decide (fd < 0)%Z then ((d, fd), [UdpSocket fd; UdpLog "Discovery: socket() failed; auto-mesh disabled"])
  else
    let setup := [UdpSocket fd; UdpOption fd SO_REUSEADDR; UdpOption fd SO_REUSEPORT; UdpOption fd SO_BROADCAST;
                  UdpBind fd (m_discoveryPort d) bound] in
    if bound then
      let '((d', _), calls) := discovery_loop fd rounds (d, start) in
      ((d', (-1)%Z), setup ++ [UdpLog (active_text d)] ++ calls ++ [UdpClose fd])
    else ((d, (-1)%Z), setup ++ [UdpLog (bind_text d); UdpClose fd]).

(** ** The loop body and [discovery_iteration] *)

Definition round_datagram (r : round) : option (string * string) :=
  if rd_readable r then x ← rd_received r; ip ← x.1; Some (ip, x.2) else None.

Definition call_action (c : udp_call) : option discovery_action :=
  match c with
  | UdpSend _ _ data => Some (SendBeacon data)
  | Callback a => Some a
  | _ => None
  end.

Definition actions (calls : list udp_call) : list discovery_action := omap call_action calls.

Lemma callbacks_actions acts : actions (Callback <$> acts) = acts.
Proof. unfold actions. induction acts as [|a acts IH]; [done|]. cbn. by rewrite IH. Qed.

Lemma actions_app c1 c2 : actions (c1 ++ c2) = actions c1 ++ actions c2.
Proof. apply omap_app. Qed.

Lemma receive_part_iteration fd r d (next : Z) (acts : list discovery_action) :
  match round_datagram r with
  | Some (ip, data) =>
      let buf := str_take 512 data in
      if decide (buf = "") then ((d, next), acts)
      else let '(d, dials) := onDatagram ip buf (rd_now_rx r) d in ((d, next), acts ++ dials)
  | None => ((d, next), acts)
  end = (((receive_part fd r d).1, next), acts ++ actions (receive_part fd r d).2).
Proof.
  unfold round_datagram, receive_part. destruct (rd_readable r); [|cbn; by rewrite app_nil_r].
  destruct (rd_received r) as [[[ip|] data]|]; cbn [mbind option_bind fst snd]; try (cbn; by rewrite app_nil_r).
  change buf_size with 512. set (buf := str_take 512 data). destruct (decide (buf = "")) as [->|Hb].
  - rewrite decide_False by done. cbn. by rewrite app_nil_r.
  - rewrite decide_True by (destruct buf; [done|unfold slen; cbn; lia]).
    destruct (onDatagram ip buf (rd_now_rx r) d) as [d2 dials]. cbn [fst snd]. by rewrite actions_app, callbacks_actions.
Qed.

(** The body does what [discovery_iteration] says, in that order. *)
Theorem discovery_round_iteration fd r st :
  discovery_iteration (rd_now r) (round_datagram r) (rd_now_rx r) st =
  ((discovery_round fd r st).1, actions (discovery_round fd r st).2).
Proof.
  destruct st as [d next]. unfold discovery_round, beacon_part, discovery_iteration. case_decide.
  - destruct (expireStale (rd_now r) d) as [d1 drops]. rewrite (receive_part_iteration fd).
    destruct (receive_part fd r d1) as [d2 c2]. cbn [fst snd]. change (UdpSend ?a ?b ?c :: ?l) with ([UdpSend a b c] ++ l).
    by rewrite !actions_app, callbacks_actions.
  - rewrite (receive_part_iteration fd). by destruct (receive_part fd r d) as [d2 c2].
Qed.

(** ** The socket *)

(** A call that uses the descriptor, without closing it. *)
Definition uses (fd : Z) (c : udp_call) : bool :=
  match c with
  | UdpOption f _ | UdpBind f _ _ | UdpSend f _ _ | UdpPoll f _ | UdpReceive f => bool_decide (f = fd)
  | UdpLog _ | Callback _ => true
  | UdpSocket _ | UdpClose _ => false
  end.

Lemma uses_callbacks fd acts : Forall (fun c => uses fd c = true) (Callback <$> acts).
Proof. induction acts; cbn; by constructor. Qed.

Lemma loop_uses fd rounds st : Forall (fun c => uses fd c = true) (discovery_loop fd rounds st).2.
Proof.
  assert (Hfd : bool_decide (fd = fd) = true) by (by apply bool_decide_eq_true).
  assert (Hr : forall r d, Forall (fun c => uses fd c = true) (receive_part fd r d).2).
  { intros r d. unfold receive_part. destruct (rd_readable r); [|by repeat constructor].
    destruct (rd_received r) as [[[ip|] data]|]; [|by repeat constructor..].
    destruct (decide (0 < _)%Z); [|by repeat constructor]. destruct (onDatagram _ _ _ _) as [d2 dials]. cbn [snd app].
    do 2 (constructor; [done|]). apply uses_callbacks. }
  revert st. induction rounds as [|r rounds IH]; intros [d next]; [constructor|]. cbn. unfold discovery_round, beacon_part.
  destruct (decide (rd_now r >= next)%Z); [destruct (expireStale (rd_now r) d) as [d1 drops]|];
    [specialize (Hr r d1); destruct (receive_part fd r d1) as [d2 c2]|specialize (Hr r d); destruct (receive_part fd r d) as [d2 c2]].
  - specialize (IH (d2, (rd_now r + m_beaconInterval)%Z)). destruct (discovery_loop fd rounds _) as [st2 c3]. cbn in *.
    constructor; [done|]. rewrite !Forall_app. split_and!; [apply uses_callbacks|done|done].
  - specialize (IH (d2, next)). destruct (discovery_loop fd rounds _) as [st2 c3]. cbn in *. rewrite Forall_app. by split.
Qed.

(** The thread closes the socket it opened, once and last, on every path; nothing else is
    opened and every call in between is on it. Without a socket, or without
    its port, no beacon is sent, no callback is made and the table is left alone. *)
Theorem discovery_socket_released fd bound start rounds d :
  let '((d', m_socket), calls) := discovery_run fd bound start rounds d in
  (m_socket < 0)%Z /\
  ((0 <= fd)%Z -> exists middle, calls = UdpSocket fd :: middle ++ [UdpClose fd] /\ Forall (fun c => uses fd c = true) middle) /\
  ((fd < 0)%Z \/ bound = false -> d' = d /\ actions calls = []).
Proof.
  assert (Hfd : bool_decide (fd = fd) = true) by (by apply bool_decide_eq_true).
  unfold discovery_run. destruct (decide (fd < 0)%Z) as [Hf|Hf]; [split_and!; [done|lia|done]|].
  destruct bound.
  - pose proof (loop_uses fd rounds (d, start)) as K. destruct (discovery_loop fd rounds (d, start)) as [[d1 n1] calls]. cbn in K.
    split; [done|]. split; [|intros [?|?]; [lia|done]]. intros _.
    exists ([UdpOption fd SO_REUSEADDR; UdpOption fd SO_REUSEPORT; UdpOption fd SO_BROADCAST; UdpBind fd (m_discoveryPort d) true;
      UdpLog (active_text d)] ++ calls).
    split; [done|]. rewrite Forall_app. split; [by repeat constructor|exact K].
  - split; [done|]. split; [|by intros _]. intros _. eexists [_; _; _; _; _]. split; [done|]. by repeat constructor.
Qed.

(** ** The rate of beacons *)

Definition is_send (c : udp_call) : bool := match c with UdpSend _ _ _ => true | _ => false end.

Definition sends (calls : list udp_call) : Z := zlen (filter (fun c => is_send c = true) calls).

(** Every round follows the previous one within [gap]. *)
Fixpoint within (gap prev : Z) (rounds : list round) : Prop :=
  match rounds with
  | [] => True
  | r :: rounds => (prev <= rd_now r <= prev + gap)%Z /\ within gap (rd_now r) rounds
  end.

Definition last_time (prev : Z) (rounds : list round) : Z := default prev (rd_now <$> last rounds).

Lemma last_time_mono gap rounds : forall p, within gap p rounds -> (p <= last_time p rounds)%Z.
Proof.
  induction rounds as [|r rounds IH]; intros p; [done|]. intros [Hr Hw]. specialize (IH _ Hw).
  unfold last_time in *. rewrite last_cons. destruct (last rounds); cbn in *; lia.
Qed.

Lemma sends_app c1 c2 : sends (c1 ++ c2) = (sends c1 + sends c2)%Z.
Proof. unfold sends. by rewrite filter_app, zlen_app. Qed.

Lemma sends_callbacks acts : sends (Callback <$> acts) = 0%Z.
Proof. induction acts as [|a acts IH]; [done|]. unfold sends. rewrite fmap_cons, filter_cons_False by done. exact IH. Qed.

Lemma sends_receive fd r d : sends (receive_part fd r d).2 = 0%Z.
Proof.
  unfold receive_part. destruct (rd_readable r); [|done]. destruct (rd_received r) as [[[ip|] data]|]; [|done..].
  case_decide; [|done]. destruct (onDatagram _ _ _ _) as [d2 dials]. cbn [snd]. by rewrite sends_app, sends_callbacks.
Qed.

(** A round sends exactly when a beacon is due. *)
Lemma sends_round fd r d next :
  exists d', discovery_round fd r (d, next) =
      ((d', if decide (rd_now r >= next)%Z then (rd_now r + m_beaconInterval)%Z else next), (discovery_round fd r (d, next)).2) /\
    sends (discovery_round fd r (d, next)).2 = if decide (rd_now r >= next)%Z then 1%Z else 0%Z.
Proof.
  unfold discovery_round, beacon_part. case_decide as Hn.
  - destruct (expireStale (rd_now r) d) as [d1 drops]. pose proof (sends_receive fd r d1) as K.
    destruct (receive_part fd r d1) as [d2 c2]. cbn [fst snd] in *. exists d2. split; [done|].
    rewrite sends_app, K. change (UdpSend ?a ?b ?c :: ?l) with ([UdpSend a b c] ++ l). rewrite sends_app, sends_callbacks. done.
  - pose proof (sends_receive fd r d) as K. destruct (receive_part fd r d) as [d2 c2]. cbn [fst snd] in *. by exists d2.
Qed.

Lemma loop_rate fd gap rounds : forall d prev next,
  (0 <= gap)%Z -> (prev <= next)%Z -> within gap prev rounds ->
  let n := sends (discovery_loop fd rounds (d, next)).2 in
  (0 <= n)%Z /\ (0 < n -> next + (n - 1) * m_beaconInterval <= last_time prev rounds)%Z /\
  (last_time prev rounds <= next + n * (m_beaconInterval + gap))%Z.
Proof.
  assert (HI : (0 < m_beaconInterval)%Z) by done.
  induction rounds as [|r rounds IH]; intros d prev next Hg Hp Hw n; [assert (n = 0%Z) as -> by done; change (last_time prev []) with prev; lia|].
  destruct Hw as [Hr Hw]. destruct (sends_round fd r d next) as (d' & E & Hs).
  assert (El : last_time prev (r :: rounds) = last_time (rd_now r) rounds).
  { unfold last_time. rewrite last_cons. by destruct (last rounds). }
  assert (En : n = ((if decide (rd_now r >= next)%Z then 1 else 0) + sends (discovery_loop fd rounds (d',
    if decide (rd_now r >= next)%Z then (rd_now r + m_beaconInterval)%Z else next)).2)%Z).
  { unfold n. cbn [discovery_loop]. rewrite <-Hs, E. cbn [snd]. destruct (discovery_loop fd rounds _) as [st c2]. apply sends_app. }
  assert (Hmono : (rd_now r <= last_time (rd_now r) rounds)%Z) by by eapply last_time_mono.
  rewrite El, En. clearbody n. clear En Hs E. case_decide as Hn.
  - destruct (IH d' (rd_now r) (rd_now r + m_beaconInterval)%Z Hg ltac:(lia) Hw) as (K1 & K2 & K3).
    set (k := sends _) in *. split_and!; [lia| |lia]. intros _.
    destruct (decide (0 < k)%Z); [specialize (K2 ltac:(lia)); lia|]. assert (k = 0%Z) as -> by lia. lia.
  - destruct (IH d' (rd_now r) next Hg ltac:(lia) Hw) as (K1 & K2 & K3). set (k := sends _) in *. split_and!; [lia|exact K2|lia].
Qed.

(** The rate of beacons: with rounds at most [gap] apart, the beacons of a run are at least one
    interval apart and no further apart than an interval and a gap: their number over
    the time of the run is bounded on both sides. *)
Theorem discovery_beacon_rate fd gap start rounds d :
  (0 <= fd)%Z -> (0 <= gap)%Z -> within gap start rounds ->
  let n := sends (discovery_run fd true start rounds d).2 in
  let elapsed := (last_time start rounds - start)%Z in
  ((n - 1) * m_beaconInterval <= elapsed)%Z /\ (elapsed <= n * (m_beaconInterval + gap))%Z.
Proof.
  intros Hf Hg Hw n elapsed. destruct (loop_rate fd gap rounds d start start Hg ltac:(lia) Hw) as (K1 & K2 & K3).
  assert (En : n = sends (discovery_loop fd rounds (d, start)).2).
  { unfold n, discovery_run. rewrite decide_False by lia. destruct (discovery_loop fd rounds (d, start)) as [[d1 n1] calls].
    cbn [snd]. rewrite !sends_app. change (sends [UdpClose fd]) with 0%Z. rewrite Z.add_0_r. by rewrite Z.add_0_l. }
  rewrite En. unfold elapsed. assert (HI : (0 < m_beaconInterval)%Z) by done.
  assert (Hmono : (start <= last_time start rounds)%Z) by by eapply last_time_mono.
  set (k := sends _) in *. split; [|lia]. destruct (decide (0 < k)%Z); [specialize (K2 ltac:(lia)); lia|]. assert (k = 0%Z) as -> by lia. lia.
Qed.

End thread.
