(* ===== verification/Broker.v ===== *)
(** * The broker ([server/zmqbroker.{h,cpp}])

    The broker's state, one definition per method, the body of its thread and
    the entry points other threads use.  The ROUTER and the inspector's PUB
    socket, the generator of uuids and the loop's local clock complete the
    world the thread acts on.  Clock readings are arguments, in the order the
    code takes them. *)

From S2P Require Import Prelude Keys CppString SafeQueue SubscriptionRegistry MessageHeader.
From S2P Require Import Stats Wire Worker Uuid Discovery.

(** ** Free functions *)

Section routing.
Context {S : Type} `{ZmqSocket S}.

(** The identity frame gates the send; errors are swallowed. *)
Definition sendToClient (clientId headerBytes payload : string) : M S unit :=
  try_ignore (
    ok ← socket_send clientId true;
    if negb ok then mret tt
    else if decide (payload = "") then
      _ ← socket_send headerBytes false; mret tt
    else
      _ ← socket_send headerBytes true;
      _ ← socket_send payload false; mret tt).

End routing.

(** The first address that yields a usable port. *)
Fixpoint parseTcpPort (addresses : list string) : Z :=
  match addresses with
  | [] => 0
  | addr :: addresses =>
      if negb (str_starts_with "tcp://" addr) then parseTcpPort addresses
      else match str_rfind addr ":"%char with
           | None => parseTcpPort addresses
           | Some colon =>
               match stoi (str_substr_end addr (colon + 1)) with
               | Some port => if decide (0 < port <= 65535)%Z then u16 port
                              else parseTcpPort addresses
               | None => parseTcpPort addresses
               end
           end
  end.

(** ** State *)

Record ClientState := mkClient {
  identity : string;
  lastSeen : Z
}.

Definition ClientTimeout : Z := seconds 10.
Definition MaxHistorySize : nat := Z.to_nat 10000.

Section broker.
Context `{StatsRuntime} `{!HeaderParser} {G : Type} `{HexGen G} {S : Type} `{ZmqSocket S}
  `{UnorderedOrder}.

Record ZmqBroker := mkBroker {
  m_running : bool;
  m_brokerId : string;
  m_clients : gmap string ClientState;
  m_subscriptions : SubscriptionRegistry;
  m_peers : gmap string ZmqWorker;
  m_peerInboundQueue : SafeQueue Envelope;
  m_discovery : option BrokerDiscovery;
  m_discoveryEnabled : bool;
  m_clusterName : string;
  m_discoveryPort : Z;
  m_seenMessageIds : gset string;
  m_messageIdOrder : list string;
  m_startTime : Z;
  m_lastStatsTime : Z;
  m_totalMessages : Z;
  m_totalBytes : Z;
  m_msgsInterval : Z;
  m_bytesInterval : Z
}.

Definition set_clients (v : gmap string ClientState) (b : ZmqBroker) : ZmqBroker :=
  mkBroker (m_running b) (m_brokerId b) v (m_subscriptions b) (m_peers b) (m_peerInboundQueue b)
    (m_discovery b) (m_discoveryEnabled b) (m_clusterName b) (m_discoveryPort b)
    (m_seenMessageIds b) (m_messageIdOrder b) (m_startTime b) (m_lastStatsTime b)
    (m_totalMessages b) (m_totalBytes b) (m_msgsInterval b) (m_bytesInterval b).

Definition set_subscriptions (v : SubscriptionRegistry) (b : ZmqBroker) : ZmqBroker :=
  mkBroker (m_running b) (m_brokerId b) (m_clients b) v (m_peers b) (m_peerInboundQueue b)
    (m_discovery b) (m_discoveryEnabled b) (m_clusterName b) (m_discoveryPort b)
    (m_seenMessageIds b) (m_messageIdOrder b) (m_startTime b) (m_lastStatsTime b)
    (m_totalMessages b) (m_totalBytes b) (m_msgsInterval b) (m_bytesInterval b).

Definition set_peers (v : gmap string ZmqWorker) (b : ZmqBroker) : ZmqBroker :=
  mkBroker (m_running b) (m_brokerId b) (m_clients b) (m_subscriptions b) v (m_peerInboundQueue b)
    (m_discovery b) (m_discoveryEnabled b) (m_clusterName b) (m_discoveryPort b)
    (m_seenMessageIds b) (m_messageIdOrder b) (m_startTime b) (m_lastStatsTime b)
    (m_totalMessages b) (m_totalBytes b) (m_msgsInterval b) (m_bytesInterval b).

Definition set_peerInboundQueue (v : SafeQueue Envelope) (b : ZmqBroker) : ZmqBroker :=
  mkBroker (m_running b) (m_brokerId b) (m_clients b) (m_subscriptions b) (m_peers b) v
    (m_discovery b) (m_discoveryEnabled b) (m_clusterName b) (m_discoveryPort b)
    (m_seenMessageIds b) (m_messageIdOrder b) (m_startTime b) (m_lastStatsTime b)
    (m_totalMessages b) (m_totalBytes b) (m_msgsInterval b) (m_bytesInterval b).

Definition set_history (seen : gset string) (order : list string) (b : ZmqBroker) : ZmqBroker :=
  mkBroker (m_running b) (m_brokerId b) (m_clients b) (m_subscriptions b) (m_peers b)
    (m_peerInboundQueue b) (m_discovery b) (m_discoveryEnabled b) (m_clusterName b)
    (m_discoveryPort b) seen order (m_startTime b) (m_lastStatsTime b) (m_totalMessages b)
    (m_totalBytes b) (m_msgsInterval b) (m_bytesInterval b).

Definition set_broker_running (v : bool) (b : ZmqBroker) : ZmqBroker :=
  mkBroker v (m_brokerId b) (m_clients b) (m_subscriptions b) (m_peers b) (m_peerInboundQueue b)
    (m_discovery b) (m_discoveryEnabled b) (m_clusterName b) (m_discoveryPort b)
    (m_seenMessageIds b) (m_messageIdOrder b) (m_startTime b) (m_lastStatsTime b)
    (m_totalMessages b) (m_totalBytes b) (m_msgsInterval b) (m_bytesInterval b).

Definition set_discovery (v : option BrokerDiscovery) (b : ZmqBroker) : ZmqBroker :=
  mkBroker (m_running b) (m_brokerId b) (m_clients b) (m_subscriptions b) (m_peers b)
    (m_peerInboundQueue b) v (m_discoveryEnabled b) (m_clusterName b) (m_discoveryPort b)
    (m_seenMessageIds b) (m_messageIdOrder b) (m_startTime b) (m_lastStatsTime b)
    (m_totalMessages b) (m_totalBytes b) (m_msgsInterval b) (m_bytesInterval b).

Definition set_times (start stats : Z) (b : ZmqBroker) : ZmqBroker :=
  mkBroker (m_running b) (m_brokerId b) (m_clients b) (m_subscriptions b) (m_peers b)
    (m_peerInboundQueue b) (m_discovery b) (m_discoveryEnabled b) (m_clusterName b)
    (m_discoveryPort b) (m_seenMessageIds b) (m_messageIdOrder b) start stats (m_totalMessages b)
    (m_totalBytes b) (m_msgsInterval b) (m_bytesInterval b).

(** The counters after one received message of that size; they are unsigned. *)
Definition count_message (wireBytes : Z) (b : ZmqBroker) : ZmqBroker :=
  mkBroker (m_running b) (m_brokerId b) (m_clients b) (m_subscriptions b) (m_peers b)
    (m_peerInboundQueue b) (m_discovery b) (m_discoveryEnabled b) (m_clusterName b)
    (m_discoveryPort b) (m_seenMessageIds b) (m_messageIdOrder b) (m_startTime b)
    (m_lastStatsTime b) (u64 (m_totalMessages b + 1)) (u64 (m_totalBytes b + wireBytes))
    (u64 (m_msgsInterval b + 1)) (u64 (m_bytesInterval b + wireBytes)).

(** After a report. *)
Definition reset_interval (now : Z) (b : ZmqBroker) : ZmqBroker :=
  mkBroker (m_running b) (m_brokerId b) (m_clients b) (m_subscriptions b) (m_peers b)
    (m_peerInboundQueue b) (m_discovery b) (m_discoveryEnabled b) (m_clusterName b)
    (m_discoveryPort b) (m_seenMessageIds b) (m_messageIdOrder b) (m_startTime b) now
    (m_totalMessages b) (m_totalBytes b) 0 0.

(** ** Construction, discovery settings *)

Definition broker_new (g : G) : ZmqBroker * G :=
  let '(id, g) := generateUUID g in
  (mkBroker false id ∅ registry_empty ∅ queue_default None false "" kDefaultPort ∅ [] 0 0 0 0 0 0, g).

Definition enableDiscovery (clusterName : string) (discoveryPort : Z) (b : ZmqBroker) : ZmqBroker :=
  mkBroker (m_running b) (m_brokerId b) (m_clients b) (m_subscriptions b) (m_peers b)
    (m_peerInboundQueue b) (m_discovery b) true clusterName discoveryPort (m_seenMessageIds b)
    (m_messageIdOrder b) (m_startTime b) (m_lastStatsTime b) (m_totalMessages b) (m_totalBytes b)
    (m_msgsInterval b) (m_bytesInterval b).


(** ** Peers *)

Definition peer_config (brokerId peerAddress : string) : ConnectionConfig :=
  mkConfig peerAddress ("BrokerLink-" +:+ str_substr brokerId 0 8) ZMQ
    (keepAliveTime config_default) (keepAliveTimeout config_default)
    (compressionAlgorithm config_default).

(** The message callback of a peer link, run on the link's thread: [None] is
    the wait of the blocking push while the queue is full. *)
Definition peer_link_message (linkId : string) (env : Envelope)
    (st : ZmqWorker * SafeQueue Envelope) : option (ZmqWorker * SafeQueue Envelope) :=
  let '(link, inbound) := st in
  if decide (handler_key (Wire.header env) = Keys.RESET) then
    let sub := mkEnvelope _ (set_topic "" (set_sender_id linkId
                 (set_handler_key Keys.SUBSCRIBE header_new))) "" in
    Some ((writeControlMessage sub link).1, inbound)
  else match push env inbound with
       | Some (inbound, _) => Some (link, inbound)
       | None => None
       end.

Definition addPeer (key peerAddress : string) (b : ZmqBroker) : ZmqBroker :=
  let worker := worker_new (peer_config (m_brokerId b) peerAddress) in
  if decide (is_Some (m_peers b !! key)) then b
  else set_peers (<[key := worker_start worker]> (m_peers b)) b.

(** The worker that was removed is stopped outside the lock. *)
Definition removePeer (key : string) (b : ZmqBroker) : ZmqBroker * option ZmqWorker :=
  match m_peers b !! key with
  | None => (b, None)
  | Some worker => (set_peers (delete key (m_peers b)) b, Some (worker_stop worker))
  end.

Definition connectToPeer (peerAddress : string) (b : ZmqBroker) : ZmqBroker :=
  addPeer peerAddress peerAddress b.

(** The two callbacks given to the discovery component. *)
Definition on_discovery (a : discovery_action) (b : ZmqBroker) : ZmqBroker :=
  match a with
  | Dial uuid address => addPeer uuid address b
  | Drop uuid => (removePeer uuid b).1
  | SendBeacon _ => b
  end.

(** ** Start and stop *)

Definition broker_start (bindAddresses : list string) (now1 now2 : Z) (b : ZmqBroker) : ZmqBroker :=
  let b := set_times now1 now2 (set_broker_running true b) in
  if m_discoveryEnabled b then
    let routerPort := parseTcpPort bindAddresses in
    if decide (routerPort = 0%Z) then b
    else set_discovery (Some (discovery_start (discovery_new (m_clusterName b) (m_brokerId b)
           routerPort (m_discoveryPort b) true true))) b
  else b.

(** [main]: the addresses it binds, and discovery unless the environment turns
    it off; the cluster name is the variable's value or "default". *)
Definition main_bindings : list string := ["tcp://*:5555"; "ipc:///tmp/broker.sock"].

Definition main_broker (noDiscovery : bool) (cluster : option string) (g : G) (now1 now2 : Z) :
    ZmqBroker * G :=
  let '(broker, g) := broker_new g in
  let broker := if noDiscovery then broker
                else enableDiscovery (default "default" cluster) kDefaultPort broker in
  (broker_start main_bindings now1 now2 broker, g).

(** ** The world of the broker thread *)

Record broker_world := mkBrokerWorld {
  bw_broker : ZmqBroker;
  bw_router : S;
  bw_inspector : S;
  bw_gen : G;
  bw_lastCleanup : Z
}.

Definition on_broker (f : ZmqBroker -> ZmqBroker) (w : broker_world) : broker_world :=
  mkBrokerWorld (f (bw_broker w)) (bw_router w) (bw_inspector w) (bw_gen w) (bw_lastCleanup w).

Definition put_router (s : S) (w : broker_world) : broker_world :=
  mkBrokerWorld (bw_broker w) s (bw_inspector w) (bw_gen w) (bw_lastCleanup w).

Definition put_inspector (s : S) (w : broker_world) : broker_world :=
  mkBrokerWorld (bw_broker w) (bw_router w) s (bw_gen w) (bw_lastCleanup w).

Definition put_gen (g : G) (w : broker_world) : broker_world :=
  mkBrokerWorld (bw_broker w) (bw_router w) (bw_inspector w) g (bw_lastCleanup w).

Definition set_lastCleanup (t : Z) (w : broker_world) : broker_world :=
  mkBrokerWorld (bw_broker w) (bw_router w) (bw_inspector w) (bw_gen w) t.

Definition with_router {A} (m : M S A) : M broker_world A := mlift bw_router put_router m.
Definition with_inspector {A} (m : M S A) : M broker_world A := mlift bw_inspector put_inspector m.

(** ** Clients and duplicate detection *)

Definition broker_removeClient (clientId : string) (b : ZmqBroker) : ZmqBroker :=
  let b := set_subscriptions (SubscriptionRegistry.removeClient clientId (m_subscriptions b)) b in
  set_clients (delete clientId (m_clients b)) b.

(** [pop_front] of the oldest id when the history is over its size. *)
Definition isDuplicate (uuid : string) (b : ZmqBroker) : ZmqBroker * bool :=
  if decide (uuid ∈ m_seenMessageIds b) then (b, true)
  else
    let seen := {[uuid]} ∪ m_seenMessageIds b in
    let order := m_messageIdOrder b ++ [uuid] in
    if decide (MaxHistorySize < length order) then
      match order with
      | front :: rest => (set_history (seen ∖ {[front]}) rest b, false)
      | [] => (set_history seen order b, false)
      end
    else (set_history seen order b, false).

(** ** [processMessage] *)

(** Fresh messages get a uuid and this broker as their origin. *)
Definition stamp (h : MessageHeader) : M broker_world MessageHeader := fun w =>
  if decide (message_uuid h = "") then
    let '(uuid, g) := generateUUID (bw_gen w) in
    (put_gen g w, Ok (set_origin_broker_id (m_brokerId (bw_broker w)) (set_message_uuid uuid h)))
  else (w, Ok h).

Definition reset_header : MessageHeader := set_topic "" (set_handler_key Keys.RESET header_new).
Definition ack_header : MessageHeader :=
  set_topic "" (set_handler_key Keys.HEARTBEAT_ACK header_new).

(** The branch for local clients; true when the message goes on to routing. *)
Definition process_local (now : Z) (h : MessageHeader) (senderId : string) : M broker_world bool :=
  let key := handler_key h in
  if decide (key = Keys.DISCONNECT) then
    _ ← mmodify (on_broker (broker_removeClient senderId)); mret false
  else
    w ← mget;
    let newClient := bool_decide (m_clients (bw_broker w) !! senderId = None) in
    _ ← mmodify (on_broker (fun b =>
          set_clients (<[senderId := mkClient senderId now]> (m_clients b)) b));
    if newClient then
      _ ← with_router (sendToClient senderId (encodeHeader reset_header) ""); mret false
    else if decide (key = Keys.CONNECT \/ key = Keys.HEARTBEAT) then
      _ ← (if decide (key = Keys.HEARTBEAT)
           then with_router (sendToClient senderId (encodeHeader ack_header) "") else mret tt);
      mret false
    else if decide (key = Keys.SUBSCRIBE) then
      _ ← mmodify (on_broker (fun b =>
            set_subscriptions (subscribe senderId (topic h) (m_subscriptions b)).1 b));
      mret false
    else if decide (key = Keys.UNSUBSCRIBE) then
      _ ← mmodify (on_broker (fun b =>
            set_subscriptions (unsubscribe senderId (topic h) (m_subscriptions b)).1 b));
      mret false
    else mret true.

(** The branch for peers. *)
Definition peer_ignored (key : string) : bool :=
  bool_decide (key = Keys.RESET \/ key = Keys.HEARTBEAT_ACK \/ key = Keys.HEARTBEAT).

(** The lambda [deliver]. *)
Definition deliver (headerBytes payload senderId : string) (isFromPeer : bool) (id : string) :
    M broker_world unit :=
  w ← mget;
  if negb isFromPeer && bool_decide (id = senderId) then mret tt
  else if decide (m_clients (bw_broker w) !! id = None) then mret tt
  else with_router (sendToClient id headerBytes payload).

Definition deliver_all (h : MessageHeader) (headerBytes payload senderId : string)
    (isFromPeer : bool) : M broker_world unit :=
  w ← mget;
  let reg := m_subscriptions (bw_broker w) in
  let exactSubs := subscribersOf (topic h) reg in
  let wildcardSubs := if decide (topic h = "") then None else subscribersOf "" reg in
  _ ← match exactSubs with
      | Some ids => mfor (deliver headerBytes payload senderId isFromPeer) ids
      | None => mret tt
      end;
  match wildcardSubs with
  | Some ids =>
      mfor (fun id => if match exactSubs with Some l => bool_decide (id ∈ l) | None => false end then mret tt
                      else deliver headerBytes payload senderId isFromPeer id) ids
  | None => mret tt
  end.

(** The flood loop; [fwd.header = header] is the copy assignment. *)
Definition flood_peers (h : MessageHeader) (payload : string) (b : ZmqBroker) : ZmqBroker :=
  foldl (fun b '(key, peer) =>
           let fwd := mkEnvelope _ (header_CopyFrom header_new h) payload in
           set_peers (<[key := (writeMessage fwd peer).1]> (m_peers b)) b)
    b (umap_iter (m_peers b)).

Definition processMessage (now : Z) (h : MessageHeader) (payload senderId : string)
    (isFromPeer : bool) : M broker_world unit :=
  h ← stamp h;
  let headerBytes := encodeHeader h in
  _ ← with_inspector (sendFrames headerBytes payload);
  let key := handler_key h in
  continue ← (if negb isFromPeer then process_local now h senderId
              else mret (negb (peer_ignored key)));
  if negb continue then mret tt
  else
    duplicate ← (fun w => let '(b, dup) := isDuplicate (message_uuid h) (bw_broker w) in
                          (on_broker (fun _ => b) w, Ok dup));
    if duplicate : bool then mret tt
    else
      _ ← deliver_all h headerBytes payload senderId isFromPeer;
      mmodify (on_broker (flood_peers h payload)).

(** ** Reports *)

Definition client_info (reg : SubscriptionRegistry) (id : string) : ClientInfo :=
  let info := set_id id clientinfo_new in
  match subscriptionsOf id reg with
  | Some topics => foldl (fun i t => add_subscriptions t i) info (std_set_iter topics)
  | None => info
  end.

(** [now] is the second clock reading of the report. *)
Definition make_stats (now : Z) (b : ZmqBroker) : SystemStats :=
  let uptime := Z.quot (now - m_startTime b) (seconds 1) in
  let kbSec := double_div (double_of_Z (m_bytesInterval b)) (double_of_Z 1024) in
  let stats := set_broker_id (m_brokerId b) stats_new in
  let stats := set_clients_count (Z.of_nat (size (m_clients b))) stats in
  let stats := set_peers_count (Z.of_nat (size (m_peers b))) stats in
  let stats := set_msgs_per_sec (m_msgsInterval b) stats in
  let stats := set_kb_per_sec kbSec stats in
  let stats := set_total_msgs (m_totalMessages b) stats in
  let stats := set_uptime_sec uptime stats in
  foldl (fun s '(id, _) => add_connected_clients (client_info (m_subscriptions b) id) s)
    stats (umap_iter (m_clients b)).

Definition stats_header : MessageHeader :=
  set_sender_id "BROKER_SYSTEM" (set_topic Keys.SYS_STATS
    (set_handler_key Keys.SYS_STATS header_new)).

Definition broadcastStats (now : Z) : M broker_world unit :=
  w ← mget;
  let stats := make_stats now (bw_broker w) in
  let payload := pack_stats stats in
  let headerBytes := encodeHeader stats_header in
  _ ← with_inspector (sendFrames headerBytes payload);
  match subscribersOf Keys.SYS_STATS (m_subscriptions (bw_broker w)) with
  | Some subs => mfor (fun id => with_router (sendToClient id headerBytes payload)) subs
  | None => mret tt
  end.

(** ** The loop *)

(** The zombie sweep. *)
Definition remove_zombies (now : Z) (b : ZmqBroker) : ZmqBroker :=
  foldl (fun b '(id, st) =>
           if decide (now - lastSeen st > ClientTimeout)%Z then broker_removeClient id b else b)
    b (umap_iter (m_clients b)).

Definition cleanup_if_due (now : Z) : M broker_world unit :=
  w ← mget;
  if decide (now - bw_lastCleanup w > seconds 2)%Z then
    _ ← mmodify (on_broker (remove_zombies now)); mmodify (set_lastCleanup now)
  else mret tt.

Definition stats_if_due (now now_stats : Z) : M broker_world unit :=
  w ← mget;
  if decide (now - m_lastStatsTime (bw_broker w) > seconds 1)%Z then
    _ ← broadcastStats now_stats; mmodify (on_broker (reset_interval now))
  else mret tt.

(** One message from the router; false is the [continue] of the code, which
    skips the rest of the iteration. *)
Definition receive_client (now_rx : Z) : M broker_world bool :=
  ident ← with_router (socket_recv false);
  match ident with
  | None => mret true
  | Some ident =>
      more ← with_router socket_rcvmore;
      if negb more then mret false
      else
        env ← with_router (recv false);
        match env with
        | None => mret true
        | Some env =>
            let wireBytes := u64 (ByteSizeLong (Wire.header env) + slen (Wire.payload env)) in
            _ ← mmodify (on_broker (count_message wireBytes));
            _ ← processMessage now_rx (Wire.header env) (Wire.payload env) ident false;
            mret true
        end
  end.

(** [while (m_peerInboundQueue.try_pop(peerEnv))], one round per envelope.
    The clock is read only for local clients. *)
Fixpoint drain_peers_loop (fuel : nat) : M broker_world unit :=
  w ← mget;
  match try_pop (m_peerInboundQueue (bw_broker w)) with
  | (q, Some env) =>
      _ ← mmodify (on_broker (set_peerInboundQueue q));
      _ ← processMessage 0 (Wire.header env) (Wire.payload env) "PEER" true;
      match fuel with
      | O => mret tt
      | Datatypes.S fuel => drain_peers_loop fuel
      end
  | (_, None) => mret tt
  end.

Definition drain_peers : M broker_world unit := fun w =>
  drain_peers_loop (length (m_queue (m_peerInboundQueue (bw_broker w)))) w.

(** The body of [while (m_running)]: the clock is read on a local message, after
    the two receive steps, and again inside the report. *)
Definition broker_iteration (now_rx now now_stats : Z) : M broker_world unit :=
  w ← mget;
  continue ← (if zmq_pollin (bw_router w) then receive_client now_rx else mret true);
  if negb continue then mret tt
  else
    _ ← drain_peers;
    _ ← cleanup_if_due now;
    stats_if_due now now_stats.

End broker.
