(* ===== verification/BrokerFacts.v ===== *)
(** * The broker: invariant and lemmas

    What each method of [Broker] does to the broker's own state and to the
    sockets.  The theorems are in [BrokerTheorems]. *)

From S2P Require Import Prelude Keys CppString SafeQueue SubscriptionRegistry MessageHeader.
From S2P Require Import Stats Wire Worker Uuid Discovery Broker.

(** ** Sending to clients *)

Section routing.
Context {S : Type} `{ZmqSocket S}.

(** The multipart message a client gets. *)
Definition routed (headerBytes payload id : string) : list string :=
  id :: headerBytes :: payload_frames payload.

Lemma sendToClient_spec id hb p s s' r :
  zmq_open s = [] -> sendToClient id hb p s = (s', r) ->
  r = Ok tt /\ zmq_open s' = [] /\ zmq_current s' = zmq_current s /\
  zmq_pending s' = zmq_pending s /\
  match zmq_msg_send s id true with
  | (_, None) => zmq_sent s' = zmq_sent s ++ [routed hb p id]
  | (_, Some _) => s' = (zmq_msg_send s id true).1 /\ zmq_sent s' = zmq_sent s
  end.
Proof.
  intros Ho. unfold sendToClient, try_ignore, mbind, M_bind, socket_send at 1.
  pose proof (zmq_send_rx s id true) as [Hc Hp].
  destruct (zmq_msg_send s id true) as [s1 [e|]] eqn:E; simpl in *.
  - apply zmq_send_err in E as (_ & E1 & E2).
    case_decide; intros [= <- <-]; by split_and!.
  - apply zmq_send_ok in E as [E1 E2]. rewrite Ho in E1. simpl in E1.
    unfold routed, payload_frames. case_decide as Hpay.
    + destruct (socket_send_open s1 hb false) as (s2 & Es & E3); [by rewrite E1|].
      pose proof (zmq_send_rx s1 hb false) as [Hc' Hp']. rewrite E3 in Hc', Hp'.
      apply zmq_send_ok in E3 as [E4 E5]. rewrite Es. intros [= <- <-]. simpl in *.
      split_and!; try congruence. by rewrite E5, E2, E1.
    + destruct (socket_send_open s1 hb true) as (s2 & Es & E3); [by rewrite E1|].
      pose proof (zmq_send_rx s1 hb true) as [Hc' Hp']. rewrite E3 in Hc', Hp'.
      apply zmq_send_ok in E3 as [E4 E5]. rewrite Es. rewrite E1 in E4. simpl in *.
      destruct (socket_send_open s2 p false) as (s3 & Es' & E6); [by rewrite E4|].
      pose proof (zmq_send_rx s2 p false) as [Hc'' Hp'']. rewrite E6 in Hc'', Hp''.
      apply zmq_send_ok in E6 as [E7 E8]. rewrite Es'. intros [= <- <-]. simpl in *.
      split_and!; try congruence. by rewrite E8, E5, E2, E4.
Qed.

(** One send after the other. *)
Definition send_each (hb p : string) (ids : list string) : M S unit :=
  mfor (fun id => sendToClient id hb p) ids.

Lemma send_each_spec hb p ids s s' r :
  zmq_open s = [] -> send_each hb p ids s = (s', r) ->
  r = Ok tt /\ zmq_open s' = [] /\ zmq_current s' = zmq_current s /\
  zmq_pending s' = zmq_pending s /\
  exists served, served `sublist_of` ids /\ zmq_sent s' = zmq_sent s ++ (routed hb p <$> served).
Proof.
  unfold send_each. revert s. induction ids as [|id ids IH]; intros s Ho; simpl.
  - intros [= <- <-]. split_and!; try done. exists []. by rewrite app_nil_r.
  - unfold mbind, M_bind. destruct (sendToClient id hb p s) as [s1 r1] eqn:E1.
    destruct (sendToClient_spec _ _ _ _ _ _ Ho E1) as (-> & O1 & C1 & P1 & K1).
    intros E2. destruct (IH _ O1 E2) as (-> & O2 & C2 & P2 & served & Hsub & K2).
    split_and!; try congruence.
    destruct (zmq_msg_send s id true) as [s2 [e|]].
    + exists served. destruct K1 as [_ K1]. rewrite K2, K1. split; [by constructor|done].
    + exists (id :: served). rewrite K2, K1. split; [by constructor|].
      by rewrite <-(assoc_L (++)).
Qed.

(** A router socket whose answers are known: it takes messages for the
    identities that are [ok] and refuses the others; refusing one leaves it
    fit for the next. *)
Definition routing_socket (P : S -> Prop) (ok : string -> bool) : Prop :=
  (forall s id, P s -> zmq_open s = [] ->
     P (zmq_msg_send s id true).1 /\
     (ok id = true <-> (zmq_msg_send s id true).2 = None)) /\
  (forall s f more, P s -> zmq_open s <> [] -> P (zmq_msg_send s f more).1) /\
  (forall s dontwait, P s -> P (zmq_msg_recv s dontwait).1).

Lemma sendToClient_routing P ok id hb p s s' r :
  routing_socket P ok -> P s -> zmq_open s = [] -> sendToClient id hb p s = (s', r) ->
  P s' /\ zmq_sent s' = zmq_sent s ++ (if ok id then [routed hb p id] else []).
Proof.
  intros (HP1 & HP2 & _) Hs Ho E.
  destruct (sendToClient_spec _ _ _ _ _ _ Ho E) as (-> & _ & _ & _ & K).
  destruct (HP1 s id Hs Ho) as [HPs Hok].
  destruct (zmq_msg_send s id true) as [s1 [e|]] eqn:E1; simpl in *.
  - destruct K as [-> ->]. destruct (ok id); [naive_solver|]. by rewrite app_nil_r.
  - rewrite (proj2 Hok eq_refl). split; [|done]. clear K Hok. revert E.
    pose proof (zmq_send_ok _ _ _ _ E1) as [O1 _].
    unfold sendToClient, try_ignore, mbind, M_bind, socket_send at 1. rewrite E1. simpl.
    case_decide.
    + destruct (socket_send_open s1 hb false) as (s2 & Es & E3); [rewrite O1; by destruct (zmq_open s)|].
      rewrite Es. intros [= <-]. pose proof (HP2 s1 hb false HPs) as K. rewrite E3 in K.
      apply K. rewrite O1. by destruct (zmq_open s).
    + destruct (socket_send_open s1 hb true) as (s2 & Es & E3); [rewrite O1; by destruct (zmq_open s)|].
      rewrite Es. pose proof (HP2 s1 hb true HPs) as K. rewrite E3 in K.
      pose proof (zmq_send_ok _ _ _ _ E3) as [O2 _].
      destruct (socket_send_open s2 p false) as (s3 & Es' & E4); [rewrite O2; by destruct (zmq_open s1)|].
      rewrite Es'. intros [= <-].
      pose proof (HP2 s2 p false) as K'. rewrite E4 in K'. apply K'.
      * apply K. rewrite O1. by destruct (zmq_open s).
      * rewrite O2. by destruct (zmq_open s1).
Qed.

Lemma send_each_routing P ok hb p ids s s' r :
  routing_socket P ok -> P s -> zmq_open s = [] -> send_each hb p ids s = (s', r) ->
  P s' /\ zmq_sent s' = zmq_sent s ++ (routed hb p <$> filter (fun id => ok id = true) ids).
Proof.
  intros HP. unfold send_each. revert s. induction ids as [|id ids IH]; intros s Hs Ho; simpl.
  - intros [= <- <-]. by rewrite app_nil_r.
  - unfold mbind, M_bind. destruct (sendToClient id hb p s) as [s1 r1] eqn:E1.
    destruct (sendToClient_spec _ _ _ _ _ _ Ho E1) as (-> & O1 & _).
    destruct (sendToClient_routing P ok _ _ _ _ _ _ HP Hs Ho E1) as [P1 K1].
    intros E2. destruct (IH s1 P1 O1 E2) as [P2 K2]. split; [done|].
    rewrite K2, K1, filter_cons. destruct (ok id); simpl.
    + by rewrite <-(assoc_L (++)).
    + by rewrite app_nil_r.
Qed.

End routing.

Section facts.
Context `{StatsRuntime} `{!HeaderParser} {G : Type} `{HexGen G} {S : Type} `{ZmqSocket S}
  `{UnorderedOrder}.

Implicit Types b : ZmqBroker.
Implicit Types w : broker_world (G:=G) (S:=S).

(** ** Delivery *)

Definition may_receive b (senderId : string) (isFromPeer : bool) (id : string) : bool :=
  negb (negb isFromPeer && bool_decide (id = senderId)) && bool_decide (is_Some (m_clients b !! id)).

(** Who gets a message on topic [t], in the order of the sends. *)
Definition recipients b (t senderId : string) (isFromPeer : bool) : list string :=
  let exact := subs_of (m_subscriptions b) t in
  let wildcard := if decide (t = "") then [] else subs_of (m_subscriptions b) "" in
  filter (fun id => may_receive b senderId isFromPeer id = true)
    (exact ++ filter (fun id => id ∉ exact) wildcard).

Lemma with_router_bind {A B} (m : M S A) (k : A -> M S B) w :
  (with_router m ≫= fun a => with_router (k a)) w = with_router (G:=G) (m ≫= k) w.
Proof.
  unfold with_router, mlift, mbind, M_bind. simpl.
  destruct (m (bw_router w)) as [s [a|e]]; [|done]. simpl. by destruct (k a s).
Qed.

Lemma with_router_ret w : with_router (G:=G) (mret tt) w = (w, Ok tt).
Proof. by destruct w. Qed.

Lemma mfor_send_each (body : string -> M broker_world unit) (sel : ZmqBroker -> string -> bool) hb p ids w :
  (forall id w, body id w = if sel (bw_broker w) id then with_router (sendToClient id hb p) w
                            else (w, Ok tt)) ->
  mfor body ids w =
  with_router (send_each hb p (filter (fun id => sel (bw_broker w) id = true) ids)) w.
Proof.
  intros Hb. revert w. induction ids as [|id ids IH]; intros w; simpl; [by destruct w|].
  unfold mbind, M_bind. rewrite Hb, filter_cons.
  destruct (sel (bw_broker w) id) eqn:E; simpl; [|by rewrite IH].
  unfold with_router at 1, mlift. destruct (sendToClient id hb p (bw_router w)) as [s [[]|e]] eqn:E1.
  - rewrite IH. unfold with_router, mlift, send_each; simpl. unfold mbind, M_bind. by rewrite E1.
  - unfold with_router, mlift, send_each; simpl. unfold mbind, M_bind. by rewrite E1.
Qed.

Lemma deliver_select hb p snd peer id w :
  deliver hb p snd peer id w =
  if may_receive (bw_broker w) snd peer id then with_router (G:=G) (sendToClient id hb p) w
  else (w, Ok tt).
Proof.
  unfold deliver, may_receive, mbind, M_bind, mget.
  destruct (negb peer && bool_decide (id = snd)); simpl; [done|].
  case_decide as Hn; [by rewrite bool_decide_eq_false_2 by (rewrite Hn; by intros [])|].
  rewrite bool_decide_eq_true_2; [done|]. by destruct (m_clients (bw_broker w) !! id); eauto.
Qed.

Lemma send_each_app hb p ids1 ids2 w :
  (with_router (send_each hb p ids1) ≫= fun _ => with_router (send_each hb p ids2)) w =
  with_router (G:=G) (send_each hb p (ids1 ++ ids2)) w.
Proof.
  rewrite with_router_bind. unfold with_router, mlift, send_each. f_equal.
  enough (K : forall s, (mfor (fun id => sendToClient id hb p) ids1 ≫= fun _ =>
      mfor (fun id => sendToClient id hb p) ids2) s =
      mfor (fun id => sendToClient id hb p) (ids1 ++ ids2) s) by (by rewrite K).
  induction ids1 as [|id ids1 IH]; intros s; [done|]. simpl. unfold mbind, M_bind in *.
  destruct (sendToClient id hb p s) as [s1 [[]|e]]; [|done]. by rewrite <-IH.
Qed.

(** The two loops of the code send to [recipients] and touch only the router. *)
Lemma deliver_all_recipients h hb p snd peer w :
  deliver_all h hb p snd peer w =
  with_router (send_each hb p (recipients (bw_broker w) (topic h) snd peer)) w.
Proof.
  unfold deliver_all, recipients. unfold mbind at 1, M_bind at 1, mget.
  rewrite filter_app, <-send_each_app. unfold mbind, M_bind.
  set (exact := subs_of (m_subscriptions (bw_broker w)) (topic h)).
  assert (E1 : match subscribersOf (topic h) (m_subscriptions (bw_broker w)) with
               | Some ids => mfor (deliver hb p snd peer) ids
               | None => mret tt
               end w = with_router (send_each hb p (filter (fun id =>
                   may_receive (bw_broker w) snd peer id = true) exact)) w).
  { unfold exact, subs_of, subscribersOf. destruct (_ !! topic h) as [ids|]; simpl.
    - apply (mfor_send_each _ (fun b id => may_receive b snd peer id)), deliver_select.
    - by destruct w. }
  rewrite E1. destruct (with_router _ w) as [w1 [[]|e]] eqn:E2; [|done].
  assert (Hb : bw_broker w1 = bw_broker w).
  { revert E2. unfold with_router, mlift. destruct (send_each _ _ _ _). by intros [= <- _]. }
  destruct (decide (topic h = "")) as [Ht|Ht]; [by destruct w1|].
  unfold subscribersOf at 1, subs_of. destruct (_ !! "") as [ids|] eqn:Ew; simpl; [|by destruct w1].
  rewrite (mfor_send_each _ (fun b id => bool_decide (id ∉ exact) && may_receive b snd peer id) hb p).
  - rewrite Hb. do 2 f_equal. rewrite list_filter_filter. apply list_filter_iff. intros id.
    rewrite andb_true_iff, bool_decide_eq_true. tauto.
  - intros id w2. unfold exact, subs_of, subscribersOf.
    destruct (_ !! topic h) as [l|] eqn:El; simpl.
    + destruct (decide (id ∈ l)) as [Hin|Hin].
      * by rewrite (bool_decide_eq_true_2 (id ∈ l)), (bool_decide_eq_false_2 (id ∉ l)) by tauto.
      * rewrite (bool_decide_eq_false_2 (id ∈ l)), (bool_decide_eq_true_2 (id ∉ l)) by done.
        apply deliver_select.
    + apply deliver_select.
Qed.

Lemma elem_of_recipients b t snd peer c :
  c ∈ recipients b t snd peer <->
  (c ∈ subs_of (m_subscriptions b) t \/ c ∈ subs_of (m_subscriptions b) "") /\
  (peer = true \/ c <> snd) /\ is_Some (m_clients b !! c).
Proof.
  unfold recipients, may_receive. rewrite list_elem_of_filter, elem_of_app, list_elem_of_filter.
  rewrite andb_true_iff, negb_true_iff, andb_false_iff, negb_false_iff, bool_decide_eq_true,
    bool_decide_eq_false.
  destruct (decide (c ∈ subs_of (m_subscriptions b) t)); destruct (decide (t = "")) as [->|];
    rewrite ?elem_of_nil; destruct peer; naive_solver.
Qed.

Lemma NoDup_recipients b t snd peer :
  registry_wf (m_subscriptions b) -> NoDup (recipients b t snd peer).
Proof.
  intros [_ Hn _ _]. apply NoDup_filter, NoDup_app. split_and!; [apply Hn| |].
  - intros c Hc. rewrite list_elem_of_filter. tauto.
  - apply NoDup_filter. case_decide; [constructor|apply Hn].
Qed.

(** ** Flooding *)

Definition forwarded (h : MessageHeader) (p : string) : Envelope :=
  mkEnvelope _ (header_CopyFrom header_new h) p.

Lemma set_peers_same b : set_peers (m_peers b) b = b.
Proof. by destruct b. Qed.

Lemma flood_loop_peers (f : ZmqWorker -> ZmqWorker) l b :
  foldl (fun b '(key, peer) => set_peers (<[key := f peer]> (m_peers b)) b) b l =
  set_peers (foldl (fun m '(key, peer) => <[key := f peer]> m) (m_peers b) l) b.
Proof.
  revert b. induction l as [|[k x] l IH]; intros b; simpl; [by destruct b|]. by rewrite IH.
Qed.

Lemma foldl_insert_lookup {A} (f : A -> A) (l : list (string * A)) (m : gmap string A) k :
  NoDup l.*1 ->
  foldl (fun m '(key, x) => <[key := f x]> m) m l !! k =
  match list_to_map (M:=gmap string A) l !! k with Some x => Some (f x) | None => m !! k end.
Proof.
  revert m. induction l as [|[k' x] l IH]; intros m Hn; simpl; [done|].
  apply NoDup_cons in Hn as [Hn1 Hn2]. rewrite IH by done.
  destruct (decide (k = k')) as [->|Hne].
  - rewrite lookup_insert_eq, not_elem_of_list_to_map_1, lookup_insert_eq by done. done.
  - by rewrite !lookup_insert_ne by done.
Qed.

(** Every peer's worker is offered the message, nothing else changes. *)
Lemma flood_peers_fmap h p b :
  flood_peers h p b = set_peers ((fun k => (writeMessage (forwarded h p) k).1) <$> m_peers b) b.
Proof.
  unfold flood_peers. rewrite (flood_loop_peers (fun k => (writeMessage (forwarded h p) k).1)).
  f_equal. apply map_eq. intros k. rewrite foldl_insert_lookup by apply NoDup_umap_iter_keys.
  rewrite lookup_fmap.
  assert (list_to_map (M:=gmap string ZmqWorker) (umap_iter (m_peers b)) = m_peers b) as ->.
  { rewrite (list_to_map_proper (umap_iter (m_peers b)) (map_to_list (m_peers b))).
    - apply list_to_map_to_list.
    - apply NoDup_umap_iter_keys.
    - apply umap_iter_perm. }
  by destruct (m_peers b !! k).
Qed.

(** ** [processMessage] as a state change and a list of sends *)

(** The recipients, header frame and payload of the sends, for a stamped
    header. *)
Definition process_core (now : Z) (h : MessageHeader) (p snd : string) (peer : bool) b :
    ZmqBroker * (list string * string * string) :=
  let key := handler_key h in
  let quiet b := (b, ([], encodeHeader h, p)) in
  let route b :=
    let '(b1, dup) := isDuplicate (message_uuid h) b in
    if dup : bool then quiet b1
    else (flood_peers h p b1, (recipients b1 (topic h) snd peer, encodeHeader h, p)) in
  if peer then (if peer_ignored key then quiet b else route b)
  else if decide (key = Keys.DISCONNECT) then quiet (broker_removeClient snd b)
  else
    let b1 := set_clients (<[snd := mkClient snd now]> (m_clients b)) b in
    if decide (m_clients b !! snd = None) then (b1, ([snd], encodeHeader reset_header, ""))
    else if decide (key = Keys.HEARTBEAT) then (b1, ([snd], encodeHeader ack_header, ""))
    else if decide (key = Keys.CONNECT) then quiet b1
    else if decide (key = Keys.SUBSCRIBE) then
      quiet (set_subscriptions (subscribe snd (topic h) (m_subscriptions b)).1 b1)
    else if decide (key = Keys.UNSUBSCRIBE) then
      quiet (set_subscriptions (unsubscribe snd (topic h) (m_subscriptions b)).1 b1)
    else route b1.

Lemma sendToClient_ok id hb p (s : S) : exists s', sendToClient id hb p s = (s', Ok tt).
Proof. unfold sendToClient, try_ignore. case_match. by eexists. Qed.

Lemma send_each_ok hb p ids (s : S) : exists s', send_each hb p ids s = (s', Ok tt).
Proof.
  unfold send_each. revert s. induction ids as [|id ids IH]; intros s; simpl; [by eexists|].
  unfold mbind, M_bind. destruct (sendToClient_ok id hb p s) as [s1 ->]. apply IH.
Qed.

Lemma send_each_one hb p id (s : S) : send_each hb p [id] s = sendToClient id hb p s.
Proof.
  unfold send_each; simpl. unfold mbind, M_bind. by destruct (sendToClient_ok id hb p s) as [s1 ->].
Qed.

(** What [stamp] makes of a header. *)
Definition stamped (h : MessageHeader) w : MessageHeader :=
  if decide (message_uuid h = "")
  then set_origin_broker_id (m_brokerId (bw_broker w))
         (set_message_uuid (generateUUID (bw_gen w)).1 h)
  else h.

Lemma stamp_eq h w : exists g, stamp h w = (put_gen (S:=S) g w, Ok (stamped h w)).
Proof.
  unfold stamp, stamped. case_decide; [|exists (bw_gen w); by destruct w].
  destruct (generateUUID (bw_gen w)) as [u g]. by exists g.
Qed.

Lemma route_core h p snd peer w :
  ((duplicate ← (fun w => let '(b, dup) := isDuplicate (message_uuid h) (bw_broker w) in
                          (on_broker (fun _ => b) w, Ok dup));
    if duplicate : bool then mret tt
    else
      _ ← deliver_all h (encodeHeader h) p snd peer;
      mmodify (on_broker (flood_peers h p))) : M broker_world unit) w =
  let '(b1, dup) := isDuplicate (message_uuid h) (bw_broker w) in
  if dup : bool then (on_broker (fun _ => b1) w, Ok tt)
  else with_router (send_each (encodeHeader h) p (recipients b1 (topic h) snd peer))
         (on_broker (fun _ => flood_peers h p b1) w).
Proof.
  unfold mbind at 1, M_bind at 1.
  destruct (isDuplicate _ (bw_broker w)) as [b1 dup]. destruct dup; [done|].
  unfold mbind, M_bind. rewrite deliver_all_recipients. simpl.
  unfold with_router, mlift; simpl.
  destruct (send_each_ok (encodeHeader h) p (recipients b1 (topic h) snd peer) (bw_router w))
    as [s ->]. done.
Qed.

Lemma processMessage_core now h p snd peer w :
  processMessage now h p snd peer w =
  match stamp h w with
  | (w1, Ok h1) =>
      match with_inspector (sendFrames (encodeHeader h1) p) w1 with
      | (w2, Ok _) =>
          let '(b, (ids, hb, q)) := process_core now h1 p snd peer (bw_broker w2) in
          with_router (send_each hb q ids) (on_broker (fun _ => b) w2)
      | (w2, Throw e) => (w2, Throw e)
      end
  | (w1, Throw e) => (w1, Throw e)
  end.
Proof.
  unfold processMessage. unfold mbind at 1, M_bind at 1.
  destruct (stamp h w) as [w1 [h1|e]]; [|done]. unfold mbind at 1, M_bind at 1.
  destruct (with_inspector _ w1) as [w2 [u|e]]; [|done].
  unfold mbind at 1, M_bind at 1, process_core. destruct peer; simpl.
  - unfold mret, M_ret. destruct (peer_ignored (handler_key h1)); simpl; [by destruct w2|].
    rewrite route_core. destruct (isDuplicate _ _) as [b1 []]; [by destruct w2|done].
  - unfold process_local. case_decide as K1; [by destruct w2|].
    unfold mbind at 1, M_bind at 1, mget. unfold mbind at 1, M_bind at 1, mmodify at 1.
    case_bool_decide as K2; simpl.
    { destruct (decide (m_clients (bw_broker w2) !! snd = None)); [|done].
      unfold mbind, M_bind, with_router, mlift. simpl. rewrite send_each_one. by edestruct sendToClient_ok as [s ->]. }
    destruct (decide (m_clients (bw_broker w2) !! snd = None)); [done|].
    destruct (decide (handler_key h1 = Keys.HEARTBEAT)) as [K3|K3].
    { rewrite decide_True by auto. unfold mbind, M_bind, with_router, mlift. simpl.
      rewrite send_each_one. by edestruct sendToClient_ok as [s ->]. }
    destruct (decide (handler_key h1 = Keys.CONNECT)) as [K4|K4].
    { rewrite decide_True by auto. by destruct w2. }
    rewrite decide_False by tauto.
    case_decide; [by destruct w2|]. case_decide; [by destruct w2|]. simpl.
    unfold mret at 1, M_ret at 1. simpl. rewrite route_core. simpl.
    destruct (isDuplicate _ _) as [b1 []]; [by destruct w2|done].
Qed.

(** ** The invariant of the broker thread's own state *)

Record broker_inv b : Prop := {
  bi_registry : registry_wf (m_subscriptions b);
  bi_subscribers : forall c t, c ∈ subs_of (m_subscriptions b) t -> is_Some (m_clients b !! c);
  bi_identity : forall c st, m_clients b !! c = Some st -> identity st = c;
  bi_seen : m_seenMessageIds b = list_to_set (m_messageIdOrder b);
  bi_order : NoDup (m_messageIdOrder b);
  bi_bound : length (m_messageIdOrder b) <= MaxHistorySize
}.

(** The fields only the broker thread touches. *)
Definition owned b : gmap string ClientState * SubscriptionRegistry * gset string * list string :=
  (m_clients b, m_subscriptions b, m_seenMessageIds b, m_messageIdOrder b).

Lemma broker_inv_owned b b' : owned b' = owned b -> broker_inv b -> broker_inv b'.
Proof.
  unfold owned. intros [= E1 E2 E3 E4] []. split; rewrite ?E1, ?E2, ?E3, ?E4; auto.
Qed.

Lemma broker_new_inv g : broker_inv (broker_new (G:=G) g).1.
Proof.
  unfold broker_new. destruct (generateUUID g) as [id g']. split; simpl; try done.
  - apply registry_empty_repr.
  - intros c t. unfold subs_of; simpl. rewrite lookup_empty. intros ?%elem_of_nil. done.
  - constructor.
  - lia.
Qed.

Lemma removeClient_inv c b : broker_inv b -> broker_inv (broker_removeClient c b).
Proof.
  intros [I1 I2 I3 I4 I5 I6]. split; simpl; auto with wisp.
  - intros c' t. rewrite elem_of_subs_of_removeClient by done. intros [Hne Hin].
    rewrite lookup_delete_ne by done. eauto.
  - intros c' st [_ Hst]%lookup_delete_Some. eauto.
Qed.

Lemma touch_client_inv c t b :
  broker_inv b -> broker_inv (set_clients (<[c := mkClient c t]> (m_clients b)) b).
Proof.
  intros [I1 I2 I3 I4 I5 I6]. split; simpl; auto.
  - intros c' t' Hin. destruct (decide (c = c')) as [->|Hne].
    + rewrite lookup_insert_eq. eauto.
    + rewrite lookup_insert_ne by done. eauto.
  - intros c' st [[<- <-]|[_ Hst]]%lookup_insert_Some; eauto.
Qed.

Lemma subscribe_inv c t b :
  is_Some (m_clients b !! c) -> broker_inv b ->
  broker_inv (set_subscriptions (subscribe c t (m_subscriptions b)).1 b).
Proof.
  intros Hc [I1 I2 I3 I4 I5 I6]. split; simpl; auto with wisp.
  intros c' t'. rewrite elem_of_subs_of_subscribe by done. intros [[-> ->]|Hin]; eauto.
Qed.

Lemma unsubscribe_inv c t b :
  broker_inv b -> broker_inv (set_subscriptions (unsubscribe c t (m_subscriptions b)).1 b).
Proof.
  intros [I1 I2 I3 I4 I5 I6]. split; simpl; auto with wisp.
  intros c' t'. rewrite elem_of_subs_of_unsubscribe by done. intros [_ Hin]; eauto.
Qed.

(** The history keeps the newest ids. *)
Definition remember (u : string) (order : list string) : list string :=
  drop (length order + 1 - MaxHistorySize) (order ++ [u]).

Lemma isDuplicate_spec u b :
  broker_inv b ->
  isDuplicate u b =
  if decide (u ∈ m_messageIdOrder b) then (b, true)
  else (set_history (list_to_set (remember u (m_messageIdOrder b)))
          (remember u (m_messageIdOrder b)) b, false).
Proof.
  intros [_ _ _ Hseen Hnd Hlen]. unfold isDuplicate. rewrite Hseen.
  destruct (decide (u ∈ m_messageIdOrder b)) as [Hu|Hu].
  { rewrite decide_True; [done|]. by apply elem_of_list_to_set. }
  rewrite decide_False by (by rewrite elem_of_list_to_set). unfold remember.
  rewrite length_app. simpl length. case_decide as Hl.
  - replace (length (m_messageIdOrder b) + 1 - MaxHistorySize) with 1 by lia.
    destruct (m_messageIdOrder b) as [|front rest] eqn:Eo; cbn [app drop].
    + simpl in Hl. assert (MaxHistorySize <> 0) by done. lia.
    + do 2 f_equal. apply NoDup_cons in Hnd as [Hf _]. rewrite drop_0, list_to_set_app_L, list_to_set_cons.
      rewrite not_elem_of_cons in Hu. apply set_eq. intros x.
      destruct (decide (x = front)) as [->|]; set_solver.
  - replace (length (m_messageIdOrder b) + 1 - MaxHistorySize) with 0 by lia.
    rewrite drop_0. do 2 f_equal. rewrite list_to_set_app_L. set_solver.
Qed.

Lemma remember_props u order :
  NoDup order -> u ∉ order -> length order <= MaxHistorySize ->
  NoDup (remember u order) /\ length (remember u order) <= MaxHistorySize.
Proof.
  intros Hn Hu Hl. unfold remember. split.
  - eapply sublist_NoDup; [|apply sublist_drop]. apply NoDup_app. split_and!; [done| |constructor; [set_solver|constructor]].
    intros x Hx ->%list_elem_of_singleton. done.
  - rewrite length_drop, length_app. simpl. lia.
Qed.

Lemma isDuplicate_inv u b : broker_inv b -> broker_inv (isDuplicate u b).1.
Proof.
  intros Hb. rewrite isDuplicate_spec by done. case_decide as Hu; [done|].
  destruct Hb as [I1 I2 I3 I4 I5 I6].
  destruct (remember_props u (m_messageIdOrder b)) as [R1 R2]; by try split.
Qed.

Lemma flood_peers_owned h p b : owned (flood_peers h p b) = owned b.
Proof. by rewrite flood_peers_fmap. Qed.

Lemma process_core_inv now h p snd peer b :
  broker_inv b -> broker_inv (process_core now h p snd peer b).1.
Proof.
  intros Hb. unfold process_core.
  assert (Hr : forall b1, broker_inv b1 -> broker_inv (let '(b2, dup) := isDuplicate (message_uuid h) b1 in
     if dup : bool then (b2, ([], encodeHeader h, p))
     else (flood_peers h p b2, (recipients b2 (topic h) snd peer, encodeHeader h, p))).1).
  { intros b1 Hb1%(isDuplicate_inv (message_uuid h)).
    destruct (isDuplicate _ b1) as [b2 []]; simpl in *; [done|].
    eapply broker_inv_owned; [apply flood_peers_owned|done]. }
  pose proof (touch_client_inv snd now b Hb) as Ht.
  destruct peer; [destruct (peer_ignored _); [done|by apply Hr]|].
  case_decide; [by apply removeClient_inv|]. do 3 (case_decide; [done|]).
  case_decide.
  { apply (subscribe_inv snd (topic h)) in Ht; [done|]. simpl. rewrite lookup_insert_eq. eauto. }
  case_decide; [by apply (unsubscribe_inv snd (topic h)) in Ht|by apply Hr].
Qed.

(** ** The zombie sweep *)

Definition zombie (now : Z) (st : ClientState) : Prop := (now - lastSeen st > ClientTimeout)%Z.

#[local] Instance zombie_dec now st : Decision (zombie now st).
Proof. unfold zombie. apply _. Defined.

Definition zombies (now : Z) b : list string :=
  (filter (fun p => zombie now p.2) (umap_iter (m_clients b))).*1.

Lemma elem_of_zombies now b c :
  c ∈ zombies now b <-> exists st, m_clients b !! c = Some st /\ zombie now st.
Proof.
  unfold zombies. rewrite list_elem_of_fmap. split.
  - intros ([c' st] & -> & [Hz Hin]%list_elem_of_filter). rewrite elem_of_umap_iter in Hin. eauto.
  - intros (st & Hst & Hz). exists (c, st). split; [done|]. apply list_elem_of_filter.
    by rewrite elem_of_umap_iter.
Qed.

Lemma remove_zombies_eq now b :
  remove_zombies now b = foldl (fun b c => broker_removeClient c b) b (zombies now b).
Proof.
  unfold remove_zombies, zombies. generalize (umap_iter (m_clients b)) as l.
  intros l. revert b. induction l as [|[c st] l IH]; intros b; [done|]. simpl.
  rewrite filter_cons. simpl.
  case_decide as K1; case_decide as K2; try (unfold zombie in *; lia); simpl; by rewrite IH.
Qed.

Lemma remove_loop_spec cs b :
  broker_inv b ->
  let b' := foldl (fun b c => broker_removeClient c b) b cs in
  broker_inv b' /\ m_peers b' = m_peers b /\ m_messageIdOrder b' = m_messageIdOrder b /\
  (forall c, m_clients b' !! c = if decide (c ∈ cs) then None else m_clients b !! c) /\
  (forall c t, c ∈ subs_of (m_subscriptions b') t <->
     c ∉ cs /\ c ∈ subs_of (m_subscriptions b) t).
Proof.
  revert b. induction cs as [|c0 cs IH]; intros b Hb; simpl.
  { split_and!; try done. intros c t. set_solver. }
  destruct (IH (broker_removeClient c0 b)) as (I1 & I2 & I3 & I4 & I5); [by apply removeClient_inv|].
  split_and!; [done|by rewrite I2|by rewrite I3| |].
  - intros c. rewrite I4. simpl. destruct (decide (c = c0)) as [->|Hne].
    + rewrite lookup_delete_eq. repeat case_decide; set_solver.
    + rewrite lookup_delete_ne by done. repeat case_decide; set_solver.
  - intros c t. rewrite I5. simpl. rewrite elem_of_subs_of_removeClient by apply Hb. set_solver.
Qed.

(** ** The world of the thread *)

Record world_inv w : Prop := {
  wi_broker : broker_inv (bw_broker w);
  wi_router : zmq_open (bw_router w) = [];
  wi_inspector : zmq_open (bw_inspector w) = []
}.

Lemma with_router_preserves {A} (m : M S A) :
  preserves (fun s => zmq_open s = []) m -> preserves world_inv (with_router m).
Proof.
  intros Hm. apply (preserves_lift _ _ _ _ _ Hm); [by intros w []|]. by intros s w [] ?.
Qed.

Lemma with_inspector_preserves {A} (m : M S A) :
  preserves (fun s => zmq_open s = []) m -> preserves world_inv (with_inspector m).
Proof.
  intros Hm. apply (preserves_lift _ _ _ _ _ Hm); [by intros w []|]. by intros s w [] ?.
Qed.

Lemma on_broker_preserves f :
  (forall b, broker_inv b -> broker_inv (f b)) -> preserves world_inv (mmodify (on_broker f)).
Proof. intros Hf. apply preserves_modify. intros w []. split; simpl; auto. Qed.

Lemma on_broker_owned f :
  (forall b, owned (f b) = owned b) -> preserves world_inv (mmodify (on_broker f)).
Proof. intros Hf. apply on_broker_preserves. intros b. by apply broker_inv_owned. Qed.

Lemma sendFrames_open hf p : preserves (fun s : S => zmq_open s = []) (sendFrames hf p).
Proof.
  intros s Hs. destruct (sendFrames hf p s) as [s' r] eqn:E.
  by destruct (sendFrames_spec _ _ _ _ _ Hs E).
Qed.

Lemma send_each_open hb p ids : preserves (fun s : S => zmq_open s = []) (send_each hb p ids).
Proof.
  intros s Hs. destruct (send_each hb p ids s) as [s' r] eqn:E.
  by destruct (send_each_spec _ _ _ _ _ _ Hs E) as (_ & ? & _).
Qed.

Lemma recv_open (s : S) dontwait : zmq_open s = [] -> zmq_open (zmq_msg_recv s dontwait).1 = [].
Proof. by destruct (zmq_recv_tx s dontwait) as [-> _]. Qed.

Lemma processMessage_preserves now h p snd peer :
  preserves world_inv (processMessage now h p snd peer).
Proof.
  intros w Hw. rewrite processMessage_core. destruct (stamp_eq h w) as [g ->].
  assert (Hw1 : world_inv (put_gen g w)) by (by destruct Hw).
  pose proof (with_inspector_preserves _ (sendFrames_open (encodeHeader (stamped h w)) p) _ Hw1) as Hw2.
  destruct (with_inspector _ _) as [w2 [u|e]]; [|done]. simpl in Hw2.
  pose proof (process_core_inv now (stamped h w) p snd peer (bw_broker w2) (wi_broker _ Hw2)) as Hb.
  destruct (process_core _ _ _ _ _ _) as [b [[ids hb] q]]. simpl in Hb.
  apply with_router_preserves; [apply send_each_open|]. by destruct Hw2.
Qed.

Lemma receive_client_preserves now : preserves world_inv (receive_client now).
Proof.
  unfold receive_client.
  apply preserves_bind; [apply with_router_preserves, socket_recv_preserves, recv_open|].
  intros [ident|]; [|apply preserves_ret].
  apply preserves_bind; [apply with_router_preserves; by intros s|]. intros []; [|apply preserves_ret].
  apply preserves_bind; [apply with_router_preserves, recv_preserves, recv_open|].
  intros [env|]; [|apply preserves_ret].
  apply preserves_bind; [by apply on_broker_owned|]. intros _.
  apply preserves_bind; [apply processMessage_preserves|]. intros _. apply preserves_ret.
Qed.

Lemma drain_peers_preserves : preserves world_inv drain_peers.
Proof.
  intros w. unfold drain_peers. generalize (length (m_queue (m_peerInboundQueue (bw_broker w)))).
  intros fuel. revert w. fold (preserves world_inv (drain_peers_loop fuel)).
  induction fuel as [|fuel IH]; simpl; (apply preserves_bind; [apply preserves_get|]); intros w0;
    destruct (try_pop _) as [q [env|]]; try apply preserves_ret;
    (apply preserves_bind; [by apply on_broker_owned|]; intros _;
     apply preserves_bind; [apply processMessage_preserves|]; intros _); [apply preserves_ret|done].
Qed.

Lemma broadcastStats_preserves now : preserves world_inv (broadcastStats now).
Proof.
  apply preserves_bind; [apply preserves_get|]. intros w.
  apply preserves_bind; [apply with_inspector_preserves, sendFrames_open|]. intros _.
  case_match; [|apply preserves_ret]. apply preserves_mfor. intros id. apply with_router_preserves.
  intros s Hs. destruct (sendToClient _ _ _ s) as [s' r] eqn:E.
  by destruct (sendToClient_spec _ _ _ _ _ _ Hs E) as (_ & ? & _).
Qed.

Lemma broker_iteration_preserves now_rx now now_stats :
  preserves world_inv (broker_iteration now_rx now now_stats).
Proof.
  apply preserves_bind; [apply preserves_get|]. intros w0.
  apply preserves_bind; [destruct (zmq_pollin _); [apply receive_client_preserves|apply preserves_ret]|].
  intros []; simpl; [|apply preserves_ret].
  apply preserves_bind; [apply drain_peers_preserves|]. intros _.
  apply preserves_bind.
  - apply preserves_bind; [apply preserves_get|]. intros w1. case_decide; [|apply preserves_ret].
    apply preserves_bind; [|intros _; apply preserves_modify; by intros w []].
    apply on_broker_preserves. intros b Hb. rewrite remove_zombies_eq. by apply remove_loop_spec.
  - intros _. apply preserves_bind; [apply preserves_get|]. intros w1. case_decide; [|apply preserves_ret].
    apply preserves_bind; [apply broadcastStats_preserves|]. intros _. by apply on_broker_owned.
Qed.

End facts.
