(* ===== verification/BrokerTheorems.v ===== *)
(** * The broker: theorems

    Routing, duplicate suppression, the client life cycle, reports and the
    link to discovery, on top of [BrokerFacts]. *)

From S2P Require Import Prelude Keys CppString SafeQueue SubscriptionRegistry MessageHeader.
From S2P Require Import Stats Wire Worker Uuid Discovery Broker BrokerFacts.

Section theorems.
Context `{StatsRuntime} `{!HeaderParser} {G : Type} `{HexGen G} {S : Type} `{ZmqSocket S}
  `{UnorderedOrder}.

Implicit Types b : ZmqBroker.
Implicit Types w : broker_world (G:=G) (S:=S).

(** ** Processing one message, exactly *)

Section exact.
Context (P : S -> Prop) (ok : string -> bool) (HP : routing_socket P ok).
Context (Q : S -> Prop) (HQ : accepting Q).

(** The sockets answer as described by [P], [ok] and [Q]. *)
Record sockets_ready w : Prop := {
  sr_router : P (bw_router w);
  sr_inspector : Q (bw_inspector w);
  sr_router_open : zmq_open (bw_router w) = [];
  sr_inspector_open : zmq_open (bw_inspector w) = []
}.

Lemma processMessage_exact now h p snd peer w :
  sockets_ready w ->
  exists w', processMessage now h p snd peer w = (w', Ok tt) /\ sockets_ready w' /\
    let '(b, (ids, hb, q)) := process_core now (stamped h w) p snd peer (bw_broker w) in
    bw_broker w' = b /\
    zmq_sent (bw_router w') =
      zmq_sent (bw_router w) ++ (routed hb q <$> filter (fun id => ok id = true) ids) /\
    zmq_sent (bw_inspector w') =
      zmq_sent (bw_inspector w) ++ [encodeHeader (stamped h w) :: payload_frames p] /\
    zmq_current (bw_router w') = zmq_current (bw_router w) /\
    zmq_pending (bw_router w') = zmq_pending (bw_router w) /\
    bw_lastCleanup w' = bw_lastCleanup w.
Proof.
  intros [R1 R2 R3 R4]. rewrite processMessage_core. destruct (stamp_eq h w) as [g ->].
  unfold with_inspector, mlift. simpl.
  destruct (sendFrames_accepting Q HQ (encodeHeader (stamped h w)) p (bw_inspector w) R2 R4)
    as (i & -> & Qi & Oi & Si). simpl.
  destruct (process_core _ _ _ _ _ _) as [b [[ids hb] q]].
  unfold with_router, mlift. simpl.
  destruct (send_each hb q ids (bw_router w)) as [s r] eqn:E.
  destruct (send_each_spec _ _ _ _ _ _ R3 E) as (-> & O & C & Pd & _).
  destruct (send_each_routing P ok _ _ _ _ _ _ HP R1 R3 E) as [Ps Ss].
  eexists. split; [reflexivity|]. simpl. by split_and!.
Qed.

End exact.

(** The keys the broker handles itself when a local client sends them. *)
Definition broker_handled (key : string) : Prop :=
  key ∈ [Keys.DISCONNECT; Keys.CONNECT; Keys.HEARTBEAT; Keys.SUBSCRIBE; Keys.UNSUBSCRIBE].

#[global] Instance broker_handled_dec key : Decision (broker_handled key).
Proof. unfold broker_handled. apply _. Defined.

(** The message is one to route: from a local client that is known and is not
    talking to the broker, or from a peer with a key that is not ignored. *)
Definition to_route b (h : MessageHeader) (snd : string) (peer : bool) : Prop :=
  if peer then peer_ignored (handler_key h) = false
  else is_Some (m_clients b !! snd) /\ ~ broker_handled (handler_key h).

(** The state in which the message is routed: a local sender was just seen. *)
Definition seen_sender (now : Z) (snd : string) (peer : bool) b : ZmqBroker :=
  if peer then b else set_clients (<[snd := mkClient snd now]> (m_clients b)) b.

Lemma seen_sender_inv now snd peer b : broker_inv b -> broker_inv (seen_sender now snd peer b).
Proof. intros. unfold seen_sender. destruct peer; [done|by apply touch_client_inv]. Qed.

Lemma seen_sender_clients now snd peer b c :
  (peer = false -> is_Some (m_clients b !! snd)) ->
  is_Some (m_clients (seen_sender now snd peer b) !! c) <-> is_Some (m_clients b !! c).
Proof.
  intros Hs. unfold seen_sender. destruct peer; [done|]. simpl.
  destruct (decide (snd = c)) as [->|]; [rewrite lookup_insert_eq; split; eauto|].
  by rewrite lookup_insert_ne.
Qed.

Lemma process_core_route now h p snd peer b :
  to_route b h snd peer ->
  process_core now h p snd peer b =
  let '(b1, dup) := isDuplicate (message_uuid h) (seen_sender now snd peer b) in
  if dup : bool then (b1, ([], encodeHeader h, p))
  else (flood_peers h p b1, (recipients b1 (topic h) snd peer, encodeHeader h, p)).
Proof.
  unfold to_route, process_core, seen_sender, broker_handled. destruct peer; [by intros ->|].
  rewrite !not_elem_of_cons. intros ([st Hst] & ? & ? & ? & ? & ? & _).
  rewrite !decide_False; try done. by rewrite Hst.
Qed.

Lemma stamped_key h w : handler_key (stamped h w) = handler_key h.
Proof. unfold stamped. by case_decide. Qed.

Lemma stamped_topic h w : topic (stamped h w) = topic h.
Proof. unfold stamped. by case_decide. Qed.

Lemma to_route_stamped b h w snd peer : to_route b (stamped h w) snd peer <-> to_route b h snd peer.
Proof. unfold to_route. by rewrite stamped_key. Qed.

Lemma remember_new u order : length order <= MaxHistorySize -> u ∈ remember u order.
Proof.
  intros Hl. unfold remember. assert (MaxHistorySize <> 0) by done.
  rewrite drop_app_le by lia. set_solver.
Qed.

Lemma process_core_fresh now h p snd peer b :
  broker_inv b -> to_route b h snd peer -> message_uuid h ∉ m_messageIdOrder b ->
  exists b' ids, process_core now h p snd peer b = (b', (ids, encodeHeader h, p)) /\
    NoDup ids /\
    (forall c, c ∈ ids <->
       (c ∈ subs_of (m_subscriptions b) (topic h) \/ c ∈ subs_of (m_subscriptions b) "") /\
       (peer = true \/ c <> snd)) /\
    m_peers b' = (fun k => (writeMessage (forwarded h p) k).1) <$> m_peers b /\
    m_messageIdOrder b' = remember (message_uuid h) (m_messageIdOrder b) /\
    m_clients b' = m_clients (seen_sender now snd peer b) /\
    m_subscriptions b' = m_subscriptions b.
Proof.
  intros Hb Hr Hn. rewrite process_core_route by done.
  pose proof (seen_sender_inv now snd peer b Hb) as Hb1.
  assert (Hord : m_messageIdOrder (seen_sender now snd peer b) = m_messageIdOrder b /\
                 m_peers (seen_sender now snd peer b) = m_peers b /\
                 m_subscriptions (seen_sender now snd peer b) = m_subscriptions b)
    by (unfold seen_sender; by destruct peer). destruct Hord as (E1 & E2 & E3).
  rewrite isDuplicate_spec, E1, decide_False by done.
  eexists _, _. split; [reflexivity|]. rewrite flood_peers_fmap. simpl.
  rewrite E2, E3. split_and!; try done.
  - apply NoDup_recipients. simpl. rewrite E3. apply Hb.
  - intros c. rewrite elem_of_recipients. simpl. rewrite E3.
    assert (Hc : c ∈ subs_of (m_subscriptions b) (topic h) \/ c ∈ subs_of (m_subscriptions b) "" ->
      is_Some (m_clients (seen_sender now snd peer b) !! c)).
    { intros Hc. apply seen_sender_clients.
      - intros ->. by destruct Hr.
      - destruct Hc; by eapply bi_subscribers. }
    tauto.
Qed.

(** C1. Routing is exact.  A message to be routed (from a known local client or
    from a peer) with an id the broker has not seen is handed, once, to every
    client subscribed to its topic or to the wildcard, except the local sender
    itself and the clients the router socket refuses; nobody else gets
    anything, and a refused client costs no other client its copy.  All copies
    carry the same header frame and payload, every peer's worker is offered
    the message, and the id is remembered. *)
Theorem broker_routes_exactly P ok Q now h p snd peer w :
  routing_socket P ok -> accepting Q -> sockets_ready P Q w -> broker_inv (bw_broker w) ->
  to_route (bw_broker w) h snd peer ->
  message_uuid (stamped h w) ∉ m_messageIdOrder (bw_broker w) ->
  exists w' ids, processMessage now h p snd peer w = (w', Ok tt) /\ NoDup ids /\
    (forall c, c ∈ ids <->
       (c ∈ subs_of (m_subscriptions (bw_broker w)) (topic h) \/
        c ∈ subs_of (m_subscriptions (bw_broker w)) "") /\
       (peer = true \/ c <> snd) /\ ok c = true) /\
    zmq_sent (bw_router w') =
      zmq_sent (bw_router w) ++ (routed (encodeHeader (stamped h w)) p <$> ids) /\
    m_peers (bw_broker w') =
      (fun k => (writeMessage (forwarded (stamped h w) p) k).1) <$> m_peers (bw_broker w) /\
    message_uuid (stamped h w) ∈ m_messageIdOrder (bw_broker w').
Proof.
  intros HP HQ Hw Hb Hr Hn.
  destruct (processMessage_exact P ok HP Q HQ now h p snd peer w Hw) as (w' & E & _ & K).
  destruct (process_core_fresh now (stamped h w) p snd peer (bw_broker w)) as
    (b' & ids & Ec & Hnd & Hids & Hpeers & Hord & _); [done|by apply to_route_stamped|done|].
  rewrite Ec in K. destruct K as (K1 & K2 & _). rewrite stamped_topic in Hids.
  exists w', (filter (fun id => ok id = true) ids). rewrite K1. split_and!; try done.
  - by apply NoDup_filter.
  - intros c. rewrite list_elem_of_filter, Hids. tauto.
  - rewrite Hord. apply remember_new, Hb.
Qed.

(** C8. Loop protection: a message to be routed whose id is in the history goes
    to no client and to no peer; only the inspector sees it and a local
    sender's time is refreshed. *)
Theorem broker_drops_duplicate P ok Q now h p snd peer w :
  routing_socket P ok -> accepting Q -> sockets_ready P Q w -> broker_inv (bw_broker w) ->
  to_route (bw_broker w) h snd peer ->
  message_uuid (stamped h w) ∈ m_messageIdOrder (bw_broker w) ->
  exists w', processMessage now h p snd peer w = (w', Ok tt) /\
    zmq_sent (bw_router w') = zmq_sent (bw_router w) /\
    zmq_sent (bw_inspector w') =
      zmq_sent (bw_inspector w) ++ [encodeHeader (stamped h w) :: payload_frames p] /\
    bw_broker w' = seen_sender now snd peer (bw_broker w).
Proof.
  intros HP HQ Hw Hb Hr Hin.
  destruct (processMessage_exact P ok HP Q HQ now h p snd peer w Hw) as (w' & E & _ & K).
  rewrite process_core_route in K by (by apply to_route_stamped).
  pose proof (seen_sender_inv now snd peer (bw_broker w) Hb) as Hb1.
  rewrite isDuplicate_spec, decide_True in K by (done || (unfold seen_sender; by destruct peer)).
  destruct K as (K1 & K2 & K3 & _). exists w'. rewrite K2. simpl. rewrite app_nil_r. by split_and!.
Qed.

(** ** The history window *)

(** Ids offered one after the other. *)
Definition offer_all (us : list string) b : ZmqBroker :=
  foldl (fun b u => (isDuplicate u b).1) b us.

Lemma offer_all_inv us b : broker_inv b -> broker_inv (offer_all us b).
Proof.
  revert b. induction us as [|u us IH]; intros b Hb; [done|]. by apply IH, isDuplicate_inv.
Qed.

(** An id stays as long as it is not pushed out: it moves at most one step
    towards the front per offered id. *)
Lemma offer_all_lookup us b i u :
  broker_inv b -> m_messageIdOrder b !! i = Some u -> 
  length us <= i + (MaxHistorySize - length (m_messageIdOrder b)) ->
  u ∈ m_messageIdOrder (offer_all us b).
Proof.
  revert b i. induction us as [|v us IH]; intros b i Hb Hi Hlen; simpl in *.
  { by eapply list_elem_of_lookup_2. }
  pose proof (isDuplicate_inv v b Hb) as Hb'. pose proof (bi_bound _ Hb) as Hbd.
  pose proof (lookup_lt_Some _ _ _ Hi) as Hlt. revert Hb'.
  rewrite isDuplicate_spec by done. case_decide as Hv; simpl; intros Hb'.
  - apply (IH b i); [done|done|lia].
  - destruct (decide (length (m_messageIdOrder b) < MaxHistorySize)) as [Hl|Hl].
    + apply (IH _ i Hb'); simpl; unfold remember.
      * replace (length (m_messageIdOrder b) + 1 - MaxHistorySize) with 0 by lia.
        rewrite drop_0. by apply lookup_app_l_Some.
      * rewrite length_drop, length_app. simpl. lia.
    + destruct i as [|i]; [lia|]. apply (IH _ i Hb'); simpl; unfold remember.
      * replace (length (m_messageIdOrder b) + 1 - MaxHistorySize) with 1 by lia.
        rewrite lookup_drop. simpl. by apply lookup_app_l_Some.
      * rewrite length_drop, length_app. simpl. lia.
Qed.

(** C10. The history window: an id that was let through is reported as a
    duplicate after any sequence of fewer than 10000 further ids (repetitions
    included). *)
Theorem duplicate_window u us b :
  broker_inv b -> (isDuplicate u b).2 = false -> length us < MaxHistorySize ->
  (isDuplicate u (offer_all us (isDuplicate u b).1)).2 = true.
Proof.
  intros Hb Hnew Hl. pose proof (isDuplicate_inv u b Hb) as Hb1.
  enough (Hin : u ∈ m_messageIdOrder (offer_all us (isDuplicate u b).1)).
  { rewrite isDuplicate_spec by (by apply offer_all_inv). by rewrite decide_True. }
  revert Hb1 Hnew. rewrite isDuplicate_spec by done. case_decide as Hu; simpl; [done|].
  intros Hb1 _. pose proof (bi_bound _ Hb) as Hbd. assert (MaxHistorySize <> 0) by done.
  set (order := m_messageIdOrder b) in *.
  apply (offer_all_lookup us _ (length (remember u order) - 1) u Hb1); simpl; unfold remember;
    rewrite length_drop, length_app; simpl.
  - rewrite lookup_drop, lookup_app_r by lia.
    by replace (_ - length order) with 0 by lia.
  - lia.
Qed.

(** ** The life of a client *)

(** What stays when a message is not routed. *)
Definition not_routed w w' : Prop :=
  m_peers (bw_broker w') = m_peers (bw_broker w) /\
  m_messageIdOrder (bw_broker w') = m_messageIdOrder (bw_broker w).

(** The reset handshake: the first message of an unknown client, whatever
    its key (DISCONNECT apart), registers the client and is answered with a
    RESET request to that client alone; the message itself is neither routed,
    nor remembered, nor does it change a subscription. *)
Theorem unknown_client_reset P ok Q now h p snd w :
  routing_socket P ok -> accepting Q -> sockets_ready P Q w ->
  m_clients (bw_broker w) !! snd = None -> handler_key h <> Keys.DISCONNECT ->
  exists w', processMessage now h p snd false w = (w', Ok tt) /\
    zmq_sent (bw_router w') = zmq_sent (bw_router w) ++
      (if ok snd then [[snd; encodeHeader reset_header]] else []) /\
    m_clients (bw_broker w') = <[snd := mkClient snd now]> (m_clients (bw_broker w)) /\
    m_subscriptions (bw_broker w') = m_subscriptions (bw_broker w) /\
    not_routed w w'.
Proof.
  intros HP HQ Hw Hs Hk.
  destruct (processMessage_exact P ok HP Q HQ now h p snd false w Hw) as (w' & E & _ & K).
  unfold process_core in K. rewrite stamped_key, (decide_False (P:=handler_key h = _)) in K by done.
  rewrite decide_True in K by done. destruct K as (K1 & K2 & _). exists w'.
  unfold not_routed. rewrite K2, K1. split_and!; try done. simpl. rewrite filter_cons. by destruct (ok snd).
Qed.

(** A DISCONNECT forgets the client: it is no longer known, no topic lists
    it, every other client and subscription is as before, and nothing is
    sent. *)
Theorem disconnect_forgets P ok Q now h p snd w :
  routing_socket P ok -> accepting Q -> sockets_ready P Q w -> broker_inv (bw_broker w) ->
  handler_key h = Keys.DISCONNECT ->
  exists w', processMessage now h p snd false w = (w', Ok tt) /\
    zmq_sent (bw_router w') = zmq_sent (bw_router w) /\
    m_clients (bw_broker w') = delete snd (m_clients (bw_broker w)) /\
    (forall c t, c ∈ subs_of (m_subscriptions (bw_broker w')) t <->
       c <> snd /\ c ∈ subs_of (m_subscriptions (bw_broker w)) t) /\
    not_routed w w'.
Proof.
  intros HP HQ Hw Hb Hk.
  destruct (processMessage_exact P ok HP Q HQ now h p snd false w Hw) as (w' & E & _ & K).
  unfold process_core in K. rewrite stamped_key, (decide_True (P:=handler_key h = _)) in K by done.
  destruct K as (K1 & K2 & _). exists w'. rewrite K2. unfold not_routed. rewrite K1. simpl.
  rewrite app_nil_r. split_and!; try done.
  intros c t. by apply elem_of_subs_of_removeClient, Hb.
Qed.

(** A known client talks to the broker: HEARTBEAT is answered with one
    acknowledgement to the sender, CONNECT with nothing, SUBSCRIBE and
    UNSUBSCRIBE add and remove exactly the pair of the sender and the topic;
    the sender's time is refreshed and nothing is routed. *)
Theorem known_client_control P ok Q now h p snd w :
  routing_socket P ok -> accepting Q -> sockets_ready P Q w -> broker_inv (bw_broker w) ->
  is_Some (m_clients (bw_broker w) !! snd) -> broker_handled (handler_key h) ->
  handler_key h <> Keys.DISCONNECT ->
  exists w', processMessage now h p snd false w = (w', Ok tt) /\
    zmq_sent (bw_router w') = zmq_sent (bw_router w) ++
      (if decide (handler_key h = Keys.HEARTBEAT) then
         (if ok snd then [[snd; encodeHeader ack_header]] else []) else []) /\
    m_clients (bw_broker w') = <[snd := mkClient snd now]> (m_clients (bw_broker w)) /\
    (forall c t, c ∈ subs_of (m_subscriptions (bw_broker w')) t <->
       (handler_key h = Keys.SUBSCRIBE /\ c = snd /\ t = topic h) \/
       (c ∈ subs_of (m_subscriptions (bw_broker w)) t /\
        ~ (handler_key h = Keys.UNSUBSCRIBE /\ c = snd /\ t = topic h))) /\
    not_routed w w'.
Proof.
  intros HP HQ Hw Hb [st Hst] Hh Hk.
  destruct (processMessage_exact P ok HP Q HQ now h p snd false w Hw) as (w' & E & _ & K).
  unfold process_core in K. rewrite stamped_key, stamped_topic in K.
  rewrite (decide_False (P:=handler_key h = Keys.DISCONNECT)) in K by done.
  rewrite (decide_False (P:=_ = None)) in K by (by rewrite Hst).
  exists w'. split; [done|]. unfold not_routed.
  destruct (decide (handler_key h = Keys.HEARTBEAT)) as [Eh|Eh].
  { destruct K as (K1 & K2 & _). rewrite K2, K1, Eh. simpl. rewrite filter_cons.
    split_and!; try done; [by destruct (ok snd)|]. intros. naive_solver. }
  destruct (decide (handler_key h = Keys.CONNECT)) as [Ec|Ec].
  { destruct K as (K1 & K2 & _). rewrite K2, K1, Ec. simpl.
    split_and!; try done. intros. naive_solver. }
  destruct (decide (handler_key h = Keys.SUBSCRIBE)) as [Es|Es].
  { destruct K as (K1 & K2 & _). rewrite K2, K1, Es. simpl. split_and!; try done.
    intros c t. rewrite elem_of_subs_of_subscribe by apply Hb. naive_solver. }
  destruct (decide (handler_key h = Keys.UNSUBSCRIBE)) as [Eu|Eu].
  { destruct K as (K1 & K2 & _). rewrite K2, K1, Eu. simpl. split_and!; try done.
    intros c t. rewrite elem_of_subs_of_unsubscribe by apply Hb. naive_solver. }
  unfold broker_handled in Hh. set_solver.
Qed.

(** C17. The zombie sweep is exact: it removes the clients that were silent for
    more than the timeout, with all their subscriptions, and nothing else. *)
Theorem zombie_sweep_exact now b :
  broker_inv b ->
  let b' := remove_zombies now b in
  (forall c st, m_clients b' !! c = Some st <->
     m_clients b !! c = Some st /\ (now - lastSeen st <= ClientTimeout)%Z) /\
  (forall c t, c ∈ subs_of (m_subscriptions b') t <->
     c ∈ subs_of (m_subscriptions b) t /\
     exists st, m_clients b !! c = Some st /\ (now - lastSeen st <= ClientTimeout)%Z) /\
  m_peers b' = m_peers b /\ m_messageIdOrder b' = m_messageIdOrder b.
Proof.
  intros Hb b'. unfold b'. rewrite remove_zombies_eq.
  destruct (remove_loop_spec (zombies now b) b Hb) as (_ & K1 & K2 & K3 & K4). split_and!; try done.
  - intros c st. rewrite K3. case_decide as Hz; rewrite elem_of_zombies in Hz; unfold zombie in Hz.
    + destruct Hz as (st' & Hst & Hz). split; [done|]. intros [Hst' ?]. simplify_eq. lia.
    + split; [|tauto]. intros Hst. split; [done|].
      destruct (decide (now - lastSeen st <= ClientTimeout)%Z); [done|]. destruct Hz. eexists. split; [done|lia].
  - intros c t. rewrite K4, elem_of_zombies. unfold zombie. split.
    + intros [Hz Hin]. split; [done|]. destruct (bi_subscribers _ Hb _ _ Hin) as [st Hst].
      exists st. split; [done|].
      destruct (decide (now - lastSeen st <= ClientTimeout)%Z); [done|]. destruct Hz. eexists. split; [done|lia].
    + intros [Hin (st & Hst & Hl)]. split; [|done]. intros (st' & Hst' & Hz). simplify_eq. lia.
Qed.

(** ** The thread *)

(** A state of the broker thread: it starts, its loop runs, and between two
    iterations other threads and the network do what they like to the state
    they may touch (the peers, the inbound queue, discovery, the messages
    waiting on the sockets). *)
Inductive broker_reach : broker_world (G:=G) (S:=S) -> Prop :=
  | broker_reach_start g addresses now1 now2 router inspector now3 :
      zmq_open router = [] -> zmq_open inspector = [] ->
      broker_reach (mkBrokerWorld (broker_start addresses now1 now2 (broker_new g).1)
                      router inspector (broker_new g).2 now3)
  | broker_reach_iteration w now_rx now now_stats w' r :
      broker_reach w -> broker_iteration now_rx now now_stats w = (w', r) -> broker_reach w'
  | broker_reach_others w w' :
      broker_reach w -> owned (bw_broker w') = owned (bw_broker w) ->
      zmq_open (bw_router w') = [] -> zmq_open (bw_inspector w') = [] -> broker_reach w'.

Lemma broker_reach_world_inv w : broker_reach w -> world_inv w.
Proof.
  induction 1 as [g addrs n1 n2 r i n3 Hr Hi|w n1 n2 n3 w' r _ IH E|w w' _ IH Ho Hr Hi].
  - split; simpl; [|done|done]. eapply broker_inv_owned; [|apply (broker_new_inv g)].
    unfold broker_start. by repeat case_match.
  - pose proof (broker_iteration_preserves n1 n2 n3 w IH) as K. by rewrite E in K.
  - split; [|done|done]. eapply broker_inv_owned; [done|apply IH].
Qed.

(** C11. The invariant of the broker holds in every state its thread reaches:
    the two indices of the registry agree, every subscriber is a known client
    (so the liveness check before a delivery never drops a subscriber), each
    client is stored under its identity, and the history of message ids is a
    duplicate-free list of at most 10000 ids whose set is the lookup set. *)
Theorem broker_invariant w : broker_reach w -> broker_inv (bw_broker w).
Proof. intros Hw. apply (broker_reach_world_inv w Hw). Qed.

Section thread.
Context (Q : S -> Prop) (HQ : accepting Q).

(** Nothing but the messages read from the router changes on the receive
    side. *)
Record router_at (waiting : list (list string)) w : Prop := {
  ra_inspector : Q (bw_inspector w);
  ra_inspector_open : zmq_open (bw_inspector w) = [];
  ra_router_open : zmq_open (bw_router w) = [];
  ra_current : zmq_current (bw_router w) = [];
  ra_pending : zmq_pending (bw_router w) = waiting
}.

Lemma on_broker_total waiting f : total (router_at waiting) (mmodify (on_broker f)).
Proof. apply total_modify. by intros w []. Qed.

Lemma with_inspector_total waiting hf p : total (router_at waiting) (with_inspector (sendFrames hf p)).
Proof.
  intros w []. unfold with_inspector, mlift.
  destruct (sendFrames_accepting Q HQ hf p (bw_inspector w)) as (s & -> & ? & ? & _); try done.
  by eexists _, _.
Qed.

Lemma send_each_total waiting hb p ids : total (router_at waiting) (with_router (send_each hb p ids)).
Proof.
  intros w []. unfold with_router, mlift.
  destruct (send_each hb p ids (bw_router w)) as [s r] eqn:E.
  destruct (send_each_spec _ _ _ _ _ _ ra_router_open0 E) as (-> & ? & ? & ? & _).
  eexists _, _. split; [reflexivity|]. split; simpl; congruence.
Qed.

Lemma sendToClient_total waiting id hb p :
  total (router_at waiting) (with_router (sendToClient id hb p)).
Proof.
  intros w Hw. destruct (send_each_total waiting hb p [id] w Hw) as (w' & a & E & Hw').
  exists w', a. split; [|done]. revert E. unfold with_router, mlift. by rewrite send_each_one.
Qed.

Lemma processMessage_total waiting now h p snd peer :
  total (router_at waiting) (processMessage now h p snd peer).
Proof.
  intros w Hw. rewrite processMessage_core. destruct (stamp_eq h w) as [g ->].
  destruct (with_inspector_total waiting (encodeHeader (stamped h w)) p (put_gen g w))
    as (w2 & a & -> & Hw2); [by destruct Hw|].
  destruct (process_core _ _ _ _ _ _) as [b [[ids hb] q]].
  apply send_each_total. by destruct Hw2.
Qed.

Lemma drain_peers_total waiting : total (router_at waiting) drain_peers.
Proof.
  intros w. unfold drain_peers. generalize (length (m_queue (m_peerInboundQueue (bw_broker w)))).
  intros fuel. revert w. fold (total (router_at waiting) (drain_peers_loop fuel)).
  induction fuel as [|fuel IH]; simpl; (apply total_bind; [apply total_get|]); intros w0;
    destruct (try_pop _) as [q [env|]]; try apply total_ret;
    (apply total_bind; [apply on_broker_total|]; intros _;
     apply total_bind; [apply processMessage_total|]; intros _); [apply total_ret|done].
Qed.

Lemma mfor_total {A} waiting (body : A -> M broker_world unit) l :
  (forall a, total (router_at waiting) (body a)) -> total (router_at waiting) (mfor body l).
Proof.
  intros Hb. induction l as [|a l IH]; simpl; [apply total_ret|].
  apply total_bind; [apply Hb|intros _; apply IH].
Qed.

Lemma after_receive_total waiting now now_stats :
  total (router_at waiting) (_ ← drain_peers; _ ← cleanup_if_due now; stats_if_due now now_stats).
Proof.
  apply total_bind; [apply drain_peers_total|]. intros _. apply total_bind.
  - apply total_bind; [apply total_get|]. intros w0. case_decide; [|apply total_ret].
    apply total_bind; [apply on_broker_total|]. intros _. apply total_modify. by intros w [].
  - intros _. apply total_bind; [apply total_get|]. intros w0. case_decide; [|apply total_ret].
    apply total_bind; [|intros _; apply on_broker_total].
    apply total_bind; [apply total_get|]. intros w1.
    apply total_bind; [apply with_inspector_total|]. intros _. case_match; [|apply total_ret].
    apply mfor_total. intros id. apply sendToClient_total.
Qed.

(** One message leaves the router, whole. *)
Lemma receive_client_consumes now frames rest w :
  router_at (frames :: rest) w ->
  exists w' go, receive_client now w = (w', Ok go) /\ router_at rest w'.
Proof.
  intros [R1 R2 R3 R4 R5]. unfold receive_client. destruct frames as [|f fs].
  { destruct (zmq_pending_nonempty (bw_router w)). rewrite R5. constructor. }
  destruct (zmq_recv_next _ false _ _ _ R4 R5) as (s1 & E1 & C1 & P1).
  pose proof (zmq_recv_tx (bw_router w) false) as [T1 _]. rewrite E1 in T1. simpl in T1.
  unfold mbind at 1, M_bind at 1, with_router at 1, mlift, socket_recv. rewrite E1.
  unfold mbind at 1, M_bind at 1, with_router at 1, mlift, socket_rcvmore. simpl.
  destruct fs as [|f' fs].
  { rewrite rcvmore_false by done. simpl. eexists _, _. split; [reflexivity|].
    split; simpl; congruence. }
  rewrite rcvmore_true by congruence. simpl.
  destruct (recv_rest false s1 f' fs C1) as (s2 & E2 & C2 & P2 & T2 & _).
  unfold mbind at 1, M_bind at 1, with_router at 1, mlift. simpl. rewrite E2.
  assert (Hr : router_at rest (put_router s2 w)) by (split; simpl; congruence).
  destruct (envelope_of_frames (f' :: fs)) as [env|].
  - unfold mbind at 1, M_bind at 1, mmodify at 1. unfold mbind, M_bind.
    edestruct (processMessage_total rest now (Wire.header env) (Wire.payload env) f false)
      as (w' & [] & E3 & Hw'); [|erewrite E3; by eexists _, _].
    by destruct Hr.
  - by eexists _, _.
Qed.

Lemma broker_iteration_total waiting now_rx now now_stats w :
  router_at waiting w ->
  exists w', broker_iteration now_rx now now_stats w = (w', Ok tt) /\ router_at (tail waiting) w'.
Proof.
  intros Hw. unfold broker_iteration. unfold mbind at 1, M_bind at 1, mget.
  assert (K : exists w1 go, (if zmq_pollin (bw_router w) then receive_client now_rx else mret true) w
    = (w1, Ok go) /\ router_at (tail waiting) w1).
  { unfold zmq_pollin. rewrite (ra_pending _ _ Hw). destruct waiting as [|frames rest]; simpl.
    - by eexists _, _.
    - by eapply receive_client_consumes. }
  destruct K as (w1 & go & E1 & Hw1). unfold mbind at 1, M_bind at 1. rewrite E1.
  destruct go; simpl; [|by eexists].
  destruct (after_receive_total (tail waiting) now now_stats w1 Hw1) as (w2 & [] & E2 & Hw2).
  by eexists.
Qed.

End thread.

(** C16. The loop survives any input: with an inspector that accepts, an
    iteration ends without an exception whatever frames the next router
    message has (a lone identity frame, an undecodable header, too many
    frames), it consumes exactly that message, and the router is at a message
    boundary for reading and for writing afterwards. *)
Theorem broker_iteration_aligned Q now_rx now now_stats w :
  accepting Q -> Q (bw_inspector w) -> zmq_open (bw_inspector w) = [] ->
  zmq_open (bw_router w) = [] -> zmq_current (bw_router w) = [] ->
  exists w', broker_iteration now_rx now now_stats w = (w', Ok tt) /\
    zmq_pending (bw_router w') = tail (zmq_pending (bw_router w)) /\
    zmq_current (bw_router w') = [] /\ zmq_open (bw_router w') = [] /\
    zmq_open (bw_inspector w') = [].
Proof.
  intros HQ K1 K2 K3 K4.
  destruct (broker_iteration_total Q HQ (zmq_pending (bw_router w)) now_rx now now_stats w)
    as (w' & E & []); [done|]. by exists w'.
Qed.

(** ** Reports *)

Lemma client_info_spec reg id :
  ci_id (client_info reg id) = id /\
  ci_subscriptions (client_info reg id) = std_set_iter (topics_of reg id).
Proof.
  assert (K : forall l i, ci_id (foldl (fun i t => add_subscriptions t i) i l) = ci_id i /\
    ci_subscriptions (foldl (fun i t => add_subscriptions t i) i l) = ci_subscriptions i ++ l).
  { induction l as [|t l IH]; intros i; simpl; [by rewrite app_nil_r|].
    destruct (IH (add_subscriptions t i)) as [-> ->]. simpl. by rewrite <-(assoc_L (++)). }
  unfold client_info, topics_of, subscriptionsOf.
  destruct (m_clientTopics reg !! id) as [ts|]; simpl; [|done].
  by destruct (K (std_set_iter ts) (set_id id clientinfo_new)) as [-> ->].
Qed.

Lemma make_stats_clients now b :
  ss_connected_clients (make_stats now b) =
  client_info (m_subscriptions b) <$> (umap_iter (m_clients b)).*1 /\
  ss_broker_id (make_stats now b) = m_brokerId b /\
  ss_clients_count (make_stats now b) = i32 (Z.of_nat (size (m_clients b))) /\
  ss_peers_count (make_stats now b) = i32 (Z.of_nat (size (m_peers b))) /\
  ss_msgs_per_sec (make_stats now b) = i32 (m_msgsInterval b) /\
  ss_total_msgs (make_stats now b) = i64 (m_totalMessages b) /\
  ss_uptime_sec (make_stats now b) = i64 (Z.quot (now - m_startTime b) (seconds 1)).
Proof.
  unfold make_stats.
  assert (K : forall (l : list (string * ClientState)) s,
    foldl (fun s '(id, _) => add_connected_clients (client_info (m_subscriptions b) id) s) s l =
    mkStats (ss_has_bits s) (ss_connected_clients s ++ (client_info (m_subscriptions b) <$> l.*1))
      (ss_broker_id s) (ss_clients_count s) (ss_peers_count s) (ss_kb_per_sec s) (ss_total_msgs s)
      (ss_uptime_sec s) (ss_msgs_per_sec s) (ss_unknown_fields s)).
  { induction l as [|[id st] l IH]; intros s; simpl; [rewrite app_nil_r; by destruct s|].
    rewrite IH. simpl. by rewrite <-(assoc_L (++)). }
  rewrite K. by split_and!.
Qed.

Lemma i32_small z : (- 2 ^ 31 <= z < 2 ^ 31)%Z -> i32 z = z.
Proof. intros Hz. unfold i32. rewrite Z.mod_small by lia. lia. Qed.

(** The report lists the clients as they are: every known client once,
    with exactly the topics it is subscribed to, and the client count is the
    length of that list (up to 2^31 clients, beyond which the 32-bit field
    wraps). *)
Theorem report_lists_clients now b :
  broker_inv b -> (Z.of_nat (size (m_clients b)) < 2 ^ 31)%Z ->
  let infos := ss_connected_clients (make_stats now b) in
  NoDup (ci_id <$> infos) /\
  (forall c, c ∈ ci_id <$> infos <-> is_Some (m_clients b !! c)) /\
  (forall info t, info ∈ infos ->
     t ∈ ci_subscriptions info <-> ci_id info ∈ subs_of (m_subscriptions b) t) /\
  ss_clients_count (make_stats now b) = zlen infos.
Proof.
  intros Hb Hsz. destruct (make_stats_clients now b) as (-> & _ & -> & _). simpl.
  assert (Hids : ci_id <$> (client_info (m_subscriptions b) <$> (umap_iter (m_clients b)).*1) =
                 (umap_iter (m_clients b)).*1).
  { rewrite <-list_fmap_compose. rewrite <-(list_fmap_id ((umap_iter (m_clients b)).*1)) at 2.
    apply list_fmap_ext. intros i id _. simpl. by destruct (client_info_spec (m_subscriptions b) id). }
  rewrite Hids. split_and!.
  - apply NoDup_umap_iter_keys.
  - intros c. rewrite list_elem_of_fmap. split.
    + intros ([c' st] & -> & Hin). rewrite elem_of_umap_iter in Hin. eauto.
    + intros [st Hst]. exists (c, st). by rewrite elem_of_umap_iter.
  - intros info t (id & -> & _)%list_elem_of_fmap.
    destruct (client_info_spec (m_subscriptions b) id) as [-> ->].
    rewrite elem_of_std_set_iter. apply (wf_agree _ (bi_registry _ Hb)).
  - rewrite i32_small by lia. unfold zlen. rewrite !length_fmap.
    by rewrite umap_iter_perm, length_map_to_list.
Qed.

(** A report reaches its audience: the inspector gets it, and so does every
    subscriber of the statistics topic that the router accepts, once; its
    payload unpacks to the serialized statistics. *)
Theorem report_delivered P ok Q now w :
  routing_socket P ok -> accepting Q -> sockets_ready P Q w ->
  broker_inv (bw_broker w) -> (slen (stats_Serialize (make_stats now (bw_broker w))) < 2 ^ 31)%Z ->
  exists w' payload ids, broadcastStats now w = (w', Ok tt) /\
    bw_broker w' = bw_broker w /\ NoDup ids /\
    (forall c, c ∈ ids <-> c ∈ subs_of (m_subscriptions (bw_broker w)) Keys.SYS_STATS /\ ok c = true) /\
    zmq_sent (bw_router w') =
      zmq_sent (bw_router w) ++ (routed (encodeHeader stats_header) payload <$> ids) /\
    zmq_sent (bw_inspector w') =
      zmq_sent (bw_inspector w) ++ [[encodeHeader stats_header; payload]] /\
    AnyUnpack stats_type_name payload = Some (stats_Serialize (make_stats now (bw_broker w))).
Proof.
  intros HP HQ [R1 R2 R3 R4] Hb Hsz. unfold broadcastStats.
  unfold mbind at 1, M_bind at 1, mget. unfold mbind at 1, M_bind at 1, with_inspector, mlift.
  set (pl := pack_stats (make_stats now (bw_broker w))).
  destruct (sendFrames_accepting Q HQ (encodeHeader stats_header) pl (bw_inspector w) R2 R4)
    as (i & -> & _ & _ & Si).
  set (subs := subs_of (m_subscriptions (bw_broker w)) Keys.SYS_STATS).
  assert (E : match subscribersOf Keys.SYS_STATS (m_subscriptions (bw_broker w)) with
     | Some subs => mfor (fun id => with_router (sendToClient id (encodeHeader stats_header) pl)) subs
     | None => mret tt end (put_inspector i w) =
     with_router (send_each (encodeHeader stats_header) pl subs) (put_inspector i w)).
  { unfold subs, subs_of, subscribersOf. destruct (_ !! Keys.SYS_STATS) as [l|]; simpl; [|done].
    rewrite (mfor_send_each _ (fun _ _ => true) (encodeHeader stats_header) pl) by done.
    do 2 f_equal. clear. induction l as [|x l IH]; [done|]. rewrite filter_cons_True by done. by rewrite IH. }
  rewrite E. clear E. unfold with_router, mlift. simpl.
  destruct (send_each _ _ subs (bw_router w)) as [s r] eqn:E.
  destruct (send_each_spec _ _ _ _ _ _ R3 E) as (-> & _).
  destruct (send_each_routing P ok _ _ _ _ _ _ HP R1 R3 E) as [_ Ss].
  eexists _, pl, (filter (fun id => ok id = true) subs). split; [reflexivity|]. simpl.
  split_and!; try done.
  - apply NoDup_filter, (wf_nodup _ (bi_registry _ Hb)).
  - intros c. rewrite list_elem_of_filter. tauto.
  - rewrite Si. unfold payload_frames, pl, pack_stats. by rewrite decide_False by apply AnyPack_nonempty.
  - by apply AnyUnpack_pack.
Qed.

(** ** Peers *)

Definition apply_discovery (acts : list discovery_action) b : ZmqBroker :=
  foldl (fun b a => on_discovery a b) b acts.

Definition has_peer (u : string) b : bool := bool_decide (is_Some (m_peers b !! u)).

Lemma on_discovery_peer a b u :
  has_peer u (on_discovery a b) = default (has_peer u b) (link_event u a).
Proof.
  unfold has_peer. destruct a as [v addr|v|d]; simpl; [| |done].
  - unfold addPeer. case_decide as Hv; (destruct (decide (v = u)) as [->|Hne]; simpl).
    + by apply bool_decide_eq_true_2.
    + done.
    + rewrite lookup_insert_eq. by apply bool_decide_eq_true_2.
    + by rewrite lookup_insert_ne.
  - unfold removePeer. destruct (m_peers b !! v) eqn:Ev; (destruct (decide (v = u)) as [->|Hne]; simpl).
    + by rewrite lookup_delete_eq.
    + by rewrite lookup_delete_ne.
    + by rewrite Ev.
    + done.
Qed.

Lemma apply_discovery_peer acts b u :
  last (has_peer u b :: link_events u acts) = Some (has_peer u (apply_discovery acts b)).
Proof.
  revert b. induction acts as [|a acts IH]; intros b; [done|]. rewrite link_events_cons.
  unfold apply_discovery; simpl. specialize (IH (on_discovery a b)). rewrite on_discovery_peer in IH.
  destruct (link_event u a) as [e|]; simpl in *; [|done]. by destruct (link_events u acts).
Qed.

(** C26. Discovery and the broker agree on the mesh: after any run of the
    discovery loop whose callbacks drive the broker, a remote uuid that had no
    link before is linked in the broker exactly when it is in discovery's
    table of dialed peers. *)
Theorem discovered_peers_match inputs cluster self port dport nextBeacon b u :
  m_peers b !! u = None ->
  let r := discovery_run inputs (discovery_new cluster self port dport true true, nextBeacon) in
  is_Some (m_peers (apply_discovery r.2 b) !! u) <-> is_Some (m_dialed r.1.1 !! u).
Proof.
  intros Hu r.
  destruct (discovery_run_link inputs (discovery_new cluster self port dport true true) nextBeacon u)
    as [L _]; [done|done|].
  pose proof (apply_discovery_peer r.2 b u) as K.
  assert (has_peer u b = false) as E by (unfold has_peer; by rewrite Hu).
  rewrite E in K. assert (K' : Some (linked u r.1.1) = Some (has_peer u (apply_discovery r.2 b)))
    by (etrans; [symmetry; exact L|exact K]). injection K' as K'. clear K. rename K' into K. unfold has_peer, linked in K.
  rewrite <-(bool_decide_eq_true (is_Some (m_peers _ !! u))), <-K. by rewrite bool_decide_eq_true.
Qed.

(** The advertised port: addresses of other transports are skipped, and the
    first "tcp://host:port" address with a valid port gives exactly that port,
    whatever the host is (colons included, as in an IPv6 address). *)
Theorem parseTcpPort_first skipped host port rest :
  Forall (fun a => str_starts_with "tcp://" a = false) skipped -> (0 < port <= 65535)%Z ->
  parseTcpPort (skipped ++ peer_address host port :: rest) = port.
Proof.
  intros Hs Hp. induction Hs as [|a l Ha _ IH]; cbn [app parseTcpPort]; [|by rewrite Ha].
  assert (Hn : no_char ":"%char (to_string port)).
  { apply to_dec_no_char; [lia|]. rewrite !elem_of_cons, elem_of_nil; naive_solver. }
  assert (Hpre : str_starts_with "tcp://" (peer_address host port) = true) by apply prefix_app.
  rewrite Hpre. simpl negb. cbv match.
  assert (E : peer_address host port = ("tcp://" +:+ host) +:+ String ":" (to_string port))
    by (by rewrite string_app_assoc).
  rewrite E. clear E Hpre. generalize ("tcp://" +:+ host) as u. intros u.
  rewrite str_rfind_app by done. unfold str_substr_end.
  rewrite <-str_drop_drop, str_drop_app. cbn [str_drop]. rewrite stoi_to_string by lia.
  rewrite decide_True by done. unfold u16. by rewrite Z.mod_small by lia.
Qed.

(** The server as [main] starts it advertises the port it binds: with
    discovery on, its beacons decode to its cluster, its uuid and port 5555
    (for a cluster name without the separator). *)
Theorem main_beacon cluster (g : G) now1 now2 :
  no_char "|"%char (default "default" cluster) ->
  exists d, Broker.m_discovery (main_broker false cluster g now1 now2).1 = Some d /\
    Discovery.m_running d = true /\
    decodeBeacon (own_beacon d) =
      Some (mkBeacon (default "default" cluster) (generateUUID g).1 5555).
Proof.
  intros Hc. unfold main_broker, broker_new.
  pose proof (proj2 (no_char_elem _ _) (generateUUID_not_bar g)) as Hu. destruct (generateUUID g) as [id g']. simpl in *.
  eexists. split; [reflexivity|]. split; [done|]. unfold own_beacon. simpl.
  rewrite decode_encodeBeacon by (done || lia). by rewrite decide_True.
Qed.

End theorems.
