(* ===== verification/BrokerStop.v ===== *)
(** * Shutting a broker down ([ZmqBroker::stop])

    [stop] runs on the caller's thread while the broker thread, the discovery
    thread and the thread of every peer link still run.  It waits for all of
    them, and each may wait for another: a link's thread for room in the inbound
    queue, which only the broker thread makes; the discovery thread, inside
    [removePeer], for a link's thread; the caller for the thread it joins.

    A state holds what these waits depend on, [stop_exec] is one action of one
    thread ([None] while the thread waits), and [broker_stop] is the sequence of
    the caller's actions.  What the threads do between two of these actions
    (polls, socket calls and timed pushes, all of them bounded) does not change
    that state. *)

From stdpp Require Import relations.
From S2P Require Import Prelude Keys CppString SafeQueue SubscriptionRegistry MessageHeader.
From S2P Require Import Stats Wire Worker Uuid Discovery Broker.

Section shutdown.
Context `{ProtoRuntime} `{UnorderedOrder}.

(** ** The threads *)

(** The thread of a link: at the head of its loop, in the message callback with
    an envelope to push, or gone. *)
Inductive link_thread := LHead | LCallback (env : Envelope) | LEnded.

Record link := mkLink {
  lk_running : bool;
  lk_thread : link_thread
}.

(** The broker thread: at the head of its loop, in the loop over the inbound
    queue, or gone. *)
Inductive broker_thread := BHead | BDrain | BEnded.

(** The discovery thread: at the head of its loop, in a round of it, in
    [removePeer] before and after the flag of worker [n] is cleared, or gone. *)
Inductive discovery_thread := DHead | DTurn | DRemoved (n : nat) | DJoins (n : nat) | DEnded.

Inductive stop_action :=
  | ClearRunning
  | DiscoveryClear
  | DiscoveryJoin
  | QueueStop
  | BrokerJoin
  | SwapPeers
  | StopPeers.

#[export] Instance stop_action_eq_dec : EqDecision stop_action.
Proof. solve_decision. Defined.

(** [ZmqBroker::stop]; [m_discovery->stop()] clears a flag and joins, and the last
    action is the loop over the peers swapped out of the map. *)
Definition broker_stop : list stop_action :=
  [ClearRunning; DiscoveryClear; DiscoveryJoin; QueueStop; BrokerJoin; SwapPeers; StopPeers].

(** The workers are numbered; [sp_caller] is what is left of [stop], [None] before
    it is called, and [sp_local] the workers its loop has still to stop. *)
Record stop_state := mkStop {
  sp_running : bool;
  sp_queue : SafeQueue Envelope;
  sp_peers : gmap string nat;
  sp_links : gmap nat link;
  sp_broker : broker_thread;
  sp_discovering : bool;
  sp_discovery : discovery_thread;
  sp_caller : option (list stop_action);
  sp_local : list nat
}.

Implicit Types s : stop_state.

Definition put_running v s := mkStop v (sp_queue s) (sp_peers s) (sp_links s) (sp_broker s)
  (sp_discovering s) (sp_discovery s) (sp_caller s) (sp_local s).
Definition put_queue v s := mkStop (sp_running s) v (sp_peers s) (sp_links s) (sp_broker s)
  (sp_discovering s) (sp_discovery s) (sp_caller s) (sp_local s).
Definition put_peers v s := mkStop (sp_running s) (sp_queue s) v (sp_links s) (sp_broker s)
  (sp_discovering s) (sp_discovery s) (sp_caller s) (sp_local s).
Definition put_links v s := mkStop (sp_running s) (sp_queue s) (sp_peers s) v (sp_broker s)
  (sp_discovering s) (sp_discovery s) (sp_caller s) (sp_local s).
Definition put_broker v s := mkStop (sp_running s) (sp_queue s) (sp_peers s) (sp_links s) v
  (sp_discovering s) (sp_discovery s) (sp_caller s) (sp_local s).
Definition put_discovering v s := mkStop (sp_running s) (sp_queue s) (sp_peers s) (sp_links s) (sp_broker s)
  v (sp_discovery s) (sp_caller s) (sp_local s).
Definition put_discovery v s := mkStop (sp_running s) (sp_queue s) (sp_peers s) (sp_links s) (sp_broker s)
  (sp_discovering s) v (sp_caller s) (sp_local s).
Definition put_caller v s := mkStop (sp_running s) (sp_queue s) (sp_peers s) (sp_links s) (sp_broker s)
  (sp_discovering s) (sp_discovery s) v (sp_local s).
Definition put_local v s := mkStop (sp_running s) (sp_queue s) (sp_peers s) (sp_links s) (sp_broker s)
  (sp_discovering s) (sp_discovery s) (sp_caller s) v.

Definition put_link (n : nat) (k : link) s := put_links (<[n := k]> (sp_links s)) s.

(** ** The actions *)

(** [ZmqWorker::stop], its two parts: clearing the flag and joining. *)
Definition clear_link (n : nat) s : option stop_state :=
  k ← sp_links s !! n; Some (put_link n (mkLink false (lk_thread k)) s).

Definition joined (n : nat) s : bool :=
  match sp_links s !! n with
  | Some k => match lk_thread k with LEnded => true | _ => false end
  | None => false
  end.

(** [addPeer]: the worker is started under the lock, unless the key is linked. *)
Definition stop_addPeer (key : string) s : stop_state :=
  match sp_peers s !! key with
  | Some _ => s
  | None =>
      let n := fresh (dom (sp_links s)) in
      put_peers (<[key := n]> (sp_peers s)) (put_link n (mkLink true LHead) s)
  end.

(** The next action of a link's thread: the test of the flag, or the callback's
    push, which waits while the queue is full. *)
Definition link_runs (n : nat) s : option stop_state :=
  k ← sp_links s !! n;
  match lk_thread k with
  | LHead => if lk_running k then Some s else Some (put_link n (mkLink (lk_running k) LEnded) s)
  | LCallback env =>
      '(q, _) ← push env (sp_queue s);
      Some (put_queue q (put_link n (mkLink (lk_running k) LHead) s))
  | LEnded => None
  end.

(** A message other than a RESET arrives, and the callback is called with it. *)
Definition link_receives (n : nat) (env : Envelope) s : option stop_state :=
  k ← sp_links s !! n;
  match lk_thread k with
  | LHead => if lk_running k then Some (put_link n (mkLink true (LCallback env)) s) else None
  | _ => None
  end.

Definition broker_thread_runs s : option stop_state :=
  match sp_broker s with
  | BHead => Some (put_broker (if sp_running s then BDrain else BEnded) s)
  | BDrain =>
      match try_pop (sp_queue s) with
      | (q, Some _) => Some (put_queue q s)
      | (_, None) => Some (put_broker BHead s)
      end
  | BEnded => None
  end.

(** [run], the end of a round, and the two parts of [removePeer]'s stop. *)
Definition discovery_runs s : option stop_state :=
  match sp_discovery s with
  | DHead => Some (put_discovery (if sp_discovering s then DTurn else DEnded) s)
  | DTurn => Some (put_discovery DHead s)
  | DRemoved n => s ← clear_link n s; Some (put_discovery (DJoins n) s)
  | DJoins n => if joined n s then Some (put_discovery DTurn s) else None
  | DEnded => None
  end.

Definition discovery_dials (key : string) s : option stop_state :=
  match sp_discovery s with DTurn => Some (stop_addPeer key s) | _ => None end.

(** [removePeer] under the lock. *)
Definition discovery_drops (key : string) s : option stop_state :=
  match sp_discovery s, sp_peers s !! key with
  | DTurn, Some n => Some (put_discovery (DRemoved n) (put_peers (delete key (sp_peers s)) s))
  | _, _ => None
  end.

(** The loop over the swapped peers: the flag, the join, the next one. *)
Definition stop_peers (rest : list stop_action) s : option stop_state :=
  match sp_local s with
  | [] => Some (put_caller (Some rest) s)
  | n :: ns =>
      k ← sp_links s !! n;
      if lk_running k then clear_link n s
      else if joined n s then Some (put_local ns s) else None
  end.

Definition caller_runs s : option stop_state :=
  match sp_caller s with
  | None => Some (put_caller (Some broker_stop) s)
  | Some [] => None
  | Some (a :: rest) =>
      let next s := put_caller (Some rest) s in
      match a with
      | ClearRunning => Some (next (put_running false s))
      | DiscoveryClear => Some (next (put_discovering false s))
      | DiscoveryJoin => match sp_discovery s with DEnded => Some (next s) | _ => None end
      | QueueStop => Some (next (put_queue (SafeQueue.stop (sp_queue s)) s))
      | BrokerJoin => match sp_broker s with BEnded => Some (next s) | _ => None end
      | SwapPeers => Some (next (put_local (umap_iter (sp_peers s)).*2 (put_peers ∅ s)))
      | StopPeers => stop_peers rest s
      end
  end.

(** [connectToPeer], called by the thread that owns the broker. *)
Definition caller_connects (key : string) s : option stop_state :=
  match sp_caller s with None => Some (stop_addPeer key s) | Some _ => None end.

Inductive stop_label :=
  | LinkRuns (n : nat)
  | LinkReceives (n : nat) (env : Envelope)
  | BrokerRuns
  | DiscoveryRuns
  | DiscoveryDials (key : string)
  | DiscoveryDrops (key : string)
  | CallerRuns
  | CallerConnects (key : string).

Definition stop_exec (a : stop_label) : stop_state -> option stop_state :=
  match a with
  | LinkRuns n => link_runs n
  | LinkReceives n env => link_receives n env
  | BrokerRuns => broker_thread_runs
  | DiscoveryRuns => discovery_runs
  | DiscoveryDials key => discovery_dials key
  | DiscoveryDrops key => discovery_drops key
  | CallerRuns => caller_runs
  | CallerConnects key => caller_connects key
  end.

Definition stop_step s s' : Prop := exists a, stop_exec a s = Some s'.

(** A started broker whose inbound queue has room for [max] messages (5000 in the
    program), with or without a discovery thread. *)
Definition stop_init (max : Z) (discovery : bool) : stop_state :=
  mkStop true (queue_new max) ∅ ∅ BHead discovery (if discovery then DHead else DEnded) None [].

(** [stop] has returned: every thread has ended and no peer is left. *)
Definition stopped s : Prop :=
  sp_caller s = Some [] /\ sp_peers s = ∅ /\ sp_broker s = BEnded /\ sp_discovery s = DEnded /\
  map_Forall (fun _ k => lk_thread k = LEnded) (sp_links s).

(** The broker thread will not take another message from the inbound queue. *)
Definition drains_no_more s : Prop :=
  sp_broker s = BEnded \/ (sp_broker s = BHead /\ sp_running s = false).

(** Nothing takes messages from a full inbound queue that is not stopped, the
    thread of a link waits for room in it, and the discovery thread, which the
    caller joins before it stops the queue, has to wait for that link. *)
Definition wedged s : Prop :=
  drains_no_more s /\ push_ready (sp_queue s) = false /\
  exists n k env, (sp_discovery s = DRemoved n \/ sp_discovery s = DJoins n) /\
    sp_links s !! n = Some k /\ lk_thread k = LCallback env.

(** ** The invariant *)

Definition todo s : list stop_action := default broker_stop (sp_caller s).

Definition due (a : stop_action) s : bool := bool_decide (a ∈ todo s).

(** The thread that stops worker [n], or will. *)
Definition has_stopper (n : nat) s : Prop :=
  (exists key, sp_peers s !! key = Some n) \/ n ∈ sp_local s \/
  sp_discovery s = DRemoved n \/ sp_discovery s = DJoins n.

Record stop_inv (max : Z) s : Prop := {
  si_suffix : todo s `suffix_of` broker_stop;
  si_running : due ClearRunning s = false -> sp_running s = false;
  si_discovering : due DiscoveryClear s = false -> sp_discovering s = false;
  si_discovery : due DiscoveryJoin s = false -> sp_discovery s = DEnded;
  si_stopped : due QueueStop s = false -> m_stop (sp_queue s) = true;
  si_broker : due BrokerJoin s = false -> sp_broker s = BEnded;
  si_swapped : due SwapPeers s = false -> sp_peers s = ∅;
  si_unswapped : due SwapPeers s = true -> sp_local s = [];
  si_local : due StopPeers s = false -> sp_local s = [];
  si_max : m_maxSize (sp_queue s) = max;
  si_owned : forall n k, sp_links s !! n = Some k -> lk_thread k = LEnded \/ has_stopper n s;
  si_links : forall n, has_stopper n s -> is_Some (sp_links s !! n);
  si_joins : forall n k, sp_discovery s = DJoins n -> sp_links s !! n = Some k -> lk_running k = false
}.

Lemma stop_inv_init max d : stop_inv max (stop_init max d).
Proof.
  split; try done.
  - intros n [(key & E)|[E|[E|E]]]; simpl in E; [done|by apply elem_of_nil in E|by destruct d..].
Qed.

(** A worker's state changes: it does not come back, and its flag is not set. *)
Lemma stop_inv_link max s n k k' :
  stop_inv max s -> sp_links s !! n = Some k ->
  (lk_thread k = LEnded -> lk_thread k' = LEnded) -> (lk_running k = false -> lk_running k' = false) ->
  stop_inv max (put_link n k' s).
Proof.
  intros [] Hk He Hr. split; try done; simpl.
  - intros m x Hm. destruct (decide (n = m)) as [<-|Hn].
    + rewrite lookup_insert_eq in Hm. injection Hm as <-. destruct (si_owned0 n k Hk) as [E|E]; auto.
    + rewrite lookup_insert_ne in Hm by done. by destruct (si_owned0 m x Hm) as [E|E]; auto.
  - intros m Hm. destruct (decide (n = m)) as [<-|Hn]; [by rewrite lookup_insert_eq|].
    rewrite lookup_insert_ne by done. by apply si_links0.
  - intros m x Hd Hm. destruct (decide (n = m)) as [<-|Hn].
    + rewrite lookup_insert_eq in Hm. injection Hm as <-. eauto.
    + rewrite lookup_insert_ne in Hm by done. eauto.
Qed.

Lemma stop_inv_queue max s q :
  stop_inv max s -> m_maxSize q = m_maxSize (sp_queue s) -> m_stop q = m_stop (sp_queue s) ->
  stop_inv max (put_queue q s).
Proof.
  intros [] Hm Hs. split; try done; simpl; [|congruence]. intros D. rewrite Hs. by apply si_stopped0.
Qed.

Lemma stop_inv_addPeer max s key :
  stop_inv max s -> due SwapPeers s = true -> stop_inv max (stop_addPeer key s).
Proof.
  intros Hi Hd. unfold stop_addPeer. destruct (sp_peers s !! key) as [m|] eqn:Ek; [done|].
  pose proof (is_fresh (dom (sp_links s))) as Hf. set (n := fresh (dom (sp_links s))) in *.
  apply not_elem_of_dom in Hf. destruct Hi.
  assert (Hmono : forall m, m <> n -> has_stopper m (put_peers (<[key := n]> (sp_peers s)) s) -> has_stopper m s).
  { intros m Hmn [(key' & E)|E]; [|by right]. simpl in E. left. exists key'.
    destruct (decide (key = key')) as [<-|Hk]; [rewrite lookup_insert_eq in E; congruence|].
    by rewrite lookup_insert_ne in E. }
  assert (Hn : ~ has_stopper n s) by (intros K; apply si_links0 in K as [? K]; congruence).
  split; try done; simpl.
  - intros D. unfold due, todo in *. simpl in D. congruence.
  - intros m x Hm. destruct (decide (n = m)) as [<-|Hnm].
    + right. left. exists key. simpl. by rewrite lookup_insert_eq.
    + rewrite lookup_insert_ne in Hm by done. destruct (si_owned0 m x Hm) as [?|[(key' & E)|E]]; [by left| |].
      * right. left. exists key'. simpl. rewrite lookup_insert_ne; [done|congruence].
      * right. by right.
  - intros m Hm. destruct (decide (n = m)) as [<-|Hnm]; [by rewrite lookup_insert_eq|].
    rewrite lookup_insert_ne by done. apply si_links0, Hmono; [done|exact Hm].
  - intros m x Hdm Hm. rewrite lookup_insert_ne in Hm; [by eapply si_joins0|].
    intros <-. apply Hn. right. right. by right.
Qed.

Lemma push_keeps env (q q' : SafeQueue Envelope) b :
  push env q = Some (q', b) -> m_maxSize q' = m_maxSize q /\ m_stop q' = m_stop q.
Proof.
  unfold push, push_body. destruct (push_ready q); [|done]. destruct (m_stop q) eqn:E; intros [= <- <-]; auto.
Qed.

Lemma try_pop_keeps (q q' : SafeQueue Envelope) v :
  try_pop q = (q', v) -> m_maxSize q' = m_maxSize q /\ m_stop q' = m_stop q.
Proof. unfold try_pop. destruct (m_queue q); by intros [= <- <-]. Qed.

Lemma stop_inv_running max s : stop_inv max s -> due BrokerJoin s = true \/ sp_broker s = BEnded.
Proof. intros []. destruct (due BrokerJoin s) eqn:E; auto. Qed.

Lemma broker_thread_runs_inv max s s' : stop_inv max s -> broker_thread_runs s = Some s' -> stop_inv max s'.
Proof.
  intros Hi. unfold broker_thread_runs. destruct (stop_inv_running max s Hi) as [Hd|Hb]; [|by rewrite Hb].
  assert (Hput : forall b, stop_inv max (put_broker b s)).
  { intros b. destruct Hi. split; try done. intros D. unfold due, todo in *. simpl in D. congruence. }
  destruct (sp_broker s); [|destruct (try_pop (sp_queue s)) as [q [v|]] eqn:Ep|]; intros [= <-]; auto.
  destruct (try_pop_keeps _ _ _ Ep). by apply stop_inv_queue.
Qed.

Lemma link_runs_inv max s s' n : stop_inv max s -> link_runs n s = Some s' -> stop_inv max s'.
Proof.
  intros Hi. unfold link_runs. destruct (sp_links s !! n) as [k|] eqn:Hk; [|done]. simpl.
  destruct (lk_thread k) as [|env|] eqn:Ht; [| |done].
  - destruct (lk_running k) eqn:Hr; intros [= <-]; [done|]. by apply (stop_inv_link max s n k).
  - destruct (push env (sp_queue s)) as [[q b]|] eqn:Ep; [|done]. intros [= <-].
    destruct (push_keeps _ _ _ _ Ep). apply stop_inv_queue; [|done..].
    apply (stop_inv_link max s n k); [done|done|congruence|done].
Qed.

Lemma link_receives_inv max s s' n env : stop_inv max s -> link_receives n env s = Some s' -> stop_inv max s'.
Proof.
  intros Hi. unfold link_receives. destruct (sp_links s !! n) as [k|] eqn:Hk; [|done]. simpl.
  destruct (lk_thread k) eqn:Ht; [|done|done]. destruct (lk_running k) eqn:Hr; [|done]. intros [= <-].
  apply (stop_inv_link max s n k); [done|done|congruence|simpl; congruence].
Qed.

(** What is left of [stop]. *)
Lemma todo_drop l : l `suffix_of` broker_stop -> exists k, k <= 7 /\ l = drop k broker_stop.
Proof.
  intros [p E]. exists (length p). split; [|by rewrite E, drop_app_length].
  pose proof (f_equal length E) as K. rewrite length_app in K. simpl in K. lia.
Qed.

(** The discovery thread before it has ended, the stop of the queue being due. *)
Lemma stop_inv_discovery max s : stop_inv max s -> sp_discovery s = DEnded \/
  (due DiscoveryJoin s = true /\ due SwapPeers s = true).
Proof.
  intros []. destruct (due DiscoveryJoin s) eqn:E; [right|auto]. split; [done|].
  unfold due in *. destruct (todo_drop _ si_suffix0) as (k & Hk & Ek). rewrite Ek in *.
  do 8 (destruct k as [|k]; [done|]). lia.
Qed.

Lemma stop_inv_put_discovery max s d :
  stop_inv max s -> (d = DEnded \/ due DiscoveryJoin s = true) ->
  (forall n, sp_discovery s = DRemoved n \/ sp_discovery s = DJoins n ->
     d = DRemoved n \/ d = DJoins n \/ joined n s = true) ->
  (forall n, d = DRemoved n \/ d = DJoins n -> has_stopper n s) ->
  (forall n k, d = DJoins n -> sp_links s !! n = Some k -> lk_running k = false) ->
  stop_inv max (put_discovery d s).
Proof.
  intros [] Hd Hkeep Hown Hj. split; try done; simpl.
  - unfold due, todo in *. simpl. intros D. destruct Hd as [|Hd]; congruence.
  - intros n k Hk. destruct (si_owned0 n k Hk) as [E|[E|[E|E]]]; [auto|by right; left|by right; right; left|].
    destruct (Hkeep n E) as [->| [->|J]]; [by right; right; right; left|by right; right; right; right|].
    left. unfold joined in J. rewrite Hk in J. by destruct (lk_thread k).
  - intros n [E|[E|E]]; [by apply si_links0; left|by apply si_links0; right; left|]. by apply si_links0, Hown.
Qed.

Lemma discovery_runs_inv max s s' : stop_inv max s -> discovery_runs s = Some s' -> stop_inv max s'.
Proof.
  intros Hi. unfold discovery_runs. destruct (stop_inv_discovery max s Hi) as [->|[Hd _]]; [done|].
  destruct (sp_discovery s) as [| |n|n|] eqn:Ed; [| | | |done].
  - intros [= <-]. apply stop_inv_put_discovery; [done|by destruct (sp_discovering s); auto| | |];
      rewrite ?Ed; destruct (sp_discovering s); naive_solver.
  - intros [= <-]. apply stop_inv_put_discovery; [done|auto| | |]; rewrite ?Ed; naive_solver.
  - unfold clear_link. destruct (sp_links s !! n) as [k|] eqn:Hk; [|done]. simpl. intros [= <-].
    apply stop_inv_put_discovery; [by apply (stop_inv_link max s n k)|auto| | |]; simpl; rewrite ?Ed.
    + naive_solver.
    + intros m [|[= <-]]; [done|]. right. right. left. done.
    + intros m x [= <-]. rewrite lookup_insert_eq. by intros [= <-].
  - destruct (joined n s) eqn:J; [|done]. intros [= <-].
    apply stop_inv_put_discovery; [done|auto| | |]; rewrite ?Ed; naive_solver.
Qed.

Lemma discovery_drops_inv max s s' key : stop_inv max s -> discovery_drops key s = Some s' -> stop_inv max s'.
Proof.
  intros Hi. unfold discovery_drops. destruct (stop_inv_discovery max s Hi) as [->|[Hd Hs]]; [done|].
  destruct (sp_discovery s) eqn:Ed; try done. destruct (sp_peers s !! key) as [n|] eqn:Ek; [|done].
  intros [= <-]. destruct Hi. split; try done; simpl.
  - unfold due, todo in *. simpl. congruence.
  - unfold due, todo in *. simpl. congruence.
  - intros m k Hm. destruct (si_owned0 m k Hm) as [?|[(key' & E)|[E|[E|E]]]]; [auto| | |congruence|congruence].
    + right. destruct (decide (key = key')) as [<-|Hk].
      * right. right. left. simpl. congruence.
      * left. exists key'. simpl. by rewrite lookup_delete_ne.
    + right. by right; left.
  - intros m [(key' & E)|[E|[E|E]]]; simpl in E.
    + apply lookup_delete_Some in E as [_ E]. apply si_links0. left. eauto.
    + apply si_links0. by right; left.
    + injection E as <-. apply si_links0. left. eauto.
    + done.
Qed.

(** An action of the caller that leaves [has_stopper] as it is. *)
Ltac caller_action Hi Hc :=
  destruct Hi; unfold due, todo in *; rewrite Hc in *; split; try done;
  match goal with Hs : default _ (Some (_ :: _)) `suffix_of` _ |- _ => exact (suffix_cons_l _ _ _ Hs) end.

Lemma stop_peers_inv max s s' :
  stop_inv max s -> sp_caller s = Some [StopPeers] -> stop_peers [] s = Some s' -> stop_inv max s'.
Proof.
  intros Hi Hc. unfold stop_peers. destruct (sp_local s) as [|n ns] eqn:El.
  - intros [= <-]. caller_action Hi Hc.
  - destruct (sp_links s !! n) as [k|] eqn:Hk; [|done]. simpl. destruct (lk_running k) eqn:Hr.
    + unfold clear_link. rewrite Hk. intros [= <-]. by apply (stop_inv_link max s n k).
    + destruct (joined n s) eqn:J; [|done]. intros [= <-]. destruct Hi. unfold due, todo in *.
      rewrite Hc in *. split; unfold due, todo; simpl; rewrite ?Hc; try done.
      * intros m x Hm. destruct (si_owned0 m x Hm) as [?|[E|[E|E]]]; [auto|by right; left| |by right; right; right].
        rewrite El in E. apply elem_of_cons in E as [->|E]; [left|by right; right; left].
        unfold joined in J. rewrite Hm in J. by destruct (lk_thread x).
      * intros m [E|[E|E]]; apply si_links0; [by left| |by right; right].
        right. left. rewrite El. by apply elem_of_cons; right.
Qed.

Lemma caller_runs_inv max s s' : stop_inv max s -> caller_runs s = Some s' -> stop_inv max s'.
Proof.
  intros Hi. unfold caller_runs. destruct (sp_caller s) as [todos|] eqn:Hc.
  2:{ intros [= <-]. destruct Hi. unfold due, todo in *. rewrite Hc in *. by split. }
  destruct (todo_drop _ (si_suffix max s Hi)) as (k & Hk & Ek). unfold todo in Ek. rewrite Hc in Ek.
  simpl in Ek. subst todos.
  destruct k as [|[|[|[|[|[|[|[|k]]]]]]]]; simpl in Hc |- *; [..|lia].
  - intros [= <-]. caller_action Hi Hc.
  - intros [= <-]. caller_action Hi Hc.
  - destruct (sp_discovery s) eqn:Ed; try done. intros [= <-]. caller_action Hi Hc.
  - intros [= <-]. caller_action Hi Hc.
  - destruct (sp_broker s) eqn:Ed; try done. intros [= <-]. caller_action Hi Hc.
  - intros [= <-]. destruct Hi. unfold due, todo in *. rewrite Hc in *.
    pose proof (si_unswapped0 eq_refl) as El. split; simpl; try done.
    + exact (suffix_cons_l _ _ _ si_suffix0).
    + intros n x Hx. destruct (si_owned0 n x Hx) as [?|[(key & E)|[E|E]]]; [auto| | |by right; right; right].
      * right. right. left. simpl. apply list_elem_of_fmap. exists (key, n). by rewrite elem_of_umap_iter.
      * rewrite El in E. by apply elem_of_nil in E.
    + intros n [(key & E)|[E|E]]; simpl in E; [done| |by apply si_links0; right; right].
      apply list_elem_of_fmap in E as ([key m] & -> & E). rewrite elem_of_umap_iter in E.
      apply si_links0. left. eauto.
  - by apply stop_peers_inv.
  - done.
Qed.

Lemma stop_step_inv max s s' : stop_inv max s -> stop_step s s' -> stop_inv max s'.
Proof.
  intros Hi [[n|n env| | |key|key| |key] E]; simpl in E.
  - by eapply link_runs_inv.
  - by eapply link_receives_inv.
  - by eapply broker_thread_runs_inv.
  - by eapply discovery_runs_inv.
  - unfold discovery_dials in E. destruct (stop_inv_discovery max s Hi) as [Ed|[_ Hs]]; [by rewrite Ed in E|].
    destruct (sp_discovery s); try done. injection E as <-. by apply stop_inv_addPeer.
  - by eapply discovery_drops_inv.
  - by eapply caller_runs_inv.
  - unfold caller_connects in E. destruct (sp_caller s) eqn:Hc; [done|]. injection E as <-.
    apply stop_inv_addPeer; [done|]. unfold due, todo. by rewrite Hc.
Qed.

Lemma stop_reachable_inv max d s : rtc stop_step (stop_init max d) s -> stop_inv max s.
Proof.
  intros Hr. assert (Hi : stop_inv max (stop_init max d)) by apply stop_inv_init.
  induction Hr as [s|s1 s2 s3 Hs _ IH]; [done|]. by apply IH, (stop_step_inv max s1).
Qed.

(** ** Returning *)

Definition can_return s : Prop := exists s', rtc stop_step s s' /\ sp_caller s' = Some [].

Lemma can_return_exec a s s' : stop_exec a s = Some s' -> can_return s' -> can_return s.
Proof. intros E (s2 & Hr & Hc). exists s2. split; [|done]. eapply rtc_l; [by exists a|done]. Qed.

Lemma can_return_rtc s s' : rtc stop_step s s' -> can_return s' -> can_return s.
Proof. intros Hr (s2 & Hr2 & Hc). exists s2. split; [by etrans|done]. Qed.

Lemma stop_inv_rtc max s s' : rtc stop_step s s' -> stop_inv max s -> stop_inv max s'.
Proof. induction 1 as [s|s1 s2 s3 Hs _ IH]; [done|]. intros Hi. by apply IH, (stop_step_inv max s1). Qed.

(** When [stop] has returned, everything has ended. *)
Lemma returned_stopped max s : stop_inv max s -> sp_caller s = Some [] -> stopped s.
Proof.
  intros [] Hc. unfold due, todo in *. rewrite Hc in *.
  specialize (si_discovery0 eq_refl). specialize (si_broker0 eq_refl). specialize (si_swapped0 eq_refl).
  specialize (si_local0 eq_refl). unfold stopped. split_and!; try done.
  intros n k Hk. destruct (si_owned0 n k Hk) as [?|[(key & E)|[E|[E|E]]]]; [done| | |congruence|congruence].
  - by rewrite si_swapped0 in E.
  - rewrite si_local0 in E. by apply elem_of_nil in E.
Qed.

(** The thread of a link whose flag is cleared ends, once the queue is stopped. *)
Lemma link_ends s n k :
  m_stop (sp_queue s) = true -> sp_links s !! n = Some k -> lk_running k = false ->
  exists s', rtc stop_step s s' /\ sp_links s' !! n = Some (mkLink false LEnded) /\
    sp_local s' = sp_local s /\ sp_caller s' = sp_caller s.
Proof.
  intros Hq Hk Hr.
  assert (Hend : forall s, sp_links s !! n = Some (mkLink false LHead) ->
    stop_step s (put_link n (mkLink false LEnded) s)).
  { intros s1 E. exists (LinkRuns n). simpl. unfold link_runs. by rewrite E. }
  destruct k as [r [|env|]]; simpl in Hr; subst r.
  - eexists. split; [by apply rtc_once, Hend|]. simpl. by rewrite lookup_insert_eq.
  - set (s1 := put_queue (sp_queue s) (put_link n (mkLink false LHead) s)).
    exists (put_link n (mkLink false LEnded) s1). split; [|simpl; by rewrite lookup_insert_eq].
    eapply rtc_l; [|apply rtc_once, Hend; simpl; by rewrite lookup_insert_eq].
    exists (LinkRuns n). simpl. unfold link_runs. rewrite Hk. simpl. unfold push, push_ready, push_body.
    by rewrite Hq, orb_true_r.
  - exists s. by split_and!.
Qed.

Lemma return_StopPeers max s : stop_inv max s -> sp_caller s = Some [StopPeers] -> can_return s.
Proof.
  intros Hi Hc. remember (sp_local s) as ns eqn:El. revert s Hi Hc El.
  induction ns as [|n ns IH]; intros s Hi Hc El.
  - apply (can_return_exec CallerRuns s (put_caller (Some []) s)); [|by eexists].
    simpl. unfold caller_runs. rewrite Hc. unfold stop_peers. by rewrite <- El.
  - assert (Hq : m_stop (sp_queue s) = true)
      by (apply (si_stopped max s Hi); unfold due, todo; by rewrite Hc).
    assert (Hk : is_Some (sp_links s !! n)).
    { apply (si_links max s Hi). right. left. rewrite <- El. apply elem_of_cons. by left. }
    destruct Hk as [k Hk].
    assert (Hfalse : forall s1 k1, stop_inv max s1 -> sp_caller s1 = Some [StopPeers] -> n :: ns = sp_local s1 ->
      m_stop (sp_queue s1) = true -> sp_links s1 !! n = Some k1 -> lk_running k1 = false -> can_return s1).
    { intros s1 k1 Hi1 Hc1 El1 Hq1 Hk1 Hr1. destruct (link_ends s1 n k1 Hq1 Hk1 Hr1) as (s2 & Hr & Ek & El2 & Hc2).
      pose proof (stop_inv_rtc max _ _ Hr Hi1) as Hi2. apply (can_return_rtc _ _ Hr).
      assert (E : stop_exec CallerRuns s2 = Some (put_local ns s2)).
      { simpl. unfold caller_runs. rewrite Hc2, Hc1. unfold stop_peers. rewrite El2, <- El1, Ek. simpl.
        unfold joined. by rewrite Ek. }
      apply (can_return_exec _ _ _ E). apply IH; [|simpl; congruence|done].
      apply (stop_step_inv max s2); [done|by exists CallerRuns]. }
    destruct (lk_running k) eqn:Hr; [|by apply (Hfalse s k)].
    assert (E : stop_exec CallerRuns s = Some (put_link n (mkLink false (lk_thread k)) s)).
    { simpl. unfold caller_runs. rewrite Hc. unfold stop_peers. rewrite <- El, Hk. simpl. rewrite Hr.
      unfold clear_link. by rewrite Hk. }
    apply (can_return_exec _ _ _ E), (Hfalse _ (mkLink false (lk_thread k))); try done.
    + apply (stop_step_inv max s); [done|by exists CallerRuns].
    + simpl. by rewrite lookup_insert_eq.
Qed.

(** The broker thread empties the queue. *)
Lemma drains s : sp_broker s = BDrain ->
  exists q, rtc stop_step s (put_queue q s) /\ m_queue q = [] /\ m_maxSize q = m_maxSize (sp_queue s).
Proof.
  intros Hb. destruct (sp_queue s) as [l st mx] eqn:Eq. revert s Hb Eq.
  induction l as [|v l IH]; intros s Hb Eq.
  - exists (sp_queue s). rewrite Eq. split; [|done]. rewrite <- Eq. by destruct s.
  - destruct (IH (put_queue (mkQueue l st mx) s)) as (q & Hr & Hq & Hm); [done|done|].
    exists q. split_and!; [|done|done]. eapply rtc_l; [|exact Hr]. exists BrokerRuns. simpl.
    unfold broker_thread_runs. by rewrite Hb, Eq.
Qed.

Lemma return_SwapPeers max s : stop_inv max s -> sp_caller s = Some [SwapPeers; StopPeers] -> can_return s.
Proof.
  intros Hi Hc. eapply (can_return_exec CallerRuns); [simpl; unfold caller_runs; by rewrite Hc|].
  eapply (return_StopPeers max); [|done]. apply (stop_step_inv max s); [done|]. exists CallerRuns.
  simpl. unfold caller_runs. by rewrite Hc.
Qed.

Lemma return_BrokerJoin max s :
  stop_inv max s -> sp_caller s = Some [BrokerJoin; SwapPeers; StopPeers] -> can_return s.
Proof.
  intros Hi Hc.
  assert (Hr : sp_running s = false) by (apply (si_running max s Hi); unfold due, todo; by rewrite Hc).
  assert (Hend : forall s, stop_inv max s -> sp_caller s = Some [BrokerJoin; SwapPeers; StopPeers] ->
    sp_broker s = BEnded -> can_return s).
  { intros s1 Hi1 Hc1 Hb1. assert (E : stop_exec CallerRuns s1 = Some (put_caller (Some [SwapPeers; StopPeers]) s1))
      by (simpl; unfold caller_runs; by rewrite Hc1, Hb1).
    apply (can_return_exec _ _ _ E), (return_SwapPeers max); [|done].
    apply (stop_step_inv max s1); [done|by eexists]. }
  assert (Hhead : forall s, stop_inv max s -> sp_caller s = Some [BrokerJoin; SwapPeers; StopPeers] ->
    sp_running s = false -> sp_broker s = BHead -> can_return s).
  { intros s1 Hi1 Hc1 Hr1 Hb1. assert (E : stop_exec BrokerRuns s1 = Some (put_broker BEnded s1))
      by (simpl; unfold broker_thread_runs; by rewrite Hb1, Hr1).
    apply (can_return_exec _ _ _ E), Hend; [|done|done]. apply (stop_step_inv max s1); [done|by eexists]. }
  destruct (sp_broker s) eqn:Hb; [by apply Hhead| |by apply Hend].
  destruct (drains s Hb) as (q & Hq & Eq & _). apply (can_return_rtc _ _ Hq).
  assert (E : stop_exec BrokerRuns (put_queue q s) = Some (put_broker BHead (put_queue q s))).
  { simpl. unfold broker_thread_runs. simpl. rewrite Hb. unfold try_pop. by rewrite Eq. }
  apply (can_return_exec _ _ _ E), Hhead; [|done|done|done].
  apply (stop_step_inv max (put_queue q s)); [by apply (stop_inv_rtc max s)|by eexists].
Qed.

Lemma return_QueueStop max s :
  stop_inv max s -> sp_caller s = Some (drop 3 broker_stop) -> can_return s.
Proof.
  intros Hi Hc. eapply (can_return_exec CallerRuns); [simpl; unfold caller_runs; by rewrite Hc|].
  eapply (return_BrokerJoin max); [|done]. apply (stop_step_inv max s); [done|]. exists CallerRuns.
  simpl. unfold caller_runs. by rewrite Hc.
Qed.

(** The discovery thread is not inside [removePeer]. *)
Definition calm_discovery s : Prop := sp_discovery s = DHead \/ sp_discovery s = DTurn \/ sp_discovery s = DEnded.

Lemma return_DiscoveryJoin max s :
  stop_inv max s -> calm_discovery s -> sp_caller s = Some (drop 2 broker_stop) -> can_return s.
Proof.
  intros Hi Hd Hc.
  assert (Hf : sp_discovering s = false) by (apply (si_discovering max s Hi); unfold due, todo; by rewrite Hc).
  assert (Hend : forall s, stop_inv max s -> sp_caller s = Some (drop 2 broker_stop) ->
    sp_discovery s = DEnded -> can_return s).
  { intros s1 Hi1 Hc1 Hd1. assert (E : stop_exec CallerRuns s1 = Some (put_caller (Some (drop 3 broker_stop)) s1))
      by (simpl; unfold caller_runs; by rewrite Hc1, Hd1).
    apply (can_return_exec _ _ _ E), (return_QueueStop max); [|done].
    apply (stop_step_inv max s1); [done|by eexists]. }
  assert (Hhead : forall s, stop_inv max s -> sp_caller s = Some (drop 2 broker_stop) ->
    sp_discovering s = false -> sp_discovery s = DHead -> can_return s).
  { intros s1 Hi1 Hc1 Hf1 Hd1. assert (E : stop_exec DiscoveryRuns s1 = Some (put_discovery DEnded s1))
      by (simpl; unfold discovery_runs; by rewrite Hd1, Hf1).
    apply (can_return_exec _ _ _ E), Hend; [|done|done]. apply (stop_step_inv max s1); [done|by eexists]. }
  destruct Hd as [Hd|[Hd|Hd]]; [by apply Hhead| |by apply Hend].
  assert (E : stop_exec DiscoveryRuns s = Some (put_discovery DHead s))
    by (simpl; unfold discovery_runs; by rewrite Hd).
  apply (can_return_exec _ _ _ E), Hhead; try done. apply (stop_step_inv max s); [done|by eexists].
Qed.

Lemma return_calm max s : stop_inv max s -> calm_discovery s -> can_return s.
Proof.
  intros Hi Hd.
  assert (Hmore : forall k s, stop_inv max s -> calm_discovery s -> k < 2 ->
    sp_caller s = Some (drop k broker_stop) -> exists s', stop_exec CallerRuns s = Some s' /\
      stop_inv max s' /\ calm_discovery s' /\ sp_caller s' = Some (drop (Datatypes.S k) broker_stop)).
  { intros k s1 Hi1 Hd1 Hk Hc1. assert (exists s', stop_exec CallerRuns s1 = Some s' /\ calm_discovery s' /\
      sp_caller s' = Some (drop (Datatypes.S k) broker_stop)) as (s' & E & ? & ?).
    { simpl. unfold caller_runs. rewrite Hc1. destruct k as [|[|k]]; [..|lia]; simpl; by eexists. }
    exists s'. split_and!; try done. apply (stop_step_inv max s1); [done|by eexists]. }
  assert (H1 : forall s, stop_inv max s -> calm_discovery s -> sp_caller s = Some (drop 1 broker_stop) -> can_return s).
  { intros s1 Hi1 Hd1 Hc1. destruct (Hmore 1 s1) as (s2 & E & Hi2 & Hd2 & Hc2); [done|done|lia|done|].
    apply (can_return_exec _ _ _ E). by apply (return_DiscoveryJoin max). }
  assert (H2 : forall s, stop_inv max s -> calm_discovery s -> sp_caller s = Some broker_stop -> can_return s).
  { intros s1 Hi1 Hd1 Hc1. destruct (Hmore 0 s1) as (s2 & E & Hi2 & Hd2 & Hc2); [done|done|lia|done|].
    apply (can_return_exec _ _ _ E). by apply H1. }
  destruct (sp_caller s) as [l|] eqn:Hc.
  - destruct (todo_drop _ (si_suffix max s Hi)) as (k & Hk & Ek). unfold todo in Ek. rewrite Hc in Ek.
    simpl in Ek. subst l. destruct k as [|[|[|[|[|[|[|[|k]]]]]]]]; [..|lia].
    + by apply H2.
    + by apply H1.
    + by apply (return_DiscoveryJoin max).
    + by apply (return_QueueStop max).
    + by apply (return_BrokerJoin max).
    + by apply (return_SwapPeers max).
    + by apply (return_StopPeers max).
    + by exists s.
  - assert (E : stop_exec CallerRuns s = Some (put_caller (Some broker_stop) s))
      by (simpl; unfold caller_runs; by rewrite Hc).
    apply (can_return_exec _ _ _ E), H2; [|done|done]. apply (stop_step_inv max s); [done|by eexists].
Qed.

(** *** Leaving [removePeer] *)

(** The worker the discovery thread removes gets out of its callback. *)
Lemma callback_returns max s n k env :
  (0 < max)%Z -> stop_inv max s -> sp_links s !! n = Some k -> lk_thread k = LCallback env ->
  ~ (drains_no_more s /\ push_ready (sp_queue s) = false) ->
  exists s', rtc stop_step s s' /\ sp_discovery s' = sp_discovery s /\
    sp_links s' !! n = Some (mkLink (lk_running k) LHead).
Proof.
  intros Hmax Hi Hk Ht Hn.
  assert (Hpush : forall s, sp_links s !! n = Some k -> push_ready (sp_queue s) = true ->
    exists s', stop_step s s' /\ sp_discovery s' = sp_discovery s /\
      sp_links s' !! n = Some (mkLink (lk_running k) LHead)).
  { intros s1 Hk1 Hr. destruct (push_body env (sp_queue s1)) as [q b] eqn:Ep.
    exists (put_queue q (put_link n (mkLink (lk_running k) LHead) s1)). split_and!; [|done|simpl; by rewrite lookup_insert_eq].
    exists (LinkRuns n). simpl. unfold link_runs. rewrite Hk1. simpl. rewrite Ht. unfold push. by rewrite Hr, Ep. }
  assert (Hdrain : forall s, stop_inv max s -> sp_links s !! n = Some k -> sp_broker s = BDrain ->
    exists s', rtc stop_step s s' /\ sp_discovery s' = sp_discovery s /\
      sp_links s' !! n = Some (mkLink (lk_running k) LHead)).
  { intros s1 Hi1 Hk1 Hb1. destruct (drains s1 Hb1) as (q & Hr & Eq & Em).
    destruct (Hpush (put_queue q s1)) as (s2 & Hs & ? & ?); [done| |].
    - simpl. unfold push_ready. rewrite Eq, Em, (si_max max s1 Hi1). apply orb_true_iff. left. by apply Z.ltb_lt.
    - exists s2. split; [|done]. etrans; [exact Hr|by apply rtc_once]. }
  destruct (push_ready (sp_queue s)) eqn:Hr.
  { destruct (Hpush s Hk Hr) as (s' & Hs & ?). exists s'. split; [by apply rtc_once|done]. }
  destruct (sp_broker s) eqn:Hb; [|by apply Hdrain|exfalso; apply Hn; by split; [left|]].
  destruct (sp_running s) eqn:Hrun; [|exfalso; apply Hn; by split; [right|]].
  assert (Hs : stop_step s (put_broker BDrain s))
    by (exists BrokerRuns; simpl; unfold broker_thread_runs; by rewrite Hb, Hrun).
  destruct (Hdrain (put_broker BDrain s)) as (s2 & Hr2 & ? & ?); [by apply (stop_step_inv max s)|done|done|].
  exists s2. split; [by eapply rtc_l|done].
Qed.

Lemma join_returns max s n k :
  stop_inv max s -> sp_discovery s = DJoins n -> sp_links s !! n = Some k ->
  (lk_thread k = LHead \/ lk_thread k = LEnded) -> exists s', rtc stop_step s s' /\ calm_discovery s'.
Proof.
  intros Hi Hd Hk Ht. pose proof (si_joins max s Hi n k Hd Hk) as Hr.
  assert (Hend : forall s, sp_discovery s = DJoins n -> joined n s = true -> stop_step s (put_discovery DTurn s)).
  { intros s1 Hd1 Hj. exists DiscoveryRuns. simpl. unfold discovery_runs. by rewrite Hd1, Hj. }
  destruct Ht as [Ht|Ht].
  - set (s1 := put_link n (mkLink false LEnded) s).
    exists (put_discovery DTurn s1). split; [|right; by left].
    eapply rtc_l; [exists (LinkRuns n); simpl; unfold link_runs; rewrite Hk; simpl; by rewrite Ht, Hr|].
    apply rtc_once, Hend; [done|]. unfold joined. simpl. by rewrite lookup_insert_eq.
  - exists (put_discovery DTurn s). split; [|right; by left]. apply rtc_once, Hend; [done|].
    unfold joined. by rewrite Hk, Ht.
Qed.

Lemma removal_returns max s n :
  (0 < max)%Z -> stop_inv max s -> sp_discovery s = DRemoved n \/ sp_discovery s = DJoins n -> ~ wedged s ->
  exists s', rtc stop_step s s' /\ calm_discovery s'.
Proof.
  intros Hmax Hi Hd Hw.
  assert (is_Some (sp_links s !! n)) as [k Hk].
  { apply (si_links max s Hi). right. right. destruct Hd; auto. }
  assert (exists s1 k1, rtc stop_step s s1 /\ sp_discovery s1 = sp_discovery s /\ sp_links s1 !! n = Some k1 /\
    (lk_thread k1 = LHead \/ lk_thread k1 = LEnded)) as (s1 & k1 & Hr & Hd1 & Hk1 & Ht1).
  { destruct (lk_thread k) as [|env|] eqn:Ht; [by exists s, k; auto using rtc_refl| |by exists s, k; auto using rtc_refl].
    destruct (callback_returns max s n k env) as (s' & ? & ? & ?); try done; [|by eexists _, _; eauto].
    intros [? ?]. apply Hw. split_and!; [done|done|]. eauto 10. }
  pose proof (stop_inv_rtc max _ _ Hr Hi) as Hi1.
  assert (exists s2, rtc stop_step s1 s2 /\ calm_discovery s2) as (s2 & Hr2 & ?).
  { destruct Hd as [Hd|Hd]; rewrite Hd in Hd1; [|by apply (join_returns max s1 n k1)].
    set (s2 := put_discovery (DJoins n) (put_link n (mkLink false (lk_thread k1)) s1)).
    assert (Hs : stop_step s1 s2).
    { exists DiscoveryRuns. simpl. unfold discovery_runs. rewrite Hd1. unfold clear_link. by rewrite Hk1. }
    destruct (join_returns max s2 n (mkLink false (lk_thread k1))) as (s3 & ? & ?);
      [by apply (stop_step_inv max s1)|done|simpl; by rewrite lookup_insert_eq|done|].
    exists s3. split; [by eapply rtc_l|done]. }
  exists s2. split; [by etrans|done].
Qed.

(** A wedged broker stays wedged. *)
Lemma wedged_link s m x x' :
  wedged s -> sp_links s !! m = Some x ->
  (lk_thread x' = lk_thread x \/ forall env, lk_thread x <> LCallback env) -> wedged (put_link m x' s).
Proof.
  intros (Hdr & Hq & n & k & env & Hd & Hk & Ht) Hm Hx. split_and!; [done|done|].
  destruct (decide (m = n)) as [->|Hmn].
  - exists n, x', env. split_and!; [done|simpl; by rewrite lookup_insert_eq|].
    destruct Hx as [->|Hx]; [congruence|]. exfalso. apply (Hx env). congruence.
  - exists n, k, env. simpl. by rewrite lookup_insert_ne.
Qed.

Lemma wedged_link_runs s s' n : wedged s -> link_runs n s = Some s' -> wedged s'.
Proof.
  intros Hw. pose proof Hw as (_ & Hq & _). unfold link_runs.
  destruct (sp_links s !! n) as [x|] eqn:Hm; [|done]. simpl. destruct (lk_thread x) as [|env|] eqn:Ht; [| |done].
  - destruct (lk_running x); intros [= <-]; [done|]. apply (wedged_link s n x); [done|done|right; congruence].
  - unfold push. by rewrite Hq.
Qed.

Lemma wedged_discovery_runs s s' : wedged s -> discovery_runs s = Some s' -> wedged s'.
Proof.
  intros (Hdr & Hq & n & k & env & Hd & Hk & Ht). unfold discovery_runs.
  destruct Hd as [Hd|Hd]; rewrite Hd.
  - unfold clear_link. rewrite Hk. intros [= <-]. split_and!; [done|done|].
    exists n, (mkLink false (lk_thread k)), env. simpl. rewrite lookup_insert_eq. auto.
  - unfold joined. by rewrite Hk, Ht.
Qed.

Lemma wedged_addPeer s key : wedged s -> wedged (stop_addPeer key s).
Proof.
  intros Hw. unfold stop_addPeer. destruct (sp_peers s !! key); [done|].
  pose proof (is_fresh (dom (sp_links s))) as Hf. apply not_elem_of_dom in Hf.
  destruct Hw as (Hdr & Hq & n & k & env & Hd & Hk & Ht). split_and!; [done|done|].
  exists n, k, env. simpl. rewrite lookup_insert_ne; [done|congruence].
Qed.

Lemma wedged_caller_runs max s s' : stop_inv max s -> wedged s -> caller_runs s = Some s' -> wedged s'.
Proof.
  intros Hi (Hdr & Hq & n & k & env & Hd & Hk & Ht).
  assert (Hw : forall v, wedged (put_caller v s)) by (intros v; split_and!; eauto 10).
  destruct (stop_inv_discovery max s Hi) as [Ed|[Hj _]]; [by destruct Hd as [E|E]; rewrite Ed in E|].
  unfold caller_runs. destruct (sp_caller s) as [l|] eqn:Hc; [|intros [= <-]; apply Hw].
  destruct (todo_drop _ (si_suffix max s Hi)) as (j & Hjl & Ej). unfold due, todo in *. rewrite Hc in *.
  simpl in Ej, Hj. subst l. destruct j as [|[|[|j]]]; simpl in Hc |- *.
  - intros [= <-]. split_and!; [|done|by eauto 10]. destruct Hdr as [?|[? _]]; [by left|by right].
  - intros [= <-]. by split_and!; eauto 10.
  - destruct Hd as [-> | ->]; done.
  - exfalso. by do 5 (destruct j as [|j]; [done|]).
Qed.

Lemma wedged_step max s s' : stop_inv max s -> wedged s -> stop_step s s' -> wedged s'.
Proof.
  intros Hi Hw [a E]. pose proof Hw as (Hdr & Hq & n & k & env & Hd & Hk & Ht).
  destruct a as [m|m env'| | |key|key| |key]; simpl in E.
  - by eapply wedged_link_runs.
  - unfold link_receives in E. destruct (sp_links s !! m) as [x|] eqn:Hm; [|done]. simpl in E.
    destruct (lk_thread x) eqn:Hx; [|done|done]. destruct (lk_running x); [|done]. injection E as <-.
    apply (wedged_link s m x); [done|done|right; congruence].
  - unfold broker_thread_runs in E. destruct Hdr as [Hb|[Hb Hr]]; rewrite Hb in E; [done|]. rewrite Hr in E.
    injection E as <-. split_and!; [by left|done|eauto 10].
  - by eapply wedged_discovery_runs.
  - unfold discovery_dials in E. by destruct Hd as [Hd|Hd]; rewrite Hd in E.
  - unfold discovery_drops in E. by destruct Hd as [Hd|Hd]; rewrite Hd in E.
  - by eapply wedged_caller_runs.
  - unfold caller_connects in E. destruct (sp_caller s); [done|]. injection E as <-. by apply wedged_addPeer.
Qed.

Lemma wedged_never_returns max s : stop_inv max s -> wedged s -> ~ can_return s.
Proof.
  intros Hi Hw (s' & Hr & Hc).
  assert (stop_inv max s' /\ wedged s') as [Hi' Hw'].
  { clear Hc. induction Hr as [s|s1 s2 s3 Hs _ IH]; [done|].
    apply IH; [by apply (stop_step_inv max s1)|by apply (wedged_step max s1)]. }
  destruct (returned_stopped max s' Hi' Hc) as (_ & _ & _ & Hd & _).
  destruct Hw' as (_ & _ & n & k & env & Hd' & _). by destruct Hd' as [E|E]; rewrite Hd in E.
Qed.

(** The message callback of a link waits in no other place: it returns at once
    for a RESET, and otherwise exactly when the push does. *)
Lemma peer_link_message_waits linkId env worker (q : SafeQueue Envelope) :
  peer_link_message linkId env (worker, q) = None <->
  handler_key (Wire.header env) <> Keys.RESET /\ push env q = None.
Proof.
  unfold peer_link_message. case_decide as Hk; [by split; [|intros []]|].
  destruct (push env q) as [[q' b]|]; split; [done|by intros []|done|done].
Qed.

(** ** Theorems *)

(** C30. Shutdown: whatever the interleaving of the broker thread, the discovery
    thread, the links' threads and the caller, with any number of peers dialled and
    dropped and the inbound queue as full as it may be, [stop] can run to its end
    from every state the threads reach, unless the state is [wedged]; and from a
    [wedged] state it never returns.  When it has returned, every thread has ended
    and no peer is left. *)
Theorem broker_stop_completes max discovery s :
  (0 < max)%Z -> rtc stop_step (stop_init max discovery) s ->
  ((exists s', rtc stop_step s s' /\ stopped s') <-> ~ wedged s) /\
  (sp_caller s = Some [] -> stopped s).
Proof.
  intros Hmax Hr. pose proof (stop_reachable_inv max discovery s Hr) as Hi.
  split; [|by apply (returned_stopped max)]. split.
  - intros (s' & Hr' & Hs' & _) Hw. apply (wedged_never_returns max s Hi Hw). by exists s'.
  - intros Hw. assert (can_return s) as (s' & Hr' & Hc).
    { assert (Hrem : forall n, sp_discovery s = DRemoved n \/ sp_discovery s = DJoins n -> can_return s).
      { intros n Hd. destruct (removal_returns max s n Hmax Hi Hd Hw) as (s1 & Hr1 & Hc1).
        apply (can_return_rtc _ _ Hr1), (return_calm max); [|done]. by apply (stop_inv_rtc max s). }
      destruct (sp_discovery s) as [| |n|n|] eqn:Hd; [| |by apply (Hrem n); auto..|];
        apply (return_calm max s Hi); unfold calm_discovery; auto. }
    exists s'. split; [done|]. apply (returned_stopped max); [|done]. by apply (stop_inv_rtc max s).
Qed.

End shutdown.
