(* ===== verification/Mesh.v ===== *)
(** * A mesh of brokers

    Brokers linked to each other as [addPeer] links them.  The worker of a link
    runs at the dialling broker: what the broker floods goes into the worker's
    outbound queue and reaches the other broker as a message of a local client
    whose identity is the link's; that client holds the wildcard subscription,
    so everything the other broker routes comes back over the link into the
    dialling broker's inbound queue.  Each broker processes its messages with
    [processMessage]; [mesh_step] is the step relation of the whole.

    The theorem of this file: flooding ends. *)

From stdpp Require Import relations.
From S2P Require Import Prelude Keys CppString SafeQueue SubscriptionRegistry MessageHeader.
From S2P Require Import Stats Wire Worker Uuid Discovery Broker BrokerFacts BrokerTheorems.

Section mesh.
Context `{StatsRuntime} `{!HeaderParser} {G : Type} `{HexGen G} {S : Type} `{ZmqSocket S}
  `{UnorderedOrder}.

Implicit Types b : ZmqBroker.
Implicit Types w : broker_world (G:=G) (S:=S).
Implicit Types k : ZmqWorker.
Implicit Types env : Envelope.

(** ** Steps *)

(** The broker an address reaches. *)
Context (listens : string -> option nat).

(** Brokers, and the messages their routers have sent and nobody read yet. *)
Record mesh := mkMesh {
  nodes : gmap nat (broker_world (G:=G) (S:=S));
  transit : list (nat * list string)
}.

Implicit Types m : mesh.

Definition link_id (k : ZmqWorker) : string := clientId (m_config k).
Definition target (k : ZmqWorker) : option nat := listens (address (m_config k)).

Definition put_link (key : string) (k : ZmqWorker) b : ZmqBroker :=
  set_peers (<[key := k]> (m_peers b)) b.

Definition put_node (i : nat) (w : broker_world) m : mesh := mkMesh (<[i := w]> (nodes m)) (transit m).

(** Broker [j] processes a message; what its router sends is in transit. *)
Definition arrive (j : nat) (now : Z) (o : option Envelope) (snd : string) (peer : bool) m : mesh :=
  match o, nodes m !! j with
  | Some env, Some w =>
      let w' := (processMessage now (Wire.header env) (Wire.payload env) snd peer w).1 in
      mkMesh (<[j := w']> (nodes m))
        (transit m ++ (pair j <$> drop (length (zmq_sent (bw_router w))) (zmq_sent (bw_router w'))))
  | _, _ => m
  end.

(** No link brings the messages of broker [j] for this identity home. *)
Definition no_link m (j : nat) (id : string) : Prop :=
  forall i w key k, nodes m !! i = Some w -> m_peers (bw_broker w) !! key = Some k ->
    target k = Some j -> link_id k <> id.

Inductive mesh_step : mesh -> mesh -> Prop :=
  | step_out m i w key k q env j now :
      (** the worker of a link sends the front of its outbound queue *)
      nodes m !! i = Some w -> m_peers (bw_broker w) !! key = Some k ->
      try_pop (m_outboundQueue k) = (q, Some env) -> target k = Some j ->
      mesh_step m (arrive j now (envelope_of_frames (wire_frames env)) (link_id k) false
        (put_node i (on_broker (put_link key (set_outboundQueue q k)) w) m))
  | step_back m l1 j id frames l2 i w key k env k' q :
      (** the worker receives a message and runs the link's callback *)
      transit m = l1 ++ (j, id :: frames) :: l2 ->
      nodes m !! i = Some w -> m_peers (bw_broker w) !! key = Some k ->
      target k = Some j -> link_id k = id -> envelope_of_frames frames = Some env ->
      peer_link_message id env (k, m_peerInboundQueue (bw_broker w)) = Some (k', q) ->
      mesh_step m (mkMesh
        (<[i := on_broker (fun b => set_peerInboundQueue q (put_link key k' b)) w]> (nodes m)) (l1 ++ l2))
  | step_in m i w q env :
      (** the broker takes a message from its inbound queue *)
      nodes m !! i = Some w -> try_pop (m_peerInboundQueue (bw_broker w)) = (q, Some env) ->
      mesh_step m (arrive i 0 (Some env) "PEER" true (put_node i (on_broker (set_peerInboundQueue q) w) m))
  | step_client m l1 j id frames l2 :
      (** a client that is no link receives a message *)
      transit m = l1 ++ (j, id :: frames) :: l2 -> no_link m j id ->
      mesh_step m (mkMesh (nodes m) (l1 ++ l2)).

(** A link that is down loses what it would have carried. *)
Inductive mesh_loss : mesh -> mesh -> Prop :=
  | loss_out m i w key k q env :
      nodes m !! i = Some w -> m_peers (bw_broker w) !! key = Some k ->
      try_pop (m_outboundQueue k) = (q, Some env) ->
      mesh_loss m (put_node i (on_broker (put_link key (set_outboundQueue q k)) w) m)
  | loss_transit m l1 x l2 :
      transit m = l1 ++ x :: l2 -> mesh_loss m (mkMesh (nodes m) (l1 ++ l2)).

Definition lossy_step m m' : Prop := mesh_step m m' \/ mesh_loss m m'.

(** ** Copies *)

(** Copies of a set of messages: routable, with one of these ids, and such that
    they survive the wire. *)
Record copy (U : gset string) env : Prop := {
  cp_uuid : message_uuid (Wire.header env) ∈ U;
  cp_stamped : message_uuid (Wire.header env) <> "";
  cp_client : ~ broker_handled (handler_key (Wire.header env));
  cp_peer : peer_ignored (handler_key (Wire.header env)) = false;
  cp_wf : header_wf (Wire.header env);
  cp_enc : header_encodable IsStructurallyValidUTF8 (Wire.header env)
}.

Lemma copy_equiv U env h :
  copy U env -> header_wf h -> h ≡ Wire.header env -> copy U (mkEnvelope _ h (Wire.payload env)).
Proof.
  intros [C1 C2 C3 C4 C5 [D1 D2 D3 D4]] Hw E. pose proof (SerializeAsString_equiv _ _ Hw C5 E) as Es.
  pose proof E as [E1 E2 E3 E4 E5 E6 E7 E8 E9 E10].
  split; simpl; rewrite ?E1, ?E5; try done.
  split; rewrite ?E1, ?E2, ?E3, ?E4, ?E5, ?E6, ?E7, ?E8, ?E9, ?Es; done.
Qed.

Lemma copy_over_wire U env :
  copy U env -> exists env', envelope_of_frames (wire_frames env) = Some env' /\ copy U env' /\
    message_uuid (Wire.header env') = message_uuid (Wire.header env) /\
    topic (Wire.header env') = topic (Wire.header env).
Proof.
  intros Hc. destruct (envelope_of_wire_frames env) as (h & E & Eq); [apply Hc..|].
  exists (mkEnvelope _ h (Wire.payload env)). split_and!; [done| |apply Eq|apply Eq].
  apply copy_equiv; [done| |done]. unfold envelope_of_frames, wire_frames in E.
  destruct (decodeHeaderFrame (encodeHeader (Wire.header env))) as [h'|] eqn:Ed; [|done].
  injection E as -> _. revert Ed. apply ParseFromArray_wf.
Qed.

Lemma copy_forwarded U env :
  copy U env -> forwarded (Wire.header env) (Wire.payload env) = env.
Proof.
  intros Hc. unfold forwarded, header_CopyFrom.
  rewrite header_Clear_fresh by auto with wisp. rewrite header_MergeFrom_new by apply Hc. by destruct env.
Qed.

(** ** What steps never change *)

(** The shape of a broker: subscriptions, who its clients are, the capacity of
    its inbound queue, and configuration and capacity of its links. *)
Definition capacity (q : SafeQueue Envelope) : bool * Z := (m_stop q, m_maxSize q).

Definition link_shape (k : ZmqWorker) : ConnectionConfig * (bool * Z) :=
  (m_config k, capacity (m_outboundQueue k)).

Definition shape w :=
  (m_subscriptions (bw_broker w), dom (m_clients (bw_broker w)),
   capacity (m_peerInboundQueue (bw_broker w)), link_shape <$> m_peers (bw_broker w)).

Definition mesh_shape m := shape <$> nodes m.

Lemma push_for_capacity env q : capacity (push_for env q).1 = capacity q.
Proof. unfold push_for, push_body, capacity. destruct (push_ready q), (m_stop q) eqn:E; simpl; by rewrite ?E. Qed.

Lemma try_pop_spec q q' env :
  try_pop q = (q', Some env) -> m_queue q = env :: m_queue q' /\ capacity q' = capacity q.
Proof. unfold try_pop. destruct (m_queue q) eqn:E; intros K; simplify_eq/=; done. Qed.

Lemma writeMessage_shape env k : link_shape (writeMessage env k).1 = link_shape k.
Proof.
  unfold writeMessage. destruct (push_for env (m_outboundQueue k)) as [q ok] eqn:E.
  unfold link_shape; simpl. f_equal. pose proof (push_for_capacity env (m_outboundQueue k)) as K.
  by rewrite E in K.
Qed.

Lemma writeMessage_queue env k :
  m_queue (m_outboundQueue (writeMessage env k).1) = m_queue (m_outboundQueue k) ++ [env] \/
  m_queue (m_outboundQueue (writeMessage env k).1) = m_queue (m_outboundQueue k).
Proof. unfold writeMessage, push_for, push_body. repeat case_match; simplify_eq/=; auto. Qed.

(** ** One broker *)

Section node.
Context (P : S -> Prop) (ok : string -> bool) (HP : routing_socket P ok).
Context (Q : S -> Prop) (HQ : accepting Q).
Context (U : gset string).

Definition known w (u : string) : Prop := u ∈ m_messageIdOrder (bw_broker w).

(** The history forgets its oldest id when it is full.  None of the ids [U] is forgotten
    while the others of [U] are still to come: there are at most as many as the history
    holds, and one that is remembered is recent enough.  A history that holds none
    of them may be full. *)
Record kept (order : list string) : Prop := {
  kp_size : size U <= MaxHistorySize;
  kp_recent : forall l1 u l2, order = l1 ++ u :: l2 -> u ∈ U ->
    length l2 + size (U ∖ list_to_set order) < MaxHistorySize
}.

Record node_ok w : Prop := {
  no_ready : sockets_ready P Q w;
  no_inv : broker_inv (bw_broker w);
  no_kept : kept (m_messageIdOrder (bw_broker w));
  no_out : forall key k env, m_peers (bw_broker w) !! key = Some k ->
    env ∈ m_queue (m_outboundQueue k) -> copy U env;
  no_in : forall env, env ∈ m_queue (m_peerInboundQueue (bw_broker w)) -> copy U env
}.

(** What a copy does to a broker it reaches: nothing but the sender's time when
    the id is known; otherwise one message to every other subscriber and one
    to every link, and the id is remembered. *)
Record arrival env (snd : string) (peer : bool) w w' (ids : list string) : Prop := {
  ar_ok : node_ok w';
  ar_shape : shape w' = shape w;
  ar_in : m_peerInboundQueue (bw_broker w') = m_peerInboundQueue (bw_broker w);
  ar_sent : zmq_sent (bw_router w') =
    zmq_sent (bw_router w) ++ ((fun id => id :: wire_frames env) <$> ids);
  ar_nodup : NoDup ids;
  ar_clients : forall c, c ∈ ids -> c ∈ dom (m_clients (bw_broker w));
  ar_case :
    (known w (message_uuid (Wire.header env)) /\ ids = [] /\
     m_peers (bw_broker w') = m_peers (bw_broker w) /\
     m_messageIdOrder (bw_broker w') = m_messageIdOrder (bw_broker w)) \/
    (~ known w (message_uuid (Wire.header env)) /\
     m_peers (bw_broker w') = (fun k => (writeMessage env k).1) <$> m_peers (bw_broker w) /\
     (forall u, u ∈ U -> known w' u <-> known w u \/ u = message_uuid (Wire.header env)) /\
     (forall c, c ∈ subs_of (m_subscriptions (bw_broker w)) "" ->
        peer = true \/ c <> snd -> ok c = true -> c ∈ ids))
}.

Lemma kept_fresh order : size U <= MaxHistorySize -> U ## list_to_set order -> kept order.
Proof using Type.
  intros Hs Hd. split; [done|]. intros l1 u l2 -> Hu. exfalso. apply (Hd u); [done|].
  rewrite elem_of_list_to_set, elem_of_app. right. by left.
Qed.

(** What the history forgets was not one of [U]. *)
Lemma kept_remember u order :
  NoDup order -> u ∉ order -> u ∈ U -> kept order ->
  (forall x, x ∈ U -> x ∈ remember u order <-> x ∈ order \/ x = u) /\ kept (remember u order).
Proof using Type.
  clear listens. intros Hn Hu HU [Hs Hr]. set (gone := length order + 1 - MaxHistorySize).
  assert (Hmem : forall x, x ∈ U -> x ∈ remember u order <-> x ∈ order \/ x = u).
  { intros x Hx. unfold remember. fold gone. split.
    - intros K. assert (x ∈ order ++ [u]) as K' by (rewrite <-(take_drop gone (order ++ [u])); apply elem_of_app; by right).
      by rewrite elem_of_app, list_elem_of_singleton in K'.
    - intros [(l1 & l2 & ->)%list_elem_of_split| ->].
      + specialize (Hr l1 x l2 eq_refl Hx).
        assert (0 < size (U ∖ list_to_set (l1 ++ x :: l2))) as Hpos.
        { apply Nat.neq_0_lt_0. intros E%size_empty_inv. apply (not_elem_of_empty (C:=gset string) u), E. by rewrite elem_of_difference, elem_of_list_to_set. }
        rewrite <-(assoc_L (++)), drop_app_le by (unfold gone; rewrite length_app; simpl; lia).
        apply elem_of_app. right. simpl. by left.
      + rewrite drop_app_le by (unfold gone, MaxHistorySize; lia). apply elem_of_app. right. by left. }
  assert (Hleft : size (U ∖ list_to_set order) = Datatypes.S (size (U ∖ list_to_set (remember u order)))).
  { replace (U ∖ list_to_set order) with ({[u]} ∪ (U ∖ list_to_set (remember u order))).
    - rewrite size_union, size_singleton; [done|]. intros x ->%elem_of_singleton.
      rewrite elem_of_difference, elem_of_list_to_set, Hmem by done. tauto.
    - apply set_eq. intros x. rewrite elem_of_union, elem_of_singleton, !elem_of_difference, !elem_of_list_to_set.
      split; [intros [->|[Hx K]]; [done|]|intros [Hx K]; destruct (decide (x = u)) as [->|]; [by left|right]];
        rewrite Hmem in * by done; tauto. }
  split; [done|]. split; [done|]. intros l1 x l2 El Hx.
  assert (Hall : order ++ [u] = take gone (order ++ [u]) ++ l1 ++ x :: l2)
    by (rewrite <-El; unfold remember; fold gone; by rewrite take_drop).
  rewrite (assoc_L (++)) in Hall.
  destruct l2 as [|y l2 _] using rev_ind.
  { simpl. assert (size (U ∖ list_to_set order) <= size U) by (apply subseteq_size, subseteq_difference_l; reflexivity). lia. }
  rewrite app_comm_cons, (assoc_L (++)) in Hall. apply app_inj_tail in Hall as [Ho <-].
  specialize (Hr _ _ _ Ho Hx). rewrite length_app. simpl. lia.
Qed.

(** The broker that has routed a new copy is in order again. *)
Lemma node_ok_fresh env w w' :
  node_ok w -> copy U env -> sockets_ready P Q w' -> broker_inv (bw_broker w') ->
  kept (m_messageIdOrder (bw_broker w')) ->
  m_peers (bw_broker w') = (fun k => (writeMessage env k).1) <$> m_peers (bw_broker w) ->
  m_peerInboundQueue (bw_broker w') = m_peerInboundQueue (bw_broker w) -> node_ok w'.
Proof.
  intros [W1 W2 W3 W4 W5] Hc Hr Hb Hk Ep Ei. split; [done|done|done| |by rewrite Ei].
  intros key k e Hk' He. rewrite Ep, lookup_fmap in Hk'.
  destruct (m_peers (bw_broker w) !! key) as [k0|] eqn:E0; [|done]. injection Hk' as <-.
  destruct (writeMessage_queue env k0) as [Eq|Eq]; rewrite Eq in He; [|by eapply W4].
  apply elem_of_app in He as [He|He%list_elem_of_singleton]; [by eapply W4|by subst].
Qed.

Lemma processed_shape now snd peer b :
  (peer = false -> is_Some (m_clients b !! snd)) ->
  dom (m_clients (seen_sender now snd peer b)) = dom (m_clients b) /\
  m_peers (seen_sender now snd peer b) = m_peers b /\
  m_subscriptions (seen_sender now snd peer b) = m_subscriptions b /\
  m_peerInboundQueue (seen_sender now snd peer b) = m_peerInboundQueue b /\
  m_messageIdOrder (seen_sender now snd peer b) = m_messageIdOrder b.
Proof.
  intros Hs. unfold seen_sender. destruct peer; [done|]. split; [|done]. simpl.
  apply set_eq. intros c. rewrite !elem_of_dom, lookup_insert_is_Some.
  destruct (decide (snd = c)) as [->|]; [|naive_solver]. specialize (Hs eq_refl). naive_solver.
Qed.

Lemma stamped_copy env w : copy U env -> stamped (Wire.header env) w = Wire.header env.
Proof. intros Hc. unfold stamped. rewrite decide_False; [done|apply Hc]. Qed.

Lemma copy_to_route env snd peer b :
  copy U env -> (peer = false -> is_Some (m_clients b !! snd)) -> to_route b (Wire.header env) snd peer.
Proof. intros [] Hs. unfold to_route. destruct peer; auto. Qed.

Lemma node_accepts now h p snd peer w :
  let env := mkEnvelope _ (stamped h w) p in
  node_ok w -> copy U env -> (peer = false -> is_Some (m_clients (bw_broker w) !! snd)) ->
  exists w' ids, processMessage now h p snd peer w = (w', Ok tt) /\
    arrival env snd peer w w' ids.
Proof.
  intros env Hw Hc Hs. set (b := bw_broker w). pose proof (no_inv _ Hw) as Hb.
  destruct (processMessage_exact P ok HP Q HQ now h p snd peer w (no_ready _ Hw)) as (w' & E & Hr & K).
  change (stamped h w) with (Wire.header env) in K. change p with (Wire.payload env) in K.
  destruct (processed_shape now snd peer b Hs) as (S1 & S2 & S3 & S4 & S5).
  pose proof (process_core_inv now (Wire.header env) (Wire.payload env) snd peer b Hb) as Hb'.
  rewrite process_core_route in K, Hb' by (by apply copy_to_route).
  rewrite isDuplicate_spec in K, Hb' by (by apply seen_sender_inv). fold b in K. rewrite S5 in K, Hb'.
  destruct (decide (message_uuid (Wire.header env) ∈ m_messageIdOrder b)) as [D|D].
  - destruct K as (K1 & K2 & _). rewrite filter_nil in K2. exists w', []. split; [done|].
    simpl in Hb'. split; [| | |done|constructor|by intros c ?%elem_of_nil|].
    + destruct Hw as [W1 W2 W3 W4 W5]. split; rewrite ?K1, ?S2, ?S4, ?S5; done.
    + unfold shape. by rewrite K1, S1, S2, S3, S4.
    + by rewrite K1, S4.
    + left. by rewrite K1, S2, S5.
  - rewrite flood_peers_fmap in K. destruct K as (K1 & K2 & _).
    cbn [fst] in Hb'. rewrite flood_peers_fmap in Hb'. rewrite (copy_forwarded _ _ Hc) in K1, Hb'.
    match type of K2 with context [filter _ ?l] => set (ids := filter (fun id => ok id = true) l) in K2 end.
    exists w', ids. split; [done|].
    set (b1 := set_history _ _ _) in *.
    assert (Hi : forall c, c ∈ ids <->
      ok c = true /\ (c ∈ subs_of (m_subscriptions b) (topic (Wire.header env)) \/
        c ∈ subs_of (m_subscriptions b) "") /\ (peer = true \/ c <> snd) /\ c ∈ dom (m_clients b)).
    { intros c. unfold ids. rewrite list_elem_of_filter, elem_of_recipients.
      rewrite <-elem_of_dom. change (m_clients b1) with (m_clients (seen_sender now snd peer b)).
      change (m_subscriptions b1) with (m_subscriptions (seen_sender now snd peer b)). by rewrite S1, S3. }
    assert (Eo : m_messageIdOrder (bw_broker w') = remember (message_uuid (Wire.header env)) (m_messageIdOrder b))
      by (by rewrite K1).
    destruct (kept_remember (message_uuid (Wire.header env)) (m_messageIdOrder b)) as [Hm Hkp];
      [apply Hb|done|apply Hc|apply Hw|]. rewrite <-Eo in Hm, Hkp.
    assert (Ep : m_peers (bw_broker w') = (fun k => (writeMessage env k).1) <$> m_peers b)
      by (rewrite K1; simpl; by rewrite S2).
    assert (Ei : m_peerInboundQueue (bw_broker w') = m_peerInboundQueue b) by (rewrite K1; simpl; done).
    split; [| |done|done| | |].
    + apply (node_ok_fresh env w); try done. by rewrite K1.
    + unfold shape. rewrite Ep, Ei, K1. simpl. rewrite S1, S3, <-map_fmap_compose. f_equal.
      apply map_fmap_ext. intros key k _. apply writeMessage_shape.
    + apply NoDup_filter, NoDup_recipients. simpl. rewrite S3. apply Hb.
    + intros c Hc'%Hi. apply Hc'.
    + right. split_and!; [done..|]. intros c Hc1 Hc2 Hok. apply Hi. split_and!; auto.
      apply elem_of_dom. eapply (bi_subscribers _ Hb). done.
Qed.

Lemma node_arrival now env snd peer w :
  node_ok w -> copy U env -> (peer = false -> is_Some (m_clients (bw_broker w) !! snd)) ->
  exists w' ids, processMessage now (Wire.header env) (Wire.payload env) snd peer w = (w', Ok tt) /\
    arrival env snd peer w w' ids.
Proof.
  intros Hw Hc. pose proof (node_accepts now (Wire.header env) (Wire.payload env) snd peer w Hw) as K.
  rewrite (stamped_copy _ _ Hc) in K. destruct env as [h p]. by apply K.
Qed.

(** ** The measure *)

(** An id a broker has not seen can make it send one message per link and two
    hops' worth per client; a message in transit may still become one in an
    inbound queue. *)
Definition node_weight w : nat :=
  size (U ∖ list_to_set (m_messageIdOrder (bw_broker w))) *
    (size (m_peers (bw_broker w)) + 2 * size (m_clients (bw_broker w))) +
  msum (fun k => length (m_queue (m_outboundQueue k))) (m_peers (bw_broker w)) +
  length (m_queue (m_peerInboundQueue (bw_broker w))).

Definition weight m : nat := msum node_weight (nodes m) + 2 * length (transit m).

Lemma shape_sizes w w' :
  shape w' = shape w ->
  size (m_peers (bw_broker w')) = size (m_peers (bw_broker w)) /\
  size (m_clients (bw_broker w')) = size (m_clients (bw_broker w)).
Proof.
  unfold shape. intros [= _ E1 _ _ E2]. rewrite <-!size_dom, E1. split; [|done].
  apply (f_equal dom) in E2. rewrite !dom_fmap_L in E2. by rewrite E2.
Qed.

Lemma arrival_weight env snd peer w w' ids :
  copy U env -> arrival env snd peer w w' ids -> node_weight w' + 2 * length ids <= node_weight w.
Proof.
  intros Hc [_ Hs Hi _ Hn Hd Hcase]. unfold node_weight. rewrite Hi.
  destruct (shape_sizes _ _ Hs) as [E1 E2]. rewrite E1, E2.
  destruct Hcase as [(_ & -> & -> & ->)|(Hk & Ep & Eo & _)]; [simpl; lia|].
  assert (Hl : length ids <= size (m_clients (bw_broker w))).
  { rewrite <-(size_list_to_set (C:=gset string)), <-size_dom by done.
    apply subseteq_size. intros c. rewrite elem_of_list_to_set. apply Hd. }
  assert (Hm : msum (fun k => length (m_queue (m_outboundQueue k))) (m_peers (bw_broker w')) <=
    msum (fun k => length (m_queue (m_outboundQueue k))) (m_peers (bw_broker w)) +
    size (m_peers (bw_broker w))).
  { rewrite Ep. apply msum_fmap_le. intros k.
    destruct (writeMessage_queue env k) as [->| ->]; rewrite ?length_app; simpl; lia. }
  assert (Hu : size (U ∖ list_to_set (m_messageIdOrder (bw_broker w))) =
    Datatypes.S (size (U ∖ list_to_set (m_messageIdOrder (bw_broker w'))))).
  { set (u := message_uuid (Wire.header env)) in *. assert (Hu : u ∈ U) by apply Hc. unfold known in *.
    replace (U ∖ list_to_set (m_messageIdOrder (bw_broker w))) with
      ({[u]} ∪ (U ∖ list_to_set (m_messageIdOrder (bw_broker w')))).
    - rewrite size_union, size_singleton; [done|]. intros x ->%elem_of_singleton.
      rewrite elem_of_difference, elem_of_list_to_set, Eo by done. tauto.
    - apply set_eq. intros x. rewrite elem_of_union, elem_of_singleton, !elem_of_difference, !elem_of_list_to_set.
      split; [intros [->|[Hx K]]; [done|]|intros [Hx K]; destruct (decide (x = u)) as [->|]; [by left|right]];
        rewrite Eo in * by done; tauto. }
  rewrite Hu. lia.
Qed.

(** ** The whole mesh *)

(** Every link reaches a broker where its identity is a known client. *)
Definition links_known (sh : gmap nat (SubscriptionRegistry * gset string * (bool * Z) *
    gmap string (ConnectionConfig * (bool * Z)))) : Prop :=
  forall i s key c, sh !! i = Some s -> s.2 !! key = Some c ->
    exists j s', listens (address c.1) = Some j /\ sh !! j = Some s' /\ clientId c.1 ∈ s'.1.1.2.

Record mesh_inv m : Prop := {
  mi_links : links_known (mesh_shape m);
  mi_nodes : map_Forall (fun _ w => node_ok w) (nodes m);
  mi_transit : Forall (fun x => exists id env, x.2 = id :: wire_frames env /\ copy U env) (transit m)
}.

Lemma mesh_link m i w key k :
  mesh_inv m -> nodes m !! i = Some w -> m_peers (bw_broker w) !! key = Some k ->
  exists j wj, target k = Some j /\ nodes m !! j = Some wj /\
    is_Some (m_clients (bw_broker wj) !! link_id k).
Proof.
  intros [Hl _ _] Hi Hk.
  destruct (Hl i (shape w) key (link_shape k)) as (j & s' & E1 & E2 & E3).
  - unfold mesh_shape. by rewrite lookup_fmap, Hi.
  - unfold shape; simpl. by rewrite lookup_fmap, Hk.
  - unfold mesh_shape in E2. rewrite lookup_fmap in E2.
    destruct (nodes m !! j) as [wj|] eqn:Ej; [|done]. injection E2 as <-.
    exists j, wj. split_and!; [done|done|]. by apply elem_of_dom.
Qed.

(** Replacing a broker by one of the same shape. *)
Lemma put_shape m i w w' l :
  nodes m !! i = Some w -> shape w' = shape w ->
  mesh_shape (mkMesh (<[i := w']> (nodes m)) l) = mesh_shape m.
Proof.
  intros Hi Hs. unfold mesh_shape; simpl. rewrite fmap_insert, Hs. apply insert_id.
  by rewrite lookup_fmap, Hi.
Qed.

Lemma put_inv m i w w' l :
  mesh_inv m -> nodes m !! i = Some w -> shape w' = shape w -> node_ok w' ->
  Forall (fun x => exists id env, x.2 = id :: wire_frames env /\ copy U env) l ->
  mesh_inv (mkMesh (<[i := w']> (nodes m)) l).
Proof.
  intros [M1 M2 M3] Hi Hs Hw Hl. split; [by rewrite (put_shape m i w)| |done].
  simpl. by apply map_Forall_insert_2.
Qed.

Lemma arrive_step m j now env snd peer w :
  mesh_inv m -> nodes m !! j = Some w -> copy U env ->
  (peer = false -> is_Some (m_clients (bw_broker w) !! snd)) ->
  exists w' ids, arrive j now (Some env) snd peer m =
      mkMesh (<[j := w']> (nodes m)) (transit m ++ ((fun id => (j, id :: wire_frames env)) <$> ids)) /\
    arrival env snd peer w w' ids.
Proof.
  intros Hm Hj Hc Hs. destruct (node_arrival now env snd peer w) as (w' & ids & E & Ha); [|done..|].
  { by apply (mi_nodes _ Hm j). }
  exists w', ids. split; [|done]. unfold arrive. rewrite Hj, E. cbn [fst]. rewrite (ar_sent _ _ _ _ _ _ Ha), drop_app_length.
  by rewrite <-list_fmap_compose.
Qed.

(** A client hands a message to a broker. *)
Lemma inject_step m j now h p snd w :
  let env := mkEnvelope _ (stamped h w) p in
  mesh_inv m -> nodes m !! j = Some w -> copy U env -> is_Some (m_clients (bw_broker w) !! snd) ->
  exists w' ids, arrive j now (Some (mkEnvelope _ h p)) snd false m =
      mkMesh (<[j := w']> (nodes m)) (transit m ++ ((fun id => (j, id :: wire_frames env)) <$> ids)) /\
    arrival env snd false w w' ids.
Proof.
  intros env Hm Hj Hc Hs. destruct (node_accepts now h p snd false w) as (w' & ids & E & Ha); [|done..|].
  { by apply (mi_nodes _ Hm j). }
  exists w', ids. split; [|done]. unfold arrive. rewrite Hj. cbn [Wire.header Wire.payload]. rewrite E. cbn [fst].
  rewrite (ar_sent _ _ _ _ _ _ Ha), drop_app_length. by rewrite <-list_fmap_compose.
Qed.

(** The mesh after a broker processed a copy. *)
Lemma arrival_inv m j env snd peer w w' ids :
  mesh_inv m -> nodes m !! j = Some w -> copy U env -> arrival env snd peer w w' ids ->
  let m' := mkMesh (<[j := w']> (nodes m)) (transit m ++ ((fun id => (j, id :: wire_frames env)) <$> ids)) in
  mesh_inv m' /\ weight m' <= weight m /\ mesh_shape m' = mesh_shape m.
Proof.
  intros Hm Hj Hc Ha m'. subst m'. split_and!.
  - apply (put_inv m j w); [done|done|apply Ha|apply Ha|]. apply Forall_app. split; [apply Hm|].
    apply Forall_fmap, Forall_true. intros id. simpl. eauto.
  - pose proof (arrival_weight _ _ _ _ _ _ Hc Ha) as Hw. unfold weight; simpl.
    pose proof (msum_update node_weight (nodes m) j w w' Hj). rewrite length_app, length_fmap. lia.
  - apply (put_shape m j w); [done|apply Ha].
Qed.

Lemma arrive_inv m j now env snd peer w :
  mesh_inv m -> nodes m !! j = Some w -> copy U env ->
  (peer = false -> is_Some (m_clients (bw_broker w) !! snd)) ->
  let m' := arrive j now (Some env) snd peer m in
  mesh_inv m' /\ weight m' <= weight m /\ mesh_shape m' = mesh_shape m.
Proof.
  intros Hm Hj Hc Hs m'. subst m'.
  destruct (arrive_step m j now env snd peer w) as (w' & ids & -> & Ha); [done..|].
  by apply (arrival_inv m j env snd peer w).
Qed.

(** Taking a copy from a queue, and putting one into the inbound queue. *)
Lemma pop_out w key k q env :
  node_ok w -> m_peers (bw_broker w) !! key = Some k -> try_pop (m_outboundQueue k) = (q, Some env) ->
  let w1 := on_broker (put_link key (set_outboundQueue q k)) w in
  copy U env /\ node_ok w1 /\ shape w1 = shape w /\ node_weight w1 + 1 = node_weight w.
Proof.
  intros [W1 W2 W3 W4 W5] Hk [Eq Ec]%try_pop_spec w1. split_and!.
  - apply (W4 key k); [done|]. rewrite Eq. set_solver.
  - split; [by destruct W1|by eapply broker_inv_owned, W2|done| |done].
    intros key' k' e. unfold w1; simpl. intros [[<- <-]|[_ Hk']]%lookup_insert_Some He; [|by eapply W4].
    simpl in He. apply (W4 key k); [done|]. rewrite Eq. set_solver.
  - unfold shape, w1; simpl. f_equal. rewrite fmap_insert. apply insert_id. rewrite lookup_fmap, Hk.
    unfold link_shape; simpl. by rewrite Ec.
  - unfold node_weight, w1; simpl. rewrite map_size_insert_Some by (by rewrite Hk).
    pose proof (msum_update (fun k => length (m_queue (m_outboundQueue k))) _ key k (set_outboundQueue q k) Hk) as K.
    simpl in K. rewrite Eq in K. simpl in K. lia.
Qed.

Lemma pop_in w q env :
  node_ok w -> try_pop (m_peerInboundQueue (bw_broker w)) = (q, Some env) ->
  let w1 := on_broker (set_peerInboundQueue q) w in
  copy U env /\ node_ok w1 /\ shape w1 = shape w /\ node_weight w1 + 1 = node_weight w.
Proof.
  intros [W1 W2 W3 W4 W5] [Eq Ec]%try_pop_spec w1. split_and!.
  - apply W5. rewrite Eq. set_solver.
  - split; [by destruct W1|by eapply broker_inv_owned, W2|done|done|].
    intros e He. unfold w1 in He; simpl in He. apply W5. rewrite Eq. set_solver.
  - unfold shape, w1; simpl. by rewrite Ec.
  - unfold node_weight, w1; simpl. rewrite Eq. simpl. lia.
Qed.

Lemma link_callback w key k id env k' q :
  node_ok w -> copy U env -> m_peers (bw_broker w) !! key = Some k ->
  peer_link_message id env (k, m_peerInboundQueue (bw_broker w)) = Some (k', q) ->
  let w1 := on_broker (fun b => set_peerInboundQueue q (put_link key k' b)) w in
  k' = k /\ push env (m_peerInboundQueue (bw_broker w)) = Some (q, negb (m_stop q)) /\
  w1 = on_broker (set_peerInboundQueue q) w /\
  node_ok w1 /\ shape w1 = shape w /\ node_weight w1 <= node_weight w + 1.
Proof.
  intros [W1 W2 W3 W4 W5] Hc Hk E w1. unfold peer_link_message in E. rewrite decide_False in E.
  2:{ intros Er. pose proof (cp_peer _ _ Hc) as K. unfold peer_ignored in K.
      rewrite bool_decide_eq_false in K. tauto. }
  destruct (push env _) as [[q0 r]|] eqn:Ep; [|done]. injection E as <- <-.
  assert (Hq : r = negb (m_stop q0) /\ capacity q0 = capacity (m_peerInboundQueue (bw_broker w)) /\
    (m_queue q0 = m_queue (m_peerInboundQueue (bw_broker w)) \/
     m_queue q0 = m_queue (m_peerInboundQueue (bw_broker w)) ++ [env])).
  { unfold push, push_body in Ep. destruct (push_ready _); [|done].
    destruct (m_stop (m_peerInboundQueue (bw_broker w))) eqn:Es; injection Ep as <- <-; simpl;
      unfold capacity; simpl; rewrite ?Es; auto. }
  destruct Hq as (-> & Hcap & Hq).
  assert (E1 : w1 = on_broker (set_peerInboundQueue q0) w).
  { unfold w1, on_broker. f_equal. unfold put_link. rewrite insert_id by done. by rewrite set_peers_same. }
  split_and!; [done|done|done| | |]; rewrite E1.
  - split; [by destruct W1|by eapply broker_inv_owned, W2|done|done|].
    intros e He. simpl in He. destruct Hq as [Eq|Eq]; rewrite Eq in He; [auto|].
    apply elem_of_app in He as [He|He%list_elem_of_singleton]; [auto|by subst].
  - unfold shape; simpl. by rewrite Hcap.
  - unfold node_weight; simpl. destruct Hq as [-> | ->]; rewrite ?length_app; simpl; lia.
Qed.

Lemma put_step m i w w1 :
  mesh_inv m -> nodes m !! i = Some w -> shape w1 = shape w -> node_ok w1 ->
  node_weight w1 < node_weight w ->
  let m1 := put_node i w1 m in
  mesh_inv m1 /\ weight m1 < weight m /\ mesh_shape m1 = mesh_shape m.
Proof.
  intros Hm Hi Hs Hw Hlt m1. split_and!.
  - apply (put_inv m i w); [done..|apply Hm].
  - unfold weight, m1; simpl. pose proof (msum_update node_weight (nodes m) i w w1 Hi). lia.
  - by apply (put_shape m i w).
Qed.

Lemma drop_transit m l1 x l2 :
  mesh_inv m -> transit m = l1 ++ x :: l2 ->
  mesh_inv (mkMesh (nodes m) (l1 ++ l2)) /\ weight (mkMesh (nodes m) (l1 ++ l2)) + 2 = weight m /\
  mesh_shape (mkMesh (nodes m) (l1 ++ l2)) = mesh_shape m.
Proof.
  intros [M1 M2 M3] E. rewrite E in M3. apply Forall_app in M3 as [F1 [_ F2]%Forall_cons].
  split_and!; [|unfold weight; simpl; rewrite E, !length_app; simpl; lia|done].
  split; [done|done|]. by apply Forall_app.
Qed.

(** The three steps on a link. *)
Lemma step_out_inv m i w key k q env j now :
  mesh_inv m -> nodes m !! i = Some w -> m_peers (bw_broker w) !! key = Some k ->
  try_pop (m_outboundQueue k) = (q, Some env) -> target k = Some j ->
  let m' := arrive j now (envelope_of_frames (wire_frames env)) (link_id k) false
    (put_node i (on_broker (put_link key (set_outboundQueue q k)) w) m) in
  mesh_inv m' /\ weight m' < weight m /\ mesh_shape m' = mesh_shape m.
Proof.
  intros Hm Hi Hk Hq Hj m'. subst m'.
  destruct (pop_out w key k q env) as (Hc & Hw & Hs & Hn); [by apply (mi_nodes _ Hm i)|done..|].
  destruct (put_step m i w _ Hm Hi Hs Hw ltac:(lia)) as (P1 & P2 & P3).
  destruct (mesh_link _ i (on_broker (put_link key (set_outboundQueue q k)) w) key (set_outboundQueue q k) P1) as (j' & wj & E1 & E2 & E3);
    [apply lookup_insert_eq|apply lookup_insert_eq|].
  assert (j' = j) as -> by (unfold target in *; simpl in E1; congruence).
  destruct (copy_over_wire U env Hc) as (env' & -> & Hc' & _).
  destruct (arrive_inv _ j now env' (link_id k) false wj P1) as (A1 & A2 & A3); [done..|].
  split_and!; [done|lia|by rewrite A3].
Qed.

Lemma step_back_inv m l1 j id fr l2 i w key k env k' q :
  mesh_inv m -> transit m = l1 ++ (j, id :: fr) :: l2 -> nodes m !! i = Some w ->
  m_peers (bw_broker w) !! key = Some k -> envelope_of_frames fr = Some env ->
  peer_link_message id env (k, m_peerInboundQueue (bw_broker w)) = Some (k', q) ->
  let m' := mkMesh (<[i := on_broker (fun b => set_peerInboundQueue q (put_link key k' b)) w]> (nodes m))
    (l1 ++ l2) in
  copy U env /\ mesh_inv m' /\ weight m' < weight m /\ mesh_shape m' = mesh_shape m.
Proof.
  intros Hm Ht Hi Hk He Hl m'. subst m'.
  destruct (drop_transit m l1 (j, id :: fr) l2 Hm Ht) as (D1 & D2 & D3).
  pose proof (mi_transit _ Hm) as Hx. rewrite Ht in Hx.
  apply Forall_app in Hx as [_ [(id' & e & [= <- ->] & Hce) _]%Forall_cons].
  destruct (copy_over_wire U e Hce) as (e' & E' & Hc' & _).
  assert (e' = env) as -> by congruence.
  destruct (link_callback w key k id env k' q) as (_ & _ & _ & L1 & L2 & L3); [by apply (mi_nodes _ Hm i)|done..|].
  split_and!; [done| | |].
  - apply (put_inv m i w); [done..|]. apply D1.
  - unfold weight in *; simpl in *. pose proof (msum_update node_weight (nodes m) i w
      (on_broker (fun b => set_peerInboundQueue q (put_link key k' b)) w) Hi). lia.
  - by apply (put_shape m i w).
Qed.

Lemma step_inv m m' :
  mesh_inv m -> lossy_step m m' ->
  mesh_inv m' /\ weight m' < weight m /\ mesh_shape m' = mesh_shape m.
Proof.
  intros Hm [Hs|Hs]; revert Hm.
  - destruct Hs as [m i w key k q env j now Hi Hk Hq Hj|m l1 j id fr l2 i w key k env k' q Ht Hi Hk Hj Hid He Hl
      |m i w q env Hi Hq|m l1 j id fr l2 Ht Hn]; intros Hm.
    + by eapply step_out_inv.
    + by eapply step_back_inv.
    + destruct (pop_in w q env) as (Hc & Hw & Hs & Hn); [by apply (mi_nodes _ Hm i)|done..|].
      destruct (put_step m i w _ Hm Hi Hs Hw ltac:(lia)) as (P1 & P2 & P3).
      destruct (arrive_inv _ i 0 env "PEER" true _ P1 (lookup_insert_eq _ _ _) Hc) as (A1 & A2 & A3); [done|].
      split_and!; [done|lia|by rewrite A3].
    + destruct (drop_transit m l1 (j, id :: fr) l2 Hm Ht) as (D1 & D2 & D3). split_and!; [done|lia|done].
  - destruct Hs as [m i w key k q env Hi Hk Hq|m l1 x l2 Ht]; intros Hm.
    + destruct (pop_out w key k q env) as (Hc & Hw & Hs & Hn); [by apply (mi_nodes _ Hm i)|done..|].
      apply (put_step m i w); [done..|lia].
    + destruct (drop_transit m l1 x l2 Hm Ht) as (D1 & D2 & D3). split_and!; [done|lia|done].
Qed.

Lemma run_inv n m m' :
  mesh_inv m -> nsteps lossy_step n m m' ->
  mesh_inv m' /\ n + weight m' <= weight m /\ mesh_shape m' = mesh_shape m.
Proof.
  intros Hm Hn. induction Hn as [m|n m m1 m2 Hs Hn IH]; [done|].
  destruct (step_inv m m1 Hm Hs) as (S1 & S2 & S3).
  destruct (IH S1) as (I1 & I2 & I3). split_and!; [done|lia|congruence].
Qed.

Lemma lossless_inv m m' :
  mesh_inv m -> rtc mesh_step m m' ->
  mesh_inv m' /\ weight m' <= weight m /\ mesh_shape m' = mesh_shape m.
Proof.
  intros Hm [n Hn]%rtc_nsteps. destruct (run_inv n m m' Hm) as (R1 & R2 & R3); [|split_and!; [done|lia|done]].
  clear Hm. induction Hn; econstructor; [by left|done].
Qed.

(** ** Progress *)

(** Nothing is queued for a link, nothing came in over one, nothing is in
    transit. *)
Definition idle m : Prop :=
  map_Forall (fun _ w => m_queue (m_peerInboundQueue (bw_broker w)) = []) (nodes m) /\
  map_Forall (fun _ w => map_Forall (fun _ k => m_queue (m_outboundQueue k) = []) (m_peers (bw_broker w)))
    (nodes m) /\
  transit m = [].

Definition inbound_open (sh : gmap nat (SubscriptionRegistry * gset string * (bool * Z) *
    gmap string (ConnectionConfig * (bool * Z)))) : Prop :=
  map_Forall (fun _ s => 0 < s.1.2.2)%Z sh.

Lemma progress m :
  mesh_inv m -> inbound_open (mesh_shape m) -> idle m \/ exists m', mesh_step m m'.
Proof.
  intros Hm Ho.
  destruct (decide (map_Forall (fun _ w => m_queue (m_peerInboundQueue (bw_broker w)) = []) (nodes m)))
    as [Di|Di].
  2:{ right. apply map_not_Forall in Di as (i & w & Hi & Hne); [|apply _].
      destruct (m_queue (m_peerInboundQueue (bw_broker w))) as [|env l] eqn:E; [done|].
      eexists. eapply step_in; [done|]. unfold try_pop. by rewrite E. }
  destruct (decide (map_Forall (fun _ w => map_Forall (fun _ k => m_queue (m_outboundQueue k) = [])
    (m_peers (bw_broker w))) (nodes m))) as [Dq|Dq].
  2:{ right. apply map_not_Forall in Dq as (i & w & Hi & Hne); [|apply _].
      apply map_not_Forall in Hne as (key & k & Hk & Hne); [|apply _].
      destruct (m_queue (m_outboundQueue k)) as [|env l] eqn:E; [done|].
      destruct (mesh_link _ _ _ _ _ Hm Hi Hk) as (j & wj & Hj & _).
      exists (arrive j 0 (envelope_of_frames (wire_frames env)) (link_id k) false (put_node i (on_broker
        (put_link key (set_outboundQueue (try_pop (m_outboundQueue k)).1 k)) w) m)).
      eapply step_out; [done|done| |done]. unfold try_pop. by rewrite E. }
  destruct (transit m) as [|[j fr] l] eqn:Et; [by left|right].
  pose proof (mi_transit _ Hm) as Hx. rewrite Et in Hx.
  apply Forall_cons in Hx as [(id & env & Ef & Hc) _]. simpl in Ef. subst fr.
  destruct (decide (map_Exists (fun _ w => map_Exists (fun _ k => target k = Some j /\ link_id k = id)
    (m_peers (bw_broker w))) (nodes m))) as [(i & w & Hi & key & k & Hk & Hj & Hid)|Dl].
  2:{ eexists. apply (step_client m [] j id (wire_frames env) l Et).
      intros i w key k Hi Hk Hj Hid. apply Dl. exists i, w. split; [done|]. by exists key, k. }
  destruct (copy_over_wire U env Hc) as (env' & E & Hc' & _).
  destruct (push env' (m_peerInboundQueue (bw_broker w))) as [[q r]|] eqn:Ep.
  - eexists. eapply (step_back m [] j id (wire_frames env) l i w key k env' k q); try done.
    unfold peer_link_message. rewrite decide_False, Ep; [done|].
    intros Er. pose proof (cp_peer _ _ Hc') as K. unfold peer_ignored in K.
    rewrite bool_decide_eq_false in K. tauto.
  - exfalso. unfold push, push_ready in Ep. rewrite (Di i w Hi) in Ep.
    assert (0 < m_maxSize (m_peerInboundQueue (bw_broker w)))%Z as Hmax.
    { specialize (Ho i (shape w)). unfold mesh_shape in Ho. rewrite lookup_fmap, Hi in Ho. by apply Ho. }
    rewrite (proj2 (Z.ltb_lt _ _)) in Ep; [done|]. unfold zlen. simpl. lia.
Qed.

(** A lossless run to the end. *)
Lemma run_to_idle m :
  mesh_inv m -> inbound_open (mesh_shape m) -> exists m', rtc mesh_step m m' /\ idle m'.
Proof.
  remember (weight m) as n eqn:En. revert m En.
  induction n as [n IH] using lt_wf_ind. intros m -> Hm Ho.
  destruct (progress m Hm Ho) as [Hi|[m1 Hs]]; [by exists m|].
  destruct (step_inv m m1 Hm (or_introl Hs)) as (S1 & S2 & S3).
  destruct (IH _ S2 m1 eq_refl S1) as (m2 & R1 & R2); [by rewrite S3|].
  exists m2. split; [|done]. by eapply rtc_l.
Qed.

End node.

(** ** Theorem *)

(** C6. Flooding ends: in a mesh whose links are registered at their brokers and that
    carries copies of a set [U] of at most 10000 messages, every sequence of steps, with
    any losses, is finite with the bound [weight]; a lossless run stops only when every
    queue is empty and nothing is in transit, and such a run exists.  The histories may be
    full, as long as they do not forget one of [U] while others of [U] are to come
    ([kept]; it holds when no broker has seen a message of [U]): a forgotten id
    would be routed again. *)
Theorem mesh_flooding_ends P ok Q U m :
  routing_socket P ok -> accepting Q -> mesh_inv P Q U m -> inbound_open (mesh_shape m) ->
  (forall n m', nsteps lossy_step n m m' -> n <= weight U m) /\
  (forall m', rtc mesh_step m m' -> (forall m'', ~ mesh_step m' m'') -> idle m') /\
  (exists m', rtc mesh_step m m' /\ idle m').
Proof.
  intros HP HQ Hm Ho. split_and!.
  - intros n m' Hn. destruct (run_inv P ok HP Q HQ U _ _ _ Hm Hn) as (_ & ? & _). lia.
  - intros m' Hr Hst. destruct (lossless_inv P ok HP Q HQ U _ _ Hm Hr) as (H1' & _ & H3'). rewrite <-H3' in Ho.
    destruct (progress P Q U m' H1' Ho) as [|[m'' Hs]]; [done|]. by destruct (Hst m'').
  - by eapply run_to_idle.
Qed.

End mesh.
