(* ===== verification/MeshSpread.v ===== *)
(** * A mesh of brokers: every broker gets the message once

    For one message id, [spread] says where its copies are: the two ends of a
    link have both routed the message, or a copy is on its way between them.
    Every step of the mesh keeps it, so when the mesh is idle the brokers that
    are connected agree. *)

From stdpp Require Import relations.
From S2P Require Import Prelude Keys CppString SafeQueue SubscriptionRegistry MessageHeader.
From S2P Require Import Stats Wire Worker Uuid Discovery Broker BrokerFacts BrokerTheorems Mesh.

Lemma elem_of_removed {A} (x y : A) l1 l2 : x ∈ l1 ++ y :: l2 -> x ∈ l1 ++ l2 \/ x = y.
Proof. rewrite !elem_of_app, elem_of_cons. tauto. Qed.

Section spread.
Context `{StatsRuntime} `{!HeaderParser} {G : Type} `{HexGen G} {S : Type} `{ZmqSocket S}
  `{UnorderedOrder}.

Implicit Types b : ZmqBroker.
Implicit Types w : broker_world (G:=G) (S:=S).
Implicit Types k : ZmqWorker.
Implicit Types env : Envelope.
Implicit Types m : mesh (G:=G) (S:=S).

Context (listens : string -> option nat).
Context (P : S -> Prop) (ok : string -> bool) (HP : routing_socket P ok).
Context (Q : S -> Prop) (HQ : accepting Q).
Context (U : gset string) (u : string) (Hu : u ∈ U).

Notation target := (target listens).
Notation mesh_step := (mesh_step listens).
Notation mesh_inv := (mesh_inv listens P Q U).

(** ** The links *)

Record link_at m (i : nat) w (key : string) k (j : nat) wj : Prop := {
  la_node : nodes m !! i = Some w;
  la_link : m_peers (bw_broker w) !! key = Some k;
  la_target : target k = Some j;
  la_end : nodes m !! j = Some wj
}.

(** The links as they are once established: the link's identity holds the
    wildcard subscription, its router can reach it, no two links into a broker
    share an identity, and no queue can fill up. *)
Record wired m : Prop := {
  wd_link : forall i w key k j wj, link_at m i w key k j wj ->
    link_id k ∈ subs_of (m_subscriptions (bw_broker wj)) "" /\ ok (link_id k) = true /\
    m_stop (m_outboundQueue k) = false /\ (Z.of_nat (weight U m) < m_maxSize (m_outboundQueue k))%Z;
  wd_in : forall i w, nodes m !! i = Some w ->
    m_stop (m_peerInboundQueue (bw_broker w)) = false /\
    (Z.of_nat (weight U m) < m_maxSize (m_peerInboundQueue (bw_broker w)))%Z;
  wd_unique : forall i w key k i' w' key' k' j wj,
    link_at m i w key k j wj -> link_at m i' w' key' k' j wj -> link_id k = link_id k' -> i = i'
}.

(** A link of a mesh of the same shape. *)
Lemma link_at_shape m m' i w' key k' j wj' :
  mesh_shape m' = mesh_shape m -> link_at m' i w' key k' j wj' ->
  exists w k wj, link_at m i w key k j wj /\ shape w' = shape w /\ shape wj' = shape wj /\
    link_shape k' = link_shape k.
Proof.
  intros Hs [Hi Hk Hj He].
  assert (Hn : forall a x, nodes m' !! a = Some x -> exists y, nodes m !! a = Some y /\ shape x = shape y).
  { intros a x Hx. apply (f_equal (fun f => f !! a)) in Hs. unfold mesh_shape in Hs.
    rewrite !lookup_fmap, Hx in Hs. destruct (nodes m !! a) as [y|]; [|done]. apply (inj Some) in Hs.
    by exists y. }
  destruct (Hn i w' Hi) as (w & Hw & Ew). destruct (Hn j wj' He) as (wj & Hwj & Ewj).
  assert (exists k, m_peers (bw_broker w) !! key = Some k /\ link_shape k' = link_shape k) as (k & Hk' & Ek).
  { unfold shape in Ew. injection Ew as _ _ _ _ Ew. apply (f_equal (fun f => f !! key)) in Ew.
    rewrite !lookup_fmap, Hk in Ew. destruct (m_peers (bw_broker w) !! key) as [k|]; [|done].
    apply (inj Some) in Ew. by exists k. }
  exists w, k, wj. split_and!; try done. split; try done.
  unfold Mesh.target in *. unfold link_shape in Ek. injection Ek as Ek _ _. by rewrite <-Ek.
Qed.

Lemma wired_shape m m' :
  mesh_shape m' = mesh_shape m -> weight U m' <= weight U m -> wired m -> wired m'.
Proof.
  intros Hs Hw [W1 W2 W3]. split.
  - intros i w' key k' j wj' Hl. destruct (link_at_shape _ _ _ _ _ _ _ _ Hs Hl) as (w & k & wj & Hl0 & E1 & E2 & E3).
    destruct (W1 _ _ _ _ _ _ Hl0) as (K1 & K2 & K3 & K4).
    unfold shape in E2. injection E2 as E2 _ _ _ _. unfold link_shape, capacity in E3.
    injection E3 as E3 E4 E5. unfold link_id in *. rewrite E2, E3, E4, E5. split_and!; [done..|lia].
  - intros i w' Hi. apply (f_equal (fun f => f !! i)) in Hs. unfold mesh_shape in Hs.
    rewrite !lookup_fmap, Hi in Hs. destruct (nodes m !! i) as [w|] eqn:Ei; [|done].
    destruct (W2 i w Ei). unfold shape, capacity in Hs. injection Hs as _ _ E1 E2 _.
    rewrite E1, E2. split; [done|lia].
  - intros i w key k i' w' key' k' j wj Hl Hl' Hid.
    destruct (link_at_shape _ _ _ _ _ _ _ _ Hs Hl) as (w0 & k0 & wj0 & L1 & _ & _ & E1).
    destruct (link_at_shape _ _ _ _ _ _ _ _ Hs Hl') as (w1 & k1 & wj1 & L2 & _ & _ & E2).
    assert (wj1 = wj0) as -> by (destruct L1, L2; congruence).
    eapply (W3 i w0 key k0 i' w1 key' k1); [done|done|]. unfold link_id, link_shape in *. congruence.
Qed.

(** ** Where the copies are *)

Definition carries (l : list Envelope) : Prop := exists env, env ∈ l /\ message_uuid (Wire.header env) = u.

Definition in_transit m (j : nat) (id : string) : Prop :=
  exists env, (j, id :: wire_frames env) ∈ transit m /\ copy U env /\ message_uuid (Wire.header env) = u.

(** [hole] is a broker that is about to process a copy. *)
Record spread (hole : option nat) m : Prop := {
  sp_fwd : forall i w key k j wj, link_at m i w key k j wj -> known w u ->
    known wj u \/ carries (m_queue (m_outboundQueue k)) \/ hole = Some j;
  sp_back : forall i w key k j wj, link_at m i w key k j wj -> known wj u ->
    known w u \/ in_transit m j (link_id k) \/
    carries (m_queue (m_peerInboundQueue (bw_broker w))) \/ hole = Some i;
  sp_src : forall i w key k j wj, link_at m i w key k j wj ->
    carries (m_queue (m_outboundQueue k)) -> known w u
}.

(** ** Processing a copy *)

Lemma writeMessage_room env k :
  m_stop (m_outboundQueue k) = false ->
  (zlen (m_queue (m_outboundQueue k)) < m_maxSize (m_outboundQueue k))%Z ->
  m_queue (m_outboundQueue (writeMessage env k).1) = m_queue (m_outboundQueue k) ++ [env].
Proof.
  intros Hs Hl. unfold writeMessage, push_for, push_ready, push_body.
  rewrite (proj2 (Z.ltb_lt _ _) Hl), Hs. done.
Qed.

(** Queues are shorter than the weight. *)
Lemma outbound_le_weight m i w key k :
  nodes m !! i = Some w -> m_peers (bw_broker w) !! key = Some k ->
  length (m_queue (m_outboundQueue k)) <= weight U m.
Proof.
  intros Hi Hk. unfold weight. pose proof (msum_lookup (node_weight U) _ _ _ Hi) as K1.
  pose proof (msum_lookup (fun k => length (m_queue (m_outboundQueue k))) _ _ _ Hk) as K2.
  unfold node_weight in K1 at 1. simpl in K2. lia.
Qed.

Lemma inbound_le_weight m i w :
  nodes m !! i = Some w -> length (m_queue (m_peerInboundQueue (bw_broker w))) <= weight U m.
Proof.
  intros Hi. unfold weight. pose proof (msum_lookup (node_weight U) _ _ _ Hi) as K1.
  unfold node_weight in K1 at 1. lia.
Qed.

(** How a broker that processed a copy relates to the one before. *)
Lemma arrival_known env snd peer w w' ids :
  arrival P ok Q U env snd peer w w' ids ->
  (known w' u <-> known w u \/ message_uuid (Wire.header env) = u).
Proof using Hu.
  intros [_ _ _ _ _ _ [(K1 & _ & _ & E)|(K1 & _ & E & _)]].
  - unfold known in *. rewrite E. split; [auto|]. intros [|<-]; done.
  - rewrite E by done. split; (intros [K|K]; [by left|by right]).
Qed.

Lemma arrival_link env snd peer w w' ids key k' :
  arrival P ok Q U env snd peer w w' ids -> m_peers (bw_broker w') !! key = Some k' ->
  exists k, m_peers (bw_broker w) !! key = Some k /\ m_config k' = m_config k /\
    (k' = k /\ known w (message_uuid (Wire.header env)) \/
     k' = (writeMessage env k).1 /\ ~ known w (message_uuid (Wire.header env))).
Proof.
  intros [_ _ _ _ _ _ [(K1 & _ & E & _)|(K1 & E & _)]] Hk; rewrite E in Hk.
  - exists k'. auto.
  - rewrite lookup_fmap in Hk. destruct (m_peers (bw_broker w) !! key) as [k|]; [|done].
    injection Hk as <-. exists k. split_and!; [done| |auto].
    pose proof (writeMessage_shape env k) as K. unfold link_shape in K. congruence.
Qed.

Section arrive.
Context (m : mesh (G:=G) (S:=S)) (j : nat) (env : Envelope) (snd : string) (peer : bool).
Context (w w' : broker_world (G:=G) (S:=S)) (ids : list string).
Context (Hm : mesh_inv m) (Hw : wired m) (Hj : nodes m !! j = Some w) (Hc : copy U env).
Context (Ha : arrival P ok Q U env snd peer w w' ids).

Let m' : mesh (G:=G) (S:=S) :=
  mkMesh (<[j := w']> (nodes m)) (transit m ++ ((fun id => (j, id :: wire_frames env)) <$> ids)).

Lemma node_back a x' :
  nodes m' !! a = Some x' ->
  exists x, nodes m !! a = Some x /\ m_peerInboundQueue (bw_broker x') = m_peerInboundQueue (bw_broker x) /\
    (known x u -> known x' u) /\
    (known x' u -> known x u \/ (a = j /\ message_uuid (Wire.header env) = u /\ ~ known w u)).
Proof.
  change (nodes m' !! a) with (<[j := w']> (nodes m) !! a).
  intros [[<- <-]|[Hne Hx]]%lookup_insert_Some.
  - exists w. split_and!; [done|apply Ha| |]; rewrite (arrival_known _ _ _ _ _ _ Ha); [auto|].
    destruct (decide (u ∈ m_messageIdOrder (bw_broker w))); [auto|]. intros [|]; auto.
  - exists x'. auto.
Qed.

Lemma link_back i x' key k' t y' :
  link_at m' i x' key k' t y' ->
  exists x k y, link_at m i x key k t y /\ link_id k' = link_id k /\
    (carries (m_queue (m_outboundQueue k)) -> carries (m_queue (m_outboundQueue k'))) /\
    (carries (m_queue (m_outboundQueue k')) -> carries (m_queue (m_outboundQueue k)) \/ known x' u) /\
    (i = j -> message_uuid (Wire.header env) = u -> ~ known w u -> carries (m_queue (m_outboundQueue k'))).
Proof.
  intros [Hi Hk Ht Hy]. destruct (node_back t y' Hy) as (y & Hy0 & _).
  change (nodes m' !! i) with (<[j := w']> (nodes m) !! i) in Hi.
  apply lookup_insert_Some in Hi as [[<- <-]|[Hne Hx]].
  2:{ exists x', k', y. split_and!; try done; auto. }
  destruct (arrival_link _ _ _ _ _ _ _ _ Ha Hk) as (k & Hk0 & Ecfg & Hq).
  assert (Ht0 : target k = Some t) by (unfold Mesh.target in *; by rewrite <-Ecfg).
  assert (Hl : link_at m j w key k t y) by done.
  destruct (wd_link _ Hw _ _ _ _ _ _ Hl) as (_ & _ & R1 & R2).
  pose proof (outbound_le_weight m j w key k Hj Hk0) as R3.
  exists w, k, y. split; [done|]. unfold link_id. rewrite Ecfg. split; [done|].
  destruct Hq as [(-> & Hkn)|(-> & Hkn)].
  { split_and!; [auto|auto|]. intros _ <- Hn. done. }
  rewrite writeMessage_room by (done || (unfold zlen; lia)). split_and!.
  - intros (e & He & Eu). exists e. split; [set_solver|done].
  - intros (e & [He|He%list_elem_of_singleton]%elem_of_app & Eu); [left; by exists e|].
    right. apply (arrival_known _ _ _ _ _ _ Ha). subst e. auto.
  - intros _ Eu _. exists env. split; [set_solver|done].
Qed.

Lemma in_transit_mono t id : in_transit m t id -> in_transit m' t id.
Proof. intros (e & He & K). exists e. split; [|done]. unfold m'; simpl. set_solver. Qed.

(** A broker that routes the message sends it to the links into it. *)
Lemma routed_to_link i x key k :
  link_at m i x key k j w -> message_uuid (Wire.header env) = u -> ~ known w u ->
  peer = true \/ link_id k <> snd -> in_transit m' j (link_id k).
Proof.
  intros Hl Eu Hn Hs. destruct (wd_link _ Hw _ _ _ _ _ _ Hl) as (R1 & R2 & _).
  pose proof (ar_case _ _ _ _ _ _ _ _ _ _ Ha) as Hcase. rewrite Eu in Hcase.
  destruct Hcase as [(K & _)|(_ & _ & _ & Hids)]; [done|].
  exists env. split_and!; [|done|done]. unfold m'; simpl. apply elem_of_app. right.
  apply list_elem_of_fmap. exists (link_id k). split; [done|]. by apply Hids.
Qed.

Lemma spread_arrival hole :
  spread hole m -> (hole = None \/ hole = Some j /\ message_uuid (Wire.header env) = u) ->
  (message_uuid (Wire.header env) = u -> peer = false ->
     forall i x key k, link_at m i x key k j w -> link_id k = snd -> known x u) ->
  spread None m'.
Proof.
  intros [F B Sr] Hh Hsnd.
  assert (Hfill : forall a x', nodes m' !! a = Some x' -> hole = Some a -> known x' u).
  { intros a x' Hx' Ea. destruct Hh as [->|(-> & Eu)]; [done|]. injection Ea as <-.
    change (nodes m' !! j) with (<[j := w']> (nodes m) !! j) in Hx'. rewrite lookup_insert_eq in Hx'.
    injection Hx' as <-. apply (arrival_known _ _ _ _ _ _ Ha). auto. }
  split; intros i x' key k' t y' Hl;
    destruct (link_back _ _ _ _ _ _ Hl) as (x & k & y & Hl0 & Eid & Q1 & Q2 & Q3);
    destruct (node_back _ _ (la_node _ _ _ _ _ _ _ Hl)) as (x0 & Hx0 & Ei & M1 & M2);
    destruct (node_back _ _ (la_end _ _ _ _ _ _ _ Hl)) as (y0 & Hy0 & _ & N1 & N2);
    assert (x0 = x) as -> by (destruct Hl0; congruence);
    assert (y0 = y) as -> by (destruct Hl0; congruence).
  - intros [Hx|(-> & Eu & Hn)]%M2; [|right; left; auto].
    destruct (F _ _ _ _ _ _ Hl0 Hx) as [|[|Hole]]; [auto|auto|].
    left. eapply Hfill; [apply Hl|done].
  - intros [Hy|(-> & Eu & Hn)]%N2.
    + destruct (B _ _ _ _ _ _ Hl0 Hy) as [|[Ht|[Hi|Hole]]]; rewrite ?Eid, ?Ei;
        auto using in_transit_mono. left. eapply Hfill; [apply Hl|done].
    + assert (y = w) as -> by congruence. rewrite Eid.
      destruct (decide (peer = true \/ link_id k <> snd)) as [D|D].
      * right; left. by eapply routed_to_link.
      * left. apply M1. destruct peer; [tauto|].
        eapply (Hsnd Eu eq_refl); [done|]. destruct (decide (link_id k = snd)); tauto.
  - intros [Hk|]%Q2; [|done]. eapply M1, Sr; done.
Qed.

End arrive.

(** ** Moving a copy *)

(** A step on one broker's queues: what it knows stays, its links stay, and a
    copy that leaves a queue is accounted for. *)
Lemma spread_move hole m i w w1 l :
  spread None m -> nodes m !! i = Some w ->
  m_messageIdOrder (bw_broker w1) = m_messageIdOrder (bw_broker w) ->
  (forall key k1, m_peers (bw_broker w1) !! key = Some k1 ->
     exists k, m_peers (bw_broker w) !! key = Some k /\ m_config k1 = m_config k /\
       (carries (m_queue (m_outboundQueue k1)) -> carries (m_queue (m_outboundQueue k))) /\
       (carries (m_queue (m_outboundQueue k)) ->
          carries (m_queue (m_outboundQueue k1)) \/ hole = target k)) ->
  (carries (m_queue (m_peerInboundQueue (bw_broker w))) ->
     carries (m_queue (m_peerInboundQueue (bw_broker w1))) \/ hole = Some i) ->
  (forall i' x key k j y, link_at m i' x key k j y -> in_transit m j (link_id k) ->
     in_transit (mkMesh (<[i := w1]> (nodes m)) l) j (link_id k) \/
     (i' = i /\ carries (m_queue (m_peerInboundQueue (bw_broker w1))))) ->
  spread hole (mkMesh (<[i := w1]> (nodes m)) l).
Proof.
  intros [F B Sr] Hi Ho Hk Hin Htr. set (m' := mkMesh _ _).
  assert (Hn : forall a x', nodes m' !! a = Some x' -> exists x, nodes m !! a = Some x /\
    (known x' u <-> known x u) /\ (a = i /\ x = w /\ x' = w1 \/ x' = x /\ a <> i)).
  { intros a x'. change (nodes m' !! a) with (<[i := w1]> (nodes m) !! a).
    intros [[<- <-]|[Hne Hx]]%lookup_insert_Some; [exists w|exists x']; split_and!; auto.
    unfold known. by rewrite Ho. }
  assert (Hl : forall a x' key k' t y', link_at m' a x' key k' t y' -> exists x k y,
    link_at m a x key k t y /\ link_id k' = link_id k /\ (known x' u <-> known x u) /\
    (known y' u <-> known y u) /\
    (carries (m_queue (m_outboundQueue k')) -> carries (m_queue (m_outboundQueue k))) /\
    (carries (m_queue (m_outboundQueue k)) -> carries (m_queue (m_outboundQueue k')) \/ hole = Some t) /\
    (carries (m_queue (m_peerInboundQueue (bw_broker x))) ->
       carries (m_queue (m_peerInboundQueue (bw_broker x'))) \/ hole = Some a)).
  { intros a x' key k' t y' [L1 L2 L3 L4].
    destruct (Hn a x' L1) as (x & Hx & Kx & Cx). destruct (Hn t y' L4) as (y & Hy & Ky & _).
    destruct Cx as [(-> & -> & ->)|(-> & Hne)].
    - destruct (Hk key k' L2) as (k & Hk0 & Ec & C1 & C2). unfold Mesh.target, link_id in *. rewrite Ec in L3 |- *.
      exists w, k, y. rewrite <-L3. split_and!; auto. split; auto.
    - exists x, k', y. split_and!; auto. split; auto. }
  split; intros a x' key k' t y' L; destruct (Hl _ _ _ _ _ _ L) as (x & k & y & L0 & Eid & Kx & Ky & C1 & C2 & C3).
  - rewrite Kx, Ky. intros Hx. destruct (F _ _ _ _ _ _ L0 Hx) as [|[|]]; naive_solver.
  - rewrite Kx, Ky, Eid. intros Hy. destruct (B _ _ _ _ _ _ L0 Hy) as [|[Ht|[|]]]; [auto| |naive_solver|done].
    destruct (Htr _ _ _ _ _ _ L0 Ht) as [|(-> & ?)]; [auto|].
    destruct (Hn i x' (la_node _ _ _ _ _ _ _ L)) as (? & _ & _ & [(_ & _ & ->)|(_ & ?)]); [auto|done].
  - rewrite Kx. intros Hc%C1. by eapply Sr.
Qed.

Lemma carries_cons env l : carries (env :: l) <-> message_uuid (Wire.header env) = u \/ carries l.
Proof.
  split.
  - intros (e & [->|He]%elem_of_cons & Eu); [auto|]. right. by exists e.
  - intros [Eu|(e & He & Eu)]; [exists env|exists e]; split; try done; set_solver.
Qed.

(** The hole a popped copy leaves. *)
Definition hole_of env (j : nat) : option nat :=
  if decide (message_uuid (Wire.header env) = u) then Some j else None.

Lemma hole_of_ok env env' j :
  message_uuid (Wire.header env') = message_uuid (Wire.header env) ->
  hole_of env j = None \/ hole_of env j = Some j /\ message_uuid (Wire.header env') = u.
Proof. intros ->. unfold hole_of. case_decide; auto. Qed.

Lemma spread_pop_out m i w key k q env j :
  spread None m -> nodes m !! i = Some w -> m_peers (bw_broker w) !! key = Some k ->
  try_pop (m_outboundQueue k) = (q, Some env) -> target k = Some j ->
  spread (hole_of env j) (put_node i (on_broker (put_link key (set_outboundQueue q k)) w) m).
Proof.
  intros Hs Hi Hk [Eq _]%try_pop_spec Hj. apply (spread_move _ m i w); [done..| | |].
  - intros key' k1. simpl. intros [[<- <-]|[Hne Hk1]]%lookup_insert_Some.
    + exists k. rewrite Eq, carries_cons. simpl. split_and!; [done|done|auto|].
      unfold hole_of. rewrite Hj. intros [|]; [rewrite decide_True by done|]; auto.
    + exists k1. auto.
  - simpl. auto.
  - intros i' x key' k' t y _ (e & He). left. by exists e.
Qed.

Lemma spread_pop_in m i w q env :
  spread None m -> nodes m !! i = Some w -> try_pop (m_peerInboundQueue (bw_broker w)) = (q, Some env) ->
  spread (hole_of env i) (put_node i (on_broker (set_peerInboundQueue q) w) m).
Proof.
  intros Hs Hi [Eq _]%try_pop_spec. apply (spread_move _ m i w); [done..| | |].
  - intros key k1 Hk. exists k1. auto.
  - rewrite Eq, carries_cons. simpl. unfold hole_of. intros [|]; [rewrite decide_True by done|]; auto.
  - intros i' x key' k' t y _ (e & He). left. by exists e.
Qed.

(** ** Every step *)

Lemma step_out_spread m i w key k q env j now :
  mesh_inv m -> wired m -> spread None m -> nodes m !! i = Some w ->
  m_peers (bw_broker w) !! key = Some k -> try_pop (m_outboundQueue k) = (q, Some env) ->
  target k = Some j ->
  spread None (arrive j now (envelope_of_frames (wire_frames env)) (link_id k) false
    (put_node i (on_broker (put_link key (set_outboundQueue q k)) w) m)).
Proof.
  intros Hm Hw Hs Hi Hk Hq Hj.
  destruct (pop_out listens P ok HP Q HQ U w key k q env) as (Hc & Hn & Hsh & Hlt); [by apply (mi_nodes _ _ _ _ _ Hm i)|done..|].
  destruct (put_step listens P Q U m i w _ Hm Hi Hsh Hn ltac:(lia)) as (P1 & P2 & P3).
  pose proof (wired_shape _ _ P3 ltac:(lia) Hw) as W1.
  pose proof (spread_pop_out _ _ _ _ _ _ _ _ Hs Hi Hk Hq Hj) as S1.
  set (w1 := on_broker (put_link key (set_outboundQueue q k)) w) in *. set (m1 := put_node i w1 m) in *.
  assert (Hk1 : m_peers (bw_broker w1) !! key = Some (set_outboundQueue q k)) by apply lookup_insert_eq.
  assert (Hi1 : nodes m1 !! i = Some w1) by apply lookup_insert_eq.
  destruct (mesh_link listens P Q U m1 i w1 key (set_outboundQueue q k) P1 Hi1 Hk1) as (j' & wj & E1 & E2 & E3).
  assert (j' = j) as -> by (unfold Mesh.target in *; simpl in E1; congruence).
  destruct (copy_over_wire U env Hc) as (env' & -> & Hc' & Eu & _).
  destruct (arrive_step listens P ok HP Q HQ U m1 j now env' (link_id k) false wj) as (w' & ids & -> & Ha); [done..|].
  apply (spread_arrival m1 j env' (link_id k) false wj w' ids P1 W1 E2 Hc' Ha (hole_of env j) S1);
    [by apply hole_of_ok|].
  intros Eu' _ i' x key' k' Hl Hid.
  assert (i = i') as <-.
  { eapply (wd_unique _ W1 i w1 key (set_outboundQueue q k) i'); [split; done|exact Hl|done]. }
  assert (x = w1) as -> by (destruct Hl; congruence).
  destruct (mesh_link listens P Q U m i w key k Hm Hi Hk) as (j'' & wj'' & F1 & F2 & _).
  change (known w u). eapply (sp_src _ _ Hs i w key k j'' wj''); [done|].
  apply try_pop_spec in Hq as [-> _]. apply carries_cons. left. congruence.
Qed.

Lemma step_back_spread m l1 j id fr l2 i w key k env k' q :
  mesh_inv m -> wired m -> spread None m -> transit m = l1 ++ (j, id :: fr) :: l2 ->
  nodes m !! i = Some w -> m_peers (bw_broker w) !! key = Some k -> target k = Some j ->
  link_id k = id -> envelope_of_frames fr = Some env ->
  peer_link_message id env (k, m_peerInboundQueue (bw_broker w)) = Some (k', q) ->
  spread None (mkMesh (<[i := on_broker (fun b => set_peerInboundQueue q (put_link key k' b)) w]> (nodes m))
    (l1 ++ l2)).
Proof.
  intros Hm Hw Hs Ht Hi Hk Hj Hid He Hl.
  destruct (step_back_inv listens P Q U m l1 j id fr l2 i w key k env k' q) as (Hc & _); [done..|].
  destruct (link_callback listens P Q U w key k id env k' q) as (_ & Ep & E & _); [by apply (mi_nodes _ _ _ _ _ Hm i)|done..|].
  rewrite E. destruct (wd_in _ Hw i w Hi) as [Hst _].
  assert (Hq : m_queue q = m_queue (m_peerInboundQueue (bw_broker w)) ++ [env]).
  { unfold push, push_body in Ep. destruct (push_ready _); [|done]. rewrite Hst in Ep. by injection Ep as <- _. }
  apply (spread_move _ m i w); [done..| | |].
  - intros key' k1 Hk1. exists k1. auto.
  - simpl. rewrite Hq. intros (e & Hin & Eu). left. exists e. split; [set_solver|done].
  - intros i' x key' k1 t y Hlk (e & Hin & Hce & Eu). rewrite Ht in Hin.
    apply elem_of_removed in Hin as [Hin'|[= -> Eid Efr]].
    + left. by exists e.
    + right. split.
      * eapply (wd_unique _ Hw i' x key' k1 i w key k j y); [done| |congruence].
        split; try done. apply Hlk.
      * destruct (copy_over_wire U e Hce) as (e' & Ee & _ & Eu' & _).
        exists env. simpl. rewrite Hq. split; [set_solver|]. congruence.
Qed.

Lemma step_spread m m' :
  mesh_inv m -> wired m -> spread None m -> mesh_step m m' -> spread None m'.
Proof.
  intros Hm Hw Hs Hst. revert Hm Hw Hs.
  destruct Hst as [m i w key k q env j now Hi Hk Hq Hj|m l1 j id fr l2 i w key k env k' q Ht Hi Hk Hj Hid He Hl
    |m i w q env Hi Hq|m l1 j id fr l2 Ht Hn]; intros Hm Hw Hs.
  - by eapply step_out_spread.
  - by eapply step_back_spread.
  - destruct (pop_in P ok HP Q HQ U w q env) as (Hc & Hn & Hsh & Hlt); [by apply (mi_nodes _ _ _ _ _ Hm i)|done..|].
    destruct (put_step listens P Q U m i w _ Hm Hi Hsh Hn ltac:(lia)) as (P1 & P2 & P3).
    pose proof (wired_shape _ _ P3 ltac:(lia) Hw) as W1.
    destruct (arrive_step listens P ok HP Q HQ U _ i 0 env "PEER" true _ P1 (lookup_insert_eq _ _ _) Hc)
      as (w' & ids & E & Ha); [done|]. rewrite E.
    eapply (spread_arrival _ i env "PEER" true _ w' ids P1 W1 (lookup_insert_eq _ _ _) Hc Ha (hole_of env i));
      [by eapply spread_pop_in|by apply hole_of_ok|done].
  - destruct Hs as [F B Sr]. split; intros a x key k t y [L1 L2 L3 L4];
      (assert (Hl : link_at m a x key k t y) by done); [by eapply F| |by eapply Sr].
    intros Hy. destruct (B _ _ _ _ _ _ Hl Hy) as [|[(e & He & Hce & Eu)|[|]]]; [auto| |auto|auto].
    right; left. exists e. split; [|done]. simpl. rewrite Ht in He.
    apply elem_of_removed in He as [Hin|[= -> Eid Efr]]; [done|].
    by destruct (Hn a x key k L1 L2 L3).
Qed.

(** ** What the routers send *)

Definition sent_copy (frames : list string) (id : string) : Prop :=
  exists env, frames = id :: wire_frames env /\ copy U env /\ message_uuid (Wire.header env) = u.

Lemma wire_frames_uuid env env' :
  copy U env -> copy U env' -> wire_frames env = wire_frames env' ->
  message_uuid (Wire.header env) = message_uuid (Wire.header env').
Proof.
  intros Hc Hc' E. destruct (copy_over_wire U env Hc) as (e & E1 & _ & E2 & _).
  destruct (copy_over_wire U env' Hc') as (e' & E1' & _ & E2' & _). congruence.
Qed.

(** A property of a broker that depends on its history and its router only and
    survives processing a copy holds after every step. *)
Lemma step_invariant (I : nat -> broker_world (G:=G) (S:=S) -> Prop) m m' :
  mesh_inv m -> map_Forall I (nodes m) ->
  (forall j x x1, I j x -> bw_router x1 = bw_router x ->
     m_messageIdOrder (bw_broker x1) = m_messageIdOrder (bw_broker x) -> I j x1) ->
  (forall j x x' env snd peer ids, I j x -> copy U env -> arrival P ok Q U env snd peer x x' ids -> I j x') ->
  lossy_step listens m m' -> map_Forall I (nodes m').
Proof.
  intros Hm HI Hq Ha [Hs|Hs]; revert Hm HI.
  - destruct Hs as [m i w key k q env j now Hi Hk Hp Hj|m l1 j id fr l2 i w key k env k' q Ht Hi Hk Hj Hid He Hl
      |m i w q env Hi Hp|m l1 j id fr l2 Ht Hn]; intros Hm HI; [| | |exact HI].
    + destruct (pop_out listens P ok HP Q HQ U w key k q env) as (Hc & Hn & Hsh & Hlt);
        [by apply (mi_nodes _ _ _ _ _ Hm i)|done..|].
      destruct (put_step listens P Q U m i w _ Hm Hi Hsh Hn ltac:(lia)) as (P1 & P2 & P3).
      destruct (mesh_link listens P Q U _ i _ key (set_outboundQueue q k) P1 (lookup_insert_eq _ _ _)
        (lookup_insert_eq _ _ _)) as (j' & wj & E1 & E2 & E3).
      assert (j' = j) as -> by (unfold Mesh.target in *; simpl in E1; congruence).
      destruct (copy_over_wire U env Hc) as (env' & -> & Hc' & _).
      destruct (arrive_step listens P ok HP Q HQ U _ j now env' (link_id k) false wj P1)
        as (w' & ids & -> & Har); [done..|].
      assert (HI1 : map_Forall I (nodes (put_node i (on_broker (put_link key (set_outboundQueue q k)) w) m)))
        by (apply map_Forall_insert_2; [eapply Hq; [by apply HI|done..]|done]).
      apply map_Forall_insert_2; [|exact HI1]. eapply Ha; [by apply HI1|done..].
    + apply map_Forall_insert_2; [|done]. by eapply Hq; [by apply HI|..].
    + destruct (pop_in P ok HP Q HQ U w q env) as (Hc & Hn & Hsh & Hlt); [by apply (mi_nodes _ _ _ _ _ Hm i)|done..|].
      destruct (put_step listens P Q U m i w _ Hm Hi Hsh Hn ltac:(lia)) as (P1 & P2 & P3).
      destruct (arrive_step listens P ok HP Q HQ U _ i 0 env "PEER" true _ P1 (lookup_insert_eq _ _ _) Hc)
        as (w' & ids & E & Har); [done|]. rewrite E. simpl. rewrite insert_insert_eq.
      apply map_Forall_insert_2; [|done]. eapply Ha; [|done..]. eapply Hq; [by apply HI|done..].
  - destruct Hs as [m i w key k q env Hi Hk Hp|m l1 x l2 Ht]; intros Hm HI; [|exact HI].
    apply map_Forall_insert_2; [|done]. by eapply Hq; [by apply HI|..].
Qed.

Lemma known_step m m' j x x' :
  mesh_inv m -> lossy_step listens m m' -> nodes m !! j = Some x -> nodes m' !! j = Some x' ->
  known x u -> known x' u.
Proof.
  intros Hm Hs Hx Hx' Hk.
  refine (step_invariant (fun j' y => j' = j -> known y u) m m' Hm _ _ _ Hs j x' Hx' eq_refl).
  - intros j' y Hy ->. congruence.
  - intros j' y y1 K _ E. unfold known. by rewrite E.
  - intros j' y y' env snd peer ids K Hc Ha Ej. apply (arrival_known _ _ _ _ _ _ Ha). auto.
Qed.

(** Since [m0] broker [j] has not sent an identity the message twice, and it
    knows it if it has sent it. *)
Definition sent_once m0 (j : nat) (x : broker_world (G:=G) (S:=S)) : Prop :=
  exists x0 sent, nodes m0 !! j = Some x0 /\
    zmq_sent (bw_router x) = zmq_sent (bw_router x0) ++ sent /\
    (forall a fr id, sent !! a = Some fr -> sent_copy fr id -> known x u) /\
    (forall a a' fr fr' id, sent !! a = Some fr -> sent !! a' = Some fr' ->
       sent_copy fr id -> sent_copy fr' id -> a = a').

Lemma sent_once_arrival m0 j env snd peer w w' ids :
  sent_once m0 j w -> copy U env -> arrival P ok Q U env snd peer w w' ids -> sent_once m0 j w'.
Proof.
  intros (x0 & sent & E0 & Es & K1 & K2) Hc Ha.
  pose proof (arrival_known _ _ _ _ _ _ Ha) as Hk.
  exists x0, (sent ++ ((fun id => id :: wire_frames env) <$> ids)).
  assert (Hnew : forall a fr id, ((fun id => id :: wire_frames env) <$> ids) !! a = Some fr ->
    sent_copy fr id -> ids !! a = Some id /\ message_uuid (Wire.header env) = u /\ ~ known w u).
  { intros a fr id. rewrite list_lookup_fmap. destruct (ids !! a) as [id0|] eqn:Ea; [|done].
    intros [= <-] (e & Ef0 & Hce & Eu).
    assert (id0 = id /\ wire_frames env = wire_frames e) as [-> Ef]
      by (split; [exact (f_equal (hd "") Ef0)|exact (f_equal tail Ef0)]). pose proof (wire_frames_uuid _ _ Hc Hce Ef) as Ee.
    split_and!; [done|congruence|]. rewrite <-Eu, <-Ee.
    destruct (ar_case _ _ _ _ _ _ _ _ _ _ Ha) as [(_ & -> & _)|(? & _)]; done. }
  split_and!; [done|by rewrite (ar_sent _ _ _ _ _ _ _ _ _ _ Ha), Es, app_assoc| |].
  - intros a fr id Hl Hs. rewrite Hk.
    apply lookup_app_Some in Hl as [Hl|[_ Hl]]; [left; by eapply K1|right; by eapply Hnew].
  - intros a a' fr fr' id Hl Hl' Hs Hs'.
    apply lookup_app_Some in Hl as [Hl|[L1 Hl]]; apply lookup_app_Some in Hl' as [Hl'|[L2 Hl']].
    + by eapply K2.
    + destruct (Hnew _ _ _ Hl' Hs') as (_ & _ & Hn). destruct Hn. by eapply K1.
    + destruct (Hnew _ _ _ Hl Hs) as (_ & _ & Hn). destruct Hn. by eapply K1.
    + destruct (Hnew _ _ _ Hl Hs) as (I1 & _), (Hnew _ _ _ Hl' Hs') as (I2 & _).
      pose proof (NoDup_lookup _ _ _ _ (ar_nodup _ _ _ _ _ _ _ _ _ _ Ha) I1 I2). lia.
Qed.

Lemma sent_once_step m0 m m' :
  mesh_inv m -> map_Forall (sent_once m0) (nodes m) -> lossy_step listens m m' ->
  map_Forall (sent_once m0) (nodes m').
Proof.
  intros Hm Ho Hs. eapply step_invariant; [done|done| | |done].
  - intros j x x1 (x0 & sent & K) Er Em. exists x0, sent. rewrite Er. unfold known. by rewrite Em.
  - intros j x x' env snd peer ids K Hc Ha. by eapply sent_once_arrival.
Qed.

End spread.

Section theorems.
Context `{StatsRuntime} `{!HeaderParser} {G : Type} `{HexGen G} {S : Type} `{ZmqSocket S}
  `{UnorderedOrder}.

Implicit Types w : broker_world (G:=G) (S:=S).
Implicit Types k : ZmqWorker.
Implicit Types m : mesh (G:=G) (S:=S).

Context (listens : string -> option nat) (P : S -> Prop) (ok : string -> bool) (Q : S -> Prop).
Context (U : gset string).

Definition linked m (i j : nat) : Prop :=
  exists w key k wj, link_at listens m i w key k j wj \/ link_at listens m j w key k i wj.

(** No broker has seen the id, no link has a copy of it queued. *)
Definition unseen (u : string) m : Prop :=
  forall i w, nodes m !! i = Some w -> ~ known w u /\
    forall key k, m_peers (bw_broker w) !! key = Some k -> ~ carries u (m_queue (m_outboundQueue k)).

Lemma unseen_spread u m : unseen u m -> spread listens U u None m.
Proof.
  intros Hu. split.
  - intros i w key k j wj Hl Hk. by destruct (proj1 (Hu i w (la_node _ _ _ _ _ _ _ _ Hl))).
  - intros i w key k j wj Hl Hk. by destruct (proj1 (Hu j wj (la_end _ _ _ _ _ _ _ _ Hl))).
  - intros i w key k j wj Hl Hc. by destruct (proj2 (Hu i w (la_node _ _ _ _ _ _ _ _ Hl)) key k
      (la_link _ _ _ _ _ _ _ _ Hl)).
Qed.

Lemma run_spread u m m' :
  u ∈ U -> routing_socket P ok -> accepting Q ->
  mesh_inv listens P Q U m -> wired listens ok U m -> spread listens U u None m ->
  rtc (mesh_step listens) m m' ->
  wired listens ok U m' /\ spread listens U u None m' /\ mesh_shape m' = mesh_shape m.
Proof.
  intros Hu HP HQ Hm Hw Hs Hr. induction Hr as [m|m m1 m2 H12 Hr IH]; [done|].
  destruct (step_inv listens P ok HP Q HQ U m m1 Hm (or_introl H12)) as (I1 & I2 & I3).
  destruct IH as (K1 & K2 & K3); [done| | |split_and!; [done|done|congruence]].
  - eapply wired_shape; [done|lia|done].
  - by apply (step_spread listens P ok HP Q HQ U u Hu m).
Qed.

Lemma linked_shape m m2 i j :
  mesh_shape m2 = mesh_shape m -> linked m i j -> linked m2 i j /\ is_Some (nodes m2 !! i).
Proof.
  intros Hs (w & key & k & wj & [Hl|Hl]);
    destruct (link_at_shape _ m2 m _ _ _ _ _ _ (eq_sym Hs) Hl) as (x & k' & y & Hl2 & _);
    (split; [exists x, key, k', y; auto|destruct Hl2; eauto]).
Qed.

Lemma known_run u m m' j x x' :
  u ∈ U -> routing_socket P ok -> accepting Q -> mesh_inv listens P Q U m -> rtc (mesh_step listens) m m' ->
  nodes m !! j = Some x -> nodes m' !! j = Some x' -> known x u -> known x' u.
Proof.
  intros Hu HP HQ Hm Hr. revert x. induction Hr as [m|m m1 m2 H12 Hr IH]; intros x Hx Hx' Hk; [congruence|].
  destruct (step_inv listens P ok HP Q HQ U m m1 Hm (or_introl H12)) as (I1 & I2 & I3).
  apply (f_equal (fun f => f !! j)) in I3. unfold mesh_shape in I3. rewrite !lookup_fmap, Hx in I3.
  destruct (nodes m1 !! j) as [x1|] eqn:Hx1; [|done].
  eapply IH; [done|done|done|].
  eapply (known_step listens P ok HP Q HQ U u Hu m m1 j x x1); try done. by left.
Qed.

(** At rest the two ends of a link agree. *)
Lemma idle_agree u m i j w wj :
  spread listens U u None m -> idle m -> linked m i j ->
  nodes m !! i = Some w -> nodes m !! j = Some wj -> known w u -> known wj u.
Proof.
  intros [F B _] (I1 & I2 & I3) (w1 & key & k & w2 & Hl) Hi Hj Hk.
  assert (Hout : forall a x, nodes m !! a = Some x -> forall key k, m_peers (bw_broker x) !! key = Some k ->
    ~ carries u (m_queue (m_outboundQueue k))).
  { intros a x Hx key' k' Hk'. rewrite (I2 a x Hx key' k' Hk'). intros (e & []%elem_of_nil & _). }
  destruct Hl as [Hl|Hl]; pose proof Hl as [L1 L2 L3 L4].
  - assert (w1 = w /\ w2 = wj) as [-> ->] by (split; congruence).
    destruct (F _ _ _ _ _ _ Hl Hk) as [|[Hc|]]; [done| |done]. by destruct (Hout _ _ Hi _ _ L2).
  - assert (w1 = wj /\ w2 = w) as [-> ->] by (split; congruence).
    destruct (B _ _ _ _ _ _ Hl Hk) as [|[(e & He & _)|[Hc|]]]; [done| | |done].
    + rewrite I3 in He. by apply elem_of_nil in He.
    + rewrite (I1 j wj Hj) in Hc. destruct Hc as (e & []%elem_of_nil & _).
Qed.

(** C5. A message reaches every broker: a client hands a message to broker [s]
    of an established mesh (every link registered, holding its wildcard
    subscription, with room in its queues); then the mesh comes to rest in
    every lossless run, and whenever it is at rest every broker connected to
    [s], over links in either direction, has routed the message. *)
Theorem mesh_reaches_all m s now h p snd w :
  let u := message_uuid (stamped h w) in
  let m1 := arrive s now (Some (mkEnvelope _ h p)) snd false m in
  routing_socket P ok -> accepting Q -> mesh_inv listens P Q U m -> wired listens ok U m ->
  nodes m !! s = Some w -> copy U (mkEnvelope _ (stamped h w) p) ->
  is_Some (m_clients (bw_broker w) !! snd) -> no_link listens m s snd -> unseen u m ->
  (exists m2, rtc (mesh_step listens) m1 m2 /\ idle m2) /\
  (forall m2, rtc (mesh_step listens) m1 m2 -> (forall m3, ~ mesh_step listens m2 m3) -> idle m2) /\
  (forall m2 j wj, rtc (mesh_step listens) m1 m2 -> idle m2 -> rtc (linked m) s j ->
     nodes m2 !! j = Some wj -> known wj u).
Proof.
  intros u m1 HP HQ Hm Hw Hs Hc Hsnd Hnl Hun.
  destruct (inject_step listens P ok HP Q HQ U m s now h p snd w) as (w' & ids & E & Ha); [done..|].
  fold m1 in E. assert (Hu : u ∈ U) by apply (cp_uuid _ _ Hc).
  destruct (arrival_inv listens P ok Q U m s _ snd false w w' ids Hm Hs Hc Ha) as (A1 & A2 & A3).
  rewrite <-E in A1, A2, A3. pose proof (wired_shape _ _ _ _ _ A3 A2 Hw) as W1.
  assert (S1 : spread listens U u None m1).
  { rewrite E. eapply spread_arrival; [done..|by apply unseen_spread|by left|].
    intros _ _ i x key k [L1 L2 L3 L4] Hid. by destruct (Hnl i x key k L1 L2 L3). }
  assert (Hopen : inbound_open (mesh_shape m1)).
  { intros i sh. unfold mesh_shape. rewrite lookup_fmap. destruct (nodes m1 !! i) as [x|] eqn:Ex; [|done].
    intros [= <-]. destruct (wd_in _ _ _ _ W1 i x Ex) as [_ K]. simpl. lia. }
  split_and!.
  - by eapply run_to_idle.
  - intros m2 Hr Hst. destruct (lossless_inv listens P ok HP Q HQ U _ _ A1 Hr) as (L1 & _ & L3).
    rewrite <-L3 in Hopen. destruct (progress listens P Q U m2 L1 Hopen) as [|[m3 K]]; [done|].
    by destruct (Hst m3).
  - intros m2 j wj Hr Hid Hl Hj.
    destruct (run_spread u _ _ Hu HP HQ A1 W1 S1 Hr) as (W2 & S2 & Sh2). rewrite A3 in Sh2.
    refine (rtc_ind_r (fun j => forall wj, nodes m2 !! j = Some wj -> known wj u) s _ _ j Hl wj Hj);
      clear j Hl wj Hj.
    + intros wj Hj. eapply (known_run u m1 m2 s w'); [done..|by rewrite E; apply lookup_insert_eq|done|].
      refine (proj2 (arrival_known P ok Q U u Hu _ _ _ _ _ _ Ha) _). by right.
    + intros j j' _ Hjj IH wj Hj. destruct (linked_shape m m2 j j' Sh2 Hjj) as [Hjj' [x Hx]].
      by eapply (idle_agree u m2 j j'); eauto.
Qed.

(** C9. A message is sent to no client twice: whatever is lost, in every run of
    the mesh after a client handed a message to broker [s] each broker sends
    each identity at most one message with the message's id, as long as the
    mesh carries no other messages than the at most 10000 of [U] and the histories do not
    forget one of these meanwhile ([mesh_inv]; the histories may be full). *)
Theorem mesh_delivers_once m s now h p snd w :
  let u := message_uuid (stamped h w) in
  let m1 := arrive s now (Some (mkEnvelope _ h p)) snd false m in
  routing_socket P ok -> accepting Q -> mesh_inv listens P Q U m ->
  nodes m !! s = Some w -> copy U (mkEnvelope _ (stamped h w) p) ->
  is_Some (m_clients (bw_broker w) !! snd) ->
  forall m2 j x, rtc (lossy_step listens) m1 m2 -> nodes m2 !! j = Some x -> sent_once U u m j x.
Proof.
  intros u m1 HP HQ Hm Hs Hc Hsnd m2 j x Hr Hx.
  destruct (inject_step listens P ok HP Q HQ U m s now h p snd w) as (w' & ids & E & Ha); [done..|].
  fold m1 in E. assert (Hu : u ∈ U) by apply (cp_uuid _ _ Hc).
  destruct (arrival_inv listens P ok Q U m s _ snd false w w' ids Hm Hs Hc Ha) as (A1 & _ & _).
  rewrite <-E in A1.
  assert (H0' : map_Forall (sent_once U u m) (nodes m)).
  { intros i y Hy. exists y, []. rewrite app_nil_r. by split_and!. }
  assert (H1' : map_Forall (sent_once U u m) (nodes m1)).
  { rewrite E. apply map_Forall_insert_2; [|done]. eapply sent_once_arrival; [done|by apply H0'|done..]. }
  clear E Ha Hs. revert A1 H1' x Hx. induction Hr as [m1'|a b c Hab Hr IH]; intros A1 H1'; [by apply H1'|].
  apply IH; [by apply (step_inv listens P ok HP Q HQ U a b)|].
  by apply (sent_once_step listens P ok HP Q HQ U u Hu m a b).
Qed.

End theorems.
