(* ===== verification/Client.v ===== *)
(** * The client library ([common/connectionmanager.{h,cpp}])

    One [ConnectionManager] per process, reached through static functions.
    [client_state] holds the statics (the instance, the registrations made
    before [init]), the thread-local reply address of the processing thread,
    and the promises of requests in flight.

    Callbacks are values: a user function is a number interpreted by
    [user_code], an argument of the definitions that run callbacks; user code
    may call back into the library and may throw.  Pointers used as keys
    ([void* instance]) are numbers, the null pointer is 0. *)

From S2P Require Import Prelude Keys SafeQueue MessageHeader Stats Payload CppString Wire Worker Uuid.

Inductive MessageCallback :=
  | EmptyFn
  | UserFn (f : Z)
  | PromiseFn (p : Z)
  | CApiFn (topic : string) (callback userData : Z).

Record CallbackEntry := mkEntry {
  ce_instance : Z;
  ce_func : MessageCallback
}.

Section client.
Context `{ProtoRuntime}.

Record ConnectionManager := mkManager {
  m_clientId : string;
  m_pWorker : option ZmqWorker;
  m_inbound : SafeQueue Envelope;   (** [m_queue] *)
  m_running : bool;
  m_connected : bool;
  m_msgHandlers : gmap string (list CallbackEntry)
}.

Implicit Types c : ConnectionManager.

Definition set_worker (v : option ZmqWorker) c : ConnectionManager :=
  mkManager (m_clientId c) v (m_inbound c) (m_running c) (m_connected c) (m_msgHandlers c).
Definition set_inbound (v : SafeQueue Envelope) c : ConnectionManager :=
  mkManager (m_clientId c) (m_pWorker c) v (m_running c) (m_connected c) (m_msgHandlers c).
Definition set_manager_running (v : bool) c : ConnectionManager :=
  mkManager (m_clientId c) (m_pWorker c) (m_inbound c) v (m_connected c) (m_msgHandlers c).
Definition set_connected (v : bool) c : ConnectionManager :=
  mkManager (m_clientId c) (m_pWorker c) (m_inbound c) (m_running c) v (m_msgHandlers c).
Definition set_handlers (v : gmap string (list CallbackEntry)) c : ConnectionManager :=
  mkManager (m_clientId c) (m_pWorker c) (m_inbound c) (m_running c) (m_connected c) v.

(** ** Sending *)

Definition sendRawEnvelope (env : Envelope) c : ConnectionManager * bool :=
  match m_pWorker c with
  | None => (c, false)
  | Some worker =>
      let '(worker, ok) := if Keys.isControlMessage (handler_key (header env))
                           then writeControlMessage env worker else writeMessage env worker in
      (set_worker (Some worker) c, ok)
  end.

Definition createControlEnvelope (controlKey topic : string) c : Envelope :=
  mkEnvelope _ (set_topic topic (set_sender_id (m_clientId c)
                 (set_handler_key controlKey header_new))) "".

Definition sendDataInternal (key data : string) c : ConnectionManager * bool :=
  sendRawEnvelope (mkEnvelope _ (set_topic key (set_sender_id (m_clientId c)
                     (set_handler_key key header_new))) data) c.

(** The header of [reply] is fresh; the thread's reply address is an argument. *)
Definition sendReplyEnvelope (t_currentReplyTopic : string) (reply : Envelope) c :
    ConnectionManager * bool :=
  if decide (t_currentReplyTopic = "") then (c, false)
  else sendRawEnvelope (mkEnvelope _ (set_topic t_currentReplyTopic (set_sender_id (m_clientId c)
         (set_handler_key t_currentReplyTopic (header reply)))) (payload reply)) c.

(** ** Registration *)

(** The loop that subscribes every topic with a handler, in key order. *)
Definition subscribe_handlers c : ConnectionManager :=
  foldl (fun c '(topic, _) => (sendRawEnvelope (createControlEnvelope Keys.SUBSCRIBE topic c) c).1)
    c (std_map_iter (m_msgHandlers c)).

Definition resubscribeAll c : ConnectionManager := subscribe_handlers c.

Definition performRegistration (key : string) (callback : MessageCallback) (inst : Z) c :
    ConnectionManager :=
  let entries := default [] (m_msgHandlers c !! key) in
  let c := set_handlers (<[key := entries ++ [mkEntry inst callback]]> (m_msgHandlers c)) c in
  if m_connected c then (sendRawEnvelope (createControlEnvelope Keys.SUBSCRIBE key c) c).1 else c.

Definition performUnregistration (key : string) (inst : Z) c : ConnectionManager :=
  match m_msgHandlers c !! key with
  | None => c
  | Some vec =>
      let vec := filter (fun e => ce_instance e <> inst) vec in
      if decide (vec = []) then
        let c := set_handlers (delete key (m_msgHandlers c)) c in
        if m_connected c then (sendRawEnvelope (createControlEnvelope Keys.UNSUBSCRIBE key c) c).1 else c
      else set_handlers (<[key := vec]> (m_msgHandlers c)) c
  end.

(** The status handler given to the worker. *)
Definition statusHandler (connected : bool) c : ConnectionManager :=
  let c := set_connected connected c in
  if connected then
    subscribe_handlers (sendRawEnvelope (createControlEnvelope Keys.CONNECT "" c) c).1
  else c.

(** ** Construction and destruction *)

(** The worker is started; its thread and the processing thread run on. *)
Definition manager_new (config : ConnectionConfig) : ConnectionManager :=
  mkManager (clientId config)
    (if decide (protocol config = ZMQ) then Some (worker_start (worker_new config)) else None)
    queue_default true false ∅.

Definition manager_destroy c : ConnectionManager :=
  let c := set_manager_running false c in
  let c := set_inbound (SafeQueue.stop (m_inbound c)) c in
  set_worker (worker_stop <$> m_pWorker c) c.

(** ** The process *)

Record client_state := mkState {
  cs_object : option ConnectionManager;  (** the object, while it exists *)
  cs_published : bool;                   (** [m_instance] points to it *)
  s_pendingMsgCallbacks : list (string * MessageCallback * Z);
  t_currentReplyTopic : string;          (** of the processing thread *)
  cs_promises : gmap Z (option string)   (** promises and their values *)
}.

Definition set_object (v : option ConnectionManager) (s : client_state) : client_state :=
  mkState v (cs_published s) (s_pendingMsgCallbacks s) (t_currentReplyTopic s) (cs_promises s).
Definition set_published (v : bool) (s : client_state) : client_state :=
  mkState (cs_object s) v (s_pendingMsgCallbacks s) (t_currentReplyTopic s) (cs_promises s).
Definition set_pending (v : list (string * MessageCallback * Z)) (s : client_state) : client_state :=
  mkState (cs_object s) (cs_published s) v (t_currentReplyTopic s) (cs_promises s).
Definition set_replyTopic (v : string) (s : client_state) : client_state :=
  mkState (cs_object s) (cs_published s) (s_pendingMsgCallbacks s) v (cs_promises s).
Definition set_promises (v : gmap Z (option string)) (s : client_state) : client_state :=
  mkState (cs_object s) (cs_published s) (s_pendingMsgCallbacks s) (t_currentReplyTopic s) v.

Definition getInstance (s : client_state) : option ConnectionManager :=
  if cs_published s then cs_object s else None.

Definition client_init (config : ConnectionConfig) (s : client_state) : client_state :=
  match getInstance s with
  | Some _ => s
  | None =>
      let c := foldl (fun c '(key, callback, inst) => performRegistration key callback inst c)
                 (manager_new config) (s_pendingMsgCallbacks s) in
      set_pending [] (set_published true (set_object (Some c) s))
  end.

(** The part under the lock; the object goes away when the last holder lets go
    of it ([client_destroy]). *)
Definition client_shutdown (s : client_state) : client_state :=
  match getInstance s with
  | None => s
  | Some c =>
      let c := set_manager_running false c in
      let c := match m_connected c, m_pWorker c with
               | true, Some worker =>
                   let bye := createControlEnvelope Keys.DISCONNECT "" c in
                   set_worker (Some (writeControlMessage bye worker).1) c
               | _, _ => c
               end in
      set_published false (set_object (Some c) s)
  end.

Definition client_destroy (s : client_state) : client_state :=
  set_object (manager_destroy <$> cs_object s) s.

Definition registerInternal (key : string) (callback : MessageCallback) (inst : Z)
    (s : client_state) : client_state :=
  match getInstance s with
  | Some c => set_object (Some (performRegistration key callback inst c)) s
  | None => set_pending (s_pendingMsgCallbacks s ++ [(key, callback, inst)]) s
  end.

(** The overload without an instance. *)
Definition registerCallback (key : string) (callback : MessageCallback) (s : client_state) :
    client_state := registerInternal key callback 0 s.

Definition unregisterCallback (key : string) (inst : Z) (s : client_state) : client_state :=
  match getInstance s with
  | Some c => set_object (Some (performUnregistration key inst c)) s
  | None => s
  end.

(** An operation on the instance that reports success. *)
Definition on_instance (f : ConnectionManager -> ConnectionManager * bool) (s : client_state) :
    client_state * bool :=
  match getInstance s with
  | None => (s, false)
  | Some c => let '(c, ok) := f c in (set_object (Some c) s, ok)
  end.

Definition client_sendMessage (key message : string) (s : client_state) : client_state * bool :=
  on_instance (sendDataInternal key message) s.

Definition client_sendData (key data : string) (s : client_state) : client_state * bool :=
  on_instance (sendDataInternal key data) s.

(** [std::string(data, len)] on a buffer of at least [len] bytes; a negative
    length is a [std::length_error] ([EINVAL] stands for it). *)
Definition EINVAL : Z := 22.

Definition bytes_of (data : string) (len : Z) : M client_state string := fun s =>
  if decide (len < 0)%Z then (s, Throw EINVAL) else (s, Ok (str_take (Z.to_nat len) data)).

(** An operation that reports success, among those that may throw. *)
Definition lift_ok (f : client_state -> client_state * bool) : M client_state bool := fun s =>
  let '(s, ok) := f s in (s, Ok ok).

Definition client_sendDataRaw (key data : string) (len : Z) : M client_state bool :=
  s ← mget;
  match getInstance s with
  | None => mret false
  | Some _ =>
      bytes ← bytes_of data len; lift_ok (client_sendData key bytes)
  end.

(** Called on the processing thread, where a request may be in flight. *)
Definition client_replyToSender (data : string) (s : client_state) : client_state * bool :=
  on_instance (sendReplyEnvelope (t_currentReplyTopic s) (mkEnvelope _ header_new data)) s.

(** ** Handling messages *)

Record user_code := mkUser {
  uc_user : Z -> string -> M client_state unit;
  uc_c : Z -> string -> string -> Z -> Z -> M client_state unit
}.

Context (user : user_code).

(** [promise->set_value] throws when there is a value already; the lambda
    catches it. *)
Definition set_value (p : Z) (data : string) (s : client_state) : client_state :=
  match cs_promises s !! p with
  | Some None => set_promises (<[p := Some data]> (cs_promises s)) s
  | _ => s
  end.

Definition run_callback (f : MessageCallback) (data : string) : M client_state unit :=
  match f with
  | EmptyFn => mret tt
  | UserFn id => uc_user user id data
  | PromiseFn p => mmodify (set_value p data)
  | CApiFn topic callback userData => uc_c user callback topic data (i32 (slen data)) userData
  end.

Definition handleMessage (env : Envelope) : M client_state unit :=
  s ← mget;
  let callbacks := match cs_object s with
                   | Some c => default [] (m_msgHandlers c !! topic (header env))
                   | None => []
                   end in
  _ ← mmodify (set_replyTopic (reply_topic (header env)));
  _ ← mfor (fun e => try_ignore (run_callback (ce_func e) (payload env))) callbacks;
  mmodify (set_replyTopic "").

(** One round of [processingLoop] with an envelope that was popped; false is
    the exit of the loop. *)
Definition processing_round (env : Envelope) : M client_state bool :=
  s ← mget;
  match cs_object s with
  | None => mret false
  | Some c =>
      if negb (m_running c) then mret false
      else if decide (handler_key (header env) = Keys.RESET) then
        _ ← mmodify (set_object (Some (resubscribeAll c))); mret true
      else _ ← handleMessage env; mret true
  end.

(** ** Requests *)

Context {G : Type} `{HexGen G}.

(** The first half of [sendRequest], up to the wait: the reply topic is
    returned with the instance the caller holds on to. *)
Definition sendRequest_begin (requestTopic payload : string) (p : Z) (g : G) (s : client_state) :
    client_state * G * option string :=
  match getInstance s with
  | None => (s, g, None)
  | Some c =>
      let '(uuid, g) := generateUUID g in
      let replyTopic := requestTopic +:+ uuid in
      let s := set_promises (<[p := None]> (cs_promises s)) s in
      let c := performRegistration replyTopic (PromiseFn p) p c in
      let request := mkEnvelope _ (set_reply_topic replyTopic (set_topic requestTopic
                       (set_sender_id (m_clientId c) (set_handler_key requestTopic header_new))))
                       payload in
      let '(c, _) := sendRawEnvelope request c in
      (set_object (Some c) s, g, Some replyTopic)
  end.

(** The second half: the wait is over, because the promise has its value or
    the time is up. *)
Definition sendRequest_end (replyTopic : string) (p : Z) (s : client_state) :
    client_state * option string :=
  let response := match cs_promises s !! p with Some (Some v) => Some v | _ => None end in
  let s := set_object ((performUnregistration replyTopic p) <$> cs_object s) s in
  (set_promises (delete p (cs_promises s)) s, response).

(** ** The typed overloads *)

Context `{!StatsRuntime} `{!AnyRuntime}.

Definition client_sendValue {T} (k : payload_codec T) (key : string) (value : T) (s : client_state) :
    client_state * bool :=
  on_instance (fun c => sendRawEnvelope (mkEnvelope _ (set_topic key (set_sender_id (m_clientId c)
                          (set_handler_key key header_new))) (encodePayload k value)) c) s.

Definition client_replyValue {T} (k : payload_codec T) (value : T) (s : client_state) :
    client_state * bool :=
  on_instance (sendReplyEnvelope (t_currentReplyTopic s)
                 (mkEnvelope _ header_new (encodePayload k value))) s.

(** The request is sent as the bare serialization of the message; the end
    decodes the response. *)
Definition sendRequest_typed_begin {Req} (serialize : Req -> string) (requestTopic : string)
    (payload : Req) (p : Z) (g : G) (s : client_state) : client_state * G * option string :=
  sendRequest_begin requestTopic (serialize payload) p g s.

Definition sendRequest_typed_end {Res} (k : payload_codec Res) (replyTopic : string) (p : Z)
    (s : client_state) : client_state * option Res :=
  let '(s, response) := sendRequest_end replyTopic p s in (s, response ≫= decodePayload k).

End client.
