(* ===== verification/ClientTheorems.v ===== *)
(** * The client library: theorems *)

From S2P Require Import Prelude Keys SafeQueue MessageHeader Stats Payload Wire Worker Uuid Client.

Section client.
Context `{ProtoRuntime}.

Implicit Types c : ConnectionManager.

(** ** Control messages *)

Definition control_queue c : list Envelope :=
  match m_pWorker c with Some w => m_queue (m_controlQueue w) | None => [] end.

Definition outbound_queue c : list Envelope :=
  match m_pWorker c with Some w => m_queue (m_outboundQueue w) | None => [] end.


Lemma push_for_room {T} (v : T) q :
  m_stop q = false -> (zlen (m_queue q) < m_maxSize q)%Z ->
  push_for v q = (mkQueue (m_queue q ++ [v]) (m_stop q) (m_maxSize q), true).
Proof.
  intros Hs Hr. unfold push_for, push_ready, push_body. rewrite Hs, (proj2 (Z.ltb_lt _ _) Hr). done.
Qed.

Lemma sendRawEnvelope_same env c :
  m_clientId (sendRawEnvelope env c).1 = m_clientId c /\
  m_connected (sendRawEnvelope env c).1 = m_connected c /\
  m_msgHandlers (sendRawEnvelope env c).1 = m_msgHandlers c /\
  Client.m_running (sendRawEnvelope env c).1 = Client.m_running c.
Proof.
  unfold sendRawEnvelope. destruct (m_pWorker c) as [w|]; [|done].
  by destruct (if Keys.isControlMessage _ then _ else _).
Qed.

(** ** Resubscribing *)

Definition subscriptions_of (topics : list string) c : list Envelope :=
  (fun t => createControlEnvelope Keys.SUBSCRIBE t c) <$> topics.

(** The loop queues one subscription per topic while the control queue has room,
    and changes nothing else. *)
Lemma subscribe_loop_queues (l : list (string * list CallbackEntry)) c k :
  m_pWorker c = Some k -> m_stop (m_controlQueue k) = false ->
  (zlen (m_queue (m_controlQueue k)) + zlen l <= m_maxSize (m_controlQueue k))%Z ->
  foldl (fun c '(topic, _) => (sendRawEnvelope (createControlEnvelope Keys.SUBSCRIBE topic c) c).1) c l =
  set_worker (Some (set_controlQueue (mkQueue (m_queue (m_controlQueue k) ++ subscriptions_of l.*1 c) false
    (m_maxSize (m_controlQueue k))) k)) c.
Proof.
  revert c k. induction l as [|[t es] l IH]; intros c k Hk Hs Hr.
  - simpl. rewrite app_nil_r. destruct c as [? ? ? w ?], k as [? ? [q st mx] ? ? ?]. simpl in *. by subst.
  - cbn [foldl]. unfold sendRawEnvelope at 2. rewrite Hk.
    change (Keys.isControlMessage _) with true. unfold writeControlMessage.
    unfold zlen in Hr. cbn [length] in Hr.
    rewrite push_for_room by (done || unfold zlen; lia). cbn [fst].
    rewrite (IH _ (set_controlQueue (mkQueue (m_queue (m_controlQueue k) ++ [createControlEnvelope Keys.SUBSCRIBE t c])
      (m_stop (m_controlQueue k)) (m_maxSize (m_controlQueue k))) k)); [|done|done|].
    + cbn. by rewrite <-(assoc_L (++)).
    + cbn. unfold zlen. rewrite length_app. cbn [length]. lia.
Qed.

Lemma std_map_iter_keys (m : gmap string (list CallbackEntry)) :
  list_to_set (std_map_iter m).*1 = dom m.
Proof.
  apply set_eq. intros k. rewrite elem_of_list_to_set, std_map_iter_perm, elem_of_dom.
  rewrite list_elem_of_fmap. split.
  - intros ([k' x] & -> & Hin%elem_of_map_to_list). eauto.
  - intros [x Hx]. exists (k, x). by rewrite elem_of_map_to_list.
Qed.

(** ** Callbacks *)

Section callbacks.
Context (user : user_code).

(** The user's functions record their calls in [log], whether they return or
    throw, and leave the rest of the log alone. *)
Definition logs_calls (log : client_state -> list (Z * string)) : Prop :=
  (forall f data s, log (uc_user user f data s).1 = log s ++ [(f, data)]) /\
  (forall s v, log (set_replyTopic v s) = log s) /\
  (forall s p d, log (set_value p d s) = log s) /\
  (forall f t d n u s, log (uc_c user f t d n u s).1 = log s ++ [(f, d)]).

Definition logged_call (data : string) (e : CallbackEntry) : option (Z * string) :=
  match ce_func e with
  | UserFn f => Some (f, data)
  | CApiFn _ f _ => Some (f, data)
  | _ => None
  end.

Lemma mfor_ignored {St T} (f : T -> M St unit) l s : exists s', mfor (fun x => try_ignore (f x)) l s = (s', Ok tt).
Proof using Type.
  revert s. induction l as [|x l IH]; intros s; [by exists s|]. cbn.
  assert (exists s1, try_ignore (f x) s = (s1, Ok tt)) as [s1 E1] by (unfold try_ignore; destruct (f x s); by eexists).
  rewrite (bind_ok _ _ _ _ _ E1). apply IH.
Qed.

Lemma run_callbacks_log log data es s :
  logs_calls log ->
  exists s', mfor (fun e => try_ignore (run_callback user (ce_func e) data)) es s = (s', Ok tt) /\
    log s' = log s ++ omap (logged_call data) es.
Proof.
  intros (L1 & L2 & L3 & L4). revert s. induction es as [|[inst f] es IH]; intros s; simpl.
  { exists s. by rewrite app_nil_r. }
  unfold mbind, M_bind, try_ignore at 1.
  destruct (run_callback user f data s) as [s1 r] eqn:E1.
  destruct (IH s1) as (s' & E & K). exists s'. split; [done|]. rewrite K.
  assert (Hl : log s1 = log s ++ (match logged_call data (mkEntry inst f) with
                                  | Some x => [x] | None => [] end)).
  { destruct f as [|f|p|t f u]; simpl in E1.
    - injection E1 as <- _. by rewrite app_nil_r.
    - pose proof (L1 f data s) as K1. by rewrite E1 in K1.
    - injection E1 as <- _. by rewrite L3, app_nil_r.
    - pose proof (L4 f t data (i32 (slen data)) u s) as K1. by rewrite E1 in K1. }
  rewrite Hl, <-(assoc_L (++)). f_equal. unfold logged_call. by destruct f.
Qed.

Lemma handleMessage_calls env s c :
  cs_object s = Some c ->
  exists s', handleMessage user env s = (s', Ok tt) /\ t_currentReplyTopic s' = "" /\
    forall log, logs_calls log -> log s' = log s ++ omap (logged_call (payload env))
      (default [] (m_msgHandlers c !! topic (header env))).
Proof.
  intros Hc. unfold handleMessage, mbind, M_bind, mget, mmodify. rewrite Hc. simpl.
  set (es := default [] (m_msgHandlers c !! topic (header env))).
  set (s0 := set_replyTopic (reply_topic (header env)) s).
  destruct (mfor (fun e => try_ignore (run_callback user (ce_func e) (payload env))) es s0) as [s' o] eqn:E.
  assert (o = Ok tt) as ->.
  { destruct (mfor_ignored (fun e => run_callback user (ce_func e) (payload env)) es s0) as [s1 E1]. congruence. }
  exists (set_replyTopic "" s'). split; [reflexivity|]. split; [done|]. intros log Hl.
  destruct (run_callbacks_log log (payload env) es s0 Hl) as (s1 & E1 & K).
  assert (s1 = s') as -> by congruence. destruct Hl as (_ & L2 & _). rewrite L2, K. unfold s0. by rewrite L2.
Qed.

(** C23. A message runs every callback registered for its topic, in the order
    of registration and with its payload, even if some of them throw; the call
    itself never throws, and no reply address survives it. *)
Theorem handleMessage_runs_all log env s c :
  logs_calls log -> cs_object s = Some c ->
  exists s', handleMessage user env s = (s', Ok tt) /\ t_currentReplyTopic s' = "" /\
    log s' = log s ++ omap (logged_call (payload env))
                        (default [] (m_msgHandlers c !! topic (header env))).
Proof. intros Hl Hc. destruct (handleMessage_calls env s c Hc) as (s' & E & K1 & K2). exists s'. auto. Qed.

(** ** Requests *)

Context {G : Type} `{HexGen G}.

Definition handler_of (t : string) (s : client_state) : option (list CallbackEntry) :=
  match cs_object s with Some c => m_msgHandlers c !! t | None => None end.

(** What happens while a request waits on [replyTopic]: messages arrive on it
    (their payloads are collected), and anything else that leaves the request's
    own handler and promise alone. *)
Inductive request_run (replyTopic : string) (p : Z) :
    client_state -> list string -> client_state -> Prop :=
  | request_done s : request_run replyTopic p s [] s
  | request_reply s env ds s' :
      topic (header env) = replyTopic ->
      request_run replyTopic p (handleMessage user env s).1 ds s' ->
      request_run replyTopic p s (payload env :: ds) s'
  | request_other s s1 ds s' :
      handler_of replyTopic s1 = handler_of replyTopic s ->
      cs_promises s1 !! p = cs_promises s !! p ->
      request_run replyTopic p s1 ds s' -> request_run replyTopic p s ds s'.

Lemma reply_sets_promise t p env s v :
  topic (header env) = t -> handler_of t s = Some [mkEntry p (PromiseFn p)] ->
  cs_promises s !! p = Some v ->
  let s' := (handleMessage user env s).1 in
  handler_of t s' = handler_of t s /\
  cs_promises s' !! p = Some (match v with Some _ => v | None => Some (payload env) end).
Proof.
  intros Ht Hh Hp. unfold handler_of in *. destruct (cs_object s) as [c|] eqn:Ec; [|done].
  unfold handleMessage, mbind, M_bind, mget, mmodify. rewrite Ec, Ht, Hh. simpl.
  unfold mbind, M_bind, try_ignore, mret, M_ret; simpl. unfold set_value; simpl. rewrite Hp.
  destruct v as [v|]; simpl; rewrite Ec; (split; [done|]); [done|by rewrite lookup_insert_eq].
Qed.

Lemma request_run_promise t p s ds s' v :
  request_run t p s ds s' -> handler_of t s = Some [mkEntry p (PromiseFn p)] ->
  cs_promises s !! p = Some v ->
  handler_of t s' = Some [mkEntry p (PromiseFn p)] /\
  cs_promises s' !! p = Some (match v with Some _ => v | None => head ds end).
Proof.
  intros Hr. revert v. induction Hr as [s|s env ds s' Ht _ IH|s s1 ds s' H1 H2 _ IH];
    intros v Hh Hp.
  - split; [done|]. by destruct v.
  - destruct (reply_sets_promise t p env s v Ht Hh Hp) as [K1 K2]. rewrite Hh in K1.
    destruct (IH _ K1 K2) as [K3 K4]. split; [done|]. rewrite K4. by destruct v.
  - apply IH; congruence.
Qed.

Lemma performUnregistration_only t p c :
  m_msgHandlers c !! t = Some [mkEntry p (PromiseFn p)] ->
  m_msgHandlers (performUnregistration t p c) = delete t (m_msgHandlers c).
Proof.
  intros Hh. unfold performUnregistration. rewrite Hh.
  rewrite filter_cons_False by (simpl; tauto). rewrite filter_nil. rewrite decide_True by done.
  simpl. destruct (m_connected c); [|done].
  by destruct (sendRawEnvelope_same (createControlEnvelope Keys.UNSUBSCRIBE t
    (set_handlers (delete t (m_msgHandlers c)) c)) (set_handlers (delete t (m_msgHandlers c)) c))
    as (_ & _ & -> & _).
Qed.

Lemma performRegistration_handlers t cb inst c :
  m_msgHandlers (performRegistration t cb inst c) =
  <[t := default [] (m_msgHandlers c !! t) ++ [mkEntry inst cb]]> (m_msgHandlers c).
Proof.
  unfold performRegistration. set (c1 := set_handlers _ c). destruct (m_connected c1); [|done].
  by destruct (sendRawEnvelope_same (createControlEnvelope Keys.SUBSCRIBE t c1) c1) as (_ & _ & -> & _).
Qed.

(** C22. A request returns the first reply: whatever happens in between, the
    response of [sendRequest] is the payload of the first message that arrived
    on its reply topic, nothing if none arrived, later replies change nothing,
    and afterwards neither the handler nor the promise of the request is left
    behind. *)
Theorem request_first_reply requestTopic data p (g : G) s s1 g' replyTopic ds s2 :
  sendRequest_begin requestTopic data p g s = (s1, g', Some replyTopic) ->
  handler_of replyTopic s = None -> request_run replyTopic p s1 ds s2 ->
  let '(s3, response) := sendRequest_end replyTopic p s2 in
  response = head ds /\ handler_of replyTopic s3 = None /\ cs_promises s3 !! p = None.
Proof.
  intros Hb Hf Hr. unfold sendRequest_begin, getInstance in Hb.
  destruct (cs_published s); [|done]. destruct (cs_object s) as [c|] eqn:Ec; [|done].
  destruct (generateUUID g) as [uuid g1].
  destruct (sendRawEnvelope _ _) as [c2 ok] eqn:E2. injection Hb as <- <- <-.
  set (rt := requestTopic +:+ uuid) in *.
  assert (Hc : m_msgHandlers c !! rt = None) by (unfold handler_of in Hf; by rewrite Ec in Hf).
  destruct (request_run_promise rt p _ ds s2 None Hr) as [K1 K2].
  - unfold handler_of; simpl.
    pose proof (sendRawEnvelope_same (mkEnvelope _ (set_reply_topic rt (set_topic requestTopic
      (set_sender_id (m_clientId (performRegistration rt (PromiseFn p) p c))
        (set_handler_key requestTopic header_new)))) data) (performRegistration rt (PromiseFn p) p c))
      as (_ & _ & K & _). rewrite E2 in K. simpl in K.
    rewrite K, performRegistration_handlers, lookup_insert_eq, Hc. done.
  - simpl. by rewrite lookup_insert_eq.
  - unfold sendRequest_end. rewrite K2. split; [by destruct (head ds)|]. simpl.
    rewrite lookup_delete_eq. split; [|done]. unfold handler_of in *; simpl.
    destruct (cs_object s2) as [c'|]; simpl; [|done].
    by rewrite performUnregistration_only, lookup_delete_eq.
Qed.

End callbacks.

(** ** Start and end *)

(** The state of a process that did not call [init] yet. *)
Definition fresh_state : client_state := mkState None false [] "" ∅.

Definition register_all (regs : list (string * MessageCallback * Z)) (s : client_state) : client_state :=
  foldl (fun s '(key, cb, inst) => registerInternal key cb inst s) s regs.

(** Registering before [init] is the same as registering after it: the
    whole state is the same, in whatever order the calls are split. *)
Theorem registration_before_init config early late :
  register_all late (client_init config (register_all early fresh_state)) =
  register_all (early ++ late) (client_init config fresh_state).
Proof.
  unfold register_all at 3. rewrite foldl_app. fold (register_all late). f_equal.
  assert (Hp : forall l l0 s, s = mkState None false l0 "" ∅ ->
    register_all l s = mkState None false (l0 ++ l) "" ∅).
  { induction l as [|[[k cb] i] l IH]; intros l0 s ->; simpl; [by rewrite app_nil_r|].
    rewrite (IH (l0 ++ [(k, cb, i)])) by done. by rewrite <-(assoc_L (++)). }
  rewrite (Hp early [] fresh_state eq_refl). unfold client_init; simpl.
  set (mgr := manager_new config). clearbody mgr. revert mgr.
  induction early as [|[[k cb] i] early IH]; intros mgr; [done|]. simpl. apply IH.
Qed.

Context `{!HeaderParser}.


End client.

(** ** Typed messages *)

Section typed.
Context `{AnyRuntime}.

Lemma push_for_accepted {T} (v : T) q q' :
  push_for v q = (q', true) -> m_queue q' = m_queue q ++ [v].
Proof.
  unfold push_for, push_body. destruct (push_ready q); [|done]. destruct (m_stop q); [done|].
  by intros [= <-].
Qed.

(** The envelope of an accepted value, and what a client does with it that has one
    callback of that type. *)
Lemma typed_delivery {T} (k : payload_codec T) key (v : T) s s' c
    user f inst (func : T -> M client_state unit) r receiver :
  codec_lawful k v -> Keys.isControlMessage key = false ->
  cs_object s = Some c -> client_sendValue k key v s = (s', true) ->
  (forall raw, uc_user user f raw = typed_callback k func raw) ->
  cs_object r = Some receiver -> m_msgHandlers receiver !! key = Some [mkEntry inst (UserFn f)] ->
  exists c' env, cs_object s' = Some c' /\ outbound_queue c' = outbound_queue c ++ [env] /\
    handleMessage user env r = (set_replyTopic "" (func v (set_replyTopic "" r)).1, Ok tt).
Proof.
  intros Hk Hkey Hc Hsend Huser Hr Hh. unfold client_sendValue, on_instance, getInstance in Hsend.
  destruct (cs_published s); [|done]. rewrite Hc in Hsend.
  destruct (sendRawEnvelope _ c) as [c' ok] eqn:E. injection Hsend as <- ->.
  unfold sendRawEnvelope in E. simpl in E. unfold handler_key in E; simpl in E. rewrite Hkey in E.
  destruct (m_pWorker c) as [w|] eqn:Ew; [|done]. unfold writeMessage in E.
  destruct (push_for _ _) as [q ok] eqn:Eq. injection E as <- ->.
  apply push_for_accepted in Eq. eexists _, _. split; [reflexivity|]. split.
  { unfold outbound_queue. rewrite Ew. exact Eq. }
  unfold handleMessage, mbind, M_bind, mget, mmodify. rewrite Hr. unfold topic; simpl. rewrite Hh. simpl.
  unfold mbind, M_bind, try_ignore, mret, M_ret; simpl. rewrite Huser. unfold typed_callback.
  rewrite decode_encodePayload by done. unfold reply_topic; simpl.
  destruct (func v (set_replyTopic "" r)) as [r1 res]. by destruct res.
Qed.

(** C24. A typed message arrives as the value that was sent: when
    [sendMessage(key, value)] succeeds, one envelope is queued for the broker,
    and a client that has a callback of the same type registered for the topic
    calls it once, with that value, when the envelope reaches it. *)
Theorem typed_message_delivered {T} (k : payload_codec T) key (v : T) s s' c
    user f inst (func : T -> M client_state unit) r receiver :
  codec_lawful k v -> Keys.isControlMessage key = false ->
  cs_object s = Some c -> client_sendValue k key v s = (s', true) ->
  (forall raw, uc_user user f raw = typed_callback k func raw) ->
  cs_object r = Some receiver -> m_msgHandlers receiver !! key = Some [mkEntry inst (UserFn f)] ->
  exists c' env, cs_object s' = Some c' /\ outbound_queue c' = outbound_queue c ++ [env] /\
    handleMessage user env r = (set_replyTopic "" (func v (set_replyTopic "" r)).1, Ok tt).
Proof. apply typed_delivery. Qed.

End typed.
