(* ===== verification/System.v ===== *)
(** * Clients and a broker, put together

    A broker ([server/zmqbroker.cpp]) and the processes that use the client
    library ([common/connectionmanager.cpp]) over their connection workers
    ([common/zmqworker.cpp]), as one step relation.  The threads run the bodies
    defined in [Broker], [Worker] and [Client]; what a socket has sent is in
    transit until the network hands it to the other end, in order per
    connection, or loses it.

    The events of a run are the envelopes the processes publish and the
    envelopes their processing threads handle. *)

From stdpp Require Import relations.
From S2P Require Import Prelude Keys CppString SafeQueue SubscriptionRegistry MessageHeader.
From S2P Require Import Stats Payload Wire Worker Uuid Discovery Broker Client.

(** A message that arrives waits behind the others. *)
Class ZmqNetwork (S : Type) `{ZmqSocket S} := {
  zmq_deliver : S -> string -> list string -> S;
  zmq_deliver_pending : forall s f fs, zmq_pending (zmq_deliver s f fs) = zmq_pending s ++ [f :: fs];
  zmq_deliver_current : forall s f fs, zmq_current (zmq_deliver s f fs) = zmq_current s;
  zmq_deliver_open : forall s f fs, zmq_open (zmq_deliver s f fs) = zmq_open s;
  zmq_deliver_sent : forall s f fs, zmq_sent (zmq_deliver s f fs) = zmq_sent s
}.

#[export] Program Instance queue_network : ZmqNetwork QueueSocket := {|
  zmq_deliver := fun s f fs =>
    mkSocket (qs_refuses s) (qs_open s) (qs_sent s) (qs_current s) (qs_pending s ++ [(f, fs)])
|}.
Next Obligation. intros s f fs. simpl. by rewrite fmap_app. Qed.
Next Obligation. done. Qed.
Next Obligation. done. Qed.
Next Obligation. done. Qed.

Section system.
Context `{StatsRuntime} `{!HeaderParser} {G : Type} `{HexGen G} {S : Type} `{ZmqSocket S}
  `{!ZmqNetwork S} `{UnorderedOrder}.

(** ** A process *)

(** Its library state, the socket of its worker, and the worker's time of the
    last heartbeat. *)
Record node := mkNode {
  nd_state : client_state;
  nd_socket : S;
  nd_heartbeat : Z
}.

Definition nd_worker (nd : node) : option ZmqWorker := cs_object (nd_state nd) ≫= m_pWorker.

(** The worker is owned by the manager. *)
Definition store_worker (k : ZmqWorker) (s : client_state) : client_state :=
  set_object (set_worker (Some k) <$> cs_object s) s.

(** What the constructor of [ConnectionManager] hands to the worker: its queue
    and the status handler, which writes to the worker in turn. *)
Definition manager_status (b : bool) (st : ZmqWorker * client_state) : ZmqWorker * client_state :=
  let '(k, s) := st in
  match cs_object s with
  | None => (k, s)
  | Some c =>
      let c := statusHandler b (set_worker (Some k) c) in
      (default k (m_pWorker c), set_object (Some c) s)
  end.

Definition manager_inbound (env : Envelope) (s : client_state) : client_state :=
  match cs_object s with
  | None => s
  | Some c => set_object (Some (set_inbound (push_for env (m_inbound c)).1 c)) s
  end.

Definition manager_callbacks : worker_callbacks (X:=client_state) :=
  mkCallbacks (Some manager_status) (Some manager_inbound) None.

Definition node_world (k : ZmqWorker) (nd : node) : worker_world :=
  mkWorld k (nd_state nd) (nd_socket nd) (nd_heartbeat nd) false.

Definition world_node (ww : worker_world) : node :=
  mkNode (store_worker (ww_worker ww) (ww_owner ww)) (ww_socket ww) (ww_lastHeartbeat ww).

(** An effect of the worker's thread, on the process; the exception that ends a
    thread is not seen by the others. *)
Definition node_run (m : M worker_world unit) (nd : node) : node :=
  match nd_worker nd with
  | None => nd
  | Some k => world_node (m (node_world k nd)).1
  end.

(** A process that has called [init]; its worker is about to enter its loop. *)
Definition node_start (config : ConnectionConfig) (now : Z) (s : client_state) (sock : S) : node :=
  node_run (run_prologue manager_callbacks now) (mkNode (client_init config s) sock 0).

(** ** Events *)

Inductive event :=
  | Published (id : string) (env : Envelope)
  | Handled (id : string) (env : Envelope).

(** What the library is asked to do, by the application or from a callback: the
    envelopes that were accepted are published.  The promises of requests and the
    reply address of the thread change along with that. *)
Inductive api_step (id : string) (may_say : Envelope -> Prop) :
    client_state -> list event -> client_state -> Prop :=
  | api_send env s s' (ok : bool) :
      may_say env -> Keys.isControlMessage (handler_key (Wire.header env)) = false ->
      on_instance (sendRawEnvelope env) s = (s', ok) ->
      api_step id may_say s (if ok then [Published id env] else []) s'
  | api_register key cb inst s :
      (forall c, cs_object s = Some c -> may_say (createControlEnvelope Keys.SUBSCRIBE key c)) ->
      (forall c, cs_object s = Some c -> may_say (createControlEnvelope Keys.UNSUBSCRIBE key c)) ->
      api_step id may_say s [] (registerInternal key cb inst s)
  | api_unregister key inst s : api_step id may_say s [] (unregisterCallback key inst s)
  | api_promises v s : api_step id may_say s [] (set_promises v s)
  | api_reply_topic v s : api_step id may_say s [] (set_replyTopic v s)
  | api_shutdown s : api_step id may_say s [] (client_shutdown s).

Inductive api_run (id : string) (may_say : Envelope -> Prop) :
    client_state -> list event -> client_state -> Prop :=
  | api_done s : api_run id may_say s [] s
  | api_more s es1 s1 es2 s2 :
      api_step id may_say s es1 s1 -> api_run id may_say s1 es2 s2 ->
      api_run id may_say s (es1 ++ es2) s2.

(** ** The whole *)

Record system := mkSystem {
  sys_broker : broker_world (G:=G) (S:=S);
  sys_nodes : gmap string node;
  sys_up : list (string * list string);     (** from a client to the router *)
  sys_down : list (string * list string)    (** from the router to a client *)
}.

(** What a socket has sent since. *)
Definition new_sent (s s' : S) : list (list string) := drop (length (zmq_sent s)) (zmq_sent s').

(** A message of the router names its addressee in the first frame. *)
Definition addressed (frames : list string) : list (string * list string) :=
  match frames with
  | id :: frames => [(id, frames)]
  | [] => []
  end.

Definition run_broker (now_rx now now_stats : Z) (y : system) : system :=
  let w := sys_broker y in
  let w' := (broker_iteration now_rx now now_stats w).1 in
  mkSystem w' (sys_nodes y) (sys_up y)
    (sys_down y ++ (new_sent (bw_router w) (bw_router w') ≫= addressed)).

Definition run_worker (m : M worker_world unit) (id : string) (nd : node) (y : system) : system :=
  let nd' := node_run m nd in
  mkSystem (sys_broker y) (<[id := nd']> (sys_nodes y))
    (sys_up y ++ (pair id <$> new_sent (nd_socket nd) (nd_socket nd'))) (sys_down y).

Definition put_state (id : string) (nd : node) (s : client_state) (y : system) : system :=
  mkSystem (sys_broker y) (<[id := mkNode s (nd_socket nd) (nd_heartbeat nd)]> (sys_nodes y))
    (sys_up y) (sys_down y).

(** The processing thread: one envelope is taken from the queue. *)
Definition pop_inbound (s : client_state) : option (Envelope * client_state) :=
  match cs_object s with
  | None => None
  | Some c =>
      match try_pop (m_inbound c) with
      | (q, Some env) => Some (env, set_object (Some (set_inbound q c)) s)
      | (_, None) => None
      end
  end.

(** [user]: the callbacks of each process; [may_say]: the envelopes a process
    hands to the library. *)
Context (user : string -> user_code) (may_say : string -> Envelope -> Prop).

Inductive sys_step : system -> list event -> system -> Prop :=
  | step_app y id nd es s' :
      (** a thread of the application calls the library *)
      sys_nodes y !! id = Some nd -> api_step id (may_say id) (nd_state nd) es s' ->
      sys_step y es (put_state id nd s' y)
  | step_worker y id nd k now_rx now :
      (** an iteration of a worker's loop *)
      sys_nodes y !! id = Some nd -> nd_worker nd = Some k -> Worker.m_running k = true ->
      sys_step y [] (run_worker (run_iteration manager_callbacks now_rx now) id nd y)
  | step_epilogue y id nd k :
      (** the end of a worker's thread *)
      sys_nodes y !! id = Some nd -> nd_worker nd = Some k -> Worker.m_running k = false ->
      sys_step y [] (run_worker run_epilogue id nd y)
  | step_process y id nd env s s' (ok : bool) es :
      (** a round of a processing thread; the callbacks it runs publish *)
      sys_nodes y !! id = Some nd -> pop_inbound (nd_state nd) = Some (env, s) ->
      processing_round (user id) env s = (s', Ok ok) ->
      (if decide (handler_key (Wire.header env) = Keys.RESET) then es = []
       else api_run id (may_say id) s es s') ->
      sys_step y ((if decide (handler_key (Wire.header env) = Keys.RESET) then []
                   else if ok then [Handled id env] else []) ++ es) (put_state id nd s' y)
  | step_broker y now_rx now now_stats :
      sys_step y [] (run_broker now_rx now now_stats y)
  | step_up y l1 id frames l2 :
      (** the oldest message of a client arrives at the router *)
      sys_up y = l1 ++ (id, frames) :: l2 -> id ∉ l1.*1 ->
      let w := sys_broker y in
      sys_step y [] (mkSystem (put_router (zmq_deliver (bw_router w) id frames) w) (sys_nodes y)
        (l1 ++ l2) (sys_down y))
  | step_down y l1 id f frames l2 nd :
      (** the oldest message for a client arrives at its socket *)
      sys_down y = l1 ++ (id, f :: frames) :: l2 -> id ∉ l1.*1 -> sys_nodes y !! id = Some nd ->
      sys_step y [] (mkSystem (sys_broker y)
        (<[id := mkNode (nd_state nd) (zmq_deliver (nd_socket nd) f frames) (nd_heartbeat nd)]> (sys_nodes y))
        (sys_up y) (l1 ++ l2))
  | step_lost_up y l1 x l2 :
      sys_up y = l1 ++ x :: l2 ->
      sys_step y [] (mkSystem (sys_broker y) (sys_nodes y) (l1 ++ l2) (sys_down y))
  | step_lost_down y l1 x l2 :
      sys_down y = l1 ++ x :: l2 ->
      sys_step y [] (mkSystem (sys_broker y) (sys_nodes y) (sys_up y) (l1 ++ l2)).

Inductive sys_run : system -> list event -> system -> Prop :=
  | run_done y : sys_run y [] y
  | run_more y es1 y1 es2 y2 :
      sys_step y es1 y1 -> sys_run y1 es2 y2 -> sys_run y (es1 ++ es2) y2.

End system.
