(* ===== verification/SystemFacts.v ===== *)
(** * Clients and a broker: what every thread keeps

    What travels between the processes is well formed and says who sent it, and
    each thread moves the messages of one sender on one topic towards their
    receiver in order: what is behind a thread after it ran is a sublist of what
    was there before. *)

From stdpp Require Import relations.
From S2P Require Import Prelude Keys CppString SafeQueue SubscriptionRegistry MessageHeader.
From S2P Require Import Stats Payload Wire Worker Uuid Discovery Broker BrokerFacts BrokerTheorems.
From S2P Require Import Client ClientTheorems System.

(** Dropping elements of a list of lists drops elements of its concatenation. *)
Lemma bind_sublist {A B} (f : A -> list B) (l1 l2 : list A) :
  l1 `sublist_of` l2 -> (l1 ≫= f) `sublist_of` (l2 ≫= f).
Proof.
  induction 1; simpl; [done|by apply sublist_app|by apply sublist_inserts_l].
Qed.

Section facts.
Context `{StatsRuntime} `{!HeaderParser} {G : Type} `{HexGen G} {S : Type} `{ZmqSocket S}
  `{!ZmqNetwork S} `{UnorderedOrder}.

Implicit Types c : ConnectionManager.
Implicit Types s : client_state.
Implicit Types ww : worker_world (X:=client_state) (S:=S).
Implicit Types env : Envelope.

(** ** What may be said *)

(** The header survives the wire. *)
Record carried env : Prop := {
  ca_wf : header_wf (Wire.header env);
  ca_enc : header_encodable IsStructurallyValidUTF8 (Wire.header env)
}.

(** The broker the processes talk to. *)
Context (bid : string).

(** An envelope as the library makes them: it names its sender, has no uuid yet,
    and survives the wire before and after the broker stamped it. *)
Record speaks (id : string) env : Prop := {
  sp_carried : carried env;
  sp_sender : sender_id (Wire.header env) = id;
  sp_fresh : message_uuid (Wire.header env) = "";
  sp_stamped : forall g : G, header_encodable IsStructurallyValidUTF8
    (set_origin_broker_id bid (set_message_uuid (generateUUID g).1 (Wire.header env)))
}.

Definition control (id key topic : string) : Envelope :=
  mkEnvelope _ (set_topic topic (set_sender_id id (set_handler_key key header_new))) "".

(** A topic that can be subscribed to. *)
Definition sayable (id topic : string) : Prop :=
  speaks id (control id Keys.SUBSCRIBE topic) /\ speaks id (control id Keys.UNSUBSCRIBE topic).

(** An identity that can introduce itself. *)
Definition polite (id : string) : Prop :=
  speaks id (control id Keys.CONNECT "") /\ speaks id (control id Keys.DISCONNECT "") /\
  speaks id (control id Keys.HEARTBEAT "").

(** ** The library *)

Record worker_ok (id : string) (k : ZmqWorker) : Prop := {
  wo_config : clientId (m_config k) = id;
  wo_control : Forall (fun env => speaks id env /\
    Keys.isControlMessage (handler_key (Wire.header env)) = true) (m_queue (m_controlQueue k));
  wo_outbound : Forall (speaks id) (m_queue (m_outboundQueue k))
}.

Record manager_ok (id : string) c : Prop := {
  mo_id : m_clientId c = id;
  mo_topics : forall key, key ∈ dom (m_msgHandlers c) -> sayable id key;
  mo_worker : forall k, m_pWorker c = Some k -> worker_ok id k
}.

(** Nothing but control messages is added. *)
Definition quiet c c' : Prop :=
  m_inbound c' = m_inbound c /\ outbound_queue c' = outbound_queue c /\
  (is_Some (m_pWorker c) -> is_Some (m_pWorker c')).

#[export] Instance quiet_refl : Reflexive quiet.
Proof. by intros c. Qed.

#[export] Instance quiet_trans : Transitive quiet.
Proof. intros c1 c2 c3 (?&?&?) (?&?&?). split_and!; [by etrans|by etrans|auto]. Qed.

Lemma push_for_elem (env : Envelope) q :
  m_queue (push_for env q).1 = m_queue q ++ (if (push_for env q).2 then [env] else []).
Proof.
  unfold push_for, push_body. destruct (push_ready q); [|by rewrite app_nil_r].
  destruct (m_stop q); simpl; [by rewrite app_nil_r|done].
Qed.

Lemma sendRaw_ok id env c :
  speaks id env -> manager_ok id c ->
  let '(c', ok) := sendRawEnvelope env c in
  manager_ok id c' /\ m_inbound c' = m_inbound c /\
  outbound_queue c' = outbound_queue c ++
    (if Keys.isControlMessage (handler_key (Wire.header env)) then [] else if ok then [env] else []).
Proof.
  intros Hs [H1' H2' H3']. unfold sendRawEnvelope.
  destruct (m_pWorker c) as [k|] eqn:Ek.
  - destruct (H3' k eq_refl) as [K1 K2 K3]. unfold writeControlMessage, writeMessage.
    destruct (Keys.isControlMessage _) eqn:Ei.
    + pose proof (push_for_elem env (m_controlQueue k)) as E.
      destruct (push_for env (m_controlQueue k)) as [q ok]; simpl in E |- *.
      split_and!; [split; [done|done|]|done|unfold outbound_queue; simpl; by rewrite Ek, app_nil_r].
      intros k' [= <-]. split; [done| |done]. simpl. rewrite E. destruct ok; rewrite ?app_nil_r; [|done].
      apply Forall_app; split; [done|by constructor].
    + pose proof (push_for_elem env (m_outboundQueue k)) as E.
      destruct (push_for env (m_outboundQueue k)) as [q ok]; simpl in E |- *.
      split_and!; [split; [done|done|]|done|unfold outbound_queue; simpl; by rewrite Ek, E].
      intros k' [= <-]. split; [done|done|]. simpl. rewrite E. destruct ok; rewrite ?app_nil_r; [|done].
      apply Forall_app; split; [done|by constructor].
  - split_and!; [by split; rewrite ?Ek|done|]. by destruct (Keys.isControlMessage _); rewrite app_nil_r.
Qed.

Lemma send_control_ok id env c :
  speaks id env -> Keys.isControlMessage (handler_key (Wire.header env)) = true -> manager_ok id c ->
  manager_ok id (sendRawEnvelope env c).1 /\ quiet c (sendRawEnvelope env c).1.
Proof.
  intros Hs Hk Hc. pose proof (sendRaw_ok id env c Hs Hc) as K. rewrite Hk in K.
  destruct (sendRawEnvelope env c) as [c' ok] eqn:E. destruct K as (K1 & K2 & K3). rewrite app_nil_r in K3. split; [done|]. split_and!; [done..|].
  intros [k Ek]. revert E. unfold sendRawEnvelope. rewrite Ek. case_match. intros [= <- <-]. by eexists.
Qed.

Lemma control_eq id key topic c :
  m_clientId c = id -> createControlEnvelope key topic c = control id key topic.
Proof. by intros <-. Qed.

Lemma subscribe_loop_ok id (l : list (string * list CallbackEntry)) c :
  manager_ok id c -> (forall x, x ∈ l -> sayable id x.1) ->
  let c' := foldl (fun c '(topic, _) =>
              (sendRawEnvelope (createControlEnvelope Keys.SUBSCRIBE topic c) c).1) c l in
  manager_ok id c' /\ quiet c c'.
Proof.
  revert c. induction l as [|[t es] l IH]; intros c Hc Hl; simpl; [done|].
  rewrite (control_eq id) by apply Hc.
  destruct (send_control_ok id (control id Keys.SUBSCRIBE t) c) as [K1 K2];
    [apply (Hl (t, es)); left|done|done|].
  destruct (IH _ K1) as [K3 K4]; [intros x Hx; apply Hl; by right|]. split; [done|by etrans].
Qed.

Lemma subscribe_handlers_ok id c :
  manager_ok id c -> manager_ok id (subscribe_handlers c) /\ quiet c (subscribe_handlers c).
Proof.
  intros Hc. apply subscribe_loop_ok; [done|]. intros [t es] Hx. apply (mo_topics _ _ Hc).
  rewrite std_map_iter_perm, elem_of_map_to_list in Hx. apply elem_of_dom. eauto.
Qed.

Lemma statusHandler_ok id b c :
  polite id -> manager_ok id c -> manager_ok id (statusHandler b c) /\ quiet c (statusHandler b c).
Proof.
  intros Hp Hc. unfold statusHandler.
  assert (Hc1 : manager_ok id (set_connected b c)) by (by destruct Hc).
  assert (Q1 : quiet c (set_connected b c)) by done.
  destruct b; [|done]. rewrite (control_eq id) by apply Hc1.
  destruct (send_control_ok id (control id Keys.CONNECT "") (set_connected true c)) as [K1 K2]; [apply Hp|done|done|].
  destruct (subscribe_handlers_ok id _ K1) as [K3 K4]. split; [done|]. by etrans; [|etrans].
Qed.

Lemma performRegistration_ok id key cb inst c :
  sayable id key -> manager_ok id c ->
  manager_ok id (performRegistration key cb inst c) /\ quiet c (performRegistration key cb inst c).
Proof.
  intros Hk Hc. unfold performRegistration. set (c1 := set_handlers _ c).
  assert (Hc1 : manager_ok id c1).
  { destruct Hc as [K1 K2 K3]. split; [done| |done]. intros key'. unfold c1; simpl. rewrite dom_insert_L.
    intros [->%elem_of_singleton|?]%elem_of_union; auto. }
  assert (Q1 : quiet c c1) by done.
  destruct (m_connected c1); [|done]. rewrite (control_eq id) by apply Hc1.
  destruct (send_control_ok id (control id Keys.SUBSCRIBE key) c1) as [K1 K2]; [apply Hk|done|done|]. done.
Qed.

Lemma performUnregistration_ok id key inst c :
  manager_ok id c ->
  manager_ok id (performUnregistration key inst c) /\ quiet c (performUnregistration key inst c).
Proof.
  intros Hc. unfold performUnregistration. destruct (m_msgHandlers c !! key) as [vec|] eqn:Ek; [|done].
  assert (Hs : sayable id key) by (apply (mo_topics _ _ Hc), elem_of_dom; eauto).
  case_decide.
  - set (c1 := set_handlers _ c). assert (Hc1 : manager_ok id c1).
    { destruct Hc as [K1 K2 K3]. split; [done| |done]. intros key'. unfold c1; simpl. rewrite dom_delete_L.
      intros [? _]%elem_of_difference. auto. }
    assert (Q1 : quiet c c1) by done.
    destruct (m_connected c1); [|done]. rewrite (control_eq id) by apply Hc1.
    destruct (send_control_ok id (control id Keys.UNSUBSCRIBE key) c1) as [K1 K2]; [apply Hs|done|done|]. done.
  - split; [|done]. destruct Hc as [K1 K2 K3]. split; [done| |done]. intros key'; simpl. rewrite dom_insert_L.
    intros [->%elem_of_singleton|?]%elem_of_union; auto.
Qed.

(** ** A process *)

Definition state_ok (id : string) s : Prop := forall c, cs_object s = Some c -> manager_ok id c.

Definition st_inbound s : list Envelope :=
  match cs_object s with Some c => m_queue (m_inbound c) | None => [] end.
Definition st_outbound s : list Envelope :=
  match cs_object s with Some c => outbound_queue c | None => [] end.

Definition published_by (es : list event) : list Envelope :=
  omap (fun e => match e with Published _ env => Some env | _ => None end) es.

(** A change of the object that is quiet. *)
Lemma set_object_quiet id s c c' :
  cs_object s = Some c -> manager_ok id c' -> quiet c c' ->
  state_ok id (set_object (Some c') s) /\ st_inbound (set_object (Some c') s) = st_inbound s /\
  st_outbound (set_object (Some c') s) = st_outbound s.
Proof.
  intros Hc Hok (Q1 & Q2 & _). unfold state_ok, st_inbound, st_outbound; simpl. rewrite Hc, Q1, Q2.
  split_and!; [|done|done]. by intros ? [= <-].
Qed.

Lemma client_shutdown_ok id s :
  polite id -> state_ok id s ->
  state_ok id (client_shutdown s) /\ st_inbound (client_shutdown s) = st_inbound s /\
  st_outbound (client_shutdown s) = st_outbound s.
Proof.
  intros Hp Hs. unfold client_shutdown, getInstance. destruct (cs_published s); [|done].
  destruct (cs_object s) as [c|] eqn:Ec; [|done]. specialize (Hs c Ec).
  set (c1 := set_manager_running false c). assert (Hc1 : manager_ok id c1) by (by destruct Hs).
  set (c2 := match m_connected c1, m_pWorker c1 with true, Some worker => _ | _, _ => _ end).
  enough (manager_ok id c2 /\ quiet c1 c2) as [K1 K2].
  { by apply (set_object_quiet id (set_published false s) c c2). }
  unfold c2. destruct (m_connected c1); [|done]. destruct (m_pWorker c1) as [k|] eqn:Ek; [|done].
  rewrite (control_eq id) by apply Hc1.
  pose proof (send_control_ok id (control id Keys.DISCONNECT "") c1) as K. unfold sendRawEnvelope in K.
  rewrite Ek in K. simpl in K. specialize (K ltac:(apply Hp) eq_refl Hc1).
  by destruct (writeControlMessage (control id Keys.DISCONNECT "") k).
Qed.

Lemma api_step_ok id s es s' :
  polite id -> state_ok id s -> api_step id (speaks id) s es s' ->
  state_ok id s' /\ st_inbound s' = st_inbound s /\ st_outbound s' = st_outbound s ++ published_by es.
Proof.
  intros Hp Hs Hstep.
  destruct Hstep as [env s s' ok He Hk E|key cb inst s K1 K2|key inst s|v s|v s|s];
    rewrite ?app_nil_r; try done.
  - unfold on_instance, getInstance in E. destruct (cs_published s);
      [|injection E as <- <-; by rewrite app_nil_r].
    destruct (cs_object s) as [c|] eqn:Ec; [|injection E as <- <-; by rewrite app_nil_r].
    pose proof (sendRaw_ok id env c He (Hs c Ec)) as K. rewrite Hk in K.
    destruct (sendRawEnvelope env c) as [c' ok']. injection E as <- <-. destruct K as (K1 & K2 & K3).
    unfold state_ok, st_inbound, st_outbound; simpl. rewrite Ec, K2, K3. split_and!; [|done|by destruct ok'].
    by intros ? [= <-].
  - unfold registerInternal, getInstance. destruct (cs_published s); [|done].
    destruct (cs_object s) as [c|] eqn:Ec; [|done].
    destruct (performRegistration_ok id key cb inst c) as [L1 L2]; [|by apply Hs|by apply (set_object_quiet id s c)].
    pose proof (K1 c eq_refl) as J1. pose proof (K2 c eq_refl) as J2.
    rewrite (control_eq id) in J1, J2 by (by apply Hs). done.
  - unfold unregisterCallback, getInstance. destruct (cs_published s); [|done].
    destruct (cs_object s) as [c|] eqn:Ec; [|done].
    destruct (performUnregistration_ok id key inst c) as [L1 L2]; [by apply Hs|by apply (set_object_quiet id s c)].
  - by apply client_shutdown_ok.
Qed.

Lemma api_run_ok id s es s' :
  polite id -> api_run id (speaks id) s es s' -> state_ok id s ->
  state_ok id s' /\ st_inbound s' = st_inbound s /\ st_outbound s' = st_outbound s ++ published_by es.
Proof.
  intros Hp Hr. induction Hr as [s|s es1 s1 es2 s2 H1' _ IH]; intros Hs; [by rewrite app_nil_r|].
  destruct (api_step_ok id s es1 s1 Hp Hs H1') as (K1 & K2 & K3). destruct (IH K1) as (J1 & J2 & J3).
  split_and!; [done|congruence|]. rewrite J3, K3. unfold published_by. by rewrite omap_app, (assoc_L (++)).
Qed.

(** ** Messages of one sender on one topic *)

Section flow.
Context (A t : string) (Ht : Keys.isControlMessage t = false).

Definition mine env : Prop :=
  sender_id (Wire.header env) = A /\ topic (Wire.header env) = t /\ handler_key (Wire.header env) = t.

#[global] Instance mine_dec env : Decision (mine env).
Proof. unfold mine. apply _. Defined.

(** What a callback gets of an envelope. *)
Definition seen env : string * string := (Wire.payload env, reply_topic (Wire.header env)).

Definition pick env : list (string * string) := if decide (mine env) then [seen env] else [].
Definition picks (envs : list Envelope) : list (string * string) := envs ≫= pick.

(** As the receiver will read the message. *)
Definition pick_frames (frames : list string) : list (string * string) :=
  match envelope_of_frames frames with Some env => pick env | None => [] end.

Lemma pick_equiv env h : h ≡ Wire.header env -> pick (mkEnvelope _ h (Wire.payload env)) = pick env.
Proof.
  intros [E1 E2 E3 _ _ _ E7 _ _ _].
  assert (Hm : mine (mkEnvelope _ h (Wire.payload env)) <-> mine env)
    by (unfold mine; simpl; by rewrite E1, E2, E3).
  unfold pick, seen. simpl. rewrite E7. by repeat case_decide; try tauto.
Qed.

Lemma pick_wire env : carried env -> pick_frames (wire_frames env) = pick env.
Proof.
  intros [Hw He]. unfold pick_frames. destruct (envelope_of_wire_frames env Hw He) as (h & -> & Eh).
  by apply pick_equiv.
Qed.

Lemma pick_control env : Keys.isControlMessage (handler_key (Wire.header env)) = true -> pick env = [].
Proof. intros Hk. unfold pick. rewrite decide_False; [done|]. intros (_ & _ & E). congruence. Qed.

Lemma pick_other id env : speaks id env -> id <> A -> pick env = [].
Proof. intros Hs Hne. unfold pick. rewrite decide_False; [done|]. intros (E & _). by rewrite (sp_sender _ _ Hs) in E. Qed.

(** ** The worker's thread *)

Record ww_ok (id : string) ww : Prop := {
  wk_object : exists c, cs_object (ww_owner ww) = Some c /\ manager_ok id (set_worker (Some (ww_worker ww)) c);
  wk_open : zmq_open (ww_socket ww) = [];
  wk_current : zmq_current (ww_socket ww) = []
}.

Lemma ww_ok_worker id ww : ww_ok id ww -> worker_ok id (ww_worker ww).
Proof. intros [(c & _ & Hc) _ _]. by apply (mo_worker _ _ Hc). Qed.

Definition w_in ww : list (string * string) :=
  picks (st_inbound (ww_owner ww)) ++ (zmq_pending (ww_socket ww) ≫= pick_frames).
Definition w_out ww : list (string * string) := picks (m_queue (m_outboundQueue (ww_worker ww))).

(** The thread keeps its side in order: nothing is added to what it reads, and
    what it sends and still has to send was there to be sent. *)
Record wmove (id : string) ww ww' : Prop := {
  wm_ok : ww_ok id ww';
  wm_in : w_in ww' `sublist_of` w_in ww;
  wm_out : exists msgs, zmq_sent (ww_socket ww') = zmq_sent (ww_socket ww) ++ msgs /\
    Forall (fun m => exists env, m = wire_frames env /\ speaks id env) msgs /\
    ((msgs ≫= pick_frames) ++ w_out ww') `sublist_of` w_out ww
}.

Definition moves (id : string) {T} (m : M (worker_world (X:=client_state) (S:=S)) T) : Prop :=
  forall ww, ww_ok id ww -> wmove id ww (m ww).1.

Lemma wmove_refl id ww : ww_ok id ww -> wmove id ww ww.
Proof. intros Hw. split; [done|done|]. exists []. by rewrite app_nil_r. Qed.

Lemma wmove_trans id w1 w2 w3 : wmove id w1 w2 -> wmove id w2 w3 -> wmove id w1 w3.
Proof.
  intros [_ I1 (m1 & S1 & F1 & O1)] [K2 I2 (m2 & S2 & F2 & O2)]. split; [done|by etrans|].
  exists (m1 ++ m2). rewrite S2, S1, (assoc_L (++)). split_and!; [done|by apply Forall_app|].
  rewrite bind_app, <-(assoc_L (++)). etrans; [|exact O1]. by apply sublist_app.
Qed.

(** Nothing moves. *)
Lemma wmove_same id ww ww' :
  ww_ok id ww' -> st_inbound (ww_owner ww') = st_inbound (ww_owner ww) ->
  zmq_pending (ww_socket ww') = zmq_pending (ww_socket ww) ->
  zmq_sent (ww_socket ww') = zmq_sent (ww_socket ww) ->
  m_queue (m_outboundQueue (ww_worker ww')) = m_queue (m_outboundQueue (ww_worker ww)) -> wmove id ww ww'.
Proof.
  intros Hw E1 E2 E3 E4. split; [done|unfold w_in; by rewrite E1, E2|]. exists [].
  unfold w_out. by rewrite E3, E4, app_nil_r.
Qed.

Lemma moves_ret id {T} (a : T) : moves id (mret a).
Proof. intros ww. apply wmove_refl. Qed.

Lemma moves_bind id {T U} (m : M _ T) (k : T -> M _ U) :
  moves id m -> (forall a, moves id (k a)) -> moves id (m ≫= k).
Proof.
  intros Hm Hk ww Hw. unfold mbind, M_bind. specialize (Hm ww Hw). destruct (m ww) as [w1 [a|e]]; [|done].
  eapply wmove_trans; [exact Hm|]. apply Hk, Hm.
Qed.

Lemma moves_get_bind id {T} (k : worker_world -> M _ T) :
  (forall ww, ww_ok id ww -> wmove id ww (k ww ww).1) -> moves id (mget ≫= k).
Proof. intros Hk ww Hw. by apply Hk. Qed.

Lemma call_status_quiet id b ww :
  polite id -> ww_ok id ww ->
  exists ww', call_status manager_callbacks b ww = (ww', Ok tt) /\ ww_ok id ww' /\
    ww_socket ww' = ww_socket ww /\ st_inbound (ww_owner ww') = st_inbound (ww_owner ww) /\
    m_queue (m_outboundQueue (ww_worker ww')) = m_queue (m_outboundQueue (ww_worker ww)).
Proof.
  intros Hp Hw. pose proof Hw as [(c & Hc & Hok) Ho Hcur]. unfold call_status, mmodify, on_both; simpl. rewrite Hc.
  destruct (statusHandler_ok id b _ Hp Hok) as [K (Q1 & Q2 & Q3)]. destruct Q3 as [k' Ek']; [by eexists|].
  rewrite Ek'. simpl. set (c' := statusHandler b (set_worker (Some (ww_worker ww)) c)) in *.
  eexists. split; [reflexivity|]. simpl. split_and!; [|done|unfold st_inbound; simpl; by rewrite Hc, Q1|].
  - split; simpl; [|done|done]. exists c'. split; [done|].
    replace (set_worker (Some k') c') with c'; [done|]. destruct c'; simpl in *. by rewrite Ek'.
  - unfold outbound_queue in Q2. by rewrite Ek' in Q2.
Qed.

Lemma moves_call_status id b : polite id -> moves id (call_status manager_callbacks b).
Proof.
  intros Hp ww Hw. destruct (call_status_quiet id b ww Hp Hw) as (ww' & -> & K1 & K2 & K3 & K4).
  by apply wmove_same; simpl; rewrite ?K2.
Qed.

(** Sending an envelope: it is handed over or dropped. *)
Lemma send_move id env ww :
  speaks id env -> ww_ok id ww ->
  exists msgs, let ww' := (with_socket (send env) ww).1 in
    ww_ok id ww' /\ ww_owner ww' = ww_owner ww /\ ww_worker ww' = ww_worker ww /\
    zmq_pending (ww_socket ww') = zmq_pending (ww_socket ww) /\
    zmq_sent (ww_socket ww') = zmq_sent (ww_socket ww) ++ msgs /\
    Forall (fun m => exists env, m = wire_frames env /\ speaks id env) msgs /\
    (msgs ≫= pick_frames) `sublist_of` pick env.
Proof.
  intros Hs [Hob Ho Hc]. unfold with_socket, mlift. destruct (send env (ww_socket ww)) as [s' r] eqn:E.
  destruct (sendFrames_spec _ _ _ _ _ Ho E) as (K1 & K2 & K3 & K4). simpl.
  assert (Hw : ww_ok id (put_socket s' ww)) by (split; [done|done|simpl; congruence]).
  destruct K4 as [[_ K4]|[_ K4]].
  - exists [wire_frames env]. split_and!; try done.
    + constructor; [by exists env|constructor].
    + simpl. rewrite app_nil_r, pick_wire; [done|apply Hs].
  - exists []. split_and!; try done; [by rewrite app_nil_r|apply sublist_nil_l].
Qed.

Lemma wmove_send id env ww :
  speaks id env -> ww_ok id ww -> pick env = [] -> wmove id ww (with_socket (send env) ww).1.
Proof.
  intros Hs Hw Hp. destruct (send_move id env ww Hs Hw) as (msgs & K1 & K2 & K3 & K4 & K5 & K6 & K7).
  split; [done|unfold w_in; by rewrite K2, K4|]. exists msgs. split_and!; [done|done|].
  unfold w_out. rewrite K3. rewrite Hp in K7. apply sublist_nil_r in K7. by rewrite K7.
Qed.

Section drain.
Context (id : string) (get : ZmqWorker -> SafeQueue Envelope) (put : SafeQueue Envelope -> ZmqWorker -> ZmqWorker).

(** Taking an envelope out of the queue. *)
Context (Hpop : forall ww q env, ww_ok id ww -> try_pop (get (ww_worker ww)) = (q, Some env) ->
  ww_ok id (on_worker (put q) ww) /\ speaks id env /\
  (pick env ++ w_out (on_worker (put q) ww)) `sublist_of` w_out ww).

Lemma moves_drain fuel : moves id (drain_queue fuel get put).
Proof.
  induction fuel as [|fuel IH]; simpl; apply moves_get_bind; intros ww Hw;
    (destruct (try_pop (get (ww_worker ww))) as [q [env|]] eqn:E; [|by apply wmove_refl]);
    destruct (Hpop ww q env Hw E) as (K1 & K2 & K3);
    destruct (send_move id env (on_worker (put q) ww) K2 K1) as (msgs & J1 & J2 & J3 & J4 & J5 & J6 & J7);
    (assert (Hm : wmove id ww (with_socket (send env) (on_worker (put q) ww)).1);
     [split; [done|unfold w_in; by rewrite J2, J4|]; exists msgs; split_and!; [done|done|];
      unfold w_out at 1; rewrite J3; etrans; [|exact K3]; by apply sublist_app|]);
    unfold mbind, M_bind, mmodify at 1;
    destruct (with_socket (send env) (on_worker (put q) ww)) as [w1 [b|e]]; try done; simpl in *.
  - eapply wmove_trans; [exact Hm|]. by apply wmove_same; [destruct J1|..].
  - eapply wmove_trans; [exact Hm|].
    assert (Hd : ww_ok id (set_didWork true w1)) by (by destruct J1).
    eapply wmove_trans; [|by apply IH]. by apply wmove_same.
Qed.

End drain.

Lemma ww_ok_put id ww k :
  ww_ok id ww -> worker_ok id k -> ww_ok id (on_worker (fun _ => k) ww).
Proof.
  intros [(c & Hc & [M1 M2 M3]) Ho Hcur] Hk. split; [|done|done]. exists c. split; [done|].
  split; [done|done|]. by intros k' [= <-].
Qed.

Lemma moves_drain_control id : moves id drain_control.
Proof.
  intros ww Hw. apply moves_drain; [|done]. clear ww Hw. intros ww q env Hw E.
  pose proof (ww_ok_worker id ww Hw) as [K1 K2 K3]. unfold try_pop in E.
  destruct (m_queue (m_controlQueue (ww_worker ww))) as [|env' rest] eqn:Eq; [done|]. injection E as <- ->.
  apply Forall_cons in K2 as [[K4 K5] K6]. split_and!.
  - by apply (ww_ok_put id ww).
  - done.
  - by rewrite pick_control.
Qed.

Lemma moves_drain_outbound id : moves id drain_outbound.
Proof.
  intros ww Hw. apply moves_drain; [|done]. clear ww Hw. intros ww q env Hw E.
  pose proof (ww_ok_worker id ww Hw) as [K1 K2 K3]. unfold try_pop in E.
  destruct (m_queue (m_outboundQueue (ww_worker ww))) as [|env' rest] eqn:Eq; [done|]. injection E as <- ->.
  apply Forall_cons in K3 as [K4 K5]. split_and!.
  - by apply (ww_ok_put id ww).
  - done.
  - unfold w_out. rewrite Eq. done.
Qed.

Lemma moves_heartbeat id now : polite id -> moves id (heartbeat_if_due now).
Proof.
  intros (_ & _ & Hp). apply moves_get_bind. intros ww Hw. case_decide; [|by apply wmove_refl].
  pose proof (wo_config _ _ (ww_ok_worker id ww Hw)) as Hid.
  assert (Hm : wmove id ww (with_socket (send (control id Keys.HEARTBEAT "")) ww).1).
  { apply wmove_send; [done|done|by apply pick_control]. }
  unfold mbind at 1, M_bind at 1, sendHeartbeat, mbind at 1, M_bind at 1, mget. rewrite Hid.
  unfold send in Hm. unfold mbind, M_bind. simpl in Hm.
  destruct (with_socket _ ww) as [w1 [b|e]]; simpl in *; [|done].
  eapply wmove_trans; [exact Hm|]. apply wmove_same; [|done..]. by destruct (wm_ok _ _ _ Hm).
Qed.

Lemma moves_modify_worker id f :
  (forall k, m_config (f k) = m_config k /\ m_controlQueue (f k) = m_controlQueue k /\
     m_outboundQueue (f k) = m_outboundQueue k) -> moves id (mmodify (on_worker f)).
Proof.
  intros Hf ww Hw. destruct (Hf (ww_worker ww)) as (E1 & E2 & E3).
  apply wmove_same; simpl; [|done..|by rewrite E3]. apply (ww_ok_put id ww (f (ww_worker ww)) Hw).
  destruct (ww_ok_worker id ww Hw). by split; rewrite ?E1, ?E2, ?E3.
Qed.

Lemma moves_offline id now : polite id -> moves id (offline_if_silent manager_callbacks now).
Proof.
  intros Hp. apply moves_get_bind. intros ww Hw. case_match; [|by apply wmove_refl].
  apply (moves_bind id); [by apply moves_modify_worker|intros _; by apply moves_call_status|done].
Qed.

(** The envelope in hand goes to the end of the queue, or is dropped. *)
Lemma dispatch_move id env ww rest :
  ww_ok id ww -> zmq_pending (ww_socket ww) = rest ->
  let ww' := (dispatch_inbound manager_callbacks env ww).1 in
  ww_ok id ww' /\ ww_worker ww' = ww_worker ww /\ ww_socket ww' = ww_socket ww /\
  w_in ww' `sublist_of` (picks (st_inbound (ww_owner ww)) ++ pick env ++ (rest ≫= pick_frames)).
Proof.
  intros Hw <-. unfold dispatch_inbound. case_decide.
  { split_and!; [done..|]. unfold w_in. apply sublist_app; [done|]. by apply sublist_inserts_l. }
  pose proof Hw as [(c & Hc & [M1 M2 M3]) Ho Hcur]. cbn [cb_inboundQueue manager_callbacks].
  unfold mmodify, on_owner, manager_inbound; simpl. rewrite Hc. simpl. split_and!; [|done|done|].
  - split; [|done|done]. eexists. split; [reflexivity|]. by split.
  - unfold w_in, st_inbound; simpl. rewrite Hc, push_for_elem. unfold picks. rewrite bind_app, <-(assoc_L (++)).
    apply sublist_app; [done|]. apply sublist_app; [|done]. destruct (push_for _ _).2; simpl; [by rewrite app_nil_r|].
    apply sublist_nil_l.
Qed.

(** The status change of the first message after a silence moves nothing. *)
Lemma online_status_quiet id ww :
  polite id -> ww_ok id ww ->
  exists ww', (if m_isOnline (ww_worker ww) then mret tt
      else _ ← mmodify (on_worker (set_isOnline true)); call_status manager_callbacks true) ww = (ww', Ok tt) /\
    ww_ok id ww' /\ ww_socket ww' = ww_socket ww /\ st_inbound (ww_owner ww') = st_inbound (ww_owner ww) /\
    m_queue (m_outboundQueue (ww_worker ww')) = m_queue (m_outboundQueue (ww_worker ww)).
Proof.
  intros Hp Hw. destruct (m_isOnline (ww_worker ww)); [by exists ww|].
  rewrite (bind_ok _ _ _ (on_worker (set_isOnline true) ww) tt) by done.
  apply (call_status_quiet id true (on_worker (set_isOnline true) ww) Hp).
  apply (ww_ok_put id ww (set_isOnline true (ww_worker ww)) Hw). by destruct (ww_ok_worker id ww Hw).
Qed.

Lemma moves_receive id now : polite id -> forall ww, ww_ok id ww -> zmq_pollin (ww_socket ww) = true ->
  wmove id ww (receive_one manager_callbacks now ww).1.
Proof.
  intros Hp ww Hw Hpoll. pose proof Hw as [Hob Ho Hc].
  destruct (zmq_pending (ww_socket ww)) as [|g ms] eqn:Eg; [unfold zmq_pollin in Hpoll; by rewrite Eg in Hpoll|].
  destruct (recv_next false (ww_socket ww) g ms Hc Eg) as (s' & E & E1 & E2 & E3 & E4).
  set (w1 := put_socket s' ww). assert (Hw1 : ww_ok id w1) by (split; simpl; [done|congruence|done]).
  assert (Er : with_socket (recv false) ww = (w1, Ok (envelope_of_frames g)))
    by (unfold with_socket, mlift; by rewrite E).
  assert (Hin : w_in ww = picks (st_inbound (ww_owner w1)) ++ pick_frames g ++ (ms ≫= pick_frames))
    by (unfold w_in; by rewrite Eg).
  unfold receive_one. rewrite (bind_ok _ _ _ _ _ Er).
  unfold pick_frames at 1 in Hin. destruct (envelope_of_frames g) as [env|].
  2: { split; [done| |exists []; simpl; by rewrite E4, app_nil_r]. rewrite Hin. unfold w_in; simpl. by rewrite E2. }
  set (w2 := on_worker (set_lastRxTime now) (set_didWork true w1)).
  assert (Hw2 : ww_ok id w2).
  { apply (ww_ok_put id (set_didWork true w1) (set_lastRxTime now (ww_worker w1))); [by destruct Hw1|].
    by destruct (ww_ok_worker id w1 Hw1). }
  rewrite (bind_ok _ _ w1 (set_didWork true w1) tt) by done. rewrite (bind_ok _ _ _ w2 tt) by done.
  rewrite (bind_ok mget _ w2 w2 w2) by done.
  destruct (online_status_quiet id w2 Hp Hw2) as (w3 & Est & Hw3 & S1 & S2 & S3).
  rewrite (bind_ok _ _ _ _ _ Est).
  destruct (dispatch_move id env w3 ms Hw3) as (D1 & D2 & D3 & D4); [by rewrite S1|].
  split; [done|by rewrite Hin; etrans; [exact D4|]; rewrite S2|].
  exists []. unfold w_out. rewrite D2, D3, S1, S3, app_nil_r. split_and!; [done|constructor|done].
Qed.

Lemma moves_iteration id now_rx now :
  polite id -> moves id (run_iteration manager_callbacks now_rx now).
Proof.
  intros Hp. apply moves_get_bind. intros ww Hw.
  rewrite (bind_ok _ _ ww (set_didWork false ww) tt) by done.
  assert (Hd : ww_ok id (set_didWork false ww)) by (by destruct Hw).
  eapply wmove_trans; [by apply (wmove_same id ww (set_didWork false ww))|].
  set (w0 := set_didWork false ww) in *. change (ww_socket ww) with (ww_socket w0). clearbody w0. clear ww Hw.
  assert (Hm : wmove id w0 ((if zmq_pollin (ww_socket w0) then receive_one manager_callbacks now_rx
    else mret tt) w0).1).
  { destruct (zmq_pollin (ww_socket w0)) eqn:Ep; [by apply moves_receive|by apply wmove_refl]. }
  unfold mbind at 1, M_bind at 1. destruct ((if zmq_pollin (ww_socket w0) then receive_one manager_callbacks now_rx else mret tt) w0)
    as [w1 [u|e]]; [|done].
  eapply wmove_trans; [exact Hm|].
  assert (Hr : moves id (_ ← drain_control; _ ← drain_outbound; _ ← heartbeat_if_due now;
    offline_if_silent manager_callbacks now)).
  { apply moves_bind; [apply moves_drain_control|]. intros _. apply moves_bind; [apply moves_drain_outbound|].
    intros _. apply moves_bind; [by apply moves_heartbeat|]. intros _. by apply moves_offline. }
  apply Hr. by destruct Hm.
Qed.

Lemma moves_prologue id now : polite id -> moves id (run_prologue manager_callbacks now).
Proof.
  intros Hp. apply moves_bind.
  { intros ww Hw. by apply wmove_same; [destruct Hw|..]. }
  intros _. apply moves_bind; [by apply moves_modify_worker|]. intros _.
  apply moves_bind; [by apply moves_modify_worker|]. intros _.
  apply moves_bind; [by apply moves_call_status|]. intros _ ww Hw. by apply wmove_same; [destruct Hw|..].
Qed.

(** ** The worker's thread, seen from the process *)

Record node_ok (id : string) (nd : node (S:=S)) : Prop := {
  no_state : state_ok id (nd_state nd);
  no_open : zmq_open (nd_socket nd) = [];
  no_current : zmq_current (nd_socket nd) = []
}.

Definition n_in (nd : node (S:=S)) : list (string * string) :=
  picks (st_inbound (nd_state nd)) ++ (zmq_pending (nd_socket nd) ≫= pick_frames).
Definition n_out (nd : node (S:=S)) : list (string * string) := picks (st_outbound (nd_state nd)).

Lemma new_sent_app (s s' : S) msgs : zmq_sent s' = zmq_sent s ++ msgs -> new_sent s s' = msgs.
Proof. unfold new_sent. intros ->. apply drop_app_length. Qed.

Lemma node_run_ok id m nd :
  moves id m -> node_ok id nd ->
  let nd' := node_run m nd in
  node_ok id nd' /\ n_in nd' `sublist_of` n_in nd /\
  Forall (fun m => exists env, m = wire_frames env /\ speaks id env) (new_sent (nd_socket nd) (nd_socket nd')) /\
  ((new_sent (nd_socket nd) (nd_socket nd') ≫= pick_frames) ++ n_out nd') `sublist_of` n_out nd.
Proof.
  intros Hm Hn. unfold node_run. destruct (nd_worker nd) as [k|] eqn:Ek.
  2: { rewrite (new_sent_app _ _ []) by (by rewrite app_nil_r). by split_and!. }
  unfold nd_worker in Ek. destruct (cs_object (nd_state nd)) as [c|] eqn:Ec; [|done]. simpl in Ek.
  assert (Esame : set_worker (Some k) c = c) by (destruct c; simpl in *; by rewrite Ek).
  assert (Hw : ww_ok id (node_world k nd)).
  { split; simpl; [|by apply Hn..]. exists c. split; [done|]. rewrite Esame. by apply Hn. }
  destruct (Hm _ Hw) as [[(c' & Hc' & Hok') Ho' Hcur'] I (msgs & S1 & F1 & O1)].
  set (ww' := (m (node_world k nd)).1) in *.
  assert (Ein : st_inbound (store_worker (ww_worker ww') (ww_owner ww')) = st_inbound (ww_owner ww'))
    by (unfold st_inbound, store_worker; simpl; by rewrite Hc').
  assert (Eout : st_outbound (store_worker (ww_worker ww') (ww_owner ww')) = m_queue (m_outboundQueue (ww_worker ww')))
    by (unfold st_outbound, store_worker; simpl; by rewrite Hc').
  simpl. rewrite (new_sent_app _ _ msgs) by done. unfold n_in, n_out; simpl. rewrite Ein, Eout. split_and!.
  - split; [|done|done]. unfold state_ok, store_worker; simpl. rewrite Hc'. simpl. by intros ? [= <-].
  - exact I.
  - done.
  - unfold st_outbound. rewrite Ec. unfold outbound_queue. rewrite Ek. exact O1.
Qed.

End flow.

End facts.
