(* ===== verification/Schedule.v ===== *)
(** * Schedules of the whole system

    Runs of [System.sys_step] given by a list of commands, one per thread or
    connection, so that a run can be computed. *)

From stdpp Require Import relations.
From S2P Require Import Prelude Keys CppString SafeQueue SubscriptionRegistry MessageHeader.
From S2P Require Import Stats Payload Wire Worker Uuid Discovery Broker BrokerFacts BrokerTheorems Client ClientTheorems System SystemFacts.

(** ** A scheduler *)

Section scheduler.
Context `{StatsRuntime} `{!HeaderParser} {G : Type} `{HexGen G} {S : Type} `{ZmqSocket S}
  `{!ZmqNetwork S} `{UnorderedOrder}.

Implicit Types y : system (G:=G) (S:=S).

(** Callbacks that only look at their data. *)
Definition silent : user_code := mkUser (fun _ _ => mret tt) (fun _ _ _ _ _ => mret tt).

(** The data messages a process has queued, and those it queued since. *)
Definition queued (s : client_state) : list Envelope :=
  match cs_object s with Some c => outbound_queue c | None => [] end.

Definition newly_queued (s s' : client_state) : list Envelope := drop (length (queued s)) (queued s').

Context (user : string -> user_code) (may_say : string -> Envelope -> Prop).

Inductive command :=
  | CPublish (id : string) (env : Envelope)
  | CRequest (id requestTopic payload : string) (p : Z) (g : G)
  | CWorker (id : string) (now_rx now : Z)
  | CProcess (id : string)
  | CBroker (now_rx now now_stats : Z)
  | CUp (id : string)
  | CDown (id : string).

Definition exec (c : command) y : option (list event * system) :=
  match c with
  | CPublish id env =>
      nd ← sys_nodes y !! id;
      let '(s, ok) := on_instance (sendRawEnvelope env) (nd_state nd) in
      Some (if ok : bool then [Published id env] else [], put_state id nd s y)
  | CRequest id t payload p g =>
      nd ← sys_nodes y !! id;
      let s := (sendRequest_begin t payload p g (nd_state nd)).1.1 in
      Some (Published id <$> newly_queued (nd_state nd) s, put_state id nd s y)
  | CWorker id now_rx now =>
      nd ← sys_nodes y !! id; k ← nd_worker nd;
      if Worker.m_running k
      then Some ([], run_worker (run_iteration manager_callbacks now_rx now) id nd y) else None
  | CProcess id =>
      nd ← sys_nodes y !! id; p ← pop_inbound (nd_state nd);
      match processing_round (user id) p.1 p.2 with
      | (s, Ok ok) =>
          Some (if decide (handler_key (Wire.header p.1) = Keys.RESET) then []
                else (if ok : bool then [Handled id p.1] else []) ++ (Published id <$> newly_queued p.2 s),
                put_state id nd s y)
      | _ => None
      end
  | CBroker now_rx now now_stats => Some ([], run_broker now_rx now now_stats y)
  | CUp id =>
      x ← list_find (fun x => x.1 = id) (sys_up y);
      Some ([], mkSystem (put_router (zmq_deliver (bw_router (sys_broker y)) id x.2.2) (sys_broker y))
                  (sys_nodes y) (take x.1 (sys_up y) ++ drop (Datatypes.S x.1) (sys_up y)) (sys_down y))
  | CDown id =>
      nd ← sys_nodes y !! id; x ← list_find (fun x => x.1 = id) (sys_down y);
      match x.2.2 with
      | f :: fs =>
          Some ([], mkSystem (sys_broker y)
            (<[id := mkNode (nd_state nd) (zmq_deliver (nd_socket nd) f fs) (nd_heartbeat nd)]> (sys_nodes y))
            (sys_up y) (take x.1 (sys_down y) ++ drop (Datatypes.S x.1) (sys_down y)))
      | [] => None
      end
  end.

Fixpoint exec_all (cs : list command) y : option (list event * system) :=
  match cs with
  | [] => Some ([], y)
  | c :: cs => p ← exec c y; q ← exec_all cs p.2; Some (p.1 ++ q.1, q.2)
  end.

(** What a request hands to the library. *)
Definition request_envelope (t replyTopic data : string) (c : ConnectionManager) : Envelope :=
  mkEnvelope _ (set_reply_topic replyTopic (set_topic t (set_sender_id (m_clientId c)
    (set_handler_key t header_new)))) data.

(** What the instance that makes the request says. *)
Definition request_ok (id t data : string) (g : G) (s : client_state) : Prop := forall c,
  let replyTopic := t +:+ (generateUUID g).1 in
  getInstance s = Some c ->
  Keys.isControlMessage t = false /\
  may_say id (createControlEnvelope Keys.SUBSCRIBE replyTopic c) /\
  may_say id (createControlEnvelope Keys.UNSUBSCRIBE replyTopic c) /\
  may_say id (request_envelope t replyTopic data c).

(** The processes say what they may say; callbacks that run on an envelope do nothing
    but use the library, and what they publish is what they add to the queue. *)
Definition command_ok y (c : command) : Prop :=
  match c with
  | CPublish id env => may_say id env /\ Keys.isControlMessage (handler_key (Wire.header env)) = false
  | CRequest id t data p g => forall nd, sys_nodes y !! id = Some nd -> request_ok id t data g (nd_state nd)
  | CProcess id => forall nd env s s' ok,
      sys_nodes y !! id = Some nd -> pop_inbound (nd_state nd) = Some (env, s) ->
      processing_round (user id) env s = (s', Ok ok) -> handler_key (Wire.header env) <> Keys.RESET ->
      api_run id (may_say id) s (Published id <$> newly_queued s s') s'
  | _ => True
  end.

Lemma find_split {X} (l : list (string * X)) id i x :
  list_find (fun x => x.1 = id) l = Some (i, x) ->
  l = take i l ++ (id, x.2) :: drop (Datatypes.S i) l /\ id ∉ (take i l).*1.
Proof.
  intros (E & <- & Hm)%list_find_Some. split.
  - by rewrite <-surjective_pairing, take_drop_middle.
  - intros (z & Ez & [j Hz]%list_elem_of_lookup)%list_elem_of_fmap.
    apply lookup_take_Some in Hz as [Hz Hj]. by destruct (Hm j z Hz Hj).
Qed.

Lemma api_run_app id s es s1 s2 :
  api_run id (may_say id) s es s1 -> api_run id (may_say id) s1 [] s2 -> api_run id (may_say id) s es s2.
Proof.
  intros Hr H2'. induction Hr as [s|s es1 s1 es2 s3 Hs _ IH]; [done|]. econstructor; [exact Hs|by apply IH].
Qed.

Lemma api_run_one id s s' : api_step id (may_say id) s [] s' -> api_run id (may_say id) s [] s'.
Proof. intros Hs. change ([] : list event) with ([] ++ [] : list event). econstructor; [exact Hs|constructor]. Qed.

(** Silent callbacks set promises, and nothing else. *)
Lemma silent_callbacks id data es s :
  exists s', mfor (fun e => try_ignore (run_callback silent (ce_func e) data)) es s = (s', Ok tt) /\
    api_run id (may_say id) s [] s' /\ cs_object s' = cs_object s.
Proof.
  revert s. induction es as [|[inst f] es IH]; intros s; [exists s; split_and!; [done|constructor|done]|].
  assert (exists s1, try_ignore (run_callback silent f data) s = (s1, Ok tt) /\ api_run id (may_say id) s [] s1 /\
    cs_object s1 = cs_object s) as (s1 & E1 & R1 & O1).
  { destruct f as [|f|p|t f u]; try (exists s; split_and!; [done|constructor|done]).
    exists (set_value p data s). split; [done|]. unfold set_value.
    destruct (cs_promises s !! p) as [[v|]|]; try (split; [constructor|done]). split; [apply api_run_one, api_promises|done]. }
  destruct (IH s1) as (s2 & E2 & R2 & O2). exists s2. simpl. rewrite (bind_ok _ _ _ _ _ E1).
  split_and!; [done|by eapply api_run_app|congruence].
Qed.

Lemma nothing_new s s' : cs_object s' = cs_object s -> newly_queued s s' = [].
Proof. intros E. unfold newly_queued, queued. rewrite E. apply drop_all. Qed.

Lemma silent_round id env s s' ok :
  processing_round silent env s = (s', Ok ok) -> handler_key (Wire.header env) <> Keys.RESET ->
  api_run id (may_say id) s (Published id <$> newly_queued s s') s'.
Proof.
  intros Er Hk. cut (api_run id (may_say id) s [] s' /\ cs_object s' = cs_object s).
  { intros [K1 K2]. by rewrite nothing_new. }
  revert Er. unfold processing_round. rewrite (bind_ok mget _ s s s) by done.
  destruct (cs_object s) as [c|] eqn:Ec; [|intros [= <- _]; by split; [constructor|]].
  destruct (negb (Client.m_running c)); [intros [= <- _]; by split; [constructor|]|].
  rewrite decide_False by done. unfold handleMessage. unfold mbind at 1, M_bind at 1.
  rewrite (bind_ok mget _ s s s) by done. rewrite Ec.
  rewrite (bind_ok _ _ s (set_replyTopic (reply_topic (Wire.header env)) s) tt) by done.
  destruct (silent_callbacks id (Wire.payload env) (default [] (m_msgHandlers c !! topic (Wire.header env)))
    (set_replyTopic (reply_topic (Wire.header env)) s)) as (s1 & E1 & R1 & O1).
  rewrite (bind_ok _ _ _ _ _ E1). intros [= <- _]. split; [|by simpl; rewrite O1].
  eapply api_run_app; [apply api_run_one, api_reply_topic|].
  eapply api_run_app; [exact R1|]. apply api_run_one, api_reply_topic.
Qed.

Lemma silent_ok y id : user id = silent -> command_ok y (CProcess id).
Proof. intros Hu nd env s s' ok _ _. rewrite Hu. apply silent_round. Qed.

(** ** Runs *)

Lemma sys_run_app y es1 y1 es2 y2 :
  sys_run user may_say y es1 y1 -> sys_run user may_say y1 es2 y2 -> sys_run user may_say y (es1 ++ es2) y2.
Proof.
  induction 1 as [y|y e1 y1' e2 y2' Hs _ IH]; [done|]. intros K. rewrite <-(assoc_L (++)).
  econstructor; [exact Hs|by apply IH].
Qed.

Lemma sys_run_one y es y' : sys_step user may_say y es y' -> sys_run user may_say y es y'.
Proof. intros Hs. rewrite <-(app_nil_r es). econstructor; [exact Hs|constructor]. Qed.

Lemma put_state_again id nd s s' y :
  put_state id (mkNode s (nd_socket nd) (nd_heartbeat nd)) s' (put_state id nd s y) = put_state id nd s' y.
Proof. unfold put_state. cbn. by rewrite insert_insert_eq. Qed.

(** What the library is asked to do in a row. *)
Lemma api_run_sys id nd s es s' y :
  sys_nodes y !! id = Some (mkNode s (nd_socket nd) (nd_heartbeat nd)) -> api_run id (may_say id) s es s' ->
  sys_run user may_say y es (put_state id nd s' y).
Proof.
  intros Hn Hr. revert y Hn. induction Hr as [s|s es1 s1 es2 s2 Hs _ IH]; intros y Hn.
  - unfold put_state. rewrite insert_id by done. destruct y. constructor.
  - econstructor; [eapply step_app; [exact Hn|exact Hs]|]. cbn [nd_socket nd_heartbeat].
    rewrite <-(put_state_again id nd s1 s2). apply (IH (put_state id nd s1 y)). cbn. apply lookup_insert_eq.
Qed.

(** A request is a promise, a registration and a message. *)
Lemma send_queues env c :
  outbound_queue (sendRawEnvelope env c).1 = outbound_queue c ++
    (if Keys.isControlMessage (handler_key (Wire.header env)) then []
     else if (sendRawEnvelope env c).2 then [env] else []).
Proof.
  unfold sendRawEnvelope. destruct (m_pWorker c) as [k|] eqn:Ek; [|by destruct (Keys.isControlMessage _); rewrite app_nil_r].
  unfold outbound_queue at 2. rewrite Ek. destruct (Keys.isControlMessage _).
  - unfold writeControlMessage. destruct (push_for env (m_controlQueue k)). cbn. by rewrite app_nil_r.
  - unfold writeMessage. pose proof (push_for_elem env (m_outboundQueue k)) as E.
    by destruct (push_for env (m_outboundQueue k)) as [q ok].
Qed.

Lemma registration_queues key cb inst c : outbound_queue (performRegistration key cb inst c) = outbound_queue c.
Proof.
  unfold performRegistration. set (c1 := set_handlers _ c). destruct (m_connected c1); [|done].
  rewrite send_queues. change (handler_key _) with Keys.SUBSCRIBE. by rewrite app_nil_r.
Qed.

Lemma performRegistration_id key cb inst c : m_clientId (performRegistration key cb inst c) = m_clientId c.
Proof.
  unfold performRegistration. set (c1 := set_handlers _ c). destruct (m_connected c1); [|done].
  by destruct (sendRawEnvelope_same (createControlEnvelope Keys.SUBSCRIBE key c1) c1) as (-> & _).
Qed.

Lemma request_api id t data p g s :
  request_ok id t data g s ->
  let s' := (sendRequest_begin t data p g s).1.1 in
  api_run id (may_say id) s (Published id <$> newly_queued s s') s'.
Proof.
  intros Hok. unfold sendRequest_begin. destruct (getInstance s) as [c|] eqn:Ei.
  2: { cbn. rewrite nothing_new by done. constructor. }
  destruct (Hok c Ei) as (K1 & K2 & K3 & K4). clear Hok.
  assert (Hi : cs_published s = true /\ cs_object s = Some c) by (revert Ei; unfold getInstance; by destruct (cs_published s)).
  destruct Hi as [Hp Hc]. destruct (generateUUID g) as [u g'] eqn:Eg. cbn [fst] in *.
  set (rt := t +:+ u) in *. set (c1 := performRegistration rt (PromiseFn p) p c).
  pose proof (send_queues (request_envelope t rt data c1) c1) as Eq. fold (request_envelope t rt data c1).
  destruct (sendRawEnvelope (request_envelope t rt data c1) c1) as [c2 ok] eqn:Es. cbn [fst snd] in *.
  change (handler_key _) with t in Eq. rewrite K1 in Eq.
  assert (Eo : outbound_queue c1 = outbound_queue c) by apply registration_queues. rewrite Eo in Eq.
  assert (En : newly_queued s (set_object (Some c2) (set_promises (<[p:=None]> (cs_promises s)) s)) =
    if ok then [request_envelope t rt data c1] else []).
  { unfold newly_queued, queued. rewrite Hc. cbn [set_object cs_object]. by rewrite Eq, drop_app_length. }
  assert (Ec1 : request_envelope t rt data c1 = request_envelope t rt data c).
  { unfold request_envelope, c1. by rewrite performRegistration_id. }
  rewrite En. rewrite <-(app_nil_l (Published id <$> _)).
  eapply api_more; [apply (api_promises _ _ (<[p:=None]> (cs_promises s)))|].
  rewrite <-(app_nil_l (Published id <$> _)).
  eapply api_more; [apply (api_register _ _ rt (PromiseFn p) p); cbn; rewrite Hc; by intros ? [= <-]|].
  rewrite <-(app_nil_r (Published id <$> _)).
  replace (Published id <$> (if ok then [request_envelope t rt data c1] else [])) with
    (if ok then [Published id (request_envelope t rt data c1)] else []) by (by destruct ok).
  eapply api_more; [|apply api_done]. apply api_send; [by rewrite Ec1|done|].
  unfold on_instance, registerInternal, getInstance. cbn. rewrite Hp, Hc. cbn. rewrite Hp. fold c1. by rewrite Es.
Qed.

Lemma exec_sound c y es y' :
  command_ok y c -> exec c y = Some (es, y') -> sys_run user may_say y es y'.
Proof.
  destruct c as [id env|id t data p g|id t1 t2|id|t1 t2 t3|id|id]; simpl; intros Hc E.
  - destruct (sys_nodes y !! id) as [nd|] eqn:En; [|done]. simpl in E.
    destruct (on_instance (sendRawEnvelope env) (nd_state nd)) as [s ok] eqn:Eo. injection E as <- <-.
    eapply sys_run_one, step_app; [exact En|]. by eapply api_send; [apply Hc..|].
  - destruct (sys_nodes y !! id) as [nd|] eqn:En; [|done]. injection E as <- <-.
    destruct nd as [s k h]. eapply (api_run_sys id (mkNode s k h)); [exact En|]. by apply request_api, Hc.
  - destruct (sys_nodes y !! id) as [nd|] eqn:En; [|done]. simpl in E.
    destruct (nd_worker nd) as [k|] eqn:Ek; [|done]. simpl in E.
    destruct (Worker.m_running k) eqn:Er; [|done]. injection E as <- <-. by eapply sys_run_one, step_worker.
  - destruct (sys_nodes y !! id) as [nd|] eqn:En; [|done]. simpl in E.
    destruct (pop_inbound (nd_state nd)) as [[env s]|] eqn:Ep; [|done]. simpl in E.
    destruct (processing_round (user id) env s) as [s' [ok|e]] eqn:Er; [|done]. injection E as <- <-.
    specialize (Hc nd env s s' ok eq_refl Ep Er). apply sys_run_one.
    case_decide as D.
    + pose proof (step_process user may_say y id nd env s s' ok [] En Ep Er) as K. rewrite !decide_True in K by done. by apply K.
    + pose proof (step_process user may_say y id nd env s s' ok (Published id <$> newly_queued s s') En Ep Er) as K.
      rewrite !decide_False in K by done. by apply K, Hc.
  - injection E as <- <-. apply sys_run_one. constructor.
  - destruct (list_find _ (sys_up y)) as [[i [id' fs]]|] eqn:Ef; [|done]. injection E as <- <-.
    apply find_split in Ef as [E1 E2]. by eapply sys_run_one, step_up.
  - destruct (sys_nodes y !! id) as [nd|] eqn:En; [|done]. simpl in E.
    destruct (list_find _ (sys_down y)) as [[i [id' fs]]|] eqn:Ef; [|done]. simpl in E.
    destruct fs as [|f fs]; [done|]. injection E as <- <-.
    apply find_split in Ef as [E1 E2]. by eapply sys_run_one, step_down.
Qed.

(** A computed run, step by step. *)
Definition runs (cs : list command) y es y' : Prop :=
  exec_all cs y = Some (es, y') /\ sys_run user may_say y es y'.

Lemma runs_one c y es y' : command_ok y c -> exec c y = Some (es, y') -> runs [c] y es y'.
Proof.
  intros Hc E. split; [|by eapply exec_sound]. cbn. rewrite E. cbn. by rewrite app_nil_r.
Qed.

Lemma exec_all_sound cs y es y' :
  Forall (fun c => forall y, command_ok y c) cs -> exec_all cs y = Some (es, y') -> sys_run user may_say y es y'.
Proof.
  revert y es. induction cs as [|c cs IH]; intros y es Hc; simpl; [intros [= <- <-]; constructor|].
  apply Forall_cons in Hc as [Hc Hcs]. destruct (exec c y) as [[es1 y1]|] eqn:E1; [|done]. simpl.
  destruct (exec_all cs y1) as [[es2 y2]|] eqn:E2; [|done]. intros [= <- <-].
  eapply sys_run_app; [by apply (exec_sound c)|by apply IH].
Qed.

Lemma exec_all_app cs1 cs2 y es1 y1 es2 y2 :
  exec_all cs1 y = Some (es1, y1) -> exec_all cs2 y1 = Some (es2, y2) -> exec_all (cs1 ++ cs2) y = Some (es1 ++ es2, y2).
Proof.
  revert y es1. induction cs1 as [|c cs1 IH]; intros y es1; cbn; [by intros [= <- <-]|].
  destruct (exec c y) as [[e0 y0]|]; [|done]. cbn. destruct (exec_all cs1 y0) as [[e1 y1']|] eqn:E1; [|done]. cbn.
  intros [= <- <-] E2. rewrite (IH y0 e1 E1 E2). cbn. by rewrite (assoc_L (++)).
Qed.

Lemma runs_app cs1 cs2 y es1 y1 es2 y2 :
  runs cs1 y es1 y1 -> runs cs2 y1 es2 y2 -> runs (cs1 ++ cs2) y (es1 ++ es2) y2.
Proof. intros [E1 R1] [E2 R2]. split; [by eapply exec_all_app|by eapply sys_run_app]. Qed.

End scheduler.
