(* ===== verification/SystemTheorems.v ===== *)
(** * Clients and a broker: ordered delivery

    Over every interleaving of the threads of all processes and of the broker,
    with any losses, what a client's callbacks get from another client on a topic
    is what that client published on it, in the order it was published, without
    repetition and unchanged. *)

From stdpp Require Import relations.
From S2P Require Import Prelude Keys CppString SafeQueue SubscriptionRegistry MessageHeader.
From S2P Require Import Stats Payload Wire Worker Uuid Discovery Broker BrokerFacts BrokerTheorems.
From S2P Require Import Client ClientTheorems System SystemFacts.

Section theorems.
Context `{StatsRuntime} `{!HeaderParser} {G : Type} `{HexGen G} {S : Type} `{ZmqSocket S}
  `{!ZmqNetwork S} `{UnorderedOrder}.

Implicit Types b : ZmqBroker.
Implicit Types w : broker_world (G:=G) (S:=S).
Implicit Types y : system (G:=G) (S:=S).
Implicit Types env : Envelope.

(** ** The broker's thread *)

(** The broker sent these messages, and read nothing. *)
Record bmove w w' (msgs : list (list string)) : Prop := {
  bm_sent : zmq_sent (bw_router w') = zmq_sent (bw_router w) ++ msgs;
  bm_pending : zmq_pending (bw_router w') = zmq_pending (bw_router w);
  bm_current : zmq_current (bw_router w') = zmq_current (bw_router w);
  bm_id : m_brokerId (bw_broker w') = m_brokerId (bw_broker w);
  bm_peers : m_peerInboundQueue (bw_broker w') = m_peerInboundQueue (bw_broker w)
}.

Lemma bmove_refl w : bmove w w [].
Proof. split; try done. by rewrite app_nil_r. Qed.

Lemma bmove_trans w1 w2 w3 m1 m2 : bmove w1 w2 m1 -> bmove w2 w3 m2 -> bmove w1 w3 (m1 ++ m2).
Proof. intros [] []. split; try congruence. by rewrite (assoc_L (++)); congruence. Qed.

(** Only the broker's own state changed. *)
Lemma bmove_broker w w' :
  bw_router w' = bw_router w -> m_brokerId (bw_broker w') = m_brokerId (bw_broker w) ->
  m_peerInboundQueue (bw_broker w') = m_peerInboundQueue (bw_broker w) -> bmove w w' [].
Proof. intros E1 E2 E3. split; rewrite ?E1; try done. by rewrite app_nil_r. Qed.

Lemma isDuplicate_same u b :
  m_brokerId (isDuplicate u b).1 = m_brokerId b /\
  m_peerInboundQueue (isDuplicate u b).1 = m_peerInboundQueue b /\
  m_subscriptions (isDuplicate u b).1 = m_subscriptions b.
Proof. unfold isDuplicate. by repeat case_match. Qed.

Lemma flood_peers_same h p b :
  m_brokerId (flood_peers h p b) = m_brokerId b /\
  m_peerInboundQueue (flood_peers h p b) = m_peerInboundQueue b.
Proof. by rewrite flood_peers_fmap. Qed.

(** What the broker answers to a local client: its message to others, or a
    message of its own to the sender. *)
Definition own_header (h : MessageHeader) : Prop := h = reset_header \/ h = ack_header.

Lemma process_core_out now h p snd b :
  broker_inv b ->
  let '(b', (ids, hb, q)) := process_core now h p snd false b in
  NoDup ids /\ m_brokerId b' = m_brokerId b /\ m_peerInboundQueue b' = m_peerInboundQueue b /\
  (hb = encodeHeader h /\ q = p \/ exists h', own_header h' /\ hb = encodeHeader h' /\ q = "").
Proof.
  intros Hb. unfold process_core, own_header.
  case_decide; [by split_and!; [constructor|..|left]|].
  case_decide; [by split_and!; [apply NoDup_singleton|..|right; eauto]|].
  case_decide; [by split_and!; [apply NoDup_singleton|..|right; eauto]|].
  do 3 (case_decide; [by split_and!; [constructor|..|left]|]).
  set (b1 := set_clients _ b). destruct (isDuplicate_same (message_uuid h) b1) as (K1 & K2 & K3).
  destruct (isDuplicate (message_uuid h) b1) as [b2 []]; simpl in *.
  - by split_and!; [constructor|..|left].
  - destruct (flood_peers_same h p b2) as [K4 K5]. rewrite K4, K5, K1, K2.
    split_and!; [|done|done|by left]. apply NoDup_recipients. rewrite K3. apply Hb.
Qed.

Lemma processMessage_move now h p snd w :
  world_inv w ->
  exists hdr q ids, bmove w (processMessage now h p snd false w).1
      ((fun id => id :: wire_frames (mkEnvelope _ hdr q)) <$> ids) /\ NoDup ids /\
    (hdr = stamped h w /\ q = p \/ own_header hdr /\ q = "").
Proof.
  intros Hw. rewrite processMessage_core. destruct (stamp_eq h w) as [g ->].
  unfold with_inspector, mlift. destruct (sendFrames _ p (bw_inspector (put_gen g w))) as [s1 [u|e]] eqn:E.
  2: { exists (stamped h w), p, []. split_and!; [by apply bmove_broker|constructor|by left]. }
  set (w2 := put_inspector s1 (put_gen g w)). change (bw_broker w2) with (bw_broker w).
  pose proof (process_core_out now (stamped h w) p snd (bw_broker w) (wi_broker _ Hw)) as K.
  destruct (process_core now (stamped h w) p snd false (bw_broker w)) as [b' [[ids hb] q]]. destruct K as (K1 & K2 & K3 & K4).
  unfold with_router, mlift; simpl.
  destruct (send_each hb q ids (bw_router w)) as [s2 r] eqn:E2.
  destruct (send_each_spec _ _ _ _ _ _ (wi_router _ Hw) E2) as (_ & _ & L1 & L2 & served & L3 & L4).
  assert (exists hdr, hb = encodeHeader hdr /\ (hdr = stamped h w /\ q = p \/ own_header hdr /\ q = ""))
    as (hdr & -> & Hq) by (destruct K4 as [[-> ->]|(h' & ? & -> & ->)]; eauto).
  exists hdr, q, served. split_and!; [|by eapply sublist_NoDup|done].
  by split; [exact L4|..].
Qed.

Lemma send_reports_move hdr q ids w :
  world_inv w ->
  exists served, bmove w (mfor (fun id => with_router (sendToClient id (encodeHeader hdr) q)) ids w).1
    ((fun id => id :: wire_frames (mkEnvelope _ hdr q)) <$> served).
Proof.
  intros Hw. rewrite (mfor_send_each _ (fun _ _ => true) (encodeHeader hdr) q) by done.
  unfold with_router, mlift. destruct (send_each _ q _ (bw_router w)) as [s2 r] eqn:E2.
  destruct (send_each_spec _ _ _ _ _ _ (wi_router _ Hw) E2) as (_ & _ & L1 & L2 & served & L3 & L4).
  exists served. by split; [exact L4|..].
Qed.

Lemma remove_zombies_same now b :
  m_brokerId (remove_zombies now b) = m_brokerId b /\
  m_peerInboundQueue (remove_zombies now b) = m_peerInboundQueue b.
Proof.
  unfold remove_zombies. generalize (umap_iter (m_clients b)). intros l. revert b.
  induction l as [|[id st] l IH]; intros b; simpl; [done|]. case_decide; [|apply IH].
  destruct (IH (broker_removeClient id b)) as [-> ->]. done.
Qed.

(** The rest of an iteration, with nothing from other brokers: reports only. *)
Lemma after_receive_move now now_stats w :
  world_inv w -> m_queue (m_peerInboundQueue (bw_broker w)) = [] ->
  exists q ids, bmove w ((_ ← drain_peers; _ ← cleanup_if_due now; stats_if_due now now_stats) w).1
    ((fun id => id :: wire_frames (mkEnvelope _ stats_header q)) <$> ids).
Proof.
  intros Hw Hq.
  assert (Ed : drain_peers w = (w, Ok tt)).
  { unfold drain_peers. rewrite Hq. simpl. unfold mbind, M_bind, mget, try_pop. by rewrite Hq. }
  rewrite (bind_ok _ _ _ _ _ Ed).
  assert (Hc : exists w1, cleanup_if_due now w = (w1, Ok tt) /\ bmove w w1 [] /\ world_inv w1).
  { unfold cleanup_if_due. rewrite (bind_ok mget _ w w w) by done. case_decide.
    - eexists. split; [reflexivity|]. destruct (remove_zombies_same now (bw_broker w)) as [K1 K2].
      split; [by apply bmove_broker|]. destruct Hw as [Hb Hr Hi]. split; [|done|done]. simpl.
      rewrite remove_zombies_eq. by apply remove_loop_spec.
    - exists w. split_and!; [done|apply bmove_refl|done]. }
  destruct Hc as (w1 & E1 & B1 & Hw1). rewrite (bind_ok _ _ _ _ _ E1).
  unfold stats_if_due. rewrite (bind_ok mget _ w1 w1 w1) by done. case_decide.
  2: { by exists "", []. }
  unfold broadcastStats. unfold mbind at 1, M_bind at 1. rewrite (bind_ok mget _ w1 w1 w1) by done.
  set (q := pack_stats _).
  unfold mbind at 1, M_bind at 1. unfold with_inspector at 1, mlift.
  destruct (sendFrames _ q (bw_inspector w1)) as [s1 [u|e]] eqn:E.
  2: { exists q, []. apply (bmove_trans w w1 _ [] []); [exact B1|]. by apply bmove_broker. }
  set (w2 := put_inspector s1 w1).
  assert (Hw2 : world_inv w2).
  { destruct Hw1 as [Hb Hr Hi]. split; [done|done|]. simpl. by destruct (sendFrames_spec _ _ _ _ _ Hi E). }
  assert (B2 : bmove w w2 []) by (by destruct B1; split).
  destruct (subscribersOf Keys.SYS_STATS _) as [subs|].
  - destruct (send_reports_move stats_header q subs w2 Hw2) as (ids & B3).
    exists q, ids. pose proof (bmove_trans _ _ _ _ _ B2 B3) as B4. simpl in B4.
    destruct (mfor _ subs w2) as [w3 [u'|e]]; [|done].
    rewrite <-(app_nil_r (_ <$> _)). eapply bmove_trans; [exact B4|]. by apply bmove_broker.
  - exists q, []. apply (bmove_trans w w2 _ [] []); [exact B2|]. by apply bmove_broker.
Qed.

(** ** Messages of one sender on one topic, towards one receiver *)

Context (bid : string) (A B t : string).
Context (Ht : Keys.isControlMessage t = false).
Context (HA : A <> "" /\ A <> "BROKER_SYSTEM").

(** The headers the broker makes itself survive the wire. *)
Context (Hown : Forall (header_encodable IsStructurallyValidUTF8) [reset_header; ack_header; stats_header]).

Notation pick := (pick A t).
Notation picks := (picks A t).
Notation pick_frames := (pick_frames A t).
Notation speaks := (speaks (G:=G) bid).

(** What the router has sent to the receiver. *)
Definition to_receiver (x : string * list string) : list (string * string) :=
  if decide (x.1 = B) then pick_frames x.2 else [].

Definition received (msgs : list (list string)) : list (string * string) :=
  (msgs ≫= addressed) ≫= to_receiver.

Lemma received_cons id frames msgs :
  received ((id :: frames) :: msgs) = to_receiver (id, frames) ++ received msgs.
Proof. done. Qed.

Lemma received_app m1 m2 : received (m1 ++ m2) = received m1 ++ received m2.
Proof. unfold received. by rewrite !bind_app. Qed.

Lemma pick_not_sender env : sender_id (Wire.header env) <> A -> pick env = [].
Proof. intros Hs. unfold SystemFacts.pick. rewrite decide_False; [done|]. by intros (E & _). Qed.

Lemma to_receiver_routed env ids :
  NoDup ids -> carried env ->
  received ((fun id => id :: wire_frames env) <$> ids) `sublist_of` pick env.
Proof.
  intros Hn Hc. induction Hn as [|id ids Hid Hn IH]; [apply sublist_nil_l|].
  rewrite fmap_cons, received_cons. unfold to_receiver; simpl. case_decide as E; [|done]. subst id.
  rewrite pick_wire by done. assert (received ((fun id => id :: wire_frames env) <$> ids) = []) as ->.
  { clear IH Hn. induction ids as [|id ids IH]; [done|]. apply not_elem_of_cons in Hid as [K1 K2].
    rewrite fmap_cons, received_cons. unfold to_receiver; simpl. rewrite decide_False by done. by apply IH. }
  by rewrite app_nil_r.
Qed.

Lemma to_receiver_other env ids :
  carried env -> sender_id (Wire.header env) <> A ->
  received ((fun id => id :: wire_frames env) <$> ids) = [].
Proof.
  intros Hc Hs. induction ids as [|id ids IH]; [done|]. rewrite fmap_cons, received_cons, IH.
  unfold to_receiver; simpl. rewrite pick_wire, pick_not_sender by done. by case_decide.
Qed.

Lemma own_carried h q : own_header h \/ h = stats_header -> carried (mkEnvelope _ h q).
Proof.
  apply Forall_cons in Hown as [K1 [K2 [K3 _]%Forall_cons]%Forall_cons].
  intros [[->| ->]| ->]; split; simpl; try done;
    unfold reset_header, ack_header, stats_header; auto 10 with wisp.
Qed.

(** The stamped header of a message that was read, as the receiver gets it. *)
Lemma stamped_carried id env h w :
  speaks id env -> header_wf h -> h ≡ Wire.header env -> m_brokerId (bw_broker w) = bid ->
  carried (mkEnvelope _ (stamped h w) (Wire.payload env)) /\
  pick (mkEnvelope _ (stamped h w) (Wire.payload env)) = pick env.
Proof.
  intros [[Hwf Henc] Hsnd Hfresh Hst] Hh Eh Hid.
  set (stamp1 h := set_origin_broker_id bid (set_message_uuid (generateUUID (bw_gen w)).1 h)).
  assert (Es : stamped h w = stamp1 h).
  { unfold stamped, stamp1. rewrite decide_True by (by rewrite Eh). by rewrite Hid. }
  assert (Eq : stamp1 h ≡ stamp1 (Wire.header env)) by (unfold stamp1; by rewrite Eh).
  assert (Hwf1 : forall h, header_wf h -> header_wf (stamp1 h)) by (intros; unfold stamp1; auto with wisp).
  rewrite Es. split.
  - split; cbn [Wire.header]; [by apply Hwf1|].
    apply (header_encodable_equiv _ _ (stamp1 (Wire.header env))); [by apply Hwf1..|exact Eq|apply Hst].
  - assert (Ep : pick (mkEnvelope _ (stamp1 h) (Wire.payload env)) = pick (mkEnvelope _ h (Wire.payload env))) by done.
    rewrite Ep. by apply pick_equiv.
Qed.

(** The broker reads one message of a client and processes it. *)
Lemma receive_client_reads (I : S -> Prop) now_rx w id env ms :
  (forall s dontwait, I s -> I (zmq_msg_recv s dontwait).1) -> I (bw_router w) ->
  zmq_current (bw_router w) = [] -> zmq_pending (bw_router w) = (id :: wire_frames env) :: ms -> carried env ->
  exists s2 h, I s2 /\ zmq_current s2 = [] /\ zmq_pending s2 = ms /\
    zmq_open s2 = zmq_open (bw_router w) /\ zmq_sent s2 = zmq_sent (bw_router w) /\
    header_wf h /\ h ≡ Wire.header env /\
    receive_client now_rx w = (_ ← processMessage now_rx h (Wire.payload env) id false; mret true)
      (on_broker (count_message (u64 (ByteSizeLong h + slen (Wire.payload env)))) (put_router s2 w)).
Proof.
  intros HI Hw Hc Hp [Hwf Henc].
  destruct (zmq_recv_next (bw_router w) false id (wire_frames env) ms Hc Hp) as (s1 & E1 & C1 & P1).
  pose proof (zmq_recv_tx (bw_router w) false) as [T1 T2]. rewrite E1 in T1, T2. simpl in T1, T2.
  pose proof (HI (bw_router w) false Hw) as I1. rewrite E1 in I1. simpl in I1.
  destruct (recv_rest false s1 (encodeHeader (Wire.header env)) (payload_frames (Wire.payload env)) C1)
    as (s2 & E2 & C2 & P2 & O2 & S2). fold (wire_frames env) in E2.
  pose proof (recv_preserves I HI false s1 I1) as I2. rewrite E2 in I2. simpl in I2.
  destruct (envelope_of_wire_frames env Hwf Henc) as (h & Eh & Heq). rewrite Eh in E2.
  assert (Hh : header_wf h).
  { unfold envelope_of_frames, wire_frames in Eh.
    destruct (decodeHeaderFrame (encodeHeader (Wire.header env))) as [h'|] eqn:Ed; [|done].
    injection Eh as <-. revert Ed. apply ParseFromArray_wf. }
  exists s2, h. split_and!; try done; [congruence..|].
  assert (R1 : with_router (socket_recv false) w = (put_router s1 w, Ok (Some id))).
  { unfold with_router, mlift, socket_recv. by rewrite E1. }
  assert (R2 : with_router socket_rcvmore (put_router s1 w) = (put_router s1 w, Ok true)).
  { unfold with_router, mlift, socket_rcvmore; simpl. rewrite rcvmore_true; [done|]. by rewrite C1. }
  assert (R3 : with_router (recv false) (put_router s1 w)
      = (put_router s2 w, Ok (Some (mkEnvelope _ h (Wire.payload env))))).
  { unfold with_router, mlift; simpl. by rewrite E2. }
  unfold receive_client. rewrite (bind_ok _ _ _ _ _ R1), (bind_ok _ _ _ _ _ R2). cbv beta iota delta [negb].
  rewrite (bind_ok _ _ _ _ _ R3). cbv zeta. cbn [Wire.header Wire.payload].
  by rewrite (bind_ok _ _ _ (on_broker (count_message (u64 (ByteSizeLong h + slen (Wire.payload env)))) (put_router s2 w)) tt).
Qed.

(** One message of a client goes through the broker. *)
Lemma receive_client_move now_rx w id env ms :
  world_inv w -> m_brokerId (bw_broker w) = bid -> zmq_current (bw_router w) = [] ->
  zmq_pending (bw_router w) = (id :: wire_frames env) :: ms -> speaks id env ->
  exists msgs, let w' := (receive_client now_rx w).1 in
    zmq_sent (bw_router w') = zmq_sent (bw_router w) ++ msgs /\
    zmq_pending (bw_router w') = ms /\ zmq_current (bw_router w') = [] /\
    m_brokerId (bw_broker w') = bid /\
    m_peerInboundQueue (bw_broker w') = m_peerInboundQueue (bw_broker w) /\
    received msgs `sublist_of` pick env.
Proof.
  intros Hw Hid Hc Hp Hs. pose proof Hw as [Hb Ho Hi].
  destruct (receive_client_reads (fun _ => True) now_rx w id env ms) as
    (s2 & h & _ & C2 & P2 & O2 & S2 & Hh & Heq & ->); [done..|apply Hs|].
  set (w3 := on_broker (count_message (u64 (ByteSizeLong h + slen (Wire.payload env)))) (put_router s2 w)).
  assert (Hw3 : world_inv w3) by (split; [by eapply broker_inv_owned, Hb|simpl; congruence|done]).
  destruct (processMessage_move now_rx h (Wire.payload env) id w3 Hw3) as (hdr & q & ids & [M1 M2 M3 M4 M5] & Hn & Hq).
  exists ((fun id => id :: wire_frames (mkEnvelope _ hdr q)) <$> ids).
  unfold mbind, M_bind. destruct (processMessage _ _ _ _ _ w3) as [w4 r]. simpl in *.
  assert (Hlast : received ((fun id => id :: wire_frames (mkEnvelope _ hdr q)) <$> ids)
    `sublist_of` pick env).
  { destruct Hq as [[-> ->]|[Hq ->]].
    - destruct (stamped_carried id env h w3 Hs Hh Heq) as [K1 K2]; [done|]. rewrite <-K2.
      by apply to_receiver_routed.
    - rewrite to_receiver_other; [apply sublist_nil_l|apply own_carried; by left|].
      destruct Hq as [->| ->]; simpl; apply not_eq_sym, HA. }
  destruct r as [[]|e]; simpl; split_and!; congruence.
Qed.

(** An iteration of the broker's thread. *)
Lemma broker_iteration_move now_rx now now_stats w :
  world_inv w -> m_brokerId (bw_broker w) = bid -> zmq_current (bw_router w) = [] ->
  m_queue (m_peerInboundQueue (bw_broker w)) = [] ->
  Forall (fun m => exists id env, m = id :: wire_frames env /\ speaks id env) (zmq_pending (bw_router w)) ->
  exists msgs, let w' := (broker_iteration now_rx now now_stats w).1 in
    zmq_sent (bw_router w') = zmq_sent (bw_router w) ++ msgs /\
    zmq_pending (bw_router w') = tail (zmq_pending (bw_router w)) /\ zmq_current (bw_router w') = [] /\
    m_brokerId (bw_broker w') = bid /\ m_queue (m_peerInboundQueue (bw_broker w')) = [] /\
    received msgs `sublist_of` (take 1 (zmq_pending (bw_router w)) ≫= fun m => pick_frames (tail m)).
Proof.
  intros Hw Hid Hc Hq Hp. unfold broker_iteration. rewrite (bind_ok mget _ w w w) by done.
  assert (K : exists msgs, let '(w1, r) := (if zmq_pollin (bw_router w) then receive_client now_rx else mret true) w in
    world_inv w1 /\ zmq_sent (bw_router w1) = zmq_sent (bw_router w) ++ msgs /\
    zmq_pending (bw_router w1) = tail (zmq_pending (bw_router w)) /\ zmq_current (bw_router w1) = [] /\
    m_brokerId (bw_broker w1) = bid /\ m_queue (m_peerInboundQueue (bw_broker w1)) = [] /\
    received msgs `sublist_of` (take 1 (zmq_pending (bw_router w)) ≫= fun m => pick_frames (tail m))).
  { unfold zmq_pollin. destruct (zmq_pending (bw_router w)) as [|m ms] eqn:Ep; simpl.
    { exists []. rewrite app_nil_r. by split_and!. }
    apply Forall_cons in Hp as [(id & env & -> & Hs) _].
    pose proof (receive_client_preserves now_rx w Hw) as Hw1.
    destruct (receive_client_move now_rx w id env ms Hw Hid Hc Ep Hs) as (msgs & K1 & K2 & K3 & K4 & K5 & K6).
    exists msgs. destruct (receive_client now_rx w) as [w1 r]. simpl in *. rewrite app_nil_r.
    split_and!; try done; [by rewrite K5|]. by rewrite pick_wire by apply Hs. }
  destruct K as (msgs & K).
  destruct ((if zmq_pollin (bw_router w) then receive_client now_rx else mret true) w) as [w1 [go|e]] eqn:E.
  2: { rewrite (bind_throw _ _ _ _ _ E). exists msgs. by destruct K as (_ & K). }
  rewrite (bind_ok _ _ _ _ _ E). destruct K as (Hw1 & K1 & K2 & K3 & K4 & K5 & K6).
  destruct go; cbv beta iota delta [negb]; [|by exists msgs].
  destruct (after_receive_move now now_stats w1 Hw1 K5) as (q & ids & [M1 M2 M3 M4 M5]).
  eexists (msgs ++ _). cbv zeta. rewrite M1, M2, M3, M4, M5, K1, (assoc_L (++)). split_and!; try done.
  rewrite received_app, to_receiver_other; [by rewrite app_nil_r|apply own_carried; by right|].
  simpl. apply not_eq_sym, HA.
Qed.

(** ** The whole *)

Record sys_ok y : Prop := {
  so_world : world_inv (sys_broker y);
  so_id : m_brokerId (bw_broker (sys_broker y)) = bid;
  so_peers : m_queue (m_peerInboundQueue (bw_broker (sys_broker y))) = [];
  so_current : zmq_current (bw_router (sys_broker y)) = [];
  so_pending : Forall (fun m => exists id env, m = id :: wire_frames env /\ speaks id env)
    (zmq_pending (bw_router (sys_broker y)));
  so_up : Forall (fun x => exists env, x.2 = wire_frames env /\ speaks x.1 env) (sys_up y);
  so_nodes : forall id nd, sys_nodes y !! id = Some nd -> node_ok (G:=G) bid id nd /\ polite (G:=G) bid id
}.

(** Where the messages are, the oldest first: at the receiver, on the way to it,
    at the broker, on the way there, at the sender. *)
Definition at_receiver y : list (string * string) :=
  match sys_nodes y !! B with Some nd => n_in A t nd | None => [] end.
Definition at_sender y : list (string * string) :=
  match sys_nodes y !! A with Some nd => n_out A t nd | None => [] end.
Definition way_down (l : list (string * list string)) : list (string * string) := l ≫= to_receiver.
Definition way_up (l : list (string * list string)) : list (string * string) := l ≫= fun x => pick_frames x.2.
Definition at_router w : list (string * string) := zmq_pending (bw_router w) ≫= fun m => pick_frames (tail m).

Definition flow y : list (string * string) :=
  at_receiver y ++ way_down (sys_down y) ++ at_router (sys_broker y) ++ way_up (sys_up y) ++ at_sender y.

Definition handled (es : list event) : list (string * string) :=
  es ≫= fun e => match e with Handled id env => if decide (id = B) then pick env else [] | _ => [] end.
Definition published (es : list event) : list (string * string) :=
  es ≫= fun e => match e with Published id env => if decide (id = A) then pick env else [] | _ => [] end.

Lemma way_up_others l :
  Forall (fun x => exists env, x.2 = wire_frames env /\ speaks x.1 env) l -> A ∉ l.*1 -> way_up l = [].
Proof.
  induction 1 as [|[id fs] l (env & E & Hs) _ IH]; [done|]. simpl in *. subst fs. intros [K1 K2]%not_elem_of_cons.
  unfold way_up in *. simpl. rewrite IH by done. rewrite pick_wire by apply Hs.
  by rewrite (pick_other bid A t id env).
Qed.

Lemma way_down_others l : B ∉ l.*1 -> way_down l = [].
Proof.
  induction l as [|[id fs] l IH]; [done|]. simpl. intros [K1 K2]%not_elem_of_cons. unfold way_down in *.
  simpl. rewrite IH by done. unfold to_receiver; simpl. by rewrite decide_False.
Qed.

Lemma events_of_api id s es s' :
  api_run id (speaks id) s es s' ->
  handled es = [] /\ published es = if decide (id = A) then picks (published_by es) else [].
Proof.
  induction 1 as [s|s es1 s1 es2 s2 Hs _ [IH1 IH2]]; [by case_decide|].
  unfold handled, published, published_by, SystemFacts.picks in *. rewrite !bind_app, IH1, IH2, omap_app, bind_app.
  destruct Hs as [env s s' ok He Hk E| | | | |]; simpl; try done.
  destruct ok; simpl; [|done]. rewrite !app_nil_r. split; [done|]. by case_decide.
Qed.

Section steps.
Context (user : string -> user_code).

(** A step leaves everything in order: what it handles and what is on the way
    afterwards was on the way before, or is published by it. *)
Definition orderly y es y' : Prop :=
  sys_ok y' /\ (handled es ++ flow y') `sublist_of` (flow y ++ published es).

Lemma orderly_flow y y' : sys_ok y' -> flow y' `sublist_of` flow y -> orderly y [] y'.
Proof. intros Hy Hf. split; [done|]. unfold handled, published; simpl. by rewrite app_nil_r. Qed.

(** A change at one process, between those of its two ends. *)
Lemma put_node_flow y id nd nd' up :
  sys_nodes y !! id = Some nd ->
  n_in A t nd' `sublist_of` n_in A t nd ->
  (id = A -> (way_up up ++ n_out A t nd') `sublist_of` (way_up (sys_up y) ++ n_out A t nd)) ->
  (id <> A -> way_up up = way_up (sys_up y)) ->
  flow (mkSystem (sys_broker y) (<[id := nd']> (sys_nodes y)) up (sys_down y)) `sublist_of` flow y.
Proof.
  intros Hn Hi Ho Hu. unfold flow, at_receiver, at_sender; simpl. apply sublist_app; [|apply sublist_app;
    [done|apply sublist_app; [done|]]].
  - destruct (decide (id = B)) as [->|]; [by rewrite lookup_insert_eq, Hn|by rewrite lookup_insert_ne].
  - destruct (decide (id = A)) as [->|Hne].
    + rewrite lookup_insert_eq, Hn. by apply Ho.
    + rewrite lookup_insert_ne, Hu by done. done.
Qed.

Lemma put_node_ok y id nd' up :
  sys_ok y -> node_ok (G:=G) bid id nd' -> polite (G:=G) bid id ->
  Forall (fun x => exists env, x.2 = wire_frames env /\ speaks x.1 env) up ->
  sys_ok (mkSystem (sys_broker y) (<[id := nd']> (sys_nodes y)) up (sys_down y)).
Proof.
  intros [K1 K2 K3 K4 K5 K6 K7] Hn Hp Hu. split; try done. simpl.
  intros id' nd [[<- <-]|[_ ?]]%lookup_insert_Some; auto.
Qed.

Lemma worker_orderly m id nd y :
  (polite (G:=G) bid id -> moves (G:=G) bid A t id m) -> sys_ok y -> sys_nodes y !! id = Some nd ->
  orderly y [] (run_worker m id nd y).
Proof.
  intros Hm Hy Hn. destruct (so_nodes _ Hy _ _ Hn) as [Hok Hp].
  destruct (node_run_ok bid A t id m nd (Hm Hp) Hok) as (K1 & K2 & K3 & K4).
  set (msgs := new_sent (nd_socket nd) (nd_socket (node_run m nd))) in *.
  assert (Hup : Forall (fun x : string * list string => exists env, x.2 = wire_frames env /\ speaks x.1 env) (pair id <$> msgs)).
  { apply Forall_fmap. eapply Forall_impl; [exact K3|]. by intros m' (env & -> & ?); exists env. }
  assert (Ew : way_up (pair id <$> msgs) = msgs ≫= pick_frames).
  { unfold way_up. generalize msgs. intros l. induction l as [|x l IH]; [done|].
    rewrite fmap_cons. simpl. f_equal. exact IH. }
  apply orderly_flow.
  - apply put_node_ok; [done|done|done|]. apply Forall_app. split; [apply Hy|done].
  - apply (put_node_flow y id nd); [done|done| |].
    + intros _. fold msgs. unfold way_up in *. rewrite bind_app, Ew, <-(assoc_L (++)). by apply sublist_app.
    + intros Hne. fold msgs. unfold way_up in *. rewrite bind_app. fold (way_up (pair id <$> msgs)).
      rewrite (way_up_others (pair id <$> msgs)); [by rewrite app_nil_r|done|].
      intros (x & E & (m' & -> & _)%list_elem_of_fmap)%list_elem_of_fmap. by simpl in E.
Qed.

Lemma pop_inbound_spec s env s' :
  pop_inbound s = Some (env, s') ->
  st_inbound s = env :: st_inbound s' /\ st_outbound s' = st_outbound s /\
  (forall id, state_ok (G:=G) bid id s -> state_ok (G:=G) bid id s').
Proof.
  unfold pop_inbound, st_inbound, st_outbound, try_pop. destruct (cs_object s) as [c|] eqn:Ec; [|done].
  destruct (m_queue (m_inbound c)) as [|e q] eqn:Eq; [done|]. intros [= <- <-]. simpl. split_and!; [done|done|].
  intros id Hs c' [= <-]. by destruct (Hs c Ec).
Qed.

(** A change of a process's own state: envelopes are taken from its queue, and
    others published. *)
Lemma state_orderly y id nd s' es pubs :
  sys_ok y -> sys_nodes y !! id = Some nd -> state_ok (G:=G) bid id s' ->
  st_outbound s' = st_outbound (nd_state nd) ++ pubs ->
  (id = A -> published es = picks pubs) ->
  (handled es ++ picks (st_inbound s')) `sublist_of` picks (st_inbound (nd_state nd)) ->
  (id <> B -> handled es = []) ->
  orderly y es (put_state id nd s' y).
Proof.
  intros Hy Hn Hs Ho Hpub Hin Hne. destruct (so_nodes _ Hy _ _ Hn) as [[N1 N2 N3] Hp].
  split; [apply put_node_ok; [done|by split|done|apply Hy]|].
  unfold flow, at_receiver, at_sender; simpl. rewrite (assoc_L (++) (handled es)), <-!(assoc_L (++)).
  rewrite (assoc_L (++) (handled es)). apply sublist_app; [|apply sublist_app; [done|apply sublist_app; [done|
    apply sublist_app; [done|]]]].
  - destruct (decide (id = B)) as [->|HB].
    + rewrite lookup_insert_eq, Hn. unfold n_in; simpl. rewrite (assoc_L (++)). by apply sublist_app.
    + rewrite lookup_insert_ne, Hne by done. done.
  - destruct (decide (id = A)) as [->|HA'].
    + rewrite lookup_insert_eq, Hn, Hpub by done. unfold n_out; simpl. rewrite Ho.
      unfold SystemFacts.picks. by rewrite bind_app.
    + rewrite lookup_insert_ne by done. by apply sublist_inserts_r.
Qed.

Lemma app_orderly y id nd es s' :
  sys_ok y -> sys_nodes y !! id = Some nd -> api_step id (speaks id) (nd_state nd) es s' ->
  orderly y es (put_state id nd s' y).
Proof.
  intros Hy Hn Ha. destruct (so_nodes _ Hy _ _ Hn) as [[N1 _ _] Hp].
  destruct (api_step_ok bid id _ _ _ Hp N1 Ha) as (K1 & K2 & K3).
  destruct (events_of_api id (nd_state nd) es s') as [E1 E2].
  { rewrite <-(app_nil_r es). econstructor; [exact Ha|constructor]. }
  apply (state_orderly y id nd s' es (published_by es)); try done.
  - intros ->. by rewrite E2, decide_True.
  - by rewrite E1, K2.
Qed.

Lemma processing_reset_ok id env s s' ok :
  handler_key (Wire.header env) = Keys.RESET -> processing_round (user id) env s = (s', Ok ok) ->
  state_ok (G:=G) bid id s ->
  state_ok (G:=G) bid id s' /\ st_inbound s' = st_inbound s /\ st_outbound s' = st_outbound s.
Proof.
  intros Hr Hproc Hs. unfold processing_round, mbind, M_bind, mget in Hproc.
  destruct (cs_object s) as [c|] eqn:Ec; [|by injection Hproc as <- _].
  destruct (negb (Client.m_running c)); [by injection Hproc as <- _|]. rewrite decide_True in Hproc by done.
  injection Hproc as <- _. destruct (subscribe_handlers_ok bid id c (Hs c Ec)) as [K1 K2].
  by apply (set_object_quiet bid id s c).
Qed.

Lemma process_orderly y id nd env s s' (ok : bool) es :
  sys_ok y -> sys_nodes y !! id = Some nd -> pop_inbound (nd_state nd) = Some (env, s) ->
  processing_round (user id) env s = (s', Ok ok) ->
  (if decide (handler_key (Wire.header env) = Keys.RESET) then es = [] else api_run id (speaks id) s es s') ->
  orderly y ((if decide (handler_key (Wire.header env) = Keys.RESET) then []
              else if ok then [Handled id env] else []) ++ es) (put_state id nd s' y).
Proof.
  intros Hy Hn Hpop Hproc Hes. destruct (so_nodes _ Hy _ _ Hn) as [[N1 _ _] Hp].
  destruct (pop_inbound_spec _ _ _ Hpop) as (P1 & P2 & P3). specialize (P3 id N1).
  case_decide as Hr.
  - subst es. destruct (processing_reset_ok id env s s' ok Hr Hproc P3) as (K1 & K2 & K3).
    apply (state_orderly y id nd s' _ []); try done; [by rewrite app_nil_r, K3|].
    rewrite K2, P1. by apply sublist_inserts_l.
  - destruct (api_run_ok bid id s es s' Hp Hes P3) as (K1 & K2 & K3).
    destruct (events_of_api id s es s' Hes) as [E1 E2].
    assert (Ehd : forall l : list event, handled (l ++ es) = handled l).
    { intros l. unfold handled in *. by rewrite bind_app, E1, app_nil_r. }
    assert (Epb : published ((if ok then [Handled id env] else []) ++ es) = published es).
    { unfold published. rewrite bind_app. by destruct ok. }
    apply (state_orderly y id nd s' _ (published_by es)); try done.
    + by rewrite K3, P2.
    + intros ->. by rewrite Epb, E2, decide_True.
    + rewrite Ehd, K2, P1. change (picks (env :: st_inbound s)) with (pick env ++ picks (st_inbound s)).
      apply sublist_app; [|done]. destruct ok; [|apply sublist_nil_l].
      change (handled [Handled id env]) with ((if decide (id = B) then pick env else []) ++ []).
      rewrite app_nil_r. destruct (decide (id = B)); [done|apply sublist_nil_l].
    + intros HB. rewrite Ehd. destruct ok; [|done].
      change (handled [Handled id env]) with ((if decide (id = B) then pick env else []) ++ []).
      by rewrite decide_False.
Qed.

Lemma broker_orderly y now_rx now now_stats : sys_ok y -> orderly y [] (run_broker now_rx now now_stats y).
Proof.
  intros [K1 K2 K3 K4 K5 K6 K7].
  destruct (broker_iteration_move now_rx now now_stats (sys_broker y) K1 K2 K4 K3 K5)
    as (msgs & M1 & M2 & M3 & M4 & M5 & M6).
  pose proof (broker_iteration_preserves now_rx now now_stats (sys_broker y) K1) as Hw.
  unfold run_broker. rewrite (new_sent_app _ _ msgs) by done. apply orderly_flow.
  - split; simpl; try done. rewrite M2. by apply Forall_tail.
  - unfold flow, at_receiver, at_sender, at_router, way_down; simpl. rewrite M2, bind_app.
    fold (received msgs). rewrite <-!(assoc_L (++)). do 2 (apply sublist_app; [done|]).
    rewrite !(assoc_L (++)). do 2 (apply sublist_app; [|done]). etrans; [apply sublist_app; [exact M6|done]|].
    rewrite <-bind_app. by destruct (zmq_pending (bw_router (sys_broker y))).
Qed.

Lemma up_orderly y l1 id fs l2 :
  sys_ok y -> sys_up y = l1 ++ (id, fs) :: l2 -> id ∉ l1.*1 ->
  orderly y [] (mkSystem (put_router (zmq_deliver (bw_router (sys_broker y)) id fs) (sys_broker y))
    (sys_nodes y) (l1 ++ l2) (sys_down y)).
Proof.
  intros [K1 K2 K3 K4 K5 K6 K7] Hu Hl. rewrite Hu in K6. apply Forall_app in K6 as [U1 [(env & E & Hs) U2]%Forall_cons].
  simpl in E, Hs. subst fs. apply orderly_flow.
  - split; simpl; try done.
    + destruct K1 as [B1 B2 B3]. split; [done|simpl; by rewrite zmq_deliver_open|done].
    + by rewrite zmq_deliver_current.
    + rewrite zmq_deliver_pending. apply Forall_app. split; [done|]. constructor; [by exists id, env|constructor].
    + by apply Forall_app.
  - unfold flow, at_receiver, at_sender, at_router, way_up; simpl. rewrite Hu, zmq_deliver_pending, !bind_app.
    simpl. rewrite app_nil_r, <-!(assoc_L (++)). do 3 (apply sublist_app; [done|]).
    rewrite pick_wire by apply Hs. destruct (decide (id = A)) as [->|Hne].
    + fold (way_up l1). by rewrite (way_up_others l1).
    + rewrite (pick_other bid A t id env) by done. done.
Qed.

Lemma down_orderly y l1 id f fs l2 nd :
  sys_ok y -> sys_down y = l1 ++ (id, f :: fs) :: l2 -> id ∉ l1.*1 -> sys_nodes y !! id = Some nd ->
  orderly y [] (mkSystem (sys_broker y)
    (<[id := mkNode (nd_state nd) (zmq_deliver (nd_socket nd) f fs) (nd_heartbeat nd)]> (sys_nodes y))
    (sys_up y) (l1 ++ l2)).
Proof.
  intros [K1 K2 K3 K4 K5 K6 K7] Hd Hl Hn. destruct (K7 _ _ Hn) as [[N1 N2 N3] Hp]. apply orderly_flow.
  - split; try done. simpl. intros id' nd' [[<- <-]|[_ ?]]%lookup_insert_Some; [|auto].
    split; [|done]. split; simpl; [done|by rewrite zmq_deliver_open|by rewrite zmq_deliver_current].
  - unfold flow, at_receiver, at_sender, way_down; simpl. rewrite Hd, !bind_app. simpl.
    assert (Es : forall x, match (<[id:=mkNode (nd_state nd) (zmq_deliver (nd_socket nd) f fs) (nd_heartbeat nd)]>
        (sys_nodes y)) !! x with Some nd => n_out A t nd | None => [] end
      = match sys_nodes y !! x with Some nd => n_out A t nd | None => [] end).
    { intros x. destruct (decide (id = x)) as [<-|]; [by rewrite lookup_insert_eq, Hn|by rewrite lookup_insert_ne]. }
    rewrite Es. rewrite !(assoc_L (++)). do 3 (apply sublist_app; [|done]).
    destruct (decide (id = B)) as [->|Hne].
    + rewrite lookup_insert_eq, Hn. fold (way_down l1). rewrite (way_down_others l1) by done.
      unfold n_in; simpl. rewrite zmq_deliver_pending, bind_app. simpl. rewrite !app_nil_r.
      unfold to_receiver at 2; simpl. rewrite decide_True by done. by rewrite <-!(assoc_L (++)).
    + rewrite lookup_insert_ne by done. unfold to_receiver at 4; simpl. rewrite decide_False by done.
      by rewrite app_nil_r.
Qed.

Lemma step_orderly y es y' : sys_step user speaks y es y' -> sys_ok y -> orderly y es y'.
Proof.
  intros Hstep Hy. destruct Hstep as
    [y id nd es s' Hn Ha|y id nd k t1 t2 Hn Hk Hr|y id nd k Hn Hk Hr|y id nd env s s' ok es Hn Hpop Hproc Hes
    |y t1 t2 t3|y l1 id fs l2 Hu Hl w|y l1 id f fs l2 nd Hd Hl Hn|y l1 x l2 Hu|y l1 x l2 Hd].
  - by apply app_orderly.
  - apply worker_orderly; [by apply moves_iteration|done|done].
  - apply worker_orderly; [intros _; by apply moves_drain_control|done|done].
  - by eapply process_orderly.
  - by apply broker_orderly.
  - by apply up_orderly.
  - by apply down_orderly.
  - destruct Hy as [K1 K2 K3 K4 K5 K6 K7]. apply orderly_flow.
    + split; try done. simpl. rewrite Hu in K6. apply Forall_app in K6 as [? [_ ?]%Forall_cons]. by apply Forall_app.
    + unfold flow; simpl. do 3 (apply sublist_app; [done|]). apply sublist_app; [|done]. rewrite Hu.
      apply bind_sublist, sublist_app; [done|]. by apply sublist_cons.
  - destruct Hy as [K1 K2 K3 K4 K5 K6 K7]. apply orderly_flow; [by split|].
    unfold flow; simpl. apply sublist_app; [done|]. apply sublist_app; [|done]. rewrite Hd.
    apply bind_sublist, sublist_app; [done|]. by apply sublist_cons.
Qed.

Lemma run_orderly y es y' : sys_run user speaks y es y' -> sys_ok y -> orderly y es y'.
Proof.
  induction 1 as [y|y es1 y1 es2 y2 Hs _ IH]; intros Hy; [by apply orderly_flow|].
  destruct (step_orderly _ _ _ Hs Hy) as [Hy1 F1]. destruct (IH Hy1) as [Hy2 F2]. split; [done|].
  unfold handled, published in *. rewrite !bind_app, <-(assoc_L (++)).
  etrans; [apply sublist_app; [reflexivity|exact F2]|]. rewrite !(assoc_L (++)). by apply sublist_app.
Qed.

End steps.

End theorems.

Section order.
Context `{StatsRuntime} `{!HeaderParser} {G : Type} `{HexGen G} {S : Type} `{ZmqSocket S}
  `{!ZmqNetwork S} `{UnorderedOrder}.

Implicit Types y : system (G:=G) (S:=S).

(** ** Start *)

Definition fresh_socket (s : S) : Prop := zmq_open s = [] /\ zmq_current s = [] /\ zmq_pending s = [].

(** A broker that has just started, and processes that have called [init], with
    the callbacks they registered before. *)
Record initial y : Prop := {
  in_broker : exists g addresses now1 now2 router inspector now3,
    sys_broker y = mkBrokerWorld (broker_start addresses now1 now2 (broker_new g).1)
                     router inspector (broker_new g).2 now3 /\
    fresh_socket router /\ zmq_open inspector = [];
  in_nodes : forall id nd, sys_nodes y !! id = Some nd ->
    exists config now regs sock, clientId config = id /\ fresh_socket sock /\
      nd = node_start config now (register_all regs fresh_state) sock /\
      Forall (fun x => sayable (G:=G) (m_brokerId (bw_broker (sys_broker y))) id x.1.1) regs;
  in_up : sys_up y = [];
  in_down : sys_down y = []
}.

Lemma register_all_pending regs : forall l, register_all regs (mkState None false l "" ∅) = mkState None false (l ++ regs) "" ∅.
Proof.
  induction regs as [|[[key cb] inst] regs IH]; intros l; [by rewrite app_nil_r|].
  etrans; [apply (IH (l ++ [(key, cb, inst)]))|]. by rewrite <-(assoc_L (++)).
Qed.

Lemma client_init_ok bid id config regs :
  clientId config = id -> Forall (fun x => sayable (G:=G) bid id x.1.1) regs ->
  let s := client_init config (register_all regs fresh_state) in
  state_ok (G:=G) bid id s /\ st_inbound s = [] /\ st_outbound s = [].
Proof.
  intros Hid Hregs. unfold fresh_state. rewrite register_all_pending. simpl.
  assert (K : forall c, manager_ok (G:=G) bid id c ->
    let c' := foldl (fun c '(key, callback, inst) => performRegistration key callback inst c) c regs in
    manager_ok (G:=G) bid id c' /\ quiet c c').
  { induction Hregs as [|[[key cb] inst] regs Hk Hregs IH]; intros c Hc; [done|]. simpl.
    destruct (performRegistration_ok bid id key cb inst c Hk Hc) as [K1 K2].
    destruct (IH _ K1) as [K3 K4]. split; [done|]. by eapply quiet_trans. }
  destruct (K (manager_new config)) as [K1 (K2 & K3 & _)].
  { split; simpl; [done|set_solver|]. intros k. case_decide; [|done]. intros [= <-]. by split; simpl; [|constructor..]. }
  unfold state_ok, st_inbound, st_outbound; simpl. rewrite K2, K3. split_and!; [by intros ? [= <-]|done|].
  unfold outbound_queue, manager_new; simpl. by case_decide.
Qed.

Lemma node_start_ok bid A t id config now regs sock :
  Keys.isControlMessage t = false -> polite (G:=G) bid id -> clientId config = id -> fresh_socket sock ->
  Forall (fun x => sayable (G:=G) bid id x.1.1) regs ->
  let nd := node_start config now (register_all regs fresh_state) sock in
  node_ok (G:=G) bid id nd /\ n_in A t nd = [] /\ n_out A t nd = [].
Proof.
  intros Ht Hp Hid (F1 & F2 & F3) Hregs.
  destruct (client_init_ok bid id config regs Hid Hregs) as (K1 & K2 & K3).
  destruct (node_run_ok bid A t id (run_prologue manager_callbacks now)
    (mkNode (client_init config (register_all regs fresh_state)) sock 0)) as (J1 & J2 & _ & J4).
  { by apply moves_prologue. } { by split. }
  unfold node_start. split_and!; [done| |].
  - apply sublist_nil_r. etrans; [exact J2|]. unfold n_in; simpl. by rewrite K2, F3.
  - apply sublist_nil_r. etrans; [by apply sublist_inserts_l|]. etrans; [exact J4|].
    unfold n_out; simpl. by rewrite K3.
Qed.

Lemma initial_ok y A B t :
  initial y -> Keys.isControlMessage t = false ->
  let bid := m_brokerId (bw_broker (sys_broker y)) in
  (forall id, id ∈ dom (sys_nodes y) -> polite (G:=G) bid id) -> sys_ok bid y /\ flow A B t y = [].
Proof.
  intros [(g & addrs & n1 & n2 & r & i & n3 & Eb & (R1 & R2 & R3) & Hi) Hn Hu Hd] Ht bid Hp.
  assert (Hnodes : forall id nd, sys_nodes y !! id = Some nd ->
    node_ok (G:=G) bid id nd /\ polite (G:=G) bid id /\ n_in A t nd = [] /\ n_out A t nd = []).
  { intros id nd Hnd. assert (polite (G:=G) bid id) as Hid by (apply Hp, elem_of_dom; eauto).
    destruct (Hn id nd Hnd) as (config & now & regs & sock & E1 & E2 & -> & E4).
    destruct (node_start_ok bid A t id config now regs sock) as (K1 & K2 & K3); [done..|by split_and!]. }
  split.
  - split; [|done| | | | |].
    + rewrite Eb. eapply broker_reach_world_inv. by constructor.
    + rewrite Eb. cbn [bw_broker]. unfold broker_start, broker_new. destruct (generateUUID g) as [u g'].
      by repeat case_match.
    + by rewrite Eb.
    + rewrite Eb; simpl. rewrite R3. constructor.
    + rewrite Hu. constructor.
    + intros id nd Hnd. by destruct (Hnodes id nd Hnd) as (? & ? & _).
  - unfold flow, at_receiver, at_sender, at_router, way_up, way_down. rewrite Hu, Hd, Eb. simpl. rewrite R3. simpl.
    destruct (sys_nodes y !! B) as [nd|] eqn:EB.
    + destruct (Hnodes _ _ EB) as (_ & _ & -> & _). simpl.
      destruct (sys_nodes y !! A) as [nd'|] eqn:EA; [|done]. by destruct (Hnodes _ _ EA) as (_ & _ & _ & ->).
    + simpl. destruct (sys_nodes y !! A) as [nd'|] eqn:EA; [|done]. by destruct (Hnodes _ _ EA) as (_ & _ & _ & ->).
Qed.

(** C2. Ordered delivery, end to end: in every run of a broker and any number of
    clients, however their threads interleave and whatever is lost on the way,
    the messages from client [A] on a topic that client [B]'s processing thread
    hands to its callbacks are a sublist of the messages [A] published on that
    topic: unchanged, in the order of publication, and none of them twice.  The
    identities and topics have valid encodings, and the topic is not one of the
    library's control keys. *)
Theorem delivery_in_order user y es y' A B t :
  initial y ->
  let bid := m_brokerId (bw_broker (sys_broker y)) in
  (forall id, id ∈ dom (sys_nodes y) -> polite (G:=G) bid id) ->
  Forall (header_encodable IsStructurallyValidUTF8) [reset_header; ack_header; stats_header] ->
  A <> "" -> A <> "BROKER_SYSTEM" -> Keys.isControlMessage t = false ->
  sys_run user (speaks (G:=G) bid) y es y' ->
  handled A B t es `sublist_of` published A t es.
Proof.
  intros Hi bid Hp Hown HA1 HA2 Ht Hrun. destruct (initial_ok y A B t Hi Ht Hp) as [Hy Hf].
  destruct (run_orderly bid A B t Ht (conj HA1 HA2) Hown user y es y' Hrun Hy) as [_ K].
  rewrite Hf in K. simpl in K. etrans; [|exact K]. by apply sublist_inserts_r.
Qed.

End order.
