(* ===== verification/SystemDelivery.v ===== *)
(** * A published message arrives

    [SystemTheorems] bounds what can be delivered; here is what is delivered.  When
    a client publishes and its worker, the network, the broker, the network again and
    the receiver's worker take a turn each, the message is at the head of the receiver's
    queue and its processing thread runs the callbacks on it. *)

From stdpp Require Import relations.
From S2P Require Import Prelude Keys CppString SafeQueue SubscriptionRegistry MessageHeader.
From S2P Require Import Stats Payload Wire Worker Uuid Discovery Broker BrokerFacts BrokerTheorems.
From S2P Require Import Client ClientTheorems System Schedule SystemFacts SystemTheorems.

Section delivery.
Context `{StatsRuntime} `{!HeaderParser} {G : Type} `{HexGen G} {S : Type} `{ZmqSocket S}
  `{!ZmqNetwork S} `{UnorderedOrder}.

Implicit Types y : system (G:=G) (S:=S).
Implicit Types w : broker_world (G:=G) (S:=S).
Implicit Types ww : worker_world (X:=client_state) (S:=S).
Implicit Types env : Envelope.
Implicit Types nd : node (S:=S).

(** ** The sender *)

(** An accepted message waits behind the others. *)
Lemma publish_queued env nd s c k :
  cs_object (nd_state nd) = Some c -> m_pWorker c = Some k ->
  Keys.isControlMessage (handler_key (Wire.header env)) = false ->
  on_instance (sendRawEnvelope env) (nd_state nd) = (s, true) ->
  exists k', nd_worker (mkNode s (nd_socket nd) (nd_heartbeat nd)) = Some k' /\ Worker.m_running k' = Worker.m_running k /\
    m_controlQueue k' = m_controlQueue k /\ m_queue (m_outboundQueue k') = m_queue (m_outboundQueue k) ++ [env].
Proof.
  intros Hc Hk Hkey. unfold on_instance, getInstance. destruct (cs_published (nd_state nd)); [|done].
  rewrite Hc. unfold sendRawEnvelope. rewrite Hk, Hkey. unfold writeMessage.
  pose proof (push_for_elem env (m_outboundQueue k)) as E. destruct (push_for env (m_outboundQueue k)) as [q ok].
  intros [= <- ->]. simpl in E.
  exists (set_outboundQueue q k). by split_and!.
Qed.

(** An iteration of its worker puts the message on the wire. *)
Lemma worker_puts P now_rx now nd k env :
  accepting P -> P (nd_socket nd) -> zmq_open (nd_socket nd) = [] -> zmq_pending (nd_socket nd) = [] ->
  nd_worker nd = Some k -> m_queue (m_controlQueue k) = [] -> m_queue (m_outboundQueue k) = [env] ->
  exists more, new_sent (nd_socket nd) (nd_socket (node_run (run_iteration manager_callbacks now_rx now) nd)) =
    wire_frames env :: more.
Proof.
  intros HP Hs Ho Hp Hk Hc Hq. unfold node_run. rewrite Hk.
  destruct (worker_iteration_sends manager_callbacks P now_rx now (node_world k nd) HP Hs Ho Hp) as (ww & E & K).
  rewrite E. cbn [node_world ww_worker] in K. rewrite Hc, Hq in K. eexists. apply new_sent_app. simpl. exact K.
Qed.

(** ** The network *)

Lemma find_first {X} (l1 l2 : list (string * X)) id x :
  id ∉ l1.*1 -> list_find (fun x => x.1 = id) (l1 ++ (id, x) :: l2) = Some (length l1, (id, x)).
Proof.
  intros Hn. apply list_find_Some. rewrite lookup_app_r, Nat.sub_diag by lia. split_and!; [done|done|].
  intros j [i x'] Hj Hlt. cbn. intros ->. apply Hn. rewrite lookup_app_l in Hj by done.
  apply list_elem_of_fmap. exists (id, x'). split; [done|]. by eapply list_elem_of_lookup_2.
Qed.

Lemma find_rest {X} (l1 l2 : list X) x : take (length l1) (l1 ++ x :: l2) ++ drop (Datatypes.S (length l1)) (l1 ++ x :: l2) = l1 ++ l2.
Proof.
  rewrite take_app_length, drop_app_ge by lia. replace (Datatypes.S (length l1) - length l1)%nat with 1%nat by lia. done.
Qed.

(** All copies of a message have the same frames. *)
Lemma addressed_first (frames : list string) ids id :
  id ∈ ids -> exists l1 l2, (((fun i => i :: frames) <$> ids) ≫= addressed) = l1 ++ (id, frames) :: l2 /\ id ∉ l1.*1.
Proof.
  induction ids as [|i ids IH]; [by intros ?%elem_of_nil|]. intros Hi.
  destruct (decide (i = id)) as [->|Hne]; [eexists [], _; split; [reflexivity|apply not_elem_of_nil]|].
  apply elem_of_cons in Hi as [Hi|Hi]; [done|]. destruct (IH Hi) as (l1 & l2 & E & Hn).
  exists ((i, frames) :: l1), l2. rewrite fmap_cons, bind_cons, E. split; [done|].
  cbn. apply not_elem_of_cons. by split.
Qed.

(** ** The broker *)

Section broker.
Context (bid : string) (R : S -> Prop) (ok : string -> bool) (HR : routing_socket R ok).
Context (Q : S -> Prop) (HQ : accepting Q).

Lemma not_control key :
  Keys.isControlMessage key = false ->
  key <> Keys.RESET /\ key <> Keys.HEARTBEAT_ACK /\ ~ broker_handled key.
Proof.
  unfold Keys.isControlMessage, broker_handled. rewrite !orb_false_iff, !bool_decide_eq_false, !not_elem_of_cons.
  intros ((((((? & ?) & ?) & ?) & ?) & ?) & ?). split_and!; try done. apply not_elem_of_nil.
Qed.

(** The broker passes the message on in one iteration. *)
Lemma broker_passes now_rx now now_stats w A B env :
  world_inv w -> sockets_ready R Q w -> m_queue (m_peerInboundQueue (bw_broker w)) = [] ->
  zmq_current (bw_router w) = [] -> zmq_pending (bw_router w) = [A :: wire_frames env] ->
  carried env -> Keys.isControlMessage (handler_key (Wire.header env)) = false ->
  is_Some (m_clients (bw_broker w) !! A) -> A <> B -> ok B = true ->
  B ∈ subs_of (m_subscriptions (bw_broker w)) (topic (Wire.header env)) \/ B ∈ subs_of (m_subscriptions (bw_broker w)) "" ->
  message_uuid (stamped (Wire.header env) w) ∉ m_messageIdOrder (bw_broker w) ->
  exists h l1 l2, header_wf h /\ h ≡ Wire.header env /\
    (new_sent (bw_router w) (bw_router (broker_iteration now_rx now now_stats w).1) ≫= addressed) =
      l1 ++ (B, wire_frames (mkEnvelope _ (stamped h w) (Wire.payload env))) :: l2 /\ B ∉ l1.*1.
Proof.
  intros Hw Hr Hq Hc Hp Hcar Hkey HA Hne HB Hsub Hu.
  destruct (receive_client_reads R now_rx w A env []) as (s2 & h & R2 & C2 & P2 & O2 & S2 & Hh & Eh & Er);
    [apply HR|apply Hr|done..|].
  set (w3 := on_broker (count_message (u64 (ByteSizeLong h + slen (Wire.payload env)))) (put_router s2 w)) in *.
  assert (Hr3 : sockets_ready R Q w3) by (destruct Hr as [r1 r2 r3 r4]; split; simpl; congruence || done).
  assert (Hb3 : broker_inv (bw_broker w3)) by (by eapply broker_inv_owned, Hw).
  assert (Hw3 : world_inv w3) by (destruct Hw; split; simpl; congruence || done).
  assert (Es : stamped h w3 = stamped h w) by done.
  assert (Eu : message_uuid (stamped h w) = message_uuid (stamped (Wire.header env) w)).
  { assert (message_uuid h = message_uuid (Wire.header env)) as E by (by rewrite Eh).
    unfold stamped. repeat case_decide; congruence || done. }
  destruct (processMessage_exact R ok HR Q HQ now_rx h (Wire.payload env) A false w3 Hr3) as (w4 & E4 & _ & K).
  destruct (process_core_fresh now_rx (stamped h w3) (Wire.payload env) A false (bw_broker w3) Hb3) as
    (b' & ids & Ec & Hnd & Hids & Hpeers & _ & _).
  { apply to_route_stamped. split; [done|]. rewrite Eh. by apply not_control. } { by rewrite Es, Eu. }
  pose proof (process_core_out now_rx (stamped h w3) (Wire.payload env) A (bw_broker w3) Hb3) as K0.
  rewrite Ec in K, K0. destruct K as (K1 & K2 & _). destruct K0 as (_ & _ & K3 & _).
  assert (Hw4 : world_inv w4).
  { pose proof (processMessage_preserves now_rx h (Wire.payload env) A false w3 Hw3) as J. by rewrite E4 in J. }
  destruct (after_receive_move now now_stats w4 Hw4) as (q & ids' & [M1 _ _ _ _]); [by rewrite K1, K3|].
  assert (Ei : broker_iteration now_rx now now_stats w = (_ ← drain_peers; _ ← cleanup_if_due now; stats_if_due now now_stats) w4).
  { unfold broker_iteration. rewrite (bind_ok mget _ w w w) by done.
    assert (zmq_pollin (bw_router w) = true) as -> by (unfold zmq_pollin; by rewrite Hp).
    rewrite (bind_ok _ _ w w4 true); [done|]. rewrite Er. by rewrite (bind_ok _ _ _ _ _ E4). }
  rewrite Ei. rewrite K2 in M1. change (bw_router w3) with s2 in M1. rewrite S2, <-(assoc_L (++)) in M1.
  rewrite (new_sent_app _ _ _ M1), bind_app.
  destruct (addressed_first (wire_frames (mkEnvelope _ (stamped h w) (Wire.payload env)))
    (filter (fun id => ok id = true) ids) B) as (l1 & l2 & El & Hn).
  { apply list_elem_of_filter. split; [done|]. apply Hids. rewrite stamped_topic, Eh. split; [done|]. by right. }
  exists h, l1, (l2 ++ (((fun id => id :: wire_frames (mkEnvelope _ stats_header q)) <$> ids') ≫= addressed)).
  split_and!; [done|done| |done]. rewrite app_comm_cons, (assoc_L (++)), <-El. done.
Qed.

End broker.

(** ** The receiver *)

(** What the processing thread works on. *)
Definition processing (s : client_state) : option (SafeQueue Envelope * bool * gmap string (list CallbackEntry)) :=
  (fun c => (m_inbound c, Client.m_running c, m_msgHandlers c)) <$> cs_object s.

Lemma send_processing env c :
  m_inbound (sendRawEnvelope env c).1 = m_inbound c /\
  Client.m_running (sendRawEnvelope env c).1 = Client.m_running c /\
  m_msgHandlers (sendRawEnvelope env c).1 = m_msgHandlers c.
Proof.
  destruct (sendRawEnvelope_same env c) as (_ & _ & ? & ?). split_and!; [|done|done].
  unfold sendRawEnvelope. destruct (m_pWorker c) as [k|]; [|done]. by destruct (if Keys.isControlMessage _ then _ else _).
Qed.

Lemma status_processing b k s : processing (manager_status b (k, s)).2 = processing s.
Proof.
  unfold manager_status, processing. destruct (cs_object s) as [c|] eqn:E; [|cbn; by rewrite E]. cbn.
  assert (K : forall l c, let c' := foldl (fun c '(topic, _) =>
      (sendRawEnvelope (createControlEnvelope Keys.SUBSCRIBE topic c) c).1) c (l : list (string * list CallbackEntry)) in
    m_inbound c' = m_inbound c /\ Client.m_running c' = Client.m_running c /\ m_msgHandlers c' = m_msgHandlers c).
  { induction l as [|[t es] l IH]; intros c1; [done|]. cbn.
    destruct (IH (sendRawEnvelope (createControlEnvelope Keys.SUBSCRIBE t c1) c1).1) as (-> & -> & ->).
    apply send_processing. }
  unfold statusHandler. destruct b; [|done]. unfold subscribe_handlers.
  destruct (K (std_map_iter (m_msgHandlers (sendRawEnvelope (createControlEnvelope Keys.CONNECT ""
    (set_connected true (set_worker (Some k) c))) (set_connected true (set_worker (Some k) c))).1))
    (sendRawEnvelope (createControlEnvelope Keys.CONNECT ""
    (set_connected true (set_worker (Some k) c))) (set_connected true (set_worker (Some k) c))).1) as (-> & -> & ->).
  destruct (send_processing (createControlEnvelope Keys.CONNECT "" (set_connected true (set_worker (Some k) c)))
    (set_connected true (set_worker (Some k) c))) as (-> & -> & ->). done.
Qed.

Section worker_side.
Context (v : option (SafeQueue Envelope * bool * gmap string (list CallbackEntry))).

Definition shows ww : Prop := processing (ww_owner ww) = v.

Lemma shows_status b : preserves shows (call_status manager_callbacks b).
Proof.
  apply preserves_modify. intros ww Hv. unfold shows, on_both.
  change (manager_status b (ww_worker ww, ww_owner ww)) with (manager_status b (ww_worker ww, ww_owner ww)).
  pose proof (status_processing b (ww_worker ww) (ww_owner ww)) as K.
  destruct (manager_status b (ww_worker ww, ww_owner ww)) as [k x]. cbn in *. by rewrite K.
Qed.

Lemma shows_socket {T} (m : M S T) : preserves shows (with_socket m).
Proof. intros ww. unfold with_socket, mlift. by destruct (m (ww_socket ww)). Qed.

Lemma shows_drain fuel get put : preserves shows (drain_queue fuel get put).
Proof.
  intros ww Hv. destruct (drain_queue fuel get put ww) as [ww' r] eqn:E. revert ww Hv E.
  induction fuel as [|fuel IH]; intros ww Hv; cbn; unfold mbind, M_bind, mget, mmodify;
    (destruct (try_pop (get (ww_worker ww))) as [q [env|]]; [|by intros [= <- _]]);
    pose proof (shows_socket (send env) (on_worker (put q) ww) Hv) as K;
    destruct (with_socket (send env) (on_worker (put q) ww)) as [w1 [b|e]]; try (by intros [= <- _]).
  by apply IH.
Qed.

(** Nothing after the reception changes it. *)
Lemma shows_rest now :
  preserves shows (_ ← drain_control; _ ← drain_outbound; _ ← heartbeat_if_due now;
    offline_if_silent manager_callbacks now).
Proof.
  apply preserves_bind; [intros ww; apply shows_drain|]. intros _.
  apply preserves_bind; [intros ww; apply shows_drain|]. intros _. apply preserves_bind.
  - apply preserves_bind; [apply preserves_get|]. intros w0. case_decide; [|apply preserves_ret].
    apply preserves_bind; [|intros _; by apply preserves_modify].
    apply preserves_bind; [apply preserves_get|]. intros w1.
    apply preserves_bind; [apply shows_socket|intros _; apply preserves_ret].
  - intros _. apply preserves_bind; [apply preserves_get|]. intros w0. case_match; [|apply preserves_ret].
    apply preserves_bind; [by apply preserves_modify|intros _; apply shows_status].
Qed.

End worker_side.

(** A message is received: it goes to the end of the queue. *)
Lemma receive_takes now_rx ww c s1 env :
  cs_object (ww_owner ww) = Some c -> recv false (ww_socket ww) = (s1, Ok (Some env)) ->
  handler_key (Wire.header env) <> Keys.HEARTBEAT_ACK ->
  m_stop (m_inbound c) = false -> (zlen (m_queue (m_inbound c)) < m_maxSize (m_inbound c))%Z ->
  exists ww', receive_one manager_callbacks now_rx ww = (ww', Ok tt) /\
    processing (ww_owner ww') = Some (mkQueue (m_queue (m_inbound c) ++ [env]) (m_stop (m_inbound c)) (m_maxSize (m_inbound c)),
      Client.m_running c, m_msgHandlers c).
Proof.
  intros Hc Er Hkey Hst Hroom. unfold receive_one.
  assert (E1 : with_socket (recv false) ww = (put_socket s1 ww, Ok (Some env))) by (unfold with_socket, mlift; by rewrite Er).
  rewrite (bind_ok _ _ _ _ _ E1). set (w1 := on_worker (set_lastRxTime now_rx) (set_didWork true (put_socket s1 ww))).
  rewrite (bind_ok _ _ _ (set_didWork true (put_socket s1 ww)) tt) by done.
  rewrite (bind_ok _ _ _ w1 tt) by done. rewrite (bind_ok mget _ w1 w1 w1) by done.
  set (m := if m_isOnline (ww_worker w1) then mret tt
    else _ ← mmodify (on_worker (set_isOnline true)); call_status manager_callbacks true).
  assert (Hm : shows (processing (ww_owner ww)) (m w1).1 /\ (m w1).2 = Ok tt).
  { unfold m. destruct (m_isOnline (ww_worker w1)); [done|]. split; [|done].
    by apply (shows_status (processing (ww_owner ww)) true (on_worker (set_isOnline true) w1)). }
  destruct (m w1) as [w2 r] eqn:E2. cbn [fst snd] in Hm. destruct Hm as [Hv ->]. rewrite (bind_ok _ _ _ _ _ E2).
  unfold dispatch_inbound. rewrite decide_False by done. eexists. split; [reflexivity|]. cbn.
  unfold shows, processing in Hv. rewrite Hc in Hv. unfold manager_inbound, processing. cbn [fst] in Hv.
  destruct (cs_object (ww_owner w2)) as [c2|]; [|done]. injection Hv as J1 J2 J3. cbn.
  by rewrite J1, J2, J3, push_for_room.
Qed.

(** The message the broker passed on goes to the empty queue. *)
Lemma worker_takes now_rx now nd c k env :
  cs_object (nd_state nd) = Some c -> m_pWorker c = Some k -> carried env ->
  handler_key (Wire.header env) <> Keys.HEARTBEAT_ACK ->
  zmq_current (nd_socket nd) = [] -> zmq_pending (nd_socket nd) = [wire_frames env] ->
  m_queue (m_inbound c) = [] -> m_stop (m_inbound c) = false -> (0 < m_maxSize (m_inbound c))%Z ->
  exists h, h ≡ Wire.header env /\
    processing (nd_state (node_run (run_iteration manager_callbacks now_rx now) nd)) =
    Some (mkQueue [mkEnvelope _ h (Wire.payload env)] false (m_maxSize (m_inbound c)), Client.m_running c, m_msgHandlers c).
Proof.
  intros Hc Hk [Hwf Henc] Hkey Hcur Hp Hq Hst Hmax.
  destruct (recv_next false (nd_socket nd) _ _ Hcur Hp) as (s1 & Er & _).
  destruct (envelope_of_wire_frames env Hwf Henc) as (h & Eh & Heq). rewrite Eh in Er. exists h. split; [done|].
  unfold node_run, nd_worker. rewrite Hc. cbn [mbind option_bind]. rewrite Hk. cbn [world_node nd_state].
  set (ww := node_world k nd).
  set (v := Some (mkQueue [mkEnvelope _ h (Wire.payload env)] false (m_maxSize (m_inbound c)), Client.m_running c, m_msgHandlers c)).
  assert (Hv : shows v (run_iteration manager_callbacks now_rx now ww).1).
  { unfold run_iteration. rewrite (bind_ok mget _ ww ww ww) by done.
    rewrite (bind_ok _ _ ww (set_didWork false ww) tt) by done.
    assert (zmq_pollin (ww_socket ww) = true) as -> by (unfold zmq_pollin; cbn; by rewrite Hp).
    destruct (receive_takes now_rx (set_didWork false ww) c s1 (mkEnvelope _ h (Wire.payload env))) as (w3 & E3 & K3); [done|done|cbn [Wire.header]; by rewrite Heq|done|by rewrite Hq|].
    rewrite (bind_ok _ _ _ _ _ E3). apply shows_rest. unfold shows. by rewrite K3, Hq, Hst. }
  unfold shows in Hv. destruct (run_iteration manager_callbacks now_rx now ww) as [ww' r]. cbn [fst] in *.
  unfold processing, store_worker in *. cbn. destruct (cs_object (ww_owner ww')) as [c'|]; [exact Hv|done].
Qed.

(** ** The processing thread *)

Lemma processing_runs u env s c :
  cs_object s = Some c -> Client.m_running c = true -> handler_key (Wire.header env) <> Keys.RESET ->
  exists s', processing_round u env s = (s', Ok true) /\
    forall log, logs_calls u log -> log s' = log s ++ omap (logged_call (Wire.payload env))
      (default [] (m_msgHandlers c !! topic (Wire.header env))).
Proof.
  intros Ec Hr Hk. unfold processing_round. rewrite (bind_ok mget _ s s s) by done. rewrite Ec, Hr. cbn [negb].
  rewrite decide_False by done. destruct (handleMessage_calls u env s c Ec) as (s' & E & _ & K).
  exists s'. by rewrite (bind_ok _ _ _ _ _ E).
Qed.

(** ** The whole way *)

(** A process whose worker runs and has nothing to send and nothing to read. *)
Record ready_to_send (P : S -> Prop) nd : Prop := {
  rs_worker : exists c k, cs_object (nd_state nd) = Some c /\ m_pWorker c = Some k /\ Worker.m_running k = true /\
    m_queue (m_controlQueue k) = [] /\ m_queue (m_outboundQueue k) = [];
  rs_socket : P (nd_socket nd);
  rs_pending : zmq_pending (nd_socket nd) = []
}.

(** A process whose threads run and have nothing to read. *)
Record ready_to_receive nd : Prop := {
  rr_worker : exists c k, cs_object (nd_state nd) = Some c /\ m_pWorker c = Some k /\ Worker.m_running k = true /\
    Client.m_running c = true /\ m_queue (m_inbound c) = [] /\ m_stop (m_inbound c) = false /\ (0 < m_maxSize (m_inbound c))%Z;
  rr_pending : zmq_pending (nd_socket nd) = []
}.

(** A broker that knows the sender and has the receiver's subscription. *)
Record ready_to_route (R Q : S -> Prop) (A B t : string) w : Prop := {
  rt_sockets : sockets_ready R Q w;
  rt_pending : zmq_pending (bw_router w) = [];
  rt_sender : is_Some (m_clients (bw_broker w) !! A);
  rt_receiver : B ∈ subs_of (m_subscriptions (bw_broker w)) t \/ B ∈ subs_of (m_subscriptions (bw_broker w)) "";
  rt_fresh : (generateUUID (bw_gen w)).1 ∉ m_messageIdOrder (bw_broker w)
}.

Definition relay (A B : string) env (t1 t2 t3 t4 t5 t6 t7 : Z) : list (command (G:=G)) :=
  [CPublish A env; CWorker A t1 t2; CUp A; CBroker t3 t4 t5; CDown B; CWorker B t6 t7].

(** The header as the receiver gets it. *)
Definition stamped_with (bid : string) env w : MessageHeader :=
  set_origin_broker_id bid (set_message_uuid (generateUUID (bw_gen w)).1 (Wire.header env)).

Section way.
Context (bid : string) (P : S -> Prop) (HP : accepting P).
Context (R : S -> Prop) (ok : string -> bool) (HR : routing_socket R ok)
  (HRd : forall s f fs, R s -> R (zmq_deliver s f fs)).
Context (Q : S -> Prop) (HQ : accepting Q).
Context (A B : string) (HAB : A <> B) (HB : ok B = true) (user : string -> user_code).

(** From the call to the router. *)
Lemma sending_hop y nd env t1 t2 :
  sys_nodes y !! A = Some nd -> ready_to_send P nd -> zmq_open (nd_socket nd) = [] -> A ∉ (sys_up y).*1 ->
  Keys.isControlMessage (handler_key (Wire.header env)) = false ->
  (on_instance (sendRawEnvelope env) (nd_state nd)).2 = true ->
  exists nd' up, exec_all user [CPublish A env; CWorker A t1 t2; CUp A] y =
    Some ([Published A env], mkSystem (put_router (zmq_deliver (bw_router (sys_broker y)) A (wire_frames env)) (sys_broker y))
      (<[A := nd']> (sys_nodes y)) up (sys_down y)).
Proof.
  intros Hn [(c & k & Hc & Hk & Hr & Hcq & Hoq) Hs Hp] Ho Hup Hkey Hok.
  destruct (on_instance (sendRawEnvelope env) (nd_state nd)) as [s ok'] eqn:Eo. cbn in Hok. subst ok'.
  destruct (publish_queued env nd s c k Hc Hk Hkey Eo) as (k' & Ek & Er & Ecq & Eoq).
  set (nd1 := mkNode s (nd_socket nd) (nd_heartbeat nd)) in *.
  destruct (worker_puts P t1 t2 nd1 k' env HP Hs Ho Hp Ek) as (more & Em); [by rewrite Ecq|by rewrite Eoq, Hoq|].
  exists (node_run (run_iteration manager_callbacks t1 t2) nd1), (sys_up y ++ (pair A <$> more)).
  cbn [exec_all exec mbind option_bind]. rewrite Hn. cbn [mbind option_bind]. rewrite Eo. cbn [mbind option_bind fst snd].
  unfold put_state. fold nd1. cbn [sys_nodes sys_broker sys_up sys_down]. rewrite lookup_insert_eq. cbn [mbind option_bind].
  rewrite Ek. cbn [mbind option_bind]. rewrite Er, Hr. cbn [mbind option_bind fst snd].
  unfold run_worker. cbn [sys_nodes sys_broker sys_up sys_down]. rewrite Em, fmap_cons.
  rewrite (find_first (sys_up y) (pair A <$> more) A (wire_frames env)) by done. cbn [mbind option_bind fst snd].
  by rewrite find_rest, insert_insert_eq.
Qed.

(** From the router to the receiver's socket. *)
Lemma routing_hop y env nd t3 t4 t5 :
  world_inv (sys_broker y) -> sockets_ready R Q (sys_broker y) ->
  m_queue (m_peerInboundQueue (bw_broker (sys_broker y))) = [] ->
  zmq_current (bw_router (sys_broker y)) = [] -> zmq_pending (bw_router (sys_broker y)) = [A :: wire_frames env] ->
  carried env -> Keys.isControlMessage (handler_key (Wire.header env)) = false ->
  is_Some (m_clients (bw_broker (sys_broker y)) !! A) ->
  B ∈ subs_of (m_subscriptions (bw_broker (sys_broker y))) (topic (Wire.header env)) \/
  B ∈ subs_of (m_subscriptions (bw_broker (sys_broker y))) "" ->
  message_uuid (stamped (Wire.header env) (sys_broker y)) ∉ m_messageIdOrder (bw_broker (sys_broker y)) ->
  sys_nodes y !! B = Some nd -> zmq_pending (nd_socket nd) = [] -> zmq_current (nd_socket nd) = [] -> B ∉ (sys_down y).*1 ->
  exists h w' down sock, header_wf h /\ h ≡ Wire.header env /\
    zmq_pending sock = [wire_frames (mkEnvelope _ (stamped h (sys_broker y)) (Wire.payload env))] /\ zmq_current sock = [] /\
    exec_all user [CBroker t3 t4 t5; CDown B] y =
      Some ([], mkSystem w' (<[B := mkNode (nd_state nd) sock (nd_heartbeat nd)]> (sys_nodes y)) (sys_up y) down).
Proof.
  intros Hw Hr Hq Hc Hp Hcar Hkey HA Hsub Hu Hn Hnp Hnc Hd.
  destruct (broker_passes R ok HR Q HQ t3 t4 t5 (sys_broker y) A B env) as (h & l1 & l2 & Hh & Eh & El & Hl1); [done..|].
  set (env' := mkEnvelope _ (stamped h (sys_broker y)) (Wire.payload env)) in *.
  exists h, (broker_iteration t3 t4 t5 (sys_broker y)).1, (sys_down y ++ l1 ++ l2),
    (zmq_deliver (nd_socket nd) (encodeHeader (Wire.header env')) (payload_frames (Wire.payload env'))).
  split_and!; [done|done|by rewrite zmq_deliver_pending, Hnp|by rewrite zmq_deliver_current|].
  cbn [exec_all exec mbind option_bind fst snd]. unfold run_broker. cbn [sys_nodes sys_broker sys_up sys_down].
  rewrite Hn. cbn [mbind option_bind]. rewrite El, (assoc_L (++)).
  rewrite (find_first (sys_down y ++ l1) l2 B (wire_frames env')).
  2: { rewrite fmap_app. apply not_elem_of_app. by split. }
  cbn [mbind option_bind fst snd]. rewrite find_rest, <-(assoc_L (++)). done.
Qed.

(** From its socket to the processing thread. *)
Lemma receiving_hop y env nd c k t6 t7 :
  sys_nodes y !! B = Some nd -> cs_object (nd_state nd) = Some c -> m_pWorker c = Some k -> Worker.m_running k = true ->
  carried env -> handler_key (Wire.header env) <> Keys.HEARTBEAT_ACK ->
  zmq_current (nd_socket nd) = [] -> zmq_pending (nd_socket nd) = [wire_frames env] ->
  m_queue (m_inbound c) = [] -> m_stop (m_inbound c) = false -> (0 < m_maxSize (m_inbound c))%Z ->
  exists h y' nd', h ≡ Wire.header env /\ exec_all user [CWorker B t6 t7] y = Some ([], y') /\ sys_nodes y' !! B = Some nd' /\
    processing (nd_state nd') =
    Some (mkQueue [mkEnvelope _ h (Wire.payload env)] false (m_maxSize (m_inbound c)), Client.m_running c, m_msgHandlers c).
Proof.
  intros Hn Hc Hk Hr Hcar Hkey Hcur Hp Hq Hst Hmax.
  destruct (worker_takes t6 t7 nd c k env) as (h & Eh & E); [done..|].
  eexists h, _, _. split; [done|]. split.
  - cbn [exec_all exec]. rewrite Hn. cbn [mbind option_bind]. unfold nd_worker at 1. rewrite Hc. cbn [mbind option_bind].
    rewrite Hk. cbn [mbind option_bind]. rewrite Hr. reflexivity.
  - split; [|exact E]. unfold run_worker. cbn [sys_nodes snd]. apply lookup_insert_eq.
Qed.

(** All hops. *)
Lemma relay_lands y nd1 nd2 env t1 t2 t3 t4 t5 t6 t7 :
  sys_ok bid y -> sys_nodes y !! A = Some nd1 -> ready_to_send P nd1 -> sys_nodes y !! B = Some nd2 -> ready_to_receive nd2 ->
  ready_to_route R Q A B (topic (Wire.header env)) (sys_broker y) -> A ∉ (sys_up y).*1 -> B ∉ (sys_down y).*1 ->
  speaks (G:=G) bid A env -> Keys.isControlMessage (handler_key (Wire.header env)) = false ->
  (on_instance (sendRawEnvelope env) (nd_state nd1)).2 = true ->
  exists y' env' nd' s, exec_all user (relay A B env t1 t2 t3 t4 t5 t6 t7) y = Some ([Published A env], y') /\
    sys_nodes y' !! B = Some nd' /\ pop_inbound (nd_state nd') = Some (env', s) /\
    Wire.payload env' = Wire.payload env /\ Wire.header env' ≡ stamped_with bid env (sys_broker y) /\
    exists s', processing_round (user B) env' s = (s', Ok true) /\
      forall log, logs_calls (user B) log -> log s' = log s ++ omap (logged_call (Wire.payload env))
        (default [] (handler_of (topic (Wire.header env)) (nd_state nd2))).
Proof.
  intros [Y1 Y2 Y3 Y4 _ _ Y7] N1 Hs N2 [(c & k & Hc & Hk & Hkr & Hcr & Hq & Hst & Hmax) Hrp] [T1 T2 T3 T4 T5] Hup Hdn Hsp Hkey Hok.
  destruct (Y7 A nd1 N1) as [[_ O1 _] _]. destruct (Y7 B nd2 N2) as [[_ _ C2] _].
  destruct (sending_hop y nd1 env t1 t2 N1 Hs O1 Hup Hkey Hok) as (nd1' & up & E1).
  set (y1 := mkSystem _ _ up _) in E1. set (w := sys_broker y) in *.
  assert (Es : stamped (Wire.header env) w = stamped_with bid env w)
    by (unfold stamped, stamped_with; by rewrite decide_True, Y2 by apply (sp_fresh _ _ _ Hsp)).
  destruct (routing_hop y1 env nd2 t3 t4 t5) as (h & w' & down & sock & Hh & Eh & Ep & Ec & E2).
  { by destruct Y1; split; cbn; rewrite ?zmq_deliver_open. }
  { destruct T1; split; cbn; rewrite ?zmq_deliver_open; auto. }
  { done. } { cbn. by rewrite zmq_deliver_current. } { cbn. by rewrite zmq_deliver_pending, T2. }
  { apply Hsp. } { done. } { done. } { done. }
  { change (stamped (Wire.header env) (sys_broker y1)) with (stamped (Wire.header env) w). by rewrite Es. }
  { cbn. by rewrite lookup_insert_ne. } { done. } { done. } { done. }
  change (stamped h (sys_broker y1)) with (stamped h w) in Ep.
  destruct (stamped_carried bid A "" A env h w Hsp Hh Eh Y2) as [Hcar _].
  assert (Eh2 : stamped h w ≡ stamped_with bid env w).
  { unfold stamped, stamped_with. rewrite decide_True by (rewrite Eh; apply (sp_fresh _ _ _ Hsp)). by rewrite Y2, Eh. }
  set (y2 := mkSystem _ _ _ down) in E2.
  destruct (receiving_hop y2 (mkEnvelope _ (stamped h w) (Wire.payload env)) (mkNode (nd_state nd2) sock (nd_heartbeat nd2)) c k t6 t7)
    as (h' & y3 & nd3 & Eh' & E3 & N3 & Pr); try done.
  { apply lookup_insert_eq. } { cbn [Wire.header]. rewrite stamped_key, Eh. by apply not_control. }
  pose proof (exec_all_app _ _ _ _ _ _ _ _ (exec_all_app _ _ _ _ _ _ _ _ E1 E2) E3) as E.
  cbn [Wire.header Wire.payload] in *.
  unfold processing in Pr. destruct (cs_object (nd_state nd3)) as [c3|] eqn:Ec3; [|done]. injection Pr as J1 J2 J3.
  eexists y3, (mkEnvelope _ h' (Wire.payload env)), nd3, _. split; [exact E|]. split; [done|].
  split; [unfold pop_inbound, try_pop; rewrite Ec3, J1; reflexivity|].
  split_and!; [done|cbn [Wire.header]; by rewrite Eh'|].
  match goal with |- exists s', processing_round _ ?e ?s = _ /\ _ => edestruct (processing_runs (user B) e s) as (s' & Er & K) end;
    [reflexivity|cbn; congruence|cbn [Wire.header]; rewrite Eh', stamped_key, Eh; by apply not_control|].
  exists s'. split; [exact Er|]. intros log Hl. rewrite (K log Hl). cbn [Wire.header Wire.payload m_msgHandlers set_inbound].
  assert (Et : topic h' = topic (Wire.header env)) by (by rewrite Eh', stamped_topic, Eh).
  unfold handler_of. by rewrite J3, Hc, Et.
Qed.

(** C3. Delivery, end to end: in a state that a broker and its clients reach,
    client [A] publishes a message and the library accepts it; the broker knows [A], has
    [B]'s subscription to the topic or to everything and has not seen the id it will stamp;
    the queues of [A]'s worker, the inbound queue of [B] and the three sockets are empty and take messages, and
    nothing else of [A]'s or for [B] is in transit.  Then one turn each of [A]'s worker, of
    the network, of the broker, of the network and of [B]'s worker, at whatever times, bring
    the message to [B]'s processing thread: with its payload, and with its header but for the
    identity of the broker and the id that it stamped.  The thread then runs every callback that [B] had
    registered for the topic, in order, with the payload, and goes on whatever they do. *)
Theorem message_delivered y0 es0 y nd1 nd2 env t1 t2 t3 t4 t5 t6 t7 :
  initial y0 -> m_brokerId (bw_broker (sys_broker y0)) = bid ->
  (forall id, id ∈ dom (sys_nodes y0) -> polite (G:=G) bid id) ->
  Forall (header_encodable IsStructurallyValidUTF8) [reset_header; ack_header; stats_header] ->
  sys_run user (speaks (G:=G) bid) y0 es0 y ->
  sys_nodes y !! A = Some nd1 -> ready_to_send P nd1 -> sys_nodes y !! B = Some nd2 -> ready_to_receive nd2 ->
  ready_to_route R Q A B (topic (Wire.header env)) (sys_broker y) -> A ∉ (sys_up y).*1 -> B ∉ (sys_down y).*1 ->
  speaks (G:=G) bid A env -> Keys.isControlMessage (handler_key (Wire.header env)) = false ->
  (on_instance (sendRawEnvelope env) (nd_state nd1)).2 = true ->
  exists y' env' nd' s, exec_all user (relay A B env t1 t2 t3 t4 t5 t6 t7) y = Some ([Published A env], y') /\
    sys_run user (speaks (G:=G) bid) y [Published A env] y' /\
    sys_nodes y' !! B = Some nd' /\ pop_inbound (nd_state nd') = Some (env', s) /\
    Wire.payload env' = Wire.payload env /\ Wire.header env' ≡ stamped_with bid env (sys_broker y) /\
    exists s', processing_round (user B) env' s = (s', Ok true) /\
      forall log, logs_calls (user B) log -> log s' = log s ++ omap (logged_call (Wire.payload env))
        (default [] (handler_of (topic (Wire.header env)) (nd_state nd2))).
Proof.
  intros Hi Hid Hp Hown Hrun N1 Hs N2 Hr Ht Hup Hdn Hsp Hkey Hok.
  assert (Hy : sys_ok bid y).
  { destruct (initial_ok y0 "A" "B" "t" Hi eq_refl) as [Hy0 _]; [by rewrite Hid|]. rewrite Hid in Hy0.
    by destruct (run_orderly bid "A" "B" "t" eq_refl ltac:(done) Hown user y0 es0 y Hrun Hy0). }
  destruct (relay_lands y nd1 nd2 env t1 t2 t3 t4 t5 t6 t7) as (y' & env' & nd' & s & E & K); [done..|].
  exists y', env', nd', s. split; [exact E|]. split; [|exact K].
  apply (exec_all_sound user (speaks (G:=G) bid) (relay A B env t1 t2 t3 t4 t5 t6 t7)); [|exact E].
  unfold relay. by repeat (apply Forall_cons_2; [done|]).
Qed.

End way.

End delivery.
