(* ===== verification/MeshLink.v ===== *)
(** * How a link of the mesh is established

    [addPeer] starts a worker whose callback answers a RESET with the wildcard
    subscription ([server/zmqbroker.cpp]).  Here that worker's thread and the
    broker it dials run in turns; after two of them the broker has the link as a
    client with the wildcard subscription, which is what [Mesh] assumes of a
    link. *)

From S2P Require Import Prelude Keys CppString SafeQueue SubscriptionRegistry MessageHeader.
From S2P Require Import Stats Payload Wire Worker Uuid Discovery Broker BrokerFacts BrokerTheorems.
From S2P Require Import Client System WorkerPhases.

Section link.
Context `{StatsRuntime} `{!HeaderParser} {G : Type} `{HexGen G} {S : Type} `{ZmqSocket S}
  `{!ZmqNetwork S} `{UnorderedOrder}.

Implicit Types w : broker_world (G:=G) (S:=S).
Implicit Types ww : worker_world (X:=option (SafeQueue Envelope)) (S:=S).

(** The worker of a link has no status handler and no queue, only the callback.
    The owner's part is the broker's inbound queue, and [None] once the callback
    waits for room in it: the thread gets no further then. *)
Definition link_callback (linkId : string) (env : Envelope)
    (st : ZmqWorker * option (SafeQueue Envelope)) : ZmqWorker * option (SafeQueue Envelope) :=
  match st with
  | (link, Some inbound) =>
      match peer_link_message linkId env (link, inbound) with
      | Some (link, inbound) => (link, Some inbound)
      | None => (link, None)
      end
  | (link, None) => (link, None)
  end.

Definition link_callbacks (linkId : string) : worker_callbacks (X:=option (SafeQueue Envelope)) :=
  mkCallbacks None None (Some (link_callback linkId)).

Definition link_start (brokerId peerAddress : string) (now : Z) (inbound : SafeQueue Envelope) (sock : S) :
    worker_world :=
  let config := peer_config brokerId peerAddress in
  (run_prologue (link_callbacks (clientId config)) now
     (mkWorld (worker_start (worker_new config)) (Some inbound) sock 0 false)).1.

(** ** Turns *)

(** The broker takes the messages of the link one by one. *)
Definition broker_takes (now : Z) (linkId : string) (w : broker_world (G:=G) (S:=S)) (msgs : list (list string)) :
    broker_world :=
  foldl (fun w m => match envelope_of_frames m with
                    | Some env => (processMessage now (Wire.header env) (Wire.payload env) linkId false w).1
                    | None => w
                    end) w msgs.

(** What the router sent to the link arrives at its socket. *)
Definition link_takes (linkId : string) (s : S) (msgs : list (list string)) : S :=
  foldl (fun s m => match m with
                    | id :: f :: frames => if decide (id = linkId) then zmq_deliver s f frames else s
                    | _ => s
                    end) s msgs.

(** An iteration of the link's worker, the broker on what it sent, and the
    answers back to the link; [None] when the worker stays in its callback. *)
Definition link_turn (now : Z) (st : worker_world * broker_world) : option (worker_world * broker_world) :=
  let '(ww, w) := st in
  let id := clientId (m_config (ww_worker ww)) in
  let ww' := (run_iteration (link_callbacks id) now now ww).1 in
  match ww_owner ww' with
  | None => None
  | Some _ =>
      let w' := broker_takes now id w (new_sent (ww_socket ww) (ww_socket ww')) in
      Some (put_socket (link_takes id (ww_socket ww') (new_sent (bw_router w) (bw_router w'))) ww', w')
  end.

Section sending.
Context (P : S -> Prop) (HP : accepting P).

Notation link_idle := (sock_idle (X:=option (SafeQueue Envelope)) P).

(** ** Reception of a RESET *)

Definition link_subscription (id : string) : Envelope :=
  mkEnvelope _ (set_topic "" (set_sender_id id (set_handler_key Keys.SUBSCRIBE header_new))) "".

Lemma receive_reset id now env ww inbound :
  ww_owner ww = Some inbound -> link_idle [wire_frames env] ww -> handler_key (Wire.header env) = Keys.RESET ->
  header_wf (Wire.header env) -> header_encodable IsStructurallyValidUTF8 (Wire.header env) ->
  m_controlQueue (ww_worker ww) = queue_default ->
  exists ww', receive_one (link_callbacks id) now ww = (ww', Ok tt) /\ link_idle [] ww' /\
    zmq_sent (ww_socket ww') = zmq_sent (ww_socket ww) /\
    m_config (ww_worker ww') = m_config (ww_worker ww) /\ worker_core (ww_worker ww') = (true, now) /\
    m_queue (m_controlQueue (ww_worker ww')) = [link_subscription id] /\
    m_outboundQueue (ww_worker ww') = m_outboundQueue (ww_worker ww) /\
    ww_lastHeartbeat ww' = ww_lastHeartbeat ww /\ ww_owner ww' = Some inbound.
Proof.
  intros Hin [K1 K2 K3 K4] Hk Hwf Henc Hq.
  destruct (recv_next false (ww_socket ww) _ _ K3 K4) as (s' & E & C & Pn & O & Sn).
  destruct (envelope_of_wire_frames env Hwf Henc) as (h & Eh & Heq). rewrite Eh in E.
  assert (Ps : P s').
  { pose proof (recv_preserves P (proj2 HP) false (ww_socket ww) K1) as J. by rewrite E in J. }
  assert (Er : with_socket (recv false) ww = (put_socket s' ww, Ok (Some (mkEnvelope _ h (Wire.payload env)))))
    by (unfold with_socket, mlift; by rewrite E).
  unfold receive_one. rewrite (bind_ok _ _ _ _ _ Er).
  set (w1 := on_worker (set_lastRxTime now) (set_didWork true (put_socket s' ww))).
  rewrite (bind_ok _ _ _ (set_didWork true (put_socket s' ww)) tt) by done.
  rewrite (bind_ok _ _ _ w1 tt) by done. rewrite (bind_ok mget _ w1 w1 w1) by done.
  assert (Est : exists ww2, (if m_isOnline (ww_worker w1) then mret tt
      else _ ← mmodify (on_worker (set_isOnline true)); call_status (link_callbacks id) true) w1 = (ww2, Ok tt) /\
      ww_worker ww2 = set_isOnline true (ww_worker w1) /\ ww_socket ww2 = s' /\
      ww_lastHeartbeat ww2 = ww_lastHeartbeat ww /\ ww_owner ww2 = Some inbound).
  { destruct (m_isOnline (ww_worker w1)) eqn:Eo; [|by eexists].
    exists w1. split_and!; [done| |done|done|done]. destruct w1 as [[] ? ? ? ?]; simpl in *. by rewrite Eo. }
  destruct Est as (ww2 & E2 & K5 & K6 & K7 & K8). rewrite (bind_ok _ _ _ _ _ E2).
  assert (Hh : handler_key h = Keys.RESET) by (by rewrite Heq).
  unfold dispatch_inbound. cbn [Wire.header]. rewrite Hh, decide_False by done.
  assert (Ew : writeControlMessage (link_subscription id) (ww_worker ww2)
    = (set_controlQueue (mkQueue [link_subscription id] false 5000) (ww_worker ww2), true)).
  { unfold writeControlMessage. replace (m_controlQueue (ww_worker ww2)) with (queue_default (T:=Envelope)); [done|].
    by rewrite K5. }
  unfold mmodify, on_both, link_callback; simpl. rewrite K8. simpl. rewrite Hh, decide_True by done. fold (link_subscription id). rewrite Ew. simpl.
  eexists. split; [reflexivity|]. simpl. rewrite K5, K6. split_and!; try done. split; simpl; congruence || done.
Qed.

End sending.

(** ** The broker's side *)

Section handshake.
Context (P : S -> Prop) (HP : accepting P) (HPd : forall s f fs, P s -> P (zmq_deliver s f fs)).
Context (R : S -> Prop) (ok : string -> bool) (HR : routing_socket R ok).
Context (Q : S -> Prop) (HQ : accepting Q).

(** The first message of an unknown client, and the subscription of a known one. *)
Lemma unknown_answer now h p id w :
  sockets_ready R Q w -> m_clients (bw_broker w) !! id = None -> handler_key h <> Keys.DISCONNECT -> ok id = true ->
  broker_inv (bw_broker w) ->
  let w' := (processMessage now h p id false w).1 in
  sockets_ready R Q w' /\ broker_inv (bw_broker w') /\
  zmq_sent (bw_router w') = zmq_sent (bw_router w) ++ [[id; encodeHeader reset_header]] /\
  m_subscriptions (bw_broker w') = m_subscriptions (bw_broker w) /\
  is_Some (m_clients (bw_broker w') !! id).
Proof.
  intros Hr Hn Hk Hok Hb.
  destruct (processMessage_exact R ok HR Q HQ now h p id false w Hr) as (w' & -> & Hr' & K).
  pose proof (process_core_inv now (stamped h w) p id false (bw_broker w) Hb) as Hb'.
  unfold process_core in K, Hb'. rewrite stamped_key in K, Hb'. rewrite decide_False in K, Hb' by done.
  rewrite decide_True in K, Hb' by done. destruct K as (K1 & K2 & _). simpl.
  split_and!; [done|by rewrite K1|rewrite K2; by rewrite filter_cons_True, filter_nil|by rewrite K1|].
  rewrite K1; simpl. rewrite lookup_insert_eq. eauto.
Qed.

Lemma subscribe_known now h p id w :
  sockets_ready R Q w -> is_Some (m_clients (bw_broker w) !! id) -> handler_key h = Keys.SUBSCRIBE ->
  broker_inv (bw_broker w) ->
  let w' := (processMessage now h p id false w).1 in
  sockets_ready R Q w' /\ broker_inv (bw_broker w') /\ zmq_sent (bw_router w') = zmq_sent (bw_router w) /\
  is_Some (m_clients (bw_broker w') !! id) /\
  (forall c t, c ∈ subs_of (m_subscriptions (bw_broker w')) t <->
     c ∈ subs_of (m_subscriptions (bw_broker w)) t \/ c = id /\ t = topic h).
Proof.
  intros Hr [st Hst] Hk Hb.
  destruct (processMessage_exact R ok HR Q HQ now h p id false w Hr) as (w' & -> & Hr' & K).
  pose proof (process_core_inv now (stamped h w) p id false (bw_broker w) Hb) as Hb'.
  unfold process_core in K, Hb'. rewrite stamped_key, stamped_topic in K, Hb'. rewrite Hk in K, Hb'.
  rewrite decide_False in K, Hb' by done. rewrite decide_False in K, Hb' by congruence.
  rewrite decide_False in K, Hb' by done. rewrite decide_False in K, Hb' by done. rewrite decide_True in K, Hb' by done.
  destruct K as (K1 & K2 & _). simpl. split_and!; [done|by rewrite K1|by rewrite K2, filter_nil, app_nil_r| |].
  - rewrite K1; simpl. rewrite lookup_insert_eq. eauto.
  - intros c t. rewrite K1; simpl. rewrite elem_of_subs_of_subscribe by apply Hb. tauto.
Qed.

(** The headers a handshake needs. *)
Definition handshake_headers (config : ConnectionConfig) : list MessageHeader :=
  [heartbeat_header config; reset_header; Wire.header (link_subscription (clientId config))].

Lemma handshake_wf config : Forall header_wf (handshake_headers config).
Proof.
  unfold handshake_headers, heartbeat_header, reset_header, link_subscription. cbn [Wire.header].
  repeat (apply Forall_cons_2; [auto 10 with wisp|]). apply Forall_nil_2.
Qed.

(** The first turn: the heartbeat, and the RESET in answer to it. *)
Lemma first_turn id t0 t1 ww w inbound :
  ww_owner ww = Some inbound ->
  clientId (m_config (ww_worker ww)) = id ->
  Forall (header_encodable IsStructurallyValidUTF8) (handshake_headers (m_config (ww_worker ww))) ->
  sock_idle P [] ww -> m_queue (m_controlQueue (ww_worker ww)) = [] -> m_queue (m_outboundQueue (ww_worker ww)) = [] ->
  m_isOnline (ww_worker ww) = false -> ww_lastHeartbeat ww = (t0 - HEARTBEAT_INTERVAL)%Z -> (t0 < t1)%Z ->
  sockets_ready R Q w -> broker_inv (bw_broker w) -> m_clients (bw_broker w) !! id = None -> ok id = true ->
  exists ww' w', link_turn t1 (ww, w) = Some (ww', w') /\ ww_owner ww' = Some inbound /\
  sock_idle P [wire_frames (mkEnvelope _ reset_header "")] ww' /\ ww_worker ww' = ww_worker ww /\
  ww_lastHeartbeat ww' = t1 /\
  sockets_ready R Q w' /\ broker_inv (bw_broker w') /\ is_Some (m_clients (bw_broker w') !! id) /\
  m_subscriptions (bw_broker w') = m_subscriptions (bw_broker w).
Proof.
  intros Hin Hid Henc Hi Hc Ho Hon Hhb Ht Hr Hb Hn Hok. unfold link_turn. rewrite Hid.
  destruct (idle_phase (link_callbacks id) P HP [] t1 (set_didWork false ww)) as (ww1 & E1 & I1 & K1 & W1 & T1 & S1); [by destruct Hi|done|done|cbn; congruence|].
  cbn [set_didWork ww_lastHeartbeat ww_socket ww_worker ww_owner] in T1, S1, K1, W1. rewrite Hhb in T1, S1.
  rewrite decide_True in T1 by (unfold HEARTBEAT_INTERVAL; lia).
  rewrite decide_True in S1 by (unfold HEARTBEAT_INTERVAL; lia).
  assert (Er : run_iteration (link_callbacks id) t1 t1 ww = (ww1, Ok tt)).
  { unfold run_iteration. rewrite (bind_ok mget _ ww ww ww) by done.
    rewrite (bind_ok _ _ _ (set_didWork false ww) tt) by done.
    assert (zmq_pollin (ww_socket ww) = false) as -> by (unfold zmq_pollin; by rewrite (li_pending _ _ _ Hi)).
    by rewrite (bind_ok _ _ _ (set_didWork false ww) tt). }
  rewrite Er. cbn [fst]. rewrite W1, Hin. assert (Hns : new_sent (ww_socket ww) (ww_socket ww1)
    = [wire_frames (mkEnvelope _ (heartbeat_header (m_config (ww_worker ww))) "")]).
  { unfold new_sent. rewrite S1. apply drop_app_length. }
  rewrite Hns. unfold broker_takes. cbn [foldl].
  pose proof (handshake_wf (m_config (ww_worker ww))) as Hwf.
  apply Forall_cons in Henc as [Henc _]. apply Forall_cons in Hwf as [Hwf _].
  destruct (envelope_of_wire_frames (mkEnvelope _ (heartbeat_header (m_config (ww_worker ww))) "") Hwf Henc)
    as (h & -> & Eh). cbn [Wire.header Wire.payload].
  destruct (unknown_answer t1 h "" id w Hr Hn) as (J1 & J2 & J3 & J4 & J5); [by rewrite Eh|done|done|].
  set (w1 := (processMessage t1 h "" id false w).1) in *.
  assert (new_sent (bw_router w) (bw_router w1) = [[id; encodeHeader reset_header]]) as ->.
  { unfold new_sent. rewrite J3. apply drop_app_length. }
  unfold link_takes. cbn [foldl]. rewrite decide_True by done. eexists _, _. split; [reflexivity|].
  split_and!; try done; [by rewrite <- Hin, <- W1|]. destruct I1 as [L1 L2 L3 L4].
  split; simpl; [by apply HPd|by rewrite zmq_deliver_open|by rewrite zmq_deliver_current|by rewrite zmq_deliver_pending, L4].
Qed.

(** The second turn: the RESET is answered by the wildcard subscription. *)
Lemma second_turn id t1 t2 ww w inbound :
  ww_owner ww = Some inbound ->
  clientId (m_config (ww_worker ww)) = id ->
  Forall (header_encodable IsStructurallyValidUTF8) (handshake_headers (m_config (ww_worker ww))) ->
  sock_idle P [wire_frames (mkEnvelope _ reset_header "")] ww ->
  m_controlQueue (ww_worker ww) = queue_default -> m_queue (m_outboundQueue (ww_worker ww)) = [] ->
  ww_lastHeartbeat ww = t1 -> (t2 <= t1 + HEARTBEAT_INTERVAL)%Z ->
  sockets_ready R Q w -> broker_inv (bw_broker w) -> is_Some (m_clients (bw_broker w) !! id) ->
  exists ww' w', link_turn t2 (ww, w) = Some (ww', w') /\ ww_owner ww' = Some inbound /\
  m_isOnline (ww_worker ww') = true /\ is_Some (m_clients (bw_broker w') !! id) /\
  (forall c t, c ∈ subs_of (m_subscriptions (bw_broker w')) t <->
     c ∈ subs_of (m_subscriptions (bw_broker w)) t \/ c = id /\ t = "").
Proof.
  intros Hin Hid Henc Hi Hc Ho Hhb Ht Hr Hb Hn. unfold link_turn. rewrite Hid.
  apply Forall_cons in Henc as [_ [Henc2 [Henc3 _]%Forall_cons]%Forall_cons].
  pose proof (handshake_wf (m_config (ww_worker ww))) as [_ [Hwf2 [Hwf3 _]%Forall_cons]%Forall_cons]%Forall_cons.
  destruct (receive_reset P HP id t2 (mkEnvelope _ reset_header "") (set_didWork false ww) inbound)
    as (ww1 & E1 & I1 & S1 & C1 & [= O1 T1] & Q1 & Q2 & H1b & W1); [done|by destruct Hi|done..|].
  cbn [set_didWork ww_lastHeartbeat ww_socket ww_worker] in S1, C1, Q2, H1b. rewrite Hhb in H1b.
  destruct (send_phase (link_callbacks id) P HP [] t2 ww1 I1) as (ww2 & E2 & I2 & _ & _ & W2 & C2 & [= O2 T2] & _ & _ & S2).
  { intros _. rewrite T1. unfold SERVER_TIMEOUT, seconds. lia. }
  rewrite Q1, Q2, Ho, H1b, decide_False in S2 by (unfold HEARTBEAT_INTERVAL in *; lia). rewrite S1 in S2.
  assert (Er : run_iteration (link_callbacks id) t2 t2 ww = (ww2, Ok tt)).
  { unfold run_iteration. rewrite (bind_ok mget _ ww ww ww) by done.
    rewrite (bind_ok _ _ _ (set_didWork false ww) tt) by done.
    assert (zmq_pollin (ww_socket ww) = true) as -> by (unfold zmq_pollin; by rewrite (li_pending _ _ _ Hi)).
    by rewrite (bind_ok _ _ _ ww1 tt). }
  rewrite Er. cbn [fst]. rewrite W2, W1.
  assert (Hns : new_sent (ww_socket ww) (ww_socket ww2) = [wire_frames (link_subscription id)]).
  { unfold new_sent. rewrite S2. apply drop_app_length. }
  rewrite Hns. unfold broker_takes. cbn [foldl]. rewrite Hid in Henc3, Hwf3.
  destruct (envelope_of_wire_frames (link_subscription id) Hwf3 Henc3) as (h & -> & Eh).
  cbn [Wire.header Wire.payload].
  destruct (subscribe_known t2 h "" id w Hr Hn) as (J1 & J2 & J3 & J4 & J5); [by rewrite Eh|done|].
  eexists _, _. split; [reflexivity|].
  split_and!; [cbn [put_socket ww_owner]; by rewrite W2, W1|cbn [put_socket ww_worker]; by rewrite O2, O1|done|].
  intros c t. rewrite J5. by rewrite Eh.
Qed.

(** C7. A link gets established: a broker dials another one that does not know
    it.  After two turns of the link's worker and the dialled broker, less than a
    heartbeat interval apart, the link is online, the dialled broker has it in its
    client table and subscribed to the wildcard topic, and no other subscription
    changed; the worker does not wait in its callback meanwhile, and nothing was
    put into the inbound queue.  This is what routing in the mesh relies on. *)
Theorem link_established brokerId peerAddress t0 t1 t2 inbound sock w :
  let config := peer_config brokerId peerAddress in
  let id := clientId config in
  Forall (header_encodable IsStructurallyValidUTF8) (handshake_headers config) ->
  P sock -> zmq_open sock = [] -> zmq_current sock = [] -> zmq_pending sock = [] ->
  sockets_ready R Q w -> broker_inv (bw_broker w) -> m_clients (bw_broker w) !! id = None -> ok id = true ->
  (t0 < t1)%Z -> (t2 <= t1 + HEARTBEAT_INTERVAL)%Z ->
  exists ww w', link_turn t1 (link_start brokerId peerAddress t0 inbound sock, w) ≫= link_turn t2 = Some (ww, w') /\
  ww_owner ww = Some inbound /\ m_isOnline (ww_worker ww) = true /\ is_Some (m_clients (bw_broker w') !! id) /\
  (forall c t, c ∈ subs_of (m_subscriptions (bw_broker w')) t <->
     c ∈ subs_of (m_subscriptions (bw_broker w)) t \/ c = id /\ t = "").
Proof.
  intros config id Henc Hs Ho Hc Hp Hr Hb Hn Hok Ht1 Ht2.
  set (ww0 := link_start brokerId peerAddress t0 inbound sock).
  assert (Hi : sock_idle P [] ww0) by (by split).
  destruct (first_turn id t0 t1 ww0 w inbound eq_refl eq_refl Henc Hi eq_refl eq_refl eq_refl eq_refl Ht1 Hr Hb Hn Hok)
    as (ww1 & w1 & E1 & W1 & K1 & K2 & K3 & K4 & K5 & K6 & K7).
  rewrite E1. cbn [mbind option_bind].
  pose proof (second_turn id t1 t2 ww1 w1 inbound W1) as L. rewrite K2, K7 in L.
  exact (L eq_refl Henc K1 eq_refl eq_refl K3 Ht2 K4 K5 K6).
Qed.
End handshake.
End link.
