(* ===== verification/SystemRequest.v ===== *)
(** * A request is answered

    [ConnectionManager::sendRequest] from the call to the value of its promise, through
    both workers, the broker and the processing threads of both processes.

    The clock readings lie within a second, and no periodic task of a worker or of
    the broker is due in it; the turns of the threads are then exact functions of
    the state. *)

From stdpp Require Import relations.
From S2P Require Import Prelude Keys CppString SafeQueue SubscriptionRegistry MessageHeader.
From S2P Require Import Stats Payload Wire Worker WorkerPhases Uuid Discovery Broker BrokerFacts BrokerTheorems.
From S2P Require Import Client ClientTheorems System SystemFacts Schedule SystemTheorems SystemDelivery MeshLink.

Section request.
Context `{StatsRuntime} `{!HeaderParser} {G : Type} `{HexGen G} {S : Type} `{ZmqSocket S}
  `{!ZmqNetwork S} `{UnorderedOrder}.

Implicit Types y : system (G:=G) (S:=S).
Implicit Types w : broker_world (G:=G) (S:=S).
Implicit Types ww : worker_world (X:=client_state) (S:=S).
Implicit Types env : Envelope.
Implicit Types nd : node (S:=S).

Context (P : S -> Prop) (HP : accepting P) (HPd : forall s f fs, P s -> P (zmq_deliver s f fs)).
(** The end of the time span. *)
Context (T : Z).

(** ** A worker's turn *)

(** A worker that is online, with nothing periodic to do before [T]: what it has to
    read and to send is given. *)
Record calm (pending : list (list string)) (control outbound : list Envelope) nd
    (c : ConnectionManager) (k : ZmqWorker) : Prop := {
  cm_object : cs_object (nd_state nd) = Some c;
  cm_worker : m_pWorker c = Some k;
  cm_running : Worker.m_running k = true;
  cm_online : m_isOnline k = true;
  cm_heard : (T - m_lastRxTime k <= SERVER_TIMEOUT)%Z;
  cm_beat : (T - nd_heartbeat nd <= HEARTBEAT_INTERVAL)%Z;
  cm_socket : sock_idle P pending (node_world k nd);
  cm_control : m_queue (m_controlQueue k) = control;
  cm_outbound : m_queue (m_outboundQueue k) = outbound
}.

Lemma calm_node_worker pending control outbound nd c k : calm pending control outbound nd c k -> nd_worker nd = Some k.
Proof. intros [K1 K2 _ _ _ _ _ _ _]. unfold nd_worker. by rewrite K1. Qed.

(** What is queued goes out, and nothing else. *)
Lemma calm_sends now_rx now control outbound nd c k :
  calm [] control outbound nd c k -> (now <= T)%Z ->
  let nd' := node_run (run_iteration manager_callbacks now_rx now) nd in
  exists k', calm [] [] [] nd' (set_worker (Some k') c) k' /\
    nd_state nd' = set_object (Some (set_worker (Some k') c)) (nd_state nd) /\
    new_sent (nd_socket nd) (nd_socket nd') = wire_frames <$> control ++ outbound.
Proof.
  intros Hcalm Ht. pose proof (calm_node_worker _ _ _ _ _ _ Hcalm) as Hnd. destruct Hcalm as [K1 K2 K3 K4 K5 K6 K7 K8 K9].
  unfold node_run. rewrite Hnd. set (ww := set_didWork false (node_world k nd)).
  assert (I0 : sock_idle P [] ww) by (destruct K7; by split).
  destruct (send_phase manager_callbacks P HP [] now ww I0) as (ww' & E & I' & Q1 & Q2 & O' & C' & W' & R' & H' & S').
  { intros _. cbn. lia. }
  assert (Ei : run_iteration manager_callbacks now_rx now (node_world k nd) = (ww', Ok tt)).
  { unfold run_iteration. rewrite (bind_ok mget _ _ (node_world k nd) (node_world k nd)) by done.
    rewrite (bind_ok _ _ _ ww tt) by done.
    assert (zmq_pollin (ww_socket (node_world k nd)) = false) as -> by (unfold zmq_pollin; by rewrite (li_pending _ _ _ K7)).
    by rewrite (bind_ok _ _ ww ww tt). }
  rewrite Ei. cbn [fst world_node nd_state nd_socket]. exists (ww_worker ww').
  unfold worker_core in W'. injection W' as W1 W2.
  assert (Hd : ~ (now - ww_lastHeartbeat ww > HEARTBEAT_INTERVAL)%Z) by (cbn; lia).
  rewrite decide_False in H' by done. rewrite decide_False, app_nil_r in S' by done.
  assert (Es : store_worker (ww_worker ww') (ww_owner ww') = set_object (Some (set_worker (Some (ww_worker ww')) c)) (nd_state nd)).
  { unfold store_worker. rewrite O'. cbn [ww_owner ww set_didWork node_world]. by rewrite K1. }
  split_and!; [|exact Es|].
  - split; cbn [world_node nd_state nd_heartbeat]; rewrite ?Es; try done.
    + by rewrite R'.
    + by rewrite W1.
    + by rewrite W2.
    + by rewrite H'.
    + destruct I'; by split.
  - apply new_sent_app. rewrite S'. cbn. by rewrite K8, K9.
Qed.

(** What arrives goes to the inbound queue, and nothing is sent. *)
Lemma calm_receives now_rx now nd c k env :
  calm [wire_frames env] [] [] nd c k -> carried env -> handler_key (Wire.header env) <> Keys.HEARTBEAT_ACK ->
  m_queue (m_inbound c) = [] -> m_stop (m_inbound c) = false -> (0 < m_maxSize (m_inbound c))%Z ->
  (T - now_rx <= SERVER_TIMEOUT)%Z -> (now <= T)%Z ->
  let nd' := node_run (run_iteration manager_callbacks now_rx now) nd in
  exists h, h ≡ Wire.header env /\
    let k' := set_lastRxTime now_rx k in
    let c' := set_worker (Some k') (set_inbound (mkQueue [mkEnvelope _ h (Wire.payload env)] false (m_maxSize (m_inbound c))) c) in
    calm [] [] [] nd' c' k' /\ nd_state nd' = set_object (Some c') (nd_state nd) /\
    new_sent (nd_socket nd) (nd_socket nd') = [].
Proof.
  intros Hcalm [Hwf Henc] Hkey Hq Hst Hroom Hrx Ht. pose proof (calm_node_worker _ _ _ _ _ _ Hcalm) as Hnd.
  destruct Hcalm as [K1 K2 K3 K4 K5 K6 [I1 I2 I3 I4] K8 K9]. cbn in I1, I2, I3, I4.
  destruct (recv_next false (nd_socket nd) _ _ I3 I4) as (s1 & Er & C1 & P1 & O1 & S1).
  destruct (envelope_of_wire_frames env Hwf Henc) as (h & Eh & Heq). rewrite Eh in Er. exists h. split; [done|].
  cbv zeta. unfold node_run. rewrite Hnd. set (env' := mkEnvelope _ h (Wire.payload env)) in *.
  set (ww2 := mkWorld (set_lastRxTime now_rx k) (manager_inbound env' (nd_state nd)) s1 (nd_heartbeat nd) true).
  assert (Ht2 : receive_one manager_callbacks now_rx (set_didWork false (node_world k nd)) = (ww2, Ok tt)).
  { unfold receive_one. rewrite (bind_ok _ _ _ (put_socket s1 (set_didWork false (node_world k nd))) (Some env'))
      by (unfold with_socket, mlift; cbn; by rewrite Er).
    rewrite (bind_ok _ _ _ (set_didWork true (put_socket s1 (set_didWork false (node_world k nd)))) tt) by done.
    set (w1 := on_worker (set_lastRxTime now_rx) (set_didWork true (put_socket s1 (set_didWork false (node_world k nd))))).
    rewrite (bind_ok _ _ _ w1 tt) by done. rewrite (bind_ok mget _ w1 w1 w1) by done.
    rewrite (bind_ok _ _ w1 w1 tt) by (cbn; by rewrite K4).
    unfold dispatch_inbound. rewrite decide_False by (cbn [Wire.header env']; by rewrite Heq). done. }
  assert (HPr : P s1) by (pose proof (recv_preserves P (proj2 HP) false (nd_socket nd) I1) as J; by rewrite Er in J).
  assert (I0 : sock_idle P [] ww2) by (split; cbn; first [done|congruence]).
  destruct (idle_phase manager_callbacks P HP [] now ww2 I0) as (ww' & E & I' & W' & O' & H' & S'); [done|done|cbn; lia|].
  assert (Ei : run_iteration manager_callbacks now_rx now (node_world k nd) = (ww', Ok tt)).
  { unfold run_iteration. rewrite (bind_ok mget _ _ (node_world k nd) (node_world k nd)) by done.
    rewrite (bind_ok _ _ _ (set_didWork false (node_world k nd)) tt) by done.
    assert (zmq_pollin (ww_socket (node_world k nd)) = true) as -> by (unfold zmq_pollin; cbn; by rewrite I4).
    by rewrite (bind_ok _ _ _ _ _ Ht2). }
  rewrite Ei. cbn [fst world_node nd_state nd_socket nd_heartbeat].
  rewrite decide_False in H' by (cbn; lia). rewrite decide_False, app_nil_r in S' by (cbn; lia).
  assert (Es : store_worker (ww_worker ww') (ww_owner ww') = set_object (Some (set_worker (Some (set_lastRxTime now_rx k))
    (set_inbound (mkQueue [env'] false (m_maxSize (m_inbound c))) c))) (nd_state nd)).
  { rewrite O', W'. unfold store_worker. cbn [ww_owner ww2 ww_worker]. unfold manager_inbound. rewrite K1. cbn [set_object cs_object].
    rewrite push_for_room by (done || by rewrite Hq). by rewrite Hq, Hst. }
  split_and!; [|exact Es|].
  - split; cbn [world_node nd_state nd_heartbeat]; rewrite ?Es; try done.
    + by rewrite H'.
    + destruct I'; by split.
  - apply new_sent_app. rewrite S'. cbn. by rewrite S1, app_nil_r.
Qed.

(** ** The broker's turn *)

Context (R : S -> Prop) (ok : string -> bool) (HR : routing_socket R ok)
  (HRd : forall s f fs, R s -> R (zmq_deliver s f fs)).
Context (Q : S -> Prop) (HQ : accepting Q).

(** A broker with nothing periodic to do before [T] and nothing from other brokers. *)
Record calm_broker (pending : list (list string)) w : Prop := {
  cb_inv : world_inv w;
  cb_sockets : sockets_ready R Q w;
  cb_peers : m_queue (m_peerInboundQueue (bw_broker w)) = [];
  cb_current : zmq_current (bw_router w) = [];
  cb_pending : zmq_pending (bw_router w) = pending;
  cb_cleanup : (T - bw_lastCleanup w <= seconds 2)%Z;
  cb_stats : (T - m_lastStatsTime (bw_broker w) <= seconds 1)%Z
}.

Lemma calm_deliver id f fs w :
  calm_broker [] w -> calm_broker [id :: f :: fs] (put_router (zmq_deliver (bw_router w) id (f :: fs)) w).
Proof.
  intros [[K1 K2 K3] [S1 S2 S3 S4] ? ? Hp ? ?].
  split; cbn; rewrite ?zmq_deliver_current, ?zmq_deliver_pending, ?Hp; try done.
  - split; cbn; rewrite ?zmq_deliver_open; done.
  - split; cbn; rewrite ?zmq_deliver_open; auto.
Qed.

Lemma process_core_times now h p snd peer b :
  m_lastStatsTime (process_core now h p snd peer b).1 = m_lastStatsTime b.
Proof.
  assert (Hd : forall u b, m_lastStatsTime (isDuplicate u b).1 = m_lastStatsTime b).
  { intros u b1. unfold isDuplicate. case_decide; [done|]. case_decide; [|done]. by destruct (m_messageIdOrder b1 ++ [u]). }
  assert (Hr : forall b, m_lastStatsTime (let '(b1, dup) := isDuplicate (message_uuid h) b in
    if dup : bool then (b1, ([], encodeHeader h, p))
    else (flood_peers h p b1, (recipients b1 (topic h) snd peer, encodeHeader h, p))).1 = m_lastStatsTime b).
  { intros b1. specialize (Hd (message_uuid h) b1). destruct (isDuplicate _ b1) as [b2 []]; [done|].
    rewrite flood_peers_fmap. exact Hd. }
  unfold process_core. destruct peer; [by destruct (peer_ignored _)|]. do 6 (case_decide; [done|]).
  set (b1 := set_clients _ b). exact (Hr b1).
Qed.

Lemma processMessage_gen now h p snd w w' :
  processMessage now h p snd false w = (w', Ok tt) -> message_uuid h = "" ->
  bw_gen w' = (generateUUID (bw_gen w)).2.
Proof.
  rewrite processMessage_core. intros E Hu. unfold stamp in E. rewrite decide_True in E by done.
  destruct (generateUUID (bw_gen w)) as [u g] eqn:Eg. unfold with_inspector, mlift in E.
  destruct (sendFrames _ p (bw_inspector (put_gen g w))) as [s1 [x|e]]; [|done].
  destruct (process_core _ _ _ _ _ _) as [b [[ids hb] q]]. unfold with_router, mlift in E.
  destruct (send_each hb q ids _) as [s2 r]. by injection E as <- _.
Qed.

(** Exactly the message is processed. *)
Lemma calm_turn now_rx now now_stats w id env :
  calm_broker [id :: wire_frames env] w -> carried env -> message_uuid (Wire.header env) = "" -> (now <= T)%Z ->
  exists h w' b, header_wf h /\ h ≡ Wire.header env /\ broker_iteration now_rx now now_stats w = (w', Ok tt) /\
    calm_broker [] w' /\ bw_gen w' = (generateUUID (bw_gen w)).2 /\
    m_brokerId (bw_broker w') = m_brokerId (bw_broker w) /\ owned b = owned (bw_broker w) /\ broker_inv b /\
    let '(b', (ids, hb, q)) := process_core now_rx (stamped h w) (Wire.payload env) id false b in
    bw_broker w' = b' /\ new_sent (bw_router w) (bw_router w') = routed hb q <$> filter (fun id => ok id = true) ids.
Proof.
  intros [Hw Hr Hq Hc Hp Hcl Hst] Hcar Hu Ht.
  destruct (receive_client_reads R now_rx w id env []) as (s2 & h & R2 & C2 & P2 & O2 & S2 & Hh & Eh & Er);
    [apply HR|apply Hr|done..|].
  set (b := count_message (u64 (ByteSizeLong h + slen (Wire.payload env))) (bw_broker w)).
  set (w3 := on_broker (count_message (u64 (ByteSizeLong h + slen (Wire.payload env)))) (put_router s2 w)) in *.
  assert (Hr3 : sockets_ready R Q w3) by (destruct Hr as [r1 r2 r3 r4]; split; simpl; congruence || done).
  assert (Hb3 : broker_inv b) by (by eapply broker_inv_owned, Hw).
  assert (Hw3 : world_inv w3) by (destruct Hw; split; simpl; congruence || done).
  destruct (processMessage_exact R ok HR Q HQ now_rx h (Wire.payload env) id false w3 Hr3) as (w4 & E4 & Hr4 & K).
  assert (Hw4 : world_inv w4).
  { pose proof (processMessage_preserves now_rx h (Wire.payload env) id false w3 Hw3) as J. by rewrite E4 in J. }
  pose proof (processMessage_gen now_rx h (Wire.payload env) id w3 w4 E4 ltac:(by rewrite Eh)) as Hg.
  pose proof (process_core_times now_rx (stamped h w3) (Wire.payload env) id false b) as Hs.
  pose proof (process_core_out now_rx (stamped h w3) (Wire.payload env) id b Hb3) as K0.
  change (bw_broker w3) with b in K. change (stamped h w3) with (stamped h w) in *.
  exists h, w4, b. destruct (process_core now_rx (stamped h w) (Wire.payload env) id false b) as [b' [[ids hb] q]].
  destruct K as (K1 & K2 & _ & K4 & K5 & K6). destruct K0 as (_ & L1 & L2 & _). cbn [fst] in Hs.
  split_and!; [done|done| | |done|by rewrite K1, L1|done|done|done|].
  - unfold broker_iteration. rewrite (bind_ok mget _ w w w) by done.
    assert (zmq_pollin (bw_router w) = true) as -> by (unfold zmq_pollin; by rewrite Hp).
    rewrite (bind_ok _ _ w w4 true) by (rewrite Er; by rewrite (bind_ok _ _ _ _ _ E4)). cbn [negb].
    rewrite (bind_ok _ _ w4 w4 tt).
    2: { unfold drain_peers. rewrite K1, L2. cbn. rewrite Hq. cbn.
         rewrite (bind_ok mget _ w4 w4 w4) by done. unfold try_pop. rewrite K1, L2. cbn. by rewrite Hq. }
    rewrite (bind_ok _ _ w4 w4 tt).
    2: { unfold cleanup_if_due. rewrite (bind_ok mget _ w4 w4 w4) by done. rewrite K6, decide_False; [done|]. cbn. lia. }
    unfold stats_if_due. rewrite (bind_ok mget _ w4 w4 w4) by done. rewrite K1, Hs, decide_False; [done|]. cbn. lia.
  - split; [done|done|by rewrite K1, L2|by rewrite K4|by rewrite K5|by rewrite K6|by rewrite K1, Hs].
  - apply new_sent_app. rewrite K2. cbn. by rewrite S2.
Qed.

(** A subscription. *)
Lemma calm_subscribe now_rx now now_stats w id t env :
  calm_broker [id :: wire_frames env] w -> carried env -> message_uuid (Wire.header env) = "" -> (now <= T)%Z ->
  handler_key (Wire.header env) = Keys.SUBSCRIBE -> topic (Wire.header env) = t -> is_Some (m_clients (bw_broker w) !! id) ->
  exists w', broker_iteration now_rx now now_stats w = (w', Ok tt) /\ calm_broker [] w' /\
    bw_gen w' = (generateUUID (bw_gen w)).2 /\ m_brokerId (bw_broker w') = m_brokerId (bw_broker w) /\
    new_sent (bw_router w) (bw_router w') = [] /\ m_messageIdOrder (bw_broker w') = m_messageIdOrder (bw_broker w) /\
    (forall c t', c ∈ subs_of (m_subscriptions (bw_broker w')) t' <->
      c ∈ subs_of (m_subscriptions (bw_broker w)) t' \/ c = id /\ t' = t) /\
    (forall c, is_Some (m_clients (bw_broker w) !! c) -> is_Some (m_clients (bw_broker w') !! c)).
Proof.
  intros Hcalm Hcar Hu Ht Hk Htop [st Hst].
  destruct (calm_turn now_rx now now_stats w id env Hcalm Hcar Hu Ht) as (h & w' & b & Hh & Eh & E & Hc' & Hg & Hi & Ho & Hb & K).
  exists w'. unfold owned in Ho. injection Ho as O1 O2 O3 O4.
  unfold process_core in K. rewrite stamped_key, stamped_topic in K.
  assert (Hk' : handler_key h = Keys.SUBSCRIBE) by (by rewrite Eh). assert (Ht' : topic h = t) by (by rewrite Eh). rewrite Hk', Ht' in K.
  rewrite decide_False in K by done. rewrite decide_False in K by (rewrite O1; congruence).
  rewrite decide_False in K by done. rewrite decide_False in K by done. rewrite decide_True in K by done.
  destruct K as [K1 K2]. split_and!; [done..|by rewrite K2, filter_nil|by rewrite K1; cbn|rewrite K1; cbn|rewrite K1; cbn].
  - intros c t'. rewrite elem_of_subs_of_subscribe by apply Hb. rewrite O2. tauto.
  - intros c. rewrite O1. destruct (decide (c = id)) as [->|]; [rewrite lookup_insert_eq; eauto|by rewrite lookup_insert_ne].
Qed.

(** A message to a subscriber. *)
Lemma calm_routes now_rx now now_stats w A B env :
  calm_broker [A :: wire_frames env] w -> carried env -> message_uuid (Wire.header env) = "" -> (now <= T)%Z ->
  Keys.isControlMessage (handler_key (Wire.header env)) = false -> is_Some (m_clients (bw_broker w) !! A) ->
  A <> B -> ok B = true ->
  B ∈ subs_of (m_subscriptions (bw_broker w)) (topic (Wire.header env)) \/ B ∈ subs_of (m_subscriptions (bw_broker w)) "" ->
  (generateUUID (bw_gen w)).1 ∉ m_messageIdOrder (bw_broker w) ->
  exists h w' l1 l2, header_wf h /\ h ≡ Wire.header env /\ broker_iteration now_rx now now_stats w = (w', Ok tt) /\
    calm_broker [] w' /\ bw_gen w' = (generateUUID (bw_gen w)).2 /\ m_brokerId (bw_broker w') = m_brokerId (bw_broker w) /\
    m_messageIdOrder (bw_broker w') = remember (generateUUID (bw_gen w)).1 (m_messageIdOrder (bw_broker w)) /\
    m_subscriptions (bw_broker w') = m_subscriptions (bw_broker w) /\
    (new_sent (bw_router w) (bw_router w') ≫= addressed) =
      l1 ++ (B, wire_frames (mkEnvelope _ (stamped h w) (Wire.payload env))) :: l2 /\ B ∉ l1.*1 /\ A ∉ (l1 ++ l2).*1.
Proof.
  intros Hcalm Hcar Hu Ht Hkey HA Hne HB Hsub Hnew.
  destruct (calm_turn now_rx now now_stats w A env Hcalm Hcar Hu Ht) as (h & w' & b & Hh & Eh & E & Hc' & Hg & Hi & Ho & Hb & K).
  unfold owned in Ho. injection Ho as O1 O2 O3 O4.
  assert (Es : stamped h w = set_origin_broker_id (m_brokerId (bw_broker w)) (set_message_uuid (generateUUID (bw_gen w)).1 h))
    by (unfold stamped; by rewrite decide_True by (by rewrite Eh)).
  assert (Eu : message_uuid (stamped h w) = (generateUUID (bw_gen w)).1) by (by rewrite Es).
  destruct (process_core_fresh now_rx (stamped h w) (Wire.payload env) A false b Hb) as (b' & ids & Ec & Hnd & Hids & _ & Hord & _ & Hsubs).
  { apply to_route_stamped. split; [by rewrite O1|]. rewrite Eh. by apply not_control. } { by rewrite Eu, O4. }
  rewrite Ec in K. destruct K as [K1 K2]. rewrite stamped_topic in Hids.
  destruct (addressed_first (wire_frames (mkEnvelope _ (stamped h w) (Wire.payload env)))
    (filter (fun id => ok id = true) ids) B) as (l1 & l2 & El & Hn).
  { apply list_elem_of_filter. split; [done|]. apply Hids. rewrite Eh, O2. split; [done|by right]. }
  exists h, w', l1, l2. split_and!; [done..|by rewrite K1, Hord, Eu, O4|by rewrite K1, Hsubs, O2|rewrite K2; exact El|done|].
  intros HA'. assert (HA2 : A ∈ (((fun i => i :: wire_frames (mkEnvelope _ (stamped h w) (Wire.payload env))) <$>
    filter (fun id => ok id = true) ids) ≫= addressed).*1).
  { rewrite El. revert HA'. rewrite !fmap_app, fmap_cons, !elem_of_app, elem_of_cons. tauto. }
  rewrite list_elem_of_fmap in HA2. destruct HA2 as ([i fs] & -> & HA2). apply list_elem_of_bind in HA2 as (m & Hm & HA2).
  apply list_elem_of_fmap in HA2 as (i' & -> & HA2). cbn in Hm. apply list_elem_of_singleton in Hm as [= -> _].
  apply list_elem_of_filter in HA2 as [_ HA2]. apply Hids in HA2 as [_ [?|HA2]]; done.
Qed.

(** ** The two processes *)

(** The processing thread of a process can take what arrives. *)
Record listening (c : ConnectionManager) : Prop := {
  ls_running : Client.m_running c = true;
  ls_empty : m_queue (m_inbound c) = [];
  ls_open : m_stop (m_inbound c) = false;
  ls_room : (0 < m_maxSize (m_inbound c))%Z
}.

(** An empty queue that takes messages. *)
Definition takes (q : SafeQueue Envelope) : Prop := m_queue q = [] /\ m_stop q = false /\ (0 < m_maxSize q)%Z.

Lemma takes_push env q : takes q -> push_for env q = (mkQueue [env] false (m_maxSize q), true).
Proof. intros (K1 & K2 & K3). rewrite push_for_room by (done || by rewrite K1). by rewrite K1, K2. Qed.

Lemma send_control_eq env c k :
  m_pWorker c = Some k -> Keys.isControlMessage (handler_key (Wire.header env)) = true -> takes (m_controlQueue k) ->
  sendRawEnvelope env c = (set_worker (Some (set_controlQueue (mkQueue [env] false (m_maxSize (m_controlQueue k))) k)) c, true).
Proof. intros Hk Hc Hq. unfold sendRawEnvelope, writeControlMessage. by rewrite Hk, Hc, takes_push. Qed.

Lemma send_data_eq env c k :
  m_pWorker c = Some k -> Keys.isControlMessage (handler_key (Wire.header env)) = false -> takes (m_outboundQueue k) ->
  sendRawEnvelope env c = (set_worker (Some (set_outboundQueue (mkQueue [env] false (m_maxSize (m_outboundQueue k))) k)) c, true).
Proof. intros Hk Hc Hq. unfold sendRawEnvelope, writeMessage. by rewrite Hk, Hc, takes_push. Qed.

(** The process that asks: it is connected and uses the reply topic for nothing else. *)
Record requester (A rt : string) nd c k : Prop := {
  rq_calm : calm [] [] [] nd c k;
  rq_published : cs_published (nd_state nd) = true;
  rq_connected : m_connected c = true;
  rq_id : m_clientId c = A;
  rq_listening : listening c;
  rq_control : takes (m_controlQueue k);
  rq_outbound : takes (m_outboundQueue k);
  rq_topic : m_msgHandlers c !! rt = None
}.

(** The process that waits for the answer. *)
Record awaiting (rt : string) (p : Z) nd c k : Prop := {
  aw_calm : calm [] [] [] nd c k;
  aw_listening : listening c;
  aw_handler : m_msgHandlers c !! rt = Some [mkEntry p (PromiseFn p)];
  aw_promise : cs_promises (nd_state nd) !! p = Some None
}.

(** The process that answers: its one callback for the topic is function [f]. *)
Record responder (B t : string) (f : Z) nd c k : Prop := {
  rp_calm : calm [] [] [] nd c k;
  rp_published : cs_published (nd_state nd) = true;
  rp_id : m_clientId c = B;
  rp_listening : listening c;
  rp_outbound : takes (m_outboundQueue k);
  rp_handler : exists inst, m_msgHandlers c !! t = Some [mkEntry inst (UserFn f)]
}.

Definition reply_envelope (B rt data : string) : Envelope :=
  mkEnvelope _ (set_topic rt (set_sender_id B (set_handler_key rt header_new))) data.

(** The call of [sendRequest] queues a subscription and the request. *)
Lemma request_queued A t data p g nd c k :
  let rt := t +:+ (generateUUID g).1 in
  let s' := (sendRequest_begin t data p g (nd_state nd)).1.1 in
  requester A rt nd c k -> Keys.isControlMessage t = false ->
  exists c' k', calm [] [control A Keys.SUBSCRIBE rt] [request_envelope t rt data c]
      (mkNode s' (nd_socket nd) (nd_heartbeat nd)) c' k' /\
    newly_queued (nd_state nd) s' = [request_envelope t rt data c] /\
    listening c' /\ m_msgHandlers c' !! rt = Some [mkEntry p (PromiseFn p)] /\ cs_promises s' !! p = Some None.
Proof.
  intros rt s' [Hcalm Hpub Hcon Hid [L1 L2 L3 L4] Hq1 Hq2 Hh] Hk. unfold s', sendRequest_begin.
  destruct Hcalm as [K1 K2 K3 K4 K5 K6 K7 K8 K9]. unfold getInstance. rewrite Hpub, K1.
  destruct (generateUUID g) as [u g'] eqn:Eg. cbn [fst] in rt. fold rt.
  unfold performRegistration. rewrite Hh. cbn [default]. set (c1 := set_handlers _ c).
  replace (m_connected c1) with true by done.
  rewrite (send_control_eq (createControlEnvelope Keys.SUBSCRIBE rt c1) c1 k K2 eq_refl Hq1). cbn [fst].
  set (k1 := set_controlQueue _ k). 
  change (mkEnvelope _ (set_reply_topic rt _) data) with (request_envelope t rt data c).
  rewrite (send_data_eq (request_envelope t rt data c) (set_worker (Some k1) c1) k1 eq_refl Hk Hq2). cbn [fst].
  eexists _, _. split_and!.
  - split; try reflexivity; try done; cbn.
    + by destruct K7.
    + unfold control, createControlEnvelope. cbn. by rewrite Hid.
  - unfold newly_queued, queued. rewrite K1. cbn. unfold outbound_queue. cbn. rewrite K2, K9. done.
  - by split.
  - cbn. by rewrite lookup_insert_eq.
  - cbn. by rewrite lookup_insert_eq.
Qed.

(** A round of the processing thread on a topic with one callback. *)
Lemma round_one u env s c inst f :
  cs_object s = Some c -> Client.m_running c = true -> handler_key (Wire.header env) <> Keys.RESET ->
  m_msgHandlers c !! topic (Wire.header env) = Some [mkEntry inst f] ->
  processing_round u env s =
    (set_replyTopic "" (try_ignore (run_callback u f (Wire.payload env)) (set_replyTopic (reply_topic (Wire.header env)) s)).1, Ok true).
Proof.
  intros Hc Hr Hk Hh. unfold processing_round. rewrite (bind_ok mget _ s s s) by done. rewrite Hc, Hr. cbn [negb].
  rewrite decide_False by done. unfold handleMessage. unfold mbind at 1, M_bind at 1.
  rewrite (bind_ok mget _ s s s) by done. rewrite Hc, Hh. cbn [default id].
  rewrite (bind_ok _ _ s (set_replyTopic (reply_topic (Wire.header env)) s) tt) by done.
  set (s0 := set_replyTopic (reply_topic (Wire.header env)) s).
  assert (exists s1, try_ignore (run_callback u f (Wire.payload env)) s0 = (s1, Ok tt)) as [s1 E]
    by (unfold try_ignore; destruct (run_callback u f (Wire.payload env) s0); by eexists).
  rewrite E. cbn [fst]. rewrite (bind_ok _ _ s0 s1 tt); [done|]. cbn [id mfor ce_func]. by rewrite (bind_ok _ _ _ _ _ E).
Qed.

(** ** The callbacks *)

Section steps.
Context (user : string -> user_code) (may_say : string -> Envelope -> Prop).

(** The callback of the process that answers. *)
Definition replies (B : string) (f : Z) (answer : string -> string) : Prop := forall data s,
  uc_user (user B) f data s = ((client_replyToSender (answer data) s).1, Ok tt).

Lemma reply_round B t rt f answer env s c k inst :
  replies B f answer -> cs_object s = Some c -> cs_published s = true -> Client.m_running c = true ->
  m_clientId c = B -> m_pWorker c = Some k -> takes (m_outboundQueue k) -> m_msgHandlers c !! t = Some [mkEntry inst (UserFn f)] ->
  topic (Wire.header env) = t -> handler_key (Wire.header env) <> Keys.RESET -> reply_topic (Wire.header env) = rt ->
  rt <> "" -> Keys.isControlMessage rt = false ->
  let reply := reply_envelope B rt (answer (Wire.payload env)) in
  let k' := set_outboundQueue (mkQueue [reply] false (m_maxSize (m_outboundQueue k))) k in
  let s' := set_replyTopic "" (set_object (Some (set_worker (Some k') c)) (set_replyTopic rt s)) in
  processing_round (user B) env s = (s', Ok true) /\ newly_queued s s' = [reply] /\
  (may_say B reply -> api_run B (may_say B) s [Published B reply] s').
Proof.
  intros Hu Hc Hp Hr Hid Hk Hq Hh Ht Hkey Hrt Hne Hctl reply k' s'.
  assert (Es : on_instance (sendRawEnvelope reply) (set_replyTopic rt s) =
    (set_object (Some (set_worker (Some k') c)) (set_replyTopic rt s), true)).
  { unfold on_instance, getInstance. cbn [cs_published set_replyTopic cs_object]. rewrite Hp, Hc.
    by rewrite (send_data_eq reply c k Hk Hctl Hq). }
  split_and!.
  - rewrite (round_one (user B) env s c inst (UserFn f)) by (done || by rewrite Ht). rewrite Hrt. f_equal. unfold s'. f_equal.
    unfold try_ignore. cbn [run_callback]. rewrite Hu. unfold client_replyToSender. cbn [t_currentReplyTopic set_replyTopic].
    revert Es. unfold on_instance. destruct (getInstance (set_replyTopic rt s)) as [c0|] eqn:Ei; [|done].
    unfold getInstance in Ei. cbn in Ei. rewrite Hp, Hc in Ei. injection Ei as <-.
    unfold sendReplyEnvelope. rewrite decide_False by done. cbn [Wire.header Wire.payload]. rewrite Hid.
    fold (reply_envelope B rt (answer (Wire.payload env))). fold reply.
    destruct (sendRawEnvelope reply c) as [c1 ok1]. by intros [= -> _].
  - unfold newly_queued, queued, s'. cbn. rewrite Hc. unfold outbound_queue. cbn. rewrite Hk. destruct Hq as (-> & _). done.
  - intros Hs. rewrite <-(app_nil_l [_]). eapply api_more; [apply api_reply_topic|].
    rewrite <-(app_nil_r [_]). eapply api_more; [by eapply (api_send _ _ reply _ _ true); [exact Hs|exact Hctl|exact Es]|].
    apply api_run_one. apply api_reply_topic.
Qed.

(** The answer reaches the promise. *)
Lemma promise_round A rt p env s c :
  cs_object s = Some c -> Client.m_running c = true -> m_msgHandlers c !! rt = Some [mkEntry p (PromiseFn p)] ->
  topic (Wire.header env) = rt -> handler_key (Wire.header env) <> Keys.RESET -> cs_promises s !! p = Some None ->
  exists s', processing_round (user A) env s = (s', Ok true) /\ newly_queued s s' = [] /\
    api_run A (may_say A) s [] s' /\ cs_promises s' !! p = Some (Some (Wire.payload env)).
Proof.
  intros Hc Hr Hh Ht Hkey Hp. eexists. split; [apply (round_one (user A) env s c p (PromiseFn p)); try done; by rewrite Ht|].
  cbn [run_callback]. unfold try_ignore, mmodify. cbn [fst].
  assert (E : set_value p (Wire.payload env) (set_replyTopic (reply_topic (Wire.header env)) s) =
    set_promises (<[p := Some (Wire.payload env)]> (cs_promises s)) (set_replyTopic (reply_topic (Wire.header env)) s)).
  { unfold set_value. cbn. by rewrite Hp. }
  rewrite E. split_and!.
  - by apply nothing_new.
  - eapply api_run_app; [apply api_run_one, api_reply_topic|].
    eapply api_run_app; [apply api_run_one, api_promises|]. apply api_run_one, api_reply_topic.
  - cbn. by rewrite lookup_insert_eq.
Qed.

(** ** Single steps *)

Notation runs := (Schedule.runs user may_say).

Lemma worker_runs id nd k t1 t2 y :
  sys_nodes y !! id = Some nd -> nd_worker nd = Some k -> Worker.m_running k = true ->
  runs [CWorker id t1 t2] y [] (run_worker (run_iteration manager_callbacks t1 t2) id nd y).
Proof. intros Hn Hk Hr. apply runs_one; [done|]. cbn. rewrite Hn. cbn [mbind option_bind]. rewrite Hk. cbn [mbind option_bind]. by rewrite Hr. Qed.

Lemma up_runs id fs l1 l2 y :
  sys_up y = l1 ++ (id, fs) :: l2 -> id ∉ l1.*1 ->
  runs [CUp id] y [] (mkSystem (put_router (zmq_deliver (bw_router (sys_broker y)) id fs) (sys_broker y)) (sys_nodes y)
    (l1 ++ l2) (sys_down y)).
Proof.
  intros E Hn. apply runs_one; [done|]. cbn [exec]. rewrite E, find_first by done. cbn. by rewrite find_rest.
Qed.

Lemma down_runs id nd f fs l1 l2 y :
  sys_nodes y !! id = Some nd -> sys_down y = l1 ++ (id, f :: fs) :: l2 -> id ∉ l1.*1 ->
  runs [CDown id] y [] (mkSystem (sys_broker y)
    (<[id := mkNode (nd_state nd) (zmq_deliver (nd_socket nd) f fs) (nd_heartbeat nd)]> (sys_nodes y)) (sys_up y) (l1 ++ l2)).
Proof.
  intros Hn E Hi. apply runs_one; [done|]. cbn [exec]. rewrite Hn. cbn [mbind option_bind].
  rewrite E, find_first by done. cbn. by rewrite find_rest.
Qed.

Lemma broker_runs t1 t2 t3 w' y :
  broker_iteration t1 t2 t3 (sys_broker y) = (w', Ok tt) ->
  runs [CBroker t1 t2 t3] y [] (mkSystem w' (sys_nodes y) (sys_up y)
    (sys_down y ++ (new_sent (bw_router (sys_broker y)) (bw_router w') ≫= addressed))).
Proof. intros E. apply runs_one; [done|]. cbn. unfold run_broker. by rewrite E. Qed.

(** A round of a processing thread whose callbacks use the library. *)
Lemma process_runs id nd env s s' msgs y :
  sys_nodes y !! id = Some nd -> pop_inbound (nd_state nd) = Some (env, s) ->
  processing_round (user id) env s = (s', Ok true) -> handler_key (Wire.header env) <> Keys.RESET ->
  newly_queued s s' = msgs -> api_run id (may_say id) s (Published id <$> msgs) s' ->
  runs [CProcess id] y (Handled id env :: (Published id <$> msgs)) (put_state id nd s' y).
Proof.
  intros Hn Hp Hr Hk Hq Ha. apply runs_one.
  - intros nd0 env0 s0 s1 b Hn0 Hp0 Hr0 _. simplify_eq. by rewrite Hr in Hr0; simplify_eq.
  - cbn. rewrite Hn. cbn [mbind option_bind]. rewrite Hp. cbn [mbind option_bind fst snd]. rewrite Hr.
    by rewrite decide_False, Hq by done.
Qed.

End steps.

(** ** The legs of the way *)

Section legs.
Context (user : string -> user_code) (bid : string).

Notation says := (speaks (G:=G) bid).
Notation runs := (Schedule.runs user says).

(** The clock readings of the turns. *)
Context (clock : nat -> Z) (Hclock : forall i, (T - seconds 1 <= clock i <= T)%Z).

Lemma clock_heard i : (T - clock i <= SERVER_TIMEOUT)%Z.
Proof. specialize (Hclock i). assert (seconds 1 <= SERVER_TIMEOUT)%Z by done. lia. Qed.

(** A broker that knows both processes, with the request's topic subscribed by [B]; the
    ids it draws next for the two messages are new. *)
Record ready_to_serve (A B t : string) w : Prop := {
  rv_calm : calm_broker [] w;
  rv_id : m_brokerId (bw_broker w) = bid;
  rv_requester : is_Some (m_clients (bw_broker w) !! A);
  rv_responder : B ∈ subs_of (m_subscriptions (bw_broker w)) t \/ B ∈ subs_of (m_subscriptions (bw_broker w)) "";
  rv_fresh1 : (generateUUID (generateUUID (bw_gen w)).2).1 ∉ m_messageIdOrder (bw_broker w);
  rv_fresh2 : (generateUUID (generateUUID (generateUUID (bw_gen w)).2).2).1 ∉ m_messageIdOrder (bw_broker w);
  rv_differ : (generateUUID (generateUUID (generateUUID (bw_gen w)).2).2).1 <> (generateUUID (generateUUID (bw_gen w)).2).1
}.

(** The call and the worker's turn put the subscription and the request on the wire. *)
Lemma request_wired A t data p g t1 t2 y nd c k :
  let rt := t +:+ (generateUUID g).1 in
  let req := request_envelope t rt data c in
  requester A rt nd c k -> sys_nodes y !! A = Some nd -> Keys.isControlMessage t = false ->
  says A (control A Keys.SUBSCRIBE rt) -> says A (control A Keys.UNSUBSCRIBE rt) -> says A req -> (t2 <= T)%Z ->
  exists nd' c' k', awaiting rt p nd' c' k' /\
    runs [CRequest A t data p g; CWorker A t1 t2] y [Published A req]
      (mkSystem (sys_broker y) (<[A := nd']> (sys_nodes y))
        (sys_up y ++ [(A, wire_frames (control A Keys.SUBSCRIBE rt)); (A, wire_frames req)]) (sys_down y)).
Proof.
  intros rt req Hrq Hn Hk Hsub Huns Hreq Ht.
  destruct (request_queued A t data p g nd c k Hrq Hk) as (c1 & k1 & Hc1 & Hnq & Hl1 & Hh1 & Hp1). fold rt req in Hc1, Hnq, Hh1.
  set (s1 := (sendRequest_begin t data p g (nd_state nd)).1.1) in *. set (nd1 := mkNode s1 (nd_socket nd) (nd_heartbeat nd)) in *.
  destruct (calm_sends t1 t2 _ _ nd1 c1 k1 Hc1 Ht) as (k2 & Hc2 & Es2 & Hsent).
  assert (Hi : getInstance (nd_state nd) = Some c).
  { unfold getInstance. rewrite (rq_published _ _ _ _ _ Hrq). apply (rq_calm _ _ _ _ _ Hrq). }
  assert (R1 : runs [CRequest A t data p g] y [Published A req] (put_state A nd s1 y)).
  { apply runs_one; [|cbn; rewrite Hn; cbn; fold s1; by rewrite Hnq].
    intros nd0 Hn0 c0. cbn [fst]. rewrite Hn in Hn0. injection Hn0 as <-. rewrite Hi. intros [= <-]. fold rt.
    rewrite !(control_eq A) by apply Hrq. by split_and!. }
  assert (R2 := worker_runs user says A nd1 k1 t1 t2 (put_state A nd s1 y)
    ltac:(cbn; apply lookup_insert_eq) (calm_node_worker _ _ _ _ _ _ Hc1) (cm_running _ _ _ _ _ _ Hc1)).
  unfold run_worker, put_state in R2. cbn [sys_broker sys_nodes sys_up sys_down] in R2. fold nd1 in R2.
  rewrite Hsent, insert_insert_eq in R2.
  eexists _, _, _. split; [|exact (runs_app _ _ _ _ _ _ _ _ _ R1 R2)].
  split; [exact Hc2|by destruct Hl1|done|by rewrite Es2].
Qed.

(** The subscription arrives at the broker. *)
Lemma subscription_hop id rt l rest t1 t2 t3 y :
  let w := sys_broker y in
  sys_up y = l ++ (id, wire_frames (control id Keys.SUBSCRIBE rt)) :: rest -> id ∉ l.*1 ->
  calm_broker [] w -> says id (control id Keys.SUBSCRIBE rt) -> is_Some (m_clients (bw_broker w) !! id) -> (t2 <= T)%Z ->
  exists w', runs [CUp id; CBroker t1 t2 t3] y [] (mkSystem w' (sys_nodes y) (l ++ rest) (sys_down y)) /\
    calm_broker [] w' /\ bw_gen w' = (generateUUID (bw_gen w)).2 /\ m_brokerId (bw_broker w') = m_brokerId (bw_broker w) /\
    m_messageIdOrder (bw_broker w') = m_messageIdOrder (bw_broker w) /\
    (forall c t', c ∈ subs_of (m_subscriptions (bw_broker w')) t' <->
      c ∈ subs_of (m_subscriptions (bw_broker w)) t' \/ c = id /\ t' = rt) /\
    (forall c, is_Some (m_clients (bw_broker w) !! c) -> is_Some (m_clients (bw_broker w') !! c)).
Proof.
  intros w Hup Hl Hcb Hsub Hcl Ht.
  assert (R1 := up_runs user says id _ l rest y Hup Hl). set (y1 := mkSystem _ _ _ _) in R1.
  destruct (calm_subscribe t1 t2 t3 (sys_broker y1) id rt (control id Keys.SUBSCRIBE rt))
    as (w4 & E4 & Hb4 & Hg4 & Hi4 & Hs4 & K4); [by apply calm_deliver|apply Hsub|done|done|done|done|done|].
  assert (R2 := broker_runs user says t1 t2 t3 w4 y1 E4). rewrite Hs4 in R2. cbn [mbind list_bind] in R2. rewrite app_nil_r in R2.
  exists w4. split; [exact (runs_app _ _ _ _ _ _ _ _ _ R1 R2)|]. exact (conj Hb4 (conj Hg4 (conj Hi4 K4))).
Qed.

(** A message arrives at the broker and is passed on to [B]. *)
Lemma message_hop A B env l rest t1 t2 t3 y :
  let w := sys_broker y in
  sys_up y = l ++ (A, wire_frames env) :: rest -> A ∉ l.*1 -> calm_broker [] w -> m_brokerId (bw_broker w) = bid ->
  says A env -> Keys.isControlMessage (handler_key (Wire.header env)) = false -> is_Some (m_clients (bw_broker w) !! A) ->
  A <> B -> ok B = true ->
  B ∈ subs_of (m_subscriptions (bw_broker w)) (topic (Wire.header env)) \/ B ∈ subs_of (m_subscriptions (bw_broker w)) "" ->
  (generateUUID (bw_gen w)).1 ∉ m_messageIdOrder (bw_broker w) -> (t2 <= T)%Z ->
  exists h w' l1 l2,
    runs [CUp A; CBroker t1 t2 t3] y [] (mkSystem w' (sys_nodes y) (l ++ rest)
      (sys_down y ++ l1 ++ (B, wire_frames (mkEnvelope _ h (Wire.payload env))) :: l2)) /\
    carried (mkEnvelope _ h (Wire.payload env)) /\ h ≡ stamped_with bid env w /\
    calm_broker [] w' /\ bw_gen w' = (generateUUID (bw_gen w)).2 /\ m_brokerId (bw_broker w') = bid /\
    m_messageIdOrder (bw_broker w') = remember (generateUUID (bw_gen w)).1 (m_messageIdOrder (bw_broker w)) /\
    m_subscriptions (bw_broker w') = m_subscriptions (bw_broker w) /\ B ∉ l1.*1 /\ A ∉ (l1 ++ l2).*1.
Proof.
  intros w Hup Hl Hcb Hid Hsp Hk HA Hne HB Hsub Hf Ht.
  assert (R1 := up_runs user says A _ l rest y Hup Hl). set (y1 := mkSystem _ _ _ _) in R1.
  destruct (calm_routes t1 t2 t3 (sys_broker y1) A B env)
    as (h & w6 & l1 & l2 & Hh & Eh & E6 & Hb6 & Hg6 & Hi6 & Ho6 & Hsub6 & El & HB1 & HA1);
    [by apply calm_deliver|apply Hsp|apply (sp_fresh _ _ _ Hsp)|done..|].
  assert (R2 := broker_runs user says t1 t2 t3 w6 y1 E6). rewrite El in R2.
  destruct (stamped_carried bid A "" A env h (sys_broker y1) Hsp Hh Eh Hid) as [Hcar _].
  exists (stamped h (sys_broker y1)), w6, l1, l2. split; [exact (runs_app _ _ _ _ _ _ _ _ _ R1 R2)|].
  split_and!; try done; [|by rewrite Hi6].
  unfold stamped, stamped_with. rewrite decide_True by (rewrite Eh; apply (sp_fresh _ _ _ Hsp)).
  change (bw_broker (sys_broker y1)) with (bw_broker w). rewrite Hid. by rewrite Eh.
Qed.

(** A message arrives at a process and its processing thread takes it. *)
Lemma arrival id nd c k env D1 D2 t1 t2 y :
  sys_nodes y !! id = Some nd -> calm [] [] [] nd c k -> listening c ->
  sys_down y = D1 ++ (id, wire_frames env) :: D2 -> id ∉ D1.*1 ->
  carried env -> handler_key (Wire.header env) <> Keys.HEARTBEAT_ACK -> (T - t1 <= SERVER_TIMEOUT)%Z -> (t2 <= T)%Z ->
  let k' := set_lastRxTime t1 k in
  let c' := set_worker (Some k') c in
  let s := set_object (Some c') (nd_state nd) in
  exists h nd', h ≡ Wire.header env /\
    runs [CDown id; CWorker id t1 t2] y [] (mkSystem (sys_broker y) (<[id := nd']> (sys_nodes y)) (sys_up y) (D1 ++ D2)) /\
    pop_inbound (nd_state nd') = Some (mkEnvelope _ h (Wire.payload env), s) /\
    calm [] [] [] (mkNode s (nd_socket nd') (nd_heartbeat nd')) c' k'.
Proof.
  intros Hn Hc [L1 L2 L3 L4] Hd HD Hcar Hkey Hrx Ht k' c' s.
  assert (R1 := down_runs user says id nd _ _ D1 D2 y Hn Hd HD). set (nd1 := mkNode _ _ _) in R1.
  assert (Hc1 : calm [wire_frames env] [] [] nd1 c k).
  { destruct Hc as [K1 K2 K3 K4 K5 K6 [I1 I2 I3 I4] K8 K9]. split; try done. cbn in *.
    split; cbn; rewrite ?zmq_deliver_open, ?zmq_deliver_current, ?zmq_deliver_pending, ?I4; auto. }
  destruct (calm_receives t1 t2 nd1 c k env Hc1 Hcar Hkey L2 L3 L4 Hrx Ht) as (h & Eh & Hc2 & Es & Hs).
  set (y1 := mkSystem _ _ _ (D1 ++ D2)) in R1.
  assert (R2 := worker_runs user says id nd1 k t1 t2 y1 ltac:(apply lookup_insert_eq) (calm_node_worker _ _ _ _ _ _ Hc1)
    (cm_running _ _ _ _ _ _ Hc1)). unfold run_worker in R2. rewrite Hs in R2. cbn [fmap list_fmap] in R2.
  rewrite app_nil_r in R2. cbn [sys_nodes sys_broker sys_up sys_down y1] in R2. rewrite insert_insert_eq in R2.
  set (nd2 := node_run _ nd1) in *. exists h, nd2. split; [done|]. split; [exact (runs_app _ _ _ _ _ _ _ _ _ R1 R2)|].
  assert (Ec : set_worker (Some k') (set_inbound (m_inbound c) c) = c') by done.
  assert (Eq : mkQueue [] false (m_maxSize (m_inbound c)) = m_inbound c) by (destruct (m_inbound c); cbn in *; by subst).
  split.
  - unfold pop_inbound. rewrite Es. cbn. unfold try_pop. cbn. rewrite Eq. unfold s. by rewrite <-Ec.
  - destruct Hc2 as [K1 K2 K3 K4 K5 K6 [I1 I2 I3 I4] K8 K9]. by split.
Qed.

(** The process [B] takes the request and answers it. *)
Lemma answer_leg B t rt f answer nd c k env D1 D2 t1 t2 t3 t4 y :
  replies user B f answer -> responder B t f nd c k -> sys_nodes y !! B = Some nd ->
  sys_down y = D1 ++ (B, wire_frames env) :: D2 -> B ∉ D1.*1 -> carried env ->
  handler_key (Wire.header env) = t -> topic (Wire.header env) = t -> reply_topic (Wire.header env) = rt ->
  Keys.isControlMessage t = false -> rt <> "" -> Keys.isControlMessage rt = false ->
  let reply := reply_envelope B rt (answer (Wire.payload env)) in
  says B reply -> (T - t1 <= SERVER_TIMEOUT)%Z -> (t2 <= T)%Z -> (t4 <= T)%Z ->
  exists h nd', h ≡ Wire.header env /\
    runs [CDown B; CWorker B t1 t2; CProcess B; CWorker B t3 t4] y
      [Handled B (mkEnvelope _ h (Wire.payload env)); Published B reply]
      (mkSystem (sys_broker y) (<[B := nd']> (sys_nodes y)) (sys_up y ++ [(B, wire_frames reply)]) (D1 ++ D2)).
Proof.
  intros Hu [Hc Hpub Hid Hl Hq [inst Hh]] Hn Hd HD Hcar Hkey Htop Hrt Hct Hne Hcr reply Hsay Hrx Ht2 Ht4.
  pose proof (not_control t Hct) as (Hk1 & Hk2 & _).
  destruct (arrival B nd c k env D1 D2 t1 t2 y Hn Hc Hl Hd HD Hcar) as (h & nd1 & Eh & R1 & Hpop & Hc1); [by rewrite Hkey|done..|].
  set (k1 := set_lastRxTime t1 k) in *. set (c1 := set_worker (Some k1) c) in *. set (s := set_object (Some c1) (nd_state nd)) in *.
  set (env1 := mkEnvelope _ h (Wire.payload env)) in *.
  assert (Ek : handler_key h = t) by (by rewrite Eh). assert (Et : topic h = t) by (by rewrite Eh).
  assert (Er : reply_topic h = rt) by (by rewrite Eh).
  destruct (reply_round user says B t rt f answer env1 s c1 k1 inst) as (Hround & Hnew & Hapi); try done;
    [apply Hl|by cbn [Wire.header env1]; rewrite Ek|]. fold env1 reply in Hround, Hnew, Hapi. change (Wire.payload env1) with (Wire.payload env) in *. fold reply in Hround, Hnew, Hapi.
  set (k2 := set_outboundQueue _ k1) in *. set (s2 := set_replyTopic "" _) in *.
  set (y1 := mkSystem _ _ _ (D1 ++ D2)) in R1.
  assert (R2 := process_runs user says B nd1 env1 s s2 [reply] y1 ltac:(apply lookup_insert_eq) Hpop Hround
    ltac:(by cbn [Wire.header env1]; rewrite Ek) Hnew (Hapi Hsay)).
  set (nd2 := mkNode s2 (nd_socket nd1) (nd_heartbeat nd1)).
  assert (Hc2 : calm [] [] [reply] nd2 (set_worker (Some k2) c1) k2).
  { destruct Hc1 as [K1 K2 K3 K4 K5 K6 [I1 I2 I3 I4] K8 K9]. by split. }
  destruct (calm_sends t3 t4 _ _ nd2 _ k2 Hc2 Ht4) as (k3 & _ & _ & Hsent).
  assert (R3 := worker_runs user says B nd2 k2 t3 t4 (put_state B nd1 s2 y1) ltac:(apply lookup_insert_eq)
    (calm_node_worker _ _ _ _ _ _ Hc2) (cm_running _ _ _ _ _ _ Hc2)).
  assert (E3 : run_worker (run_iteration manager_callbacks t3 t4) B nd2 (put_state B nd1 s2 y1) =
    mkSystem (sys_broker y) (<[B := node_run (run_iteration manager_callbacks t3 t4) nd2]> (sys_nodes y))
      (sys_up y ++ [(B, wire_frames reply)]) (D1 ++ D2)).
  { unfold run_worker, put_state. cbn [sys_nodes sys_broker sys_up sys_down y1]. by rewrite Hsent, !insert_insert_eq. }
  rewrite E3 in R3.
  eexists h, _. split; [exact Eh|]. exact (runs_app _ _ _ _ _ _ _ _ _ R1 (runs_app _ _ _ _ _ _ _ _ _ R2 R3)).
Qed.

(** The answer reaches the promise of the process that asked. *)
Lemma promise_leg A rt p nd c k env D1 D2 t1 t2 y :
  awaiting rt p nd c k -> sys_nodes y !! A = Some nd ->
  sys_down y = D1 ++ (A, wire_frames env) :: D2 -> A ∉ D1.*1 -> carried env ->
  handler_key (Wire.header env) = rt -> topic (Wire.header env) = rt -> Keys.isControlMessage rt = false ->
  (T - t1 <= SERVER_TIMEOUT)%Z -> (t2 <= T)%Z ->
  exists h y' nd', h ≡ Wire.header env /\
    runs [CDown A; CWorker A t1 t2; CProcess A] y [Handled A (mkEnvelope _ h (Wire.payload env))] y' /\
    sys_nodes y' !! A = Some nd' /\ cs_promises (nd_state nd') !! p = Some (Some (Wire.payload env)).
Proof.
  intros [Hc Hl Hh Hp] Hn Hd HD Hcar Hkey Htop Hctl Hrx Ht. pose proof (not_control rt Hctl) as (Hk1 & Hk2 & _).
  destruct (arrival A nd c k env D1 D2 t1 t2 y Hn Hc Hl Hd HD Hcar) as (h & nd1 & Eh & R1 & Hpop & Hc1); [by rewrite Hkey|done..|].
  set (c1 := set_worker _ c) in *. set (s := set_object (Some c1) (nd_state nd)) in *.
  set (env1 := mkEnvelope _ h (Wire.payload env)) in *.
  assert (Ek : handler_key h = rt) by (by rewrite Eh). assert (Et : topic h = rt) by (by rewrite Eh).
  destruct (promise_round user says A rt p env1 s c1) as (s2 & Hround & Hnew & Hapi & Hval); try done;
    [apply Hl|by cbn [Wire.header env1]; rewrite Ek|].
  set (y1 := mkSystem _ _ _ (D1 ++ D2)) in R1.
  assert (R2 := process_runs user says A nd1 env1 s s2 [] y1 ltac:(apply lookup_insert_eq) Hpop Hround
    ltac:(by cbn [Wire.header env1]; rewrite Ek) Hnew Hapi).
  eexists h, _, _. split; [exact Eh|]. split; [exact (runs_app _ _ _ _ _ _ _ _ _ R1 R2)|].
  split; [apply lookup_insert_eq|exact Hval].
Qed.

(** From the call to the broker's passing on of the request: [B] is about to get it, and
    the broker has the subscription to the reply topic. *)
Lemma request_leg A B t data p g y nd c k :
  let rt := t +:+ (generateUUID g).1 in
  let req := request_envelope t rt data c in
  let w := sys_broker y in
  let u := generateUUID (generateUUID (bw_gen w)).2 in
  sys_nodes y !! A = Some nd -> requester A rt nd c k -> A ∉ (sys_up y).*1 -> ready_to_serve A B t w -> A <> B -> ok B = true ->
  Keys.isControlMessage t = false ->
  says A (control A Keys.SUBSCRIBE rt) -> says A (control A Keys.UNSUBSCRIBE rt) -> says A req ->
  exists nd' c' k' h w' l1 l2,
    runs [CRequest A t data p g; CWorker A (clock 0) (clock 1); CUp A; CBroker (clock 2) (clock 3) (clock 4);
          CUp A; CBroker (clock 5) (clock 6) (clock 7)] y [Published A req]
      (mkSystem w' (<[A := nd']> (sys_nodes y)) (sys_up y) (sys_down y ++ l1 ++ (B, wire_frames (mkEnvelope _ h data)) :: l2)) /\
    awaiting rt p nd' c' k' /\ carried (mkEnvelope _ h data) /\ handler_key h = t /\ topic h = t /\ reply_topic h = rt /\
    B ∉ l1.*1 /\ A ∉ (l1 ++ l2).*1 /\
    calm_broker [] w' /\ m_brokerId (bw_broker w') = bid /\ bw_gen w' = u.2 /\
    m_messageIdOrder (bw_broker w') = remember u.1 (m_messageIdOrder (bw_broker w)) /\
    A ∈ subs_of (m_subscriptions (bw_broker w')) rt /\ is_Some (m_clients (bw_broker w') !! B).
Proof.
  intros rt req w u Hn Hrq Hup [Hcb Hid HclA Hsub Hf1 _ _] Hne HB Hk Hs1 Hs2 Hs3.
  destruct (request_wired A t data p g (clock 0) (clock 1) y nd c k Hrq Hn Hk Hs1 Hs2 Hs3 (proj2 (Hclock 1)))
    as (nd3 & c3 & k3 & Haw & R1). fold rt req in Haw, R1. set (y1 := mkSystem _ _ _ _) in R1.
  destruct (subscription_hop A rt (sys_up y) [(A, wire_frames req)] (clock 2) (clock 3) (clock 4) y1
    eq_refl Hup Hcb Hs1 HclA (proj2 (Hclock 3))) as (w2 & R2 & Hcb2 & Hg2 & Hi2 & Ho2 & Hsub2 & Hcl2).
  cbn [sys_broker y1] in Hg2, Hi2, Ho2, Hsub2, Hcl2. fold w in Hg2, Hi2, Ho2, Hsub2, Hcl2. set (y2 := mkSystem _ _ _ _) in R2.
  assert (Hsub' : forall t', B ∈ subs_of (m_subscriptions (bw_broker w)) t' -> B ∈ subs_of (m_subscriptions (bw_broker w2)) t')
    by (intros t' K; apply Hsub2; by left).
  assert (Hf : (generateUUID (bw_gen w2)).1 ∉ m_messageIdOrder (bw_broker w2)) by (by rewrite Hg2, Ho2).
  assert (Hid2 : m_brokerId (bw_broker w2) = bid) by congruence.
  assert (HsubB : B ∈ subs_of (m_subscriptions (bw_broker w2)) t \/ B ∈ subs_of (m_subscriptions (bw_broker w2)) "")
    by (destruct Hsub; auto).
  destruct (message_hop A B req (sys_up y) [] (clock 5) (clock 6) (clock 7) y2 eq_refl Hup Hcb2 Hid2 Hs3 Hk (Hcl2 A HclA) Hne HB
    HsubB Hf (proj2 (Hclock 6))) as (h & w3 & l1 & l2 & R3 & Hcar & Eh & Hcb3 & Hg3 & Hi3 & Ho3 & Hsub3 & Hl1 & Hl2).
  cbn [sys_broker y2] in Hg3, Ho3, Hsub3, Eh. rewrite app_nil_r in R3. rewrite Hg2 in Hg3, Ho3. rewrite Ho2 in Ho3.
  exists nd3, c3, k3, h, w3, l1, l2.
  split; [exact (runs_app _ _ _ _ _ _ _ _ _ R1 (runs_app _ _ _ _ _ _ _ _ _ R2 R3))|].
  split_and!; [exact Haw|exact Hcar|by rewrite Eh|by rewrite Eh|by rewrite Eh|exact Hl1|exact Hl2|exact Hcb3|exact Hi3|exact Hg3|exact Ho3|..].
  - rewrite Hsub3. apply Hsub2. by right.
  - destruct (cb_inv _ _ Hcb3) as [[_ Hin _ _ _ _] _ _].
    destruct HsubB as [K|K]; (eapply Hin; rewrite Hsub3; exact K).
Qed.

(** ** The exchange *)

Definition exchange (A B t data : string) (p : Z) (g : G) : list (command (G:=G)) :=
  [CRequest A t data p g; CWorker A (clock 0) (clock 1);
   CUp A; CBroker (clock 2) (clock 3) (clock 4); CUp A; CBroker (clock 5) (clock 6) (clock 7);
   CDown B; CWorker B (clock 8) (clock 9); CProcess B; CWorker B (clock 10) (clock 11);
   CUp B; CBroker (clock 12) (clock 13) (clock 14);
   CDown A; CWorker A (clock 15) (clock 16); CProcess A].

Lemma fresh_later u1 u2 (order : list string) : u2 ∉ order -> u2 <> u1 -> u2 ∉ remember u1 order.
Proof.
  intros Ho Hne Hin. unfold remember in Hin. set (n := length order + 1 - MaxHistorySize) in Hin.
  assert (K : u2 ∈ order ++ [u1]) by (rewrite <-(take_drop n (order ++ [u1])); apply elem_of_app; by right).
  apply elem_of_app in K as [?|?%list_elem_of_singleton]; done.
Qed.

(** A reply topic is a data topic: it is longer than the keys of the protocol. *)
Lemma reply_topic_plain t (g : G) :
  let rt := t +:+ (generateUUID g).1 in rt <> "" /\ Keys.isControlMessage rt = false.
Proof.
  intros rt. assert (Hl : (36 <= slen rt)%Z).
  { unfold rt. rewrite slen_app. destruct (generateUUID_shape g) as [Hu _]. unfold slen at 2. rewrite Hu. unfold slen. lia. }
  assert (K : forall key, (slen key < 36)%Z -> rt <> key) by (intros key Hk E; rewrite E in Hl; lia).
  split; [by apply K|]. unfold Keys.isControlMessage. rewrite !orb_false_iff, !bool_decide_eq_false. by split_and!; apply K.
Qed.

(** C4. A request is answered, end to end: a connected process [A] calls [sendRequest]; process
    [B] has one callback for the topic, which replies with a function [answer] of what it is
    given; the broker knows both.  Within a second in which no periodic task is due, the
    turns of the worker threads, of the network, of the broker and of the two
    processing threads bring the request to [B]'s callback and its reply to the promise:
    the wait of [sendRequest] ends with exactly [answer] of the data that was sent. *)
Theorem request_answered A B t data answer p f g y nd1 c1 k1 nd2 c2 k2 :
  let rt := t +:+ (generateUUID g).1 in
  let req := request_envelope t rt data c1 in
  let reply := reply_envelope B rt (answer data) in
  sys_nodes y !! A = Some nd1 -> requester A rt nd1 c1 k1 ->
  sys_nodes y !! B = Some nd2 -> responder B t f nd2 c2 k2 -> replies user B f answer ->
  ready_to_serve A B t (sys_broker y) -> A <> B -> ok A = true -> ok B = true ->
  A ∉ (sys_up y).*1 -> B ∉ (sys_up y).*1 -> A ∉ (sys_down y).*1 -> B ∉ (sys_down y).*1 ->
  Keys.isControlMessage t = false ->
  says A (control A Keys.SUBSCRIBE rt) -> says A (control A Keys.UNSUBSCRIBE rt) -> says A req -> says B reply ->
  exists y' nd' h1 h2,
    let es := [Published A req; Handled B (mkEnvelope _ h1 data); Published B reply; Handled A (mkEnvelope _ h2 (answer data))] in
    exec_all user (exchange A B t data p g) y = Some (es, y') /\ sys_run user says y es y' /\
    sys_nodes y' !! A = Some nd' /\ (sendRequest_end rt p (nd_state nd')).2 = Some (answer data).
Proof.
  intros rt req reply Hn1 Hrq Hn2 Hrp Hu Hsv Hne HA HB U1 U2 D1 D2 Hk Hs1 Hs2 Hs3 Hs4.
  destruct (reply_topic_plain t g) as [Hrt Hrtk]. fold rt in Hrt, Hrtk.
  destruct (request_leg A B t data p g y nd1 c1 k1 Hn1 Hrq U1 Hsv Hne HB Hk Hs1 Hs2 Hs3)
    as (nd3 & c3 & k3 & h3 & w3 & l1 & l2 & R1 & Haw & Hcar & Ek & Et & Er & Hl1 & Hl2 & Hcb & Hid & Hg & Ho & HsA & HcB).
  fold rt req in Haw, R1, Er, HsA. set (y1 := mkSystem w3 _ _ _) in R1.
  assert (HB1 : B ∉ (sys_down y ++ l1).*1) by (rewrite fmap_app, not_elem_of_app; by split).
  destruct (answer_leg B t rt f answer nd2 c2 k2 (mkEnvelope _ h3 data) (sys_down y ++ l1) l2 (clock 8) (clock 9) (clock 10) (clock 11) y1
    Hu Hrp ltac:(cbn; by rewrite lookup_insert_ne) ltac:(cbn; by rewrite <-(assoc_L (++))) HB1 Hcar Ek Et Er Hk Hrt Hrtk Hs4
    (clock_heard 8) (proj2 (Hclock 9)) (proj2 (Hclock 11))) as (h4 & nd4 & Eh4 & R2).
  cbn [Wire.payload] in R2. fold reply in R2. set (y2 := mkSystem _ _ _ _) in R2.
  assert (Hf : (generateUUID (bw_gen w3)).1 ∉ m_messageIdOrder (bw_broker w3)).
  { rewrite Hg, Ho. apply fresh_later; [apply (rv_fresh2 _ _ _ _ Hsv)|apply (rv_differ _ _ _ _ Hsv)]. }
  destruct (message_hop B A reply (sys_up y) [] (clock 12) (clock 13) (clock 14) y2 eq_refl U2 Hcb Hid Hs4 Hrtk HcB (not_eq_sym Hne) HA
    (or_introl HsA) Hf (proj2 (Hclock 13))) as (h5 & w5 & l3 & l4 & R3 & Hcar5 & Eh5 & _ & _ & _ & _ & _ & Hl3 & _).
  set (y3 := mkSystem w5 _ _ _) in R3.
  assert (HA1 : A ∉ ((sys_down y ++ l1) ++ l2 ++ l3).*1).
  { rewrite fmap_app, not_elem_of_app in Hl2. destruct Hl2. rewrite !fmap_app, !not_elem_of_app. by split_and!. }
  destruct (promise_leg A rt p nd3 c3 k3 (mkEnvelope _ h5 (answer data)) ((sys_down y ++ l1) ++ l2 ++ l3) l4 (clock 15) (clock 16) y3
    Haw ltac:(cbn; by rewrite lookup_insert_ne, lookup_insert_eq) ltac:(cbn [sys_down y3 y2]; by rewrite <-!(assoc_L (++))) HA1 Hcar5
    ltac:(cbn [Wire.header]; by rewrite Eh5) ltac:(cbn [Wire.header]; by rewrite Eh5) Hrtk (clock_heard 15) (proj2 (Hclock 16)))
    as (h6 & y6 & nd6 & Eh6 & R4 & Hn6 & Hval).
  exists y6, nd6, h4, h6. cbn [Wire.payload] in R4, Hval.
  destruct (runs_app _ _ _ _ _ _ _ _ _ R1 (runs_app _ _ _ _ _ _ _ _ _ R2 (runs_app _ _ _ _ _ _ _ _ _ R3 R4))) as [E Er'].
  split; [exact E|]. split; [exact Er'|]. split; [exact Hn6|]. unfold sendRequest_end. cbn [snd]. by rewrite Hval.
Qed.

End legs.

End request.
