(* ===== verification/SystemResubscribe.v ===== *)
(** * A client's subscriptions come back

    A broker that does not know a client (it restarted, or its sweep removed the
    client) answers whatever the client sends with a RESET; the client's processing
    thread subscribes all its topics again ([ConnectionManager::resubscribeAll]).
    Here this is run through the worker's thread, the processing thread, the
    network and the broker, in a second in which no periodic task is due. *)

From stdpp Require Import relations.
From S2P Require Import Prelude Keys CppString SafeQueue SubscriptionRegistry MessageHeader.
From S2P Require Import Stats Payload Wire Worker WorkerPhases Uuid Discovery Broker BrokerFacts BrokerTheorems.
From S2P Require Import Client ClientTheorems System SystemFacts Schedule SystemTheorems SystemDelivery SystemRequest.

Section resubscribe.
Context `{StatsRuntime} `{!HeaderParser} {G : Type} `{HexGen G} {S : Type} `{ZmqSocket S}
  `{!ZmqNetwork S} `{UnorderedOrder}.

Implicit Types y : system (G:=G) (S:=S).
Implicit Types w : broker_world (G:=G) (S:=S).
Implicit Types env : Envelope.
Implicit Types nd : node (S:=S).

Context (P : S -> Prop) (HP : accepting P) (HPd : forall s f fs, P s -> P (zmq_deliver s f fs)).
Context (T : Z).
Context (R : S -> Prop) (ok : string -> bool) (HR : routing_socket R ok)
  (HRd : forall s f fs, R s -> R (zmq_deliver s f fs)).
Context (Q : S -> Prop) (HQ : accepting Q).
Context (user : string -> user_code) (bid : string).

Notation says := (speaks (G:=G) bid).
Notation runs := (Schedule.runs user says).
Notation calm := (SystemRequest.calm P T).
Notation calm_broker := (SystemRequest.calm_broker T R Q).

Context (clock : nat -> Z) (Hclock : forall i, (T - seconds 1 <= clock i <= T)%Z).

(** ** The broker *)

(** An unknown client is asked to reset, whatever it sent, and known from then on. *)
Lemma calm_unknown t1 t2 t3 w id env :
  calm_broker [id :: wire_frames env] w -> carried env -> message_uuid (Wire.header env) = "" -> (t2 <= T)%Z ->
  handler_key (Wire.header env) <> Keys.DISCONNECT -> m_clients (bw_broker w) !! id = None -> ok id = true ->
  exists w', broker_iteration t1 t2 t3 w = (w', Ok tt) /\ calm_broker [] w' /\
    new_sent (bw_router w) (bw_router w') ≫= addressed = [(id, wire_frames (mkEnvelope _ reset_header ""))] /\
    m_subscriptions (bw_broker w') = m_subscriptions (bw_broker w) /\ is_Some (m_clients (bw_broker w') !! id).
Proof.
  intros Hcalm Hcar Hu Ht Hk Hn Hok.
  destruct (calm_turn T R ok HR Q HQ t1 t2 t3 w id env Hcalm Hcar Hu Ht) as (h & w' & b & Hh & Eh & E & Hc' & Hg & Hi & Ho & Hb & K).
  exists w'. unfold owned in Ho. injection Ho as O1 O2 O3 O4.
  unfold process_core in K. rewrite stamped_key in K. rewrite decide_False in K by (by rewrite Eh).
  rewrite decide_True in K by (by rewrite O1). destruct K as [K1 K2].
  rewrite filter_cons_True, filter_nil in K2 by done.
  split_and!; [done|done|by rewrite K2|by rewrite K1|rewrite K1; cbn; rewrite lookup_insert_eq; eauto].
Qed.

(** The client's message arrives, and the request to reset is on its way. *)
Lemma reset_hop id env l rest t1 t2 t3 y :
  let w := sys_broker y in
  sys_up y = l ++ (id, wire_frames env) :: rest -> id ∉ l.*1 -> calm_broker [] w ->
  carried env -> message_uuid (Wire.header env) = "" -> handler_key (Wire.header env) <> Keys.DISCONNECT ->
  m_clients (bw_broker w) !! id = None -> ok id = true -> (t2 <= T)%Z ->
  exists w', runs [CUp id; CBroker t1 t2 t3] y [] (mkSystem w' (sys_nodes y) (l ++ rest)
      (sys_down y ++ [(id, wire_frames (mkEnvelope _ reset_header ""))])) /\
    calm_broker [] w' /\ m_subscriptions (bw_broker w') = m_subscriptions (bw_broker w) /\
    is_Some (m_clients (bw_broker w') !! id).
Proof.
  intros w Hup Hl Hcb Hcar Hu Hk Hn Hok Ht.
  assert (R1 := up_runs user says id _ l rest y Hup Hl). set (y1 := mkSystem _ _ _ _) in R1.
  destruct (calm_unknown t1 t2 t3 (sys_broker y1) id env) as (w' & E & Hc' & Hs & Hsub & Hcl); try done;
    [by apply calm_deliver|].
  assert (R2 := broker_runs user says t1 t2 t3 w' y1 E). rewrite Hs in R2.
  exists w'. split; [exact (runs_app _ _ _ _ _ _ _ _ _ R1 R2)|done].
Qed.

(** Every queued subscription arrives. *)
Fixpoint hops (id : string) (i n : nat) : list (command (G:=G)) :=
  match n with
  | 0 => []
  | Datatypes.S n => [CUp id; CBroker (clock i) (clock (i + 1)) (clock (i + 2))] ++ hops id (i + 3) n
  end.

Definition subscription_frames (id t : string) : string * list string :=
  (id, wire_frames (control id Keys.SUBSCRIBE t)).

Lemma subscriptions_hop id ts : forall i l y,
  sys_up y = l ++ (subscription_frames id <$> ts) -> id ∉ l.*1 ->
  calm_broker [] (sys_broker y) -> Forall (fun t => says id (control id Keys.SUBSCRIBE t)) ts ->
  is_Some (m_clients (bw_broker (sys_broker y)) !! id) ->
  exists w', runs (hops id i (length ts)) y [] (mkSystem w' (sys_nodes y) l (sys_down y)) /\
    calm_broker [] w' /\ is_Some (m_clients (bw_broker w') !! id) /\
    (forall c t, c ∈ subs_of (m_subscriptions (bw_broker w')) t <->
      c ∈ subs_of (m_subscriptions (bw_broker (sys_broker y))) t \/ c = id /\ t ∈ ts).
Proof.
  induction ts as [|t ts IH]; intros i l y Hup Hl Hcb Hs Hcl.
  - exists (sys_broker y). rewrite app_nil_r in Hup. split_and!; [|done|done|].
    + rewrite <- Hup. destruct y. split; [done|constructor].
    + intros c t. rewrite elem_of_nil. tauto.
  - apply Forall_cons in Hs as [Hs1 Hs].
    destruct (subscription_hop T R ok HR HRd Q HQ user bid id t l (fmap (M:=list) (subscription_frames id) ts) (clock i) (clock (i + 1))
      (clock (i + 2)) y Hup Hl Hcb Hs1 Hcl (proj2 (Hclock (i + 1)))) as (w1 & R1 & Hcb1 & _ & _ & _ & Hsub1 & Hcl1).
    destruct (IH (i + 3) l (mkSystem w1 (sys_nodes y) (l ++ fmap (M:=list) (subscription_frames id) ts) (sys_down y))
      eq_refl Hl Hcb1 Hs (Hcl1 id Hcl)) as (w2 & R2 & Hcb2 & Hcl2 & Hsub2).
    exists w2. split; [exact (runs_app _ _ _ _ _ _ _ _ _ R1 R2)|]. split_and!; [done|done|].
    intros c t'. rewrite Hsub2. cbn [sys_broker]. rewrite Hsub1, elem_of_cons. tauto.
Qed.

(** ** The client *)

(** The topics that have a callback. *)
Definition topics (c : ConnectionManager) : list string := (std_map_iter (m_msgHandlers c)).*1.

Lemma elem_of_topics c t : t ∈ topics c <-> is_Some (m_msgHandlers c !! t).
Proof using Type.
  unfold topics. rewrite <- (elem_of_list_to_set (C:=gset string)), std_map_iter_keys. apply elem_of_dom.
Qed.

(** A client that is connected and idle, with room in its control queue for a
    subscription per topic. *)
Record resubscriber (A : string) nd c k : Prop := {
  rs_calm : calm [] [] [] nd c k;
  rs_id : m_clientId c = A;
  rs_listening : listening c;
  rs_open : m_stop (m_controlQueue k) = false;
  rs_room : (zlen (topics c) <= m_maxSize (m_controlQueue k))%Z
}.

(** A round of the processing thread on a RESET. *)
Lemma reset_runs id nd env s c y :
  sys_nodes y !! id = Some nd -> pop_inbound (nd_state nd) = Some (env, s) -> cs_object s = Some c ->
  Client.m_running c = true -> handler_key (Wire.header env) = Keys.RESET ->
  runs [CProcess id] y [] (put_state id nd (set_object (Some (resubscribeAll c)) s) y).
Proof using Type.
  intros Hn Hp Hc Hr Hk.
  assert (E : processing_round (user id) env s = (set_object (Some (resubscribeAll c)) s, Ok true)).
  { unfold processing_round. rewrite (bind_ok mget _ s s s) by done. rewrite Hc, Hr. cbn [negb].
    rewrite decide_True by done. by rewrite (bind_ok _ _ s (set_object (Some (resubscribeAll c)) s) tt). }
  apply runs_one.
  - intros nd0 env0 s0 s1 b Hn0 Hp0 _ Hk0. simplify_eq.
  - cbn. rewrite Hn. cbn [mbind option_bind]. rewrite Hp. cbn [mbind option_bind fst snd].
    rewrite E. by rewrite decide_True.
Qed.

Lemma resubscribe_queues A nd c k :
  resubscriber A nd c k ->
  resubscribeAll c = set_worker (Some (set_controlQueue (mkQueue ((control A Keys.SUBSCRIBE) <$> topics c) false
    (m_maxSize (m_controlQueue k))) k)) c.
Proof using Type.
  intros [Hc Hid _ Ho Hr]. destruct Hc as [K1 K2 K3 K4 K5 K6 K7 K8 K9].
  unfold resubscribeAll, subscribe_handlers. rewrite (subscribe_loop_queues _ c k K2 Ho).
  - rewrite K8. do 4 f_equal. unfold subscriptions_of, topics. apply list_fmap_ext.
    intros i t _. by rewrite (control_eq A).
  - rewrite K8. revert Hr. unfold topics, zlen. rewrite length_fmap. cbn [length]. lia.
Qed.

Lemma reset_leg A nd c k D1 D2 t1 t2 t3 t4 y :
  sys_nodes y !! A = Some nd -> resubscriber A nd c k ->
  sys_down y = D1 ++ (A, wire_frames (mkEnvelope _ reset_header "")) :: D2 -> A ∉ D1.*1 ->
  carried (mkEnvelope _ reset_header "") -> (T - t1 <= SERVER_TIMEOUT)%Z -> (t2 <= T)%Z -> (t4 <= T)%Z ->
  exists nd' c', runs [CDown A; CWorker A t1 t2; CProcess A; CWorker A t3 t4] y []
      (mkSystem (sys_broker y) (<[A := nd']> (sys_nodes y)) (sys_up y ++ (subscription_frames A <$> topics c)) (D1 ++ D2)) /\
    cs_object (nd_state nd') = Some c' /\ m_msgHandlers c' = m_msgHandlers c.
Proof.
  intros Hn Hrs Hd HD Hcar Hrx Ht2 Ht4. destruct Hrs as [Hc Hid Hl Ho Hr].
  destruct (arrival P HP HPd T user bid A nd c k (mkEnvelope _ reset_header "") D1 D2 t1 t2 y Hn Hc Hl Hd HD Hcar)
    as (h & nd1 & Eh & R1 & Hpop & Hc1); [done..|].
  set (k1 := set_lastRxTime t1 k) in *. set (c1 := set_worker (Some k1) c) in *.
  set (s := set_object (Some c1) (nd_state nd)) in *. set (y1 := mkSystem _ _ _ (D1 ++ D2)) in R1.
  assert (R2 := reset_runs A nd1 _ s c1 y1 ltac:(apply lookup_insert_eq) Hpop eq_refl
    (ls_running _ Hl) ltac:(cbn [Wire.header]; by rewrite Eh)).
  assert (Hrs1 : resubscriber A (mkNode s (nd_socket nd1) (nd_heartbeat nd1)) c1 k1) by (by split; try (by destruct Hl)).
  rewrite (resubscribe_queues A _ c1 k1 Hrs1) in R2. change (topics c1) with (topics c) in R2.
  set (k2 := set_controlQueue _ k1) in R2. set (s2 := set_object _ s) in R2.
  set (nd2 := mkNode s2 (nd_socket nd1) (nd_heartbeat nd1)).
  assert (Hc2 : calm [] (control A Keys.SUBSCRIBE <$> topics c) [] nd2 (set_worker (Some k2) c1) k2).
  { destruct Hc1 as [K1 K2 K3 K4 K5 K6 [I1 I2 I3 I4] K8 K9]. by split. }
  destruct (calm_sends P HP T t3 t4 _ _ nd2 _ k2 Hc2 Ht4) as (k3 & Hc3 & Es3 & Hsent).
  assert (R3 := worker_runs user says A nd2 k2 t3 t4 (put_state A nd1 s2 y1) ltac:(apply lookup_insert_eq)
    (calm_node_worker _ _ _ _ _ _ _ _ Hc2) (cm_running _ _ _ _ _ _ _ _ Hc2)).
  set (nd3 := node_run (run_iteration manager_callbacks t3 t4) nd2) in *.
  assert (E3 : run_worker (run_iteration manager_callbacks t3 t4) A nd2 (put_state A nd1 s2 y1) =
    mkSystem (sys_broker y) (<[A := nd3]> (sys_nodes y)) (sys_up y ++ fmap (M:=list) (subscription_frames A) (topics c)) (D1 ++ D2)).
  { unfold run_worker, put_state. cbn [sys_nodes sys_broker sys_up sys_down y1]. fold nd3.
    rewrite Hsent, !insert_insert_eq, app_nil_r. by rewrite <-!list_fmap_compose. }
  rewrite E3 in R3. exists nd3, (set_worker (Some k3) (set_worker (Some k2) c1)).
  split; [exact (runs_app _ _ _ _ _ _ _ _ _ R1 (runs_app _ _ _ _ _ _ _ _ _ R2 R3))|].
  split; [by rewrite Es3|done].
Qed.

(** ** The recovery *)

Definition recovery (A : string) (n : nat) : list (command (G:=G)) :=
  [CUp A; CBroker (clock 0) (clock 1) (clock 2); CDown A; CWorker A (clock 3) (clock 4); CProcess A;
   CWorker A (clock 5) (clock 6)] ++ hops A 7 n.

(** C15. Subscriptions come back: the broker does not know client [A] (it
    restarted, or its sweep dropped [A]) and a message of [A] is on its way to it,
    of whatever kind but a DISCONNECT.  [A]'s link is up and it is idle, nothing
    else of [A] is in transit, the sockets accept, the control queue has room for
    a subscription per topic, and no periodic task is due within the second.  Then
    the turns of the network, the broker, [A]'s worker and its processing thread
    bring the broker's request to reset to [A] and [A]'s subscriptions to the
    broker: it knows [A] again, [A] is subscribed to exactly the topics that
    have a callback, and every other client to what it was. *)
Theorem subscriptions_recovered A env y nd c k l1 l2 :
  sys_nodes y !! A = Some nd -> resubscriber A nd c k -> ok A = true ->
  sys_up y = l1 ++ (A, wire_frames env) :: l2 -> A ∉ (l1 ++ l2).*1 -> A ∉ (sys_down y).*1 ->
  calm_broker [] (sys_broker y) -> m_clients (bw_broker (sys_broker y)) !! A = None ->
  carried env -> message_uuid (Wire.header env) = "" -> handler_key (Wire.header env) <> Keys.DISCONNECT ->
  carried (mkEnvelope _ reset_header "") ->
  (forall t, is_Some (m_msgHandlers c !! t) -> says A (control A Keys.SUBSCRIBE t)) ->
  exists y', exec_all user (recovery A (length (topics c))) y = Some ([], y') /\ sys_run user says y [] y' /\
    let b := bw_broker (sys_broker y) in
    let b' := bw_broker (sys_broker y') in
    is_Some (m_clients b' !! A) /\
    (forall t, A ∈ subs_of (m_subscriptions b') t <-> is_Some (m_msgHandlers c !! t)) /\
    (forall id t, id <> A -> id ∈ subs_of (m_subscriptions b') t <-> id ∈ subs_of (m_subscriptions b) t) /\
    (exists nd' c', sys_nodes y' !! A = Some nd' /\ cs_object (nd_state nd') = Some c' /\
       m_msgHandlers c' = m_msgHandlers c).
Proof.
  intros Hn Hrs Hok Hup Hl Hd Hcb Hcl Hcar Hu Hk Hreset Hsay.
  rewrite fmap_app, not_elem_of_app in Hl. destruct Hl as [Hl1 Hl2].
  destruct (reset_hop A env l1 l2 (clock 0) (clock 1) (clock 2) y Hup Hl1 Hcb Hcar Hu Hk Hcl Hok (proj2 (Hclock 1)))
    as (w1 & R1 & Hcb1 & Hsub1 & Hcl1). set (y1 := mkSystem w1 _ _ _) in R1.
  destruct (reset_leg A nd c k (sys_down y) [] (clock 3) (clock 4) (clock 5) (clock 6) y1 Hn Hrs eq_refl Hd Hreset
    (clock_heard T clock Hclock 3) (proj2 (Hclock 4)) (proj2 (Hclock 6))) as (nd2 & c2 & R2 & Hc2 & Hh2).
  set (y2 := mkSystem (sys_broker y1) _ _ _) in R2.
  destruct (subscriptions_hop A (topics c) 7 (l1 ++ l2) y2 eq_refl) as (w3 & R3 & Hcb3 & Hcl3 & Hsub3); try done.
  { rewrite fmap_app, not_elem_of_app. by split. }
  { apply Forall_forall. intros t Ht. apply Hsay. by apply elem_of_topics. }
  destruct (runs_app _ _ _ _ _ _ _ _ _ R1 (runs_app _ _ _ _ _ _ _ _ _ R2 R3)) as [E Er].
  eexists. split; [exact E|]. split; [exact Er|]. cbv zeta. cbn [sys_broker sys_nodes y2 y1] in Hsub3 |- *.
  rewrite Hsub1 in Hsub3.
  assert (Hnone : forall t, A ∉ subs_of (m_subscriptions (bw_broker (sys_broker y))) t).
  { intros t Ht. destruct (cb_inv _ _ _ _ _ Hcb) as [[_ Hin _ _ _ _] _ _]. apply Hin in Ht.
    rewrite Hcl in Ht. by destruct Ht. }
  split_and!; [done| | |exists nd2, c2; by rewrite lookup_insert_eq].
  - intros t. rewrite Hsub3, <- elem_of_topics. specialize (Hnone t). tauto.
  - intros id t Hid. rewrite Hsub3. tauto.
Qed.

End resubscribe.
