(* ===== verification/ConnectionApi.v ===== *)
(** * The C interface ([common/connectionapi.{h,cpp}])

    Wrappers of the client library with C types: a pointer argument is an
    [option], [None] the null pointer; a buffer is the bytes it holds.
    [std::string(data, len)] throws for a negative length, which is the
    [Throw] of [bytes_of]. *)

From S2P Require Import Prelude Keys SafeQueue MessageHeader Wire Worker Uuid CppString Client ClientTheorems.

Definition SUCCESS : Z := 0.
Definition ERROR_GENERIC : Z := -1.
Definition ERROR_NO_CONNECTION : Z := -2.
Definition ERROR_INVALID_ARGS : Z := -3.
Definition ERROR_SEND_FAILED : Z := -4.

Inductive Connection_Protocol := PROTOCOL_ZMQ.

Record Connection_Config := mkCConfig {
  cc_address : option string;
  cc_client_id : option string;
  cc_protocol : Connection_Protocol;
  cc_keepalive_time_ms : Z;
  cc_keepalive_timeout_ms : Z;
  cc_compression_algorithm : Z
}.

(** [CONNECTION_CONFIG_DEFAULT]. *)
Definition cconfig_default : Connection_Config := mkCConfig None None PROTOCOL_ZMQ 10000 5000 2.

Section api.
Context `{ProtoRuntime}.

Definition initConnection (config : option Connection_Config) (s : client_state) :
    client_state * Z :=
  match config with
  | None => (s, ERROR_INVALID_ARGS)
  | Some config =>
      match cc_address config with
      | None => (s, ERROR_INVALID_ARGS)
      | Some address =>
          let cfg := mkConfig address (default "DefaultClientName" (cc_client_id config)) ZMQ
                       (cc_keepalive_time_ms config) (cc_keepalive_timeout_ms config)
                       (cc_compression_algorithm config) in
          (client_init cfg s, SUCCESS)
      end
  end.

Definition shutdownConnection (s : client_state) : client_state := client_shutdown s.

Definition code_of (ok : bool) : Z := if ok then SUCCESS else ERROR_NO_CONNECTION.

Definition api_sendMessage (topic text : option string) (s : client_state) : client_state * Z :=
  match topic, text with
  | Some topic, Some text =>
      let '(s, ok) := client_sendMessage topic text s in (s, code_of ok)
  | _, _ => (s, ERROR_INVALID_ARGS)
  end.

Definition api_sendData (topic data : option string) (len : Z) : M client_state Z :=
  match topic, data with
  | Some topic, Some data => ok ← client_sendDataRaw topic data len; mret (code_of ok)
  | _, _ => mret ERROR_INVALID_ARGS
  end.

Definition api_replyToSender (data : option string) (len : Z) : M client_state Z :=
  match data with
  | Some data => bytes ← bytes_of data len; ok ← lift_ok (client_replyToSender bytes); mret (code_of ok)
  | None => mret ERROR_INVALID_ARGS
  end.

(** [sendRequest] up to the wait: the code of an early return, or the reply
    topic it waits on.  The two flags tell that [outBuffer] and [outLen] are not
    null. *)
Definition api_sendRequest_begin {G} `{HexGen G} (topic payload : option string) (payloadLen : Z)
    (hasBuffer hasLen : bool) (p : Z) (g : G) : M client_state (G * (Z + string)) :=
  match topic, payload with
  | Some topic, Some payload =>
      if negb hasBuffer || negb hasLen then mret (g, inl ERROR_INVALID_ARGS)
      else
        bytes ← bytes_of payload payloadLen;
        s ← mget;
        let '(s, g, replyTopic) := sendRequest_begin topic bytes p g s in
        _ ← mmodify (fun _ => s);
        mret (g, match replyTopic with Some t => inr t | None => inl ERROR_GENERIC end)
  | _, _ => mret (g, inl ERROR_INVALID_ARGS)
  end.

(** The end of [sendRequest]: the response of the library (nothing on failure)
    is copied into the caller's buffer of [outBufferCap] bytes.  The result is
    the code, the buffer and [*outLen]. *)
Definition api_sendRequest_finish (response : option string) (outBuffer : string)
    (outBufferCap outLen : Z) : Z * string * Z :=
  match response with
  | None => (ERROR_GENERIC, outBuffer, outLen)
  | Some response =>
      if decide (i32 (slen response) > outBufferCap)%Z then (ERROR_INVALID_ARGS, outBuffer, outLen)
      else (SUCCESS, response +:+ str_drop (String.length response) outBuffer, i32 (slen response))
  end.

Definition api_registerCallback (topic : option string) (callback userData : Z) (s : client_state) :
    client_state :=
  match topic with
  | Some topic =>
      if decide (callback = 0%Z) then s
      else registerCallback topic (CApiFn topic callback userData) s
  | None => s
  end.

(** ** Theorems *)

(** What a call put into the data queue. *)
Definition queued (s : client_state) : list Envelope :=
  match cs_object s with Some c => outbound_queue c | None => [] end.

Lemma push_for_cases {T} (v : T) q :
  push_for v q = (mkQueue (m_queue q ++ [v]) (m_stop q) (m_maxSize q), true) \/
  push_for v q = (q, false).
Proof. unfold push_for, push_body. destruct (push_ready q); [|auto]. destruct (m_stop q); auto. Qed.

(** The code of a C call tells the truth: for a topic that is not a control
    key, SUCCESS means exactly one message with that topic and those bytes was
    added to the data queue, ERROR_NO_CONNECTION and ERROR_INVALID_ARGS mean
    that nothing was queued, and the latter is returned exactly for a null
    argument. *)
Theorem api_sendMessage_code topic text s :
  (forall t, topic = Some t -> Keys.isControlMessage t = false) ->
  let '(s', code) := api_sendMessage topic text s in
  (code = SUCCESS /\ exists t x c, topic = Some t /\ text = Some x /\ cs_object s = Some c /\
     queued s' = queued s ++ [mkEnvelope _ (set_topic t (set_sender_id (m_clientId c)
       (set_handler_key t header_new))) x]) \/
  (code = ERROR_NO_CONNECTION /\ queued s' = queued s) \/
  (code = ERROR_INVALID_ARGS /\ s' = s /\ (topic = None \/ text = None)).
Proof.
  intros Hk. unfold api_sendMessage. destruct topic as [t|]; [|by right; right; auto].
  destruct text as [x|]; [|by right; right; auto].
  specialize (Hk t eq_refl). unfold client_sendMessage, on_instance, getInstance.
  destruct (cs_published s); [|by right; left]. destruct (cs_object s) as [c|] eqn:Ec; [|by right; left].
  unfold sendDataInternal, sendRawEnvelope. simpl. unfold handler_key; simpl. rewrite Hk.
  unfold queued. rewrite Ec. unfold outbound_queue at 2 4.
  destruct (m_pWorker c) as [w|] eqn:Ew; [|right; left; split; [done|]; simpl; unfold outbound_queue; by rewrite Ew].
  unfold writeMessage.
  destruct (push_for_cases (mkEnvelope _ (set_topic t (set_sender_id (m_clientId c)
    (set_handler_key t header_new))) x) (m_outboundQueue w)) as [E|E]; rewrite E; simpl.
  - left. split; [done|]. exists t, x, c. by split_and!.
  - right; left. by split.
Qed.

(** C31. The caller's buffer is never overrun: for a response that fits the
    transport's message size, a successful request writes exactly the response
    into the first [*outLen] bytes, which are at most the announced capacity
    and leave the rest of the buffer as it was; a response that does not fit,
    or none, leaves the buffer untouched. *)
Theorem api_request_in_bounds response outBuffer cap len :
  (forall r, response = Some r -> slen r <= MAX_MESSAGE_SIZE_BYTES)%Z ->
  (cap <= slen outBuffer)%Z ->
  let '(code, buf, n) := api_sendRequest_finish response outBuffer cap len in
  String.length buf = String.length outBuffer /\
  (code = SUCCESS /\ (0 <= n <= cap)%Z /\ response = Some (str_take (Z.to_nat n) buf) /\
     str_drop (Z.to_nat n) buf = str_drop (Z.to_nat n) outBuffer \/
   code <> SUCCESS /\ buf = outBuffer /\ n = len).
Proof.
  intros Hr Hc. unfold api_sendRequest_finish. destruct response as [r|]; [|by auto].
  specialize (Hr r eq_refl). unfold MAX_MESSAGE_SIZE_BYTES in Hr. pose proof (slen_nonneg r).
  assert (Hi : i32 (slen r) = slen r) by (unfold i32; rewrite Z.mod_small by lia; lia).
  rewrite Hi. case_decide as Hd; [by auto|].
  unfold slen in *. rewrite Nat2Z.id, string_length_app, str_drop_length.
  split; [lia|]. left. split; [done|]. split; [lia|].
  rewrite str_take_app, str_drop_app. done.
Qed.

End api.
