(* ===== verification/HexDump.v ===== *)
(** * The hex dump of the inspector ([inspector/hexutils.h])

    Sixteen bytes per row: offset, hex column, printable characters. *)

From S2P Require Import Prelude CppString Uuid.

(** ** Formatting *)

(** [std::hex << std::setfill('0') << std::setw(w) << z]: at least [w] digits. *)
Fixpoint hex_digits (fuel : nat) (z : Z) : string :=
  if decide (z < 16)%Z then String (hex_char z) ""
  else match fuel with
       | O => ""
       | S fuel => hex_digits fuel (z / 16)%Z +:+ String (hex_char (z mod 16)%Z) ""
       end.

Fixpoint pad_left (n : nat) (s : string) : string :=
  match n with O => s | S n => String "0" (pad_left n s) end.

(** 64-bit values have at most 16 digits. *)
Definition setw_hex (w : nat) (z : Z) : string :=
  let d := hex_digits 16 z in pad_left (w - String.length d) d.

(** Column 2, one entry: two digits and a blank, or blanks past the end, and
    the gap after the eighth. *)
Definition hex_cell (data : list ascii) (i j : nat) : string :=
  match data !! (i + j) with
  | Some c => setw_hex 2 (Z.of_N (N_of_ascii c)) +:+ " "
  | None => "   "
  end +:+ (if decide (j = 7) then " " else "").

(** Column 3, one entry; [c] is a signed [char], so bytes from 128 on are not
    printable. *)
Definition ascii_cell (data : list ascii) (i j : nat) : string :=
  match data !! (i + j) with
  | Some c => let n := N_of_ascii c in
              if decide (32 <= n /\ n <= 126)%N then String c "" else "."
  | None => ""
  end.

Definition concat_map (f : nat -> string) (l : list nat) : string :=
  foldr (fun j acc => f j +:+ acc) "" l.

Definition hex_column (data : list ascii) (i : nat) : string :=
  concat_map (hex_cell data i) (seq 0 16).

Definition dump_row (data : list ascii) (i : nat) : string :=
  setw_hex 4 (Z.of_nat i) +:+ "  " +:+ hex_column data i +:+ "  |" +:+
  concat_map (ascii_cell data i) (seq 0 16) +:+ "|" +:+ String (ascii_of_N 10) "".

(** [for (i = 0; i < size; i += 16)]: the rows start at the multiples of 16. *)
Definition row_starts (size : nat) : list nat := (fun k => 16 * k) <$> seq 0 ((size + 15) / 16).

Definition generateHexDump (rawData : string) : string :=
  let data := String.list_ascii_of_string rawData in
  concat_map (dump_row data) (row_starts (length data)).

(** ** Lemmas *)

Lemma hex_two n :
  (n < 256)%N -> String.length (setw_hex 2 (Z.of_N n)) = 2 /\
  setw_hex 2 (Z.of_N n) = String (hex_char (Z.of_N n / 16)) (String (hex_char (Z.of_N n mod 16)) "").
Proof.
  intros Hn.
  assert (K : forallb (fun k => let z := Z.of_nat k in
    bool_decide (setw_hex 2 z = String (hex_char (z / 16)) (String (hex_char (z mod 16)) "")))
    (seq 0 256) = true) by (by vm_compute).
  rewrite forallb_forall in K. specialize (K (N.to_nat n)). rewrite bool_decide_eq_true in K.
  replace (Z.of_nat (N.to_nat n)) with (Z.of_N n) in K by lia.
  rewrite K; [done|]. apply in_seq. lia.
Qed.

Lemma concat_map_app f l1 l2 : concat_map f (l1 ++ l2) = concat_map f l1 +:+ concat_map f l2.
Proof.
  induction l1 as [|x l1 IH]; [done|]. change (concat_map f ((x :: l1) ++ l2))
    with (f x +:+ concat_map f (l1 ++ l2)). by rewrite IH, <-string_app_assoc.
Qed.

Lemma ascii_byte c : (N_of_ascii c < 256)%N.
Proof. apply N_ascii_bounded. Qed.

(** Every entry of column 2 is three characters wide, the gap one more. *)
Lemma hex_cell_length data i j :
  String.length (hex_cell data i j) = if decide (j = 7) then 4 else 3.
Proof.
  unfold hex_cell. rewrite string_length_app. destruct (data !! (i + j)) as [c|].
  - rewrite string_length_app. destruct (hex_two (N_of_ascii c) (ascii_byte c)) as [-> _].
    by case_decide.
  - by case_decide.
Qed.

(** The width of the cells before column [j]. *)
Definition cell_offset (j : nat) : nat := 3 * j + (if decide (7 < j) then 1 else 0).

Lemma hex_prefix_length data i j :
  j <= 16 -> String.length (concat_map (hex_cell data i) (seq 0 j)) = cell_offset j.
Proof.
  induction j as [|j IH]; intros Hj; [done|]. rewrite seq_S, concat_map_app, string_length_app, IH by lia.
  cbn [concat_map foldr plus]. rewrite string_length_app, hex_cell_length. cbn [String.length].
  unfold cell_offset. repeat case_decide; lia.
Qed.

Lemma hex_column_split data i j :
  j < 16 -> hex_column data i =
  concat_map (hex_cell data i) (seq 0 j) +:+ hex_cell data i j +:+
  concat_map (hex_cell data i) (seq (S j) (15 - j)).
Proof.
  intros Hj. unfold hex_column. replace 16 with (j + (1 + (15 - j))) by lia.
  rewrite seq_app, concat_map_app. f_equal.
Qed.

(** ** Theorems *)

(** The hex column can be read back: in the row of byte [k], the two
    characters at the fixed position of its column are the two hex digits of
    that byte, and the column is always 49 characters wide, so the dump shows
    every byte of the payload exactly once and the last, shorter row stays
    aligned. *)
Theorem hexdump_columns rawData k c :
  String.list_ascii_of_string rawData !! k = Some c ->
  let data := String.list_ascii_of_string rawData in
  let column := hex_column data (16 * (k / 16)) in
  16 * (k / 16) ∈ row_starts (length data) /\
  String.length column = 49 /\
  str_substr column (cell_offset (k mod 16)) 2 =
    String (hex_char (Z.of_N (N_of_ascii c) / 16))
      (String (hex_char (Z.of_N (N_of_ascii c) mod 16)) "").
Proof.
  intros Hk data column. pose proof (lookup_lt_Some _ _ _ Hk) as Hlt.
  pose proof (Nat.div_mod_eq k 16) as Hdm. pose proof (Nat.mod_upper_bound k 16 ltac:(lia)).
  split_and!.
  - unfold row_starts. apply list_elem_of_fmap. exists (k / 16). split; [done|].
    apply elem_of_seq. split; [lia|]. fold data in Hlt. apply Nat.div_lt_upper_bound; [lia|].
    pose proof (Nat.div_mod_eq (length data + 15) 16).
    pose proof (Nat.mod_upper_bound (length data + 15) 16 ltac:(lia)). lia.
  - unfold column, hex_column. by rewrite (hex_prefix_length _ _ 16) by lia.
  - unfold column, str_substr. rewrite (hex_column_split _ _ (k mod 16)) by lia.
    rewrite <-(hex_prefix_length data (16 * (k / 16)) (k mod 16)) by lia. rewrite str_drop_app.
    unfold hex_cell at 1. replace (16 * (k / 16) + k mod 16) with k by lia. unfold data. rewrite Hk.
    destruct (hex_two (N_of_ascii c) (ascii_byte c)) as [_ ->].
    rewrite !string_app_cons. done.
Qed.

Lemma hexdump_columns_witness :
  String.length (hex_column (String.list_ascii_of_string "hello") 0) = 49 /\
  str_substr (hex_column (String.list_ascii_of_string "hello") 0) 3 2 = "65".
Proof.
  destruct (hexdump_columns "hello" 1 "e"%char eq_refl) as (_ & K1 & K2). split; [exact K1|exact K2].
Defined.
