(* ===== verification/Multipart.v ===== *)
(** * Multipart messages ([zmq_addon.hpp])

    The helper header of the ZeroMQ binding kept in the repository: the
    encoding of a multipart message into one frame ([encode], [decode]), sending
    and receiving of whole messages, and the class [multipart_t].  Frames are
    byte strings; the byte order of the machine is the argument [little] of the
    definitions that depend on it.  Running out of memory is not modelled. *)

From S2P Require Import Prelude CppString MessageHeader Wire HexDump.
#[local] Open Scope Z_scope.

(** The exceptions of the header, as error numbers of the effect monad. *)
Definition RANGE_ERROR : Z := -1.     (** [std::range_error] *)
Definition OUT_OF_RANGE : Z := -2.    (** [std::out_of_range] *)
Definition RUNTIME_ERROR : Z := -3.   (** [std::runtime_error] *)

(** ** Network byte order *)

(** The [w] bytes an unsigned integer occupies in memory. *)
Definition le_bytes (w : nat) (v : Z) : list ascii :=
  (fun i => byte_char (Z.land (Z.shiftr v (8 * Z.of_nat i)) 255)) <$> seq 0 w.

Definition host_bytes (little : bool) (w : nat) (v : Z) : list ascii :=
  if little then le_bytes w v else reverse (le_bytes w v).

Definition le_value (l : list ascii) : Z := foldr (fun c acc => char_byte c + 256 * acc) 0 l.

Definition host_value (little : bool) (l : list ascii) : Z :=
  le_value (if little then l else reverse l).

(** Integers in memory: their size, and back. *)
Lemma le_bytes_S w v : le_bytes (S w) v = byte_char (Z.land v 255) :: le_bytes w (Z.shiftr v 8).
Proof.
  unfold le_bytes. cbn [seq fmap list_fmap]. f_equal. rewrite <-fmap_S_seq, <-list_fmap_compose.
  apply list_fmap_ext. intros _ i _. cbn. do 2 f_equal. rewrite Z.shiftr_shiftr by lia. f_equal. lia.
Qed.

Lemma le_value_bytes w v : le_value (le_bytes w v) = v mod 256 ^ Z.of_nat w.
Proof.
  revert v. induction w as [|w IH]; intros v; [by rewrite Z.mod_1_r|].
  rewrite le_bytes_S. cbn [le_value foldr]. fold (le_value (le_bytes w (Z.shiftr v 8))). rewrite IH.
  change 255 with (Z.ones 8). rewrite Z.land_ones, Z.shiftr_div_pow2 by lia. change (2 ^ 8) with 256.
  assert (Hb : char_byte (byte_char (v mod 256)) = v mod 256).
  { unfold char_byte, byte_char. pose proof (Z.mod_pos_bound v 256). rewrite N_ascii_embedding by lia. lia. }
  rewrite Hb, Nat2Z.inj_succ, Z.pow_succ_r by lia. rewrite Z.rem_mul_r by lia. done.
Qed.

Lemma le_bytes_length w v : length (le_bytes w v) = w.
Proof. unfold le_bytes. by rewrite length_fmap, length_seq. Qed.

Lemma host_bytes_length little w v : length (host_bytes little w v) = w.
Proof. unfold host_bytes. destruct little; rewrite ?length_reverse; apply le_bytes_length. Qed.

Lemma host_value_bytes little w v : host_value little (host_bytes little w v) = v mod 256 ^ Z.of_nat w.
Proof. unfold host_value, host_bytes. destruct little; rewrite ?reverse_involutive; apply le_value_bytes. Qed.

(** The first byte of a [uint16_t] that holds 1. *)
Definition is_little_endian (little : bool) : bool :=
  match host_bytes little 2 1 with
  | c :: _ => char_byte c =? 1
  | [] => false
  end.

Definition write_network_order (little : bool) (value : Z) : list ascii :=
  if is_little_endian little then
    [byte_char (Z.land (Z.shiftr value 24) 255); byte_char (Z.land (Z.shiftr value 16) 255);
     byte_char (Z.land (Z.shiftr value 8) 255); byte_char (Z.land value 255)]
  else host_bytes little 4 value.

Definition u32 (z : Z) : Z := z mod 2 ^ 32.

(** [buf] holds at least four bytes. *)
Definition read_u32_network_order (little : bool) (buf : list ascii) : Z :=
  match buf with
  | b0 :: b1 :: b2 :: b3 :: _ =>
      if is_little_endian little then
        u32 (u32 (u32 (u32 (Z.shiftl (char_byte b0) 24) + u32 (Z.shiftl (char_byte b1) 16)) +
                  u32 (Z.shiftl (char_byte b2) 8)) + char_byte b3)
      else host_value little [b0; b1; b2; b3]
  | _ => 0
  end.

(** ** [encode] *)

Definition UINT8_MAX : Z := 255.
Definition UINT32_MAX : Z := 4294967295.

#[local] Notation bytes := (list ascii) (only parsing).

(** The first pass: the size of the message, [None] for a part that is too
    large. *)
Definition count_size (part_size : Z) : Z := if part_size <? UINT8_MAX then 1 else 5.

Fixpoint encoded_size (acc : Z) (parts : list bytes) : option Z :=
  match parts with
  | [] => Some acc
  | part :: parts =>
      if UINT32_MAX <? zlen part then None
      else encoded_size (u64 (acc + u64 (zlen part + count_size (zlen part)))) parts
  end.

(** The second pass. *)
Definition encode_part (little : bool) (part : bytes) : bytes :=
  let part_size := u32 (zlen part) in
  (if part_size <? UINT8_MAX then [byte_char part_size]
   else byte_char UINT8_MAX :: write_network_order little part_size) ++ part.

Definition encode_parts (little : bool) (parts : list bytes) : bytes :=
  concat (encode_part little <$> parts).

Definition encode (little : bool) (parts : list bytes) : res bytes :=
  match encoded_size 0 parts with
  | None => Throw RANGE_ERROR
  | Some _ => Ok (encode_parts little parts)
  end.

(** ** [decode] *)

(** The size in front of a part: the size and what follows it. *)
Definition decode_size (little : bool) (first : ascii) (rest : bytes) : option (Z * bytes) :=
  let part_size := char_byte first in
  if part_size =? UINT8_MAX then
    if zlen rest <? 4 then None
    else Some (read_u32_network_order little rest, drop 4 rest)
  else Some (part_size, rest).

(** The parts written through the output iterator, and the exception that ended
    the loop, if any. *)
Fixpoint decode_loop (little : bool) (fuel : nat) (source : bytes) : list bytes * option Z :=
  match fuel, source with
  | O, _ | _, [] => ([], None)
  | S fuel, c :: rest =>
      match decode_size little c rest with
      | None => ([], Some OUT_OF_RANGE)
      | Some (part_size, rest) =>
          if zlen rest <? part_size then ([], Some OUT_OF_RANGE)
          else
            let n := Z.to_nat part_size in
            let '(parts, exn) := decode_loop little fuel (drop n rest) in
            (take n rest :: parts, exn)
      end
  end.

(** Each round takes at least one byte. *)
Definition decode (little : bool) (encoded : bytes) : list bytes * option Z :=
  decode_loop little (length encoded) encoded.

(** ** The format

    What [encode] writes and [decode] reads, as a grammar: each part is preceded
    by its size, one byte below 255, or 255 and four bytes, most significant
    first. *)

Definition be32 (v : Z) : bytes := reverse (le_bytes 4 v).

Inductive framed : bytes -> list bytes -> Prop :=
  | framed_nil : framed [] []
  | framed_small p s ps :
      zlen p < UINT8_MAX -> framed s ps -> framed (byte_char (zlen p) :: p ++ s) (p :: ps)
  | framed_large p s ps :
      zlen p <= UINT32_MAX -> framed s ps ->
      framed (byte_char UINT8_MAX :: be32 (zlen p) ++ p ++ s) (p :: ps).

(** ** Lemmas *)

Lemma char_byte_range c : 0 <= char_byte c < 256.
Proof. unfold char_byte. pose proof (N_ascii_bounded c). lia. Qed.

Lemma byte_char_byte c : byte_char (char_byte c) = c.
Proof. unfold byte_char, char_byte. rewrite N2Z.id. apply ascii_N_embedding. Qed.

Lemma char_byte_char z : 0 <= z < 256 -> char_byte (byte_char z) = z.
Proof. intros Hz. unfold char_byte, byte_char. rewrite N_ascii_embedding; lia. Qed.

Lemma is_little_endian_eq little : is_little_endian little = little.
Proof. by destruct little. Qed.

(** On either kind of machine the size is written most significant byte first. *)
Lemma write_network_order_eq little v : write_network_order little v = be32 v.
Proof.
  unfold write_network_order, be32, host_bytes. rewrite is_little_endian_eq.
  destruct little; [|done]. unfold le_bytes. simpl. by rewrite Z.shiftr_0_r.
Qed.

Lemma land_255 z : Z.land z 255 = z mod 256.
Proof. apply (Z.land_ones z 8). lia. Qed.

Lemma be32_eq v : be32 v = [byte_char (v / 2 ^ 24 mod 256); byte_char (v / 2 ^ 16 mod 256);
  byte_char (v / 2 ^ 8 mod 256); byte_char (v mod 256)].
Proof.
  unfold be32, le_bytes. simpl. rewrite !land_255, Z.shiftr_0_r, !Z.shiftr_div_pow2 by lia. done.
Qed.

Lemma be32_length v : length (be32 v) = 4%nat.
Proof. by rewrite be32_eq. Qed.

(** The value of four bytes read in network order. *)
Lemma read_u32_eq little b0 b1 b2 b3 rest :
  read_u32_network_order little (b0 :: b1 :: b2 :: b3 :: rest) =
  char_byte b0 * 2 ^ 24 + char_byte b1 * 2 ^ 16 + char_byte b2 * 2 ^ 8 + char_byte b3.
Proof.
  pose proof (char_byte_range b0). pose proof (char_byte_range b1).
  pose proof (char_byte_range b2). pose proof (char_byte_range b3).
  unfold read_u32_network_order. rewrite is_little_endian_eq. destruct little.
  - rewrite !Z.shiftl_mul_pow2 by lia. unfold u32.
    rewrite (Z.mod_small (char_byte b0 * _)), (Z.mod_small (char_byte b1 * _)),
      (Z.mod_small (char_byte b2 * _)) by lia.
    rewrite (Z.mod_small (char_byte b0 * _ + _)) by lia. rewrite (Z.mod_small (_ + char_byte b2 * _)) by lia.
    by rewrite Z.mod_small by lia.
  - unfold host_value, le_value. simpl. lia.
Qed.

Lemma read_u32_range little b0 b1 b2 b3 rest :
  0 <= read_u32_network_order little (b0 :: b1 :: b2 :: b3 :: rest) <= UINT32_MAX.
Proof.
  rewrite read_u32_eq. unfold UINT32_MAX. pose proof (char_byte_range b0).
  pose proof (char_byte_range b1). pose proof (char_byte_range b2). pose proof (char_byte_range b3). lia.
Qed.

Lemma read_u32_be32 little v rest :
  0 <= v <= UINT32_MAX -> read_u32_network_order little (be32 v ++ rest) = v.
Proof.
  unfold UINT32_MAX. intros Hv. rewrite be32_eq. simpl app. rewrite read_u32_eq.
  rewrite !char_byte_char by (apply Z.mod_pos_bound; lia).
  rewrite (Z.mod_small (v / 2 ^ 24)) by (split; [apply Z.div_pos|apply Z.div_lt_upper_bound]; lia).
  replace (v / 2 ^ 24) with (v / 2 ^ 16 / 256) by (by rewrite Z.div_div by lia).
  replace (v / 2 ^ 16) with (v / 2 ^ 8 / 256) by (by rewrite Z.div_div by lia).
  change (2 ^ 8) with 256. pose proof (Z.div_mod v 256 ltac:(lia)).
  pose proof (Z.div_mod (v / 256) 256 ltac:(lia)).
  pose proof (Z.div_mod (v / 256 / 256) 256 ltac:(lia)). lia.
Qed.

Lemma be32_read_u32 little b0 b1 b2 b3 rest :
  be32 (read_u32_network_order little (b0 :: b1 :: b2 :: b3 :: rest)) = [b0; b1; b2; b3].
Proof.
  rewrite read_u32_eq, be32_eq.
  pose proof (char_byte_range b0). pose proof (char_byte_range b1).
  pose proof (char_byte_range b2). pose proof (char_byte_range b3).
  set (v := _ + char_byte b3).
  assert (E0 : v / 2 ^ 24 mod 256 = char_byte b0).
  { rewrite (Z.mod_small (v / 2 ^ 24)) by (split; [apply Z.div_pos|apply Z.div_lt_upper_bound]; lia).
    symmetry. apply (Z.div_unique _ _ _ (char_byte b1 * 2 ^ 16 + char_byte b2 * 2 ^ 8 + char_byte b3)); lia. }
  assert (E1 : v / 2 ^ 16 = char_byte b0 * 256 + char_byte b1).
  { symmetry. apply (Z.div_unique _ _ _ (char_byte b2 * 2 ^ 8 + char_byte b3)); lia. }
  assert (E2 : v / 2 ^ 8 = (char_byte b0 * 256 + char_byte b1) * 256 + char_byte b2).
  { symmetry. apply (Z.div_unique _ _ _ (char_byte b3)); lia. }
  assert (E3 : v = ((char_byte b0 * 256 + char_byte b1) * 256 + char_byte b2) * 256 + char_byte b3) by lia.
  assert (K : forall a c, 0 <= c < 256 -> (a * 256 + c) mod 256 = c).
  { intros a c Hc. rewrite Z.add_comm, Z.mod_add by lia. by apply Z.mod_small. }
  rewrite E0, E1, E2, E3, !K by done. by rewrite !byte_char_byte.
Qed.

(** Reading a part: [decode_size] then the bytes. *)
Lemma decode_size_small little (p rest : bytes) :
  zlen p < UINT8_MAX -> decode_size little (byte_char (zlen p)) rest = Some (zlen p, rest).
Proof.
  unfold UINT8_MAX. intros Hp. pose proof (zlen_nonneg p). unfold decode_size, UINT8_MAX.
  rewrite char_byte_char by lia. by rewrite (proj2 (Z.eqb_neq _ _)) by lia.
Qed.

Lemma decode_size_large little v rest :
  0 <= v <= UINT32_MAX -> decode_size little (byte_char UINT8_MAX) (be32 v ++ rest) = Some (v, rest).
Proof.
  intros Hv. unfold decode_size. rewrite char_byte_char by (unfold UINT8_MAX; lia). rewrite Z.eqb_refl.
  rewrite (proj2 (Z.ltb_ge _ _)).
  2: { unfold zlen. rewrite length_app, be32_length. lia. }
  by rewrite read_u32_be32, <-(be32_length v), drop_app_length by done.
Qed.

Lemma decode_loop_part little fuel c rest p s :
  decode_size little c rest = Some (zlen p, p ++ s) ->
  decode_loop little (S fuel) (c :: rest) =
    let '(parts, exn) := decode_loop little fuel s in (p :: parts, exn).
Proof.
  intros E. cbn [decode_loop]. rewrite E. rewrite (proj2 (Z.ltb_ge _ _)).
  2: { rewrite zlen_app. pose proof (zlen_nonneg s). lia. }
  unfold zlen. rewrite Nat2Z.id. by rewrite take_app_length, drop_app_length.
Qed.

(** Enough fuel for the grammar. *)
Lemma decode_loop_framed little s ps fuel :
  framed s ps -> (length s <= fuel)%nat -> decode_loop little fuel s = (ps, None).
Proof.
  intros Hf. revert fuel. induction Hf as [|p s ps Hp Hf IH|p s ps Hp Hf IH]; intros fuel Hl.
  - by destruct fuel.
  - simpl in Hl. rewrite length_app in Hl. destruct fuel as [|fuel]; [lia|].
    rewrite (decode_loop_part _ _ _ _ p s) by (by apply decode_size_small).
    by rewrite IH by lia.
  - cbn [length] in Hl. rewrite length_app, be32_length, length_app in Hl. destruct fuel as [|fuel]; [lia|].
    rewrite (decode_loop_part _ _ _ _ p s).
    + by rewrite IH by lia.
    + apply decode_size_large. split; [apply zlen_nonneg|done].
Qed.

Lemma decode_size_framed little c rest p s ps :
  decode_size little c rest = Some (zlen p, p ++ s) -> framed s ps -> framed (c :: rest) (p :: ps).
Proof.
  unfold decode_size. destruct (char_byte c =? UINT8_MAX) eqn:E.
  - apply Z.eqb_eq in E. destruct (zlen rest <? 4) eqn:El; [done|]. apply Z.ltb_ge in El.
    destruct rest as [|b0 [|b1 [|b2 [|b3 rest]]]]; try (by unfold zlen in El; simpl in El; lia).
    intros [Ev Er]%(inj Some)%pair_equal_spec Hf. rewrite <-(byte_char_byte c), E.
    replace (b0 :: b1 :: b2 :: b3 :: rest) with (be32 (zlen p) ++ p ++ s).
    + apply framed_large; [|done]. rewrite <-Ev. apply (proj2 (read_u32_range _ _ _ _ _ _)).
    + by rewrite <-Ev, be32_read_u32, <-Er.
  - apply Z.eqb_neq in E. intros [= Ev ->] Hf. rewrite <-(byte_char_byte c), Ev.
    apply framed_small; [|done]. pose proof (char_byte_range c). unfold UINT8_MAX in *. lia.
Qed.

Lemma decode_size_range little c rest n rest' :
  decode_size little c rest = Some (n, rest') -> 0 <= n /\ (length rest' <= length rest)%nat.
Proof.
  unfold decode_size. pose proof (char_byte_range c). destruct (char_byte c =? UINT8_MAX).
  - destruct (zlen rest <? 4) eqn:El; [done|]. apply Z.ltb_ge in El.
    destruct rest as [|b0 [|b1 [|b2 [|b3 rest]]]]; try (by unfold zlen in El; simpl in El; lia).
    intros [<- <-]%(inj Some)%pair_equal_spec.
    split; [apply (proj1 (read_u32_range _ _ _ _ _ _))|rewrite length_drop; lia].
  - intros [= <- <-]. lia.
Qed.

Lemma decode_loop_sound little fuel s ps :
  (length s <= fuel)%nat -> decode_loop little fuel s = (ps, None) -> framed s ps.
Proof.
  revert s ps. induction fuel as [|fuel IH]; intros [|c rest] ps Hl E; simpl in Hl;
    try (injection E as <-; constructor); [lia|].
  cbn [decode_loop] in E. destruct (decode_size little c rest) as [[n rest']|] eqn:Ed; [|done].
  destruct (zlen rest' <? n) eqn:En; [done|]. apply Z.ltb_ge in En.
  destruct (decode_size_range _ _ _ _ _ Ed) as [Hn Hlen].
  destruct (decode_loop little fuel (drop (Z.to_nat n) rest')) as [parts exn] eqn:Eq.
  injection E as <- ->. unfold zlen in En.
  assert (Hz : zlen (take (Z.to_nat n) rest') = n) by (unfold zlen; rewrite length_take; lia).
  apply (decode_size_framed little c rest _ (drop (Z.to_nat n) rest')).
  - by rewrite Ed, Hz, take_drop.
  - apply IH; [rewrite length_drop; lia|exact Eq].
Qed.

Lemma decode_framed little s ps : decode little s = (ps, None) <-> framed s ps.
Proof. split; [by apply decode_loop_sound|intros Hf; by apply decode_loop_framed]. Qed.

(** *** Encoding *)

Definition part_ok (part : bytes) : Prop := zlen part <= UINT32_MAX.

Lemma encode_part_framed little p s ps :
  part_ok p -> framed s ps -> framed (encode_part little p ++ s) (p :: ps).
Proof.
  unfold part_ok, encode_part, UINT32_MAX. intros Hp Hf. pose proof (zlen_nonneg p).
  unfold u32. rewrite Z.mod_small by lia. destruct (zlen p <? UINT8_MAX) eqn:E.
  - apply Z.ltb_lt in E. by apply framed_small.
  - rewrite write_network_order_eq, <-app_assoc. simpl. by apply framed_large.
Qed.

Lemma encode_parts_cons little p ps :
  encode_parts little (p :: ps) = encode_part little p ++ encode_parts little ps.
Proof. done. Qed.

Lemma encode_parts_framed little ps : Forall part_ok ps -> framed (encode_parts little ps) ps.
Proof.
  induction 1 as [|p ps Hp _ IH]; [constructor|]. rewrite encode_parts_cons.
  by apply encode_part_framed.
Qed.

Definition part_bytes (part : bytes) : Z := zlen part + count_size (zlen part).
Definition total_bytes (parts : list bytes) : Z := foldr (fun p acc => part_bytes p + acc) 0 parts.

Lemma total_bytes_nonneg ps : 0 <= total_bytes ps.
Proof.
  induction ps as [|p ps IH]; simpl; [done|]. unfold part_bytes, count_size.
  pose proof (zlen_nonneg p). destruct (_ <? _); lia.
Qed.

Lemma encode_part_length little p : part_ok p -> zlen (encode_part little p) = part_bytes p.
Proof.
  unfold part_ok, part_bytes, encode_part, count_size, UINT32_MAX. intros Hp.
  pose proof (zlen_nonneg p). unfold u32. rewrite Z.mod_small by lia. rewrite zlen_app.
  destruct (zlen p <? UINT8_MAX); [unfold zlen; simpl; lia|].
  rewrite write_network_order_eq. unfold zlen. cbn [length]. rewrite be32_length. lia.
Qed.

Lemma encode_parts_length little ps :
  Forall part_ok ps -> zlen (encode_parts little ps) = total_bytes ps.
Proof.
  induction 1 as [|p ps Hp _ IH]; [done|]. rewrite encode_parts_cons.
  by rewrite zlen_app, IH, encode_part_length.
Qed.

Lemma encoded_size_total acc ps :
  0 <= acc -> acc + total_bytes ps < 2 ^ 64 ->
  encoded_size acc ps = if forallb (fun p => zlen p <=? UINT32_MAX) ps then Some (acc + total_bytes ps) else None.
Proof.
  revert acc. induction ps as [|p ps IH]; intros acc Ha Ht; simpl in *; [by rewrite Z.add_0_r|].
  rewrite Z.ltb_antisym. destruct (zlen p <=? UINT32_MAX); simpl; [|done].
  pose proof (total_bytes_nonneg ps). pose proof (zlen_nonneg p).
  assert (0 <= part_bytes p) by (unfold part_bytes, count_size; destruct (_ <? _); lia).
  fold (part_bytes p). unfold u64. rewrite (Z.mod_small (part_bytes p)) by lia.
  rewrite Z.mod_small by lia. rewrite IH by lia. by rewrite Z.add_assoc.
Qed.

(** ** Theorems on the codec *)

(** C40. Encoding a multipart message into one frame loses nothing: unless a part
    does not fit 32 bits (then [encode] throws and only then), the buffer that
    is allocated in the first pass is filled exactly by the second, and
    decoding it, on a machine of either byte order, gives back the parts. *)
Theorem multipart_roundtrip little little' (parts : list (list ascii)) :
  total_bytes parts < 2 ^ 64 ->
  (Forall (fun p => zlen p <= 4294967295) parts /\
   exists b, encode little parts = Ok b /\ encoded_size 0 parts = Some (zlen b) /\
     decode little' b = (parts, None)) \/
  (~ Forall (fun p => zlen p <= 4294967295) parts /\ encode little parts = Throw RANGE_ERROR).
Proof.
  intros Ht. unfold encode. rewrite encoded_size_total by lia.
  destruct (forallb _ parts) eqn:E.
  - left. assert (Hok : Forall part_ok parts).
    { apply Forall_forall. intros p Hp. rewrite forallb_forall in E. apply list_elem_of_In in Hp.
      by apply E, Z.leb_le in Hp. }
    split; [done|]. exists (encode_parts little parts). split_and!; [done| |].
    + by rewrite encode_parts_length.
    + apply decode_framed. by apply encode_parts_framed.
  - right. split; [|done]. intros Hf. apply not_true_iff_false in E. apply E, forallb_forall.
    intros p Hp%list_elem_of_In. rewrite Forall_forall in Hf. by apply Z.leb_le, Hf.
Qed.

(** [decode] accepts exactly the format: it returns without exception
    precisely on the byte strings of the grammar, with the parts the grammar
    gives them, whatever the byte order of the machine. *)
Theorem multipart_decode_exact little (encoded : list ascii) parts :
  decode little encoded = (parts, None) <-> framed encoded parts.
Proof. apply decode_framed. Qed.
