(* ===== verification/MultipartClass.v ===== *)
(** * The class [multipart_t] and whole-message input and output ([zmq_addon.hpp])

    A [message_t] is its bytes and the flag [more()].  Access to an element that
    does not exist is undefined in C++; the operations that can do it return an
    [option], [None] for such a call. *)

From S2P Require Import Prelude CppString MessageHeader Wire HexDump Multipart.

(** ** Message parts *)

Record message_t := mkMsg {
  msg_data : string;
  msg_more : bool
}.

(** [message_t(data, size)]. *)
Definition message_of (data : string) : message_t := mkMsg data false.

Definition msg_size (m : message_t) : Z := slen (msg_data m).

(** [operator==]: the sizes, then [memcmp]. *)
Definition msg_eq (a b : message_t) : bool :=
  (msg_size a =? msg_size b)%Z && bool_decide (msg_data a = msg_data b).

(** ** The container *)

Record multipart_t := mkMultipart { m_parts : list message_t }.

Implicit Types m other : multipart_t.

Definition multipart_new : multipart_t := mkMultipart [].
Definition clear m : multipart_t := mkMultipart [].
Definition msize m : Z := zlen (m_parts m).
Definition mempty m : bool := bool_decide (m_parts m = []).

Definition mpush (p : message_t) m : multipart_t := mkMultipart (p :: m_parts m).
Definition madd (p : message_t) m : multipart_t := mkMultipart (m_parts m ++ [p]).

Definition pushmem (src : string) m : multipart_t := mpush (message_of src) m.
Definition addmem (src : string) m : multipart_t := madd (message_of src) m.
Definition pushstr (s : string) m : multipart_t := mpush (message_of s) m.
Definition addstr (s : string) m : multipart_t := madd (message_of s) m.

(** A fixed-size type: its size and its bytes in memory. *)
Record fixed_type (T : Type) := mkType {
  ft_sizeof : Z;
  ft_bytes : T -> string;
  ft_load : string -> T
}.
Arguments mkType {T} _ _ _.
Arguments ft_sizeof {T} _.
Arguments ft_bytes {T} _ _.
Arguments ft_load {T} _ _.

Definition pushtyp {T} (t : fixed_type T) (v : T) m : multipart_t := mpush (message_of (ft_bytes t v)) m.
Definition addtyp {T} (t : fixed_type T) (v : T) m : multipart_t := madd (message_of (ft_bytes t v)) m.

Definition mpop m : option (message_t * multipart_t) :=
  match m_parts m with
  | [] => None
  | p :: ps => Some (p, mkMultipart ps)
  end.

Definition mremove m : option (message_t * multipart_t) :=
  match last (m_parts m) with
  | None => None
  | Some p => Some (p, mkMultipart (pop_back (m_parts m)))
  end.

Definition popstr m : option (string * multipart_t) :=
  '(p, m) ← mpop m; Some (msg_data p, m).

(** The size is checked before the part is removed. *)
Definition poptyp {T} (t : fixed_type T) : M multipart_t (option T) := fun m =>
  match m_parts m with
  | [] => (m, Ok None)
  | p :: ps =>
      if decide (ft_sizeof t <> msg_size p) then (m, Throw RUNTIME_ERROR)
      else (mkMultipart ps, Ok (Some (ft_load t (msg_data p))))
  end.

Definition peek (index : nat) m : option message_t := m_parts m !! index.
Definition peekstr (index : nat) m : option string := msg_data <$> m_parts m !! index.

Definition peektyp {T} (t : fixed_type T) (index : nat) m : option (res T) :=
  (fun p => if decide (ft_sizeof t <> msg_size p) then Throw RUNTIME_ERROR
            else Ok (ft_load t (msg_data p))) <$> m_parts m !! index.

Definition create {T} (t : fixed_type T) (v : T) : multipart_t := addtyp t v multipart_new.

(** [while (!other.empty()) add(other.pop())]: the two objects afterwards. *)
Fixpoint append_loop (parts : list message_t) m : multipart_t :=
  match parts with
  | [] => m
  | p :: parts => append_loop parts (madd p m)
  end.

Definition append other m : multipart_t * multipart_t :=
  (append_loop (m_parts other) m, clear other).

(** [while (!other.empty()) push(other.remove())], once per part. *)
Fixpoint prepend_loop (fuel : nat) other m : multipart_t * multipart_t :=
  match fuel, mremove other with
  | S fuel, Some (p, other) => prepend_loop fuel other (mpush p m)
  | _, _ => (m, other)
  end.

Definition prepend other m : multipart_t * multipart_t :=
  prepend_loop (length (m_parts other)) other m.

Definition clone m : multipart_t :=
  foldl (fun acc p => addmem (msg_data p) acc) multipart_new (m_parts m).

(** [operator==]: the sizes, then part by part. *)
Fixpoint parts_eq (a b : list message_t) : bool :=
  match a, b with
  | x :: a, y :: b => msg_eq x y && parts_eq a b
  | _, _ => true
  end.

Definition multipart_eq m other : bool :=
  (msize m =? msize other)%Z && parts_eq (m_parts m) (m_parts other).

(** ** [str] *)

Definition is_text (data : string) : bool :=
  forallb (fun c => let n := N_of_ascii c in negb ((n <? 32)%N || (127 <? n)%N))
    (String.list_ascii_of_string data).

(** [std::dec << std::setw(3) << std::setfill('0')]. *)
Definition setw_dec (w : nat) (z : Z) : string :=
  let d := to_string z in pad_left (w - String.length d) d.

Definition part_str (p : message_t) : string :=
  let data := msg_data p in
  String (ascii_of_N 10) "" +:+ "[" +:+ setw_dec 3 (msg_size p) +:+ "] " +:+
  (if decide (1000 <= msg_size p)%Z then "... (too big to print)"
   else if is_text data then data
   else foldr (fun c acc => setw_hex 2 (Z.of_N (N_of_ascii c)) +:+ acc) ""
          (String.list_ascii_of_string data)).

Definition multipart_str m : string := foldr (fun p acc => part_str p +:+ acc) "" (m_parts m).

(** ** The codec *)

Definition part_list (p : message_t) : list ascii := String.list_ascii_of_string (msg_data p).
Definition message_of_list (l : list ascii) : message_t := message_of (String.string_of_list_ascii l).

Definition mencode (little : bool) m : res message_t :=
  match encode little (part_list <$> m_parts m) with
  | Ok b => Ok (message_of_list b)
  | Throw e => Throw e
  end.

(** The parts decoded before an exception stay appended. *)
Definition decode_append (little : bool) (encoded : message_t) : M multipart_t unit := fun m =>
  let '(parts, exn) := decode little (part_list encoded) in
  (mkMultipart (m_parts m ++ (message_of_list <$> parts)),
   match exn with None => Ok tt | Some e => Throw e end).

Definition mdecode (little : bool) (encoded : message_t) : res multipart_t :=
  match decode_append little encoded multipart_new with
  | (m, Ok _) => Ok m
  | (_, Throw e) => Throw e
  end.

(** ** Sockets *)

Section sockets.
Context {S : Type} `{ZmqSocket S}.

(** [socket.recv(message)] and [message.more()]. *)
Definition recv_message (dontwait : bool) : M S (option message_t) :=
  f ← socket_recv dontwait;
  match f with
  | None => mret None
  | Some f => more ← socket_rcvmore; mret (Some (mkMsg f more))
  end.

Definition world : Type := multipart_t * S.
Definition throw {A} (e : Z) : M world A := fun w => (w, Throw e).
Definition in_socket {A} (e : M S A) : M world A := mlift snd (fun s w => (w.1, s)) e.
Definition in_parts (f : multipart_t -> multipart_t) : M world unit := mmodify (fun w => (f w.1, w.2)).

Fixpoint recv_loop (fuel : nat) (dontwait : bool) : M world bool :=
  match fuel with
  | O => mret true
  | Datatypes.S fuel =>
      p ← in_socket (recv_message dontwait);
      match p with
      | None => mret false
      | Some p =>
          _ ← in_parts (madd p);
          if msg_more p then recv_loop fuel dontwait else mret true
      end
  end.

(** The frames the loop can read: those left of the current message, or those
    of the next one. *)
Definition frames_ahead (s : S) : nat :=
  match zmq_current s with
  | [] => match zmq_pending s with fs :: _ => length fs | [] => 1 end
  | fs => length fs
  end.

Definition mrecv (dontwait : bool) : M world bool :=
  _ ← in_parts clear;
  w ← mget;
  recv_loop (frames_ahead w.2) dontwait.

(** Each round pops a part and sends it. *)
Fixpoint send_loop (fuel : nat) : M world bool :=
  match fuel with
  | O => _ ← in_parts clear; mret true
  | Datatypes.S fuel =>
      w ← mget;
      match mpop w.1 with
      | None => _ ← in_parts clear; mret true
      | Some (p, rest) =>
          _ ← in_parts (fun _ => rest);
          ok ← in_socket (socket_send (msg_data p) (negb (mempty rest)));
          match ok with true => send_loop fuel | false => mret false end
      end
  end.

Definition msend : M world bool := w ← mget; send_loop (length (m_parts w.1)).

(** [send_multipart]: the number of parts sent, nothing on EAGAIN. *)
Fixpoint send_multipart (msgs : list string) (sndmore : bool) (count : Z) : M S (option Z) :=
  match msgs with
  | [] => mret (Some count)
  | f :: rest =>
      ok ← socket_send f (sndmore || negb (bool_decide (rest = [])));
      match ok with true => send_multipart rest sndmore (count + 1)%Z | false => mret None end
  end.

(** [recv_multipart_n], [limit] is [n] when it is checked; the parts written
    through the iterator are the first component of the state. *)
Fixpoint recv_n_loop (fuel : nat) (limit : option Z) (dontwait : bool) (count : Z) :
    M world (option Z) :=
  match fuel with
  | O => mret (Some count)
  | Datatypes.S fuel =>
      if match limit with Some n => (n <=? count)%Z | None => false end
      then throw RUNTIME_ERROR
      else
        p ← in_socket (recv_message dontwait);
        match p with
        | None => mret None
        | Some p =>
            _ ← in_parts (madd p);
            if msg_more p then recv_n_loop fuel limit dontwait (count + 1)%Z
            else mret (Some (count + 1)%Z)
        end
  end.

Definition recv_multipart_n (limit : option Z) (dontwait : bool) : M world (option Z) :=
  w ← mget; recv_n_loop (frames_ahead w.2) limit dontwait 0.

Definition recv_multipart (dontwait : bool) : M world (option Z) := recv_multipart_n None dontwait.

(** ** Lemmas *)

Lemma recv_message_spec dontwait s f s1 :
  zmq_msg_recv s dontwait = (s1, inl f) ->
  recv_message dontwait s = (s1, Ok (Some (mkMsg f (negb (bool_decide (zmq_current s1 = [])))))).
Proof.
  intros E. unfold recv_message, mbind, M_bind, socket_recv, socket_rcvmore. rewrite E.
  destruct (decide (zmq_current s1 = [])) as [D|D].
  - rewrite rcvmore_false by done. by rewrite bool_decide_eq_true_2.
  - rewrite rcvmore_true by done. by rewrite bool_decide_eq_false_2.
Qed.

(** The parts of a message as they are received: all but the last are followed
    by more. *)
Fixpoint received (frames : list string) : list message_t :=
  match frames with
  | [] => []
  | f :: rest => mkMsg f (negb (bool_decide (rest = []))) :: received rest
  end.

Lemma received_data frames : msg_data <$> received frames = frames.
Proof. induction frames as [|f frames IH]; [done|]. cbn [received]. by rewrite fmap_cons, IH. Qed.

(** One frame of a message: what the two loops do with it. *)
Lemma read_frame dontwait s f rest :
  zmq_current s = f :: rest ->
  exists s1, zmq_current s1 = rest /\ zmq_pending s1 = zmq_pending s /\
    recv_message dontwait s = (s1, Ok (Some (mkMsg f (negb (bool_decide (rest = [])))))).
Proof.
  intros Ec. destruct (zmq_recv_more s dontwait f rest Ec) as (s1 & E & E1 & E2).
  exists s1. split_and!; [done|done|]. by rewrite (recv_message_spec _ _ _ _ E), E1.
Qed.

Lemma read_first dontwait s f rest ms :
  zmq_current s = [] -> zmq_pending s = (f :: rest) :: ms ->
  exists s1, zmq_current s1 = rest /\ zmq_pending s1 = ms /\
    recv_message dontwait s = (s1, Ok (Some (mkMsg f (negb (bool_decide (rest = [])))))).
Proof.
  intros Ec Ep. destruct (zmq_recv_next s dontwait f rest ms Ec Ep) as (s1 & E & E1 & E2).
  exists s1. split_and!; [done|done|]. by rewrite (recv_message_spec _ _ _ _ E), E1.
Qed.

Lemma recv_loop_step fuel dontwait m s s1 p :
  recv_message dontwait s = (s1, Ok (Some p)) ->
  recv_loop (Datatypes.S fuel) dontwait (m, s) =
    if msg_more p then recv_loop fuel dontwait (madd p m, s1) else ((madd p m, s1), Ok true).
Proof.
  intros E. cbn [recv_loop]. unfold mbind, M_bind, in_socket, mlift, in_parts, mmodify. cbn [fst snd].
  rewrite E. cbn [fst snd]. by destruct (msg_more p).
Qed.

Lemma madd_received m p rest :
  mkMultipart (m_parts (madd p m) ++ rest) = mkMultipart (m_parts m ++ p :: rest).
Proof. unfold madd; simpl. by rewrite <-app_assoc. Qed.

(** The loop inside a message. *)
Lemma recv_loop_current dontwait fuel m s :
  zmq_current s <> [] -> length (zmq_current s) <= fuel ->
  exists s', recv_loop fuel dontwait (m, s) =
    ((mkMultipart (m_parts m ++ received (zmq_current s)), s'), Ok true) /\
    zmq_current s' = [] /\ zmq_pending s' = zmq_pending s.
Proof.
  revert m s. induction fuel as [|fuel IH]; intros m s Hne Hl;
    destruct (zmq_current s) as [|f rest] eqn:Ec; simpl in Hl; try done; [lia|].
  destruct (read_frame dontwait s f rest Ec) as (s1 & E1 & E2 & E).
  rewrite (recv_loop_step _ _ _ _ _ _ E). cbn [msg_more received].
  destruct (bool_decide (rest = [])) eqn:B; simpl.
  - apply bool_decide_eq_true_1 in B as ->. exists s1. done.
  - apply bool_decide_eq_false_1 in B. destruct (IH (madd (mkMsg f true) m) s1) as (s' & K1 & K2 & K3).
    + by rewrite E1.
    + rewrite E1. lia.
    + exists s'. rewrite K1, E1. split_and!; [|done|congruence]. by rewrite madd_received.
Qed.

Lemma recv_loop_next dontwait m s frames ms fuel :
  zmq_current s = [] -> zmq_pending s = frames :: ms -> length frames <= fuel ->
  exists s', recv_loop fuel dontwait (m, s) = ((mkMultipart (m_parts m ++ received frames), s'), Ok true) /\
    zmq_current s' = [] /\ zmq_pending s' = ms.
Proof.
  intros Ec Ep Hl. destruct frames as [|f rest].
  { by destruct (zmq_pending_nonempty s); rewrite Ep; left. }
  destruct fuel as [|fuel]; simpl in Hl; [lia|].
  destruct (read_first dontwait s f rest ms Ec Ep) as (s1 & E1 & E2 & E).
  rewrite (recv_loop_step _ _ _ _ _ _ E). cbn [msg_more received].
  destruct (bool_decide (rest = [])) eqn:B; simpl.
  - apply bool_decide_eq_true_1 in B as ->. exists s1. done.
  - apply bool_decide_eq_false_1 in B.
    destruct (recv_loop_current dontwait fuel (madd (mkMsg f true) m) s1) as (s' & K1 & K2 & K3).
    + by rewrite E1.
    + rewrite E1. lia.
    + exists s'. rewrite K1, E1. split_and!; [|done|congruence]. by rewrite madd_received.
Qed.

Lemma send_loop_step fuel p ps (s : S) :
  send_loop (Datatypes.S fuel) (mkMultipart (p :: ps), s) =
  match zmq_msg_send s (msg_data p) (negb (bool_decide (ps = []))) with
  | (s1, None) => send_loop fuel (mkMultipart ps, s1)
  | (s1, Some e) => ((mkMultipart ps, s1), if decide (e = EAGAIN) then Ok false else Throw e)
  end.
Proof.
  cbn [send_loop]. unfold mbind, M_bind, mget, in_parts, mmodify, in_socket, mlift.
  cbn [fst snd mpop m_parts]. unfold socket_send, mempty. cbn [m_parts].
  destruct (zmq_msg_send s (msg_data p) _) as [s1 [e|]]; [|done]. by destruct (decide (e = EAGAIN)).
Qed.

(** The send loop in the middle of a message. *)
Lemma send_loop_open m (s : S) fuel :
  zmq_open s <> [] -> m_parts m <> [] -> length (m_parts m) <= fuel ->
  exists s', send_loop fuel (m, s) = ((multipart_new, s'), Ok true) /\ zmq_open s' = [] /\
    zmq_sent s' = zmq_sent s ++ [zmq_open s ++ (msg_data <$> m_parts m)].
Proof.
  revert m s. induction fuel as [|fuel IH]; intros [[|p ps]] s Ho Hne Hl; simpl in Hl; try done; [lia|].
  rewrite send_loop_step.
  destruct (zmq_msg_send s (msg_data p) (negb (bool_decide (ps = [])))) as [s1 [e|]] eqn:E.
  { by destruct (zmq_send_err _ _ _ _ _ E). }
  pose proof (zmq_send_ok _ _ _ _ E) as K.
  destruct (bool_decide (ps = [])) eqn:B; simpl in K; destruct K as [K1 K2].
  - apply bool_decide_eq_true_1 in B as ->. exists s1. split_and!; [by destruct fuel|done|done].
  - apply bool_decide_eq_false_1 in B. destruct (IH (mkMultipart ps) s1) as (s' & L1 & L2 & L3).
    + rewrite K1. by destruct (zmq_open s).
    + done.
    + simpl. lia.
    + exists s'. rewrite L1. split_and!; [done|done|]. rewrite L3, K1, K2. simpl.
      by rewrite <-app_assoc.
Qed.

Lemma recv_n_step fuel limit dontwait count m s s1 p :
  recv_message dontwait s = (s1, Ok (Some p)) ->
  recv_n_loop (Datatypes.S fuel) limit dontwait count (m, s) =
    if match limit with Some n => (n <=? count)%Z | None => false end
    then ((m, s), Throw RUNTIME_ERROR)
    else if msg_more p then recv_n_loop fuel limit dontwait (count + 1)%Z (madd p m, s1)
    else ((madd p m, s1), Ok (Some (count + 1)%Z)).
Proof.
  intros E. cbn [recv_n_loop]. destruct (match limit with Some _ => _ | None => _ end); [done|].
  unfold mbind, M_bind, in_socket, mlift, in_parts, mmodify. cbn [fst snd].
  rewrite E. cbn [fst snd]. by destruct (msg_more p).
Qed.

(** [k] more parts are allowed. *)
Lemma recv_n_current dontwait fuel k count m s :
  zmq_current s <> [] -> length (zmq_current s) <= fuel ->
  exists s', zmq_pending s' = zmq_pending s /\
  recv_n_loop fuel (Some (count + Z.of_nat k)%Z) dontwait count (m, s) =
    ((mkMultipart (m_parts m ++ take k (received (zmq_current s))), s'),
     if decide (length (zmq_current s) <= k) then Ok (Some (count + zlen (zmq_current s))%Z)
     else Throw RUNTIME_ERROR) /\
  zmq_current s' = drop k (zmq_current s).
Proof.
  revert k count m s. induction fuel as [|fuel IH]; intros k count m s Hne Hl;
    destruct (zmq_current s) as [|f rest] eqn:Ec; simpl in Hl; try done; [lia|].
  destruct (read_frame dontwait s f rest Ec) as (s1 & E1 & E2 & E).
  rewrite (recv_n_step _ _ _ _ _ _ _ _ E). cbn [msg_more received length].
  destruct k as [|k].
  { rewrite (proj2 (Z.leb_le _ _)) by lia. exists s. rewrite decide_False by lia. simpl.
    rewrite app_nil_r. split_and!; [done|by destruct m|done]. }
  rewrite (proj2 (Z.leb_gt _ _)) by lia. cbn [take drop].
  destruct (bool_decide (rest = [])) eqn:B; simpl.
  - apply bool_decide_eq_true_1 in B as ->. exists s1. rewrite decide_True by (simpl; lia).
    by destruct k.
  - apply bool_decide_eq_false_1 in B.
    destruct (IH k (count + 1)%Z (madd (mkMsg f true) m) s1) as (s' & K1 & K2 & K3);
      [by rewrite E1|rewrite E1; lia|].
    replace (count + 1 + Z.of_nat k)%Z with (count + Z.of_nat (Datatypes.S k))%Z in K2 by lia.
    exists s'. rewrite K1, E2. split; [done|]. rewrite K2, E1, madd_received. split; [|by rewrite K3, E1].
    f_equal. unfold zlen. destruct (decide (length rest <= k)), (decide (Datatypes.S (length rest) <= Datatypes.S k));
      try lia; [|done]. do 2 f_equal. cbn [length]. lia.
Qed.

End sockets.

#[global] Arguments world _ : clear implicits.

(** ** The container as a value *)

Lemma append_loop_parts parts m : m_parts (append_loop parts m) = m_parts m ++ parts.
Proof.
  revert m. induction parts as [|p parts IH]; intros m; simpl; [by rewrite app_nil_r|].
  rewrite IH. simpl. by rewrite <-app_assoc.
Qed.

Lemma mremove_snoc ps p : mremove (mkMultipart (ps ++ [p])) = Some (p, mkMultipart ps).
Proof. unfold mremove; cbn [m_parts]. by rewrite last_snoc, pop_back_snoc. Qed.

Lemma prepend_loop_parts parts m fuel :
  length parts <= fuel ->
  prepend_loop fuel (mkMultipart parts) m = (mkMultipart (parts ++ m_parts m), multipart_new).
Proof.
  revert m fuel. induction parts as [|p parts IH] using rev_ind; intros m fuel Hl.
  - destruct fuel; by destruct m.
  - rewrite length_app in Hl. simpl in Hl. destruct fuel as [|fuel]; [lia|].
    cbn [prepend_loop]. rewrite mremove_snoc, IH by lia. unfold mpush; cbn [m_parts].
    by rewrite <-app_assoc.
Qed.

Lemma clone_parts m : m_parts (clone m) = message_of ∘ msg_data <$> m_parts m.
Proof.
  unfold clone. destruct m as [ps]; cbn [m_parts].
  cut (forall acc, m_parts (foldl (fun acc p => addmem (msg_data p) acc) acc ps) =
    m_parts acc ++ (message_of ∘ msg_data <$> ps)); [intros K; apply K|].
  induction ps as [|p ps IH]; intros acc; [by rewrite app_nil_r|]. simpl. rewrite IH. simpl.
  by rewrite <-app_assoc.
Qed.

Lemma msg_eq_data a b : msg_eq a b = true <-> msg_data a = msg_data b.
Proof.
  unfold msg_eq, msg_size. rewrite andb_true_iff, Z.eqb_eq, bool_decide_eq_true.
  split; [by intros [_ ?]|]. by intros ->.
Qed.

Lemma multipart_eq_data m other :
  multipart_eq m other = true <-> msg_data <$> m_parts m = msg_data <$> m_parts other.
Proof.
  unfold multipart_eq, msize, zlen. rewrite andb_true_iff, Z.eqb_eq, Nat2Z.inj_iff.
  destruct m as [a], other as [b]; cbn [m_parts]. revert b.
  induction a as [|x a IH]; intros [|y b]; try (split; [by intros [? _]|done]).
  cbn [parts_eq length]. rewrite !fmap_cons, andb_true_iff, msg_eq_data. split.
  - intros [Hl [Hx Hp]]. f_equal; [done|]. apply IH. split; [lia|done].
  - intros [= Hx Hr]. apply IH in Hr as [Hl Hp]. split; [lia|]. done.
Qed.

(** ** Theorems *)

(** The operations that move parts around keep all of them, in order:
    [append] and [prepend] concatenate and leave the other message empty, a
    clone compares equal to its original, and equality of multipart messages is
    equality of the bytes of their parts. *)
Theorem multipart_container m other :
  m_parts (append other m).1 = m_parts m ++ m_parts other /\
  m_parts (prepend other m).1 = m_parts other ++ m_parts m /\
  (append other m).2 = multipart_new /\ (prepend other m).2 = multipart_new /\
  multipart_eq (clone m) m = true /\
  (multipart_eq m other = true <-> msg_data <$> m_parts m = msg_data <$> m_parts other).
Proof.
  unfold append, prepend. destruct other as [ps]. cbn [m_parts].
  rewrite prepend_loop_parts by done. cbn [fst snd m_parts].
  split_and!; [apply append_loop_parts|done|done|done| |apply multipart_eq_data].
  apply multipart_eq_data. rewrite clone_parts, <-list_fmap_compose. by apply list_fmap_ext.
Qed.

Section transfer.
Context {S R : Type} `{ZmqSocket S} `{ZmqSocket R}.

(** The first part decides: once it is accepted the message goes out. *)
Lemma msend_cases m (s : S) :
  zmq_open s = [] -> m_parts m <> [] ->
  (exists s', msend (m, s) = ((multipart_new, s'), Ok true) /\ zmq_open s' = [] /\
     zmq_sent s' = zmq_sent s ++ [msg_data <$> m_parts m]) \/
  (exists s' e, msend (m, s) = ((mkMultipart (tail (m_parts m)), s'),
       if decide (e = EAGAIN) then Ok false else Throw e) /\
     zmq_open s' = [] /\ zmq_sent s' = zmq_sent s).
Proof.
  intros Ho Hne. destruct m as [[|p ps]]; [done|].
  change (msend (mkMultipart (p :: ps), s)) with (send_loop (Datatypes.S (length ps)) (mkMultipart (p :: ps), s)).
  rewrite send_loop_step. cbn [m_parts tail].
  destruct (zmq_msg_send s (msg_data p) (negb (bool_decide (ps = [])))) as [s1 [e|]] eqn:E.
  - right. destruct (zmq_send_err _ _ _ _ _ E) as (_ & K1 & K2). by exists s1, e.
  - left. pose proof (zmq_send_ok _ _ _ _ E) as K.
    destruct (bool_decide (ps = [])) eqn:B; simpl in K; destruct K as [K1 K2].
    + apply bool_decide_eq_true_1 in B as ->. exists s1. rewrite Ho in K2. done.
    + apply bool_decide_eq_false_1 in B.
      destruct (send_loop_open (mkMultipart ps) s1 (length ps)) as (s' & L1 & L2 & L3);
        [by rewrite K1, Ho|done|done|].
      exists s'. rewrite L1, L3, K1, K2, Ho. done.
Qed.

(** A multipart message is transferred as a whole: [send] either puts all
    parts on the wire as one message and leaves the object empty, or puts
    nothing there (and then the object has lost its first part, which was
    already taken out); and the receiver's [recv], at a message boundary, reads
    a message equal to the one sent and nothing of the next one, whatever it
    held before. *)
Theorem multipart_transfer m (s : S) :
  zmq_open s = [] -> m_parts m <> [] ->
  (exists s', msend (m, s) = ((multipart_new, s'), Ok true) /\ zmq_open s' = [] /\
     exists frames, zmq_sent s' = zmq_sent s ++ [frames] /\
     forall (r : R) ms old dontwait, zmq_current r = [] -> zmq_pending r = frames :: ms ->
       exists m' r', mrecv dontwait (old, r) = ((m', r'), Ok true) /\ multipart_eq m' m = true /\
         zmq_current r' = [] /\ zmq_pending r' = ms) \/
  (exists s' r, msend (m, s) = ((mkMultipart (tail (m_parts m)), s'), r) /\ r <> Ok true /\
     zmq_sent s' = zmq_sent s /\ zmq_open s' = []).
Proof.
  intros Ho Hne. destruct (msend_cases m s Ho Hne) as [(s' & E & K1 & K2)|(s' & e & E & K1 & K2)].
  - left. exists s'. split_and!; [done|done|]. exists (msg_data <$> m_parts m). split; [done|].
    intros r ms old dw Hc Hp. unfold mrecv, mbind, M_bind, in_parts, mmodify, mget. cbn [fst snd].
    destruct (recv_loop_next dw (clear old) r (msg_data <$> m_parts m) ms (frames_ahead r))
      as (r' & L1 & L2 & L3); [done|done|unfold frames_ahead; by rewrite Hc, Hp|].
    eexists _, r'. split_and!; [exact L1| |done|done]. apply multipart_eq_data. cbn [m_parts clear app].
    apply received_data.
  - right. exists s'. eexists. split; [exact E|]. split; [|done]. by case_decide.
Qed.

End transfer.

Section limit.
Context {S : Type} `{ZmqSocket S}.

Lemma recv_n_next dontwait k m (s : S) frames ms fuel :
  zmq_current s = [] -> zmq_pending s = frames :: ms -> length frames <= fuel ->
  exists s', zmq_pending s' = (if decide (k = 0) then frames :: ms else ms) /\
  recv_n_loop fuel (Some (Z.of_nat k)) dontwait 0 (m, s) =
    ((mkMultipart (m_parts m ++ take k (received frames)), s'),
     if decide (length frames <= k) then Ok (Some (zlen frames)) else Throw RUNTIME_ERROR) /\
  zmq_current s' = if decide (k = 0) then [] else drop k frames.
Proof.
  intros Ec Ep Hl. destruct frames as [|f rest].
  { by destruct (zmq_pending_nonempty s); rewrite Ep; left. }
  destruct fuel as [|fuel]; simpl in Hl; [lia|].
  destruct (read_first dontwait s f rest ms Ec Ep) as (s1 & E1 & E2 & E).
  rewrite (recv_n_step _ _ _ _ _ _ _ _ E). cbn [msg_more received length].
  destruct k as [|k].
  { exists s. simpl. rewrite app_nil_r. split_and!; [done|by destruct m|done]. }
  rewrite (proj2 (Z.leb_gt _ _)) by lia. rewrite !(decide_False (P := Datatypes.S k = 0)) by lia.
  cbn [take drop]. change (0 + 1)%Z with 1%Z.
  destruct (bool_decide (rest = [])) eqn:B; cbn [negb].
  - apply bool_decide_eq_true_1 in B as ->. exists s1. rewrite decide_True by (simpl; lia).
    by destruct k.
  - apply bool_decide_eq_false_1 in B.
    destruct (recv_n_current dontwait fuel k 1%Z (madd (mkMsg f true) m) s1) as (s' & K1 & K2 & K3);
      [by rewrite E1|rewrite E1; lia|].
    replace (1 + Z.of_nat k)%Z with (Z.of_nat (Datatypes.S k)) in K2 by lia.
    exists s'. rewrite K1, E2. split; [done|]. rewrite K2, E1, madd_received. split; [|by rewrite K3, E1].
    f_equal. unfold zlen. destruct (decide (length rest <= k)), (decide (Datatypes.S (length rest) <= Datatypes.S k));
      try lia; [|done]. do 2 f_equal. cbn [length]. lia.
Qed.

(** The checked receive keeps its promise: a message of at most [n] parts is
    read whole and its number of parts returned; of a longer message exactly
    [n] parts are written and the call throws, leaving the rest of that message,
    and no other, on the socket. *)
Theorem recv_multipart_n_limit (s : S) frames ms n dontwait :
  zmq_current s = [] -> zmq_pending s = frames :: ms ->
  exists m' s', recv_multipart_n (Some (Z.of_nat n)) dontwait (multipart_new, s) =
      ((m', s'), if decide (length frames <= n) then Ok (Some (zlen frames)) else Throw RUNTIME_ERROR) /\
    msg_data <$> m_parts m' = take n frames /\
    concat (zmq_current s' :: zmq_pending s') = drop n frames ++ concat ms.
Proof.
  intros Ec Ep. unfold recv_multipart_n, mbind, M_bind, mget. cbn [snd].
  destruct (recv_n_next dontwait n multipart_new s frames ms (frames_ahead s)) as (s' & K1 & K2 & K3);
    [done|done|unfold frames_ahead; by rewrite Ec, Ep|].
  eexists _, s'. split; [exact K2|]. cbn [m_parts multipart_new app].
  rewrite fmap_take, received_data. split; [done|]. rewrite K1, K3. by destruct n.
Qed.

End limit.

