(* ===== verification/MultipartObjects.v ===== *)
(** * Objects of [multipart_t] ([zmq_addon.hpp])

    Constructors, moves, comparison and access of the container, on the operations of
    [MultipartClass].  The destructor clears the parts.  What a moved-from [std::deque]
    holds is not specified by the language: it is an argument. *)

From S2P Require Import Prelude CppString Wire Multipart MultipartClass.

Implicit Types m : multipart_t.

(** ** Construction and destruction *)

Definition new_from_memory (src : string) : multipart_t := addmem src multipart_new.
Definition new_from_string (s : string) : multipart_t := addstr s multipart_new.
Definition new_from_message (message : message_t) : multipart_t := madd message multipart_new.

(** From a socket: the constructor ignores what [recv] returns. *)
Definition new_from_socket {S} `{ZmqSocket S} : M S multipart_t := fun s =>
  match mrecv false (multipart_new, s) with
  | ((m, s), Ok _) => (s, Ok m)
  | ((_, s), Throw e) => (s, Throw e)
  end.

(** The new object and what is left of the old one. *)
Definition multipart_move_new (left : list message_t) other : multipart_t * multipart_t := (other, mkMultipart left).
Definition multipart_move_assign (left : list message_t) other m : multipart_t * multipart_t := (other, mkMultipart left).
Definition multipart_destroy m : multipart_t := clear m.

(** ** Access *)

(** [operator[]], [front] and [back] outside the parts are undefined ([None]); [at] throws. *)
Definition multipart_index (n : nat) m : option message_t := m_parts m !! n.
Definition multipart_at (n : nat) m : res message_t :=
  match m_parts m !! n with Some p => Ok p | None => Throw 22%Z end.
Definition multipart_front m : option message_t := head (m_parts m).
Definition multipart_back m : option message_t := last (m_parts m).

(** [begin() .. end()] and [rbegin() .. rend()]. *)
Definition iterate m : list message_t := m_parts m.
Definition iterate_reverse m : list message_t := reverse (m_parts m).

Definition multipart_equal m other : bool := multipart_eq m other.
Definition multipart_ne m other : bool := negb (multipart_eq m other).

(** ** What they show of the container *)

(** Access agrees with the ends that [pop] and [remove] take from, and with both iterations; [at]
    throws exactly outside; a move hands over all parts. *)
Theorem multipart_access m other left n :
  (forall p, multipart_index n m = Some p <-> multipart_at n m = Ok p) /\
  ((exists e, multipart_at n m = Throw e) <-> (msize m <= Z.of_nat n)%Z) /\
  multipart_front m = fst <$> mpop m /\ multipart_back m = fst <$> mremove m /\
  iterate_reverse m = reverse (iterate m) /\ zlen (iterate m) = msize m /\
  (forall p, multipart_front m = Some p <-> head (iterate m) = Some p) /\
  (forall p, multipart_back m = Some p <-> head (iterate_reverse m) = Some p) /\
  (multipart_move_new left other).1 = other /\ (multipart_move_assign left other m).1 = other /\
  msize (multipart_destroy m) = 0%Z /\ multipart_ne m other = negb (multipart_equal m other).
Proof.
  unfold multipart_index, multipart_at, multipart_front, multipart_back, iterate_reverse, iterate, multipart_destroy, msize.
  destruct m as [l]. cbn [m_parts]. split_and!; try done.
  - intros p. destruct (l !! n); split; intros K; by simplify_eq.
  - unfold zlen. destruct (l !! n) as [p|] eqn:E.
    + apply lookup_lt_Some in E. split; [by intros [e ?]|lia].
    + apply lookup_ge_None in E. split; [lia|by eexists].
  - by destruct l.
  - unfold mremove. cbn [m_parts]. destruct (last l) eqn:E; cbn; rewrite ?E; done.
  - intros p. by rewrite <-last_reverse, reverse_involutive.
Qed.

(** ** One object per received message *)

(** The constructor from a socket takes the whole next message, and nothing of the one after it. *)
Theorem new_from_socket_next {S} `{ZmqSocket S} (s : S) frames ms :
  zmq_current s = [] -> zmq_pending s = frames :: ms ->
  exists m s', new_from_socket s = (s', Ok m) /\ (msg_data <$> iterate m) = frames /\
    zmq_current s' = [] /\ zmq_pending s' = ms.
Proof.
  intros Hc Hp. unfold new_from_socket, mrecv, mbind, M_bind, in_parts, mmodify, mget. cbn [fst snd].
  destruct (recv_loop_next false (clear multipart_new) s frames ms (frames_ahead s))
    as (s' & L1 & L2 & L3); [done|done|unfold frames_ahead; by rewrite Hc, Hp|].
  rewrite L1. eexists _, s'. split_and!; [done| |done|done]. cbn [iterate m_parts clear app]. apply received_data.
Qed.
