(* ===== verification/Message.v ===== *)
(** * The class [message_t] ([zmq.hpp])

    A [message_t] owns a [zmq_msg_t] of libzmq, which is outside the sources:
    the class [ZmqMsg] states what its documentation promises of the
    [zmq_msg_*] functions.  A [zmq_msg_t] holds its bytes itself or refers to a
    block of the library's heap, and the library counts how many [zmq_msg_t]
    refer to a block ([refs]); a block is released when its count falls to zero,
    and what a message that is not counted reads is not known.  So copying the
    bytes of a [zmq_msg_t] by hand, as the move constructor and [std::swap] do,
    is right only when the other copy is given up.

    Every member function of [message_t] is a definition over that interface,
    and [pool_run] runs them on a pool of objects, as a program does. *)

From stdpp Require Import relations.
From S2P Require Import Prelude CppString Uuid HexDump MultipartClass.

(** ** libzmq *)

(** How often a message that refers to block [b] refers to block [c]. *)
Definition refers (b : option nat) (c : nat) : nat := if decide (b = Some c) then 1 else 0.

(** [L] is the library's heap, [T] the type [zmq_msg_t]. *)
Class ZmqMsg (L T : Type) := {
  zmq_msg_init : T -> T;
  zmq_msg_init_size : L -> T -> Z -> L * T * option Z;
  zmq_msg_init_data : L -> T -> string -> L * T * option Z;
  zmq_msg_close : L -> T -> L * T * option Z;
  zmq_msg_move : L -> T -> T -> L * T * T * option Z;
  zmq_msg_copy : L -> T -> T -> L * T * T * option Z;
  zmq_msg_more : T -> bool;
  (** the [zmq_msg_size] bytes at [zmq_msg_data] *)
  zmq_msg_bytes : L -> T -> string;
  (** storing bytes from [zmq_msg_data] on *)
  zmq_msg_store : L -> T -> string -> L * T;
  zmq_msg_get : T -> Z -> Z + Z;
  zmq_msg_gets : T -> string -> string + Z;

  (** initialised and not closed since *)
  msg_valid : T -> Prop;
  (** the block the message refers to, and the count of a block *)
  block : T -> option nat;
  refs : L -> nat -> nat;

  init_law l t : let t' := zmq_msg_init t in
    msg_valid t' /\ block t' = None /\ zmq_msg_bytes l t' = "" /\ zmq_msg_more t' = false;
  init_size_law l t n l' t' rc : zmq_msg_init_size l t n = (l', t', rc) ->
    (forall u, msg_valid u -> (forall c, refers (block u) c <= refs l c) ->
       zmq_msg_bytes l' u = zmq_msg_bytes l u) /\
    match rc with
    | None => msg_valid t' /\ slen (zmq_msg_bytes l' t') = n /\
        (forall c, block t' = Some c -> refs l c = 0) /\
        (forall c, refs l' c = refs l c + refers (block t') c)
    | Some _ => forall c, refs l' c = refs l c
    end;
  init_data_law l t d l' t' rc : zmq_msg_init_data l t d = (l', t', rc) ->
    (forall u, msg_valid u -> (forall c, refers (block u) c <= refs l c) ->
       zmq_msg_bytes l' u = zmq_msg_bytes l u) /\
    match rc with
    | None => msg_valid t' /\ zmq_msg_bytes l' t' = d /\
        (forall c, block t' = Some c -> refs l c = 0) /\
        (forall c, refs l' c = refs l c + refers (block t') c)
    | Some _ => forall c, refs l' c = refs l c
    end;
  close_law l t : msg_valid t -> (forall c, refers (block t) c <= refs l c) ->
    exists l' t', zmq_msg_close l t = (l', t', None) /\
      (forall c, refs l' c + refers (block t) c = refs l c) /\
      (forall u, msg_valid u -> (forall c, refers (block u) c <= refs l' c) ->
         zmq_msg_bytes l' u = zmq_msg_bytes l u);
  move_law l d s : msg_valid d -> msg_valid s ->
    (forall c, refers (block d) c + refers (block s) c <= refs l c) ->
    exists l' d' s', zmq_msg_move l d s = (l', d', s', None) /\ msg_valid d' /\ msg_valid s' /\
      zmq_msg_bytes l' d' = zmq_msg_bytes l s /\ zmq_msg_more d' = zmq_msg_more s /\
      zmq_msg_bytes l' s' = "" /\
      (forall c, refs l' c + refers (block d) c + refers (block s) c =
         refs l c + refers (block d') c + refers (block s') c) /\
      (forall u, msg_valid u -> (forall c, refers (block u) c <= refs l c) ->
         (forall c, refers (block u) c <= refs l' c) -> zmq_msg_bytes l' u = zmq_msg_bytes l u);
  copy_law l d s : msg_valid d -> msg_valid s ->
    (forall c, refers (block d) c + refers (block s) c <= refs l c) ->
    exists l' d' s', zmq_msg_copy l d s = (l', d', s', None) /\ msg_valid d' /\ msg_valid s' /\
      zmq_msg_bytes l' d' = zmq_msg_bytes l s /\ zmq_msg_bytes l' s' = zmq_msg_bytes l s /\
      (forall c, refs l' c + refers (block d) c + refers (block s) c =
         refs l c + refers (block d') c + refers (block s') c) /\
      (forall u, msg_valid u -> (forall c, refers (block u) c <= refs l c) ->
         (forall c, refers (block u) c <= refs l' c) -> zmq_msg_bytes l' u = zmq_msg_bytes l u);
  (** memory no other message refers to may be written *)
  store_law l t b : msg_valid t -> slen b = slen (zmq_msg_bytes l t) ->
    (forall c, block t = Some c -> refs l c = 1) ->
    let '(l', t') := zmq_msg_store l t b in
    msg_valid t' /\ block t' = block t /\ zmq_msg_bytes l' t' = b /\
    (forall c, refs l' c = refs l c) /\
    (forall u, msg_valid u -> (forall c, refers (block u) c <= refs l c) ->
       (forall c, block u = Some c -> block t <> Some c) -> zmq_msg_bytes l' u = zmq_msg_bytes l u)
}.


Section message.
Context {L T : Type} `{ZmqMsg L T}.

Implicit Types (l : L) (t : T).

(** ** Construction: the memory of the object before, and after *)










(** ** Rebuilding *)







(** ** Moving, copying, reading *)



Definition more t : bool := zmq_msg_more t.
Definition size l t : Z := slen (zmq_msg_bytes l t).
Definition empty l t : bool := (size l t =? 0)%Z.

Definition msg_equal l t (other : T) : bool :=
  (size l t =? size l other)%Z && bool_decide (zmq_msg_bytes l t = zmq_msg_bytes l other).

Definition msg_not_equal l t (other : T) : bool := negb (msg_equal l t other).

Definition msg_get t (property : Z) : res Z :=
  match zmq_msg_get t property with inl v => Ok v | inr e => Throw e end.

Definition msg_gets t (property : string) : res string :=
  match zmq_msg_gets t property with inl v => Ok v | inr e => Throw e end.

Definition to_string l t : string := zmq_msg_bytes l t.


(** ** [str] *)







(** ** A pool of objects *)













(** *** What the objects mean: each has bytes of its own *)





(** ** The invariant *)








(** *** Building a message *)











(** *** The operations keep the invariant and act on the contents as on values *)










(** ** Theorems *)


(** [operator==] compares the bytes. *)
Lemma msg_equal_contents l t t2 : msg_equal l t t2 = true <-> to_string l t = to_string l t2.
Proof.
  unfold msg_equal, size, to_string. rewrite andb_true_iff, Z.eqb_eq, bool_decide_eq_true.
  split; [tauto|]. intros E. by rewrite E.
Qed.

End message.
