(* ===== verification/Handles.v ===== *)
(** * The owners of libzmq handles: [context_t] and [socket_t] ([zmq.hpp])

    Both classes own a pointer that may be null and release it in [close] and
    in the destructor.  libzmq is the interface [LibZmq]: which contexts and
    sockets are open, and what the calls do to them.  [lib_step] runs the member
    functions on a pool of objects; the theorem is that every open handle has
    exactly one owner. *)

From stdpp Require Import relations.
From S2P Require Import Prelude.

Definition EINTR : Z := 4.
Definition ZMQ_IO_THREADS : Z := 1.
Definition ZMQ_MAX_SOCKETS : Z := 2.

(** ** libzmq *)

Class LibZmq (L : Type) := {
  zmq_ctx_new : L -> L * (nat + Z);
  zmq_ctx_set : L -> option nat -> Z -> Z -> L * option Z;
  zmq_ctx_get : L -> option nat -> Z -> Z + Z;
  zmq_ctx_term : L -> nat -> L * option Z;
  zmq_ctx_shutdown : L -> nat -> L * option Z;
  zmq_socket : L -> option nat -> Z -> L * (nat + Z);
  zmq_close : L -> nat -> L * option Z;
  (** the handles in use, and the signals that will still interrupt calls *)
  ctx_open : L -> gset nat;
  sock_open : L -> gset nat;
  signals : L -> nat;
  ctx_new_ok : forall l l' r, zmq_ctx_new l = (l', r) ->
    sock_open l' = sock_open l /\
    match r with
    | inl h => h ∉ ctx_open l /\ ctx_open l' = {[h]} ∪ ctx_open l
    | inr _ => ctx_open l' = ctx_open l
    end;
  ctx_set_open : forall l c o v, ctx_open (zmq_ctx_set l c o v).1 = ctx_open l /\
    sock_open (zmq_ctx_set l c o v).1 = sock_open l;
  ctx_term_ok : forall l h, h ∈ ctx_open l ->
    exists l' r, zmq_ctx_term l h = (l', r) /\ sock_open l' = sock_open l /\
      match signals l with
      | O => r = None /\ ctx_open l' = ctx_open l ∖ {[h]}
      | S n => r = Some EINTR /\ ctx_open l' = ctx_open l /\ signals l' = n
      end;
  ctx_shutdown_open : forall l h, ctx_open (zmq_ctx_shutdown l h).1 = ctx_open l /\
    sock_open (zmq_ctx_shutdown l h).1 = sock_open l;
  socket_ok : forall l c ty l' r, zmq_socket l c ty = (l', r) ->
    ctx_open l' = ctx_open l /\
    match r with
    | inl h => h ∉ sock_open l /\ sock_open l' = {[h]} ∪ sock_open l
    | inr _ => sock_open l' = sock_open l
    end;
  close_ok : forall l h, h ∈ sock_open l ->
    exists l', zmq_close l h = (l', None) /\ ctx_open l' = ctx_open l /\
      sock_open l' = sock_open l ∖ {[h]}
}.

(** ** Ownership *)

(** The pointers of a pool of objects own the open handles, each exactly one. *)
Record owned (f : gmap nat (option nat)) (X : gset nat) : Prop := {
  ow_open : forall h, h ∈ X <-> exists i, f !! i = Some (Some h);
  ow_unique : forall i j h, f !! i = Some (Some h) -> f !! j = Some (Some h) -> i = j
}.

Lemma owned_create f X i h : owned f X -> f !! i = None -> h ∉ X -> owned (<[i := Some h]> f) ({[h]} ∪ X).
Proof.
  intros [O1 O2] Hi Hh. split.
  - intros h'. rewrite elem_of_union, elem_of_singleton, O1. split.
    + intros [->|[j Hj]]; [exists i; apply lookup_insert_eq|]. exists j. rewrite lookup_insert_ne; [done|congruence].
    + intros [j [[-> [= ->]]|[_ Hj]]%lookup_insert_Some]; eauto.
  - intros a b h'. rewrite !lookup_insert_Some. intros [[<- [= ->]]|[_ Ha]] [[<- E]|[_ Hb]]; [done| | |by eapply O2].
    + destruct Hh. apply O1. eauto.
    + injection E as ->. destruct Hh. apply O1. eauto.
Qed.

Lemma owned_null f X i : owned f X -> f !! i = None -> owned (<[i := None]> f) X.
Proof.
  intros [O1 O2] Hi. split.
  - intros h. rewrite O1. split; intros [j Hj]; exists j.
    + rewrite lookup_insert_ne; [done|congruence].
    + by apply lookup_insert_Some in Hj as [[_ ?]|[_ ?]].
  - intros a b h. rewrite !lookup_insert_Some. intros [[_ ?]|[_ ?]] [[_ ?]|[_ ?]]; try done. by eapply O2.
Qed.

Lemma owned_release f X i o :
  owned f X -> f !! i = Some o ->
  owned (<[i := None]> f) (match o with Some h => X ∖ {[h]} | None => X end).
Proof.
  intros [O1 O2] Hi. split.
  - intros h. transitivity (h ∈ X /\ o <> Some h); [destruct o; set_solver|]. rewrite O1. split.
    + intros [[j Hj] Hne]. exists j. rewrite lookup_insert_ne; [done|]. intros <-. congruence.
    + intros [j [[_ ?]|[Hne Hj]]%lookup_insert_Some]; [done|]. split; [eauto|]. intros ->. by destruct Hne; eapply O2.
  - intros a b h. rewrite !lookup_insert_Some. intros [[_ ?]|[_ ?]] [[_ ?]|[_ ?]]; try done. by eapply O2.
Qed.

Lemma owned_forget f X i : owned f X -> f !! i = Some None -> owned (delete i f) X.
Proof.
  intros [O1 O2] Hi. split.
  - intros h. rewrite O1. split; intros [j Hj]; exists j.
    + rewrite lookup_delete_ne; [done|congruence].
    + by apply lookup_delete_Some in Hj as [_ ?].
  - intros a b h [_ Ha]%lookup_delete_Some [_ Hb]%lookup_delete_Some. by eapply O2.
Qed.

Lemma owned_exchange f X i j a b :
  owned f X -> i <> j -> f !! i = Some a -> f !! j = Some b -> owned (<[i := b]> (<[j := a]> f)) X.
Proof.
  intros [O1 O2] Hne Hi Hj.
  assert (K : forall x h, <[i := b]> (<[j := a]> f) !! x = Some (Some h) <->
    f !! (if decide (x = i) then j else if decide (x = j) then i else x) = Some (Some h)).
  { intros x h. destruct (decide (x = i)) as [->|]; [rewrite lookup_insert_eq, Hj; done|].
    rewrite lookup_insert_ne by done. destruct (decide (x = j)) as [->|].
    - by rewrite lookup_insert_eq, Hi.
    - by rewrite lookup_insert_ne. }
  split.
  - intros h. rewrite O1. split; intros [x Hx].
    + exists (if decide (x = i) then j else if decide (x = j) then i else x). apply K.
      destruct (decide (x = i)) as [->|]; [by rewrite decide_False, decide_True by done|].
      destruct (decide (x = j)) as [->|]; [by rewrite decide_True by done|].
      by rewrite decide_False, decide_False by done.
    + apply K in Hx. eauto.
  - intros x y h Hx%K Hy%K. pose proof (O2 _ _ _ Hx Hy) as E. repeat case_decide; congruence.
Qed.

(** Taking over into a new object. *)
Lemma owned_take f X i j b :
  owned f X -> f !! i = None -> f !! j = Some b -> owned (<[i := b]> (<[j := None]> f)) X.
Proof.
  intros Ho Hi Hj. assert (i <> j) by congruence.
  rewrite <-(insert_insert_eq (<[j := None]> f) i b None), (insert_insert_ne f i j) by done.
  apply owned_exchange; [by apply owned_null|done|apply lookup_insert_eq|by rewrite lookup_insert_ne].
Qed.

(** Releasing one object's handle and taking over another's. *)
Lemma owned_replace f X i j a b :
  owned f X -> i <> j -> f !! i = Some a -> f !! j = Some b ->
  owned (<[i := b]> (<[j := None]> f)) (match a with Some h => X ∖ {[h]} | None => X end).
Proof.
  intros Ho Hne Hi Hj.
  rewrite <-(insert_insert_eq (<[j := None]> f) i b None), (insert_insert_ne f i j) by done.
  apply owned_exchange; [by apply owned_release|done|apply lookup_insert_eq|by rewrite lookup_insert_ne].
Qed.

Lemma owned_delete f X i o :
  owned f X -> f !! i = Some o -> owned (delete i f) (match o with Some h => X ∖ {[h]} | None => X end).
Proof.
  intros Ho Hi. rewrite <-(delete_insert_eq f i None). apply owned_forget; [by apply owned_release|apply lookup_insert_eq].
Qed.

Section handles.
Context {L : Type} `{LibZmq L}.

Implicit Types l : L.

(** ** [context_t]: the pointer [ptr] *)

Definition context_t : Type := option nat.

Definition context_new : M L context_t := fun l =>
  match zmq_ctx_new l with
  | (l, inl h) => (l, Ok (Some h))
  | (l, inr e) => (l, Throw e)
  end.

Definition context_new_opts (io_threads max_sockets : Z) : M L context_t := fun l =>
  match zmq_ctx_new l with
  | (l, inr e) => (l, Throw e)
  | (l, inl h) =>
      let l := (zmq_ctx_set l (Some h) ZMQ_IO_THREADS io_threads).1 in
      let l := (zmq_ctx_set l (Some h) ZMQ_MAX_SOCKETS max_sockets).1 in
      (l, Ok (Some h))
  end.

(** The loop of [close]: [do rc = zmq_ctx_term(ptr) while (rc == -1 && errno == EINTR)]. *)
Fixpoint term_loop (fuel : nat) (h : nat) l : L * option Z :=
  match zmq_ctx_term l h with
  | (l, None) => (l, None)
  | (l, Some e) =>
      if decide (e = EINTR) then
        match fuel with O => (l, Some e) | S fuel => term_loop fuel h l end
      else (l, Some e)
  end.

Definition context_close (c : context_t) l : context_t * L :=
  match c with
  | None => (None, l)
  | Some h => (None, (term_loop (signals l) h l).1)
  end.

(** The new object and what is left of the old one. *)
Definition context_move_new (rhs : context_t) : context_t * context_t := (rhs, None).

Definition context_move_assign (ptr rhs : context_t) l : context_t * context_t * L :=
  let '(ptr, l) := context_close ptr l in (rhs, ptr, l).

Definition context_destroy (c : context_t) l : L := (context_close c l).2.

Definition context_shutdown (c : context_t) l : L :=
  match c with None => l | Some h => (zmq_ctx_shutdown l h).1 end.

Definition context_set (c : context_t) (option_ optval : Z) : M L unit := fun l =>
  match zmq_ctx_set l c option_ optval with
  | (l, None) => (l, Ok tt)
  | (l, Some e) => (l, Throw e)
  end.

Definition context_get (c : context_t) (option_ : Z) l : res Z :=
  match zmq_ctx_get l c option_ with inl v => Ok v | inr e => Throw e end.

Definition context_swap (a b : context_t) : context_t * context_t := (b, a).

(** ** [socket_t] *)

Record socket_t := mkSocketT {
  _handle : option nat;
  ctxptr : context_t
}.

Definition socket_null : socket_t := mkSocketT None None.

Definition socket_new (context : context_t) (type_ : Z) : M L socket_t := fun l =>
  match zmq_socket l context type_ with
  | (l, inl h) => (l, Ok (mkSocketT (Some h) context))
  | (l, inr e) => (l, Throw e)
  end.

Definition socket_move_new (rhs : socket_t) : socket_t * socket_t := (rhs, socket_null).

Definition socket_close (s : socket_t) l : socket_t * L :=
  match _handle s with
  | None => (s, l)
  | Some h => (socket_null, (zmq_close l h).1)
  end.

(** [close(); std::swap(_handle, rhs._handle); std::swap(ctxptr, rhs.ctxptr)]. *)
Definition socket_move_assign (s rhs : socket_t) l : socket_t * socket_t * L :=
  let '(s, l) := socket_close s l in
  (mkSocketT (_handle rhs) (ctxptr rhs), mkSocketT (_handle s) (ctxptr s), l).

Definition socket_destroy (s : socket_t) l : L := (socket_close s l).2.

Definition socket_swap (a b : socket_t) : socket_t * socket_t :=
  (mkSocketT (_handle b) (ctxptr b), mkSocketT (_handle a) (ctxptr a)).

(** ** A pool of objects *)

Record objects := mkObjects {
  lib : L;
  ctxs : gmap nat context_t;
  socks : gmap nat socket_t
}.

Implicit Types s : objects.

(** Objects are created at addresses that are free and live until they are
    destroyed. *)
Inductive ctx_step : objects -> objects -> Prop :=
  | ctx_create s i c l' :
      ctxs s !! i = None ->
      (context_new (lib s) = (l', Ok c) \/ exists io ms, context_new_opts io ms (lib s) = (l', Ok c)) ->
      ctx_step s (mkObjects l' (<[i := c]> (ctxs s)) (socks s))
  | ctx_create_fails s e l' :
      (context_new (lib s) = (l', Throw e) \/ exists io ms, context_new_opts io ms (lib s) = (l', Throw e)) ->
      ctx_step s (mkObjects l' (ctxs s) (socks s))
  | ctx_move s i j rhs c rhs' :
      ctxs s !! i = None -> ctxs s !! j = Some rhs -> context_move_new rhs = (c, rhs') ->
      ctx_step s (mkObjects (lib s) (<[i := c]> (<[j := rhs']> (ctxs s))) (socks s))
  | ctx_assign s i j a b a' b' l' :
      i <> j -> ctxs s !! i = Some a -> ctxs s !! j = Some b ->
      context_move_assign a b (lib s) = (a', b', l') ->
      ctx_step s (mkObjects l' (<[i := a']> (<[j := b']> (ctxs s))) (socks s))
  | ctx_swap s i j a b a' b' :
      i <> j -> ctxs s !! i = Some a -> ctxs s !! j = Some b -> context_swap a b = (a', b') ->
      ctx_step s (mkObjects (lib s) (<[i := a']> (<[j := b']> (ctxs s))) (socks s))
  | ctx_close s i c c' l' :
      ctxs s !! i = Some c -> context_close c (lib s) = (c', l') ->
      ctx_step s (mkObjects l' (<[i := c']> (ctxs s)) (socks s))
  | ctx_use s i c o v :
      ctxs s !! i = Some c ->
      ctx_step s (mkObjects (context_set c o v (context_shutdown c (lib s))).1 (ctxs s) (socks s))
  | ctx_destroy s i c :
      ctxs s !! i = Some c ->
      ctx_step s (mkObjects (context_destroy c (lib s)) (delete i (ctxs s)) (socks s)).

Inductive sock_step : objects -> objects -> Prop :=
  | sock_create s i j c ty x l' :
      socks s !! i = None -> ctxs s !! j = Some c -> socket_new c ty (lib s) = (l', Ok x) ->
      sock_step s (mkObjects l' (ctxs s) (<[i := x]> (socks s)))
  | sock_create_fails s j c ty e l' :
      ctxs s !! j = Some c -> socket_new c ty (lib s) = (l', Throw e) ->
      sock_step s (mkObjects l' (ctxs s) (socks s))
  | sock_default s i :
      socks s !! i = None -> sock_step s (mkObjects (lib s) (ctxs s) (<[i := socket_null]> (socks s)))
  | sock_move s i j rhs x rhs' :
      socks s !! i = None -> socks s !! j = Some rhs -> socket_move_new rhs = (x, rhs') ->
      sock_step s (mkObjects (lib s) (ctxs s) (<[i := x]> (<[j := rhs']> (socks s))))
  | sock_assign s i j a b a' b' l' :
      i <> j -> socks s !! i = Some a -> socks s !! j = Some b ->
      socket_move_assign a b (lib s) = (a', b', l') ->
      sock_step s (mkObjects l' (ctxs s) (<[i := a']> (<[j := b']> (socks s))))
  | sock_swap s i j a b a' b' :
      i <> j -> socks s !! i = Some a -> socks s !! j = Some b -> socket_swap a b = (a', b') ->
      sock_step s (mkObjects (lib s) (ctxs s) (<[i := a']> (<[j := b']> (socks s))))
  | sock_close s i x x' l' :
      socks s !! i = Some x -> socket_close x (lib s) = (x', l') ->
      sock_step s (mkObjects l' (ctxs s) (<[i := x']> (socks s)))
  | sock_destroy s i x :
      socks s !! i = Some x ->
      sock_step s (mkObjects (socket_destroy x (lib s)) (ctxs s) (delete i (socks s))).

Definition lib_step s s' : Prop := ctx_step s s' \/ sock_step s s'.

(** ** Lemmas *)

Lemma term_loop_ok h l :
  h ∈ ctx_open l ->
  exists l', term_loop (signals l) h l = (l', None) /\ ctx_open l' = ctx_open l ∖ {[h]} /\
    sock_open l' = sock_open l.
Proof.
  remember (signals l) as n eqn:En. revert l En. induction n as [|n IH]; intros l En Hh;
    destruct (ctx_term_ok l h Hh) as (l' & r & E & Es & K); rewrite <-En in K; cbn [term_loop]; rewrite E.
  - destruct K as [-> K]. by exists l'.
  - destruct K as (-> & K1 & K2). rewrite decide_True by done.
    destruct (IH l') as (l2 & E1 & E2 & E3); [congruence|by rewrite K1|].
    exists l2. split_and!; [exact E1|by rewrite E2, K1|congruence].
Qed.

(** What closing an owned handle does to libzmq. *)
Lemma context_close_open c l :
  (forall h, c = Some h -> h ∈ ctx_open l) ->
  (context_close c l).1 = None /\ sock_open (context_close c l).2 = sock_open l /\
  ctx_open (context_close c l).2 = match c with Some h => ctx_open l ∖ {[h]} | None => ctx_open l end.
Proof.
  intros Hc. destruct c as [h|]; [|done]. cbn [context_close].
  destruct (term_loop_ok h l (Hc h eq_refl)) as (l' & -> & E1 & E2). by split_and!.
Qed.

Lemma socket_close_open x l :
  (forall h, _handle x = Some h -> h ∈ sock_open l) ->
  _handle (socket_close x l).1 = None /\ ctx_open (socket_close x l).2 = ctx_open l /\
  sock_open (socket_close x l).2 = match _handle x with Some h => sock_open l ∖ {[h]} | None => sock_open l end.
Proof.
  intros Hx. unfold socket_close. destruct (_handle x) as [h|] eqn:Ex; [|by split_and!].
  destruct (close_ok l h (Hx h eq_refl)) as (l' & -> & E1 & E2). by split_and!.
Qed.

Record pool_ok s : Prop := {
  po_ctx : owned (ctxs s) (ctx_open (lib s));
  po_sock : owned (_handle <$> socks s) (sock_open (lib s))
}.

Lemma context_new_opts_open l l' r io ms :
  context_new_opts io ms l = (l', r) ->
  exists l1, context_new l = (l1, r) /\ ctx_open l' = ctx_open l1 /\ sock_open l' = sock_open l1.
Proof.
  unfold context_new_opts, context_new. destruct (zmq_ctx_new l) as [l1 [h|e]]; intros [= <- <-]; [|by exists l1].
  exists l1. split; [done|].
  destruct (ctx_set_open (zmq_ctx_set l1 (Some h) ZMQ_IO_THREADS io).1 (Some h) ZMQ_MAX_SOCKETS ms) as [-> ->].
  apply ctx_set_open.
Qed.

Lemma context_new_open l l' r :
  context_new l = (l', r) ->
  sock_open l' = sock_open l /\
  match r with
  | Ok c => exists h, c = Some h /\ h ∉ ctx_open l /\ ctx_open l' = {[h]} ∪ ctx_open l
  | Throw _ => ctx_open l' = ctx_open l
  end.
Proof.
  unfold context_new. destruct (zmq_ctx_new l) as [l1 r1] eqn:E. destruct (ctx_new_ok _ _ _ E) as [E1 E2].
  destruct r1 as [h|e]; intros [= <- <-]; (split; [done|]); [|done]. exists h. tauto.
Qed.

(** Both constructors, at once. *)
Lemma context_created l l' r :
  (context_new l = (l', r) \/ exists io ms, context_new_opts io ms l = (l', r)) ->
  sock_open l' = sock_open l /\
  match r with
  | Ok c => exists h, c = Some h /\ h ∉ ctx_open l /\ ctx_open l' = {[h]} ∪ ctx_open l
  | Throw _ => ctx_open l' = ctx_open l
  end.
Proof.
  intros [E|(io & ms & E)]; [by apply context_new_open|].
  destruct (context_new_opts_open _ _ _ _ _ E) as (l1 & E1 & -> & ->). by apply context_new_open.
Qed.

Lemma ctx_handle_open s i c h :
  pool_ok s -> ctxs s !! i = Some c -> c = Some h -> h ∈ ctx_open (lib s).
Proof. intros [Hc _] Hi ->. apply (ow_open _ _ Hc). eauto. Qed.

Lemma sock_handle_open s i x h :
  pool_ok s -> socks s !! i = Some x -> _handle x = Some h -> h ∈ sock_open (lib s).
Proof. intros [_ Hs] Hi Hh. apply (ow_open _ _ Hs). exists i. by rewrite lookup_fmap, Hi, <-Hh. Qed.

Lemma context_use_open c o v l :
  ctx_open (context_set c o v (context_shutdown c l)).1 = ctx_open l /\
  sock_open (context_set c o v (context_shutdown c l)).1 = sock_open l.
Proof.
  assert (K : forall l, ctx_open (context_set c o v l).1 = ctx_open l /\
    sock_open (context_set c o v l).1 = sock_open l).
  { intros l1. unfold context_set. pose proof (ctx_set_open l1 c o v) as K.
    destruct (zmq_ctx_set l1 c o v) as [l2 [e|]]; exact K. }
  destruct (K (context_shutdown c l)) as [-> ->]. destruct c; [apply ctx_shutdown_open|done].
Qed.

Lemma ctx_step_ok s s' : pool_ok s -> ctx_step s s' -> pool_ok s'.
Proof.
  intros Hp Hst. pose proof (fun i c h => ctx_handle_open s i c h Hp) as Hx. destruct Hp as [Hc Hs].
  revert Hc Hs Hx.
  destruct Hst as [s i c l' Hi E|s e l' E|s i j rhs c rhs' Hi Hj E|s i j a b a' b' l' Hne Hi Hj E
    |s i j a b a' b' Hne Hi Hj E|s i c c' l' Hi E|s i c o v Hi|s i c Hi]; intros Hc Hs Hx.
  - destruct (context_created _ _ _ E) as (Eo & h & -> & Hn & Ec).
    split; simpl; rewrite ?Eo, ?Ec; [by apply owned_create|done].
  - destruct (context_created _ _ _ E) as [Eo Ec]. split; simpl; by rewrite ?Eo, ?Ec.
  - injection E as <- <-. split; simpl; [by apply owned_take|done].
  - unfold context_move_assign in E. destruct (context_close_open a (lib s)) as (E1 & E2 & E3); [by eauto|].
    destruct (context_close a (lib s)) as [a1 l1]. simpl in *. injection E as <- <- <-. subst a1.
    split; simpl; rewrite ?E2, ?E3; [by apply owned_replace|done].
  - injection E as <- <-. split; simpl; [by apply owned_exchange|done].
  - destruct (context_close_open c (lib s)) as (E1 & E2 & E3); [by eauto|]. rewrite E in *. simpl in *. subst c'.
    split; simpl; rewrite ?E2, ?E3; [by apply owned_release|done].
  - destruct (context_use_open c o v (lib s)) as [E1 E2]. split; simpl; by rewrite ?E1, ?E2.
  - destruct (context_close_open c (lib s)) as (E1 & E2 & E3); [by eauto|].
    split; simpl; unfold context_destroy; rewrite ?E2, ?E3; [by apply owned_delete|done].
Qed.

Lemma socket_new_open c ty l l' r :
  socket_new c ty l = (l', r) ->
  ctx_open l' = ctx_open l /\
  match r with
  | Ok x => exists h, _handle x = Some h /\ h ∉ sock_open l /\ sock_open l' = {[h]} ∪ sock_open l
  | Throw _ => sock_open l' = sock_open l
  end.
Proof.
  unfold socket_new. destruct (zmq_socket l c ty) as [l1 r1] eqn:E. destruct (socket_ok _ _ _ _ _ E) as [E1 E2].
  destruct r1 as [h|e]; intros [= <- <-]; (split; [done|]); [|done]. exists h. tauto.
Qed.

Lemma sock_step_ok s s' : pool_ok s -> sock_step s s' -> pool_ok s'.
Proof.
  intros Hp Hst. pose proof (fun i x h => sock_handle_open s i x h Hp) as Hx. destruct Hp as [Hc Hs].
  revert Hc Hs Hx.
  destruct Hst as [s i j c ty x l' Hi Hj E|s j c ty e l' Hj E|s i Hi|s i j rhs x rhs' Hi Hj E
    |s i j a b a' b' l' Hne Hi Hj E|s i j a b a' b' Hne Hi Hj E|s i x x' l' Hi E|s i x Hi]; intros Hc Hs Hx.
  - destruct (socket_new_open _ _ _ _ _ E) as (Eo & h & Eh & Hn & Ec).
    split; simpl; rewrite ?Eo, ?Ec, ?fmap_insert, ?Eh; [done|]. apply owned_create; [done| |done]. by rewrite lookup_fmap, Hi.
  - destruct (socket_new_open _ _ _ _ _ E) as [Eo Ec]. split; simpl; by rewrite ?Eo, ?Ec.
  - split; simpl; [done|]. rewrite fmap_insert. apply owned_null; [done|]. by rewrite lookup_fmap, Hi.
  - injection E as <- <-. split; simpl; [done|]. rewrite !fmap_insert.
    apply owned_take; [done|by rewrite lookup_fmap, Hi|by rewrite lookup_fmap, Hj].
  - unfold socket_move_assign in E. destruct (socket_close_open a (lib s)) as (E1 & E2 & E3); [by eauto|].
    destruct (socket_close a (lib s)) as [a1 l1]. simpl in *. injection E as <- <- <-.
    split; simpl; rewrite ?E2, ?E3, ?fmap_insert; [done|]. simpl. rewrite E1.
    apply owned_replace; [done|done|by rewrite lookup_fmap, Hi|by rewrite lookup_fmap, Hj].
  - injection E as <- <-. split; simpl; [done|]. rewrite !fmap_insert. simpl.
    apply owned_exchange; [done|done|by rewrite lookup_fmap, Hi|by rewrite lookup_fmap, Hj].
  - destruct (socket_close_open x (lib s)) as (E1 & E2 & E3); [by eauto|]. rewrite E in *. simpl in *.
    split; simpl; rewrite ?E2, ?E3, ?fmap_insert, ?E1; [done|]. apply owned_release; [done|by rewrite lookup_fmap, Hi].
  - destruct (socket_close_open x (lib s)) as (E1 & E2 & E3); [by eauto|].
    split; simpl; unfold socket_destroy; rewrite ?E2, ?E3, ?fmap_delete; [done|].
    apply owned_delete; [done|by rewrite lookup_fmap, Hi].
Qed.

(** ** Theorem *)

(** C39. Handles have one owner: in every program over [context_t] and [socket_t]
    objects (constructors that may fail, moves, move assignments, swaps,
    closes, destructors, interrupted terminations) a handle of libzmq is open
    exactly when an object holds it, no two objects hold the same handle, every
    termination loop ends and every close succeeds, so that the assertions in
    [close] hold; and when all objects are gone nothing is left open. *)
Theorem handles_one_owner (l0 : L) s :
  ctx_open l0 = ∅ -> sock_open l0 = ∅ -> rtc lib_step (mkObjects l0 ∅ ∅) s ->
  owned (ctxs s) (ctx_open (lib s)) /\ owned (_handle <$> socks s) (sock_open (lib s)) /\
  (forall i h, ctxs s !! i = Some (Some h) -> (term_loop (signals (lib s)) h (lib s)).2 = None) /\
  (forall i x h, socks s !! i = Some x -> _handle x = Some h -> (zmq_close (lib s) h).2 = None) /\
  (ctxs s = ∅ -> ctx_open (lib s) = ∅) /\ (socks s = ∅ -> sock_open (lib s) = ∅).
Proof.
  intros Hc0 Hs0 Hr.
  assert (Hp : pool_ok s).
  { remember (mkObjects l0 ∅ ∅) as s0 eqn:E0.
    assert (Hp0 : pool_ok s0).
    { subst s0. split; simpl; rewrite ?Hc0, ?Hs0, ?fmap_empty; (split; [|by intros i j h; rewrite lookup_empty]);
        intros h; (split; [set_solver|]); intros [i Hi]; by rewrite lookup_empty in Hi. }
    clear E0. induction Hr as [s|s s1 s2 [H1|H1] _ IH]; [done|apply IH; by eapply ctx_step_ok|].
    apply IH. by eapply sock_step_ok. }
  pose proof Hp as [[C1 C2] [S1 S2]]. split_and!; [by split|by split| | | |].
  - intros i h Hi. destruct (term_loop_ok h (lib s)) as (l' & -> & _); [|done]. apply C1. eauto.
  - intros i x h Hi Hh. destruct (close_ok (lib s) h) as (l' & -> & _); [|done]. by eapply sock_handle_open.
  - intros E. apply set_eq. intros h. rewrite C1, E. split; [intros [i Hi]; by rewrite lookup_empty in Hi|set_solver].
  - intros E. apply set_eq. intros h. rewrite S1, E, fmap_empty.
    split; [intros [i Hi]; by rewrite lookup_empty in Hi|set_solver].
Qed.

End handles.
