(* ===== verification/SocketBase.v ===== *)
(** * Buffers, socket options and byte transfer ([zmq.hpp])

    [mutable_buffer] and [const_buffer] are a pointer and a size; [socket_base]
    passes them, strings and integers to libzmq, which is the interface
    [SocketApi]. *)

From S2P Require Import Prelude CppString Wire.

(** ** Buffers *)

(** [mutable_buffer] and [const_buffer]: [_data] (0 is the null pointer) and
    [_size]. *)
Record buffer_t := mkBuffer {
  buf_data : Z;
  buf_size : Z
}.

Implicit Types b : buffer_t.

Definition buffer_null : buffer_t := mkBuffer 0 0.

(** [operator+=]. *)
Definition buffer_advance b (n : Z) : buffer_t :=
  let shift := Z.min n (buf_size b) in
  mkBuffer (buf_data b + shift) (buf_size b - shift).

(** [operator+], with the number on either side. *)
Definition buffer_plus b (n : Z) : buffer_t :=
  mkBuffer (buf_data b + Z.min n (buf_size b)) (buf_size b - Z.min n (buf_size b)).

Definition plus_buffer (n : Z) b : buffer_t := buffer_plus b n.

(** [buffer(p, n)] and [buffer(b, n)]. *)
Definition buffer_of (p n : Z) : buffer_t := mkBuffer p n.
Definition buffer_limit b (n : Z) : buffer_t := mkBuffer (buf_data b) (Z.min (buf_size b) n).

(** [buffer_contiguous_sequence]: the address of the first of [size] elements. *)
Definition buffer_sequence (first size sizeof : Z) : buffer_t :=
  buffer_of (if decide (size <> 0%Z) then first else 0%Z) (u64 (size * sizeof)).

Definition buffer_sequence_n (first size sizeof n_bytes : Z) : buffer_t :=
  buffer_of (if decide (size <> 0%Z) then first else 0%Z) (Z.min (u64 (size * sizeof)) n_bytes).

(** [str_buffer] of an array of [N] characters, and the literal operator. *)
Definition str_buffer (first N sizeof : Z) : buffer_t := mkBuffer first ((N - 1) * sizeof).
Definition zbuf (str len sizeof : Z) : buffer_t := mkBuffer str (len * sizeof).

(** ** Flags *)

Definition enum_bit_or (a b : Z) : Z := Z.lor a b.
Definition enum_bit_and (a b : Z) : Z := Z.land a b.
Definition enum_bit_xor (a b : Z) : Z := Z.lxor a b.
Definition enum_bit_not (a : Z) : Z := Z.lnot a.

Definition DONTWAIT : Z := 1.
Definition SNDMORE : Z := 2.

(** ** libzmq *)

Definition E_INVAL : Z := 22.

(** [zmq_recv] gives the whole message; the caller's buffer gets what fits.
    Options are binary, or strings that are returned with a terminating null;
    a value that does not fit is refused. *)
Class SocketApi (S : Type) := {
  zmq_setsockopt : S -> Z -> string -> S * option Z;
  zmq_getsockopt : S -> Z -> Z -> string + Z;
  zmq_bind : S -> string -> S * option Z;
  zmq_unbind : S -> string -> S * option Z;
  zmq_connect : S -> string -> S * option Z;
  zmq_disconnect : S -> string -> S * option Z;
  zmq_send : S -> string -> Z -> S * (Z + Z);
  zmq_recv : S -> Z -> S * (string + Z);
  string_option : Z -> Prop;
  binary_option : Z -> Prop;
  set_get_string : forall s o v s', string_option o -> zmq_setsockopt s o v = (s', None) ->
    forall max, zmq_getsockopt s' o max =
      (if decide (slen v + 1 <= max)%Z then inl (v +:+ String "000"%char "") else inr E_INVAL);
  set_get_binary : forall s o v s', binary_option o -> zmq_setsockopt s o v = (s', None) ->
    forall max, zmq_getsockopt s' o max = (if decide (slen v <= max)%Z then inl v else inr E_INVAL)
}.

Section socket_base.
Context {S : Type} `{SocketApi S}.

Implicit Types s : S.

(** [if (rc != 0) throw error_t();] *)
Definition checked (r : S * option Z) : S * res unit :=
  match r with (s, None) => (s, Ok tt) | (s, Some e) => (s, Throw e) end.

(** ** Options *)

Definition set_option (o : Z) (value : string) : M S unit := fun s => checked (zmq_setsockopt s o value).

(** An integer option: its bytes in memory. *)
Definition set_integral (o : Z) (bytes : Z -> string) (val : Z) : M S unit := set_option o (bytes val).

Definition set_boolean (o : Z) (bytes : Z -> string) (val : bool) : M S unit :=
  set_option o (bytes (if val then 1 else 0)%Z).

(** [std::strlen(buf)] bytes of a C string. *)
Fixpoint c_string (buf : string) : string :=
  match buf with
  | EmptyString => ""
  | String c buf => if decide (c = "000"%char) then "" else String c (c_string buf)
  end.

Definition set_cstring (o : Z) (buf : string) : M S unit := set_option o (c_string buf).
Definition set_buffer (o : Z) (view : string) : M S unit := set_option o view.
Definition set_string (o : Z) (buf : string) : M S unit := set_option o buf.

Definition get_option (o max : Z) (s : S) : res string :=
  match zmq_getsockopt s o max with inl v => Ok v | inr e => Throw e end.

Definition get_integral (o sizeof : Z) (load : string -> Z) (s : S) : res Z :=
  match get_option o sizeof s with Ok v => Ok (load v) | Throw e => Throw e end.

(** Into a buffer of the given contents: its contents and the option's size. *)
Definition get_buffer (o : Z) (old : string) (s : S) : res (string * Z) :=
  match get_option o (slen old) s with
  | Ok v => Ok (v +:+ str_substr_end old (String.length v), slen v)
  | Throw e => Throw e
  end.

(** [get] as a string; [nullTerm] is the template argument. *)
Definition get_string (o nullTerm init_size : Z) (s : S) : res string :=
  let init_size := if decide (nullTerm = 2%Z /\ init_size = 1024%Z) then 41%Z else init_size in
  let str := String.string_of_list_ascii (replicate (Z.to_nat init_size) "000"%char) in
  match get_buffer o str s with
  | Throw e => Throw e
  | Ok (str, size) =>
      let size :=
        if decide (nullTerm = 1%Z) then (if decide (0 < size)%Z then size - 1 else size)%Z
        else if decide (nullTerm = 2%Z) then (if decide (size = 41%Z) then size - 1 else size)%Z
        else size in
      Ok (str_substr str 0 (Z.to_nat size))
  end.

(** ** Endpoints *)

Definition bind (addr : string) : M S unit := fun s => checked (zmq_bind s (c_string addr)).
Definition unbind (addr : string) : M S unit := fun s => checked (zmq_unbind s (c_string addr)).
Definition connect (addr : string) : M S unit := fun s => checked (zmq_connect s (c_string addr)).
Definition disconnect (addr : string) : M S unit := fun s => checked (zmq_disconnect s (c_string addr)).

(** ** Bytes *)

(** The deprecated overload returns 0 on EAGAIN, the other one no value. *)
Definition send_bytes (buf : string) (flags : Z) : M S Z := fun s =>
  match zmq_send s buf flags with
  | (s, inl n) => (s, Ok n)
  | (s, inr e) => (s, if decide (e = EAGAIN) then Ok 0%Z else Throw e)
  end.

Definition send_buffer (buf : string) (flags : Z) : M S (option Z) := fun s =>
  match zmq_send s buf flags with
  | (s, inl n) => (s, Ok (Some n))
  | (s, inr e) => (s, if decide (e = EAGAIN) then Ok None else Throw e)
  end.

(** What libzmq leaves in a buffer that held [old]. *)
Definition received_into (old msg : string) : string :=
  let n := Nat.min (String.length msg) (String.length old) in
  str_substr msg 0 n +:+ str_substr_end old n.

Definition recv_bytes (old : string) (flags : Z) : M S (string * Z) := fun s =>
  match zmq_recv s flags with
  | (s, inl msg) => (s, Ok (received_into old msg, slen msg))
  | (s, inr e) => (s, if decide (e = EAGAIN) then Ok (old, 0%Z) else Throw e)
  end.

Record recv_buffer_size := mkRecvSize {
  rb_size : Z;
  untruncated_size : Z
}.

Definition truncated (r : recv_buffer_size) : bool := negb (rb_size r =? untruncated_size r)%Z.

Definition recv_buffer (old : string) (flags : Z) : M S (string * option recv_buffer_size) := fun s =>
  match zmq_recv s flags with
  | (s, inl msg) => (s, Ok (received_into old msg, Some (mkRecvSize (Z.min (slen msg) (slen old)) (slen msg))))
  | (s, inr e) => (s, if decide (e = EAGAIN) then Ok (old, None) else Throw e)
  end.

(** ** Lemmas *)

Lemma str_take_length n (s : string) : String.length (str_take n s) = Nat.min n (String.length s).
Proof. revert s. induction n as [|n IH]; intros [|c s]; simpl; auto. Qed.

Lemma str_take_all (s : string) : str_take (String.length s) s = s.
Proof. induction s as [|c s IH]; [done|]. simpl. by rewrite IH. Qed.

Lemma c_string_id v : "000"%char ∉ String.list_ascii_of_string v -> c_string v = v.
Proof.
  induction v as [|c v IH]; [done|]. cbn [String.list_ascii_of_string c_string].
  rewrite not_elem_of_cons. intros [Hc Hv]. rewrite decide_False by done. by rewrite IH.
Qed.

Lemma slen_replicate n c : slen (String.string_of_list_ascii (replicate n c)) = Z.of_nat n.
Proof. induction n as [|n IH]; [done|]. unfold slen in *. simpl. lia. Qed.

(** ** Theorems *)

(** The bytes a buffer shows of a memory. *)
Definition buf_view (mem : Z -> ascii) b : list ascii := mem <$> seqZ (buf_data b) (buf_size b).

End socket_base.

Lemma seqZ_window p sz n :
  (0 <= n)%Z -> (0 <= sz)%Z ->
  drop (Z.to_nat n) (seqZ p sz) = seqZ (p + Z.min n sz) (sz - Z.min n sz) /\
  take (Z.to_nat n) (seqZ p sz) = seqZ p (Z.min sz n).
Proof.
  intros Hn Hs. destruct (decide (n <= sz)%Z) as [D|D].
  - rewrite Z.min_l, Z.min_r by lia.
    assert (E : seqZ p sz = seqZ p n ++ seqZ (p + n) (sz - n)) by (rewrite <-seqZ_app by lia; f_equal; lia).
    rewrite E. split; [apply drop_app_length'|apply take_app_length']; by rewrite length_seqZ.
  - rewrite Z.min_r, Z.min_l by lia. rewrite Z.sub_diag, (seqZ_nil (p + sz)) by done.
    split; [apply drop_ge|apply take_ge]; rewrite length_seqZ; lia.
Qed.

(** Buffers are windows: advancing a buffer shows the same memory without
    its first bytes, limiting it shows its first bytes, the window never
    leaves the original one, [+=] and [+] agree, and two advances are one. *)
Theorem buffer_window mem b n k :
  (0 <= n)%Z -> (0 <= k)%Z -> (0 <= buf_size b)%Z ->
  buf_view mem (buffer_advance b n) = drop (Z.to_nat n) (buf_view mem b) /\
  buf_view mem (buffer_limit b n) = take (Z.to_nat n) (buf_view mem b) /\
  (buf_data b <= buf_data (buffer_advance b n))%Z /\ (0 <= buf_size (buffer_advance b n))%Z /\
  (buf_data (buffer_advance b n) + buf_size (buffer_advance b n) = buf_data b + buf_size b)%Z /\
  buffer_plus b n = buffer_advance b n /\ plus_buffer n b = buffer_advance b n /\
  buffer_advance (buffer_advance b n) k = buffer_advance b (n + k).
Proof.
  intros Hn Hk Hb. destruct b as [p sz]. unfold buf_view, buffer_advance, buffer_limit, buffer_plus, plus_buffer.
  cbn [buf_data buf_size] in *. split_and!; try lia; try done.
  - rewrite <-fmap_drop. f_equal. symmetry. by apply seqZ_window.
  - rewrite <-fmap_take. f_equal. symmetry. by apply seqZ_window.
  - f_equal; lia.
Qed.

Section theorems.
Context {S : Type} `{SocketApi S}.

(** Options come back: a string option read after it was set is the string
    set, without the terminating null, when it fits into the initial size, and
    an exception otherwise; a binary option is the bytes set. *)
Theorem option_roundtrip (s s' : S) o v init_size :
  set_string o v s = (s', Ok tt) -> (0 <= init_size)%Z ->
  (string_option o -> get_string o 1 init_size s' =
     if decide (slen v + 1 <= init_size)%Z then Ok v else Throw E_INVAL) /\
  (binary_option o -> get_string o 0 init_size s' =
     if decide (slen v <= init_size)%Z then Ok v else Throw E_INVAL) /\
  ("000"%char ∉ String.list_ascii_of_string v -> set_cstring o v s = (s', Ok tt)).
Proof.
  intros Hs Hi. unfold set_string, set_option, checked in Hs.
  destruct (zmq_setsockopt s o v) as [s1 [e|]] eqn:E; [done|]. injection Hs as ->.
  unfold get_string, get_buffer, get_option. split_and!.
  - intros Ho. rewrite (decide_False (P:=1%Z = 2%Z /\ _)) by (by intros []).
    rewrite (set_get_string _ _ _ _ Ho E), slen_replicate, Z2Nat.id by done.
    case_decide as D; [|done]. rewrite decide_True by done.
    rewrite slen_app. change (slen (String "000"%char "")) with 1%Z.
    rewrite decide_True by (pose proof (slen_nonneg v); lia).
    f_equal. unfold str_substr. cbn [str_drop]. rewrite Z.add_simpl_r. unfold slen. rewrite Nat2Z.id, string_app_assoc.
    apply str_take_app.
  - intros Ho. rewrite (decide_False (P:=0%Z = 2%Z /\ _)) by (by intros []).
    rewrite (set_get_binary _ _ _ _ Ho E), slen_replicate, Z2Nat.id by done.
    case_decide as D; [|done]. rewrite !decide_False by done.
    f_equal. unfold str_substr. cbn [str_drop]. unfold slen. rewrite Nat2Z.id. apply str_take_app.
  - intros Hv. unfold set_cstring, set_option, checked. by rewrite c_string_id, E.
Qed.

(** Receiving into a buffer never writes past it: the buffer keeps its
    size, holds the message's first bytes and behind them what it held before;
    the reported size is what was written, and [truncated] tells exactly
    whether bytes of the message were lost. *)
Theorem recv_buffer_bounds (s s' : S) old flags msg :
  zmq_recv s flags = (s', inl msg) ->
  exists r, recv_buffer old flags s = (s', Ok (received_into old msg, Some r)) /\
    slen (received_into old msg) = slen old /\
    rb_size r = Z.min (slen msg) (slen old) /\
    str_substr (received_into old msg) 0 (Z.to_nat (rb_size r)) = str_substr msg 0 (Z.to_nat (rb_size r)) /\
    str_substr_end (received_into old msg) (Z.to_nat (rb_size r)) = str_substr_end old (Z.to_nat (rb_size r)) /\
    (truncated r = false <-> str_substr (received_into old msg) 0 (String.length msg) = msg).
Proof.
  intros E. unfold recv_buffer. rewrite E. eexists. split; [done|]. cbn [rb_size untruncated_size].
  set (n := Nat.min (String.length msg) (String.length old)).
  assert (Hn : Z.to_nat (Z.min (slen msg) (slen old)) = n) by (unfold slen, n; lia).
  assert (Ha : String.length (str_take n msg) = n) by (rewrite str_take_length; lia).
  assert (Er : received_into old msg = str_take n msg +:+ str_drop n old) by done.
  assert (El : slen (received_into old msg) = slen old).
  { rewrite Er, slen_app. unfold slen. rewrite Ha, str_drop_length. lia. }
  rewrite Hn. unfold str_substr, str_substr_end. cbn [str_drop]. split_and!; [done|done| | |].
  - rewrite Er. rewrite <-Ha at 1. apply str_take_app.
  - rewrite Er. rewrite <-Ha at 1. apply str_drop_app.
  - unfold truncated. cbn [rb_size untruncated_size]. rewrite negb_false_iff, Z.eqb_eq. split.
    + intros Hm. assert (n = String.length msg) as Hm' by (unfold slen in Hm; lia).
      rewrite Er, Hm', str_take_all. apply str_take_app.
    + intros Hm. apply (f_equal String.length) in Hm. rewrite str_take_length in Hm.
      unfold slen in *. lia.
Qed.

End theorems.
