(* ===== verification/ZmqUtil.v ===== *)
(** * Helpers of the libzmq binding ([zmq.hpp])

    The optional for trivial types, the [buffer] overloads, flags, polling, comparison
    of socket references, proxies, timers and the deprecated transfer calls.  What they
    call in libzmq is an argument or an interface. *)

From S2P Require Import Prelude CppString Wire SocketBase.
#[local] Open Scope Z_scope.

(** ** [detail::trivial_optional] *)

Section optional.
Context {T : Type} (zero : T).

(** A value that is always there, and whether it counts. *)
Record trivial_optional := mkOptional {
  to_value : T;
  to_has_value : bool
}.

Implicit Types o : trivial_optional.

Definition optional_none : trivial_optional := mkOptional zero false.
Definition optional_some (value : T) : trivial_optional := mkOptional value true.

(** [std::exception] carries no number; [E_INVAL] stands for it. *)
Definition optional_value o : res T := if to_has_value o then Ok (to_value o) else Throw E_INVAL.

(** [operator*] and [operator->]: an assertion that a value is there. *)
Definition optional_deref o : option T := if to_has_value o then Some (to_value o) else None.

Definition has_value o : bool := to_has_value o.

(** What [std::optional] would hold. *)
Definition as_option o : option T := if to_has_value o then Some (to_value o) else None.

(** It behaves as the [std::optional] that newer compilers use in its place. *)
Theorem trivial_optional_refines o v :
  as_option optional_none = None /\ as_option (optional_some v) = Some v /\
  (has_value o = true <-> is_Some (as_option o)) /\ optional_deref o = as_option o /\
  (optional_value o = Ok v <-> as_option o = Some v) /\ (optional_value o = Throw E_INVAL <-> as_option o = None).
Proof.
  destruct o as [x []]; unfold as_option, optional_value, has_value, optional_deref; cbn; split_and!; try done; split;
    intros K; by simplify_eq || eauto || (try (by destruct K)).
Qed.

End optional.

(** ** Buffers of containers *)

(** Constness of a container and of its elements. *)
Inductive sequence :=
  | CArray (elements_const : bool)
  | StdArray (elements_const self_const : bool)
  | StdVector (self_const : bool)
  | BasicString (self_const : bool)
  | StringView.

(** [mutable_buffer] or [const_buffer]. *)
Inductive buffer_class := MutableBuffer | ConstBuffer.

Definition buffer_class_of (c : sequence) : buffer_class :=
  match c with
  | CArray false | StdArray false false | StdVector false | BasicString false => MutableBuffer
  | _ => ConstBuffer
  end.

(** The overloads of [buffer]: the elements' address, their number and size, and a
    limit in bytes. *)
Definition buffer_overload (c : sequence) (first size sizeof : Z) (n_bytes : option Z) : buffer_class * buffer_t :=
  (buffer_class_of c,
   match n_bytes with
   | None => buffer_sequence first size sizeof
   | Some n => buffer_sequence_n first size sizeof n
   end).

(** A [const_buffer] can be had of every buffer; the two classes have the same operations. *)
Definition const_buffer_of (p : buffer_class * buffer_t) : buffer_class * buffer_t := (ConstBuffer, p.2).

Definition writable (c : sequence) : bool :=
  match c with
  | CArray ec => negb ec
  | StdArray ec sc => negb (ec || sc)
  | StdVector sc | BasicString sc => negb sc
  | StringView => false
  end.

(** A buffer lies within the elements of its container, has the limit's size at most, is null
    only for an empty container, and allows writing exactly where the container does. *)
Theorem buffer_overload_bounds c first size sizeof n_bytes :
  0 < first -> 0 <= size -> 0 < sizeof -> size * sizeof < 2 ^ 64 -> (forall n, n_bytes = Some n -> 0 <= n) ->
  let '(cl, b) := buffer_overload c first size sizeof n_bytes in
  (cl = MutableBuffer <-> writable c = true) /\ 0 <= buf_size b <= size * sizeof /\
  (forall n, n_bytes = Some n -> buf_size b = Z.min (size * sizeof) n) /\ (n_bytes = None -> buf_size b = size * sizeof) /\
  (buf_data b = 0 <-> size = 0) /\ (buf_data b <> 0 -> first <= buf_data b /\ buf_data b + buf_size b <= first + size * sizeof).
Proof.
  intros Hf Hs Hz Hm Hn. unfold buffer_overload, buffer_sequence, buffer_sequence_n, buffer_of, u64.
  rewrite Z.mod_small by nia. split; [by destruct c as [[]|[] []|[]|[]|]|].
  destruct n_bytes as [n|]; cbn [buf_data buf_size].
  - specialize (Hn n eq_refl). split_and!; try nia; [intros n' [= ->]; lia|done|case_decide; lia|case_decide; nia].
  - split_and!; try nia; [by intros n|case_decide; lia|case_decide; nia].
Qed.

(** ** Flags *)

Definition send_flags : list (string * Z) := [("none", 0); ("dontwait", DONTWAIT); ("sndmore", SNDMORE)].
Definition recv_flags : list (string * Z) := [("none", 0); ("dontwait", DONTWAIT)].

Inductive flag_expr :=
  | Flag (v : Z)
  | FlagOr (a b : flag_expr)
  | FlagAnd (a b : flag_expr)
  | FlagXor (a b : flag_expr)
  | FlagNot (a : flag_expr).

(** The operators of [send_flags] and [recv_flags]. *)
Fixpoint flag_value (e : flag_expr) : Z :=
  match e with
  | Flag v => v
  | FlagOr a b => enum_bit_or (flag_value a) (flag_value b)
  | FlagAnd a b => enum_bit_and (flag_value a) (flag_value b)
  | FlagXor a b => enum_bit_xor (flag_value a) (flag_value b)
  | FlagNot a => enum_bit_not (flag_value a)
  end.

(** The bit of a flag in an expression is the same expression on bits. *)
Fixpoint flag_bit (i : Z) (e : flag_expr) : bool :=
  match e with
  | Flag v => Z.testbit v i
  | FlagOr a b => flag_bit i a || flag_bit i b
  | FlagAnd a b => flag_bit i a && flag_bit i b
  | FlagXor a b => xorb (flag_bit i a) (flag_bit i b)
  | FlagNot a => negb (flag_bit i a)
  end.

(** The operators work bit by bit, and the named flags are different bits. *)
Theorem flags_bitwise e i :
  0 <= i -> Z.testbit (flag_value e) i = flag_bit i e /\
  (forall p q, p ∈ send_flags ++ recv_flags -> q ∈ send_flags ++ recv_flags -> p.2 <> 0 -> p.1 <> q.1 -> Z.land p.2 q.2 = 0).
Proof.
  intros Hi. split.
  - induction e as [v|a IHa b IHb|a IHa b IHb|a IHa b IHb|a IHa]; cbn; [done|..].
    + unfold enum_bit_or. by rewrite Z.lor_spec, IHa, IHb.
    + unfold enum_bit_and. by rewrite Z.land_spec, IHa, IHb.
    + unfold enum_bit_xor. by rewrite Z.lxor_spec, IHa, IHb.
    + unfold enum_bit_not. by rewrite Z.lnot_spec, IHa by done.
  - assert (K : forallb (fun p => forallb (fun q => bool_decide (p.2 = 0) || bool_decide (p.1 = q.1) ||
      bool_decide (Z.land p.2 q.2 = 0)) (send_flags ++ recv_flags)) (send_flags ++ recv_flags) = true) by done.
    intros p q Hp%list_elem_of_In Hq%list_elem_of_In Hz Hne. rewrite forallb_forall in K. specialize (K p Hp).
    rewrite forallb_forall in K. specialize (K q Hq). rewrite !bool_decide_eq_false_2 in K by done. by apply bool_decide_eq_true in K.
Qed.

(** ** Errors and polling *)

(** [error_t]: the number, and [what] from libzmq's table. *)
Record error_t := mkError { errnum : Z }.
Definition num (e : error_t) : Z := errnum e.
Definition what (zmq_strerror : Z -> string) (e : error_t) : string := zmq_strerror (errnum e).

Section polling.
(** [zmq_poll] on the first items of a vector: how many have events, or a negative number. *)
Context {I : Type} (zmq_poll : list I -> Z -> Z -> list I * Z) (zmq_errno : Z).

Definition detail_poll (items : list I) (nitems timeout : Z) : list I * res Z :=
  let '(items, rc) := zmq_poll items (i32 nitems) timeout in
  (items, if decide (rc < 0) then Throw zmq_errno else Ok rc).

(** The overloads: a pointer and a number, a vector or an array; the timeout a [long] or
    [std::chrono::milliseconds], -1 by default. *)
Definition poll_items (items : list I) (nitems : Z) (timeout : option Z) : list I * res Z :=
  detail_poll items nitems (default (-1) timeout).
Definition poll_vector (items : list I) (timeout : option Z) : list I * res Z :=
  detail_poll items (zlen items) (default (-1) timeout).

(** All items of a vector are polled, as long as their number is an [int]; an error is thrown,
    never returned. *)
Theorem poll_vector_exact items timeout :
  zlen items < 2 ^ 31 ->
  poll_vector items timeout = (let '(l, rc) := zmq_poll items (zlen items) (default (-1) timeout) in
    (l, if decide (rc < 0) then Throw zmq_errno else Ok rc)) /\
  (forall n, (poll_vector items timeout).2 = Ok n -> 0 <= n).
Proof.
  intros Hl. assert (E : i32 (zlen items) = zlen items) by (unfold i32, zlen in *; rewrite Z.mod_small; lia).
  unfold poll_vector, detail_poll. rewrite E. split; [done|]. intros n.
  destruct (zmq_poll items (zlen items) (default (-1) timeout)) as [l rc]. cbn. case_decide; [done|]. intros [= <-]. lia.
Qed.

End polling.

(** ** References to sockets *)

(** A [socket_ref] is a handle, 0 is the null pointer. *)
Definition socket_ref := Z.
Definition ref_null : socket_ref := 0.
Definition ref_from_handle (handle : Z) : socket_ref := handle.
Definition ref_is_null (sr : socket_ref) : bool := sr =? 0.
Definition ref_eq (a b : socket_ref) : bool := a =? b.
Definition ref_ne (a b : socket_ref) : bool := negb (ref_eq a b).
Definition ref_lt (a b : socket_ref) : bool := a <? b.
Definition ref_gt (a b : socket_ref) : bool := ref_lt b a.
Definition ref_le (a b : socket_ref) : bool := negb (ref_gt a b).
Definition ref_ge (a b : socket_ref) : bool := negb (ref_lt a b).
Definition ref_hash (hash : Z -> Z) (sr : socket_ref) : Z := hash sr.

(** The six comparisons are one total order, and equal references hash alike: they can be
    keys of both kinds of containers. *)
Theorem socket_ref_order a b c hash :
  (ref_eq a b = true <-> a = b) /\ ref_ne a b = negb (ref_eq a b) /\
  (ref_le a b = true <-> ref_lt a b = true \/ a = b) /\ ref_ge a b = ref_le b a /\ ref_gt a b = ref_lt b a /\
  ref_lt a a = false /\ (ref_lt a b = true -> ref_lt b c = true -> ref_lt a c = true) /\
  (ref_lt a b = true \/ a = b \/ ref_gt a b = true) /\ (ref_eq a b = true -> ref_hash hash a = ref_hash hash b) /\
  (ref_is_null a = true <-> ref_eq a ref_null = true).
Proof.
  unfold ref_is_null, ref_ge, ref_le, ref_gt, ref_lt, ref_ne, ref_eq, ref_hash, ref_null.
  split_and!; rewrite ?negb_true_iff, ?Z.eqb_eq, ?Z.ltb_lt, ?Z.ltb_ge, ?Z.ltb_irrefl; try done; try lia; by intros ->.
Qed.

(** ** Proxies *)

(** [zmq_proxy] and [zmq_proxy_steerable] on handles, a null one for none. *)
Definition proxy (zmq_proxy : Z -> Z -> Z -> Z) (zmq_errno : Z) (frontend backend capture : socket_ref) : res unit :=
  if decide (zmq_proxy frontend backend capture <> 0) then Throw zmq_errno else Ok tt.

Definition proxy_steerable (zmq_proxy_steerable : Z -> Z -> Z -> Z -> Z) (zmq_errno : Z)
    (frontend backend capture control : socket_ref) : res unit :=
  if decide (zmq_proxy_steerable frontend backend capture control <> 0) then Throw zmq_errno else Ok tt.

(** ** Timers *)

(** libzmq's timers: what a call makes of the library's state; the result is a value or an errno.
    [timers_open]: the handles in use. *)
Class TimerApi (L : Type) := {
  timers_new : L -> L * (Z + Z);
  timers_destroy : L -> Z -> L;
  timers_add : L -> Z -> Z -> Z -> Z -> L * (Z + Z);
  timers_cancel : L -> Z -> Z -> L * option Z;
  timers_set_interval : L -> Z -> Z -> Z -> L * option Z;
  timers_reset : L -> Z -> Z -> L * option Z;
  timers_timeout : L -> Z -> Z;
  timers_execute : L -> Z -> L * option Z;
  timers_open : L -> gset Z;
  new_open : forall l, match timers_new l with
    | (l', inl h) => h ∉ timers_open l /\ timers_open l' = {[h]} ∪ timers_open l
    | (l', inr _) => timers_open l' = timers_open l
    end;
  destroy_open : forall l h, timers_open (timers_destroy l h) = timers_open l ∖ {[h]};
  add_open : forall l h i f a, timers_open (timers_add l h i f a).1 = timers_open l;
  cancel_open : forall l h t, timers_open (timers_cancel l h t).1 = timers_open l;
  interval_open : forall l h t i, timers_open (timers_set_interval l h t i).1 = timers_open l;
  reset_open : forall l h t, timers_open (timers_reset l h t).1 = timers_open l;
  execute_open : forall l h, timers_open (timers_execute l h).1 = timers_open l
}.

Section timers.
Context {L : Type} `{TimerApi L}.

Implicit Types l : L.

(** The constructor throws when there is no handle. *)
Definition timers_construct : M L Z := fun l =>
  match timers_new l with (l, inl h) => (l, Ok h) | (l, inr e) => (l, Throw e) end.

Definition timers_destruct (h : Z) l : L := timers_destroy l h.

Definition timer_checked (r : L * option Z) : L * res unit :=
  match r with (l, None) => (l, Ok tt) | (l, Some e) => (l, Throw e) end.

Definition timer_add (h interval handler arg : Z) : M L Z := fun l =>
  match timers_add l h interval handler arg with (l, inl t) => (l, Ok t) | (l, inr e) => (l, Throw e) end.
Definition timer_cancel (h timer_id : Z) : M L unit := fun l => timer_checked (timers_cancel l h timer_id).
Definition timer_set_interval (h timer_id interval : Z) : M L unit := fun l =>
  timer_checked (timers_set_interval l h timer_id interval).
Definition timer_reset (h timer_id : Z) : M L unit := fun l => timer_checked (timers_reset l h timer_id).
Definition timer_execute (h : Z) : M L unit := fun l => timer_checked (timers_execute l h).

(** No timer is -1 in libzmq. *)
Definition timer_timeout (h : Z) l : option Z :=
  let timeout := timers_timeout l h in if decide (timeout = -1) then None else Some timeout.

(** ** A scope with a [timers] object *)

Inductive timer_call :=
  | TAdd (interval handler arg : Z)
  | TCancel (timer_id : Z)
  | TSetInterval (timer_id interval : Z)
  | TReset (timer_id : Z)
  | TTimeout
  | TExecute.

Definition timer_run (h : Z) (c : timer_call) : M L unit :=
  match c with
  | TAdd i f a => _ ← timer_add h i f a; mret tt
  | TCancel t => timer_cancel h t
  | TSetInterval t i => timer_set_interval h t i
  | TReset t => timer_reset h t
  | TTimeout => mret tt
  | TExecute => timer_execute h
  end.

(** The object is destroyed when its scope ends, by an exception as well. *)
Definition timer_scope (calls : list timer_call) : M L unit := fun l =>
  match timers_construct l with
  | (l, Throw e) => (l, Throw e)
  | (l, Ok h) => let '(l, r) := mfor (timer_run h) calls l in (timers_destruct h l, r)
  end.

Lemma checked_open (r : L * option Z) : timers_open (timer_checked r).1 = timers_open r.1.
Proof. by destruct r as [l [e|]]. Qed.

Lemma timer_run_open h c l : timers_open (timer_run h c l).1 = timers_open l.
Proof.
  destruct c as [i f a|t|t i|t| |]; cbn [timer_run].
  - unfold timer_add, mbind, M_bind. pose proof (add_open l h i f a) as K. by destruct (timers_add l h i f a) as [l' [t|e]].
  - unfold timer_cancel. by rewrite checked_open, cancel_open.
  - unfold timer_set_interval. by rewrite checked_open, interval_open.
  - unfold timer_reset. by rewrite checked_open, reset_open.
  - done.
  - unfold timer_execute. by rewrite checked_open, execute_open.
Qed.

(** Whatever is done with the object and whichever call throws, the handles in use afterwards
    are those from before. *)
Theorem timers_no_leak calls l : timers_open (timer_scope calls l).1 = timers_open l.
Proof.
  unfold timer_scope, timers_construct. pose proof (new_open l) as K. destruct (timers_new l) as [l1 [h|e]]; [|exact K].
  destruct K as [Hh K].
  assert (Kr : forall cs l2, timers_open (mfor (timer_run h) cs l2).1 = timers_open l2).
  { induction cs as [|c cs IH]; intros l2; [done|]. cbn [mfor]. unfold mbind, M_bind.
    pose proof (timer_run_open h c l2) as E. destruct (timer_run h c l2) as [l3 [u|e]]; cbn [fst] in *; [by rewrite IH|done]. }
  specialize (Kr calls l1). destruct (mfor (timer_run h) calls l1) as [l2 r]. cbn [fst] in *.
  unfold timers_destruct. rewrite destroy_open, Kr, K. set_solver.
Qed.

End timers.

(** ** Deprecated transfer calls *)

Section deprecated.
Context {S : Type} `{ZmqSocket S}.

(** [bool send(message_t &, int)] and [bool recv(message_t *, int)]. *)
Definition send_message_bool (f : string) (sndmore : bool) : M S bool := fun s =>
  match zmq_msg_send s f sndmore with
  | (s, None) => (s, Ok true)
  | (s, Some e) => (s, if decide (e = EAGAIN) then Ok false else Throw e)
  end.

(** [send(first, last, flags)] builds the message from the range. *)
Definition send_range_bool (range : list ascii) (sndmore : bool) : M S bool := fun s =>
  let msg := String.string_of_list_ascii range in
  match zmq_msg_send s msg sndmore with
  | (s, None) => (s, Ok true)
  | (s, Some e) => (s, if decide (e = EAGAIN) then Ok false else Throw e)
  end.

(** [bool send(message_t &&, int)] in C++11. *)
Definition send_message_move_bool (f : string) (sndmore : bool) : M S bool := socket_send f sndmore.

Definition recv_message_bool (msg : string) (dontwait : bool) : M S (bool * string) := fun s =>
  match zmq_msg_recv s dontwait with
  | (s, inl f) => (s, Ok (true, f))
  | (s, inr e) => (s, if decide (e = EAGAIN) then Ok (false, msg) else Throw e)
  end.

(** They agree with the calls that replaced them: the boolean is whether those return a value. *)
Theorem deprecated_agree f range old more dontwait (s : S) :
  send_message_bool f more s = socket_send f more s /\ send_message_move_bool f more s = socket_send f more s /\
  send_range_bool range more s = socket_send (String.string_of_list_ascii range) more s /\
  recv_message_bool old dontwait s = (let '(s', r) := socket_recv dontwait s in
    (s', match r with Ok (Some m) => Ok (true, m) | Ok None => Ok (false, old) | Throw e => Throw e end)).
Proof.
  unfold send_message_bool, send_message_move_bool, send_range_bool, recv_message_bool, socket_send, socket_recv.
  split_and!; [by destruct (zmq_msg_send s f more) as [s1 [e|]]; [case_decide|]|done| |].
  - by destruct (zmq_msg_send s (String.string_of_list_ascii range) more) as [s1 [e|]]; [case_decide|].
  - destruct (zmq_msg_recv s dontwait) as [s1 [m|e]]; [done|by case_decide].
Qed.

End deprecated.
