(* ===== verification/Poller.v ===== *)
(** * Pollers ([zmq.hpp], class [poller_t]; [zmq_addon.hpp], classes [poller_ref_t] and [active_poller_t])

    An [active_poller_t] gives libzmq the address of a handler object for every
    socket or file descriptor it watches, and calls the handlers of what is ready.
    The handlers are shared objects: a handler may remove its own socket, or
    another one whose event is still to be dispatched.  [heap] has the objects that
    some [shared_ptr] still refers to; a call through a pointer to any other object
    is undefined.  libzmq's poller is the interface [ZmqPoller]. *)

From stdpp Require Import relations countable.
From S2P Require Import Prelude.

Definition EINVAL : Z := 22.
Definition EAGAIN : Z := 11.
(** [std::invalid_argument], which has no error number. *)
Definition invalid_argument : Z := -1.

(** ** [poller_ref_t] *)

(** The tuple of a tag, a socket and a descriptor, of which one is unused. *)
Inductive poller_ref_t :=
  | RT_SOCKET (socket : option nat)
  | RT_FD (fd : Z).

#[export] Instance poller_ref_t_eq_dec : EqDecision poller_ref_t.
Proof. solve_decision. Defined.

#[export] Instance poller_ref_t_countable : Countable poller_ref_t.
Proof.
  refine (inj_countable' (fun r => match r with RT_SOCKET s => inl s | RT_FD fd => inr fd end)
    (fun x => match x with inl s => RT_SOCKET s | inr fd => RT_FD fd end) _).
  by intros [].
Defined.

Section hash.
(** [std::hash] of an int, of a socket handle and of a descriptor. *)
Context (hash_int : Z -> Z) (hash_socket : option nat -> Z) (hash_fd : Z -> Z).

Definition hash_combine (seed v : Z) : Z :=
  Z.lxor seed (u64 (v + 0x9e3779b9 + Z.shiftl seed 6 + Z.shiftr seed 2)).

Definition hash (r : poller_ref_t) : Z :=
  let '(tag, socket, fd) := match r with
    | RT_SOCKET s => (0%Z, s, 0%Z)
    | RT_FD fd => (1%Z, None, fd)
    end in
  hash_combine (hash_combine (hash_combine 0 (hash_int tag)) (hash_socket socket)) (hash_fd fd).
End hash.

(** ** libzmq's poller *)

Class ZmqPoller (P : Type) := {
  (** [zmq_poller_add] and [zmq_poller_add_fd], and so on: [None] or an errno *)
  zmq_poller_add : P -> poller_ref_t -> option nat -> Z -> P * option Z;
  zmq_poller_remove : P -> poller_ref_t -> P * option Z;
  zmq_poller_modify : P -> poller_ref_t -> Z -> P * option Z;
  (** at most that many events (what, its user data, the flags) and at least one, or
      an errno, [EAGAIN] when there was none in time *)
  zmq_poller_wait_all : P -> nat -> Z -> P * (list (poller_ref_t * option nat * Z) + Z);
  zmq_poller_new : P;
  poller_items : P -> gmap poller_ref_t (option nat * Z);
  poller_new_items : poller_items zmq_poller_new = ∅;
  poller_add_ok : forall p r u e p', zmq_poller_add p r u e = (p', None) ->
    poller_items p !! r = None /\ poller_items p' = <[r := (u, e)]> (poller_items p);
  poller_add_err : forall p r u e p' n, zmq_poller_add p r u e = (p', Some n) -> poller_items p' = poller_items p;
  poller_remove_ok : forall p r p', zmq_poller_remove p r = (p', None) ->
    poller_items p' = delete r (poller_items p);
  poller_remove_err : forall p r p' n, zmq_poller_remove p r = (p', Some n) -> poller_items p' = poller_items p;
  poller_modify_ok : forall p r e p', zmq_poller_modify p r e = (p', None) ->
    exists u e0, poller_items p !! r = Some (u, e0) /\ poller_items p' = <[r := (u, e)]> (poller_items p);
  poller_modify_err : forall p r e p' n, zmq_poller_modify p r e = (p', Some n) -> poller_items p' = poller_items p;
  poller_wait_ok : forall p n t p' evs, zmq_poller_wait_all p n t = (p', inl evs) ->
    poller_items p' = poller_items p /\ (0 < length evs <= n)%nat /\ NoDup evs.*1.*1 /\
    forall r u e, (r, u, e) ∈ evs -> exists e0, poller_items p !! r = Some (u, e0);
  poller_wait_err : forall p n t p' e, zmq_poller_wait_all p n t = (p', inr e) -> poller_items p' = poller_items p
}.

Section poller.
Context {P : Type} `{ZmqPoller P} {Fn : Type}.  (** the handlers' code *)

(** ** [poller_t] *)

Definition check_poller (f : P -> P * option Z) : M P unit := fun p =>
  match f p with
  | (p', None) => (p', Ok tt)
  | (p', Some e) => (p', Throw e)
  end.

Definition poller_add (r : poller_ref_t) (events : Z) (user_data : option nat) : M P unit :=
  check_poller (fun p => zmq_poller_add p r user_data events).
Definition poller_remove (r : poller_ref_t) : M P unit := check_poller (fun p => zmq_poller_remove p r).
Definition poller_modify (r : poller_ref_t) (events : Z) : M P unit :=
  check_poller (fun p => zmq_poller_modify p r events).

(** The events, for a vector of [n] elements; a timeout is no event.  libzmq reports
    at least one event when it reports no error. *)
Definition poller_wait_all (n : nat) (timeout : Z) : M P (list (poller_ref_t * option nat * Z)) := fun p =>
  match zmq_poller_wait_all p n timeout with
  | (p', inl evs) => (p', Ok evs)
  | (p', inr e) => if decide (e = EAGAIN) then (p', Ok []) else (p', Throw e)
  end.

(** ** [active_poller_t] *)

(** The members; the heap of handler objects and its next address; the calls made
    so far are a history variable. *)
Record active_poller_t := mkActive {
  need_rebuild : bool;
  base_poller : P;
  handlers : gmap poller_ref_t nat;
  poller_events : nat;             (** size of the vector *)
  poller_handlers : list nat;
  heap : gmap nat Fn;
  next : nat;
  calls : list (Fn * Z)
}.

Implicit Types s : active_poller_t.

Definition active_new : active_poller_t := mkActive false zmq_poller_new ∅ 0 [] ∅ 0 [].

(** Some [shared_ptr] refers to the object. *)
Definition referred (hs : gmap poller_ref_t nat) (ps : list nat) (a : nat) : Prop :=
  a ∈ (map_to_list hs).*2 \/ a ∈ ps.

#[global] Instance referred_dec hs ps a : Decision (referred hs ps a).
Proof. unfold referred. apply _. Defined.

(** The members after a change; objects nobody refers to are freed. *)
Definition update (rebuild : bool) (hs : gmap poller_ref_t nat) (n : nat) (ps : list nat) s : active_poller_t :=
  mkActive rebuild (base_poller s) hs n ps (filter (fun x => referred hs ps x.1) (heap s)) (next s) (calls s).

Definition put_base (p : P) s : active_poller_t :=
  mkActive (need_rebuild s) p (handlers s) (poller_events s) (poller_handlers s) (heap s) (next s) (calls s).

Definition with_base {A} (m : M P A) : M active_poller_t A := mlift base_poller put_base m.

(** [std::make_shared]. *)
Definition allocate (h : Fn) s : nat * active_poller_t :=
  (next s, mkActive (need_rebuild s) (base_poller s) (handlers s) (poller_events s) (poller_handlers s)
    (<[next s := h]> (heap s)) (S (next s)) (calls s)).

Definition erase (r : poller_ref_t) (rebuild : bool) s : active_poller_t :=
  update rebuild (delete r (handlers s)) (poller_events s) (poller_handlers s) s.

Definition active_add (r : poller_ref_t) (events : Z) (handler : option Fn) : M active_poller_t unit := fun s =>
  match handler with
  | None => (s, Throw invalid_argument)
  | Some h =>
      let '(a, s1) := allocate h s in
      match handlers s1 !! r with
      | Some _ => (update (need_rebuild s1) (handlers s1) (poller_events s1) (poller_handlers s1) s1, Throw EINVAL)
      | None =>
          let s2 := update (need_rebuild s1) (<[r := a]> (handlers s1)) (poller_events s1) (poller_handlers s1) s1 in
          match with_base (poller_add r events (Some a)) s2 with
          | (s3, Ok _) => (update true (handlers s3) (poller_events s3) (poller_handlers s3) s3, Ok tt)
          | (s3, Throw e) => (erase r (need_rebuild s3) s3, Throw e)
          end
      end
  end.

Definition active_remove (r : poller_ref_t) : M active_poller_t unit :=
  _ ← with_base (poller_remove r);
  mmodify (erase r true).

Definition active_modify (r : poller_ref_t) (events : Z) : M active_poller_t unit :=
  with_base (poller_modify r events).

(** ** [wait] *)

Definition rebuild s : active_poller_t :=
  if need_rebuild s
  then update false (handlers s) (size (handlers s)) (map_to_list (handlers s)).*2 s
  else s.

Definition note_call (h : Fn) (events : Z) s : active_poller_t :=
  mkActive (need_rebuild s) (base_poller s) (handlers s) (poller_events s) (poller_handlers s) (heap s) (next s)
    (calls s ++ [(h, events)]).

(** The call through [event.user_data]; [None] is a null or dangling pointer. *)
Fixpoint dispatch (user : Fn -> Z -> M active_poller_t unit) (evs : list (poller_ref_t * option nat * Z)) s :
    option (active_poller_t * res unit) :=
  match evs with
  | [] => Some (s, Ok tt)
  | (_, u, e) :: evs =>
      a ← u;
      h ← heap s !! a;
      match user h e (note_call h e s) with
      | (s', Ok _) => dispatch user evs s'
      | (s', Throw n) => Some (s', Throw n)
      end
  end.

Definition active_wait (user : Fn -> Z -> M active_poller_t unit) (timeout : Z) s :
    option (active_poller_t * res nat) :=
  let s := rebuild s in
  match with_base (poller_wait_all (poller_events s) timeout) s with
  | (s', Ok evs) => (fun x => (x.1, match x.2 with Ok _ => Ok (length evs) | Throw e => Throw e end)) <$>
                    dispatch user evs s'
  | (s', Throw e) => Some (s', Throw e)
  end.

Definition active_empty s : bool := bool_decide (handlers s = ∅).
Definition active_size s : nat := size (handlers s).

(** ** Use *)

(** What code, the handlers included, does to the poller besides waiting; a handler
    does not wait on the poller that called it. *)
Inductive active_call : active_poller_t -> active_poller_t -> Prop :=
  | call_add r events handler s : active_call s (active_add r events handler s).1
  | call_remove r s : active_call s (active_remove r s).1
  | call_modify r events s : active_call s (active_modify r events s).1.

(** Handlers may do any of it, and throw. *)
Definition handlers_call (user : Fn -> Z -> M active_poller_t unit) : Prop :=
  forall h e s, rtc active_call s (user h e s).1.

Inductive active_step (user : Fn -> Z -> M active_poller_t unit) : active_poller_t -> active_poller_t -> Prop :=
  | step_call s s' : active_call s s' -> active_step user s s'
  | step_wait timeout s s' r : active_wait user timeout s = Some (s', r) -> active_step user s s'.

(** ** Invariant *)

Record active_inv s : Prop := {
  ai_items : forall r u e, poller_items (base_poller s) !! r = Some (u, e) -> exists a, u = Some a /\ handlers s !! r = Some a;
  ai_added : forall r a, handlers s !! r = Some a -> exists e, poller_items (base_poller s) !! r = Some (Some a, e);
  ai_rebuilt : need_rebuild s = false ->
    poller_handlers s = (map_to_list (handlers s)).*2 /\ poller_events s = size (handlers s);
  ai_heap : forall a, is_Some (heap s !! a) <-> referred (handlers s) (poller_handlers s) a;
  ai_fresh : forall a, is_Some (heap s !! a) -> (a < next s)%nat
}.

Lemma elem_of_values (hs : gmap poller_ref_t nat) a : a ∈ (map_to_list hs).*2 <-> exists r, hs !! r = Some a.
Proof.
  rewrite list_elem_of_fmap. split.
  - intros [[r a'] [-> Hr%elem_of_map_to_list]]. by exists r.
  - intros [r Hr]. exists (r, a). split; [done|]. by apply elem_of_map_to_list.
Qed.

Lemma active_new_inv : active_inv active_new.
Proof.
  split; cbn.
  - intros r u e. by rewrite poller_new_items, lookup_empty.
  - intros r a. by rewrite lookup_empty.
  - by rewrite map_to_list_empty, map_size_empty.
  - intros a. rewrite lookup_empty. split; [by intros []|]. unfold referred. rewrite map_to_list_empty. cbn.
    by intros [?%elem_of_nil|?%elem_of_nil].
  - intros a. rewrite lookup_empty. by intros [].
Qed.

(** Objects are freed exactly when nobody refers to them any more. *)
Lemma update_heap b hs n ps s a :
  (forall a, referred hs ps a -> is_Some (heap s !! a)) ->
  is_Some (heap (update b hs n ps s) !! a) <-> referred hs ps a.
Proof.
  intros Hr. cbn [update heap]. split.
  - intros [h [_ Hh]%map_lookup_filter_Some]. done.
  - intros Ha. destruct (Hr a Ha) as [h Hh]. exists h. by apply map_lookup_filter_Some.
Qed.

Lemma update_fresh b hs n ps s :
  (forall a, is_Some (heap s !! a) -> (a < next s)%nat) ->
  forall a, is_Some (heap (update b hs n ps s) !! a) -> (a < next s)%nat.
Proof. intros Hf a [h [Hh _]%map_lookup_filter_Some]. apply Hf. by exists h. Qed.

(** What a call leaves alone: the vector of pointers taken for the dispatch, the
    objects in it, and the history. *)
Record kept s s' : Prop := {
  kp_pointers : poller_handlers s' = poller_handlers s;
  kp_objects : forall a, a ∈ poller_handlers s -> heap s' !! a = heap s !! a;
  kp_calls : calls s' = calls s
}.

Lemma kept_trans s1 s2 s3 : kept s1 s2 -> kept s2 s3 -> kept s1 s3.
Proof.
  intros [A1 A2 A3] [B1 B2 B3]. split; [congruence| |congruence].
  intros a Ha. rewrite B2, A2; congruence.
Qed.

Lemma update_kept b hs n s : kept s (update b hs n (poller_handlers s) s).
Proof.
  split; [done| |done]. intros a Ha. cbn [update heap]. apply option_eq. intros h.
  rewrite map_lookup_filter_Some. split; [by intros []|]. intros Hh. split; [done|]. by right.
Qed.

Lemma with_base_kept {A} (m : M P A) s : kept s (with_base m s).1.
Proof. unfold with_base, mlift. destruct (m (base_poller s)) as [p r]. by split. Qed.

Lemma check_poller_cases f p :
  (exists p', f p = (p', None) /\ check_poller f p = (p', Ok tt)) \/
  (exists p' e, f p = (p', Some e) /\ check_poller f p = (p', Throw e)).
Proof. unfold check_poller. destruct (f p) as [p' [e|]]; [right|left]; eauto. Qed.

(** A change of the base that changes no item. *)
Lemma put_base_inv p s :
  active_inv s -> poller_items p = poller_items (base_poller s) -> active_inv (put_base p s).
Proof. intros [] E. split; cbn [put_base base_poller handlers]; rewrite ?E; done. Qed.

(** Freeing what nobody refers to changes nothing in a consistent poller. *)
Lemma update_same_inv b s :
  active_inv s -> (b = false -> need_rebuild s = false) ->
  active_inv (update b (handlers s) (poller_events s) (poller_handlers s) s).
Proof.
  intros [I1 I2 I3 I4 I5] Hb. split; [done|done| | |].
  - intros E. by apply I3, Hb.
  - intros a. apply update_heap. intros x Hx. by apply I4.
  - by apply update_fresh.
Qed.


Lemma active_modify_inv r e s : active_inv s -> active_inv (active_modify r e s).1 /\ kept s (active_modify r e s).1.
Proof.
  intros Hi. split; [|apply with_base_kept]. unfold active_modify, with_base, mlift, poller_modify.
  destruct (check_poller_cases (fun p => zmq_poller_modify p r e) (base_poller s)) as [(p' & E & ->)|(p' & n & E & ->)]; cbn [fst].
  - apply poller_modify_ok in E as (u & e0 & E1 & E2). destruct Hi as [I1 I2 I3 I4 I5].
    split; cbn [put_base base_poller handlers]; [| |done..]; intros r' ? ; rewrite E2.
    + intros e'. rewrite lookup_insert_Some. intros [[<- [= <- <-]]|[_ K]]; eauto.
    + intros Hr. destruct (I2 _ _ Hr) as [e' K]. destruct (decide (r = r')) as [<-|Hne].
      * rewrite E1 in K. injection K as -> ->. exists e. apply lookup_insert_eq.
      * exists e'. by rewrite lookup_insert_ne.
  - apply put_base_inv; [done|]. by eapply poller_modify_err.
Qed.

(** The handler of [r] is gone from both tables. *)
Lemma erased_inv r p s :
  active_inv s -> poller_items p = delete r (poller_items (base_poller s)) ->
  active_inv (erase r true (put_base p s)).
Proof.
  intros [I1 I2 I3 I4 I5] E. split; cbn [erase update put_base base_poller handlers need_rebuild].
  - intros r' u e. rewrite E, lookup_delete_Some. intros [Hne K]. destruct (I1 _ _ _ K) as (a & -> & Ha).
    exists a. split; [done|]. by rewrite lookup_delete_ne.
  - intros r' a. rewrite lookup_delete_Some. intros [Hne K]. destruct (I2 _ _ K) as [e Ke]. exists e.
    by rewrite E, lookup_delete_ne.
  - done.
  - intros a. apply update_heap. intros x Hx. apply I4. cbn [put_base handlers poller_handlers] in Hx.
    destruct Hx as [Hx|Hx]; [left|by right]. apply elem_of_values in Hx as [r' Hr']. apply elem_of_values.
    exists r'. by apply lookup_delete_Some in Hr' as [_ ?].
  - by apply update_fresh.
Qed.

Lemma active_remove_inv r s : active_inv s -> active_inv (active_remove r s).1 /\ kept s (active_remove r s).1.
Proof.
  intros Hi. unfold active_remove, mbind, M_bind, with_base, mlift, poller_remove.
  destruct (check_poller_cases (fun p => zmq_poller_remove p r) (base_poller s)) as [(p' & E & ->)|(p' & n & E & ->)]; cbn [fst mmodify].
  - split; [apply erased_inv; [done|]; by apply poller_remove_ok|].
    eapply kept_trans; [|apply update_kept]. by split.
  - split; [|by split]. apply put_base_inv; [done|]. by eapply poller_remove_err.
Qed.

(** A new object and a table entry that refers to it. *)
Lemma allocate_kept h s : active_inv s -> kept s (allocate h s).2.
Proof.
  intros [_ _ _ I4 I5]. split; [done| |done]. intros a Ha. cbn [allocate snd heap]. rewrite lookup_insert_ne; [done|].
  intros <-. assert (next s < next s)%nat; [|lia]. apply I5, I4. by right.
Qed.

Lemma allocate_fresh h s a : active_inv s -> is_Some (heap (allocate h s).2 !! a) -> (a < next (allocate h s).2)%nat.
Proof.
  intros [_ _ _ _ I5] [x Hx]. cbn [allocate snd heap next] in *. apply lookup_insert_Some in Hx as [[<- _]|[_ Hx]]; [lia|].
  assert (a < next s)%nat; [|lia]. apply I5. by exists x.
Qed.

Lemma allocate_referred h s a :
  active_inv s -> referred (handlers s) (poller_handlers s) a -> is_Some (heap (allocate h s).2 !! a).
Proof.
  intros [_ _ _ I4 _] Ha. cbn [allocate snd heap]. destruct (decide (next s = a)) as [<-|]; [rewrite lookup_insert_eq; eauto|].
  rewrite lookup_insert_ne by done. by apply I4.
Qed.

(** The tables of the old state, after an object was made and dropped again. *)
Lemma dropped_inv h p s s1 :
  active_inv s -> s1 = (allocate h s).2 -> poller_items p = poller_items (base_poller s) ->
  forall t, base_poller t = p -> handlers t = handlers s -> poller_events t = poller_events s ->
  poller_handlers t = poller_handlers s -> need_rebuild t = need_rebuild s -> next t = next s1 ->
  heap t = filter (fun x => referred (handlers s) (poller_handlers s) x.1) (heap s1) -> active_inv t.
Proof.
  intros Hi -> Ep t E1 E2 E3 E4 E5 E6 E7. pose proof Hi as [I1 I2 I3 _ _]. split; rewrite ?E1, ?E2, ?E3, ?E4, ?E5, ?E6, ?E7, ?Ep.
  - done.
  - done.
  - done.
  - intros a. apply (update_heap true (handlers s) 0 (poller_handlers s) (allocate h s).2).
    intros x Hx. by apply allocate_referred.
  - intros a Ha. apply (update_fresh true (handlers s) 0 (poller_handlers s) (allocate h s).2); [|exact Ha].
    intros x Hx. by apply allocate_fresh.
Qed.

Lemma added_referred hs ps r a x : hs !! r = None -> referred (<[r := a]> hs) ps x <-> x = a \/ referred hs ps x.
Proof.
  intros Hr. unfold referred. rewrite !elem_of_values. split.
  - intros [[r' Hr']|]; [|tauto]. apply lookup_insert_Some in Hr' as [[_ ->]|[_ ?]]; [tauto|]. right. left. eauto.
  - intros [->|[[r' Hr']|]]; [left; exists r; apply lookup_insert_eq| |tauto]. left. exists r'.
    rewrite lookup_insert_ne; [done|]. congruence.
Qed.

Lemma filter_twice (P1 P2 : nat * Fn -> Prop) `{!forall x, Decision (P1 x), !forall x, Decision (P2 x)} (m : gmap nat Fn) :
  (forall x, P1 x -> P2 x) -> filter P1 (filter P2 m) = filter P1 m.
Proof.
  intros Hp. apply map_eq. intros a. apply option_eq. intros h. rewrite !map_lookup_filter_Some. naive_solver.
Qed.

Lemma added_inv h r e p s :
  active_inv s -> handlers s !! r = None ->
  forall s1, s1 = (allocate h s).2 ->
  poller_items p = <[r := (Some (next s), e)]> (poller_items (base_poller s)) ->
  let s2 := put_base p (update (need_rebuild s1) (<[r := next s]> (handlers s)) (poller_events s1) (poller_handlers s1) s1) in
  active_inv (update true (handlers s2) (poller_events s2) (poller_handlers s2) s2).
Proof.
  intros Hi Hr s1 -> Ep s2. pose proof Hi as [I1 I2 I3 I4 I5].
  assert (Hh : forall x, referred (<[r := next s]> (handlers s)) (poller_handlers s) x -> is_Some (heap (allocate h s).2 !! x)).
  { intros x. rewrite added_referred by done. intros [->|Hx]; [|by apply allocate_referred].
    cbn [allocate snd heap]. rewrite lookup_insert_eq. eauto. }
  split; cbn [update put_base s2 base_poller handlers need_rebuild]; [| |done| |].
  - intros r' u e'. rewrite Ep, lookup_insert_Some. intros [[<- [= <- <-]]|[Hne K]].
    + exists (next s). by rewrite lookup_insert_eq.
    + destruct (I1 _ _ _ K) as (a & -> & Ha). exists a. by rewrite lookup_insert_ne.
  - intros r' a. rewrite lookup_insert_Some, Ep. intros [[<- <-]|[Hne K]].
    + exists e. by rewrite lookup_insert_eq.
    + destruct (I2 _ _ K) as [e' K']. exists e'. by rewrite lookup_insert_ne.
  - intros a. apply update_heap. intros x Hx. cbn [s2 put_base heap]. by apply update_heap.
  - intros a Ha. assert (Ha2 : is_Some (heap s2 !! a)).
    { destruct Ha as [x [Hx _]%map_lookup_filter_Some]. by exists x. }
    apply (update_fresh (need_rebuild s) (<[r := next s]> (handlers s)) (poller_events s) (poller_handlers s) (allocate h s).2);
      [|exact Ha2]. intros x Hx. by apply allocate_fresh.
Qed.

Lemma active_add_inv r e handler s :
  active_inv s -> active_inv (active_add r e handler s).1 /\ kept s (active_add r e handler s).1.
Proof.
  intros Hi. unfold active_add. destruct handler as [h|]; [|by split].
  pose proof (allocate_kept h s Hi) as Hk. destruct (allocate h s) as [a s1] eqn:Ea.
  assert (Es1 : s1 = (allocate h s).2) by by rewrite Ea. injection Ea as <- Es.
  assert (Eh : handlers s1 = handlers s) by by subst s1. rewrite Eh.
  destruct (handlers s !! r) as [a|] eqn:Er; cbn [fst snd] in *.
  { split; [|eapply kept_trans; [exact Hk|]; rewrite <-Eh; apply update_kept].
    eapply (dropped_inv h (base_poller s) s s1 Hi Es1 eq_refl); subst s1; done. }
  pose proof (update_kept (need_rebuild s1) (<[r := next s]> (handlers s)) (poller_events s1) s1) as Hk2.
  set (s2 := update (need_rebuild s1) (<[r := next s]> (handlers s)) (poller_events s1) (poller_handlers s1) s1) in *.
  pose proof (kept_trans _ _ _ Hk Hk2) as Hk12.
  unfold with_base, mlift, poller_add.
  destruct (check_poller_cases (fun p => zmq_poller_add p r (Some (next s)) e) (base_poller s2)) as [(p' & E & ->)|(p' & n & E & ->)]; cbn [fst].
  - apply poller_add_ok in E as [E1 E2]. split.
    2: { eapply kept_trans; [exact Hk12|]. apply (kept_trans _ (put_base p' s2)); [by split|apply update_kept]. }
    apply (added_inv h r e p' s Hi Er); [done|]. subst s2 s1. exact E2.
  - apply poller_add_err in E. split.
    2: { eapply kept_trans; [exact Hk12|]. apply (kept_trans _ (put_base p' s2)); [by split|apply update_kept]. }
    apply (dropped_inv h p' s s1 Hi Es1); [subst s2 s1; exact E|subst s2 s1..]; try done.
    + cbn [erase update put_base handlers]. by apply delete_insert_id.
    + cbn [erase update put_base handlers poller_handlers heap]. rewrite delete_insert_id by done.
      apply filter_twice. intros [a x] Ha. cbn in *. rewrite added_referred by done. by right.
Qed.

Lemma active_call_inv s s' : active_call s s' -> active_inv s -> active_inv s' /\ kept s s'.
Proof.
  intros [r e handler s0|r s0|r e s0] Hi;
    [by apply active_add_inv|by apply active_remove_inv|by apply active_modify_inv].
Qed.

Lemma active_calls_inv s s' : rtc active_call s s' -> active_inv s -> active_inv s' /\ kept s s'.
Proof.
  induction 1 as [s|s s1 s' Hc _ IH]; intros Hi; [by split|].
  destruct (active_call_inv _ _ Hc Hi) as [Hi1 Hk1]. destruct (IH Hi1) as [Hi' Hk']. split; [done|by eapply kept_trans].
Qed.

(** ** Waiting *)

Lemma rebuild_inv s : active_inv s -> active_inv (rebuild s) /\ need_rebuild (rebuild s) = false.
Proof.
  intros Hi. pose proof Hi as [I1 I2 I3 I4 I5]. unfold rebuild. destruct (need_rebuild s) eqn:E; [|by split].
  split; [|done]. split; [done|done|done| |].
  - intros a. apply update_heap. intros x [Hx|Hx]; apply I4; by left.
  - by apply update_fresh.
Qed.

Lemma rebuild_objects s a r :
  handlers s !! r = Some a -> active_inv s -> heap (rebuild s) !! a = heap s !! a.
Proof.
  intros Ha Hi. unfold rebuild. destruct (need_rebuild s); [|done]. cbn [update heap]. apply option_eq. intros h.
  rewrite map_lookup_filter_Some. split; [by intros []|]. intros Hh. split; [done|]. left. apply elem_of_values. eauto.
Qed.

Lemma note_call_inv h e s : active_inv s -> active_inv (note_call h e s).
Proof. intros []. by split. Qed.

Lemma omap_agree {A B} (f g : A -> option B) (l : list A) : (forall x, x ∈ l -> f x = g x) -> omap f l = omap g l.
Proof.
  intros Hfg. induction l as [|x l IH]; [done|]. cbn. rewrite IH by (intros y Hy; apply Hfg; by right).
  by rewrite (Hfg x) by left.
Qed.

(** The handlers called, in the order of the events, from the objects as they were
    when the dispatch began; all of them unless one throws. *)
Lemma dispatch_ok user evs s :
  handlers_call user -> active_inv s ->
  (forall r u e, (r, u, e) ∈ evs -> exists a, u = Some a /\ a ∈ poller_handlers s) ->
  exists s' res called, dispatch user evs s = Some (s', res) /\ active_inv s' /\
    calls s' = calls s ++ called /\ called `prefix_of` omap (fun ev => a ← ev.1.2; h ← heap s !! a; Some (h, ev.2)) evs /\
    (res = Ok tt -> length called = length evs).
Proof.
  intros Hu. revert s. induction evs as [|[[r u] e] evs IH]; intros s Hi Hev.
  { exists s, (Ok tt), []. rewrite app_nil_r. by split_and!. }
  destruct (Hev r u e) as (a & -> & Ha); [left|]. cbn [dispatch mbind option_bind].
  destruct (proj2 (ai_heap _ Hi a) (or_intror Ha)) as [h Hh]. rewrite Hh. cbn [omap list_omap fst snd mbind option_bind]. rewrite Hh.
  destruct (active_calls_inv _ _ (Hu h e (note_call h e s)) (note_call_inv h e s Hi)) as [Hi1 [K1 K2 K3]].
  destruct (user h e (note_call h e s)) as [s1 [[]|n]]; cbn [fst] in *.
  - destruct (IH s1 Hi1) as (s' & res & called & E & Hi' & Ec & Hp & Hl).
    { intros r' u' e' He. rewrite K1. apply Hev with r' e'. by right. }
    exists s', res, ((h, e) :: called). split_and!; [done|done| | |].
    + rewrite Ec, K3. cbn [note_call calls]. by rewrite <-app_assoc.
    + apply prefix_cons. erewrite omap_agree; [exact Hp|].
      intros [[r' u'] e'] He. cbn. destruct (Hev r' u' e') as (a' & -> & Ha'); [by right|]. cbn. by rewrite K2.
    + intros E1. cbn. by rewrite Hl.
  - exists s1, (Throw n), [(h, e)]. split_and!; [done|done|by rewrite K3| |done]. apply prefix_cons, prefix_nil.
Qed.

Lemma active_wait_ok user timeout s :
  handlers_call user -> active_inv s ->
  exists s' res called, active_wait user timeout s = Some (s', res) /\ active_inv s' /\
    calls s' = calls s ++ called /\ (forall n, res = Ok n -> length called = n) /\
    match (zmq_poller_wait_all (base_poller s) (size (handlers s)) timeout).2 with
    | inl evs => called `prefix_of` omap (fun ev => a ← handlers s !! ev.1.1; h ← heap s !! a; Some (h, ev.2)) evs
    | inr _ => called = []
    end.
Proof.
  intros Hu Hi. destruct (rebuild_inv s Hi) as [Hr Hn].
  assert (Eb : base_poller (rebuild s) = base_poller s) by (unfold rebuild; by destruct (need_rebuild s)).
  assert (Eh : handlers (rebuild s) = handlers s) by (unfold rebuild; by destruct (need_rebuild s)).
  assert (Ec : calls (rebuild s) = calls s) by (unfold rebuild; by destruct (need_rebuild s)).
  destruct (ai_rebuilt _ Hr Hn) as [Ep Ee]. unfold active_wait, with_base, mlift, poller_wait_all. rewrite Ee, Eb, Eh.
  destruct (zmq_poller_wait_all (base_poller s) (size (handlers s)) timeout) as [p [evs|e]] eqn:Ew; cbn [snd].
  - apply poller_wait_ok in Ew as (Ei & _ & _ & Hev).
    assert (Hi' : active_inv (put_base p (rebuild s))) by (apply put_base_inv; [done|by rewrite Eb]).
    destruct (dispatch_ok user evs (put_base p (rebuild s)) Hu Hi') as (s' & res & called & E & Hs & Ecs & Hp & Hl).
    { intros r u e He. destruct (Hev _ _ _ He) as [e0 K]. rewrite <-Eb in K.
      destruct (ai_items _ Hr _ _ _ K) as (a & -> & Ha). exists a. split; [done|]. cbn [put_base poller_handlers].
      rewrite Ep. apply elem_of_values. eauto. }
    rewrite E. eexists s', _, called. split; [reflexivity|]. split_and!; [done| | |].
    + rewrite Ecs. cbn [put_base calls]. by rewrite Ec.
    + destruct res as [[]|n]; [|done]. intros n [= <-]. by apply Hl.
    + erewrite omap_agree; [exact Hp|]. intros [[r u] e] He. cbn. destruct (Hev _ _ _ He) as [e0 K].
      destruct (ai_items _ Hi _ _ _ K) as (a & -> & Ha). rewrite Ha. cbn. by rewrite (rebuild_objects s a r Ha Hi).
  - apply poller_wait_err in Ew.
    assert (Hi' : active_inv (put_base p (rebuild s))) by (apply put_base_inv; [done|by rewrite Eb]).
    case_decide; eexists _, _, []; (split; [reflexivity|]); cbn [put_base calls fst snd]; rewrite app_nil_r;
      split_and!; try done. by intros n [= <-].
Qed.

Lemma active_reachable_inv user s : handlers_call user -> rtc (active_step user) active_new s -> active_inv s.
Proof.
  intros Hu Hr. revert Hr. apply (rtc_ind_r active_inv); [apply active_new_inv|].
  intros s1 s2 _ [t t' Hc|timeout t t' r E] Hi; [by destruct (active_call_inv _ _ Hc Hi)|].
  destruct (active_wait_ok user timeout t Hu Hi) as (t2 & res & called & E' & Hi' & _). congruence.
Qed.

(** ** Theorem *)

(** C38. A handler is never called after it was destroyed.  Handlers may add, modify
    and remove sockets and descriptors while events are dispatched, their own and
    those whose events are still to come, and may throw; they do not wait on the
    poller that calls them.  In every state that such a
    program reaches, [wait] finishes with defined behaviour; it calls, in the order of the
    events that libzmq reports, the handlers that were registered for them when [wait] was
    entered, each once, and all of them unless one throws; what it returns is the
    number of calls.  libzmq is given room for an event of every registration. *)
Theorem active_poller_safe user s timeout :
  handlers_call user -> rtc (active_step user) active_new s ->
  exists s' res called, active_wait user timeout s = Some (s', res) /\
    calls s' = calls s ++ called /\ (forall n, res = Ok n -> length called = n) /\
    match (zmq_poller_wait_all (base_poller s) (size (handlers s)) timeout).2 with
    | inl evs => called `prefix_of` omap (fun ev => a ← handlers s !! ev.1.1; h ← heap s !! a; Some (h, ev.2)) evs
    | inr _ => called = []
    end.
Proof.
  intros Hu Hr. pose proof (active_reachable_inv user s Hu Hr) as Hi.
  destruct (active_wait_ok user timeout s Hu Hi) as (s' & res & called & E & _ & K). eauto 10.
Qed.

End poller.
