(* ===== verification/Monitor.v ===== *)
(** * Socket monitors ([zmq.hpp], class [monitor_t])

    A [monitor_t] asks libzmq to report what happens to a socket, reads the reports
    from a PAIR socket of its own and calls a virtual function for each.  The first
    half is the decoding of reports, on the socket interface of [Wire]; the second
    half is what a monitor holds in libzmq, on the interface of [Handles] extended by
    [ZmqMonitor].  The virtual functions are constructors of [monitor_callback]. *)

From stdpp Require Import relations.
From S2P Require Import Prelude CppString MessageHeader Wire HexDump Multipart Worker Handles SocketBase.
#[local] Open Scope Z_scope.

Definition ETERM : Z := 156384765.

(** ** Reports *)

Record zmq_event_t := mkZmqEvent {
  ev_event : Z;   (** [uint16_t] *)
  ev_value : Z    (** [int32_t] *)
}.

Inductive monitor_callback :=
  | on_monitor_stopped
  | on_event_connected
  | on_event_connect_delayed
  | on_event_connect_retried
  | on_event_listening
  | on_event_bind_failed
  | on_event_accepted
  | on_event_accept_failed
  | on_event_closed
  | on_event_close_failed
  | on_event_disconnected
  | on_event_handshake_failed_no_detail
  | on_event_handshake_failed_protocol
  | on_event_handshake_failed_auth
  | on_event_handshake_succeeded
  | on_event_unknown.

Definition ZMQ_EVENT_MONITOR_STOPPED : Z := 0x0400.

(** The [switch], for libzmq 4.3 and later. *)
Definition callback_of (event : Z) : monitor_callback :=
  if decide (event = 0x0001) then on_event_connected
  else if decide (event = 0x0002) then on_event_connect_delayed
  else if decide (event = 0x0004) then on_event_connect_retried
  else if decide (event = 0x0008) then on_event_listening
  else if decide (event = 0x0010) then on_event_bind_failed
  else if decide (event = 0x0020) then on_event_accepted
  else if decide (event = 0x0040) then on_event_accept_failed
  else if decide (event = 0x0080) then on_event_closed
  else if decide (event = 0x0100) then on_event_close_failed
  else if decide (event = 0x0200) then on_event_disconnected
  else if decide (event = 0x0800) then on_event_handshake_failed_no_detail
  else if decide (event = 0x2000) then on_event_handshake_failed_protocol
  else if decide (event = 0x4000) then on_event_handshake_failed_auth
  else if decide (event = 0x1000) then on_event_handshake_succeeded
  else on_event_unknown.

(** What [process_event] does: the call it makes and its result, a failed
    assertion, or a read past the end of the message. *)
Inductive event_outcome :=
  | Returned (call : option (monitor_callback * zmq_event_t * string)) (result : bool)
  | AssertionFailed
  | Overrun.

Section reports.
Context {S : Type} `{ZmqSocket S} (little : bool).

(** The two [memcpy]. *)
Definition decode_event (frame : string) : option zmq_event_t :=
  let data := String.list_ascii_of_string frame in
  if decide (6 <= length data)%nat
  then Some (mkZmqEvent (host_value little (take 2 data)) (i32 (host_value little (take 4 (drop 2 data)))))
  else None.

Definition process_event (pollin : bool) (s : S) : S * event_outcome :=
  if negb pollin then (s, Returned None false)
  else match zmq_msg_recv s false with
  | (s, inr e) => (s, if decide (e = ETERM) then Returned None false else AssertionFailed)
  | (s, inl eventMsg) =>
      match decode_event eventMsg with
      | None => (s, Overrun)
      | Some event =>
          match zmq_msg_recv s false with
          | (s, inr e) => (s, if decide (e = ETERM) then Returned None false else AssertionFailed)
          | (s, inl address) =>
              (s, if decide (ev_event event = ZMQ_EVENT_MONITOR_STOPPED)
                  then Returned (Some (on_monitor_stopped, event, "")) false
                  else Returned (Some (callback_of (ev_event event), event, c_string address)) true)
          end
      end
  end.

(** [check_event(0)]. *)
Definition check_event (s : S) : S * event_outcome := process_event (zmq_pollin s) s.

(** Rounds of the loop of [monitor]. *)
Fixpoint check_events (n : nat) (s : S) : S * list event_outcome :=
  match n with
  | O => (s, [])
  | Datatypes.S n => let '(s, o) := check_event s in let '(s, os) := check_events n s in (s, o :: os)
  end.

(** ** Decoding *)

(** What libzmq sends for an event: its number and value as they are in memory. *)
Definition event_frame (event value : Z) : string :=
  String.string_of_list_ascii (host_bytes little 2 event ++ host_bytes little 4 value).

Lemma decode_event_frame event value :
  0 <= event < 2 ^ 16 -> in_int32 value -> decode_event (event_frame event value) = Some (mkZmqEvent event value).
Proof.
  intros He Hv. unfold decode_event, event_frame. rewrite String.list_ascii_of_string_of_list_ascii.
  rewrite decide_True by (rewrite length_app, !host_bytes_length; lia).
  rewrite take_app_length', drop_app_length' by (symmetry; apply host_bytes_length).
  rewrite take_ge by (rewrite host_bytes_length; lia). rewrite !host_value_bytes. do 2 f_equal; cbn.
  - rewrite Z.mod_small; lia.
  - unfold i32, in_int32 in *. change (256 ^ 4) with (2 ^ 32).
    rewrite Zplus_mod_idemp_l, Z.mod_small; lia.
Qed.

(** A report, and the call it leads to. *)
Record report := mkReport { rp_event : Z; rp_value : Z; rp_address : string }.

Definition report_frames (r : report) : list string := [event_frame (rp_event r) (rp_value r); rp_address r].

Definition report_outcome (r : report) : event_outcome :=
  let event := mkZmqEvent (rp_event r) (rp_value r) in
  if decide (rp_event r = ZMQ_EVENT_MONITOR_STOPPED) then Returned (Some (on_monitor_stopped, event, "")) false
  else Returned (Some (callback_of (rp_event r), event, c_string (rp_address r))) true.

Lemma check_event_report r rest s :
  0 <= rp_event r < 2 ^ 16 -> in_int32 (rp_value r) ->
  zmq_current s = [] -> zmq_pending s = report_frames r :: rest ->
  exists s', check_event s = (s', report_outcome r) /\ zmq_current s' = [] /\ zmq_pending s' = rest.
Proof.
  intros He Hv Hc Hp. unfold check_event.
  assert (zmq_pollin s = true) as -> by (unfold zmq_pollin; by rewrite Hp).
  destruct (zmq_recv_next s false _ _ _ Hc Hp) as (s1 & E1 & C1 & P1).
  destruct (zmq_recv_more s1 false _ _ C1) as (s2 & E2 & C2 & P2).
  exists s2. unfold process_event. cbn [negb]. rewrite E1, decode_event_frame, E2 by done. split_and!; [|done|congruence].
  unfold report_outcome. cbn [ev_event]. by case_decide.
Qed.

(** The monitor reads its reports one by one, in order: for each it makes exactly
    the call of that event, with the number, the value and the address that were
    sent; a report that monitoring has ended is the only one that yields false. *)
Theorem monitor_reports_exact rs s :
  Forall (fun r => 0 <= rp_event r < 2 ^ 16 /\ in_int32 (rp_value r)) rs ->
  zmq_current s = [] -> zmq_pending s = report_frames <$> rs ->
  exists s', check_events (length rs) s = (s', report_outcome <$> rs) /\ zmq_current s' = [] /\ zmq_pending s' = [].
Proof.
  intros Hr. revert s. induction Hr as [|r rs [He Hv] _ IH]; intros s Hc Hp; [by exists s|].
  destruct (check_event_report r _ s He Hv Hc Hp) as (s1 & E1 & C1 & P1).
  destruct (IH s1 C1 P1) as (s' & E' & K). exists s'. cbn [length check_events fmap list_fmap]. by rewrite E1, E'.
Qed.

End reports.

(** ** What a monitor holds *)

Class ZmqMonitor (L : Type) `{LibZmq L} := {
  (** [zmq_socket_monitor(socket, address, events)]; without an address monitoring
      ends.  [monitored]: the sockets that are monitored *)
  zmq_socket_monitor : L -> option nat -> option string -> Z -> L * option Z;
  zmq_connect_socket : L -> option nat -> string -> L * option Z;
  monitored : L -> gset nat;
  monitor_start : forall l h addr e l' r, zmq_socket_monitor l h (Some addr) e = (l', r) ->
    match r with
    | None => exists x, h = Some x /\ x ∈ sock_open l /\ monitored l' = {[x]} ∪ monitored l
    | Some _ => monitored l' = monitored l
    end;
  monitor_stop : forall l x e, x ∈ sock_open l ->
    monitored (zmq_socket_monitor l (Some x) None e).1 = monitored l ∖ {[x]};
  monitor_opens : forall l h a e, sock_open (zmq_socket_monitor l h a e).1 = sock_open l;
  connect_opens : forall l h a, sock_open (zmq_connect_socket l h a).1 = sock_open l /\
    monitored (zmq_connect_socket l h a).1 = monitored l;
  socket_monitored : forall l c ty, monitored (zmq_socket l c ty).1 = monitored l;
  close_monitored : forall l x, x ∈ sock_open l -> monitored (zmq_close l x).1 = monitored l ∖ {[x]}
}.

Section monitors.
Context {L : Type} `{ZmqMonitor L}.

Implicit Types l : L.

Definition ZMQ_PAIR : Z := 0.

Record monitor_t := mkMonitor {
  mon_socket : option nat;       (** [_socket], a reference *)
  mon_monitor_socket : socket_t  (** owned *)
}.

Implicit Types m : monitor_t.

Definition monitor_new : monitor_t := mkMonitor None socket_null.

(** [on_monitor_started], called last, is empty unless it is overridden. *)
Definition monitor_init (socket : socket_t) (addr : string) (events : Z) : M (monitor_t * L) unit := fun st =>
  let '(m, l) := st in
  match zmq_socket_monitor l (_handle socket) (Some addr) events with
  | (l, Some e) => ((m, l), Throw e)
  | (l, None) =>
      let m := mkMonitor (_handle socket) (mon_monitor_socket m) in
      match socket_new (ctxptr socket) ZMQ_PAIR l with
      | (l, Throw e) => ((m, l), Throw e)
      | (l, Ok fresh) =>
          let '(x, old, l) := socket_move_assign (mon_monitor_socket m) fresh l in
          let l := socket_destroy old l in
          let m := mkMonitor (mon_socket m) x in
          match zmq_connect_socket l (_handle x) addr with
          | (l, Some e) => ((m, l), Throw e)
          | (l, None) => ((m, l), Ok tt)
          end
      end
  end.

Definition stop_monitor m l : L :=
  match mon_socket m with
  | Some x => (zmq_socket_monitor l (Some x) None 0).1
  | None => l
  end.

Definition monitor_abort m l : monitor_t * L := (mkMonitor None (mon_monitor_socket m), stop_monitor m l).

Definition monitor_close m l : monitor_t * L :=
  let '(x, l) := socket_close (mon_monitor_socket m) (stop_monitor m l) in (mkMonitor (mon_socket m) x, l).

Definition monitor_destroy m l : L :=
  let '(m, l) := monitor_close m l in socket_destroy (mon_monitor_socket m) l.

(** The new object and what is left of the old one: both members are swapped with
    fresh ones. *)
Definition monitor_move_new (rhs : monitor_t) : monitor_t * monitor_t :=
  let '(x, y) := socket_swap socket_null (mon_monitor_socket rhs) in (mkMonitor (mon_socket rhs) x, mkMonitor None y).

Definition monitor_move_assign m (rhs : monitor_t) l : monitor_t * monitor_t * L :=
  let '(m, l) := monitor_close m l in
  let '(x, y) := socket_swap (mon_monitor_socket m) (mon_monitor_socket rhs) in
  (mkMonitor (mon_socket rhs) x, mkMonitor None y, l).

(** ** A pool of monitors *)

(** The sockets of the program are [users]; the program does not close a socket while a
    monitor refers to it, and starts a monitor only when it does not monitor anything
    (a second [init] forgets the first socket without ending its monitoring). *)
Record pool := mkPool {
  pl_lib : L;
  pl_users : gset nat;
  pl_monitors : gmap nat monitor_t
}.

Implicit Types s : pool.

Inductive mon_step : pool -> pool -> Prop :=
  | mon_create s i :
      pl_monitors s !! i = None ->
      mon_step s (mkPool (pl_lib s) (pl_users s) (<[i := monitor_new]> (pl_monitors s)))
  | mon_init s i m x c addr events m' l' r :
      pl_monitors s !! i = Some m -> mon_socket m = None -> x ∈ pl_users s ->
      monitor_init (mkSocketT (Some x) c) addr events (m, pl_lib s) = ((m', l'), r) ->
      mon_step s (mkPool l' (pl_users s) (<[i := m']> (pl_monitors s)))
  | mon_abort s i m m' l' :
      pl_monitors s !! i = Some m -> monitor_abort m (pl_lib s) = (m', l') ->
      mon_step s (mkPool l' (pl_users s) (<[i := m']> (pl_monitors s)))
  | mon_move s i j rhs m rhs' :
      pl_monitors s !! i = None -> pl_monitors s !! j = Some rhs -> monitor_move_new rhs = (m, rhs') ->
      mon_step s (mkPool (pl_lib s) (pl_users s) (<[i := m]> (<[j := rhs']> (pl_monitors s))))
  | mon_assign s i j m rhs m' rhs' l' :
      i <> j -> pl_monitors s !! i = Some m -> pl_monitors s !! j = Some rhs ->
      monitor_move_assign m rhs (pl_lib s) = (m', rhs', l') ->
      mon_step s (mkPool l' (pl_users s) (<[i := m']> (<[j := rhs']> (pl_monitors s))))
  | mon_destroy s i m :
      pl_monitors s !! i = Some m ->
      mon_step s (mkPool (monitor_destroy m (pl_lib s)) (pl_users s) (delete i (pl_monitors s)))
  | user_opens s c ty x l' :
      zmq_socket (pl_lib s) c ty = (l', inl x) ->
      mon_step s (mkPool l' ({[x]} ∪ pl_users s) (pl_monitors s))
  | user_closes s x :
      x ∈ pl_users s -> (forall i m, pl_monitors s !! i = Some m -> mon_socket m <> Some x) ->
      mon_step s (mkPool (zmq_close (pl_lib s) x).1 (pl_users s ∖ {[x]}) (pl_monitors s)).

Definition pair_handles s : gmap nat (option nat) := (fun m => _handle (mon_monitor_socket m)) <$> pl_monitors s.

(** Every PAIR socket has one owner and is none of the program's; a socket is
    monitored only while a monitor refers to it. *)
Record pool_inv s : Prop := {
  pi_pairs : owned (pair_handles s) (sock_open (pl_lib s) ∖ pl_users s);
  pi_users : pl_users s ⊆ sock_open (pl_lib s);
  pi_refs : forall i m x, pl_monitors s !! i = Some m -> mon_socket m = Some x -> x ∈ pl_users s;
  pi_monitored : forall x, x ∈ monitored (pl_lib s) -> exists i m, pl_monitors s !! i = Some m /\ mon_socket m = Some x
}.

Lemma stop_monitor_open m l : sock_open (stop_monitor m l) = sock_open l.
Proof. unfold stop_monitor. destruct (mon_socket m); [apply monitor_opens|done]. Qed.

Lemma stop_monitor_monitored m l y :
  (forall x, mon_socket m = Some x -> x ∈ sock_open l) ->
  y ∈ monitored (stop_monitor m l) -> y ∈ monitored l /\ mon_socket m <> Some y.
Proof.
  intros Ho. unfold stop_monitor. destruct (mon_socket m) as [x|]; [|done].
  rewrite monitor_stop by auto. set_solver.
Qed.

(** Closing a socket that is open, or none. *)
Lemma socket_close_monitored x l y :
  (forall h, _handle x = Some h -> h ∈ sock_open l) -> y ∈ monitored (socket_close x l).2 -> y ∈ monitored l.
Proof.
  intros Hx. unfold socket_close. destruct (_handle x) as [h|]; [|done]. cbn [snd]. rewrite close_monitored by auto. set_solver.
Qed.

Definition without (X : gset nat) (o : option nat) : gset nat := match o with Some h => X ∖ {[h]} | None => X end.

Lemma monitor_close_ok m l :
  (forall x, mon_socket m = Some x -> x ∈ sock_open l) ->
  (forall h, _handle (mon_monitor_socket m) = Some h -> h ∈ sock_open l) ->
  _handle (mon_monitor_socket (monitor_close m l).1) = None /\
  sock_open (monitor_close m l).2 = without (sock_open l) (_handle (mon_monitor_socket m)) /\
  forall y, y ∈ monitored (monitor_close m l).2 -> y ∈ monitored l /\ mon_socket m <> Some y.
Proof.
  intros Hs Hp. unfold monitor_close.
  destruct (socket_close_open (mon_monitor_socket m) (stop_monitor m l)) as (E1 & _ & E2); [by rewrite stop_monitor_open|].
  pose proof (fun y => socket_close_monitored (mon_monitor_socket m) (stop_monitor m l) y) as K.
  rewrite stop_monitor_open in E2, K. destruct (socket_close _ _) as [x l']. cbn [fst snd mon_monitor_socket] in *.
  split_and!; [done|exact E2|]. intros y Hy. apply stop_monitor_monitored; auto.
Qed.

(** Other monitors keep the sockets they refer to. *)
Lemma pool_pair_open s i m h :
  pool_inv s -> pl_monitors s !! i = Some m -> _handle (mon_monitor_socket m) = Some h ->
  h ∈ sock_open (pl_lib s) /\ h ∉ pl_users s.
Proof.
  intros [Ho _ _ _] Hi Hh. apply elem_of_difference, (ow_open _ _ Ho). exists i.
  unfold pair_handles. by rewrite lookup_fmap, Hi, <-Hh.
Qed.

Lemma pool_ref_open s i m x : pool_inv s -> pl_monitors s !! i = Some m -> mon_socket m = Some x -> x ∈ sock_open (pl_lib s).
Proof. intros [_ Hu Hr _] Hi Hx. by eapply Hu, Hr. Qed.

Lemma monitor_init_ok m x c addr events l m' l' r :
  x ∈ sock_open l -> mon_socket m = None -> (forall h, _handle (mon_monitor_socket m) = Some h -> h ∈ sock_open l) ->
  monitor_init (mkSocketT (Some x) c) addr events (m, l) = ((m', l'), r) ->
  (mon_socket m' = None /\ monitored l' = monitored l \/
   mon_socket m' = Some x /\ monitored l' ⊆ {[x]} ∪ monitored l) /\
  (mon_monitor_socket m' = mon_monitor_socket m /\ sock_open l' = sock_open l \/
   exists h, _handle (mon_monitor_socket m') = Some h /\ h ∉ sock_open l /\
     sock_open l' = {[h]} ∪ without (sock_open l) (_handle (mon_monitor_socket m))).
Proof.
  intros Hx Hm Hp. unfold monitor_init. cbn [_handle ctxptr].
  destruct (zmq_socket_monitor l (Some x) (Some addr) events) as [l1 [e|]] eqn:E1.
  { intros [= <- <- <-]. pose proof (monitor_start _ _ _ _ _ _ E1) as K. cbn in K.
    pose proof (monitor_opens l (Some x) (Some addr) events) as K2. rewrite E1 in K2. cbn in K2. by split; left. }
  destruct (monitor_start _ _ _ _ _ _ E1) as (x' & [= <-] & _ & K1).
  pose proof (monitor_opens l (Some x) (Some addr) events) as K2. rewrite E1 in K2. cbn in K2.
  unfold socket_new. destruct (zmq_socket l1 c ZMQ_PAIR) as [l2 r2] eqn:E2.
  pose proof (socket_monitored l1 c ZMQ_PAIR) as K3. rewrite E2 in K3. cbn in K3.
  destruct (socket_ok _ _ _ _ _ E2) as [_ K4]. destruct r2 as [h|e].
  2: { intros [= <- <- <-]. cbn [mon_socket mon_monitor_socket]. split; [right|left]; split; try done; [|congruence].
       rewrite K3, K1. done. }
  destruct K4 as [K4 K5]. rewrite K2 in K4, K5. unfold socket_move_assign. cbn [mon_monitor_socket].
  destruct (socket_close_open (mon_monitor_socket m) l2) as (C1 & _ & C2).
  { intros h' Hh'. rewrite K5. apply elem_of_union_r. auto. }
  pose proof (fun y => socket_close_monitored (mon_monitor_socket m) l2 y) as C3. rewrite K5 in C3.
  destruct (socket_close (mon_monitor_socket m) l2) as [old l3]. cbn [fst snd _handle ctxptr] in *.
  unfold socket_destroy, socket_close. cbn [_handle]. rewrite C1. cbn [snd mon_socket mon_monitor_socket _handle].
  destruct (connect_opens l3 (Some h) addr) as [D1 D2].
  assert (Hres : forall l4, sock_open l4 = sock_open l3 -> monitored l4 = monitored l3 ->
    (Some x = None /\ monitored l4 = monitored l \/ Some x = Some x /\ monitored l4 ⊆ {[x]} ∪ monitored l) /\
    (mkSocketT (Some h) c = mon_monitor_socket m /\ sock_open l4 = sock_open l \/
     exists h0, Some h = Some h0 /\ h0 ∉ sock_open l /\
       sock_open l4 = {[h0]} ∪ without (sock_open l) (_handle (mon_monitor_socket m)))).
  { intros l4 F1 F2. split; right.
    - split; [done|]. rewrite F2. intros y Hy. rewrite <-K1, <-K3. apply C3; [|done]. intros h' Hh'. apply elem_of_union_r. auto.
    - exists h. split_and!; [done|done|]. rewrite F1, C2, K5.
      destruct (_handle (mon_monitor_socket m)) as [h'|] eqn:Eh; cbn [without]; [|done].
      assert (h' <> h) by (intros ->; apply K4; auto). set_solver. }
  destruct (zmq_connect_socket l3 (Some h) addr) as [l4 [e|]]; intros [= <- <- <-]; cbn [mon_socket mon_monitor_socket _handle]; by apply Hres.
Qed.

(** ** Invariant *)

Lemma pair_handles_insert l X i m ms :
  pair_handles (mkPool l X (<[i := m]> ms)) = <[i := _handle (mon_monitor_socket m)]> (pair_handles (mkPool l X ms)).
Proof. unfold pair_handles. cbn [pl_monitors]. by rewrite fmap_insert. Qed.

Lemma pair_handles_lookup s i m :
  pl_monitors s !! i = Some m -> pair_handles s !! i = Some (_handle (mon_monitor_socket m)).
Proof. intros Hi. unfold pair_handles. by rewrite lookup_fmap, Hi. Qed.

(** One monitor changes, and what it refers to and owns with it. *)
Lemma replace_monitor_inv s i m l' :
  pool_inv s ->
  owned (<[i := _handle (mon_monitor_socket m)]> (pair_handles s)) (sock_open l' ∖ pl_users s) ->
  pl_users s ⊆ sock_open l' -> (forall x, mon_socket m = Some x -> x ∈ pl_users s) ->
  (forall y, y ∈ monitored l' -> mon_socket m = Some y \/
     exists j m', j <> i /\ pl_monitors s !! j = Some m' /\ mon_socket m' = Some y) ->
  pool_inv (mkPool l' (pl_users s) (<[i := m]> (pl_monitors s))).
Proof.
  intros [I1 I2 I3 I4] Ho Hu Hr Hm. split; cbn [pl_lib pl_users pl_monitors].
  - by rewrite pair_handles_insert.
  - done.
  - intros j m' x [[<- <-]|[_ Hj]]%lookup_insert_Some; eauto.
  - intros y Hy. destruct (Hm y Hy) as [E|(j & m' & Hne & Hj & E)].
    + exists i, m. by rewrite lookup_insert_eq.
    + exists j, m'. by rewrite lookup_insert_ne.
Qed.

(** A socket is monitored on behalf of some other monitor, or of this one. *)
Lemma monitored_others s i m y :
  pool_inv s -> pl_monitors s !! i = Some m -> y ∈ monitored (pl_lib s) -> mon_socket m <> Some y ->
  exists j m', j <> i /\ pl_monitors s !! j = Some m' /\ mon_socket m' = Some y.
Proof.
  intros [_ _ _ I4] Hi Hy Hne. destruct (I4 y Hy) as (j & m' & Hj & E). exists j, m'.
  split_and!; [|done|done]. intros ->. congruence.
Qed.

Lemma without_users s i m :
  pool_inv s -> pl_monitors s !! i = Some m ->
  owned (<[i := None]> (pair_handles s))
    (without (sock_open (pl_lib s)) (_handle (mon_monitor_socket m)) ∖ pl_users s) /\
  pl_users s ⊆ without (sock_open (pl_lib s)) (_handle (mon_monitor_socket m)).
Proof.
  intros Hs Hi. pose proof (owned_release _ _ _ _ (pi_pairs _ Hs) (pair_handles_lookup s i m Hi)) as K.
  pose proof (pool_pair_open s i m) as Hp. pose proof (pi_users _ Hs) as Hu.
  destruct (_handle (mon_monitor_socket m)) as [h|]; cbn [without]; [|done].
  destruct (Hp h Hs Hi eq_refl) as [H1 H2]. split; [|set_solver].
  replace ((sock_open (pl_lib s) ∖ {[h]}) ∖ pl_users s) with ((sock_open (pl_lib s) ∖ pl_users s) ∖ {[h]}) by set_solver.
  exact K.
Qed.

Lemma mon_init_inv s i m x c addr events m' l' r :
  pool_inv s -> pl_monitors s !! i = Some m -> mon_socket m = None -> x ∈ pl_users s ->
  monitor_init (mkSocketT (Some x) c) addr events (m, pl_lib s) = ((m', l'), r) ->
  pool_inv (mkPool l' (pl_users s) (<[i := m']> (pl_monitors s))).
Proof.
  intros Hs Hi Hm Hx E.
  destruct (monitor_init_ok _ _ _ _ _ _ _ _ _ (pi_users _ Hs x Hx) Hm (fun h Hh => proj1 (pool_pair_open s i m h Hs Hi Hh)) E)
    as [Hmon Hpair].
  apply replace_monitor_inv; [done|..].
  - destruct Hpair as [[-> ->]|(h & -> & Hn & ->)].
    + rewrite insert_id; [apply Hs|]. by apply pair_handles_lookup.
    + destruct (without_users s i m Hs Hi) as [K1 K2].
      rewrite <-insert_delete_eq. replace (({[h]} ∪ without (sock_open (pl_lib s)) (_handle (mon_monitor_socket m))) ∖ pl_users s)
        with ({[h]} ∪ (without (sock_open (pl_lib s)) (_handle (mon_monitor_socket m)) ∖ pl_users s)).
      2: { pose proof (pi_users _ Hs). assert (h ∉ pl_users s) by set_solver. set_solver. }
      apply owned_create; [|apply lookup_delete_eq|].
      * apply (owned_forget _ _ i) in K1; [|apply lookup_insert_eq]. by rewrite delete_insert_eq in K1.
      * unfold without. destruct (_handle (mon_monitor_socket m)); set_solver.
  - destruct Hpair as [[_ ->]|(h & _ & _ & ->)]; [apply Hs|].
    destruct (without_users s i m Hs Hi) as [_ K2]. set_solver.
  - intros y Hy. destruct Hmon as [[E1 _]|[E1 _]]; [congruence|]. rewrite E1 in Hy. by injection Hy as <-.
  - intros y Hy. destruct Hmon as [[_ Em]|[Ex Em]].
    + rewrite Em in Hy. right. apply (monitored_others s i m y Hs Hi Hy). by rewrite Hm.
    + apply Em, elem_of_union in Hy as [->%elem_of_singleton|Hy]; [by left|].
      right. apply (monitored_others s i m y Hs Hi Hy). by rewrite Hm.
Qed.

Lemma mon_assign_inv s i j m rhs m' rhs' l' :
  pool_inv s -> i <> j -> pl_monitors s !! i = Some m -> pl_monitors s !! j = Some rhs ->
  monitor_move_assign m rhs (pl_lib s) = (m', rhs', l') ->
  pool_inv (mkPool l' (pl_users s) (<[i := m']> (<[j := rhs']> (pl_monitors s)))).
Proof.
  intros Hs Hne Hi Hj E. unfold monitor_move_assign in E.
  destruct (monitor_close_ok m (pl_lib s)) as (C1 & C2 & C3).
  { intros x Hx. exact (pool_ref_open s i m x Hs Hi Hx). } { intros h Hh. exact (proj1 (pool_pair_open s i m h Hs Hi Hh)). }
  destruct (monitor_close m (pl_lib s)) as [m1 l1]. cbn [fst snd] in *. unfold socket_swap in E. injection E as <- <- <-.
  pose proof (owned_replace _ _ _ _ _ _ (pi_pairs _ Hs) Hne (pair_handles_lookup _ _ _ Hi) (pair_handles_lookup _ _ _ Hj)) as K.
  destruct (without_users s i m Hs Hi) as [_ Ku].
  split; cbn [pl_lib pl_users pl_monitors]; rewrite ?C2.
  - rewrite !pair_handles_insert. cbn [mon_monitor_socket _handle]. rewrite C1.
    replace (without (sock_open (pl_lib s)) (_handle (mon_monitor_socket m)) ∖ pl_users s)
      with (without (sock_open (pl_lib s) ∖ pl_users s) (_handle (mon_monitor_socket m)));
      [exact K|unfold without; destruct (_handle (mon_monitor_socket m)); set_solver].
  - done.
  - intros k mk x [[<- <-]|[_ [[<- <-]|[_ Hk]]%lookup_insert_Some]]%lookup_insert_Some Hx; [|done|].
    + by eapply (pi_refs _ Hs j rhs).
    + by eapply (pi_refs _ Hs).
  - intros y Hy. apply C3 in Hy as [Hy Hmy]. destruct (monitored_others s i m y Hs Hi Hy Hmy) as (k & mk & Hki & Hk & Ek).
    destruct (decide (k = j)) as [->|Hkj].
    + exists i, (mkMonitor (mon_socket rhs) (mkSocketT (_handle (mon_monitor_socket rhs)) (ctxptr (mon_monitor_socket rhs)))).
      rewrite lookup_insert_eq. split; [done|]. cbn. congruence.
    + exists k, mk. by rewrite !lookup_insert_ne.
Qed.

Lemma mon_destroy_inv s i m :
  pool_inv s -> pl_monitors s !! i = Some m ->
  pool_inv (mkPool (monitor_destroy m (pl_lib s)) (pl_users s) (delete i (pl_monitors s))).
Proof.
  intros Hs Hi. unfold monitor_destroy.
  destruct (monitor_close_ok m (pl_lib s)) as (C1 & C2 & C3).
  { intros x Hx. exact (pool_ref_open s i m x Hs Hi Hx). } { intros h Hh. exact (proj1 (pool_pair_open s i m h Hs Hi Hh)). }
  destruct (monitor_close m (pl_lib s)) as [m1 l1]. cbn [fst snd] in *.
  unfold socket_destroy, socket_close. rewrite C1. cbn [snd].
  destruct (without_users s i m Hs Hi) as [K Ku]. split; cbn [pl_lib pl_users pl_monitors]; rewrite ?C2.
  - apply (owned_forget _ _ i) in K; [|apply lookup_insert_eq]. rewrite delete_insert_eq in K.
    unfold pair_handles. cbn [pl_monitors]. by rewrite fmap_delete.
  - done.
  - intros k mk x [_ Hk]%lookup_delete_Some Hx. by eapply (pi_refs _ Hs).
  - intros y Hy. apply C3 in Hy as [Hy Hmy]. destruct (monitored_others s i m y Hs Hi Hy Hmy) as (k & mk & Hki & Hk & Ek).
    exists k, mk. by rewrite lookup_delete_ne.
Qed.

Lemma mon_step_inv s s' : mon_step s s' -> pool_inv s -> pool_inv s'.
Proof.
  intros [t i Hi|t i m x c addr events m' l' r Hi Hm Hx E|t i m m' l' Hi E|t i j rhs m rhs' Hi Hj E
    |t i j m rhs m' rhs' l' Hne Hi Hj E|t i m Hi|t c ty x l' E|t x Hx Hn] Hs.
  - destruct Hs as [I1 I2 I3 I4]. split; cbn [pl_lib pl_users pl_monitors]; [| |intros k mk y|intros y Hy].
    + rewrite pair_handles_insert. apply owned_null; [done|]. unfold pair_handles. cbn. by rewrite lookup_fmap, Hi.
    + done.
    + intros [[<- <-]|[_ Hk]]%lookup_insert_Some; [done|]. eauto.
    + destruct (I4 y Hy) as (k & mk & Hk & Ek). exists k, mk. rewrite lookup_insert_ne; [done|congruence].
  - by eapply mon_init_inv.
  - injection E as <- <-. apply replace_monitor_inv; [done|..]; rewrite ?stop_monitor_open; cbn [mon_monitor_socket mon_socket].
    + rewrite insert_id; [apply Hs|]. by apply pair_handles_lookup.
    + apply Hs.
    + done.
    + intros y Hy. apply stop_monitor_monitored in Hy as [Hy Hmy];
        [|intros x Hx; exact (pool_ref_open t i m x Hs Hi Hx)].
      right. by eapply monitored_others.
  - unfold monitor_move_new, socket_swap in E. injection E as <- <-. assert (i <> j) by congruence.
    destruct Hs as [I1 I2 I3 I4]. split; cbn [pl_lib pl_users pl_monitors]; [| |intros k mk y|intros y Hy].
    + rewrite !pair_handles_insert. cbn [mon_monitor_socket _handle socket_null].
      apply owned_take; [done| |by apply pair_handles_lookup]. unfold pair_handles. cbn. by rewrite lookup_fmap, Hi.
    + done.
    + intros [[<- <-]|[_ [[<- <-]|[_ Hk]]%lookup_insert_Some]]%lookup_insert_Some; [|done|by apply (I3 k)].
      apply (I3 j rhs y Hj).
    + destruct (I4 y Hy) as (k & mk & Hk & Ek). destruct (decide (k = j)) as [->|Hkj].
      * exists i. eexists. rewrite lookup_insert_eq. split; [done|]. cbn. congruence.
      * exists k, mk. rewrite !lookup_insert_ne; [done|done|congruence].
  - by eapply mon_assign_inv.
  - by apply mon_destroy_inv.
  - pose proof (socket_monitored (pl_lib t) c ty) as K. rewrite E in K. cbn in K.
    destruct (socket_ok _ _ _ _ _ E) as (_ & Hx & Eo). destruct Hs as [I1 I2 I3 I4].
    split; cbn [pl_lib pl_users pl_monitors]; rewrite ?Eo, ?K.
    + replace (({[x]} ∪ sock_open (pl_lib t)) ∖ ({[x]} ∪ pl_users t)) with (sock_open (pl_lib t) ∖ pl_users t) by set_solver.
      exact I1.
    + set_solver.
    + intros k mk y Hk Hy. apply elem_of_union_r. eauto.
    + done.
  - pose proof (pi_users _ Hs x Hx) as Ho. destruct (close_ok _ _ Ho) as (l' & E & _ & Eo).
    pose proof (close_monitored _ _ Ho) as K. rewrite E in K |- *. cbn [fst] in *. destruct Hs as [I1 I2 I3 I4].
    split; cbn [pl_lib pl_users pl_monitors]; rewrite ?Eo, ?K.
    + replace ((sock_open (pl_lib t) ∖ {[x]}) ∖ (pl_users t ∖ {[x]})) with (sock_open (pl_lib t) ∖ pl_users t) by set_solver.
      exact I1.
    + set_solver.
    + intros k mk y Hk Hy. apply elem_of_difference. split; [eauto|]. intros ->%elem_of_singleton. by eapply Hn.
    + intros y [Hy _]%elem_of_difference. eauto.
Qed.

(** ** Theorem *)

(** A monitor leaves nothing behind.  Over all constructions, starts (successful or
    not), aborts, moves, assignments and destructions of monitors, a socket is
    monitored only while some monitor object refers to it, every PAIR socket that a monitor
    opened has exactly one owner, and when all monitor objects are gone no socket is
    monitored and only the program's own sockets are open. *)
Theorem monitors_released l X s :
  monitored l = ∅ -> sock_open l = X -> rtc mon_step (mkPool l X ∅) s ->
  (forall x, x ∈ monitored (pl_lib s) -> exists i m, pl_monitors s !! i = Some m /\ mon_socket m = Some x) /\
  owned (pair_handles s) (sock_open (pl_lib s) ∖ pl_users s) /\
  (pl_monitors s = ∅ -> monitored (pl_lib s) = ∅ /\ sock_open (pl_lib s) = pl_users s).
Proof.
  intros Hm Ho Hr. assert (Hs : pool_inv s).
  { revert Hr. apply (rtc_ind_r pool_inv); [|by intros; eapply mon_step_inv].
    split; cbn [pl_lib pl_users pl_monitors]; [|by rewrite Ho|done|by rewrite Hm].
    unfold pair_handles. cbn. rewrite fmap_empty, Ho, difference_diag_L. split; [|done].
    intros h. split; [by intros ?%elem_of_empty|]. intros [i Hi]. by rewrite lookup_empty in Hi. }
  pose proof Hs as [I1 I2 I3 I4]. split_and!; [done|done|]. intros E. split.
  - apply set_eq. intros x. split; [|by intros ?%elem_of_empty]. intros Hx. destruct (I4 x Hx) as (i & m & Hi & _).
    by rewrite E, lookup_empty in Hi.
  - apply set_eq. intros x. split; [|apply I2]. intros Hx. destruct (decide (x ∈ pl_users s)) as [|Hn]; [done|].
    destruct (proj1 (ow_open _ _ I1 x)) as [i Hi]; [set_solver|]. unfold pair_handles in Hi.
    by rewrite E, fmap_empty, lookup_empty in Hi.
Qed.

End monitors.
