(* ===== verification/Setup.v ===== *)
(** * How the threads set up their sockets

    The first lines of [ZmqWorker::run] ([common/zmqworker.cpp]), of [ZmqBroker::run]
    ([server/zmqbroker.cpp]) and of [InspectorWorker::run]
    ([inspector/inspectorworker.cpp]), on the option and endpoint calls of [SocketBase].
    What libzmq documents about them is the interface [SocketSetup]. *)

From S2P Require Import Prelude CppString Keys Wire Multipart SocketBase.
#[local] Open Scope Z_scope.

Definition ZMQ_ROUTING_ID : Z := 5.
Definition ZMQ_SUBSCRIBE : Z := 6.
Definition ZMQ_LINGER : Z := 17.
Definition ZMQ_MAXMSGSIZE : Z := 22.
Definition ZMQ_ROUTER_MANDATORY : Z := 33.

Definition ZMQ_SUB : Z := 2.
Definition ZMQ_ROUTER : Z := 6.

Class SocketSetup (S : Type) `{SocketApi S} := {
  socket_type : S -> Z;
  (** the values that were set *)
  options : S -> gmap Z string;
  (** what was bound (true) or connected, with the options that were in force *)
  endpoints : S -> list (bool * string * gmap Z string);
  setup_set : forall s o v s' r, zmq_setsockopt s o v = (s', r) ->
    socket_type s' = socket_type s /\ endpoints s' = endpoints s /\
    options s' = (if r then options s else <[o := v]> (options s));
  setup_bind : forall s a s' r, zmq_bind s a = (s', r) ->
    socket_type s' = socket_type s /\ options s' = options s /\
    endpoints s' = endpoints s ++ (if r then [] else [(true, a, options s)]);
  setup_connect : forall s a s' r, zmq_connect s a = (s', r) ->
    socket_type s' = socket_type s /\ options s' = options s /\
    endpoints s' = endpoints s ++ (if r then [] else [(false, a, options s)]);
  (** an [int], an [int64_t]; every socket takes them *)
  takes_linger : forall s v, slen v = 4 -> (zmq_setsockopt s ZMQ_LINGER v).2 = None;
  takes_maxmsgsize : forall s v, slen v = 8 -> (zmq_setsockopt s ZMQ_MAXMSGSIZE v).2 = None;
  takes_mandatory : forall s v, socket_type s = ZMQ_ROUTER -> slen v = 4 ->
    (zmq_setsockopt s ZMQ_ROUTER_MANDATORY v).2 = None;
  takes_subscribe : forall s v, socket_type s = ZMQ_SUB -> (zmq_setsockopt s ZMQ_SUBSCRIBE v).2 = None;
  (** a routing id has 1 to 255 bytes *)
  takes_routing_id : forall s v, (zmq_setsockopt s ZMQ_ROUTING_ID v).2 =
    if decide (1 <= slen v <= 255) then None else Some E_INVAL
}.

Section setup.
Context {S : Type} `{SocketSetup S} (little : bool).

Implicit Types s : S.

Definition int_bytes (v : Z) : string := String.string_of_list_ascii (host_bytes little 4 v).
Definition int64_bytes (v : Z) : string := String.string_of_list_ascii (host_bytes little 8 v).

(** ** The three threads *)

Definition worker_socket (config : ConnectionConfig) : M S unit :=
  _ ← set_integral ZMQ_LINGER int_bytes 100;
  _ ← set_string ZMQ_ROUTING_ID (clientId config);
  _ ← set_integral ZMQ_MAXMSGSIZE int64_bytes MAX_MESSAGE_SIZE_BYTES;
  connect (address config).

Definition inspectorConnection : string := "ipc:///tmp/broker_inspector.sock".

Definition on_router {T} (m : M S T) : M (S * S) T := mlift fst (fun s p => (s, p.2)) m.
Definition on_inspector {T} (m : M S T) : M (S * S) T := mlift snd (fun s p => (p.1, s)) m.

(** The router and the inspector's socket; an address that cannot be bound is
    reported and left out. *)
Definition broker_sockets (addresses : list string) : M (S * S) unit :=
  _ ← on_router (set_integral ZMQ_LINGER int_bytes 0);
  _ ← on_router (set_integral ZMQ_ROUTER_MANDATORY int_bytes 1);
  _ ← on_router (set_integral ZMQ_MAXMSGSIZE int64_bytes MAX_MESSAGE_SIZE_BYTES);
  _ ← on_inspector (set_integral ZMQ_LINGER int_bytes 0);
  _ ← try_ignore (on_inspector (bind inspectorConnection));
  mfor (fun addr => try_ignore (on_router (bind addr))) addresses.

Definition inspector_socket : M S unit :=
  _ ← set_integral ZMQ_MAXMSGSIZE int64_bytes MAX_MESSAGE_SIZE_BYTES;
  _ ← connect inspectorConnection;
  set_cstring ZMQ_SUBSCRIBE "".

(** ** Single calls *)

Lemma int_bytes_length v : slen (int_bytes v) = 4.
Proof. unfold int_bytes. by rewrite slen_of_list, host_bytes_length. Qed.

Lemma int64_bytes_length v : slen (int64_bytes v) = 8.
Proof. unfold int64_bytes. by rewrite slen_of_list, host_bytes_length. Qed.

(** The state of a socket as far as the set-up goes. *)
Record at_setup (ty : Z) (opts : gmap Z string) (eps : list (bool * string * gmap Z string)) s : Prop := {
  as_type : socket_type s = ty;
  as_options : options s = opts;
  as_endpoints : endpoints s = eps
}.

(** An option that is taken. *)
Lemma set_option_ok ty opts eps o v s :
  at_setup ty opts eps s -> (zmq_setsockopt s o v).2 = None ->
  exists s', set_option o v s = (s', Ok tt) /\ at_setup ty (<[o := v]> opts) eps s'.
Proof.
  intros [E1 E2 E3] Hn. unfold set_option. destruct (zmq_setsockopt s o v) as [s' r] eqn:E. cbn in Hn. subst r.
  apply setup_set in E as (K1 & K2 & K3). exists s'. split; [done|]. split; congruence.
Qed.

(** An endpoint: added with the options in force, or an error and no change. *)
Lemma bind_cases ty opts eps a s :
  at_setup ty opts eps s ->
  (exists s', bind a s = (s', Ok tt) /\ at_setup ty opts (eps ++ [(true, c_string a, opts)]) s') \/
  (exists s' e, bind a s = (s', Throw e) /\ (zmq_bind s (c_string a)).2 = Some e /\ at_setup ty opts eps s').
Proof.
  intros [E1 E2 E3]. unfold bind. destruct (zmq_bind s (c_string a)) as [s' [e|]] eqn:E;
    apply setup_bind in E as (K1 & K2 & K3); [right|left]; eexists; [eexists|]; (split; [reflexivity|]).
  - split; [done|]. rewrite app_nil_r in K3. split; congruence.
  - split; congruence.
Qed.

Lemma connect_cases ty opts eps a s :
  at_setup ty opts eps s ->
  match (zmq_connect s (c_string a)).2 with
  | None => exists s', connect a s = (s', Ok tt) /\ at_setup ty opts (eps ++ [(false, c_string a, opts)]) s'
  | Some e => exists s', connect a s = (s', Throw e) /\ at_setup ty opts eps s'
  end.
Proof.
  intros [E1 E2 E3]. unfold connect. destruct (zmq_connect s (c_string a)) as [s' [e|]] eqn:E;
    apply setup_connect in E as (K1 & K2 & K3); cbn; eexists; (split; [reflexivity|]).
  - rewrite app_nil_r in K3. split; congruence.
  - split; congruence.
Qed.

(** ** The worker *)

Definition worker_options (config : ConnectionConfig) : gmap Z string :=
  <[ZMQ_MAXMSGSIZE := int64_bytes MAX_MESSAGE_SIZE_BYTES]> (<[ZMQ_ROUTING_ID := clientId config]>
    {[ZMQ_LINGER := int_bytes 100]}).

(** C25. The identity of a client: the worker's thread gets past its set-up only with
    a client id of 1 to 255 bytes and an address that libzmq accepts.  It is then
    connected to that address and to nothing else, and when it was connected the
    routing id was the client id, by which the broker's router will address it, and the limit
    on the size of messages was in force.  With any other client id, the empty one of a default
    configuration included, the thread ends with an exception before it connects. *)
Theorem worker_socket_identity config ty s :
  at_setup ty ∅ [] s ->
  let '(s', r) := worker_socket config s in
  match r with
  | Ok _ => 1 <= slen (clientId config) <= 255 /\
      endpoints s' = [(false, c_string (address config), worker_options config)]
  | Throw e => endpoints s' = [] /\ (e = E_INVAL \/ 1 <= slen (clientId config) <= 255)
  end /\
  (~ 1 <= slen (clientId config) <= 255 -> r = Throw E_INVAL) /\
  (1 <= slen (clientId config) <= 255 -> (forall s1, (zmq_connect s1 (c_string (address config))).2 = None) -> r = Ok tt).
Proof.
  intros Hs. unfold worker_socket.
  destruct (set_option_ok _ _ _ ZMQ_LINGER (int_bytes 100) s Hs) as (s1 & E1 & A1);
    [apply takes_linger, int_bytes_length|]. unfold set_integral at 1. rewrite (bind_ok _ _ _ _ _ E1).
  pose proof (takes_routing_id s1 (clientId config)) as Hr.
  destruct (decide (1 <= slen (clientId config) <= 255)) as [Hd|Hd].
  - destruct (set_option_ok _ _ _ ZMQ_ROUTING_ID (clientId config) s1 A1 Hr) as (s2 & E2 & A2).
    unfold set_string. rewrite (bind_ok _ _ _ _ _ E2).
    destruct (set_option_ok _ _ _ ZMQ_MAXMSGSIZE (int64_bytes MAX_MESSAGE_SIZE_BYTES) s2 A2) as (s3 & E3 & A3);
      [apply takes_maxmsgsize, int64_bytes_length|]. unfold set_integral. rewrite (bind_ok _ _ _ _ _ E3).
    pose proof (connect_cases _ _ _ (address config) s3 A3) as Hc.
    destruct (zmq_connect s3 (c_string (address config))).2 as [e|] eqn:Ee; destruct Hc as (s4 & E4 & A4); rewrite E4.
    + split_and!; [apply A4|by right|done|]. intros _ K. by rewrite K in Ee.
    + split_and!; [lia|lia|by rewrite (as_endpoints _ _ _ _ A4)|done|done].
  - destruct (zmq_setsockopt s1 ZMQ_ROUTING_ID (clientId config)) as [s2 r] eqn:E2. cbn in Hr. subst r.
    assert (E : set_string ZMQ_ROUTING_ID (clientId config) s1 = (s2, Throw E_INVAL))
      by (unfold set_string, set_option; by rewrite E2).
    rewrite (bind_throw _ _ _ _ _ E). apply setup_set in E2 as (_ & K & _).
    split_and!; [rewrite K; apply A1|by left|done|lia].
Qed.

(** ** The broker and the inspector *)

Definition router_options : gmap Z string :=
  <[ZMQ_MAXMSGSIZE := int64_bytes MAX_MESSAGE_SIZE_BYTES]> (<[ZMQ_ROUTER_MANDATORY := int_bytes 1]>
    {[ZMQ_LINGER := int_bytes 0]}).

Lemma lift_ok {T} (m : M S T) p s' r : m p.1 = (s', r) -> on_router m p = ((s', p.2), r).
Proof. intros E. unfold on_router, mlift. by rewrite E. Qed.

Lemma lift_inspector_ok {T} (m : M S T) p s' r : m p.2 = (s', r) -> on_inspector m p = ((p.1, s'), r).
Proof. intros E. unfold on_inspector, mlift. by rewrite E. Qed.

(** The loop over the addresses. *)
Lemma bind_loop ty opts addresses i : forall eps s,
  at_setup ty opts eps s ->
  exists s' bound, mfor (fun addr => try_ignore (on_router (bind addr))) addresses (s, i) = ((s', i), Ok tt) /\
    at_setup ty opts (eps ++ ((fun a => (true, c_string a, opts)) <$> bound)) s' /\ bound `sublist_of` addresses /\
    forall a, a ∈ addresses -> (forall s, (zmq_bind s (c_string a)).2 = None) -> a ∈ bound.
Proof.
  induction addresses as [|a l IH]; intros eps s Hs.
  { exists s, []. rewrite app_nil_r. split_and!; [done..|]. by intros a ?%elem_of_nil. }
  cbn [mfor]. destruct (bind_cases _ _ _ a s Hs) as [(s1 & E1 & A1)|(s1 & e & E1 & Ee & A1)];
    (assert (Et : try_ignore (on_router (bind a)) (s, i) = ((s1, i), Ok tt))
      by (unfold try_ignore; by rewrite (lift_ok _ (s, i) _ _ E1))); rewrite (bind_ok _ _ _ _ _ Et);
    destruct (IH _ s1 A1) as (s' & bound & E & A & Hb & Hall).
  - exists s', (a :: bound). rewrite fmap_cons, cons_middle, (assoc_L (++)). split_and!; [done|done|by apply sublist_skip|].
    intros b [->|Hb']%elem_of_cons Hok; [left|right; auto].
  - exists s', bound. split_and!; [done|done|by apply sublist_cons|].
    intros b [->|Hb']%elem_of_cons Hok; [by rewrite Hok in Ee|auto].
Qed.

(** The broker's sockets survive addresses that cannot be bound: the set-up never
    throws; the router is bound, in order, to some of the addresses, among them all that libzmq always accepts,
    each with the mandatory flag (a message for a client that is gone is an
    error, which [sendToClient] handles) and the size limit in force. *)
Theorem broker_sockets_bound addresses router inspector ty :
  at_setup ZMQ_ROUTER ∅ [] router -> at_setup ty ∅ [] inspector ->
  exists router' inspector' bound, broker_sockets addresses (router, inspector) = ((router', inspector'), Ok tt) /\
    endpoints router' = (fun a => (true, c_string a, router_options)) <$> bound /\ bound `sublist_of` addresses /\
    (forall a, a ∈ addresses -> (forall s, (zmq_bind s (c_string a)).2 = None) -> a ∈ bound) /\
    (endpoints inspector' = [] \/ endpoints inspector' = [(true, inspectorConnection, {[ZMQ_LINGER := int_bytes 0]})]).
Proof.
  intros Hr Hi. unfold broker_sockets, set_integral.
  destruct (set_option_ok _ _ _ ZMQ_LINGER (int_bytes 0) router Hr) as (r1 & E1 & A1); [apply takes_linger, int_bytes_length|].
  rewrite (bind_ok _ _ _ _ _ (lift_ok _ (router, inspector) _ _ E1)).
  destruct (set_option_ok _ _ _ ZMQ_ROUTER_MANDATORY (int_bytes 1) r1 A1) as (r2 & E2 & A2);
    [apply takes_mandatory; [apply A1|apply int_bytes_length]|].
  rewrite (bind_ok _ _ _ _ _ (lift_ok _ (r1, inspector) _ _ E2)).
  destruct (set_option_ok _ _ _ ZMQ_MAXMSGSIZE (int64_bytes MAX_MESSAGE_SIZE_BYTES) r2 A2) as (r3 & E3 & A3);
    [apply takes_maxmsgsize, int64_bytes_length|].
  rewrite (bind_ok _ _ _ _ _ (lift_ok _ (r2, inspector) _ _ E3)).
  destruct (set_option_ok _ _ _ ZMQ_LINGER (int_bytes 0) inspector Hi) as (i1 & F1 & B1); [apply takes_linger, int_bytes_length|].
  rewrite (bind_ok _ _ _ _ _ (lift_inspector_ok _ (r3, inspector) _ _ F1)).
  assert (Hb : exists i2, try_ignore (on_inspector (bind inspectorConnection)) (r3, i1) = ((r3, i2), Ok tt) /\
    (endpoints i2 = [] \/ endpoints i2 = [(true, inspectorConnection, {[ZMQ_LINGER := int_bytes 0]})])).
  { destruct (bind_cases _ _ _ inspectorConnection i1 B1) as [(i2 & F2 & B2)|(i2 & e & F2 & _ & B2)]; exists i2;
      unfold try_ignore; rewrite (lift_inspector_ok _ (r3, i1) _ _ F2); (split; [done|]); [right|left]; apply B2. }
  destruct Hb as (i2 & F2 & Hb). rewrite (bind_ok _ _ _ _ _ F2).
  destruct (bind_loop _ _ addresses i2 _ r3 A3) as (r4 & bound & E4 & A4 & Hsub & Hall).
  exists r4, i2, bound. split_and!; [exact E4|apply A4|done..].
Qed.

(** The inspector is subscribed to everything the broker mirrors, once it could
    connect. *)
Theorem inspector_subscribed s :
  at_setup ZMQ_SUB ∅ [] s -> (forall s1, (zmq_connect s1 inspectorConnection).2 = None) ->
  exists s', inspector_socket s = (s', Ok tt) /\ options s' !! ZMQ_SUBSCRIBE = Some "" /\
    endpoints s' = [(false, inspectorConnection, {[ZMQ_MAXMSGSIZE := int64_bytes MAX_MESSAGE_SIZE_BYTES]})].
Proof.
  intros Hs Hok. unfold inspector_socket, set_integral.
  destruct (set_option_ok _ _ _ ZMQ_MAXMSGSIZE (int64_bytes MAX_MESSAGE_SIZE_BYTES) s Hs) as (s1 & E1 & A1);
    [apply takes_maxmsgsize, int64_bytes_length|]. rewrite (bind_ok _ _ _ _ _ E1).
  pose proof (connect_cases _ _ _ inspectorConnection s1 A1) as Hc. change (c_string inspectorConnection) with inspectorConnection in Hc.
  rewrite Hok in Hc. destruct Hc as (s2 & E2 & A2). rewrite (bind_ok _ _ _ _ _ E2).
  destruct (set_option_ok _ _ _ ZMQ_SUBSCRIBE "" s2 A2) as (s3 & E3 & A3); [apply takes_subscribe, A2|].
  exists s3. split_and!; [exact E3| |apply A3]. rewrite (as_options _ _ _ _ A3). apply lookup_insert_eq.
Qed.

End setup.
