(* ===== verification/Options.v ===== *)
(** * Socket and context options by name ([zmq.hpp], namespace [sockopt])

    The options the binding declares, with the type of their values, and the overloads of
    [set] and [get] that a use of an option selects.  The numbers of the options come from
    [zmq.h], which is not part of the sources: [code] gives them. *)

From S2P Require Import Prelude CppString Keys Wire Multipart SocketBase Setup.
#[local] Open Scope Z_scope.

(** ** Kinds of options *)

(** The value types of the declarations below. *)
Inductive scalar := Tint | Tint64 | Tuint64 | Tfd | Tsocket_type.

#[export] Instance scalar_dec : EqDecision scalar.
Proof. solve_decision. Defined.

(** [integral_option<Opt, T, BoolUnit>] and [array_option<Opt, NullTerm>]. *)
Inductive option_kind :=
  | integral_option (T : scalar) (BoolUnit : bool)
  | array_option (NullTerm : Z).

#[export] Instance option_kind_dec : EqDecision option_kind.
Proof. solve_decision. Defined.

Record sockopt := mkSockopt {
  opt_macro : string;
  opt_name : string;
  opt_kind : option_kind
}.

Definition DEFINE_INTEGRAL_OPT (OPT NAME : string) (TYPE : scalar) : sockopt :=
  mkSockopt OPT NAME (integral_option TYPE false).
Definition DEFINE_INTEGRAL_BOOL_UNIT_OPT (OPT NAME : string) (TYPE : scalar) : sockopt :=
  mkSockopt OPT NAME (integral_option TYPE true).
Definition DEFINE_ARRAY_OPT (OPT NAME : string) : sockopt := mkSockopt OPT NAME (array_option 1).
Definition DEFINE_ARRAY_OPT_BINARY (OPT NAME : string) : sockopt := mkSockopt OPT NAME (array_option 0).
Definition DEFINE_ARRAY_OPT_BIN_OR_Z85 (OPT NAME : string) : sockopt := mkSockopt OPT NAME (array_option 2).

(** ** The declarations *)

Definition options_affinity_to_metadata : list sockopt :=
  [DEFINE_INTEGRAL_OPT "ZMQ_AFFINITY" "affinity" Tuint64;
   DEFINE_INTEGRAL_OPT "ZMQ_BACKLOG" "backlog" Tint;
   DEFINE_ARRAY_OPT_BINARY "ZMQ_BINDTODEVICE" "bindtodevice";
   DEFINE_INTEGRAL_BOOL_UNIT_OPT "ZMQ_BUSY_POLL" "busy_poll" Tint;
   DEFINE_INTEGRAL_BOOL_UNIT_OPT "ZMQ_CONFLATE" "conflate" Tint;
   DEFINE_ARRAY_OPT "ZMQ_CONNECT_ROUTING_ID" "connect_routing_id";
   DEFINE_INTEGRAL_OPT "ZMQ_CONNECT_TIMEOUT" "connect_timeout" Tint;
   DEFINE_ARRAY_OPT_BIN_OR_Z85 "ZMQ_CURVE_PUBLICKEY" "curve_publickey";
   DEFINE_ARRAY_OPT_BIN_OR_Z85 "ZMQ_CURVE_SECRETKEY" "curve_secretkey";
   DEFINE_INTEGRAL_BOOL_UNIT_OPT "ZMQ_CURVE_SERVER" "curve_server" Tint;
   DEFINE_ARRAY_OPT_BIN_OR_Z85 "ZMQ_CURVE_SERVERKEY" "curve_serverkey";
   DEFINE_ARRAY_OPT_BINARY "ZMQ_DISCONNECT_MSG" "disconnect_msg";
   DEFINE_INTEGRAL_OPT "ZMQ_EVENTS" "events" Tint;
   DEFINE_INTEGRAL_OPT "ZMQ_FD" "fd" Tfd;
   DEFINE_INTEGRAL_BOOL_UNIT_OPT "ZMQ_GSSAPI_PLAINTEXT" "gssapi_plaintext" Tint;
   DEFINE_INTEGRAL_BOOL_UNIT_OPT "ZMQ_GSSAPI_SERVER" "gssapi_server" Tint;
   DEFINE_ARRAY_OPT "ZMQ_GSSAPI_SERVICE_PRINCIPAL" "gssapi_service_principal";
   DEFINE_INTEGRAL_OPT "ZMQ_GSSAPI_SERVICE_PRINCIPAL_NAMETYPE" "gssapi_service_principal_nametype" Tint;
   DEFINE_ARRAY_OPT "ZMQ_GSSAPI_PRINCIPAL" "gssapi_principal";
   DEFINE_INTEGRAL_OPT "ZMQ_GSSAPI_PRINCIPAL_NAMETYPE" "gssapi_principal_nametype" Tint;
   DEFINE_INTEGRAL_OPT "ZMQ_HANDSHAKE_IVL" "handshake_ivl" Tint;
   DEFINE_INTEGRAL_OPT "ZMQ_HEARTBEAT_IVL" "heartbeat_ivl" Tint;
   DEFINE_INTEGRAL_OPT "ZMQ_HEARTBEAT_TIMEOUT" "heartbeat_timeout" Tint;
   DEFINE_INTEGRAL_OPT "ZMQ_HEARTBEAT_TTL" "heartbeat_ttl" Tint;
   DEFINE_ARRAY_OPT_BINARY "ZMQ_HELLO_MSG" "hello_msg";
   DEFINE_INTEGRAL_BOOL_UNIT_OPT "ZMQ_IMMEDIATE" "immediate" Tint;
   DEFINE_INTEGRAL_BOOL_UNIT_OPT "ZMQ_INVERT_MATCHING" "invert_matching" Tint;
   DEFINE_INTEGRAL_BOOL_UNIT_OPT "ZMQ_IPV6" "ipv6" Tint;
   DEFINE_ARRAY_OPT "ZMQ_LAST_ENDPOINT" "last_endpoint";
   DEFINE_INTEGRAL_OPT "ZMQ_LINGER" "linger" Tint;
   DEFINE_INTEGRAL_OPT "ZMQ_MAXMSGSIZE" "maxmsgsize" Tint64;
   DEFINE_INTEGRAL_OPT "ZMQ_MECHANISM" "mechanism" Tint;
   DEFINE_ARRAY_OPT "ZMQ_METADATA" "metadata"].

Definition options_multicast_to_routing_id : list sockopt :=
  [DEFINE_INTEGRAL_OPT "ZMQ_MULTICAST_HOPS" "multicast_hops" Tint;
   DEFINE_INTEGRAL_BOOL_UNIT_OPT "ZMQ_MULTICAST_LOOP" "multicast_loop" Tint;
   DEFINE_INTEGRAL_OPT "ZMQ_MULTICAST_MAXTPDU" "multicast_maxtpdu" Tint;
   DEFINE_INTEGRAL_BOOL_UNIT_OPT "ZMQ_ONLY_FIRST_SUBSCRIBE" "only_first_subscribe" Tint;
   DEFINE_INTEGRAL_BOOL_UNIT_OPT "ZMQ_PLAIN_SERVER" "plain_server" Tint;
   DEFINE_ARRAY_OPT "ZMQ_PLAIN_PASSWORD" "plain_password";
   DEFINE_ARRAY_OPT "ZMQ_PLAIN_USERNAME" "plain_username";
   DEFINE_INTEGRAL_OPT "ZMQ_PRIORITY" "priority" Tint;
   DEFINE_INTEGRAL_OPT "ZMQ_USE_FD" "use_fd" Tint;
   DEFINE_INTEGRAL_BOOL_UNIT_OPT "ZMQ_PROBE_ROUTER" "probe_router" Tint;
   DEFINE_INTEGRAL_OPT "ZMQ_RATE" "rate" Tint;
   DEFINE_INTEGRAL_OPT "ZMQ_RCVBUF" "rcvbuf" Tint;
   DEFINE_INTEGRAL_OPT "ZMQ_RCVHWM" "rcvhwm" Tint;
   DEFINE_INTEGRAL_BOOL_UNIT_OPT "ZMQ_RCVMORE" "rcvmore" Tint;
   DEFINE_INTEGRAL_OPT "ZMQ_RCVTIMEO" "rcvtimeo" Tint;
   DEFINE_INTEGRAL_OPT "ZMQ_RECONNECT_IVL" "reconnect_ivl" Tint;
   DEFINE_INTEGRAL_OPT "ZMQ_RECONNECT_IVL_MAX" "reconnect_ivl_max" Tint;
   DEFINE_INTEGRAL_OPT "ZMQ_RECONNECT_STOP" "reconnect_stop" Tint;
   DEFINE_INTEGRAL_OPT "ZMQ_RECOVERY_IVL" "recovery_ivl" Tint;
   DEFINE_INTEGRAL_BOOL_UNIT_OPT "ZMQ_REQ_CORRELATE" "req_correlate" Tint;
   DEFINE_INTEGRAL_BOOL_UNIT_OPT "ZMQ_REQ_RELAXED" "req_relaxed" Tint;
   DEFINE_INTEGRAL_BOOL_UNIT_OPT "ZMQ_ROUTER_HANDOVER" "router_handover" Tint;
   DEFINE_INTEGRAL_BOOL_UNIT_OPT "ZMQ_ROUTER_MANDATORY" "router_mandatory" Tint;
   DEFINE_INTEGRAL_OPT "ZMQ_ROUTER_NOTIFY" "router_notify" Tint;
   DEFINE_INTEGRAL_OPT "ZMQ_ROUTER_RAW" "router_raw" Tint;
   DEFINE_ARRAY_OPT_BINARY "ZMQ_ROUTING_ID" "routing_id";
   DEFINE_INTEGRAL_OPT "ZMQ_SNDBUF" "sndbuf" Tint].

Definition options_sndbuf_to_zap : list sockopt :=
  [DEFINE_INTEGRAL_OPT "ZMQ_SNDHWM" "sndhwm" Tint;
   DEFINE_INTEGRAL_OPT "ZMQ_SNDTIMEO" "sndtimeo" Tint;
   DEFINE_ARRAY_OPT "ZMQ_SOCKS_PASSWORD" "socks_password";
   DEFINE_ARRAY_OPT "ZMQ_SOCKS_PROXY" "socks_proxy";
   DEFINE_ARRAY_OPT "ZMQ_SOCKS_USERNAME" "socks_username";
   DEFINE_INTEGRAL_BOOL_UNIT_OPT "ZMQ_STREAM_NOTIFY" "stream_notify" Tint;
   DEFINE_ARRAY_OPT "ZMQ_SUBSCRIBE" "subscribe";
   DEFINE_INTEGRAL_OPT "ZMQ_TCP_KEEPALIVE" "tcp_keepalive" Tint;
   DEFINE_INTEGRAL_OPT "ZMQ_TCP_KEEPALIVE_CNT" "tcp_keepalive_cnt" Tint;
   DEFINE_INTEGRAL_OPT "ZMQ_TCP_KEEPALIVE_IDLE" "tcp_keepalive_idle" Tint;
   DEFINE_INTEGRAL_OPT "ZMQ_TCP_KEEPALIVE_INTVL" "tcp_keepalive_intvl" Tint;
   DEFINE_INTEGRAL_OPT "ZMQ_TCP_MAXRT" "tcp_maxrt" Tint;
   DEFINE_INTEGRAL_BOOL_UNIT_OPT "ZMQ_THREAD_SAFE" "thread_safe" Tint;
   DEFINE_INTEGRAL_OPT "ZMQ_TOS" "tos" Tint;
   DEFINE_INTEGRAL_OPT "ZMQ_TYPE" "type" Tint;
   DEFINE_INTEGRAL_OPT "ZMQ_TYPE" "socket_type" Tsocket_type;
   DEFINE_ARRAY_OPT "ZMQ_UNSUBSCRIBE" "unsubscribe";
   DEFINE_INTEGRAL_OPT "ZMQ_VMCI_BUFFER_SIZE" "vmci_buffer_size" Tuint64;
   DEFINE_INTEGRAL_OPT "ZMQ_VMCI_BUFFER_MIN_SIZE" "vmci_buffer_min_size" Tuint64;
   DEFINE_INTEGRAL_OPT "ZMQ_VMCI_BUFFER_MAX_SIZE" "vmci_buffer_max_size" Tuint64;
   DEFINE_INTEGRAL_OPT "ZMQ_VMCI_CONNECT_TIMEOUT" "vmci_connect_timeout" Tint;
   DEFINE_INTEGRAL_BOOL_UNIT_OPT "ZMQ_XPUB_VERBOSE" "xpub_verbose" Tint;
   DEFINE_INTEGRAL_BOOL_UNIT_OPT "ZMQ_XPUB_VERBOSER" "xpub_verboser" Tint;
   DEFINE_INTEGRAL_BOOL_UNIT_OPT "ZMQ_XPUB_MANUAL" "xpub_manual" Tint;
   DEFINE_INTEGRAL_BOOL_UNIT_OPT "ZMQ_XPUB_MANUAL_LAST_VALUE" "xpub_manual_last_value" Tint;
   DEFINE_INTEGRAL_BOOL_UNIT_OPT "ZMQ_XPUB_NODROP" "xpub_nodrop" Tint;
   DEFINE_ARRAY_OPT "ZMQ_XPUB_WELCOME_MSG" "xpub_welcome_msg";
   DEFINE_INTEGRAL_BOOL_UNIT_OPT "ZMQ_ZAP_ENFORCE_DOMAIN" "zap_enforce_domain" Tint;
   DEFINE_ARRAY_OPT "ZMQ_ZAP_DOMAIN" "zap_domain"].

(** All of them, with a libzmq that has every option. *)
Definition sockopts : list sockopt :=
  options_affinity_to_metadata ++ options_multicast_to_routing_id ++ options_sndbuf_to_zap.

Definition sockopt_named (name : string) : option sockopt :=
  snd <$> list_find (fun o => opt_name o = name) sockopts.

(** The members of [ctxopt] and of [socket_type], with their macros. *)
Definition ctxopts : list (string * string) :=
  [("blocky", "ZMQ_BLOCKY"); ("io_threads", "ZMQ_IO_THREADS"); ("thread_sched_policy", "ZMQ_THREAD_SCHED_POLICY");
   ("thread_priority", "ZMQ_THREAD_PRIORITY"); ("thread_affinity_cpu_add", "ZMQ_THREAD_AFFINITY_CPU_ADD");
   ("thread_affinity_cpu_remove", "ZMQ_THREAD_AFFINITY_CPU_REMOVE"); ("thread_name_prefix", "ZMQ_THREAD_NAME_PREFIX");
   ("max_msgsz", "ZMQ_MAX_MSGSZ"); ("zero_copy_recv", "ZMQ_ZERO_COPY_RECV"); ("max_sockets", "ZMQ_MAX_SOCKETS");
   ("socket_limit", "ZMQ_SOCKET_LIMIT"); ("ipv6", "ZMQ_IPV6"); ("msg_t_size", "ZMQ_MSG_T_SIZE")].

Definition socket_types : list (string * string) :=
  [("req", "ZMQ_REQ"); ("rep", "ZMQ_REP"); ("dealer", "ZMQ_DEALER"); ("router", "ZMQ_ROUTER"); ("pub", "ZMQ_PUB");
   ("sub", "ZMQ_SUB"); ("xpub", "ZMQ_XPUB"); ("xsub", "ZMQ_XSUB"); ("push", "ZMQ_PUSH"); ("pull", "ZMQ_PULL");
   ("server", "ZMQ_SERVER"); ("client", "ZMQ_CLIENT"); ("radio", "ZMQ_RADIO"); ("dish", "ZMQ_DISH");
   ("gather", "ZMQ_GATHER"); ("scatter", "ZMQ_SCATTER"); ("dgram", "ZMQ_DGRAM"); ("peer", "ZMQ_PEER");
   ("channel", "ZMQ_CHANNEL"); ("stream", "ZMQ_STREAM"); ("pair", "ZMQ_PAIR")].

(** ** Overloads *)

(** On the platforms of the program, where [fd_t] is an [int] and so is the type
    under [socket_type]. *)
Definition scalar_size (T : scalar) : nat :=
  match T with Tint | Tfd | Tsocket_type => 4 | Tint64 | Tuint64 => 8 end.

Definition is_integral (T : scalar) : bool := match T with Tsocket_type => false | _ => true end.

(** Two names of one C++ type deduce alike. *)
Definition canonical (T : scalar) : scalar := match T with Tfd => Tint | T => T end.

Definition in_scalar (T : scalar) (v : Z) : Prop :=
  match T with
  | Tint | Tfd | Tsocket_type => - 2 ^ 31 <= v < 2 ^ 31
  | Tint64 => - 2 ^ 63 <= v < 2 ^ 63
  | Tuint64 => 0 <= v < 2 ^ 64
  end.

(** What is passed to [set]. *)
Inductive argument :=
  | ArgScalar (T : scalar) (v : Z)
  | ArgBool (v : bool)
  | ArgCString (v : string)
  | ArgBuffer (v : string)
  | ArgString (v : string).

Section overloads.
Context {S : Type} `{SocketApi S} (little : bool) (code : string -> Z).

Implicit Types o : sockopt.

Definition scalar_bytes (T : scalar) (v : Z) : string :=
  String.string_of_list_ascii (host_bytes little (scalar_size T) v).

(** The value of the bytes, in the range of the type. *)
Definition scalar_load (T : scalar) (s : string) : Z :=
  let v := host_value little (String.list_ascii_of_string s) in
  match T with
  | Tint | Tfd | Tsocket_type => i32 v
  | Tint64 => i64 v
  | Tuint64 => v
  end.

(** [None] is a call that does not compile: the type of the argument must be the one the option
    deduces ([const T &val]), a boolean needs a [BoolUnit], the type must be integral. *)
Definition set_overload o (a : argument) : option (M S unit) :=
  match opt_kind o, a with
  | integral_option T _, ArgScalar T' v =>
      if decide (canonical T' = canonical T /\ is_integral T = true)
      then Some (set_integral (code (opt_macro o)) (scalar_bytes T) v) else None
  | integral_option T BoolUnit, ArgBool v =>
      if BoolUnit && is_integral T then Some (set_boolean (code (opt_macro o)) (scalar_bytes T) v) else None
  | array_option _, ArgCString v => Some (set_cstring (code (opt_macro o)) v)
  | array_option _, ArgBuffer v => Some (set_buffer (code (opt_macro o)) v)
  | array_option _, ArgString v => Some (set_string (code (opt_macro o)) v)
  | _, _ => None
  end.

(** [get(option)]: a number or a string. *)
Definition get_overload o (s : S) : res (Z + string) :=
  match opt_kind o with
  | integral_option T _ =>
      match get_integral (code (opt_macro o)) (Z.of_nat (scalar_size T)) (scalar_load T) s with
      | Ok v => Ok (inl v)
      | Throw e => Throw e
      end
  | array_option NullTerm =>
      match get_string (code (opt_macro o)) NullTerm 1024 s with
      | Ok v => Ok (inr v)
      | Throw e => Throw e
      end
  end.

End overloads.

(** ** The declarations are consistent *)

Definition lower_char (c : ascii) : ascii :=
  let n := nat_of_ascii c in if decide (65 <= n <= 90)%nat then ascii_of_nat (n + 32) else c.

Fixpoint lower (s : string) : string :=
  match s with EmptyString => "" | String c s => String (lower_char c) (lower s) end.

(** The macro of a name: its letters in upper case after [ZMQ_]. *)
Definition named_after (name macro : string) : bool := bool_decide (lower macro = "zmq_" +:+ name).

(** No option is declared twice, every name is that of its macro, and the one macro with
    a second name is the socket's type, once as a number and once as an enumerator.
    The same holds of the context options and of the socket types. *)
Theorem declarations_consistent :
  NoDup (opt_name <$> sockopts) /\
  (forall o, o ∈ sockopts -> opt_name o <> "socket_type" -> named_after (opt_name o) (opt_macro o) = true) /\
  NoDup (opt_macro <$> filter (fun o => opt_name o <> "socket_type") sockopts) /\
  (opt_kind <$> sockopt_named "socket_type") = Some (integral_option Tsocket_type false) /\
  Forall (fun l => NoDup l.*1 /\ NoDup l.*2 /\ Forall (fun p => named_after p.1 p.2 = true) l) [ctxopts; socket_types].
Proof.
  split_and!.
  - apply (bool_decide_unpack _). by vm_compute.
  - intros o Ho Hne. assert (K : forallb (fun o => bool_decide (opt_name o = "socket_type") || named_after (opt_name o) (opt_macro o)) sockopts = true)
      by (by vm_compute).
    rewrite forallb_forall in K. apply list_elem_of_In in Ho. specialize (K o Ho).
    by rewrite bool_decide_eq_false_2 in K.
  - apply (bool_decide_unpack _). by vm_compute.
  - by vm_compute.
  - repeat constructor; first [apply (bool_decide_unpack _); by vm_compute|by vm_compute].
Qed.

(** ** Values come back *)

Section values.
Context {S : Type} `{SocketApi S} (little : bool) (code : string -> Z).

Lemma scalar_load_bytes T v : in_scalar T v -> scalar_load little T (scalar_bytes little T v) = v.
Proof.
  intros Hv. unfold scalar_load, scalar_bytes. rewrite String.list_ascii_of_string_of_list_ascii, host_value_bytes.
  unfold in_scalar in Hv. unfold i32, i64.
  destruct T; cbn [scalar_size]; change (256 ^ Z.of_nat 4) with (2 ^ 32); change (256 ^ Z.of_nat 8) with (2 ^ 64).
  - rewrite Zplus_mod_idemp_l, Z.mod_small; lia.
  - rewrite Zplus_mod_idemp_l, Z.mod_small; lia.
  - by rewrite Z.mod_small.
  - rewrite Zplus_mod_idemp_l, Z.mod_small; lia.
  - rewrite Zplus_mod_idemp_l, Z.mod_small; lia.
Qed.

Lemma scalar_bytes_length T v : slen (scalar_bytes little T v) = Z.of_nat (scalar_size T).
Proof. unfold scalar_bytes. by rewrite slen_of_list, host_bytes_length. Qed.

(** An integral option that was set is read back as the number set, or as 0 or 1 for a boolean,
    where libzmq keeps it; there is no overload for a socket type or for a boolean
    without [BoolUnit]. *)
Theorem scalar_option_roundtrip (o : sockopt) T b :
  opt_kind o = integral_option T b ->
  (set_overload little code o (ArgScalar T 0) = None <-> is_integral T = false) /\
  (is_integral T = true -> (set_overload little code o (ArgBool true) = None <-> b = false)) /\
  forall a v m (s s' : S), set_overload little code o a = Some m ->
    (a = ArgScalar T v /\ in_scalar T v \/ exists x : bool, a = ArgBool x /\ v = if x then 1 else 0) ->
    m s = (s', Ok tt) -> binary_option (code (opt_macro o)) -> get_overload little code o s' = Ok (inl v).
Proof.
  intros Hk. unfold set_overload, get_overload. rewrite Hk. split_and!.
  - case_decide as D; [split; [intros; discriminate|]; intros E; destruct D as [_ D]; congruence|].
    split; [|done]. intros _. destruct (is_integral T); [|done]. by destruct D.
  - intros ->. by destruct b.
  - intros a v m s s' Hm Ha Hs Hb.
    assert (Hset : in_scalar T v /\ set_option (code (opt_macro o)) (scalar_bytes little T v) s = (s', Ok tt)).
    { destruct Ha as [[-> Hv]|[x [-> ->]]].
      - case_decide; [|done]. by injection Hm as <-.
      - destruct b; [|done]. destruct (is_integral T); [|done]. injection Hm as <-.
        split; [destruct T, x; unfold in_scalar; lia|exact Hs]. }
    destruct Hset as [Hv Hset]. unfold set_option, checked in Hset.
    destruct (zmq_setsockopt s (code (opt_macro o)) (scalar_bytes little T v)) as [s1 [e|]] eqn:E; [done|]. injection Hset as ->.
    unfold get_integral, get_option. rewrite (set_get_binary _ _ _ _ Hb E), decide_True by (by rewrite scalar_bytes_length).
    by rewrite scalar_load_bytes.
Qed.

End values.

(** ** The uses in the program *)

Section uses.
Context {S : Type} `{SocketSetup S} (little : bool) (code : string -> Z).

(** The numbers in [zmq.h] of the options the program sets. *)
Definition knows_codes : Prop :=
  code "ZMQ_LINGER" = ZMQ_LINGER /\ code "ZMQ_ROUTING_ID" = ZMQ_ROUTING_ID /\ code "ZMQ_MAXMSGSIZE" = ZMQ_MAXMSGSIZE /\
  code "ZMQ_ROUTER_MANDATORY" = ZMQ_ROUTER_MANDATORY /\ code "ZMQ_SUBSCRIBE" = ZMQ_SUBSCRIBE.

(** [socket.set(zmq::sockopt::name, value)]. *)
Definition socket_set (name : string) (a : argument) : option (M S unit) :=
  sockopt_named name ≫= fun o => set_overload little code o a.

(** Every call of [set] in the program compiles, and selects the overload that the model of
    the threads' set-up uses. *)
Theorem program_options (config : ConnectionConfig) :
  knows_codes ->
  socket_set "linger" (ArgScalar Tint 100) = Some (set_integral ZMQ_LINGER (int_bytes little) 100) /\
  socket_set "linger" (ArgScalar Tint 0) = Some (set_integral ZMQ_LINGER (int_bytes little) 0) /\
  socket_set "routing_id" (ArgString (clientId config)) = Some (set_string ZMQ_ROUTING_ID (clientId config)) /\
  socket_set "maxmsgsize" (ArgScalar Tint64 MAX_MESSAGE_SIZE_BYTES) =
    Some (set_integral ZMQ_MAXMSGSIZE (int64_bytes little) MAX_MESSAGE_SIZE_BYTES) /\
  socket_set "router_mandatory" (ArgScalar Tint 1) = Some (set_integral ZMQ_ROUTER_MANDATORY (int_bytes little) 1) /\
  socket_set "subscribe" (ArgCString "") = Some (set_cstring ZMQ_SUBSCRIBE "").
Proof.
  intros (K1 & K2 & K3 & K4 & K5). unfold socket_set.
  assert (E : forall name o, sockopt_named name = Some o -> forall a, (sockopt_named name ≫= fun o => set_overload (S:=S) little code o a) =
    set_overload little code o a) by (intros name o -> a; done).
  rewrite !(E "linger" (DEFINE_INTEGRAL_OPT "ZMQ_LINGER" "linger" Tint) ltac:(by vm_compute)).
  rewrite (E "routing_id" (DEFINE_ARRAY_OPT_BINARY "ZMQ_ROUTING_ID" "routing_id") ltac:(by vm_compute)).
  rewrite (E "maxmsgsize" (DEFINE_INTEGRAL_OPT "ZMQ_MAXMSGSIZE" "maxmsgsize" Tint64) ltac:(by vm_compute)).
  rewrite (E "router_mandatory" (DEFINE_INTEGRAL_BOOL_UNIT_OPT "ZMQ_ROUTER_MANDATORY" "router_mandatory" Tint) ltac:(by vm_compute)).
  rewrite (E "subscribe" (DEFINE_ARRAY_OPT "ZMQ_SUBSCRIBE" "subscribe") ltac:(by vm_compute)).
  unfold set_overload. cbn [opt_kind opt_macro DEFINE_INTEGRAL_OPT DEFINE_ARRAY_OPT DEFINE_ARRAY_OPT_BINARY DEFINE_INTEGRAL_BOOL_UNIT_OPT].
  rewrite K1, K2, K3, K4, K5. rewrite !decide_True by done. by split_and!.
Qed.

End uses.
