(* ===== verification/Examples.v ===== *)
(** * The example programs ([client1/main.cpp], [client2/main.cpp])

    What the two programs register and send.  Their output (the logger, standard
    output) is the argument [print], Qt's JSON writer and the formatting of floating-point
    numbers are arguments too.  [TestStruct] is laid out as on the 64-bit targets of the
    project: 32 bytes with two gaps, whose contents are arbitrary. *)

From S2P Require Import Prelude Keys CppString SafeQueue MessageHeader Stats Update Payload Wire Worker Multipart.
From S2P Require Import Client ClientTheorems.
#[local] Open Scope Z_scope.

(** Floating-point members are their bits. *)
Record TestStruct := mkTestStruct {
  ts_d : Z;      (** [int] *)
  ts_dd : Z;     (** [double] *)
  ts_ddd : Z;    (** [float] *)
  ts_h : Z       (** [unsigned long long] *)
}.

Section examples.
Context `{AnyRuntime}.
Context (little : bool) (gap1 gap2 : list ascii) (Hgap1 : length gap1 = 4%nat) (Hgap2 : length gap2 = 4%nat).

(** ** Payload types *)

Definition TestStruct_bytes (v : TestStruct) : string :=
  String.string_of_list_ascii (host_bytes little 4 (ts_d v) ++ gap1 ++ host_bytes little 8 (ts_dd v) ++
    host_bytes little 4 (ts_ddd v) ++ gap2 ++ host_bytes little 8 (ts_h v)).

(** [memcpy], member by member. *)
Definition TestStruct_copy (raw : string) : TestStruct :=
  let bytes i n := host_value little (take n (drop i (String.list_ascii_of_string raw))) in
  mkTestStruct (i32 (bytes 0 4)%nat) (bytes 8 8)%nat (bytes 16 4)%nat (bytes 24 8)%nat.

Definition TestStruct_codec : payload_codec TestStruct := CodecStruct 32 TestStruct_bytes TestStruct_copy.

Definition int_codec : payload_codec Z :=
  CodecStruct 4 (fun v => String.string_of_list_ascii (host_bytes little 4 v))
    (fun raw => i32 (host_value little (String.list_ascii_of_string raw))).

Context (ParseUpdate : string -> option Update).

Definition Update_codec : payload_codec Update := CodecProto "communication.Update" update_Serialize ParseUpdate.

(** ** client1 *)

Context (print : string -> M client_state unit).
Context (to_string_double to_string_float : Z -> string).

(** [std::to_string] of a signed value. *)
Definition to_string_signed (z : Z) : string := if decide (z < 0) then "-" +:+ to_string (- z) else to_string z.

Definition endl : string := String (ascii_of_N 10) "".

Definition do_send (f : client_state -> client_state * bool) : M client_state unit := mmodify (fun s => (f s).1).

Definition client1_config (ms : Z) : ConnectionConfig :=
  mkConfig "tcp://127.0.0.1:5555" ("client1_debug_" +:+ to_string_signed ms) ZMQ 10000 5000 2.

Definition client1_response : client_state -> client_state * bool := client_sendMessage "MessageReceived" "Send a response".

Definition on_test (message : string) : M client_state unit :=
  _ ← print (endl +:+ message);
  do_send client1_response.

Definition on_struct (s : TestStruct) : M client_state unit :=
  _ ← print "Receiving a struct";
  print (endl +:+ to_string_signed (ts_d s) +:+ endl +:+ to_string_double (ts_dd s) +:+ endl +:+
    to_string_float (ts_ddd s) +:+ endl +:+ to_string (ts_h s)).

Definition on_protobuf (s : Update) : M client_state unit :=
  _ ← print "Receiving a protobuf";
  print (endl +:+ upd_id s +:+ endl +:+ upd_message s +:+ endl +:+ to_string_signed (upd_timestamp_utc s)).

Definition client1_user : user_code := mkUser (fun f =>
    if decide (f = 1) then typed_callback CodecString on_test
    else if decide (f = 2) then typed_callback TestStruct_codec on_struct
    else if decide (f = 3) then typed_callback Update_codec on_protobuf
    else fun _ => mret tt)
  (fun _ _ _ _ _ => mret tt).

Definition client1_main (ms : Z) : client_state :=
  registerCallback "protobuf" (UserFn 3) (registerCallback "struct" (UserFn 2)
    (registerCallback "test" (UserFn 1) (client_init (client1_config ms) fresh_state))).

(** Its timer. *)
Definition client1_timeout : client_state -> client_state * bool := client_sendValue int_codec "Hejsan" 3.

(** ** client2 *)

Context (toJson : string -> string -> Z -> string).

Definition client2_config : ConnectionConfig := mkConfig "tcp://127.0.0.1:5555" "client2" ZMQ 10000 5000 2.

Definition on_MessageReceived (data : string) : M client_state unit := print (data +:+ endl).
Definition on_Hejsan (t : Z) : M client_state unit := print (to_string_signed t +:+ endl).

Definition client2_user : user_code := mkUser (fun f =>
    if decide (f = 1) then typed_callback CodecString on_MessageReceived
    else if decide (f = 2) then typed_callback int_codec on_Hejsan
    else fun _ => mret tt)
  (fun _ _ _ _ _ => mret tt).

Definition client2_started : client_state :=
  registerCallback "MessageReceived" (UserFn 1) (client_init client2_config fresh_state).

(** The last registration, after the timers are set up. *)
Definition client2_main : client_state := registerCallback "Hejsan" (UserFn 2) client2_started.

(** What it sends, at a time. *)
Definition client2_json (now : Z) : string := toJson "client2" "Sending a message" now.
Definition client2_send_json (now : Z) : client_state -> client_state * bool := client_sendMessage "test" (client2_json now).

Definition client2_struct (now : Z) : TestStruct := mkTestStruct 42 0x4094e40000000000 0x40490e56 (u64 now).
Definition client2_send_struct (now : Z) : client_state -> client_state * bool :=
  client_sendValue TestStruct_codec "struct" (client2_struct now).

Definition client2_update (now : Z) : Update :=
  upd_set_timestamp_utc now (upd_set_message "message from client2" (upd_set_id "client2" update_new)).
Definition client2_send_update (now : Z) : client_state -> client_state * bool :=
  client_sendValue Update_codec "protobuf" (client2_update now).

(** The three lambdas of its timers. *)
Definition client2_timeout_json (now : Z) : M client_state unit :=
  _ ← print ("[Client2] Timer fired, sending message..." +:+ endl);
  do_send (client2_send_json now).

Definition client2_timeout_struct (now : Z) : M client_state unit :=
  _ ← print "Sending a struct";
  do_send (client2_send_struct now).

Definition client2_timeout_update (now : Z) : M client_state unit :=
  _ ← print "Sending a protobuf";
  do_send (client2_send_update now).

(** ** The codecs are lawful *)

Definition TestStruct_ok (v : TestStruct) : Prop :=
  in_int32 (ts_d v) /\ 0 <= ts_dd v < 2 ^ 64 /\ 0 <= ts_ddd v < 2 ^ 32 /\ 0 <= ts_h v < 2 ^ 64.

Lemma i32_mod v : in_int32 v -> i32 (v mod 256 ^ 4) = v.
Proof. unfold i32, in_int32. intros Hv. change (256 ^ 4) with (2 ^ 32). rewrite Zplus_mod_idemp_l, Z.mod_small; lia. Qed.

Lemma take_drop_part {T} (l1 l2 l3 : list T) i n :
  length l1 = i -> length l2 = n -> take n (drop i (l1 ++ l2 ++ l3)) = l2.
Proof. intros <- <-. rewrite drop_app_length. apply take_app_length. Qed.

Lemma TestStruct_lawful v : TestStruct_ok v -> codec_lawful TestStruct_codec v.
Proof.
  intros (K1 & K2 & K3 & K4). cbn [codec_lawful TestStruct_codec]. unfold TestStruct_bytes.
  set (b1 := host_bytes little 4 (ts_d v)). set (b2 := host_bytes little 8 (ts_dd v)).
  set (b3 := host_bytes little 4 (ts_ddd v)). set (b4 := host_bytes little 8 (ts_h v)).
  assert (length b1 = 4 /\ length b2 = 8 /\ length b3 = 4 /\ length b4 = 8)%nat as (L1 & L2 & L3 & L4)
    by (split_and!; apply host_bytes_length).
  split; [rewrite slen_of_list, !length_app; lia|].
  unfold TestStruct_copy. rewrite String.list_ascii_of_string_of_list_ascii.
  cbv zeta beta. rewrite drop_0, take_app_length' by done.
  replace (b1 ++ gap1 ++ b2 ++ b3 ++ gap2 ++ b4) with ((b1 ++ gap1) ++ b2 ++ b3 ++ gap2 ++ b4) by (by rewrite <-!(assoc_L (++))).
  rewrite take_drop_part by (rewrite ?length_app; lia).
  replace ((b1 ++ gap1) ++ b2 ++ b3 ++ gap2 ++ b4) with ((b1 ++ gap1 ++ b2) ++ b3 ++ gap2 ++ b4) by (by rewrite <-!(assoc_L (++))).
  rewrite take_drop_part by (rewrite ?length_app; lia).
  replace ((b1 ++ gap1 ++ b2) ++ b3 ++ gap2 ++ b4) with ((b1 ++ gap1 ++ b2 ++ b3 ++ gap2) ++ b4 ++ []) by (by rewrite app_nil_r, <-!(assoc_L (++))).
  rewrite take_drop_part by (rewrite ?length_app; lia).
  unfold b1, b2, b3, b4. rewrite !host_value_bytes, i32_mod by done.
  rewrite !Z.mod_small by (change (256 ^ Z.of_nat 8) with (2 ^ 64); change (256 ^ Z.of_nat 4) with (2 ^ 32); lia). by destruct v.
Qed.

Lemma int_lawful v : in_int32 v -> codec_lawful int_codec v.
Proof.
  intros Hv. cbn. rewrite slen_of_list, host_bytes_length, String.list_ascii_of_string_of_list_ascii, host_value_bytes.
  by rewrite i32_mod.
Qed.

(** ** Theorem *)

(** What [f] sends is accepted, and a client with these handlers that gets the
    envelope does [effect], as its callback for the topic. *)
Definition understood (f : client_state -> client_state * bool) (main : client_state) (user : user_code)
    (effect : M client_state unit) : Prop :=
  forall s s' c r receiver, cs_object s = Some c -> f s = (s', true) -> cs_object r = Some receiver ->
    Some (m_msgHandlers receiver) = m_msgHandlers <$> cs_object main ->
  exists c' env, cs_object s' = Some c' /\ outbound_queue c' = outbound_queue c ++ [env] /\
    handleMessage user env r = (set_replyTopic "" (effect (set_replyTopic "" r)).1, Ok tt).

Lemma understood_value {T} (k : payload_codec T) key (v : T) main user f func :
  codec_lawful k v -> Keys.isControlMessage key = false -> uc_user user f = typed_callback k func ->
  (cs_object main ≫= fun c => m_msgHandlers c !! key) = Some [mkEntry 0 (UserFn f)] ->
  understood (client_sendValue k key v) main user (func v).
Proof.
  intros Hk Hkey Hu Hm s s' c r receiver Hc Hs Hr Hh.
  apply (typed_delivery k key v s s' c user f 0 func r receiver); try done; [by intros raw; rewrite Hu|].
  destruct (cs_object main) as [cm|]; [|done]. injection Hh as ->. exact Hm.
Qed.

(** The example programs understand each other: everything that one of them sends,
    when its library accepts it, is handled by the other one's callback for that topic with the value
    that was sent; the text, the structure with its gaps and the protobuf message of client2 at
    client1, the response and the number of client1 at client2. *)
Theorem examples_exchange ms now :
  ParseUpdate (update_Serialize (client2_update now)) = Some (client2_update now) ->
  slen (update_Serialize (client2_update now)) < 2 ^ 31 ->
  understood (client2_send_json now) (client1_main ms) client1_user (on_test (client2_json now)) /\
  understood (client2_send_struct now) (client1_main ms) client1_user (on_struct (client2_struct now)) /\
  understood (client2_send_update now) (client1_main ms) client1_user (on_protobuf (client2_update now)) /\
  understood client1_response client2_main client2_user (on_MessageReceived "Send a response") /\
  understood client1_timeout client2_main client2_user (on_Hejsan 3).
Proof.
  intros Hp Hl. split_and!.
  - by apply (understood_value CodecString "test" (client2_json now) (client1_main ms) client1_user 1).
  - apply (understood_value TestStruct_codec "struct" _ (client1_main ms) client1_user 2); [|done..].
    apply TestStruct_lawful. unfold TestStruct_ok, in_int32. cbn. pose proof (Z.mod_pos_bound now (2 ^ 64)). unfold u64. lia.
  - by apply (understood_value Update_codec "protobuf" _ (client1_main ms) client1_user 3).
  - by apply (understood_value CodecString "MessageReceived" "Send a response" client2_main client2_user 1).
  - apply (understood_value int_codec "Hejsan" 3 client2_main client2_user 2); [|done..]. by apply int_lawful.
Qed.

End examples.
