(* ===== verification/QtAdapter.v ===== *)
(** * The Qt binding ([bindings/qt/qtconnectionadapter.h])

    The adapter registers callbacks that post the decoded value to the event
    queue of the context object's thread instead of calling the handler.  The
    world is the client library's state, the threads' own copies of the reply
    address, and the events that were posted.  Conversions between Qt's string classes
    and bytes are an argument. *)

From S2P Require Import Prelude Keys SafeQueue MessageHeader Stats Payload CppString Wire Worker Uuid.
From S2P Require Import SocketBase Client ClientTheorems.

(** ** Serializers *)

(** [QByteArray(data, n)]: a negative size reads up to the first null. *)
Definition QByteArray_new (data : string) (n : Z) : string :=
  if decide (n < 0)%Z then c_string data else str_take (Z.to_nat n) data.

Definition QByteArray_serialize (value : string) : string := value.
Definition QByteArray_deserialize (bytes : string) : string := QByteArray_new bytes (i32 (slen bytes)).

(** Qt's classes: UTF-16 strings and JSON objects. *)
Class QtTypes (QString QJsonObject : Type) := {
  toStdString : QString -> string;
  fromStdString : string -> QString;
  toJson : QJsonObject -> string;
  fromJson : string -> QJsonObject;
  QString_roundtrip : forall s, fromStdString (toStdString s) = s;
  QJson_roundtrip : forall o, fromJson (toJson o) = o
}.

Section adapter.
Context `{AnyRuntime} {QString QJsonObject : Type} `{!QtTypes QString QJsonObject}.
Context {G : Type} `{HexGen G}.

Definition QString_codec : payload_codec QString :=
  CodecCustom toStdString (fun bytes => Some (fromStdString bytes)).

Definition QByteArray_codec : payload_codec string :=
  CodecCustom QByteArray_serialize (fun bytes => Some (QByteArray_deserialize bytes)).

(** [QJsonDocument::fromJson(QByteArray(bytes, size)).object()]. *)
Definition QJsonObject_codec : payload_codec QJsonObject :=
  CodecCustom toJson (fun bytes => Some (fromJson (QByteArray_new bytes (i32 (slen bytes))))).

(** ** Calls into the library *)

Definition qt_new (config : ConnectionConfig) (s : client_state) : client_state := client_init config s.
Definition qt_delete (s : client_state) : client_state := client_shutdown s.

Definition qt_sendMessage {T} (k : payload_codec T) (key : QString) (payload : T) (s : client_state) :
    client_state * bool := client_sendValue k (toStdString key) payload s.

(** The string overload of [sendRequest], split at the wait. *)
Definition qt_sendRequest_begin (topic payload : QString) (p : Z) (g : G) (s : client_state) :
    client_state * G * option string :=
  sendRequest_begin (toStdString topic) (toStdString payload) p g s.

Definition qt_sendRequest_end (replyTopic : string) (p : Z) (s : client_state) :
    client_state * option QString :=
  let '(s, response) := sendRequest_end replyTopic p s in
  (s, match response with None => None | Some r => Some (fromStdString r) end).

Definition qt_sendRequest_typed_begin {Req} (serialize : Req -> string) (topic : QString) (payload : Req)
    (p : Z) (g : G) (s : client_state) : client_state * G * option string :=
  sendRequest_typed_begin serialize (toStdString topic) payload p g s.

Definition qt_unregisterCallback (key : QString) (context : Z) (s : client_state) : client_state :=
  unregisterCallback (toStdString key) context s.

(** ** Handlers *)

Context {V : Type}.

(** The function registered under a number: a lambda or a member function with
    an argument of some type, or a member function without. *)
Inductive qt_handler :=
  | QtTyped (decode : string -> option V)
  | QtVoid.

Context (handlers : Z -> qt_handler).

(** [registerCallback], all three overloads: the context is the instance. *)
Definition qt_registerCallback (key : QString) (context f : Z) (s : client_state) : client_state :=
  registerInternal (toStdString key) (UserFn f) context s.

(** A queued invocation: the context object, the function, its argument. *)
Record event := mkEvent {
  ev_context : Z;
  ev_function : Z;
  ev_argument : option V
}.

(** The thread of the library that runs callbacks, and the threads with an event loop. *)
Inductive thread := ProcessingThread | QtThread (n : Z).

#[global] Instance thread_eq_dec : EqDecision thread.
Proof. solve_decision. Defined.

(** [t_currentReplyTopic] is thread local.  The processing thread's copy is in the state of
    the library, those of the other threads are here; a thread that never assigned it
    has the empty string.  [qw_replies] records the calls of [replyToSender]: the
    thread and the result. *)
Record qt_world := mkWorld {
  qw_client : client_state;
  qw_locals : gmap Z string;
  qw_events : list event;
  qw_replies : list (thread * bool)
}.

Definition with_client (f : client_state -> client_state) (w : qt_world) : qt_world :=
  mkWorld (f (qw_client w)) (qw_locals w) (qw_events w) (qw_replies w).

Definition replyTopic_of (th : thread) (w : qt_world) : string :=
  match th with
  | ProcessingThread => t_currentReplyTopic (qw_client w)
  | QtThread n => default "" (qw_locals w !! n)
  end.

Definition qt_replyToSender {T} (th : thread) (k : payload_codec T) (value : T) (w : qt_world) : qt_world :=
  let '(s, ok) := on_instance (sendReplyEnvelope (replyTopic_of th w)
                    (mkEnvelope _ header_new (encodePayload k value))) (qw_client w) in
  mkWorld s (qw_locals w) (qw_events w) (qw_replies w ++ [(th, ok)]).

(** The user's functions: the replies each one tries to send. *)
Context {R : Type} (reply_codec : payload_codec R) (replies : Z -> option V -> list R).

(** [func(payload)], [(context->*method)(payload)] or [(context->*method)()], on some thread. *)
Definition run_handler (th : thread) (f : Z) (arg : option V) (w : qt_world) : qt_world :=
  foldl (fun w value => qt_replyToSender th reply_codec value w) w (replies f arg).

Inductive ConnectionType := DirectConnection | QueuedConnection.

(** [QMetaObject::invokeMethod]: a direct invocation runs on the calling thread, a queued
    one is posted to the event queue of the context. *)
Definition invokeMethod (type : ConnectionType) (caller : thread) (context f : Z) (arg : option V) (w : qt_world) : qt_world :=
  match type with
  | DirectConnection => run_handler caller f arg w
  | QueuedConnection => mkWorld (qw_client w) (qw_locals w) (qw_events w ++ [mkEvent context f arg]) (qw_replies w)
  end.

(** The callback the adapter registers, on the thread that runs callbacks. *)
Definition qt_callback (caller : thread) (context f : Z) (raw : string) (w : qt_world) : qt_world :=
  match handlers f with
  | QtTyped decode => match decode raw with
                      | Some v => invokeMethod QueuedConnection caller context f (Some v) w
                      | None => w
                      end
  | QtVoid => invokeMethod QueuedConnection caller context f None w
  end.

(** Callbacks that leave the library alone. *)
Definition posting : user_code := mkUser (fun _ _ => mret tt) (fun _ _ _ _ _ => mret tt).

Definition qt_run_entry (raw : string) (w : qt_world) (e : CallbackEntry) : qt_world :=
  match ce_func e with
  | UserFn f => qt_callback ProcessingThread (ce_instance e) f raw w
  | f => with_client (fun s => (run_callback posting f raw s).1) w
  end.

(** [handleMessage], with the adapter's callbacks as user code. *)
Definition qt_handleMessage (env : Envelope) (w : qt_world) : qt_world :=
  let callbacks := match cs_object (qw_client w) with
                   | Some c => default [] (m_msgHandlers c !! topic (header env))
                   | None => []
                   end in
  with_client (set_replyTopic "")
    (foldl (qt_run_entry (payload env)) (with_client (set_replyTopic (reply_topic (header env))) w) callbacks).

(** The thread an object lives in. *)
Context (thread_of : Z -> Z).

(** Thread [n] takes its oldest event and runs the handler. *)
Definition event_loop_step (n : Z) (w : qt_world) : qt_world :=
  match list_find (fun ev => thread_of (ev_context ev) = n) (qw_events w) with
  | None => w
  | Some (i, ev) =>
      run_handler (QtThread n) (ev_function ev) (ev_argument ev)
        (mkWorld (qw_client w) (qw_locals w) (delete i (qw_events w)) (qw_replies w))
  end.

(** A program that uses the adapter: messages are handled, event loops run, and Qt threads
    call the adapter. *)
Inductive qt_step : qt_world -> qt_world -> Prop :=
  | qt_message env w : qt_step w (qt_handleMessage env w)
  | qt_loop n w : qt_step w (event_loop_step n w)
  | qt_register key context f w : qt_step w (with_client (qt_registerCallback key context f) w)
  | qt_unregister key context w : qt_step w (with_client (qt_unregisterCallback key context) w)
  | qt_send {T} (k : payload_codec T) key (value : T) w :
      qt_step w (with_client (fun s => (qt_sendMessage k key value s).1) w)
  | qt_reply n value w : qt_step w (qt_replyToSender (QtThread n) reply_codec value w).

(** ** Lemmas *)

Lemma QByteArray_roundtrip v :
  (slen v < 2 ^ 31)%Z -> QByteArray_deserialize (QByteArray_serialize v) = v.
Proof.
  intros Hv. unfold QByteArray_deserialize, QByteArray_serialize, QByteArray_new.
  pose proof (slen_nonneg v) as Hn.
  assert (i32 (slen v) = slen v) as E.
  { unfold i32. rewrite Z.mod_small by lia. lia. }
  rewrite E, decide_False by lia. unfold slen. rewrite Nat2Z.id. apply str_take_all.
Qed.

Lemma registered_handlers key cb inst c :
  m_msgHandlers (performRegistration key cb inst c) !! key =
  Some (default [] (m_msgHandlers c !! key) ++ [mkEntry inst cb]).
Proof.
  unfold performRegistration. cbn zeta. case_match; [|apply lookup_insert_eq].
  destruct (sendRawEnvelope_same (createControlEnvelope Keys.SUBSCRIBE key
    (set_handlers (<[key := default [] (m_msgHandlers c !! key) ++ [mkEntry inst cb]]> (m_msgHandlers c)) c))
    (set_handlers (<[key := default [] (m_msgHandlers c !! key) ++ [mkEntry inst cb]]> (m_msgHandlers c)) c))
    as (_ & _ & -> & _). apply lookup_insert_eq.
Qed.

Lemma unregistered_handlers key inst c :
  Forall (fun e => ce_instance e <> inst) (default [] (m_msgHandlers (performUnregistration key inst c) !! key)).
Proof.
  unfold performUnregistration. destruct (m_msgHandlers c !! key) as [vec|] eqn:E; [|by rewrite E].
  cbn zeta. case_decide as D.
  - assert (K : m_msgHandlers (set_handlers (delete key (m_msgHandlers c)) c) !! key = None)
      by apply lookup_delete_eq.
    case_match; [|by rewrite K].
    destruct (sendRawEnvelope_same (createControlEnvelope Keys.UNSUBSCRIBE key
      (set_handlers (delete key (m_msgHandlers c)) c)) (set_handlers (delete key (m_msgHandlers c)) c))
      as (_ & _ & -> & _). by rewrite K.
  - cbn [m_msgHandlers set_handlers]. rewrite lookup_insert_eq. cbn [default].
    apply Forall_forall. intros e [He _]%list_elem_of_filter. done.
Qed.

(** The event a callback posts. *)
Definition posted (raw : string) (e : CallbackEntry) : option event :=
  match ce_func e with
  | UserFn f => match handlers f with
                | QtTyped decode => (fun v => mkEvent (ce_instance e) f (Some v)) <$> decode raw
                | QtVoid => Some (mkEvent (ce_instance e) f None)
                end
  | _ => None
  end.

Lemma qt_run_entry_eq raw e w :
  qt_run_entry raw w e = mkWorld (run_callback posting (ce_func e) raw (qw_client w)).1 (qw_locals w)
    (qw_events w ++ option_list (posted raw e)) (qw_replies w).
Proof.
  unfold qt_run_entry, posted, qt_callback, with_client. destruct (ce_func e) as [|f|p|t f u]; cbn [option_list]; rewrite ?app_nil_r; try done.
  destruct (handlers f) as [decode|]; [destruct (decode raw)|]; cbn; rewrite ?app_nil_r; by destruct w.
Qed.

(** The callbacks post their events, in order; nothing runs and nothing is replied. *)
Lemma qt_run_entries raw es w :
  foldl (qt_run_entry raw) w es = mkWorld
    (mfor (fun e => try_ignore (run_callback posting (ce_func e) raw)) es (qw_client w)).1 (qw_locals w)
    (qw_events w ++ omap (posted raw) es) (qw_replies w).
Proof.
  revert w. induction es as [|e es IH]; intros w; cbn [foldl mfor omap list_omap]; [rewrite app_nil_r; by destruct w|].
  rewrite IH, qt_run_entry_eq. cbn [qw_client qw_locals qw_events qw_replies]. unfold mbind, M_bind, try_ignore at 2.
  destruct (run_callback posting (ce_func e) raw (qw_client w)) as [s1 o]. cbn [fst]. f_equal.
  rewrite <-(assoc_L (++)). f_equal. by destruct (posted raw e).
Qed.

Lemma qt_handleMessage_eq env w :
  let callbacks := match cs_object (qw_client w) with
                   | Some c => default [] (m_msgHandlers c !! topic (header env)) | None => [] end in
  qt_handleMessage env w = mkWorld (handleMessage posting env (qw_client w)).1 (qw_locals w)
    (qw_events w ++ omap (posted (payload env)) callbacks) (qw_replies w).
Proof.
  intros callbacks. unfold qt_handleMessage. fold callbacks. rewrite qt_run_entries. unfold handleMessage, mbind, M_bind, mget, mmodify.
  fold callbacks. cbn [qw_client with_client qw_locals qw_events qw_replies].
  destruct (mfor_ignored (fun e => run_callback posting (ce_func e) (payload env)) callbacks
    (set_replyTopic (reply_topic (header env)) (qw_client w))) as [s' E]. unfold with_client. cbn [qw_client qw_locals qw_events qw_replies].
  by rewrite E.
Qed.

(** Callbacks that only post change nothing in the library. *)
Lemma posting_loop raw es s :
  Forall (fun e => exists f, ce_func e = UserFn f) es ->
  mfor (fun e => try_ignore (run_callback posting (ce_func e) raw)) es s = (s, Ok tt).
Proof.
  revert s. induction es as [|e es IH]; intros s; [done|]. intros [[f Hf] Hes]%Forall_cons.
  cbn [mfor]. unfold mbind, M_bind. rewrite Hf. cbn [run_callback posting uc_user]. unfold try_ignore, mret, M_ret.
  by apply IH.
Qed.

Lemma posted_context raw e ev : posted raw e = Some ev -> ev_context ev = ce_instance e.
Proof.
  unfold posted. destruct (ce_func e); try done.
  destruct (handlers f) as [decode|]; [destruct (decode raw)|]; intros [= <-]; done.
Qed.

(** A reply without an address. *)
Lemma reply_refused {T} th (k : payload_codec T) value w :
  replyTopic_of th w = "" ->
  qt_replyToSender th k value w = mkWorld (qw_client w) (qw_locals w) (qw_events w) (qw_replies w ++ [(th, false)]).
Proof.
  intros E. unfold qt_replyToSender, on_instance. destruct (getInstance (qw_client w)) as [c|] eqn:Ei; [|done].
  unfold sendReplyEnvelope. rewrite E, decide_True by done. f_equal.
  destruct (qw_client w) as [[o|] [] pend rt pr]; try done. by injection Ei as ->.
Qed.

Lemma handler_refused n f arg w :
  qw_locals w = ∅ ->
  run_handler (QtThread n) f arg w = mkWorld (qw_client w) (qw_locals w) (qw_events w)
    (qw_replies w ++ replicate (length (replies f arg)) (QtThread n, false)).
Proof.
  intros Hl. unfold run_handler. generalize (replies f arg). intros l. revert w Hl.
  induction l as [|v l IH]; intros w Hl; cbn; [rewrite app_nil_r; by destruct w|].
  rewrite reply_refused by (cbn; by rewrite Hl, lookup_empty). rewrite IH by done. cbn [qw_client qw_locals qw_events qw_replies].
  by rewrite <-(assoc_L (++)).
Qed.

(** ** Theorems *)

(** Handlers run on their context's thread: a message for a topic runs no
    handler on the processing thread and leaves the library as it was; it
    appends to the events one per registration of the topic whose
    payload decodes, oldest registration first; a new registration adds its
    event behind these, and after unregistering a context no message posts to
    it any more. *)
Theorem qt_callbacks_marshalled s c key context f env locals evs rs :
  getInstance s = Some c -> topic (header env) = toStdString key ->
  Forall (fun e => exists f, ce_func e = UserFn f) (default [] (m_msgHandlers c !! toStdString key)) ->
  let old := omap (posted (payload env)) (default [] (m_msgHandlers c !! toStdString key)) in
  qt_handleMessage env (mkWorld s locals evs rs) = mkWorld (set_replyTopic "" s) locals (evs ++ old) rs /\
  qw_events (qt_handleMessage env (mkWorld (qt_registerCallback key context f s) locals evs rs)) =
    evs ++ old ++ option_list (posted (payload env) (mkEntry context (UserFn f))) /\
  exists new, qw_events (qt_handleMessage env (mkWorld (qt_unregisterCallback key context s) locals evs rs)) = evs ++ new /\
    Forall (fun ev => ev_context ev <> context) new.
Proof.
  intros Hi Ht Hf old. assert (Hc : cs_object s = Some c) by (unfold getInstance in Hi; by destruct (cs_published s)).
  rewrite !qt_handleMessage_eq. cbn [qw_client qw_events qw_locals qw_replies]. rewrite Ht. split_and!.
  - rewrite Hc. f_equal. unfold handleMessage, mbind, M_bind, mget, mmodify. rewrite Hc, Ht. cbn [fst snd].
    rewrite posting_loop by done. cbn [fst]. by destruct s.
  - unfold qt_registerCallback, registerInternal. rewrite Hi. cbn [cs_object set_object].
    rewrite registered_handlers.
    cbn [from_option id]. rewrite omap_app. f_equal.
  - unfold qt_unregisterCallback, unregisterCallback. rewrite Hi. cbn [cs_object set_object]. eexists. split; [done|].
    apply Forall_forall. intros ev (e & He & Hev)%list_elem_of_omap.
    rewrite (posted_context _ _ _ Hev). revert e He Hev.
    pose proof (unregistered_handlers (toStdString key) context c) as K. rewrite Forall_forall in K. auto.
Qed.

(** C36. A handler cannot reply: in every run of a program that uses the adapter, whatever
    requests arrive, every call of [replyToSender] from a handler fails, and leaves
    the library as it is.  The handlers run on threads with an event loop, because
    the adapter posts them with a queued connection; the address of a request is local to
    the processing thread, and gone when it has posted the events. *)
Theorem qt_handler_cannot_reply w0 w :
  qw_locals w0 = ∅ -> qw_replies w0 = [] -> rtc qt_step w0 w ->
  Forall (fun r => r.2 = false /\ r.1 <> ProcessingThread) (qw_replies w) /\
  (forall n f arg, qw_client (run_handler (QtThread n) f arg w) = qw_client w).
Proof.
  intros Hl0 Hr0 Hr.
  assert (Hw : qw_locals w = ∅ /\ Forall (fun r => r.2 = false /\ r.1 <> ProcessingThread) (qw_replies w)).
  { assert (Hi : qw_locals w0 = ∅ /\ Forall (fun r => r.2 = false /\ r.1 <> ProcessingThread) (qw_replies w0))
      by (rewrite Hr0; by split; [|constructor]).
    clear Hl0 Hr0. induction Hr as [w|w w1 w2 Hs _ IH]; [done|]. apply IH. destruct Hi as [Hl Hf]. clear IH.
    destruct Hs as [env w|n w|key context f w|key context w|T k key value w|n value w]; try done.
    - rewrite qt_handleMessage_eq. done.
    - unfold event_loop_step. destruct (list_find _ _) as [[i ev]|]; [|done]. rewrite handler_refused by done. cbn. split; [done|].
      apply Forall_app. split; [done|]. by apply Forall_replicate.
    - rewrite reply_refused by (cbn; by rewrite Hl, lookup_empty). cbn. split; [done|]. apply Forall_app. split; [done|].
      by apply Forall_singleton. }
  destruct Hw as [Hl Hf]. split; [done|]. intros n f arg. by rewrite handler_refused.
Qed.

End adapter.
