(* ===== verification/ProtoTree.v ===== *)
(** * The message tree of the inspector ([inspector/protoutils.h])

    The tree drawn for a selected packet.  Descriptors, reflection and the
    generated pool belong to the protobuf library: [rmessage] is what they
    answer about one message (type name, fields in declaration order, presence,
    contents, each scalar as the text format prints it), and the interface
    [Reflection] yields it for the header and for the types of the pool. *)

From S2P Require Import Prelude CppString MessageHeader Stats Payload.

(** ** Reflected messages and widgets *)

Inductive rcontent (A : Type) :=
  | RMessages (l : list A)          (** [CPPTYPE_MESSAGE] *)
  | RScalars (l : list string).
Arguments RMessages {A} _.
Arguments RScalars {A} _.

Record rfield (A : Type) := mkField {
  rf_name : string;
  rf_repeated : bool;
  rf_present : bool;                (** [HasField], for a field not repeated *)
  rf_content : rcontent A
}.
Arguments mkField {A} _ _ _ _.
Arguments rf_name {A} _.
Arguments rf_repeated {A} _.
Arguments rf_present {A} _.
Arguments rf_content {A} _.

Inductive rmessage := RMessage (type_name : string) (fields : list (rfield rmessage)).

Definition GetTypeName (m : rmessage) : string := match m with RMessage t _ => t end.

(** [QTreeWidgetItem]: the texts of the two columns and the child items. *)
Inductive tree := Node (text0 text1 : string) (children : list tree).

Definition node_name (t : tree) : string := match t with Node n _ _ => n end.

(** ** [populateProtobufTree] *)

(** The printed value without a final newline. *)
Fixpoint chomp (s : string) : string :=
  match s with
  | EmptyString => ""
  | String c EmptyString => if decide (c = ascii_of_N 10) then "" else s
  | String c rest => String c (chomp rest)
  end.

Definition index_text (j : nat) : string := "[" +:+ to_string (Z.of_nat j) +:+ "]".
Definition items_text (n : nat) : string := "[" +:+ to_string (Z.of_nat n) +:+ " items]".

(** The loop over the elements of a repeated field. *)
Definition items {A} (node : nat -> A -> tree) : nat -> list A -> list tree :=
  fix go (j : nat) (l : list A) : list tree :=
    match l with
    | [] => []
    | a :: l => node j a :: go (S j) l
    end.

(** The items added below the given node; a field that is neither repeated nor
    present is skipped. *)
Fixpoint populateProtobufTree (m : rmessage) : list tree :=
  match m with
  | RMessage _ fields =>
      flat_map (fun f =>
        match f with
        | mkField name repeated present content =>
            if negb repeated && negb present then []
            else
              match content with
              | RMessages l =>
                  if repeated then
                    [Node name (items_text (length l))
                       (items (fun j m => Node (index_text j) "" (populateProtobufTree m)) 0 l)]
                  else [Node name "{...}" match l with m :: _ => populateProtobufTree m | [] => [] end]
              | RScalars l =>
                  if repeated then
                    [Node name (items_text (length l))
                       (items (fun j v => Node (index_text j) (chomp v) []) 0 l)]
                  else [Node name (chomp (default "" (head l))) []]
              end
        end) fields
  end.

(** ** [dynamicallyUnpack] and [drawEnvelopeAndPayload] *)

(** [s.substr(s.find_last_of('/') + 1)]. *)
Fixpoint has_slash (s : string) : bool :=
  match s with
  | EmptyString => false
  | String c s => bool_decide (c = "/"%char) || has_slash s
  end.

Fixpoint after_last_slash (s : string) : string :=
  match s with
  | EmptyString => ""
  | String c rest =>
      if has_slash rest then after_last_slash rest
      else if decide (c = "/"%char) then rest else s
  end.

Class Reflection `{ProtoRuntime} := {
  reflect_header : MessageHeader -> rmessage;
  FindMessageTypeByName : string -> bool;
  (** the prototype of a type: parsing into a new message of it *)
  GetPrototype : string -> option (string -> option rmessage)
}.

Section draw.
Context `{AnyRuntime} `{!Reflection}.

(** The [Any] is given by its type url and its bytes. *)
Definition dynamicallyUnpack (typeUrl any : string) : option rmessage :=
  let typeName := after_last_slash typeUrl in
  if negb (FindMessageTypeByName typeName) then None
  else match GetPrototype typeName with
       | None => None
       | Some parse => AnyUnpack typeName any ≫= parse
       end.

Definition raw_root (payload : string) : tree :=
  Node "Raw Payload" ("[" +:+ to_string (slen payload) +:+ " bytes]") [].

(** The top-level items added to the widget. *)
Definition drawEnvelopeAndPayload (h : MessageHeader) (payload : string) : list tree :=
  Node "Message Header" "" (populateProtobufTree (reflect_header h)) ::
  (if decide (payload = "") then []
   else match AnyTypeUrl payload with
        | Some url =>
            if str_starts_with "type.googleapis.com/" url then
              match dynamicallyUnpack url payload with
              | Some m => [Node (GetTypeName m) "" (populateProtobufTree m)]
              | None => [Node "[Unknown Protobuf Schema]" "Link .pb.cc file to view" []]
              end
            else [raw_root payload]
        | None => [raw_root payload]
        end).

(** ** Lemmas *)

Definition shown {A} (f : rfield A) : bool := rf_repeated f || rf_present f.

(** One item per field that is repeated or present, in declaration order. *)
Lemma populate_names t fields :
  node_name <$> populateProtobufTree (RMessage t fields) = rf_name <$> filter (fun f => shown f = true) fields.
Proof.
  cbn [populateProtobufTree]. induction fields as [|[n r p c] fields IH]; [done|]. cbn [flat_map].
  rewrite fmap_app, IH, filter_cons. unfold shown at 2; cbn [rf_repeated rf_present].
  destruct r, p; simpl; by destruct c.
Qed.

(** A repeated field shows each of its elements, numbered from zero. *)
Lemma items_length {A} (node : nat -> A -> tree) l j : length (items node j l) = length l.
Proof. revert j. induction l as [|a l IH]; intros j; simpl; [done|]. by rewrite IH. Qed.

Lemma items_lookup {A} (node : nat -> A -> tree) l j i a :
  l !! i = Some a -> items node j l !! i = Some (node (j + i) a).
Proof.
  revert j i. induction l as [|b l IH]; intros j [|i] E; try done.
  - injection E as ->. simpl. by rewrite Nat.add_0_r.
  - simpl in *. rewrite (IH (S j) i E). by rewrite Nat.add_succ_r.
Qed.

Lemma has_slash_no_char s : no_char "/"%char s -> has_slash s = false.
Proof.
  induction s as [|c s IH]; [done|]. intros [Hc Hs]%no_char_cons. simpl.
  rewrite bool_decide_eq_false_2 by done. by apply IH.
Qed.

Lemma after_last_slash_app a b : has_slash b = false -> after_last_slash (a +:+ String "/" b) = b.
Proof.
  intros Hb.
  assert (Hh : forall s, has_slash (s +:+ String "/" b) = true).
  { induction s as [|c s IH]; [done|]. rewrite string_app_cons. simpl. by rewrite IH, orb_true_r. }
  induction a as [|c a IH]; [simpl; by rewrite Hb|].
  rewrite string_app_cons. cbn [after_last_slash]. by rewrite Hh.
Qed.

(** A packed message of a linked type is drawn as that message. *)
Lemma draw_packed h name body parse m :
  (slen body < 2 ^ 31)%Z -> (slen name < 2 ^ 30)%Z -> no_char "/"%char name ->
  FindMessageTypeByName name = true -> GetPrototype name = Some parse -> parse body = Some m ->
  AnyPack name body <> "" ->
  drawEnvelopeAndPayload h (AnyPack name body) =
    [Node "Message Header" "" (populateProtobufTree (reflect_header h));
     Node (GetTypeName m) "" (populateProtobufTree m)].
Proof.
  intros Hb Hn Hs Hf Hp Hm Hne. unfold drawEnvelopeAndPayload. rewrite decide_False by done.
  rewrite AnyTypeUrl_pack by done. rewrite prefix_app. unfold dynamicallyUnpack.
  change ("type.googleapis.com/" +:+ name) with ("type.googleapis.com" +:+ String "/" name).
  rewrite after_last_slash_app by (by apply has_slash_no_char). rewrite Hf, Hp, AnyUnpack_pack by done.
  simpl. by rewrite Hm.
Qed.

End draw.
