(* ===== verification/Logger.v ===== *)
(** * The logger ([common/logger.h]) and the time stamps of the inspector

    Output streams with their fill character and field width, the log line, and
    the logger's mutex: threads that log at the same time.  The time zone, which
    [std::localtime] takes from the environment, is an argument. *)

From stdpp Require Import relations.
From S2P Require Import Prelude CppString.
#[local] Open Scope Z_scope.

(** ** Streams *)

Record ostream := mkStream {
  os_text : string;
  os_fill : ascii;
  os_width : nat
}.

Fixpoint filled (n : nat) (c : ascii) (s : string) : string :=
  match n with O => s | S n => String c (filled n c s) end.

(** Formatted insertion: padded on the left to the field width, which is used up. *)
Definition insert_text (s : string) (o : ostream) : ostream :=
  mkStream (os_text o +:+ filled (os_width o - String.length s) (os_fill o) s) (os_fill o) 0.

Definition insert_int (z : Z) (o : ostream) : ostream := insert_text (to_string z) o.

(** Unformatted output: [std::put_time] and the newline of [std::endl]. *)
Definition insert_raw (s : string) (o : ostream) : ostream := mkStream (os_text o +:+ s) (os_fill o) (os_width o).

Definition setfill (c : ascii) (o : ostream) : ostream := mkStream (os_text o) c (os_width o).
Definition setw (n : nat) (o : ostream) : ostream := mkStream (os_text o) (os_fill o) n.

Definition newline : string := String (ascii_of_N 10) "".

(** ** The clock *)

Section time.
Context (tz : Z -> Z).  (** offset of the local time from UTC at an instant, in seconds *)

(** [now] counts nanoseconds. *)
Definition to_time_t (now : Z) : Z := Z.quot now 1000000000.
Definition milliseconds_part (now : Z) : Z := Z.rem (Z.quot now 1000000) 1000.

Definition two_digits (z : Z) : string := String (digit_char (z / 10)) (String (digit_char (z mod 10)) "").

(** [%H:%M:%S] of the local time. *)
Definition hms (t : Z) : string :=
  let s := (t + tz t) mod 86400 in
  two_digits (s / 3600) +:+ ":" +:+ two_digits (s / 60 mod 60) +:+ ":" +:+ two_digits (s mod 60).

(** ** [Logger] *)

Inductive Level := DEBUG | INFO | WARNING | ERROR.

Definition level_tag (level : Level) : string :=
  match level with
  | DEBUG => "[DEBUG] "
  | INFO => "[INFO]  "
  | WARNING => "[WARN]  "
  | ERROR => "[ERROR] "
  end.

(** [std::cerr] for errors, [std::cout] for the rest. *)
Definition to_cerr (level : Level) : bool := match level with ERROR => true | _ => false end.

(** The insertions of [logInternal], in their order. *)
Definition log_insertions (level : Level) (msg : string) (now : Z) : list (ostream -> ostream) :=
  [insert_text "["; insert_raw (hms (to_time_t now)); insert_text "."; setfill "0"; setw 3;
   insert_int (milliseconds_part now); insert_text "] "; insert_text (level_tag level); insert_text msg;
   insert_raw newline].

Definition run_insertions (fs : list (ostream -> ostream)) (o : ostream) : ostream := foldl (fun o f => f o) o fs.

Record console := mkConsole { cout : ostream; cerr : ostream }.

Definition on_stream (level : Level) (f : ostream -> ostream) (k : console) : console :=
  if to_cerr level then mkConsole (cout k) (f (cerr k)) else mkConsole (f (cout k)) (cerr k).

Definition logInternal (level : Level) (msg : string) (now : Z) (k : console) : console :=
  on_stream level (run_insertions (log_insertions level msg now)) k.

(** ** Time stamps of the inspector *)

(** [getCurrentTimestamp] writes to a fresh stream. *)
Definition getCurrentTimestamp (now : Z) : string :=
  os_text (run_insertions [insert_raw (hms (to_time_t now)); insert_text "."; setfill "0"; setw 3;
    insert_int (milliseconds_part now)] (mkStream "" " " 0)).

(** [getCurrentTime] of the inspector's [main.cpp]. *)
Definition getCurrentTime (now : Z) : string :=
  hms (to_time_t now) +:+ "." +:+ to_string (milliseconds_part now).

(** ** The mutex *)

(** The thread in [logInternal] and the insertions it has left; what was logged
    so far, in the order in which the lock was taken, is a history variable. *)
Record logger := mkLogger {
  lg_console : console;
  lg_holder : option (Level * list (ostream -> ostream));
  lg_calls : list (Level * string * Z)
}.

Inductive log_step : logger -> logger -> Prop :=
  | log_acquire k calls level msg now :
      0 <= now ->
      log_step (mkLogger k None calls)
        (mkLogger k (Some (level, log_insertions level msg now)) (calls ++ [(level, msg, now)]))
  | log_insert k calls level f fs :
      log_step (mkLogger k (Some (level, f :: fs)) calls) (mkLogger (on_stream level f k) (Some (level, fs)) calls)
  | log_release k calls level :
      log_step (mkLogger k (Some (level, [])) calls) (mkLogger k None calls).

(** ** Lemmas *)

(** The three digits of the milliseconds. *)
Definition three_digits (z : Z) : string :=
  String (digit_char (z / 100)) (String (digit_char (z / 10 mod 10)) (String (digit_char (z mod 10)) "")).

Lemma filled_length n c s : String.length (filled n c s) = (n + String.length s)%nat.
Proof. induction n as [|n IH]; cbn; by rewrite ?IH. Qed.

Lemma three_digits_padded z :
  0 <= z < 1000 -> filled (3 - String.length (to_string z)) "0" (to_string z) = three_digits z.
Proof.
  intros Hz. unfold to_string, three_digits. cbn [to_dec]. case_decide as H1.
  { rewrite (Z.div_small z 100), (Z.div_small z 10), (Z.mod_small z 10) by lia. done. }
  rewrite Z.div_div by lia. change (10 * 10) with 100.
  destruct (decide (z < 100)).
  - rewrite (Z.div_small z 100) by lia. rewrite decide_True by (apply Z.div_lt_upper_bound; lia).
    rewrite (Z.mod_small (z / 10) 10); [done|]. split; [apply Z.div_pos; lia|apply Z.div_lt_upper_bound; lia].
  - rewrite decide_False by (apply Z.le_ngt, Z.div_le_lower_bound; lia).
    rewrite decide_True by (apply Z.div_lt_upper_bound; lia). done.
Qed.

Lemma milliseconds_bound now : 0 <= now -> 0 <= milliseconds_part now < 1000.
Proof. intros Hn. unfold milliseconds_part. apply Z.rem_bound_pos; [|lia]. by apply Z.quot_pos. Qed.

Definition log_prefix (level : Level) (now : Z) : string :=
  "[" +:+ hms (to_time_t now) +:+ "." +:+ three_digits (milliseconds_part now) +:+ "] " +:+ level_tag level.

Definition log_line (call : Level * string * Z) : string :=
  let '(level, msg, now) := call in log_prefix level now +:+ msg +:+ newline.

Lemma insert_text_0 s o : os_width o = O -> insert_text s o = mkStream (os_text o +:+ s) (os_fill o) 0.
Proof. unfold insert_text. by intros ->. Qed.

Lemma insert_padded z t :
  0 <= z < 1000 -> insert_int z (mkStream t "0" 3) = mkStream (t +:+ three_digits z) "0" 0.
Proof. intros Hz. unfold insert_int, insert_text. cbn [os_text os_fill os_width]. by rewrite three_digits_padded. Qed.

Lemma log_insertions_line level msg now o :
  0 <= now -> os_width o = O ->
  run_insertions (log_insertions level msg now) o = mkStream (os_text o +:+ log_line (level, msg, now)) "0" 0.
Proof.
  intros Hn Ho. unfold run_insertions, log_insertions. cbn [foldl]. rewrite (insert_text_0 _ _ Ho).
  unfold insert_raw; cbn [os_text os_fill os_width]. rewrite (insert_text_0 ".") by done. unfold setfill, setw; cbn [os_text os_fill os_width].
  rewrite insert_padded by by apply milliseconds_bound.
  rewrite !insert_text_0 by done. unfold insert_raw; cbn [os_text os_fill os_width]. f_equal.
  unfold log_line, log_prefix. by rewrite !string_app_assoc.
Qed.

(** The lines of one stream. *)
Definition lines_of (err : bool) (calls : list (Level * string * Z)) : string :=
  foldr (fun c acc => (if decide (to_cerr c.1.1 = err) then log_line c else "") +:+ acc) "" calls.

Lemma lines_of_snoc err calls c :
  lines_of err (calls ++ [c]) = lines_of err calls +:+ (if decide (to_cerr c.1.1 = err) then log_line c else "").
Proof.
  unfold lines_of. induction calls as [|a calls IH]; [by cbn; rewrite string_app_nil_r|].
  cbn [foldr app]. by rewrite IH, string_app_assoc.
Qed.

(** The console once the thread in the logger has finished. *)
Definition finished (l : logger) : console :=
  match lg_holder l with
  | Some (level, fs) => on_stream level (run_insertions fs) (lg_console l)
  | None => lg_console l
  end.

Definition shows (k : console) (calls : list (Level * string * Z)) : Prop :=
  os_text (cout k) = lines_of false calls /\ os_text (cerr k) = lines_of true calls /\
  os_width (cout k) = O /\ os_width (cerr k) = O.

Lemma log_step_shows l l' : shows (finished l) (lg_calls l) -> log_step l l' -> shows (finished l') (lg_calls l').
Proof.
  intros Hi Hs. destruct Hs as [k calls level msg now Hn|k calls level f fs|k calls level].
  - destruct Hi as (K1 & K2 & K3 & K4). unfold finished in *. cbn [lg_holder lg_console lg_calls] in *.
    unfold shows. rewrite !lines_of_snoc. unfold on_stream. cbn [fst].
    destruct (to_cerr level); cbn [cout cerr]; rewrite log_insertions_line by done; cbn [os_text os_width];
      rewrite ?K1, ?K2; (split_and!; [..|done|done]); done || by rewrite string_app_nil_r.
  - unfold finished, on_stream in *. cbn [lg_holder lg_console lg_calls] in *. by destruct (to_cerr level).
  - unfold finished, on_stream in *. cbn [lg_holder lg_console lg_calls] in *.
    destruct k. by destruct (to_cerr level).
Qed.

(** A call that is not disturbed is [logInternal]. *)
Lemma log_insert_all level fs k calls :
  rtc log_step (mkLogger k (Some (level, fs)) calls)
    (mkLogger (on_stream level (run_insertions fs) k) (Some (level, [])) calls).
Proof.
  revert k. induction fs as [|f fs IH]; intros k.
  - unfold on_stream. destruct k, (to_cerr level); apply rtc_refl.
  - eapply rtc_l; [apply log_insert|]. specialize (IH (on_stream level f k)).
    unfold on_stream in *. by destruct (to_cerr level).
Qed.

Lemma log_call_run level msg now k calls :
  0 <= now ->
  rtc log_step (mkLogger k None calls) (mkLogger (logInternal level msg now k) None (calls ++ [(level, msg, now)])).
Proof.
  intros Hn. eapply rtc_l; [by apply log_acquire|]. eapply rtc_r; [apply log_insert_all|]. apply log_release.
Qed.

(** ** Theorems *)

Definition console_new : console := mkConsole (mkStream "" " " 0) (mkStream "" " " 0).

(** C35. Lines of different threads do not mix.  However the threads' insertions
    interleave under the logger's mutex, whenever no thread is inside the logger
    the standard output is the concatenation of the complete lines of the calls
    below [ERROR], in the order in which the lock was taken, and the standard
    error that of the errors; each line has the time with exactly three digits
    for the milliseconds, the level and the message. *)
Theorem log_lines_whole l :
  rtc log_step (mkLogger console_new None []) l -> lg_holder l = None ->
  os_text (cout (lg_console l)) = lines_of false (lg_calls l) /\
  os_text (cerr (lg_console l)) = lines_of true (lg_calls l).
Proof.
  intros Hr Hh. enough (shows (finished l) (lg_calls l)) as (K1 & K2 & _).
  { unfold finished in K1, K2. by rewrite Hh in K1, K2. }
  revert Hr. apply (rtc_ind_r (fun l => shows (finished l) (lg_calls l))); [by split|].
  intros l1 l2 _ Hs Hi. by eapply log_step_shows.
Qed.

(** The message starts in the same column of every line. *)
Lemma log_prefix_length level now : String.length (log_prefix level now) = 23%nat.
Proof. by destruct level. Qed.

(** The inspector's time stamp is the logger's. *)
Lemma getCurrentTimestamp_eq now :
  0 <= now -> getCurrentTimestamp now = hms (to_time_t now) +:+ "." +:+ three_digits (milliseconds_part now).
Proof.
  intros Hn. unfold getCurrentTimestamp, run_insertions. cbn [foldl]; unfold insert_raw; cbn [os_text os_fill os_width].
  rewrite (insert_text_0 ".") by done. unfold setfill, setw; cbn [os_text os_fill os_width].
  rewrite insert_padded by by apply milliseconds_bound. cbn [os_text]. by rewrite !string_app_assoc.
Qed.

(** [getCurrentTime] does not pad: it agrees with the time stamp exactly from
    the hundredth millisecond of a second on. *)
Lemma getCurrentTime_padding now :
  0 <= now -> (getCurrentTime now = getCurrentTimestamp now <-> 100 <= milliseconds_part now).
Proof.
  intros Hn. rewrite getCurrentTimestamp_eq by done. pose proof (milliseconds_bound now Hn) as Hb.
  unfold getCurrentTime. rewrite <-(three_digits_padded _ Hb). split.
  - intros E. apply (f_equal String.length) in E. rewrite !string_length_app in E.
    rewrite filled_length in E. destruct (decide (milliseconds_part now < 100)) as [Hm|]; [exfalso|lia].
    enough (String.length (to_string (milliseconds_part now)) < 3)%nat by lia.
    unfold to_string. cbn [to_dec]. case_decide; [cbn; lia|].
    rewrite decide_True by (apply Z.div_lt_upper_bound; lia). rewrite string_length_app. cbn [String.length]. lia.
  - intros Hm. do 2 f_equal. assert (E : (3 <= String.length (to_string (milliseconds_part now)))%nat).
    { unfold to_string. cbn [to_dec]. rewrite decide_False by lia.
      rewrite decide_False by (apply Z.le_ngt, Z.div_le_lower_bound; lia).
      rewrite decide_True by (rewrite Z.div_div by lia; apply Z.div_lt_upper_bound; lia).
      rewrite !string_length_app. cbn. lia. }
    by replace (3 - String.length (to_string (milliseconds_part now)))%nat with O by lia.
Qed.

End time.

(** ** Witness *)

Definition utc (t : Z) : Z := 0.

Definition two_calls : logger :=
  mkLogger (logInternal utc ERROR "lost" 3600007000000 (logInternal utc INFO "up" 5000000 console_new)) None
    [(INFO, "up", 5000000); (ERROR, "lost", 3600007000000)].

Lemma log_lines_whole_witness :
  os_text (cout (lg_console two_calls)) = "[00:00:00.005] [INFO]  up" +:+ newline /\
  os_text (cerr (lg_console two_calls)) = "[01:00:00.007] [ERROR] lost" +:+ newline.
Proof.
  apply (log_lines_whole utc two_calls); [|reflexivity].
  etrans; [|apply (log_call_run utc ERROR "lost" 3600007000000 (logInternal utc INFO "up" 5000000 console_new)
    [(INFO, "up", 5000000)]); lia].
  apply (log_call_run utc INFO "up" 5000000 console_new []); lia.
Defined.
