(* ===== verification/Inspector.v ===== *)
(** * The inspector ([inspector/*.{h,cpp}])

    What the inspector keeps about the traffic it sees: the packet history
    with the row count announced to the table view, the known topics and their
    menu, the filter of the proxy model, the statistics shown, and the worker
    replayed messages are injected through.  Widgets are not modelled; a
    [QString] is its UTF-8 text, and the two Qt text functions that matter are
    the interface [QtText]. *)

From S2P Require Import Prelude Keys CppString SafeQueue MessageHeader Stats Payload Wire Worker Uuid.
From S2P Require Import HexDump ProtoTree.
From Stdlib Require Import Floats.SpecFloat.

Class QtText := {
  q_toLower : string -> string;
  q_number_f2 : spec_float -> string;
  q_toLower_empty : q_toLower "" = ""
}.

(** [s.contains(sub)] / [s.find(sub) != npos]. *)
Fixpoint str_contains (sub s : string) : bool :=
  str_starts_with sub s ||
  match s with
  | EmptyString => false
  | String _ s => str_contains sub s
  end.

Definition MaxPacketHistory : Z := 100000.
Definition TrimChunk : Z := 10000.

Section inspector.
Context `{StatsRuntime} `{!HeaderParser} `{QtText} {G : Type} `{HexGen G}.
(** [statsMsg.ParseFromString], from the runtime. *)
Context (parse_stats : string -> option SystemStats).

Record InspectorPacket := mkPacket {
  ip_timestamp : string;
  ip_senderId : string;
  ip_key : string;
  ip_topic : string;
  ip_sizeBytes : Z;
  ip_header : MessageHeader;
  ip_payload : string
}.

(** ** Capturing *)

Definition packet_of_envelope (timestamp : string) (env : Envelope) : InspectorPacket :=
  let h := header env in
  mkPacket timestamp (sender_id h) (handler_key h) (topic h)
    (u64 (ByteSizeLong h + slen (payload env))) h (payload env).

(** One round of [InspectorWorker::run]: the packet emitted, if any. *)
Definition capture_round {S} `{ZmqSocket S} (timestamp : string) : M S (option InspectorPacket) :=
  env ← recv true;
  mret (packet_of_envelope timestamp <$> env).

(** ** The table *)

Definition formatByteSize (bytes : Z) : string :=
  if decide (bytes < 1024)%Z then to_string bytes +:+ " B"
  else q_number_f2 (double_div (double_of_Z bytes) (double_of_Z 1024)) +:+ " KB".

Definition topic_label (t : string) : string := if decide (t = "") then "[Empty]" else t.

(** [data(index, Qt::DisplayRole)]. *)
Definition display_data (history : list InspectorPacket) (row column : nat) : option string :=
  match history !! row with
  | None => None
  | Some p =>
      match column with
      | 0 => Some (ip_timestamp p)
      | 1 => Some (ip_senderId p)
      | 2 => Some (ip_key p)
      | 3 => Some (topic_label (ip_topic p))
      | 4 => Some (formatByteSize (ip_sizeBytes p))
      | 5 => Some (formatByteSize (slen (ip_payload p)))
      | _ => None
      end
  end.

(** [data(index, Qt::BackgroundRole)]: red, green, blue, alpha. *)
Definition background_data (history : list InspectorPacket) (row : nat) : option (Z * Z * Z * Z) :=
  match history !! row with
  | None => None
  | Some p =>
      let key := ip_key p in
      if decide (key = Keys.CONNECT) then Some (0, 128, 0, 100)%Z
      else if decide (key = Keys.DISCONNECT) then Some (128, 0, 0, 100)%Z
      else if decide (key = Keys.SUBSCRIBE) then Some (0, 0, 128, 100)%Z
      else if decide (key = Keys.UNSUBSCRIBE) then Some (0, 128, 128, 100)%Z
      else if decide (key = Keys.SYS_STATS) then Some (128, 128, 0, 100)%Z
      else if Keys.isSystemPacket key then Some (50, 50, 50, 100)%Z
      else None
  end.

(** ** The window *)

Record MainWindow := mkWindow {
  m_packetHistory : list InspectorPacket;
  mw_rows : Z;                            (** rows the view was told about *)
  m_knownTopics : gset string;
  mw_topicMenu : list (string * bool);    (** actions: text, checked *)
  mw_filterText : string;
  px_searchText : string;                 (** of the proxy model *)
  px_allowedTopics : gset string;
  mw_stats : option SystemStats;          (** what the labels show *)
  m_pInjector : ZmqWorker
}.

Definition injector_config : ConnectionConfig :=
  mkConfig "tcp://localhost:5555" "Inspector-Replay" ZMQ (keepAliveTime config_default)
    (keepAliveTimeout config_default) (compressionAlgorithm config_default).

Definition window_new : MainWindow :=
  mkWindow [] 0 ∅ [] "" "" ∅ None (worker_start (worker_new injector_config)).

Definition set_history (h : list InspectorPacket) (rows : Z) (w : MainWindow) : MainWindow :=
  mkWindow h rows (m_knownTopics w) (mw_topicMenu w) (mw_filterText w) (px_searchText w)
    (px_allowedTopics w) (mw_stats w) (m_pInjector w).
Definition set_topics (known : gset string) (menu : list (string * bool)) (w : MainWindow) : MainWindow :=
  mkWindow (m_packetHistory w) (mw_rows w) known menu (mw_filterText w) (px_searchText w)
    (px_allowedTopics w) (mw_stats w) (m_pInjector w).
Definition updateFilters (text : string) (topics : gset string) (w : MainWindow) : MainWindow :=
  mkWindow (m_packetHistory w) (mw_rows w) (m_knownTopics w) (mw_topicMenu w) (mw_filterText w)
    (q_toLower text) topics (mw_stats w) (m_pInjector w).
Definition set_filterText (text : string) (w : MainWindow) : MainWindow :=
  mkWindow (m_packetHistory w) (mw_rows w) (m_knownTopics w) (mw_topicMenu w) text
    (px_searchText w) (px_allowedTopics w) (mw_stats w) (m_pInjector w).
Definition set_stats (s : option SystemStats) (w : MainWindow) : MainWindow :=
  mkWindow (m_packetHistory w) (mw_rows w) (m_knownTopics w) (mw_topicMenu w) (mw_filterText w)
    (px_searchText w) (px_allowedTopics w) s (m_pInjector w).
Definition set_injector (k : ZmqWorker) (w : MainWindow) : MainWindow :=
  mkWindow (m_packetHistory w) (mw_rows w) (m_knownTopics w) (mw_topicMenu w) (mw_filterText w)
    (px_searchText w) (px_allowedTopics w) (mw_stats w) k.

Definition checked_topics (menu : list (string * bool)) : gset string :=
  foldl (fun acc '(text, checked) => if checked : bool then {[text]} ∪ acc else acc) ∅ menu.

Definition applyFilters (w : MainWindow) : MainWindow :=
  updateFilters (mw_filterText w) (checked_topics (mw_topicMenu w)) w.

(** The two slots wired to [applyFilters]: a topic is (un)checked, the filter
    text is edited. *)
Definition toggle_topic (i : nat) (w : MainWindow) : MainWindow :=
  applyFilters (set_topics (m_knownTopics w) (alter (fun '(t, c) => (t, negb c)) i (mw_topicMenu w)) w).

Definition edit_filter (text : string) (w : MainWindow) : MainWindow :=
  applyFilters (set_filterText text w).

(** [packetAdded], then the trimming bracketed by [packetsAboutToBeTrimmed] and
    [packetsTrimmed]. *)
Definition append_packet (p : InspectorPacket) (w : MainWindow) : MainWindow :=
  let w := set_history (m_packetHistory w ++ [p]) (mw_rows w + 1) w in
  if decide (zlen (m_packetHistory w) > MaxPacketHistory)%Z
  then set_history (drop (Z.to_nat TrimChunk) (m_packetHistory w)) (mw_rows w - TrimChunk) w
  else w.

Definition note_topic (t : string) (w : MainWindow) : MainWindow :=
  let label := topic_label t in
  if decide (label ∈ m_knownTopics w) then w
  else applyFilters (set_topics ({[label]} ∪ m_knownTopics w) (mw_topicMenu w ++ [(label, true)]) w).

Definition show_stats (p : InspectorPacket) (w : MainWindow) : MainWindow :=
  if decide (ip_topic p = Keys.SYS_STATS) then
    match AnyUnpack stats_type_name (ip_payload p) ≫= parse_stats with
    | Some stats => set_stats (Some stats) w
    | None => w
    end
  else w.

Definition onNewPacket (p : InspectorPacket) (w : MainWindow) : MainWindow :=
  show_stats p (note_topic (ip_topic p) (append_packet p w)).

(** [PacketFilterProxyModel::filterAcceptsRow]. *)
Definition filterAcceptsRow (w : MainWindow) (row : nat) : bool :=
  let cell column := default "" (display_data (m_packetHistory w) row column) in
  let topic := cell 3 in
  if negb (bool_decide (topic ∈ px_allowedTopics w)) then false
  else if decide (px_searchText w = "") then true
  else str_contains (px_searchText w) (q_toLower (cell 1)) ||
       str_contains (px_searchText w) (q_toLower (cell 2)) ||
       str_contains (px_searchText w) (q_toLower topic).

(** ** Replay *)

Definition replay_header (uuid : string) (h : MessageHeader) : MessageHeader :=
  let h := set_message_uuid uuid (header_CopyFrom header_new h) in
  let originalSender := sender_id h in
  if str_contains "REPLAY_" originalSender then h
  else set_sender_id ("REPLAY_" +:+ originalSender) h.

(** [row] is the source row of the selection. *)
Definition replaySelectedMessage (row : nat) (g : G) (w : MainWindow) : MainWindow * G :=
  match m_packetHistory w !! row with
  | None => (w, g)
  | Some p =>
      let '(uuid, g) := generateUUID g in
      let replayed := mkEnvelope _ (replay_header uuid (ip_header p)) (ip_payload p) in
      let '(k, _) := if Keys.isControlMessage (handler_key (header replayed))
                     then writeControlMessage replayed (m_pInjector w)
                     else writeMessage replayed (m_pInjector w) in
      (set_injector k w, g)
  end.

(** [onSelectionChanged] for the source row of the selection: the hex dump and
    the tree shown.  [None] is an access outside the history. *)
Definition onSelectionChanged `{!AnyRuntime, !Reflection} (row : nat) (w : MainWindow) :
    option (string * list tree) :=
  (fun p => (generateHexDump (ip_payload p), drawEnvelopeAndPayload (ip_header p) (ip_payload p))) <$>
  m_packetHistory w !! row.

(** What happens to the window: a packet arrives, the user (un)checks a topic or
    edits the filter text. *)
Inductive ui_event :=
  | EvPacket (p : InspectorPacket)
  | EvToggle (i : nat)
  | EvFilter (text : string).

Definition ui_step (e : ui_event) (w : MainWindow) : MainWindow :=
  match e with
  | EvPacket p => onNewPacket p w
  | EvToggle i => toggle_topic i w
  | EvFilter text => edit_filter text w
  end.

Definition ui_run (es : list ui_event) : MainWindow := foldl (fun w e => ui_step e w) window_new es.

Definition event_packet (e : ui_event) : option InspectorPacket :=
  match e with EvPacket p => Some p | _ => None end.

(** ** Lemmas *)

(** History, row count, topics and filter fit together; [all] is every packet
    seen. *)
Record window_inv (all : list InspectorPacket) (w : MainWindow) : Prop := {
  iv_suffix : exists dropped, all = dropped ++ m_packetHistory w /\
    (dropped <> [] -> (MaxPacketHistory + 1 - TrimChunk <= zlen (m_packetHistory w))%Z);
  iv_bound : (zlen (m_packetHistory w) <= MaxPacketHistory)%Z;
  iv_rows : mw_rows w = zlen (m_packetHistory w);
  iv_known : forall t, t ∈ m_knownTopics w <-> exists p, p ∈ all /\ t = topic_label (ip_topic p);
  iv_menu : (mw_topicMenu w).*1 ≡ₚ elements (m_knownTopics w);
  iv_allowed : px_allowedTopics w = checked_topics (mw_topicMenu w);
  iv_search : px_searchText w = q_toLower (mw_filterText w)
}.

Lemma window_new_inv : window_inv [] window_new.
Proof.
  split; [exists []; split; [done|by intros []]|by unfold MaxPacketHistory|done| |done|done|].
  - intros t. split; [by intros ?%elem_of_empty|by intros (p & ?%elem_of_nil & _)].
  - symmetry. apply q_toLower_empty.
Qed.

Lemma zlen_trim p (h : list InspectorPacket) :
  (zlen (h ++ [p]) > MaxPacketHistory)%Z ->
  zlen (drop (Z.to_nat TrimChunk) (h ++ [p])) = (zlen h + 1 - TrimChunk)%Z.
Proof.
  rewrite zlen_app. unfold zlen, MaxPacketHistory, TrimChunk. rewrite length_drop, length_app.
  change (length [p]) with 1. lia.
Qed.

Lemma append_packet_spec all p w :
  window_inv all w ->
  let w' := append_packet p w in
  (exists dropped, all ++ [p] = dropped ++ m_packetHistory w' /\
    (dropped <> [] -> (MaxPacketHistory + 1 - TrimChunk <= zlen (m_packetHistory w'))%Z)) /\
  (zlen (m_packetHistory w') <= MaxPacketHistory)%Z /\
  mw_rows w' = zlen (m_packetHistory w').
Proof.
  intros [(dropped & -> & Hd) Hb Hr _ _ _ _]. unfold append_packet; cbn [set_history m_packetHistory mw_rows].
  assert (Hz : zlen (m_packetHistory w ++ [p]) = (zlen (m_packetHistory w) + 1)%Z) by (by rewrite zlen_app).
  pose proof (eq_refl : TrimChunk = 10000%Z) as HT.
  destruct (decide _) as [Hc|Hc]; cbn [set_history m_packetHistory mw_rows].
  - rewrite zlen_trim by exact Hc. rewrite Hz in Hc. split; [|lia].
    exists (dropped ++ take (Z.to_nat TrimChunk) (m_packetHistory w ++ [p])).
    rewrite <-!app_assoc, (take_drop (Z.to_nat TrimChunk)). split; [reflexivity|lia].
  - rewrite Hz in *. split; [|lia]. exists dropped. rewrite <-app_assoc. split; [reflexivity|].
    intros Hd'%Hd. lia.
Qed.

Lemma append_packet_topics p w :
  let w' := append_packet p w in
  m_knownTopics w' = m_knownTopics w /\ mw_topicMenu w' = mw_topicMenu w /\
  px_allowedTopics w' = px_allowedTopics w /\ mw_filterText w' = mw_filterText w /\
  px_searchText w' = px_searchText w /\ m_pInjector w' = m_pInjector w.
Proof. unfold append_packet. by destruct (decide _). Qed.

Lemma topic_label_nonempty t : topic_label t <> "".
Proof. unfold topic_label. by case_decide. Qed.

Lemma note_topic_history t w :
  m_packetHistory (note_topic t w) = m_packetHistory w /\ mw_rows (note_topic t w) = mw_rows w /\
  m_knownTopics (note_topic t w) = {[topic_label t]} ∪ m_knownTopics w.
Proof. unfold note_topic. case_decide; simpl; [|done]. split_and!; try done. set_solver. Qed.

Lemma note_topic_menu t w :
  (mw_topicMenu w).*1 ≡ₚ elements (m_knownTopics w) ->
  (mw_topicMenu (note_topic t w)).*1 ≡ₚ elements (m_knownTopics (note_topic t w)).
Proof.
  intros Hm. unfold note_topic. case_decide as Hd; simpl; [done|].
  rewrite fmap_app, elements_union_singleton, Hm by done. simpl. symmetry. apply Permutation_cons_append.
Qed.

(** The filter agrees with the menu and the filter text. *)
Definition filter_ok (w : MainWindow) : Prop :=
  px_allowedTopics w = checked_topics (mw_topicMenu w) /\ px_searchText w = q_toLower (mw_filterText w).

Lemma note_topic_filter t w : filter_ok w -> filter_ok (note_topic t w).
Proof. intros Hw. unfold note_topic. by case_decide. Qed.

Lemma show_stats_same p w :
  exists s, show_stats p w = set_stats s w.
Proof. unfold show_stats. repeat case_match; eauto; exists (mw_stats w); by destruct w. Qed.

Lemma onNewPacket_inv all p w : window_inv all w -> window_inv (all ++ [p]) (onNewPacket p w).
Proof.
  intros Hw. destruct (append_packet_spec all p w Hw) as (A1 & A2 & A3).
  destruct (append_packet_topics p w) as (A4 & A5 & A6 & A7 & A8 & _).
  destruct (note_topic_history (ip_topic p) (append_packet p w)) as (N1 & N2 & N3).
  pose proof (note_topic_menu (ip_topic p) (append_packet p w)) as N4.
  rewrite A4, A5 in N4. specialize (N4 (iv_menu _ _ Hw)).
  destruct (note_topic_filter (ip_topic p) (append_packet p w)) as [N5 N6].
  { split; [rewrite A6, A5; apply (iv_allowed _ _ Hw)|rewrite A8, A7; apply (iv_search _ _ Hw)]. }
  unfold onNewPacket. destruct (show_stats_same p (note_topic (ip_topic p) (append_packet p w))) as [s ->].
  split; unfold set_stats;
    cbn [m_packetHistory mw_rows m_knownTopics mw_topicMenu px_allowedTopics px_searchText mw_filterText];
    rewrite ?N1, ?N2; try assumption; rewrite N3, A4.
  intros t. rewrite elem_of_union, elem_of_singleton, (iv_known _ _ Hw). set_solver.
Qed.

Lemma toggle_menu_texts i (menu : list (string * bool)) :
  (alter (fun '(t, c) => (t, negb c)) i menu).*1 = menu.*1.
Proof. revert i. induction menu as [|[t c] menu IH]; intros [|i]; simpl; try done. f_equal. apply IH. Qed.

Lemma toggle_topic_inv all i w : window_inv all w -> window_inv all (toggle_topic i w).
Proof.
  intros []. unfold toggle_topic, applyFilters, updateFilters, set_topics.
  split; cbn [m_packetHistory mw_rows m_knownTopics mw_topicMenu px_allowedTopics px_searchText mw_filterText];
    try assumption; try reflexivity.
  by rewrite toggle_menu_texts.
Qed.

Lemma edit_filter_inv all text w : window_inv all w -> window_inv all (edit_filter text w).
Proof.
  intros []. unfold edit_filter, applyFilters, updateFilters, set_filterText.
  split; cbn [m_packetHistory mw_rows m_knownTopics mw_topicMenu px_allowedTopics px_searchText mw_filterText];
    try assumption; reflexivity.
Qed.

Lemma ui_run_inv es : window_inv (omap event_packet es) (ui_run es).
Proof.
  induction es as [|e es IH] using rev_ind; [apply window_new_inv|].
  unfold ui_run. rewrite foldl_snoc, omap_app. fold (ui_run es). destruct e; cbn [ui_step event_packet omap list_omap].
  - by apply onNewPacket_inv.
  - rewrite app_nil_r. by apply toggle_topic_inv.
  - rewrite app_nil_r. by apply edit_filter_inv.
Qed.

Lemma elem_of_checked_topics menu t : t ∈ checked_topics menu <-> (t, true) ∈ menu.
Proof.
  unfold checked_topics.
  cut (forall acc : gset string,
    t ∈ foldl (fun acc '(text, checked) => if checked : bool then {[text]} ∪ acc else acc) acc menu <->
    (t, true) ∈ menu \/ t ∈ acc); [intros ->; set_solver|].
  induction menu as [|[x c] menu IH]; intros acc; simpl; [set_solver|].
  rewrite IH, elem_of_cons. destruct c; set_solver.
Qed.

Lemma display_data_None w row column :
  m_packetHistory w !! row = None -> display_data (m_packetHistory w) row column = None.
Proof. intros E. unfold display_data. by rewrite E. Qed.

Lemma str_contains_prefix a b : str_contains a (a +:+ b) = true.
Proof.
  pose proof (prefix_app a b) as E. destruct (a +:+ b) as [|c s]; cbn [str_contains]; by rewrite E.
Qed.

Lemma replay_header_spec uuid h :
  header_wf h ->
  let h' := replay_header uuid h in
  header_wf h' /\ message_uuid h' = uuid /\
  sender_id h' = (if str_contains "REPLAY_" (sender_id h) then sender_id h else "REPLAY_" +:+ sender_id h) /\
  set_message_uuid "" (set_sender_id "" h') ≡ set_message_uuid "" (set_sender_id "" h).
Proof.
  intros Hw. unfold replay_header, header_CopyFrom.
  rewrite header_Clear_fresh by auto with wisp. rewrite header_MergeFrom_new by done.
  change (sender_id (set_message_uuid uuid h)) with (sender_id h).
  destruct (str_contains "REPLAY_" (sender_id h)); split_and!; auto with wisp; by split.
Qed.

(** ** Theorems *)

(** However packets arrive and filters are edited, the captured history is
    the most recent part of the traffic: never more than 100000 packets, at
    least 90001 once anything was dropped, in order of arrival, with exactly as
    many rows announced to the view; and the topic menu offers every topic seen
    so far exactly once. *)
Theorem inspector_history_bounded (es : list ui_event) :
  let w := ui_run es in
  let seen := omap event_packet es in
  (exists dropped, seen = dropped ++ m_packetHistory w /\
     (dropped <> [] -> 90001 <= zlen (m_packetHistory w))%Z) /\
  (zlen (m_packetHistory w) <= 100000)%Z /\
  mw_rows w = zlen (m_packetHistory w) /\
  NoDup (mw_topicMenu w).*1 /\
  (forall t, t ∈ (mw_topicMenu w).*1 <-> exists p, p ∈ seen /\ t = topic_label (ip_topic p)).
Proof.
  intros w seen. destruct (ui_run_inv es) as [Hs Hb Hr Hk Hm _ _].
  split_and!; [exact Hs|exact Hb|exact Hr| |].
  - unfold w. rewrite Hm. apply NoDup_elements.
  - intros t. unfold w. rewrite Hm, elem_of_elements. apply Hk.
Qed.

(** At any time the view shows exactly the captured packets whose topic is
    checked in the menu and, when a filter text is entered, whose sender, key
    or topic contains it, letter case aside: the proxy's copy of the filter
    never goes stale. *)
Theorem inspector_filter_exact (es : list ui_event) (row : nat) :
  let w := ui_run es in
  let text := q_toLower (mw_filterText w) in
  filterAcceptsRow w row = true <->
  exists p, m_packetHistory w !! row = Some p /\
    (topic_label (ip_topic p), true) ∈ mw_topicMenu w /\
    (text = "" \/ str_contains text (q_toLower (ip_senderId p)) = true \/
     str_contains text (q_toLower (ip_key p)) = true \/
     str_contains text (q_toLower (topic_label (ip_topic p))) = true).
Proof.
  intros w text. destruct (ui_run_inv es) as [_ _ _ Hk Hm Ha Hs]. fold w in Hk, Hm, Ha, Hs.
  unfold filterAcceptsRow. rewrite Ha, Hs. fold text.
  destruct (m_packetHistory w !! row) as [p|] eqn:E.
  - unfold display_data. rewrite E. simpl.
    destruct (bool_decide (topic_label (ip_topic p) ∈ checked_topics (mw_topicMenu w))) eqn:B; simpl.
    + apply bool_decide_eq_true_1, elem_of_checked_topics in B.
      destruct (decide (text = "")) as [D|D].
      { split; [|done]. intros _. by exists p; auto. }
      rewrite !orb_true_iff. split; [intros ?; exists p; tauto|].
      intros (q & [= <-] & _ & HH). tauto.
    + apply bool_decide_eq_false_1 in B. split; [done|].
      intros (q & [= <-] & Hq%elem_of_checked_topics & _). by contradict B.
  - rewrite !display_data_None by done. simpl. rewrite bool_decide_eq_false_2.
    + simpl. split; [done|]. by intros (q & ? & _).
    + intros HH%elem_of_checked_topics.
      assert ("" ∈ m_knownTopics w) as (q & _ & Hq)%Hk.
      { rewrite <-elem_of_elements, <-Hm. apply list_elem_of_fmap. by exists ("", true). }
      by apply (topic_label_nonempty (ip_topic q)).
Qed.

(** C29. Replaying the packet of a row queues one copy of it on the injector's
    connection, on the control queue exactly for control keys: the payload and
    every header field are the captured ones, except for a fresh well-formed
    message id, so that the broker does not drop the copy as a duplicate, and
    the sender: a sender without the mark [REPLAY_] becomes the mark followed by that
    sender, one that has the mark stays as it is, and so does the sender of the copy
    when the copy is captured and replayed in turn. *)
Theorem replay_exact (row : nat) (g : G) (w : MainWindow) (p : InspectorPacket) :
  m_packetHistory w !! row = Some p -> header_wf (ip_header p) ->
  exists env,
    payload env = ip_payload p /\ uuid_ok (message_uuid (header env)) /\
    message_uuid (header env) = (generateUUID g).1 /\
    (str_contains "REPLAY_" (sender_id (ip_header p)) = false ->
      sender_id (header env) = "REPLAY_" +:+ sender_id (ip_header p)) /\
    (str_contains "REPLAY_" (sender_id (ip_header p)) = true ->
      sender_id (header env) = sender_id (ip_header p)) /\
    (forall uuid, sender_id (replay_header uuid (header env)) = sender_id (header env)) /\
    set_message_uuid "" (set_sender_id "" (header env)) ≡
      set_message_uuid "" (set_sender_id "" (ip_header p)) /\
    (replaySelectedMessage row g w).1 = set_injector
      (if Keys.isControlMessage (handler_key (ip_header p))
       then (writeControlMessage env (m_pInjector w)).1
       else (writeMessage env (m_pInjector w)).1) w.
Proof.
  intros Hrow Hwf. unfold replaySelectedMessage. rewrite Hrow.
  pose proof (generateUUID_shape g) as Hu. destruct (generateUUID g) as [uuid g']. simpl in Hu.
  destruct (replay_header_spec uuid (ip_header p) Hwf) as (R1 & R2 & R3 & R4).
  exists (mkEnvelope _ (replay_header uuid (ip_header p)) (ip_payload p)). cbn [header payload fst].
  assert (Hk : handler_key (replay_header uuid (ip_header p)) = handler_key (ip_header p)).
  { by destruct R4. }
  rewrite R2, R3, Hk. split_and!; try done.
  - by intros ->.
  - by intros ->.
  - intros uuid'. destruct (replay_header_spec uuid' (replay_header uuid (ip_header p)) R1) as (_ & _ & -> & _).
    rewrite R3. destruct (str_contains "REPLAY_" (sender_id (ip_header p))) eqn:E; [by rewrite E|].
    by rewrite str_contains_prefix.
  - destruct (Keys.isControlMessage (handler_key (ip_header p))); by destruct (_ : _ * bool).
Qed.

End inspector.
