(* ===== verification/InspectorTable.v ===== *)
(** * What the inspector's table tells its views ([inspector/packettablemodel.cpp])

    A Qt model announces a change of its rows by a pair of calls; what the views read at
    those moments is the row count.  The pairs that [MainWindow::onNewPacket] produces
    are recorded with the row count at each call and compared with the rule the header
    of the class states: the pair surrounds the mutation. *)

From S2P Require Import Prelude Keys CppString SafeQueue MessageHeader Stats Payload Wire Worker.
From S2P Require Import Inspector.
#[local] Open Scope Z_scope.

Section table.
Context {Packet : Type}.

Implicit Types history : list Packet.

Definition rowCount history : Z := i32 (zlen history).
Definition columnCount : Z := 6.

Inductive orientation := Horizontal | Vertical.

Definition headers : list string := ["Time"; "Sender"; "Key"; "Topic"; "Msg size"; "Payload size"].

(** An empty string is the invalid [QVariant]; [None] is an access outside the array. *)
Definition headerData (section : nat) (o : orientation) (displayRole : bool) : option string :=
  match displayRole, o with
  | true, Horizontal => headers !! section
  | _, _ => Some ""
  end.

(** ** Announcements *)

(** With the row count that a view reads during the call. *)
Inductive announcement :=
  | beginInsertRows (first last rows : Z)
  | endInsertRows (rows : Z)
  | beginRemoveRows (first last rows : Z)
  | endRemoveRows (rows : Z).

Definition packetAdded history : list announcement :=
  let row := i32 (u64 (zlen history - 1)) in
  [beginInsertRows row row (rowCount history); endInsertRows (rowCount history)].

Definition packetsAboutToBeTrimmed (count : Z) history : list announcement :=
  [beginRemoveRows 0 (count - 1) (rowCount history)].

Definition packetsTrimmed history : list announcement := [endRemoveRows (rowCount history)].

(** The part of [onNewPacket] that changes the history. *)
Definition record_packet (packet : Packet) history : list Packet * list announcement :=
  let history := history ++ [packet] in
  let a1 := packetAdded history in
  if decide (zlen history > MaxPacketHistory) then
    let a2 := packetsAboutToBeTrimmed TrimChunk history in
    let history := drop (Z.to_nat TrimChunk) history in
    (history, a1 ++ a2 ++ packetsTrimmed history)
  else (history, a1).

(** ** The rule *)

(** A pair surrounds the mutation: the rows change between its calls by the rows announced, and
    those exist before a removal and after an insertion. *)
Definition surrounds (a b : announcement) : bool :=
  match a, b with
  | beginInsertRows first last r1, endInsertRows r2 =>
      (0 <=? first) && (first <=? r1) && (first <=? last) && (r2 =? r1 + (last - first + 1))
  | beginRemoveRows first last r1, endRemoveRows r2 =>
      (0 <=? first) && (first <=? last) && (last <? r1) && (r2 =? r1 - (last - first + 1))
  | _, _ => false
  end.

(** The rows of a view that follows the announcements. *)
Definition follow (rows : Z) (a : announcement) : Z :=
  match a with
  | beginInsertRows first last _ => rows + (last - first + 1)
  | beginRemoveRows first last _ => rows - (last - first + 1)
  | _ => rows
  end.

(** The history stays within the bound, so that every row has an [int]. *)
Lemma rowCount_small history : zlen history <= MaxPacketHistory + 1 -> rowCount history = zlen history.
Proof. intros Hl. unfold rowCount, i32. rewrite Z.mod_small; unfold zlen, MaxPacketHistory in *; lia. Qed.

(** The column headers answer for every column. *)
Lemma headers_complete section :
  Z.of_nat section < columnCount -> is_Some (headerData section Horizontal true).
Proof. intros Hs. unfold headerData. apply lookup_lt_is_Some. cbn. unfold columnCount in Hs. lia. Qed.

(** What the announcements add up to: a view that follows them has the rows of the history.
    A removal surrounds the mutation, as the class requires.  An insertion never does: the row
    is already in the history when it is announced, so the row count is the new one
    at both calls. *)
Theorem announcements packet history :
  zlen history <= MaxPacketHistory ->
  let '(history', acts) := record_packet packet history in
  foldl follow (zlen history) acts = zlen history' /\ zlen history' <= MaxPacketHistory /\
  exists a1 a2 rest, acts = a1 :: a2 :: rest /\ surrounds a1 a2 = false /\
    (rest = [] \/ exists a3 a4, rest = [a3; a4] /\ surrounds a3 a4 = true).
Proof.
  intros Hl. unfold record_packet. assert (Hz : zlen (history ++ [packet]) = zlen history + 1) by (by rewrite zlen_app).
  assert (Hn : 0 <= zlen history) by (unfold zlen; lia).
  assert (Er : rowCount (history ++ [packet]) = zlen history + 1) by (rewrite rowCount_small; lia).
  assert (Ei : i32 (u64 (zlen (history ++ [packet]) - 1)) = zlen history).
  { rewrite Hz. unfold u64, i32. rewrite (Z.mod_small _ (2 ^ 64)), Z.mod_small; unfold MaxPacketHistory in Hl; lia. }
  unfold packetAdded. rewrite Ei, Er.
  assert (Hs : surrounds (beginInsertRows (zlen history) (zlen history) (zlen history + 1)) (endInsertRows (zlen history + 1)) = false).
  { cbn. rewrite !andb_false_iff. right. apply Z.eqb_neq. lia. }
  case_decide as D.
  - set (h' := drop (Z.to_nat TrimChunk) (history ++ [packet])).
    assert (Hd : zlen h' = zlen history + 1 - TrimChunk).
    { unfold h', zlen in *. rewrite length_drop. unfold TrimChunk, MaxPacketHistory in *. lia. }
    unfold packetsAboutToBeTrimmed, packetsTrimmed. rewrite Er. rewrite (rowCount_small h') by (rewrite Hd; unfold TrimChunk; lia).
    split_and!; [cbn; rewrite Hd; lia|rewrite Hd; unfold TrimChunk; lia|].
    eexists _, _, _. split; [reflexivity|]. split; [exact Hs|]. right. eexists _, _. split; [reflexivity|].
    cbn. rewrite Hd. rewrite !andb_true_iff. unfold TrimChunk, MaxPacketHistory in *. split_and!; [lia..|].
    rewrite Z.eqb_eq. lia.
  - split_and!; [cbn; lia|lia|]. eexists _, _, _. split; [reflexivity|]. split; [exact Hs|by left].
Qed.

End table.

(** ** The window *)

Section window.
Context `{StatsRuntime} `{!AnyRuntime} `{!HeaderParser} `{QtText}.

(** The history of [Inspector.append_packet] is that of the announcements. *)
Lemma record_packet_window (p : InspectorPacket) (w : MainWindow) :
  (record_packet p (m_packetHistory w)).1 = m_packetHistory (append_packet p w).
Proof. unfold record_packet, append_packet. cbn [set_history m_packetHistory]. by case_decide. Qed.

(** [~MainWindow]: the injector's worker is stopped after the capturing thread. *)
Definition window_close (w : MainWindow) : MainWindow := set_injector (worker_stop (m_pInjector w)) w.

(** [showContextMenu]: the entries that are offered; none without a selection. *)
Definition context_menu (selectedRows : list nat) : list string :=
  if decide (selectedRows = []) then [] else ["Replay Message"].

End window.
