(* ===== verification/Capture.v ===== *)
(** * Capture: from the broker to the inspector's window

    The capture thread of the inspector ([inspector/inspectorworker.cpp]) on the
    socket the broker mirrors its traffic to, and the window it feeds. *)

From S2P Require Import Prelude Keys CppString SafeQueue SubscriptionRegistry MessageHeader.
From S2P Require Import Stats Payload Wire Worker Uuid Discovery Broker BrokerFacts BrokerTheorems.
From S2P Require Import Logger Inspector.

Section capture.
Context `{StatsRuntime} `{!HeaderParser} `{QtText} {G : Type} `{HexGen G} {S : Type} `{ZmqSocket S}
  `{UnorderedOrder}.
Context (tz : Z -> Z) (parse_stats : string -> option SystemStats).

Implicit Types w : broker_world (G:=G) (S:=S).

(** ** The capture thread *)

(** [while (m_running)]: what the flag and the clock read in each round; the
    packets it emits. *)
Fixpoint inspector_run (ticks : list (bool * Z)) : M S (list InspectorPacket) :=
  match ticks with
  | (true, now) :: ticks =>
      p ← capture_round (getCurrentTimestamp tz now);
      ps ← inspector_run ticks;
      mret (option_list p ++ ps)
  | _ => mret []
  end.

(** The signal is queued to the window's thread. *)
Definition show_packets (ps : list InspectorPacket) (win : MainWindow) : MainWindow :=
  foldl (fun win p => onNewPacket parse_stats p win) win ps.

(** ** The traffic *)

Record traffic := mkTraffic {
  tr_now : Z;
  tr_header : MessageHeader;
  tr_payload : string;
  tr_sender : string;
  tr_peer : bool
}.

Definition process_all (ms : list traffic) : M broker_world unit :=
  mfor (fun m => processMessage (tr_now m) (tr_header m) (tr_payload m) (tr_sender m) (tr_peer m)) ms.

(** The message as the broker mirrors it: only an id and the broker's name are
    added, to a message that has no id. *)
Record mirrored (m : traffic) (env : Envelope) : Prop := {
  mi_key : handler_key (header env) = handler_key (tr_header m);
  mi_topic : topic (header env) = topic (tr_header m);
  mi_sender : sender_id (header env) = sender_id (tr_header m);
  mi_payload : payload env = tr_payload m;
  mi_uuid : message_uuid (tr_header m) <> "" -> header env = tr_header m
}.

(** What a row of the inspector says about a message. *)
Record displays (env : Envelope) (p : InspectorPacket) : Prop := {
  di_header : ip_header p ≡ header env;
  di_payload : ip_payload p = payload env;
  di_sender : ip_senderId p = sender_id (header env);
  di_key : ip_key p = handler_key (header env);
  di_topic : ip_topic p = topic (header env)
}.

(** ** Lemmas *)

Lemma stamped_mirrored m w : mirrored m (mkEnvelope _ (stamped (tr_header m) w) (tr_payload m)).
Proof. unfold stamped. case_decide; by split. Qed.

Lemma process_all_mirrors P ok Q ms w :
  routing_socket P ok -> accepting Q -> sockets_ready P Q w -> Forall (fun m => header_wf (tr_header m)) ms ->
  exists w' sent, process_all ms w = (w', Ok tt) /\ sockets_ready P Q w' /\
    zmq_sent (bw_inspector w') = zmq_sent (bw_inspector w) ++ (wire_frames <$> sent) /\
    Forall2 mirrored ms sent /\ Forall (fun env => header_wf (header env)) sent.
Proof.
  intros HP HQ. revert w. induction ms as [|m ms IH]; intros w Hw Hf.
  { exists w, []. rewrite app_nil_r. by split_and!. }
  apply Forall_cons in Hf as [Hm Hf].
  destruct (processMessage_exact P ok HP Q HQ (tr_now m) (tr_header m) (tr_payload m) (tr_sender m) (tr_peer m) w Hw)
    as (w1 & E & Hw1 & K). destruct (process_core _ _ _ _ _ _) as [b [[ids hb] q]]. destruct K as (_ & _ & K & _).
  destruct (IH w1 Hw1 Hf) as (w' & sent & E' & Hw' & Es & J2 & J3).
  exists w', (mkEnvelope _ (stamped (tr_header m) w) (tr_payload m) :: sent). split_and!; [|done|..].
  - unfold process_all in *. cbn [mfor]. by rewrite (bind_ok _ _ _ _ _ E).
  - rewrite Es, K, <-app_assoc. done.
  - apply Forall2_cons. split; [apply stamped_mirrored|done].
  - apply Forall_cons. split; [|done]. cbn [header]. unfold stamped. case_decide; eauto with wisp.
Qed.

Lemma inspector_run_idle ticks (r : S) :
  zmq_current r = [] -> zmq_pending r = [] ->
  exists r', inspector_run ticks r = (r', Ok []) /\ zmq_current r' = [] /\ zmq_pending r' = [].
Proof.
  revert r. induction ticks as [|[b now] ticks IH]; intros r Hc Hp; [by exists r|].
  destruct b; [|by exists r]. cbn [inspector_run].
  destruct (zmq_recv_again r Hc Hp) as (r1 & E & C1 & P1).
  assert (Er : recv true r = (r1, Ok None)).
  { unfold recv, mbind, M_bind, socket_recv. by rewrite E. }
  destruct (IH r1 C1 P1) as (r' & E' & C' & P'). exists r'. split_and!; [|done|done].
  assert (Ec : capture_round (getCurrentTimestamp tz now) r = (r1, Ok None)).
  { unfold capture_round. by rewrite (bind_ok _ _ _ _ _ Er). }
  by rewrite (bind_ok _ _ _ _ _ Ec), (bind_ok _ _ _ _ _ E').
Qed.

Lemma inspector_run_all ticks (r : S) sent :
  Forall (fun t => t.1 = true) ticks -> (length sent <= length ticks)%nat ->
  Forall (fun env => header_wf (header env) /\ header_encodable IsStructurallyValidUTF8 (header env)) sent ->
  zmq_current r = [] -> zmq_pending r = wire_frames <$> sent ->
  exists r' ps, inspector_run ticks r = (r', Ok ps) /\ zmq_current r' = [] /\ zmq_pending r' = [] /\
    Forall2 displays sent ps.
Proof.
  revert r sent. induction ticks as [|[b now] ticks IH]; intros r sent Ht Hl He Hc Hp.
  { destruct sent; [|cbn in Hl; lia]. by exists r, []. }
  destruct sent as [|env sent].
  { destruct (inspector_run_idle ((b, now) :: ticks) r Hc Hp) as (r' & E & C & P). by exists r', []. }
  apply Forall_cons in Ht as [Hb Ht]. cbn in Hb. subst b. apply Forall_cons in He as [[Hw Hv] He].
  destruct (envelope_of_wire_frames env Hw Hv) as (h & Eh & Heq).
  destruct (recv_next true r _ _ Hc Hp) as (r1 & E1 & C1 & P1 & _). rewrite Eh in E1.
  cbn in Hl. destruct (IH r1 sent Ht ltac:(lia) He C1 P1) as (r' & ps & E' & C' & P' & J2).
  exists r', (packet_of_envelope (getCurrentTimestamp tz now) (mkEnvelope _ h (payload env)) :: ps).
  split_and!; [|done|done|].
  - cbn [inspector_run].
    assert (Ec : capture_round (getCurrentTimestamp tz now) r =
      (r1, Ok (Some (packet_of_envelope (getCurrentTimestamp tz now) (mkEnvelope _ h (payload env)))))).
    { unfold capture_round. by rewrite (bind_ok _ _ _ _ _ E1). }
    by rewrite (bind_ok _ _ _ _ _ Ec), (bind_ok _ _ _ _ _ E').
  - apply Forall2_cons. split; [|done]. destruct Heq. by split.
Qed.

Lemma onNewPacket_history p win :
  (zlen (m_packetHistory win) < MaxPacketHistory)%Z ->
  m_packetHistory (onNewPacket parse_stats p win) = m_packetHistory win ++ [p].
Proof.
  intros Hz. unfold onNewPacket.
  destruct (show_stats_same parse_stats p (note_topic (ip_topic p) (append_packet p win))) as [s ->].
  cbn [set_stats m_packetHistory]. destruct (note_topic_history parse_stats (ip_topic p) (append_packet p win)) as [-> _].
  unfold append_packet. rewrite decide_False; [done|]. cbn [set_history m_packetHistory].
  rewrite zlen_app. change (zlen [p]) with 1%Z. lia.
Qed.

Lemma show_packets_history ps win :
  (zlen (m_packetHistory win) + zlen ps <= MaxPacketHistory)%Z ->
  m_packetHistory (show_packets ps win) = m_packetHistory win ++ ps.
Proof.
  revert win. induction ps as [|p ps IH]; intros win Hz; [by rewrite app_nil_r|].
  change (p :: ps) with ([p] ++ ps) in Hz. rewrite zlen_app in Hz. change (zlen [p]) with 1%Z in Hz.
  pose proof (zlen_nonneg ps). unfold show_packets in *. cbn [foldl].
  rewrite IH; rewrite onNewPacket_history by lia; [by rewrite <-app_assoc|]. rewrite zlen_app.
  change (zlen [p]) with 1%Z. lia.
Qed.

(** ** Theorem *)

(** C28. Nothing the broker handles escapes the inspector.  The broker processes
    any messages, routed or not (control messages, duplicates, messages of unknown
    clients): every one of them is published for the inspector, in order, with its
    key, topic, sender and payload.  A capture thread that stays running for as many
    rounds as there are messages emits one packet for each, and until the history is
    full the window gets one row for each, in the same order, showing the same
    header and payload. *)
Theorem inspector_shows_traffic P ok Q ms w :
  routing_socket P ok -> accepting Q -> sockets_ready P Q w -> Forall (fun m => header_wf (tr_header m)) ms ->
  exists w' sent, process_all ms w = (w', Ok tt) /\
    zmq_sent (bw_inspector w') = zmq_sent (bw_inspector w) ++ (wire_frames <$> sent) /\
    Forall2 mirrored ms sent /\
    forall ticks (r : S) win,
      Forall (fun env => header_encodable IsStructurallyValidUTF8 (header env)) sent ->
      zmq_current r = [] -> zmq_pending r = wire_frames <$> sent ->
      Forall (fun t => t.1 = true) ticks -> (length ms <= length ticks)%nat ->
      (zlen (m_packetHistory win) + zlen ms <= MaxPacketHistory)%Z ->
      exists r' ps, inspector_run ticks r = (r', Ok ps) /\ zmq_pending r' = [] /\
        m_packetHistory (show_packets ps win) = m_packetHistory win ++ ps /\ Forall2 displays sent ps.
Proof.
  intros HP HQ Hw Hf. destruct (process_all_mirrors P ok Q ms w HP HQ Hw Hf) as (w' & sent & E & _ & Es & J2 & J3).
  exists w', sent. split_and!; [done|done|done|]. intros ticks r win He Hc Hp Ht Hl Hz.
  pose proof (Forall2_length _ _ _ J2) as L2.
  destruct (inspector_run_all ticks r sent Ht) as (r' & ps & E' & _ & P' & Hd);
    [by rewrite <-L2|apply Forall_and; by split|done|done|].
  exists r', ps. split_and!; [done|done| |done]. apply show_packets_history.
  pose proof (Forall2_length _ _ _ Hd) as L3. unfold zlen in *. lia.
Qed.

End capture.
