(* ===== verification/CBindings.v ===== *)
(** * The C bindings of the messages ([common/generated-c/*.pb-c.{h,c}])

    The generated C code is tables (one descriptor per message) and wrappers
    around the protobuf-c runtime, which reads and writes a struct by its
    descriptor.  The tables are data here; an [offsetof] is the name of the
    member, a pointer to a descriptor is the descriptor's full name.

    protobuf-c is not part of the repository: [ProtobufC] states how it encodes a
    field of each kind the tables use, in terms of the wire format of
    [ProtoRuntime], and [ProtobufCReader] how it reads one.  The theorems: the tables are
    consistent, C and C++ write the same bytes, and C reads what C++ wrote. *)

From S2P Require Import Prelude MessageHeader Stats Update Wire.
From Stdlib Require Import SpecFloat.
#[local] Open Scope Z_scope.

(** ** Descriptors *)

Inductive ProtobufCLabel := LABEL_NONE | LABEL_REPEATED.
Inductive ProtobufCType := TYPE_STRING | TYPE_INT32 | TYPE_INT64 | TYPE_DOUBLE | TYPE_MESSAGE.

Record ProtobufCFieldDescriptor := mkField {
  fd_name : string;
  fd_id : Z;
  fd_label : ProtobufCLabel;
  fd_type : ProtobufCType;
  fd_quantifier_offset : option string;
  fd_offset : string;
  fd_descriptor : option string;
  fd_default_empty : bool  (** [&protobuf_c_empty_string] *)
}.

Record ProtobufCMessageDescriptor := mkDescriptor {
  md_name : string;
  md_short_name : string;
  md_c_name : string;
  md_package_name : string;
  md_n_fields : nat;
  md_fields : list ProtobufCFieldDescriptor;
  md_fields_sorted_by_name : list nat;
  md_n_field_ranges : nat;
  md_field_ranges : list (Z * nat)
}.

Definition broker__message_header__field_descriptors : list ProtobufCFieldDescriptor :=
  [mkField "handler_key" 1 LABEL_NONE TYPE_STRING None "handler_key" None true;
   mkField "sender_id" 2 LABEL_NONE TYPE_STRING None "sender_id" None true;
   mkField "topic" 3 LABEL_NONE TYPE_STRING None "topic" None true;
   mkField "origin_broker_id" 5 LABEL_NONE TYPE_STRING None "origin_broker_id" None true;
   mkField "message_uuid" 6 LABEL_NONE TYPE_STRING None "message_uuid" None true;
   mkField "transfer_id" 7 LABEL_NONE TYPE_STRING None "transfer_id" None true;
   mkField "sequence_number" 8 LABEL_NONE TYPE_INT32 None "sequence_number" None false;
   mkField "sequence_count" 9 LABEL_NONE TYPE_INT32 None "sequence_count" None false;
   mkField "reply_topic" 11 LABEL_NONE TYPE_STRING None "reply_topic" None true].

Definition broker__message_header__field_indices_by_name : list nat := [0; 4; 3; 8; 1; 7; 6; 2; 5]%nat.

Definition broker__message_header__number_ranges : list (Z * nat) := [(1, 0%nat); (5, 3%nat); (11, 8%nat); (0, 9%nat)].

Definition broker__message_header__descriptor : ProtobufCMessageDescriptor :=
  mkDescriptor "broker.MessageHeader" "MessageHeader" "Broker__MessageHeader" "broker" 9
    broker__message_header__field_descriptors broker__message_header__field_indices_by_name 3
    broker__message_header__number_ranges.

Definition broker__client_info__field_descriptors : list ProtobufCFieldDescriptor :=
  [mkField "id" 1 LABEL_NONE TYPE_STRING None "id" None true;
   mkField "subscriptions" 2 LABEL_REPEATED TYPE_STRING (Some "n_subscriptions") "subscriptions" None true].

Definition broker__client_info__field_indices_by_name : list nat := [0; 1]%nat.

Definition broker__client_info__number_ranges : list (Z * nat) := [(1, 0%nat); (0, 2%nat)].

Definition broker__client_info__descriptor : ProtobufCMessageDescriptor :=
  mkDescriptor "broker.ClientInfo" "ClientInfo" "Broker__ClientInfo" "broker" 2
    broker__client_info__field_descriptors broker__client_info__field_indices_by_name 1
    broker__client_info__number_ranges.

Definition broker__system_stats__field_descriptors : list ProtobufCFieldDescriptor :=
  [mkField "broker_id" 1 LABEL_NONE TYPE_STRING None "broker_id" None true;
   mkField "clients_count" 2 LABEL_NONE TYPE_INT32 None "clients_count" None false;
   mkField "peers_count" 3 LABEL_NONE TYPE_INT32 None "peers_count" None false;
   mkField "msgs_per_sec" 4 LABEL_NONE TYPE_INT32 None "msgs_per_sec" None false;
   mkField "kb_per_sec" 5 LABEL_NONE TYPE_DOUBLE None "kb_per_sec" None false;
   mkField "total_msgs" 6 LABEL_NONE TYPE_INT64 None "total_msgs" None false;
   mkField "uptime_sec" 7 LABEL_NONE TYPE_INT64 None "uptime_sec" None false;
   mkField "connected_clients" 8 LABEL_REPEATED TYPE_MESSAGE (Some "n_connected_clients") "connected_clients"
     (Some "broker.ClientInfo") false].

Definition broker__system_stats__field_indices_by_name : list nat := [0; 1; 7; 4; 3; 2; 5; 6]%nat.

Definition broker__system_stats__number_ranges : list (Z * nat) := [(1, 0%nat); (0, 8%nat)].

Definition broker__system_stats__descriptor : ProtobufCMessageDescriptor :=
  mkDescriptor "broker.SystemStats" "SystemStats" "Broker__SystemStats" "broker" 8
    broker__system_stats__field_descriptors broker__system_stats__field_indices_by_name 1
    broker__system_stats__number_ranges.

Definition communication__update__field_descriptors : list ProtobufCFieldDescriptor :=
  [mkField "id" 1 LABEL_NONE TYPE_STRING None "id" None true;
   mkField "message" 2 LABEL_NONE TYPE_STRING None "message" None true;
   mkField "timestamp_utc" 3 LABEL_NONE TYPE_INT64 None "timestamp_utc" None false].

Definition communication__update__field_indices_by_name : list nat := [0; 1; 2]%nat.

Definition communication__update__number_ranges : list (Z * nat) := [(1, 0%nat); (0, 3%nat)].

Definition communication__update__descriptor : ProtobufCMessageDescriptor :=
  mkDescriptor "communication.Update" "Update" "Communication__Update" "communication" 3
    communication__update__field_descriptors communication__update__field_indices_by_name 1
    communication__update__number_ranges.

Definition descriptors : list ProtobufCMessageDescriptor :=
  [broker__message_header__descriptor; broker__client_info__descriptor;
   broker__system_stats__descriptor; communication__update__descriptor].

(** ** Structs *)

(** A struct seen through its base: the descriptor, the unknown fields, and the
    members by offset.  An array is what its pointer points to. *)
Inductive c_value :=
  | CStr (s : string)
  | CInt (z : Z)
  | CDouble (d : spec_float)
  | CSize (n : nat)
  | CStrs (l : list string)
  | CMsgs (l : list c_message)
with c_message :=
  | mkCMessage (descriptor : ProtobufCMessageDescriptor) (unknown : string) (members : list (string * c_value)).

Definition cm_descriptor (m : c_message) : ProtobufCMessageDescriptor := let '(mkCMessage d _ _) := m in d.
Definition cm_unknown (m : c_message) : string := let '(mkCMessage _ u _) := m in u.
Definition cm_members (m : c_message) : list (string * c_value) := let '(mkCMessage _ _ ms) := m in ms.

Definition assoc {A} (k : string) (l : list (string * A)) : option A := snd <$> (snd <$> list_find (fun x => x.1 = k) l).

Definition member_at (m : c_message) (offset : string) : option c_value := assoc offset (cm_members m).

Record Broker__MessageHeader := mkCHeader {
  c_handler_key : string;
  c_sender_id : string;
  c_topic : string;
  c_origin_broker_id : string;
  c_message_uuid : string;
  c_transfer_id : string;
  c_sequence_number : Z;
  c_sequence_count : Z;
  c_reply_topic : string
}.

Record Broker__ClientInfo := mkCClientInfo {
  c_id : string;
  n_subscriptions : nat;
  c_subscriptions : list string
}.

Record Broker__SystemStats := mkCStats {
  c_broker_id : string;
  c_clients_count : Z;
  c_peers_count : Z;
  c_msgs_per_sec : Z;
  c_kb_per_sec : spec_float;
  c_total_msgs : Z;
  c_uptime_sec : Z;
  n_connected_clients : nat;
  c_connected_clients : list Broker__ClientInfo
}.

Record Communication__Update := mkCUpdate {
  c_upd_id : string;
  c_upd_message : string;
  c_upd_timestamp_utc : Z
}.

(** The cast to [ProtobufCMessage*], for a struct without unknown fields. *)
Definition header_message (m : Broker__MessageHeader) : c_message :=
  mkCMessage broker__message_header__descriptor ""
    [("handler_key", CStr (c_handler_key m)); ("sender_id", CStr (c_sender_id m)); ("topic", CStr (c_topic m));
     ("origin_broker_id", CStr (c_origin_broker_id m)); ("message_uuid", CStr (c_message_uuid m));
     ("transfer_id", CStr (c_transfer_id m)); ("sequence_number", CInt (c_sequence_number m));
     ("sequence_count", CInt (c_sequence_count m)); ("reply_topic", CStr (c_reply_topic m))].

Definition client_info_message (m : Broker__ClientInfo) : c_message :=
  mkCMessage broker__client_info__descriptor ""
    [("id", CStr (c_id m)); ("n_subscriptions", CSize (n_subscriptions m)); ("subscriptions", CStrs (c_subscriptions m))].

Definition system_stats_message (m : Broker__SystemStats) : c_message :=
  mkCMessage broker__system_stats__descriptor ""
    [("broker_id", CStr (c_broker_id m)); ("clients_count", CInt (c_clients_count m));
     ("peers_count", CInt (c_peers_count m)); ("msgs_per_sec", CInt (c_msgs_per_sec m));
     ("kb_per_sec", CDouble (c_kb_per_sec m)); ("total_msgs", CInt (c_total_msgs m));
     ("uptime_sec", CInt (c_uptime_sec m)); ("n_connected_clients", CSize (n_connected_clients m));
     ("connected_clients", CMsgs (client_info_message <$> c_connected_clients m))].

Definition update_message (m : Communication__Update) : c_message :=
  mkCMessage communication__update__descriptor ""
    [("id", CStr (c_upd_id m)); ("message", CStr (c_upd_message m)); ("timestamp_utc", CInt (c_upd_timestamp_utc m))].

(** The initializers. *)
Definition BROKER__MESSAGE_HEADER__INIT : Broker__MessageHeader := mkCHeader "" "" "" "" "" "" 0 0 "".
Definition BROKER__CLIENT_INFO__INIT : Broker__ClientInfo := mkCClientInfo "" 0 [].
Definition BROKER__SYSTEM_STATS__INIT : Broker__SystemStats := mkCStats "" 0 0 0 (S754_zero false) 0 0 0 [].
Definition COMMUNICATION__UPDATE__INIT : Communication__Update := mkCUpdate "" "" 0.

(** ** The runtime *)

Class ProtobufC `{StatsRuntime} := {
  protobuf_c_message_pack : c_message -> string;
  protobuf_c_message_get_packed_size : c_message -> Z;
  protobuf_c_message_unpack : ProtobufCMessageDescriptor -> string -> option c_message;
  pack_field : c_message -> ProtobufCFieldDescriptor -> string;
  pack_is_fields : forall m, protobuf_c_message_pack m =
    write_all (pack_field m) (md_fields (cm_descriptor m)) +:+ cm_unknown m;
  packed_size_is_size : forall m, protobuf_c_message_get_packed_size m = slen (protobuf_c_message_pack m);
  (** without a label a field that holds its default is not written *)
  pack_string : forall m fd s, fd_label fd = LABEL_NONE -> fd_type fd = TYPE_STRING ->
    member_at m (fd_offset fd) = Some (CStr s) ->
    pack_field m fd = if decide (s = "") then "" else WriteString (fd_id fd) s;
  pack_int32 : forall m fd v, fd_label fd = LABEL_NONE -> fd_type fd = TYPE_INT32 ->
    member_at m (fd_offset fd) = Some (CInt v) ->
    pack_field m fd = if decide (v = 0) then "" else WriteInt32 (fd_id fd) v;
  pack_int64 : forall m fd v, fd_label fd = LABEL_NONE -> fd_type fd = TYPE_INT64 ->
    member_at m (fd_offset fd) = Some (CInt v) ->
    pack_field m fd = if decide (v = 0) then "" else WriteInt64 (fd_id fd) v;
  (** nothing is said of the negative zero *)
  pack_double : forall m fd v, fd_label fd = LABEL_NONE -> fd_type fd = TYPE_DOUBLE ->
    member_at m (fd_offset fd) = Some (CDouble v) -> v <> S754_zero true ->
    pack_field m fd = if double_bits_nonzero v then WriteDouble (fd_id fd) v else "";
  (** the quantifier says how many elements there are *)
  pack_strings : forall m fd q n l, fd_label fd = LABEL_REPEATED -> fd_type fd = TYPE_STRING ->
    fd_quantifier_offset fd = Some q -> member_at m q = Some (CSize n) ->
    member_at m (fd_offset fd) = Some (CStrs l) -> (n <= length l)%nat ->
    pack_field m fd = write_all (WriteString (fd_id fd)) (take n l);
  pack_messages : forall m fd q n l, fd_label fd = LABEL_REPEATED -> fd_type fd = TYPE_MESSAGE ->
    fd_quantifier_offset fd = Some q -> member_at m q = Some (CSize n) ->
    member_at m (fd_offset fd) = Some (CMsgs l) -> (n <= length l)%nat ->
    (forall sub, sub ∈ l -> fd_descriptor fd = Some (md_name (cm_descriptor sub))) ->
    pack_field m fd = write_all (fun sub => InternalWriteMessage (fd_id fd)
      (slen (protobuf_c_message_pack sub)) (protobuf_c_message_pack sub)) (take n l)
}.

(** ** The wrappers *)

Section wrappers.
Context `{ProtobufC}.

(** [assert(message->base.descriptor == &d)]; [None] is the abort. *)
Definition with_descriptor {A} (d : ProtobufCMessageDescriptor) (m : c_message) (r : A) : option A :=
  if decide (md_name (cm_descriptor m) = md_name d) then Some r else None.

Definition broker__message_header__init : c_message := header_message BROKER__MESSAGE_HEADER__INIT.
Definition broker__message_header__get_packed_size (m : c_message) : option Z :=
  with_descriptor broker__message_header__descriptor m (protobuf_c_message_get_packed_size m).
Definition broker__message_header__pack (m : c_message) : option string :=
  with_descriptor broker__message_header__descriptor m (protobuf_c_message_pack m).
(** The buffer is what was appended to it. *)
Definition broker__message_header__pack_to_buffer (m : c_message) (buffer : string) : option string :=
  with_descriptor broker__message_header__descriptor m (buffer +:+ protobuf_c_message_pack m).
Definition broker__message_header__unpack (data : string) : option c_message :=
  protobuf_c_message_unpack broker__message_header__descriptor data.
(** The message that is given back to the allocator. *)
Definition broker__message_header__free_unpacked (m : option c_message) : option (option c_message) :=
  match m with
  | None => Some None
  | Some m => with_descriptor broker__message_header__descriptor m (Some m)
  end.

Definition broker__client_info__init : c_message := client_info_message BROKER__CLIENT_INFO__INIT.
Definition broker__client_info__get_packed_size (m : c_message) : option Z :=
  with_descriptor broker__client_info__descriptor m (protobuf_c_message_get_packed_size m).
Definition broker__client_info__pack (m : c_message) : option string :=
  with_descriptor broker__client_info__descriptor m (protobuf_c_message_pack m).
Definition broker__client_info__pack_to_buffer (m : c_message) (buffer : string) : option string :=
  with_descriptor broker__client_info__descriptor m (buffer +:+ protobuf_c_message_pack m).
Definition broker__client_info__unpack (data : string) : option c_message :=
  protobuf_c_message_unpack broker__client_info__descriptor data.
Definition broker__client_info__free_unpacked (m : option c_message) : option (option c_message) :=
  match m with
  | None => Some None
  | Some m => with_descriptor broker__client_info__descriptor m (Some m)
  end.

Definition broker__system_stats__init : c_message := system_stats_message BROKER__SYSTEM_STATS__INIT.
Definition broker__system_stats__get_packed_size (m : c_message) : option Z :=
  with_descriptor broker__system_stats__descriptor m (protobuf_c_message_get_packed_size m).
Definition broker__system_stats__pack (m : c_message) : option string :=
  with_descriptor broker__system_stats__descriptor m (protobuf_c_message_pack m).
Definition broker__system_stats__pack_to_buffer (m : c_message) (buffer : string) : option string :=
  with_descriptor broker__system_stats__descriptor m (buffer +:+ protobuf_c_message_pack m).
Definition broker__system_stats__unpack (data : string) : option c_message :=
  protobuf_c_message_unpack broker__system_stats__descriptor data.
Definition broker__system_stats__free_unpacked (m : option c_message) : option (option c_message) :=
  match m with
  | None => Some None
  | Some m => with_descriptor broker__system_stats__descriptor m (Some m)
  end.

Definition communication__update__init : c_message := update_message COMMUNICATION__UPDATE__INIT.
Definition communication__update__get_packed_size (m : c_message) : option Z :=
  with_descriptor communication__update__descriptor m (protobuf_c_message_get_packed_size m).
Definition communication__update__pack (m : c_message) : option string :=
  with_descriptor communication__update__descriptor m (protobuf_c_message_pack m).
Definition communication__update__pack_to_buffer (m : c_message) (buffer : string) : option string :=
  with_descriptor communication__update__descriptor m (buffer +:+ protobuf_c_message_pack m).
Definition communication__update__unpack (data : string) : option c_message :=
  protobuf_c_message_unpack communication__update__descriptor data.
Definition communication__update__free_unpacked (m : option c_message) : option (option c_message) :=
  match m with
  | None => Some None
  | Some m => with_descriptor communication__update__descriptor m (Some m)
  end.

End wrappers.

(** ** The values of a struct *)

(** A C++ object and a C struct that hold the same values. *)
Record same_header `{ProtoRuntime} (h : MessageHeader) (m : Broker__MessageHeader) : Prop := {
  sh_handler_key : c_handler_key m = handler_key h;
  sh_sender_id : c_sender_id m = sender_id h;
  sh_topic : c_topic m = topic h;
  sh_origin_broker_id : c_origin_broker_id m = origin_broker_id h;
  sh_message_uuid : c_message_uuid m = message_uuid h;
  sh_transfer_id : c_transfer_id m = transfer_id h;
  sh_sequence_number : c_sequence_number m = sequence_number h;
  sh_sequence_count : c_sequence_count m = sequence_count h;
  sh_reply_topic : c_reply_topic m = reply_topic h
}.

(** The array may be longer than the count says. *)
Record same_client `{ProtoRuntime} (c : ClientInfo) (m : Broker__ClientInfo) : Prop := {
  sc_id : c_id m = ci_id c;
  sc_count : (n_subscriptions m <= length (c_subscriptions m))%nat;
  sc_subscriptions : take (n_subscriptions m) (c_subscriptions m) = ci_subscriptions c
}.

Record same_stats `{ProtoRuntime} (s : SystemStats) (m : Broker__SystemStats) : Prop := {
  st_broker_id : c_broker_id m = ss_broker_id s;
  st_clients_count : c_clients_count m = ss_clients_count s;
  st_peers_count : c_peers_count m = ss_peers_count s;
  st_msgs_per_sec : c_msgs_per_sec m = ss_msgs_per_sec s;
  st_kb_per_sec : c_kb_per_sec m = ss_kb_per_sec s;
  st_total_msgs : c_total_msgs m = ss_total_msgs s;
  st_uptime_sec : c_uptime_sec m = ss_uptime_sec s;
  st_count : (n_connected_clients m <= length (c_connected_clients m))%nat;
  st_clients : Forall2 same_client (ss_connected_clients s) (take (n_connected_clients m) (c_connected_clients m))
}.

Record same_update `{ProtoRuntime} (u : Update) (m : Communication__Update) : Prop := {
  su_id : c_upd_id m = upd_id u;
  su_message : c_upd_message m = upd_message u;
  su_timestamp_utc : c_upd_timestamp_utc m = upd_timestamp_utc u
}.

(** A C string ends at its first zero byte. *)
Definition is_c_string (s : string) : Prop := Ascii.zero ∉ String.list_ascii_of_string s.

(** ** Bytes *)

Section bytes.
Context `{ProtobufC}.

Lemma with_descriptor_same {A} d u ms (r : A) : with_descriptor d (mkCMessage d u ms) r = Some r.
Proof. unfold with_descriptor. by rewrite decide_True. Qed.

(** The field writers of the runtime on a concrete descriptor. *)
Ltac pack_fields :=
  rewrite pack_is_fields; cbn [cm_descriptor cm_unknown md_fields write_all foldr];
  repeat match goal with
  | |- context [pack_field ?m ?fd] => first
      [ rewrite (pack_string m fd _ eq_refl eq_refl eq_refl)
      | rewrite (pack_int32 m fd _ eq_refl eq_refl eq_refl)
      | rewrite (pack_int64 m fd _ eq_refl eq_refl eq_refl)
      | rewrite (pack_double m fd _ eq_refl eq_refl eq_refl) by assumption
      | rewrite (pack_strings m fd _ _ _ eq_refl eq_refl eq_refl eq_refl eq_refl) by assumption ]
  end; cbn [fd_id].

Lemma header_pack m :
  protobuf_c_message_pack (header_message m) =
    str_field 1 (c_handler_key m) +:+ str_field 2 (c_sender_id m) +:+ str_field 3 (c_topic m) +:+
    str_field 5 (c_origin_broker_id m) +:+ str_field 6 (c_message_uuid m) +:+
    str_field 7 (c_transfer_id m) +:+ int_field 8 (c_sequence_number m) +:+
    int_field 9 (c_sequence_count m) +:+ str_field 11 (c_reply_topic m).
Proof.
  unfold header_message, broker__message_header__descriptor, broker__message_header__field_descriptors.
  pack_fields. by rewrite !string_app_nil_r.
Qed.

Lemma header_pack_same h m :
  header_wf h -> ufs_have_unknown_fields (_unknown_fields_ h) = false -> same_header h m ->
  protobuf_c_message_pack (header_message m) = SerializeAsString h.
Proof.
  intros Hw Hu []. rewrite header_pack, SerializeAsString_wf, Hu, string_app_nil_r by done. congruence.
Qed.

(** A message object in the state the setters leave it in. *)
Definition clientinfo_wf (c : ClientInfo) : Prop := has_bit (ci_has_bits c) 0x1 = false -> ci_id c = "".

Record stats_wf (s : SystemStats) : Prop := {
  swf_broker_id : has_bit (ss_has_bits s) 0x01 = false -> ss_broker_id s = "";
  swf_clients_count : has_bit (ss_has_bits s) 0x02 = false -> ss_clients_count s = 0;
  swf_peers_count : has_bit (ss_has_bits s) 0x04 = false -> ss_peers_count s = 0;
  swf_kb_per_sec : has_bit (ss_has_bits s) 0x08 = false -> ss_kb_per_sec s = S754_zero false;
  swf_total_msgs : has_bit (ss_has_bits s) 0x10 = false -> ss_total_msgs s = 0;
  swf_uptime_sec : has_bit (ss_has_bits s) 0x20 = false -> ss_uptime_sec s = 0;
  swf_msgs_per_sec : has_bit (ss_has_bits s) 0x40 = false -> ss_msgs_per_sec s = 0;
  swf_clients : Forall clientinfo_wf (ss_connected_clients s)
}.

(** No unknown fields, also in the nested messages. *)
Definition stats_known (s : SystemStats) : Prop :=
  ufs_have_unknown_fields (ss_unknown_fields s) = false /\
  Forall (fun c => ufs_have_unknown_fields (ci_unknown_fields c) = false) (ss_connected_clients s).

Lemma client_pack_same c m :
  clientinfo_wf c -> ufs_have_unknown_fields (ci_unknown_fields c) = false -> same_client c m ->
  protobuf_c_message_pack (client_info_message m) = clientinfo_Serialize c.
Proof.
  intros Hw Hu [E1 E2 E3].
  unfold client_info_message, broker__client_info__descriptor, broker__client_info__field_descriptors.
  pack_fields. rewrite !string_app_nil_r. unfold clientinfo_Serialize, unknown_bytes.
  rewrite Hu, string_app_nil_r, E1, E3. f_equal.
  destruct (has_bit _ _) eqn:E; [done|]. by rewrite Hw, decide_True.
Qed.

(** A has-bit that is clear hides nothing but a default. *)
Lemma guarded (b : bool) (x : string) : (b = false -> x = "") -> x = if b then x else "".
Proof. by destruct b; [|intros ->]. Qed.

Lemma write_all_Forall2 {A B} (f : A -> string) (g : B -> string) (P : A -> Prop) (R : A -> B -> Prop) l1 l2 :
  Forall P l1 -> Forall2 R l1 l2 -> (forall a b, P a -> R a b -> f a = g b) -> write_all f l1 = write_all g l2.
Proof.
  intros Hp Hl Hfg. unfold write_all. induction Hl as [|a b l1 l2 Hab _ IH]; [done|].
  apply Forall_cons in Hp as [Ha Hp]. cbn [foldr]. by rewrite IH, (Hfg a b).
Qed.

Lemma stats_pack_same s m :
  stats_wf s -> stats_known s -> same_stats s m -> ss_kb_per_sec s <> S754_zero true ->
  protobuf_c_message_pack (system_stats_message m) = stats_Serialize s.
Proof.
  intros [W1 W2 W3 W4 W5 W6 W7 W8] [U1 U2] [E1 E2 E3 E4 E5 E6 E7 E8 E9] Hz.
  rewrite <-E5 in Hz.
  unfold system_stats_message, broker__system_stats__descriptor, broker__system_stats__field_descriptors.
  pack_fields. erewrite pack_messages; [|reflexivity..| |].
  2: by rewrite length_fmap.
  2: { intros sub [c [-> _]]%list_elem_of_fmap. done. }
  cbn [fd_id]. rewrite !string_app_nil_r. unfold stats_Serialize, unknown_bytes.
  rewrite U1, string_app_nil_r, E1, E2, E3, E4, E5, E6, E7, <-fmap_take.
  do 7 (apply f_equal2; [apply guarded; intros E; first [rewrite W1 by done|rewrite W2 by done|rewrite W3 by done|rewrite W4 by done|rewrite W5 by done|rewrite W6 by done|rewrite W7 by done]; by rewrite ?decide_True|]).
  symmetry. unfold write_all at 2. rewrite foldr_fmap. 
  eapply (write_all_Forall2 _ _ _ _ _ _ (proj2 (Forall_and _ _) (conj W8 U2)) E9).
  intros c m' [Hw Hu] Hs. rewrite (client_pack_same c m' Hw Hu Hs), clientinfo_size_exact. done.
Qed.

Lemma update_pack m :
  protobuf_c_message_pack (update_message m) =
    str_field 1 (c_upd_id m) +:+ str_field 2 (c_upd_message m) +:+
    (if decide (c_upd_timestamp_utc m = 0) then "" else WriteInt64 3 (c_upd_timestamp_utc m)).
Proof.
  unfold update_message, communication__update__descriptor, communication__update__field_descriptors.
  pack_fields. by rewrite !string_app_nil_r.
Qed.

(** The field that [Update.message] writes in C++ and not in C. *)
Definition extra_message (u : Update) : string :=
  if has_message u && bool_decide (upd_message u = "") then WriteString 2 "" else "".

Lemma update_bytes u :
  update_wf u -> ufs_have_unknown_fields (upd_unknown_fields u) = false ->
  update_Serialize u =
    str_field 1 (upd_id u) +:+ str_field 2 (upd_message u) +:+ extra_message u +:+
    (if decide (upd_timestamp_utc u = 0) then "" else WriteInt64 3 (upd_timestamp_utc u)).
Proof.
  intros [W1 W2 W3] Hu. unfold update_Serialize, unknown_bytes. rewrite Hu, string_app_nil_r.
  apply f_equal2; [symmetry; apply guarded; intros E; unfold str_field, upd_id; by rewrite W1, decide_True|].
  rewrite <-string_app_assoc. apply f_equal2; [|symmetry; apply guarded; intros E; unfold upd_timestamp_utc; by rewrite W3, decide_True].
  unfold str_field, extra_message, has_message, upd_message. destruct (has_bit _ 0x2) eqn:E; cbn [andb].
  - case_decide as Hm; [by rewrite bool_decide_true, Hm|by rewrite bool_decide_false, string_app_nil_r].
  - by rewrite W2, decide_True.
Qed.

End bytes.

(** ** The number ranges *)

(** The index of the field with number [n]: the range that starts at or below
    [n] and has not ended before it. *)
Fixpoint range_lookup (ranges : list (Z * nat)) (n : Z) : option nat :=
  match ranges with
  | (start, orig) :: ((_, next) :: _) as rest =>
      if (start <=? n) && (n <? start + Z.of_nat (next - orig))
      then Some (orig + Z.to_nat (n - start))%nat else range_lookup rest n
  | _ => None
  end.

Definition name_lt (d : ProtobufCMessageDescriptor) (i j : nat) : Prop :=
  match md_fields d !! i, md_fields d !! j with
  | Some a, Some b => String.ltb (fd_name a) (fd_name b) = true
  | _, _ => False
  end.

(** What a reader of a table relies on. *)
Record descriptor_ok (d : ProtobufCMessageDescriptor) : Prop := {
  dok_count : md_n_fields d = length (md_fields d);
  dok_ranges : S (md_n_field_ranges d) = length (md_field_ranges d);
  dok_numbers : StronglySorted Z.lt (fd_id <$> md_fields d);
  dok_lookup : forall n i, range_lookup (md_field_ranges d) n = Some i <-> fd_id <$> md_fields d !! i = Some n;
  dok_permutation : md_fields_sorted_by_name d ≡ₚ seq 0 (md_n_fields d);
  dok_sorted : Sorted (name_lt d) (md_fields_sorted_by_name d);
  dok_quantifier : Forall (fun fd => fd_label fd = LABEL_REPEATED <-> is_Some (fd_quantifier_offset fd)) (md_fields d);
  dok_nested : Forall (fun fd => fd_type fd = TYPE_MESSAGE <->
    exists sub, sub ∈ descriptors /\ fd_descriptor fd = Some (md_name sub)) (md_fields d)
}.

Ltac table_lookup n i :=
  split;
  [ intros Hl;
    assert (n = 1 \/ n = 2 \/ n = 3 \/ n = 4 \/ n = 5 \/ n = 6 \/ n = 7 \/ n = 8 \/ n = 9 \/ n = 10 \/ n = 11) as Hc;
    [ cbn -[Z.add Z.leb Z.ltb Z.of_nat] in Hl;
      repeat match type of Hl with context [if ?b then _ else _] =>
        let E := fresh in destruct b eqn:E;
        [rewrite andb_true_iff, Z.leb_le, Z.ltb_lt in E; lia|] end; done
    | destruct_or! Hc; subst n; vm_compute in Hl; (discriminate || (injection Hl as <-; reflexivity)) ]
  | intros Hf; do 9 (destruct i as [|i]; [discriminate || (injection Hf as <-; reflexivity)|]); discriminate ].

Ltac table_ok :=
  split;
  [ reflexivity | reflexivity | repeat constructor | let n := fresh "n" in let i := fresh "i" in intros n i; table_lookup n i
  | apply (bool_decide_unpack _); vm_compute; exact I | repeat constructor
  | repeat apply Forall_cons_2; try apply Forall_nil_2; cbn; (split; [intros; try done; by eexists|by intros []]) 
  | repeat apply Forall_cons_2; try apply Forall_nil_2; cbn;
    (split; [done|intros (sub & Hs & Hd); done] || (split; [intros _; exists broker__client_info__descriptor; split; [repeat constructor|done]|done])) ].

Lemma header_table_ok : descriptor_ok broker__message_header__descriptor.
Proof. table_ok. Qed.
Lemma client_info_table_ok : descriptor_ok broker__client_info__descriptor.
Proof. table_ok. Qed.
Lemma system_stats_table_ok : descriptor_ok broker__system_stats__descriptor.
Proof. table_ok. Qed.
Lemma update_table_ok : descriptor_ok communication__update__descriptor.
Proof. table_ok. Qed.

(** ** The reader *)

(** [message_init] of a descriptor. *)
Definition message_init (d : ProtobufCMessageDescriptor) : option c_message :=
  if decide (md_name d = md_name broker__message_header__descriptor) then Some broker__message_header__init
  else if decide (md_name d = md_name broker__client_info__descriptor) then Some broker__client_info__init
  else if decide (md_name d = md_name broker__system_stats__descriptor) then Some broker__system_stats__init
  else if decide (md_name d = md_name communication__update__descriptor) then Some communication__update__init
  else None.

Definition set_member (offset : string) (v : c_value) (m : c_message) : c_message :=
  let '(mkCMessage d u ms) := m in
  mkCMessage d u ((fun '(k, x) => if decide (k = offset) then (k, v) else (k, x)) <$> ms).

(** [protobuf_c_message_unpack] starts from the initialised message and reads one tagged value
    after the other: the number of a value is looked up in the ranges of the table, and the value is
    stored in the member of the field that was found.  It relies on a
    consistent table, whichever message it describes. *)
Class ProtobufCReader `{ProtobufC} := {
  unpack_fields : ProtobufCMessageDescriptor -> c_message -> string -> option c_message;
  unpack_is_scan : forall d m b, message_init d = Some m -> slen b < 2 ^ 31 ->
    protobuf_c_message_unpack d b = unpack_fields d m b;
  scan_end : forall d m, unpack_fields d m "" = Some m;
  scan_string : forall d m n i fd s rest, descriptor_ok d ->
    range_lookup (md_field_ranges d) n = Some i -> md_fields d !! i = Some fd ->
    fd_label fd = LABEL_NONE -> fd_type fd = TYPE_STRING ->
    1 <= n < 2 ^ 29 -> is_c_string s -> slen (WriteString n s +:+ rest) < 2 ^ 31 ->
    unpack_fields d m (WriteString n s +:+ rest) = unpack_fields d (set_member (fd_offset fd) (CStr s) m) rest;
  scan_int32 : forall d m n i fd v rest, descriptor_ok d ->
    range_lookup (md_field_ranges d) n = Some i -> md_fields d !! i = Some fd ->
    fd_label fd = LABEL_NONE -> fd_type fd = TYPE_INT32 ->
    1 <= n < 2 ^ 29 -> in_int32 v -> slen (WriteInt32 n v +:+ rest) < 2 ^ 31 ->
    unpack_fields d m (WriteInt32 n v +:+ rest) = unpack_fields d (set_member (fd_offset fd) (CInt v) m) rest
}.

Section reader.
Context `{ProtobufCReader}.

(** A field that may have been left out because it holds its default. *)
Lemma scan_str_field d m n i fd s rest :
  descriptor_ok d -> range_lookup (md_field_ranges d) n = Some i -> md_fields d !! i = Some fd ->
  fd_label fd = LABEL_NONE -> fd_type fd = TYPE_STRING -> 1 <= n < 2 ^ 29 ->
  set_member (fd_offset fd) (CStr "") m = m -> is_c_string s -> slen (str_field n s +:+ rest) < 2 ^ 31 ->
  unpack_fields d m (str_field n s +:+ rest) = unpack_fields d (set_member (fd_offset fd) (CStr s) m) rest /\
  slen rest < 2 ^ 31.
Proof.
  intros Hd Hr Hf Hl Ht Hn Hm Hs Hlen. split.
  - revert Hlen. unfold str_field. case_decide as E; [subst; rewrite Hm; done|]. intros Hlen. by eapply scan_string.
  - rewrite slen_app in Hlen. pose proof (slen_nonneg (str_field n s)). lia.
Qed.

Lemma scan_int_field d m n i fd v rest :
  descriptor_ok d -> range_lookup (md_field_ranges d) n = Some i -> md_fields d !! i = Some fd ->
  fd_label fd = LABEL_NONE -> fd_type fd = TYPE_INT32 -> 1 <= n < 2 ^ 29 ->
  set_member (fd_offset fd) (CInt 0) m = m -> in_int32 v -> slen (int_field n v +:+ rest) < 2 ^ 31 ->
  unpack_fields d m (int_field n v +:+ rest) = unpack_fields d (set_member (fd_offset fd) (CInt v) m) rest /\
  slen rest < 2 ^ 31.
Proof.
  intros Hd Hr Hf Hl Ht Hn Hm Hv Hlen. split.
  - revert Hlen. unfold int_field. case_decide as E; [subst; rewrite Hm; done|]. intros Hlen. by eapply scan_int32.
  - rewrite slen_app in Hlen. pose proof (slen_nonneg (int_field n v)). lia.
Qed.

(** The next field of the header. *)
Ltac next_field lem :=
  match goal with |- unpack_fields ?d ?m (?f +:+ ?rest) = _ =>
    edestruct (lem d m) as [-> ?];
      [apply header_table_ok|vm_compute; reflexivity|reflexivity|reflexivity|reflexivity|lia|reflexivity|assumption|assumption|]
  end; cbn [fd_offset set_member fmap list_fmap decide decide_rel].

Lemma header_unpack m :
  Forall is_c_string [c_handler_key m; c_sender_id m; c_topic m; c_origin_broker_id m; c_message_uuid m; c_transfer_id m;
    c_reply_topic m] ->
  in_int32 (c_sequence_number m) -> in_int32 (c_sequence_count m) ->
  slen (protobuf_c_message_pack (header_message m)) < 2 ^ 31 ->
  protobuf_c_message_unpack broker__message_header__descriptor (protobuf_c_message_pack (header_message m)) = Some (header_message m).
Proof.
  intros Hc Hn Hk Hlen. rewrite !Forall_cons in Hc. destruct Hc as (C1 & C2 & C3 & C4 & C5 & C6 & C7 & _).
  rewrite (unpack_is_scan _ broker__message_header__init) by done. rewrite header_pack in *.
  do 6 next_field scan_str_field. do 2 next_field scan_int_field.
  rewrite <-(string_app_nil_r (str_field 11 _)) in *. next_field scan_str_field.
  rewrite scan_end. by destruct m.
Qed.

End reader.

(** ** Theorems *)

(** The tables of the generated C code are consistent.  For each of the four
    messages: the counts are the lengths of the tables, the fields are listed by
    ascending number, the number ranges find the field with a given number and
    nothing for any other number, the index by name is a permutation of the
    fields in the order of their names, exactly the repeated fields have a
    counter, and exactly the fields of message type name a descriptor, which is
    one of the four. *)
Theorem c_tables_consistent : Forall descriptor_ok descriptors.
Proof.
  repeat apply Forall_cons_2; [apply header_table_ok|apply client_info_table_ok|apply system_stats_table_ok
  |apply update_table_ok|apply Forall_nil_2].
Qed.

(** C32. The C and the C++ routing header are interchangeable on the wire: for the
    same values the C code announces and writes exactly the bytes that the C++
    class writes, the C++ parser reads from them a header with those values, and
    the C reader, which finds fields through the number ranges of the generated
    table, turns the bytes of the C++ class into the struct. *)
Theorem header_c_interop `{ProtobufCReader} `{!HeaderParser} h m :
  header_wf h -> ufs_have_unknown_fields (_unknown_fields_ h) = false ->
  header_encodable IsStructurallyValidUTF8 h ->
  Forall is_c_string [handler_key h; sender_id h; topic h; origin_broker_id h; message_uuid h; transfer_id h;
    reply_topic h] ->
  same_header h m ->
  broker__message_header__pack (header_message m) = Some (SerializeAsString h) /\
  broker__message_header__get_packed_size (header_message m) = Some (ByteSizeLong h) /\
  (exists bytes h', broker__message_header__pack (header_message m) = Some bytes /\
    ParseFromArray bytes = Some h' /\ h' ≡ h) /\
  broker__message_header__unpack (SerializeAsString h) = Some (header_message m).
Proof.
  intros Hw Hu He Hc Hs. pose proof (header_pack_same h m Hw Hu Hs) as Hp.
  unfold broker__message_header__pack, broker__message_header__get_packed_size, broker__message_header__unpack.
  unfold header_message at 1 3 5. rewrite !with_descriptor_same, packed_size_is_size, Hp, header_size_exact.
  split_and!; [done|done| |].
  - destruct (ParseFromArray_Serialize h Hw He) as (h' & E1 & E2). by exists (SerializeAsString h), h'.
  - destruct He as [D1 D2 D3 D4]. rewrite <-Hp. destruct Hs as [E1 E2 E3 E4 E5 E6 E7 E8 E9].
    apply header_unpack; rewrite ?E1, ?E2, ?E3, ?E4, ?E5, ?E6, ?E7, ?E8, ?E9; [done|done|done|].
    by rewrite Hp.
Qed.

(** C33. A report of the broker's statistics reads the same in C: for the same
    values, the nested client list included, the C code announces and writes the
    bytes of the C++ class.  (Every double but the negative zero; the broker
    reports a quotient of two numbers that are not negative.) *)
Theorem stats_c_interop `{ProtobufC} s m :
  stats_wf s -> stats_known s -> ss_kb_per_sec s <> S754_zero true -> same_stats s m ->
  broker__system_stats__pack (system_stats_message m) = Some (stats_Serialize s) /\
  broker__system_stats__get_packed_size (system_stats_message m) = Some (stats_ByteSizeLong s).
Proof.
  intros Hw Hu Hz Hs. pose proof (stats_pack_same s m Hw Hu Hs Hz) as Hp.
  unfold broker__system_stats__pack, broker__system_stats__get_packed_size.
  unfold system_stats_message at 1 3. rewrite !with_descriptor_same, packed_size_is_size, Hp, stats_size_lemma. done.
Qed.

(** C34. The C and the C++ [Update] agree except on one value: the bytes are the
    same unless [message] was set to the empty string, which C++ writes and C does
    not; then C++ writes one field more, in the same place. *)
Theorem update_c_interop `{ProtobufC} u m :
  update_wf u -> ufs_have_unknown_fields (upd_unknown_fields u) = false -> same_update u m ->
  (~ (has_message u = true /\ upd_message u = "") ->
   communication__update__pack (update_message m) = Some (update_Serialize u)) /\
  (has_message u = true -> upd_message u = "" ->
   exists before after,
     communication__update__pack (update_message m) = Some (before +:+ after) /\
     update_Serialize u = before +:+ WriteString 2 "" +:+ after).
Proof.
  intros Hw Hu [E1 E2 E3]. unfold communication__update__pack.
  unfold update_message at 1 3. rewrite !with_descriptor_same, !update_pack, update_bytes, E1, E2, E3 by done.
  unfold extra_message. split.
  - intros Hn. destruct (has_message u && bool_decide (upd_message u = "")) eqn:E; [|done].
    apply andb_true_iff in E as [? ?%bool_decide_eq_true]. by destruct Hn.
  - intros Hh Hm. rewrite Hh, Hm. cbn [andb]. rewrite bool_decide_true by done.
    change (str_field 2 "") with "". eexists (str_field 1 (upd_id u)), _. done.
Qed.
