(* ===== verification/CRuntime.v ===== *)
(** * A runtime for the generated C code

    The interfaces [ProtobufC] and [ProtobufCReader] instantiated on the wire format of
    [ProtoWire]: a packer and a reader that follow the descriptor of a struct.  They show that
    the laws can hold together, and carries the witnesses of the C bindings. *)

From S2P Require Import Prelude MessageHeader Stats Update ProtoWire CBindings.
From Stdlib Require Import SpecFloat.
#[local] Open Scope Z_scope.

(** ** A packer *)

(** A member whose nested messages are packed. *)
Inductive packed_value :=
  | PValue (v : c_value)
  | PMsgs (l : list string).

Definition pack_member (vals : list (string * packed_value)) (fd : ProtobufCFieldDescriptor) : string :=
  let count := match fd_quantifier_offset fd with
    | Some q => match assoc q vals with Some (PValue (CSize n)) => n | _ => O end
    | None => O
    end in
  match fd_label fd, fd_type fd, assoc (fd_offset fd) vals with
  | LABEL_NONE, TYPE_STRING, Some (PValue (CStr s)) => if decide (s = "") then "" else WriteString (fd_id fd) s
  | LABEL_NONE, TYPE_INT32, Some (PValue (CInt v)) => if decide (v = 0) then "" else WriteInt32 (fd_id fd) v
  | LABEL_NONE, TYPE_INT64, Some (PValue (CInt v)) => if decide (v = 0) then "" else WriteInt64 (fd_id fd) v
  | LABEL_NONE, TYPE_DOUBLE, Some (PValue (CDouble v)) =>
      if double_bits_nonzero v then WriteDouble (fd_id fd) v else ""
  | LABEL_REPEATED, TYPE_STRING, Some (PValue (CStrs l)) => write_all (WriteString (fd_id fd)) (take count l)
  | LABEL_REPEATED, TYPE_MESSAGE, Some (PMsgs l) =>
      write_all (fun b => InternalWriteMessage (fd_id fd) (slen b) b) (take count l)
  | _, _, _ => ""
  end.

Fixpoint c_pack (m : c_message) : string :=
  let '(mkCMessage d u ms) := m in
  let packed (kv : string * c_value) :=
    let '(k, v) := kv in (k, match v with CMsgs l => PMsgs (map c_pack l) | v => PValue v end) in
  write_all (pack_member (map packed ms)) (md_fields d) +:+ u.

Definition pack_value (v : c_value) : packed_value :=
  match v with CMsgs l => PMsgs (map c_pack l) | v => PValue v end.

Definition packed_members (m : c_message) : list (string * packed_value) := prod_map id pack_value <$> cm_members m.

Lemma c_pack_eq m : c_pack m = write_all (pack_member (packed_members m)) (md_fields (cm_descriptor m)) +:+ cm_unknown m.
Proof.
  destruct m as [d u ms]. cbn [c_pack cm_descriptor cm_unknown]. do 3 f_equal. unfold packed_members.
  cbn [cm_members]. apply list_fmap_ext. by intros _ [k v] _.
Qed.

Lemma assoc_packed m k : assoc k (packed_members m) = pack_value <$> member_at m k.
Proof.
  unfold member_at, packed_members, assoc. rewrite list_find_fmap.
  change (list_find ((fun x : string * packed_value => x.1 = k) ∘ prod_map id pack_value) (cm_members m))
    with (list_find (fun x : string * c_value => x.1 = k) (cm_members m)).
  by destruct (list_find _ (cm_members m)) as [[i [k' v]]|].
Qed.

(** ** A reader *)

(** One tag and its value; what the table does not list is not supported. *)
Definition scan_value (d : ProtobufCMessageDescriptor) (s : string) (m : c_message) : option (string * c_message) :=
  match parse_varint 10 s with
  | None => None
  | Some (tag, s) =>
      match parse_varint 10 s, range_lookup (md_field_ranges d) (tag / 8) ≫= (md_fields d !!.) with
      | Some (v, s), Some fd =>
          match fd_label fd, fd_type fd with
          | LABEL_NONE, TYPE_INT32 => Some (s, set_member (fd_offset fd) (CInt (i32 v)) m)
          | LABEL_NONE, TYPE_STRING =>
              match str_split (Z.to_nat v) s with
              | Some (x, s) => Some (s, set_member (fd_offset fd) (CStr x) m)
              | None => None
              end
          | _, _ => None
          end
      | _, _ => None
      end
  end.

Fixpoint scan (fuel : nat) (d : ProtobufCMessageDescriptor) (m : c_message) (s : string) : option c_message :=
  match s with
  | EmptyString => Some m
  | String _ _ =>
      match fuel with
      | O => None
      | S fuel => match scan_value d s m with
                  | Some (s', m') => scan fuel d m' s'
                  | None => None
                  end
      end
  end.

Definition scan_all (d : ProtobufCMessageDescriptor) (m : c_message) (s : string) : option c_message :=
  scan (String.length s) d m s.

Lemma scan_value_length d s m s' m' : scan_value d s m = Some (s', m') -> (String.length s' < String.length s)%nat.
Proof.
  unfold scan_value. destruct (parse_varint 10 s) as [[tag s1]|] eqn:E1; [|done].
  destruct (parse_varint 10 s1) as [[v s2]|] eqn:E2; [|done]. apply parse_varint_length in E1, E2.
  destruct (_ ≫= _) as [fd|]; [|done]. destruct (fd_label fd), (fd_type fd); try done; [|intros [= <- _]; lia].
  destruct (str_split (Z.to_nat v) s2) as [[x s3]|] eqn:E3; [|done]. apply str_split_length in E3. intros [= <- _]. lia.
Qed.

Lemma scan_fuel f1 f2 d m s : (String.length s <= f1)%nat -> (String.length s <= f2)%nat -> scan f1 d m s = scan f2 d m s.
Proof.
  revert f2 m s. induction f1 as [|f1 IH]; intros [|f2] m [|c s] H1 H2; cbn in H1, H2; try lia; [done..|]. cbn [scan].
  destruct (scan_value d (String c s) m) as [[s' m']|] eqn:E; [|done].
  apply scan_value_length in E. cbn in E. apply IH; lia.
Qed.

Lemma scan_step d m s s' m' : scan_value d s m = Some (s', m') -> scan_all d m s = scan_all d m' s'.
Proof.
  intros E. unfold scan_all. destruct s as [|c s]; [apply scan_value_length in E; cbn in E; lia|].
  cbn [String.length scan]. rewrite E. apply scan_value_length in E. cbn in E. apply scan_fuel; lia.
Qed.

#[export] Program Instance wire_c : ProtobufC := {|
  protobuf_c_message_pack := c_pack;
  protobuf_c_message_get_packed_size := fun m => slen (c_pack m);
  protobuf_c_message_unpack := fun d b => match message_init d with Some m => scan_all d m b | None => None end;
  pack_field := fun m => pack_member (packed_members m)
|}.
Next Obligation. exact c_pack_eq. Qed.
Next Obligation. done. Qed.
Next Obligation. intros m fd s E1 E2 E3. cbn beta. unfold pack_member. by rewrite E1, E2, assoc_packed, E3. Qed.
Next Obligation. intros m fd s E1 E2 E3. cbn beta. unfold pack_member. by rewrite E1, E2, assoc_packed, E3. Qed.
Next Obligation. intros m fd s E1 E2 E3. cbn beta. unfold pack_member. by rewrite E1, E2, assoc_packed, E3. Qed.
Next Obligation. intros m fd s E1 E2 E3 _. cbn beta. unfold pack_member. by rewrite E1, E2, assoc_packed, E3. Qed.
Next Obligation.
  intros m fd q n l E1 E2 E3 E4 E5 _. cbn beta. unfold pack_member. by rewrite E1, E2, E3, !assoc_packed, E4, E5.
Qed.
Next Obligation.
  intros m fd q n l E1 E2 E3 E4 E5 _ _. cbn beta. unfold pack_member. rewrite E1, E2, E3, !assoc_packed, E4, E5.
  cbn [fmap option_fmap option_map pack_value]. change (map c_pack l) with (c_pack <$> l). rewrite <-fmap_take.
  unfold write_all. by rewrite foldr_fmap.
Qed.

(** A header with the values of a struct. *)
Definition header_of (m : Broker__MessageHeader) : MessageHeader :=
  set_reply_topic (c_reply_topic m) (set_sequence_count (c_sequence_count m) (set_sequence_number (c_sequence_number m)
    (set_transfer_id (c_transfer_id m) (set_message_uuid (c_message_uuid m)
      (set_origin_broker_id (c_origin_broker_id m) (set_topic (c_topic m) (set_sender_id (c_sender_id m)
        (set_handler_key (c_handler_key m) header_new)))))))).

Lemma header_of_wf m : header_wf (header_of m).
Proof. unfold header_of. eauto 20 with wisp. Qed.

Lemma header_of_same m : same_header (header_of m) m.
Proof. by split. Qed.

#[local] Arguments parse_varint : simpl never.

#[export] Program Instance wire_c_reader : ProtobufCReader := {| unpack_fields := scan_all |}.
Next Obligation. intros d m b E _. cbn. by rewrite E. Qed.
Next Obligation. done. Qed.
Next Obligation.
  intros d m n i fd s rest _ Hr Hf Hl Ht Hn _ Hlen. apply scan_step. unfold scan_value. cbn [WriteString wire_runtime] in *.
  rewrite !slen_app in Hlen. pose proof (slen_nonneg s). pose proof (slen_nonneg (encode_varint (n * 8 + 2))).
  pose proof (slen_nonneg (encode_varint (slen s))). pose proof (slen_nonneg rest).
  rewrite !string_app_assoc, !parse_varint_10 by lia.
  assert ((n * 8 + 2) / 8 = n) as -> by (rewrite Z.div_add_l by lia; change (2 / 8) with 0; lia).
  rewrite Hr. cbn [mbind option_bind]. rewrite Hf, Hl, Ht. unfold slen. by rewrite Nat2Z.id, str_split_app.
Qed.
Next Obligation.
  intros d m n i fd v rest _ Hr Hf Hl Ht Hn Hv _. apply scan_step. unfold scan_value. cbn [WriteInt32 wire_runtime].
  rewrite !string_app_assoc, !parse_varint_10; [|unfold u64; apply Z.mod_pos_bound; lia|lia].
  rewrite Z.div_mul by lia. rewrite Hr. cbn [mbind option_bind]. by rewrite Hf, Hl, Ht, i32_u64.
Qed.

(** ** Witnesses *)

Definition sample_struct : Broker__MessageHeader :=
  mkCHeader "lights" "client1" "lights" "" "0a1b" "" 2 7 "replies".

Lemma header_c_interop_witness :
  broker__message_header__pack (header_message sample_struct) = Some (SerializeAsString (header_of sample_struct)) /\
  broker__message_header__get_packed_size (header_message sample_struct) =
    Some (ByteSizeLong (header_of sample_struct)) /\
  (exists bytes h', broker__message_header__pack (header_message sample_struct) = Some bytes /\
    ParseFromArray bytes = Some h' /\ h' ≡ header_of sample_struct) /\
  broker__message_header__unpack (SerializeAsString (header_of sample_struct)) = Some (header_message sample_struct).
Proof.
  apply (header_c_interop (header_of sample_struct) sample_struct).
  - apply header_of_wf.
  - reflexivity.
  - split; [repeat constructor|by vm_compute..].
  - repeat constructor; unfold is_c_string; apply (bool_decide_unpack _); vm_compute; exact I.
  - apply header_of_same.
Defined.

Definition sample_client : ClientInfo := add_subscriptions "doors" (add_subscriptions "lights" (set_id "client1" clientinfo_new)).

Definition sample_report : SystemStats :=
  add_connected_clients sample_client (set_total_msgs 70000 (set_kb_per_sec (double_div (double_of_Z 3) (double_of_Z 2))
    (set_clients_count 1 (set_broker_id "b1" stats_new)))).

(** The arrays have spare room. *)
Definition sample_report_struct : Broker__SystemStats :=
  mkCStats "b1" 1 0 0 (double_div (double_of_Z 3) (double_of_Z 2)) 70000 0 1
    [mkCClientInfo "client1" 2 ["lights"; "doors"; "spare"]; mkCClientInfo "" 0 []].

Lemma stats_c_interop_witness :
  broker__system_stats__pack (system_stats_message sample_report_struct) = Some (stats_Serialize sample_report) /\
  broker__system_stats__get_packed_size (system_stats_message sample_report_struct) =
    Some (stats_ByteSizeLong sample_report).
Proof.
  apply (stats_c_interop sample_report sample_report_struct).
  - split; try discriminate; try (intros _; reflexivity). repeat constructor. intros E. discriminate E.
  - split; [reflexivity|]. repeat constructor.
  - vm_compute. discriminate.
  - split; try reflexivity; [cbn; lia|]. apply Forall2_cons; split; [split; [reflexivity|cbn; lia|reflexivity]|constructor].
Defined.

Lemma update_c_interop_witness :
  communication__update__pack (update_message (mkCUpdate "7" "" 5)) <>
    Some (update_Serialize (upd_set_timestamp_utc 5 (upd_set_message "" (upd_set_id "7" update_new)))) /\
  communication__update__pack (update_message (mkCUpdate "7" "" 5)) =
    Some (update_Serialize (upd_set_timestamp_utc 5 (upd_set_id "7" update_new))).
Proof.
  split; [vm_compute; discriminate|].
  refine (proj1 (update_c_interop (upd_set_timestamp_utc 5 (upd_set_id "7" update_new)) (mkCUpdate "7" "" 5) _ _ _) _).
  - apply upd_set_timestamp_utc_wf, upd_set_id_wf, update_new_wf.
  - reflexivity.
  - split; reflexivity.
  - intros [E _]. discriminate E.
Defined.
