(* ===== verification/Witnesses.v ===== *)
(** * Witnesses

    The interfaces of the development instantiated together (the protobuf
    wire format, in-memory sockets, a counter as random engine, the trie order
    of the maps), and the theorems applied at concrete states where their
    hypotheses hold. *)

From S2P Require Import Payload.
From S2P Require Import Prelude Keys CppString SafeQueue SubscriptionRegistry MessageHeader.
From S2P Require Import Stats ProtoWire Wire Worker Uuid Discovery Broker BrokerFacts.
From S2P Require Import BrokerTheorems BrokerStop.

#[local] Existing Instance trie_order.

(** ** A random engine *)

#[export] Program Instance counter_gen : HexGen Z := {|
  dis := fun g => (g mod 16, g + 1)%Z;
  dis2 := fun g => (8 + g mod 4, g + 1)%Z
|}.
Next Obligation. intros g; simpl. pose proof (Z.mod_pos_bound g 16). lia. Qed.
Next Obligation. intros g; simpl. pose proof (Z.mod_pos_bound g 4). lia. Qed.

(** ** The receiving side of [Any] *)

Definition any_type_url (raw : string) : option string :=
  match parse_varint 10 raw with
  | Some (tag, rest) =>
      if (tag =? 10)%Z then
        match parse_varint 10 rest with
        | Some (n, rest) => fst <$> str_split (Z.to_nat n) rest
        | None => None
        end
      else None
  | None => None
  end.

Lemma any_type_url_prefix name rest :
  (slen name < 2 ^ 30)%Z ->
  any_type_url (any_prefix name +:+ rest) = Some ("type.googleapis.com/" +:+ name).
Proof.
  intros Hn. unfold any_type_url, any_prefix. cbn [WriteString wire_runtime].
  set (url := "type.googleapis.com/" +:+ name).
  assert (Hu : (0 <= slen url < 2 ^ 64)%Z).
  { unfold url. rewrite slen_app. change (slen "type.googleapis.com/") with 20%Z.
    pose proof (slen_nonneg name). lia. }
  rewrite !string_app_assoc, parse_varint_10 by lia. cbn [Z.eqb Z.mul Z.add Pos.eqb Pos.mul Pos.add].
  rewrite parse_varint_10 by lia. unfold slen. rewrite Nat2Z.id, str_split_app. done.
Qed.

Lemma str_split_eq n s a b : str_split n s = Some (a, b) -> s = a +:+ b.
Proof.
  revert s a b. induction n as [|n IH]; intros s a b; simpl.
  - destruct s; intros [= <- <-]; done.
  - destruct s as [|c s]; [done|]. destruct (str_split n s) as [[a' b']|] eqn:E; [|done].
    intros [= <- <-]. rewrite string_app_cons. f_equal. by apply IH.
Qed.

Lemma string_app_inj_l a b c : a +:+ b = a +:+ c -> b = c.
Proof.
  induction a as [|x a IH]; [intros E; exact E|]. rewrite !string_app_cons. intros [= E]. by apply IH.
Qed.

#[export] Program Instance wire_any : AnyRuntime := {| AnyTypeUrl := any_type_url |}.
Next Obligation. intros name body _ Hn. by apply any_type_url_prefix. Qed.
Next Obligation.
  intros name other body _ Ho Hn _ _ Hne. simpl. unfold any_unpack, any_pack.
  destruct (str_split _ _) as [[p rest]|] eqn:E; [|done].
  destruct (decide (p = any_prefix name)) as [->|]; [|done].
  apply str_split_eq, (f_equal any_type_url) in E. rewrite !any_type_url_prefix in E by done.
  injection E as E. by apply string_app_inj_l in E.
Qed.

Definition raw_codec : payload_codec string :=
  CodecProto "broker.ClientInfo" (fun s => s) (fun s => Some s).

Lemma payload_roundtrip_witness :
  typed_callback raw_codec (fun v (s : list string) => (s ++ [v], Ok tt)) (encodePayload raw_codec "x") [] =
  (["x"], Ok tt).
Proof.
  rewrite (payload_roundtrip raw_codec "x" (fun v (s : list string) => (s ++ [v], Ok tt)));
    [reflexivity|]. by vm_compute.
Defined.

Lemma payload_type_mismatch_witness :
  typed_callback raw_codec (fun v (s : list string) => (s ++ [v], Ok tt))
    (encodePayload (CodecProto "broker.SystemStats" (fun s : string => s) (fun s => Some s)) "x") [] =
  ([], Ok tt).
Proof.
  unfold raw_codec.
  rewrite (payload_type_mismatch (T:=string) (U:=string) "broker.ClientInfo" "broker.SystemStats"
    (fun s => s) (fun s => Some s) (fun s => s) (fun s => Some s) "x"
    (fun v (s : list string) => (s ++ [v], Ok tt))); [reflexivity|by vm_compute|by vm_compute|
    reflexivity|reflexivity|discriminate].
Defined.

(** ** Sockets *)

Definition idle_socket (pending : list (string * list string)) : QueueSocket :=
  mkSocket (fun _ => None) [] [] [] pending.

(** A router whose client "slow" has a full pipe. *)
Definition router_refuses (id : string) : option Z :=
  if decide (id = "slow") then Some EAGAIN else None.

Definition router_socket : QueueSocket := mkSocket router_refuses [] [] [] [].

Definition accepts_all (s : QueueSocket) : Prop := qs_refuses s = fun _ => None.

Lemma accepts_all_accepting : accepting accepts_all.
Proof.
  split.
  - intros s f more Hs. unfold accepts_all in *. simpl. unfold qs_send. rewrite Hs.
    destruct (qs_open s), more; by eexists.
  - intros s dw Hs. simpl. unfold qs_recv, accepts_all in *. by repeat case_match.
Qed.

Definition is_router (s : QueueSocket) : Prop := qs_refuses s = router_refuses.

Definition router_ok (id : string) : bool := bool_decide (id <> "slow").

Lemma router_routing : routing_socket is_router router_ok.
Proof.
  unfold is_router, router_ok. split_and!.
  - intros s id Hs Ho. simpl in *. unfold qs_send. rewrite Hs, Ho. unfold router_refuses.
    case_decide; simpl; (split; [done|]); by rewrite bool_decide_eq_true.
  - intros s f more Hs Ho. simpl in *. unfold qs_send.
    destruct (qs_open s); [done|]. destruct (qs_refuses s f), more; done.
  - intros s dw Hs. simpl. unfold qs_recv. by repeat case_match.
Qed.

(** ** A broker with three clients, two of them subscribed *)

Definition add_client (c : string) (b : ZmqBroker) : ZmqBroker :=
  set_clients (<[c := mkClient c 0]> (m_clients b)) b.

Definition add_subscription (c t : string) (b : ZmqBroker) : ZmqBroker :=
  set_subscriptions (subscribe c t (m_subscriptions b)).1 b.

Definition sample_broker : ZmqBroker :=
  add_subscription "slow" "" (add_subscription "b" "lights"
    (add_client "slow" (add_client "b" (add_client "a" (broker_new 0%Z).1)))).

Lemma sample_broker_inv : broker_inv sample_broker.
Proof.
  unfold sample_broker, add_subscription, add_client.
  apply subscribe_inv; [simpl; eauto|]. apply subscribe_inv; [simpl; eauto|].
  do 3 apply touch_client_inv. apply broker_new_inv.
Qed.

Definition sample_world : broker_world :=
  mkBrokerWorld sample_broker router_socket (idle_socket []) 1%Z 0%Z.

Lemma sample_world_ready : sockets_ready is_router accepts_all sample_world.
Proof. by split. Qed.

Lemma broker_routes_exactly_witness :
  exists w', processMessage 5 sample_header "on" "a" false sample_world = (w', Ok tt) /\
    zmq_sent (bw_router w') = [["b"; encodeHeader (stamped sample_header sample_world); "on"]].
Proof.
  destruct (broker_routes_exactly is_router router_ok accepts_all 5 sample_header "on" "a" false
    sample_world) as (w' & ids & E & Hn & Hids & Hs & _).
  - apply router_routing.
  - apply accepts_all_accepting.
  - apply sample_world_ready.
  - apply sample_broker_inv.
  - split; [by eexists|by apply (bool_decide_unpack _)].
  - by apply (bool_decide_unpack _).
  - exists w'. split; [exact E|]. rewrite Hs.
    assert (ids = ["b"]) as ->; [|done]. apply Permutation_singleton_r.
    apply NoDup_Permutation; [done|by apply (bool_decide_unpack _)|].
    intros c. rewrite Hids. unfold router_ok. rewrite bool_decide_eq_true.
    change (subs_of _ (topic sample_header)) with ["b"]. change (subs_of _ "") with ["slow"].
    rewrite !list_elem_of_singleton. split; [by intros ([->| ->] & _ & ?)|].
    intros ->. split; [by left|]. split; [by right|done].
Defined.

(** ** The other broker theorems *)

Definition keyed_header (key t : string) : MessageHeader :=
  set_topic t (set_message_uuid "u1" (set_handler_key key header_new)).

Definition seen_world : broker_world :=
  mkBrokerWorld (isDuplicate "u1" sample_broker).1 router_socket (idle_socket []) 1%Z 0%Z.

Lemma broker_drops_duplicate_witness :
  exists w', processMessage 5 (keyed_header "lights" "lights") "on" "PEER" true seen_world = (w', Ok tt) /\
    zmq_sent (bw_router w') = [].
Proof.
  destruct (broker_drops_duplicate is_router router_ok accepts_all 5 (keyed_header "lights" "lights")
    "on" "PEER" true seen_world) as (w' & E & Hs & _).
  - apply router_routing.
  - apply accepts_all_accepting.
  - by split.
  - apply isDuplicate_inv, sample_broker_inv.
  - reflexivity.
  - by apply (bool_decide_unpack _).
  - exists w'. split; [exact E|exact Hs].
Defined.

Lemma duplicate_window_witness :
  (isDuplicate "u1" (offer_all ["u2"; "u1"; "u3"] (isDuplicate "u1" sample_broker).1)).2 = true.
Proof.
  apply (duplicate_window "u1" ["u2"; "u1"; "u3"] sample_broker).
  - apply sample_broker_inv.
  - by vm_compute.
  - unfold MaxHistorySize. simpl length. lia.
Defined.

Lemma unknown_client_reset_witness :
  exists w', processMessage 5 (keyed_header "lights" "lights") "on" "new" false sample_world = (w', Ok tt) /\
    zmq_sent (bw_router w') = [["new"; encodeHeader reset_header]].
Proof.
  destruct (unknown_client_reset is_router router_ok accepts_all 5 (keyed_header "lights" "lights")
    "on" "new" sample_world) as (w' & E & Hs & _).
  - apply router_routing.
  - apply accepts_all_accepting.
  - apply sample_world_ready.
  - by vm_compute.
  - discriminate.
  - exists w'. split; [exact E|exact Hs].
Defined.

Lemma disconnect_forgets_witness :
  exists w', processMessage 5 (keyed_header Keys.DISCONNECT "") "" "b" false sample_world = (w', Ok tt) /\
    "b" ∉ subs_of (m_subscriptions (bw_broker w')) "lights".
Proof.
  destruct (disconnect_forgets is_router router_ok accepts_all 5 (keyed_header Keys.DISCONNECT "")
    "" "b" sample_world) as (w' & E & _ & _ & Hs & _).
  - apply router_routing.
  - apply accepts_all_accepting.
  - apply sample_world_ready.
  - apply sample_broker_inv.
  - reflexivity.
  - exists w'. split; [exact E|]. rewrite Hs. by intros [? _].
Defined.

Lemma known_client_control_witness :
  exists w', processMessage 5 (keyed_header Keys.SUBSCRIBE "doors") "" "a" false sample_world = (w', Ok tt) /\
    "a" ∈ subs_of (m_subscriptions (bw_broker w')) "doors".
Proof.
  destruct (known_client_control is_router router_ok accepts_all 5 (keyed_header Keys.SUBSCRIBE "doors")
    "" "a" sample_world) as (w' & E & _ & _ & Hs & _).
  - apply router_routing.
  - apply accepts_all_accepting.
  - apply sample_world_ready.
  - apply sample_broker_inv.
  - by eexists.
  - by apply (bool_decide_unpack _).
  - discriminate.
  - exists w'. split; [exact E|]. rewrite Hs. by left.
Defined.

Lemma zombie_sweep_exact_witness :
  m_clients (remove_zombies (seconds 11) sample_broker) !! "a" = None /\
  m_clients (remove_zombies (seconds 9) sample_broker) !! "a" = Some (mkClient "a" 0).
Proof.
  split.
  - destruct (zombie_sweep_exact (seconds 11) sample_broker sample_broker_inv) as (K & _).
    apply eq_None_not_Some. intros [st Hst]. apply K in Hst as [Hst Hl]. vm_compute in Hst.
    injection Hst as <-. unfold ClientTimeout, seconds in Hl. simpl in Hl. lia.
  - destruct (zombie_sweep_exact (seconds 9) sample_broker sample_broker_inv) as (K & _).
    apply K. split; [reflexivity|]. unfold ClientTimeout, seconds. simpl. lia.
Defined.

(** A client sends a heartbeat and subscribes, in two iterations after the start. *)
Definition first_contact : broker_world :=
  mkBrokerWorld (broker_start ["tcp://*:5555"] 0 0 (broker_new 0%Z).1)
    (idle_socket [("c1", wire_frames (mkEnvelope _ (set_handler_key Keys.HEARTBEAT header_new) ""));
                  ("c1", wire_frames (mkEnvelope _ (set_topic "news" (set_handler_key Keys.SUBSCRIBE header_new)) ""))])
    (idle_socket []) (broker_new 0%Z).2 0.

Definition after_contact : broker_world :=
  (broker_iteration 2 2 2 (broker_iteration 1 1 1 first_contact).1).1.

Lemma broker_invariant_witness :
  subs_of (m_subscriptions (bw_broker after_contact)) "news" = ["c1"] /\ broker_inv (bw_broker after_contact).
Proof.
  split; [vm_compute; reflexivity|]. apply (broker_invariant after_contact).
  apply (broker_reach_iteration (broker_iteration 1 1 1 first_contact).1 2 2 2 after_contact
    (broker_iteration 2 2 2 (broker_iteration 1 1 1 first_contact).1).2); [|apply surjective_pairing].
  apply (broker_reach_iteration first_contact 1 1 1 (broker_iteration 1 1 1 first_contact).1
    (broker_iteration 1 1 1 first_contact).2); [|apply surjective_pairing].
  apply broker_reach_start; reflexivity.
Defined.

(** A lone identity frame, then a message with a header that does not decode. *)
Definition hostile_world : broker_world :=
  mkBrokerWorld sample_broker (idle_socket [("x", []); ("y", ["junk"; "1"; "2"])])
    (idle_socket []) 1%Z 0%Z.

Lemma broker_iteration_aligned_witness :
  exists w', broker_iteration 0 0 0 hostile_world = (w', Ok tt) /\
    zmq_pending (bw_router w') = [["y"; "junk"; "1"; "2"]].
Proof.
  destruct (broker_iteration_aligned accepts_all 0 0 0 hostile_world) as (w' & E & K & _);
    [apply accepts_all_accepting|reflexivity|reflexivity|reflexivity|reflexivity|].
  exists w'. split; [exact E|exact K].
Defined.

Lemma report_lists_clients_witness :
  ss_clients_count (make_stats 0 sample_broker) = 3%Z /\
  NoDup (ci_id <$> ss_connected_clients (make_stats 0 sample_broker)).
Proof.
  destruct (report_lists_clients 0 sample_broker) as (K1 & _ & _ & K2);
    [apply sample_broker_inv|by vm_compute|].
  split; [rewrite K2; by vm_compute|exact K1].
Defined.

Definition watched_world : broker_world :=
  mkBrokerWorld (add_subscription "a" Keys.SYS_STATS sample_broker) router_socket
    (idle_socket []) 1%Z 0%Z.

Lemma report_delivered_witness :
  exists w', broadcastStats 0 watched_world = (w', Ok tt) /\ length (zmq_sent (bw_inspector w')) = 1.
Proof.
  destruct (report_delivered is_router router_ok accepts_all 0 watched_world)
    as (w' & pl & ids & E & _ & _ & _ & _ & Hi & _).
  - apply router_routing.
  - apply accepts_all_accepting.
  - by split.
  - apply subscribe_inv; [by eexists|apply sample_broker_inv].
  - by vm_compute.
  - exists w'. split; [exact E|]. by rewrite Hi.
Defined.

Lemma discovered_peers_match_witness :
  let inputs := [(0, Some ("10.0.0.2", encodeBeacon "lan" "bb" 5556), 0)]%Z in
  let r := discovery_run inputs (discovery_new "lan" "aa" 5555 5670 true true, 0%Z) in
  is_Some (m_peers (apply_discovery r.2 sample_broker) !! "bb").
Proof.
  intros inputs r.
  apply (discovered_peers_match inputs "lan" "aa" 5555 5670 0 sample_broker "bb"); [reflexivity|].
  by vm_compute; eexists.
Defined.

(** ** Shutdown *)

Section shutdown.
Context `{ProtoRuntime} `{UnorderedOrder}.

Fixpoint run_stop (acts : list stop_label) (s : stop_state) : option stop_state :=
  match acts with [] => Some s | a :: acts => s ← stop_exec a s; run_stop acts s end.

Lemma run_stop_rtc acts s s' : run_stop acts s = Some s' -> rtc stop_step s s'.
Proof.
  revert s. induction acts as [|a acts IH]; intros s E; simpl in E; [by injection E as ->|].
  destruct (stop_exec a s) as [s1|] eqn:Ea; [|done]. eapply rtc_l; [by exists a|by apply IH].
Qed.

Variable env : Envelope.

(** A link's thread waits for room in the full inbound queue of a broker whose
    thread is gone, and [stop] has cleared the flag. *)
Definition full_queue_stop : stop_state :=
  mkStop false (mkQueue [env] false 1) {["p" := 0]} {[0 := mkLink true (LCallback env)]}
    BEnded true DHead (Some (drop 1 broker_stop)) [].

(** The same, but the discovery thread has begun to remove that peer. *)
Definition removal_stop : stop_state :=
  mkStop false (mkQueue [env] false 1) ∅ {[0 := mkLink true (LCallback env)]}
    BEnded true (DRemoved 0) (Some (drop 1 broker_stop)) [].

Lemma full_queue_reached : rtc stop_step (stop_init 1 true) full_queue_stop.
Proof.
  apply (run_stop_rtc [CallerConnects "p"; LinkReceives 0 env; LinkRuns 0; LinkReceives 0 env;
    CallerRuns; CallerRuns; BrokerRuns]). reflexivity.
Qed.

Lemma removal_reached : rtc stop_step (stop_init 1 true) removal_stop.
Proof.
  apply (run_stop_rtc [CallerConnects "p"; LinkReceives 0 env; LinkRuns 0; LinkReceives 0 env;
    DiscoveryRuns; DiscoveryDrops "p"; CallerRuns; CallerRuns; BrokerRuns]). reflexivity.
Qed.

End shutdown.

Lemma broker_stop_completes_witness :
  let env := mkEnvelope _ sample_header "" in
  (exists s', rtc stop_step (full_queue_stop env) s' /\ stopped s') /\
  ~ (exists s', rtc stop_step (removal_stop env) s' /\ stopped s').
Proof.
  intros env. split.
  - apply (broker_stop_completes 1 true (full_queue_stop env)); [lia|apply full_queue_reached|].
    intros (_ & _ & n & k & env' & [E|E] & _); discriminate E.
  - intros Hs. apply (broker_stop_completes 1 true (removal_stop env)) in Hs; [|lia|apply removal_reached].
    apply Hs. split_and!; [left; reflexivity|reflexivity|].
    exists 0, (mkLink true (LCallback env)), env. split_and!; [left; reflexivity|reflexivity|reflexivity].
Defined.

Lemma stats_size_exact_witness :
  slen (stats_Serialize (make_stats 0 sample_broker)) = stats_ByteSizeLong (make_stats 0 sample_broker).
Proof. apply (stats_size_exact (make_stats 0 sample_broker)). Defined.

Lemma discovery_links_alternate_witness :
  let inputs := [(0, Some ("10.0.0.2", encodeBeacon "lan" "bb" 5556), 0); (seconds 7, None, 0)]%Z in
  let r := discovery_run inputs (discovery_new "lan" "aa" 5555 5670 true true, 0%Z) in
  link_events "bb" r.2 = [true; false] /\ last (false :: link_events "bb" r.2) = Some (linked "bb" r.1.1).
Proof.
  intros inputs r. split; [by vm_compute|].
  apply (discovery_links_alternate inputs "lan" "aa" 5555 5670 0 "bb").
Defined.

Lemma generateUUID_ok_witness : uuid_ok (generateUUID 3%Z).1.
Proof. apply (generateUUID_ok 3%Z). Defined.

(** ** Framing *)

Definition sample_envelope : Envelope := mkEnvelope _ sample_header "on".

Lemma wire_roundtrip_witness :
  exists h, envelope_of_frames (wire_frames sample_envelope) = Some (mkEnvelope _ h "on") /\
    h ≡ sample_header.
Proof.
  destruct (wire_roundtrip sample_envelope (idle_socket []) (send sample_envelope (idle_socket [])).1)
    as (frames & Hs & _ & K).
  - reflexivity.
  - apply sample_header_wf.
  - apply sample_header_encodable.
  - reflexivity.
  - assert (frames = wire_frames sample_envelope) as -> by (by injection Hs as <-).
    destruct (K (idle_socket [(encodeHeader sample_header, ["on"])]) [] true) as (r & h & E & Hh & _);
      [reflexivity|reflexivity|].
    exists h. split; [|exact Hh].
    destruct (recv_next true (idle_socket [(encodeHeader sample_header, ["on"])])
      (wire_frames sample_envelope) []) as (r' & E' & _); [reflexivity|reflexivity|].
    rewrite E in E'. apply (f_equal (fun x => match x.2 with Ok o => o | Throw _ => None end)) in E'.
    symmetry. exact E'.
Defined.

Lemma wire_recv_aligned_witness :
  exists s' o, recv false (idle_socket [("junk", ["1"; "2"]); ("next", [])]) = (s', Ok o) /\
    zmq_pending s' = [["next"]].
Proof.
  destruct (wire_recv_aligned (idle_socket [("junk", ["1"; "2"]); ("next", [])]) false
    ["junk"; "1"; "2"] [["next"]]) as (s' & o & E & _ & K & _); [reflexivity|reflexivity|].
  exists s', o. split; [exact E|exact K].
Defined.

Lemma wire_send_atomic_witness :
  zmq_sent (send sample_envelope (idle_socket [])).1 = [wire_frames sample_envelope].
Proof.
  destruct (wire_send_atomic sample_envelope (idle_socket []) (send sample_envelope (idle_socket [])).1
    (Ok true)) as [_ [[_ K]|[K _]]]; [reflexivity|reflexivity|exact K|]. by destruct K.
Defined.

(** ** The worker *)

(** An owner that records the status calls and nothing else. *)
Definition recording : worker_callbacks (X := list bool) :=
  mkCallbacks (Some (fun b st => (st.1, st.2 ++ [b]))) None (Some (fun _ st => st)).

Lemma recording_logs : logging_owner recording (fun l => l).
Proof.
  split; simpl.
  - eexists. split; [reflexivity|]. done.
  - done.
  - by intros f [= <-].
Qed.

Definition sample_worker : ZmqWorker :=
  (writeControlMessage (mkEnvelope _ reset_header "") (worker_new config_default)).1.

Definition worker_start_world : worker_world (X := list bool) (S := QueueSocket) :=
  mkWorld sample_worker [] (idle_socket []) 0 false.

(** The broker answers once, and is silent for eleven seconds then. *)
Definition answered_world : worker_world (X := list bool) (S := QueueSocket) :=
  (run_prologue recording 0 (mkWorld sample_worker [] (idle_socket [(encodeHeader ack_header, [])]) 0 false)).1.

Definition silent_world : worker_world (X := list bool) (S := QueueSocket) :=
  (run_iteration recording (seconds 12) (seconds 12) (run_iteration recording 1 1 answered_world).1).1.

Lemma worker_status_alternates_witness :
  ww_owner silent_world = [false; true; false] /\ m_isOnline (ww_worker silent_world) = false /\
  alternating (ww_owner silent_world).
Proof.
  assert (E : ww_owner silent_world = [false; true; false]) by (vm_compute; reflexivity).
  destruct (worker_status_alternates recording (fun l => l) silent_world) as (_ & K1 & K2).
  - apply recording_logs.
  - apply (reach_iteration recording (fun l => l) (run_iteration recording 1 1 answered_world).1 (seconds 12) (seconds 12)).
    2: { unfold silent_world. rewrite (surjective_pairing (run_iteration recording (seconds 12) (seconds 12) _)) at 1.
         f_equal. }
    apply (reach_iteration recording (fun l => l) answered_world 1 1).
    2: { rewrite (surjective_pairing (run_iteration recording 1 1 answered_world)) at 1. f_equal. }
    apply (reach_start recording (fun l => l)
      (mkWorld sample_worker [] (idle_socket [(encodeHeader ack_header, [])]) 0 false) 0); reflexivity.
  - split; [exact E|]. split; [|exact K2]. rewrite E in K1. exact (f_equal (default true) (eq_sym K1)).
Defined.

Lemma worker_iteration_timeouts_witness :
  (seconds 4 - ww_lastHeartbeat (run_iteration recording 0 (seconds 4) worker_start_world).1
   <= HEARTBEAT_INTERVAL)%Z.
Proof.
  apply (worker_iteration_timeouts recording (fun l => l) 0 (seconds 4) worker_start_world).
  - apply recording_logs.
  - reflexivity.
Defined.

Lemma worker_iteration_sends_witness :
  exists w', run_iteration recording 0 (seconds 4) worker_start_world = (w', Ok tt) /\
    length (zmq_sent (ww_socket w')) = 2.
Proof.
  destruct (worker_iteration_sends recording accepts_all 0 (seconds 4) worker_start_world)
    as (w' & E & K); [apply accepts_all_accepting|reflexivity|reflexivity|reflexivity|].
  exists w'. split; [exact E|]. rewrite K. reflexivity.
Defined.

Lemma worker_shutdown_drains_witness :
  exists w', run_epilogue worker_start_world = (w', Ok tt) /\
    zmq_sent (ww_socket w') = [[encodeHeader reset_header]].
Proof.
  destruct (worker_shutdown_drains accepts_all worker_start_world) as (w' & E & _ & K);
    [apply accepts_all_accepting|reflexivity|reflexivity|].
  exists w'. split; [exact E|exact K].
Defined.

(** ** Addresses *)

Lemma parseTcpPort_first_witness :
  parseTcpPort ["ipc:///tmp/broker.sock"; peer_address "[::1]" 5556] = 5556%Z.
Proof.
  apply (parseTcpPort_first ["ipc:///tmp/broker.sock"] "[::1]" 5556 []).
  - by repeat constructor.
  - lia.
Defined.

Lemma main_beacon_witness :
  exists d, Broker.m_discovery (main_broker false None 0%Z 0 0).1 = Some d /\
    decodeBeacon (own_beacon d) = Some (mkBeacon "default" (generateUUID 0%Z).1 5555).
Proof.
  destruct (main_beacon None 0%Z 0 0) as (d & E & _ & K); [reflexivity|].
  exists d. split; [exact E|exact K].
Defined.
