(* ===== verification/ClientWitnesses.v ===== *)
(** * Witnesses of the client side

    The theorems on the client library, its C interface and the inspector
    applied at concrete states, with the interfaces instantiated as in
    [Witnesses]. *)

From S2P Require Import Prelude Keys CppString SafeQueue MessageHeader Stats ProtoWire Wire Worker.
From S2P Require Import Uuid Payload Discovery Broker BrokerFacts BrokerTheorems Witnesses Client ClientTheorems.
From S2P Require Import ConnectionApi Logger Inspector Capture.

(** ** The client library *)

Definition plain_config : ConnectionConfig := config_default.



(** User code that records its calls in the list of pending registrations,
    which nothing else touches once the instance exists, and throws. *)
Definition logging_user : user_code :=
  mkUser (fun f data s => (set_pending (s_pendingMsgCallbacks s ++ [(data, EmptyFn, f)]) s, Throw 1%Z))
         (fun f _ data _ _ s => (set_pending (s_pendingMsgCallbacks s ++ [(data, EmptyFn, f)]) s, Throw 1%Z)).

Definition call_log (s : client_state) : list (Z * string) :=
  (fun '(data, _, f) => (f, data)) <$> s_pendingMsgCallbacks s.

Lemma logging_user_logs : logs_calls logging_user call_log.
Proof.
  split_and!.
  - intros f data s. unfold call_log; simpl. by rewrite fmap_app.
  - done.
  - intros s p d. unfold set_value. by repeat case_match.
  - intros f t d n u s. unfold call_log; simpl. by rewrite fmap_app.
Qed.

Definition two_callbacks : client_state :=
  client_init plain_config (registerCallback "lights" (UserFn 2)
    (registerCallback "lights" (UserFn 1) fresh_state)).

Lemma handleMessage_runs_all_witness :
  exists s', handleMessage logging_user sample_envelope two_callbacks = (s', Ok tt) /\
    call_log s' = [(1%Z, "on"); (2%Z, "on")].
Proof.
  destruct (handleMessage_runs_all logging_user call_log sample_envelope two_callbacks
    (default (manager_new plain_config) (cs_object two_callbacks))) as (s' & E & _ & K).
  - apply logging_user_logs.
  - reflexivity.
  - exists s'. split; [exact E|]. rewrite K. by vm_compute.
Defined.

(** A typed message from [two_callbacks] to a client that has one callback of
    the type, which records its argument. *)
Definition record_value (v : string) : M client_state unit :=
  fun s => (set_pending (s_pendingMsgCallbacks s ++ [(v, EmptyFn, 3%Z)]) s, Ok tt).

Definition typed_user : user_code :=
  mkUser (fun _ raw => typed_callback raw_codec record_value raw) (fun _ _ _ _ _ => mret tt).

Definition one_callback : client_state :=
  client_init plain_config (registerCallback "lights" (UserFn 3) fresh_state).

Lemma sent_value_ok : (client_sendValue raw_codec "lights" "x" two_callbacks).2 = true.
Proof. by vm_compute. Qed.

Lemma typed_message_delivered_witness :
  exists env, call_log (handleMessage typed_user env one_callback).1 = [(3%Z, "x")].
Proof.
  destruct (typed_message_delivered raw_codec "lights" "x" two_callbacks
    (client_sendValue raw_codec "lights" "x" two_callbacks).1
    (default (manager_new plain_config) (cs_object two_callbacks)) typed_user 3 0 record_value one_callback
    (default (manager_new plain_config) (cs_object one_callback))) as (c' & env & _ & _ & K).
  - by vm_compute.
  - reflexivity.
  - reflexivity.
  - rewrite <-sent_value_ok. apply surjective_pairing.
  - reflexivity.
  - reflexivity.
  - reflexivity.
  - exists env. rewrite K. by vm_compute.
Defined.

(** A request, two replies to it, and the end of the wait. *)
Definition asked : client_state * Z * option string :=
  sendRequest_begin "temp" "?" 7 0%Z two_callbacks.

Definition reply_topic_of_asked : string := "temp" +:+ (generateUUID 0%Z).1.

Definition reply_envelope (data : string) : Envelope :=
  mkEnvelope _ (set_topic reply_topic_of_asked header_new) data.

Lemma sendRequest_begin_topic {G} `{HexGen G} t data p (g : G) s c :
  getInstance s = Some c ->
  (sendRequest_begin t data p g s).2 = Some (t +:+ (generateUUID g).1).
Proof.
  intros E. unfold sendRequest_begin. rewrite E. destruct (generateUUID g) as [uuid g'].
  by destruct (sendRawEnvelope _ _).
Qed.

Lemma asked_eq : asked = (asked.1.1, asked.1.2, Some reply_topic_of_asked).
Proof.
  pose proof (sendRequest_begin_topic "temp" "?" 7 0%Z two_callbacks
    (default (manager_new plain_config) (cs_object two_callbacks)) eq_refl) as E.
  fold asked reply_topic_of_asked in E. rewrite <-E. by destruct asked as [[s g] o].
Qed.

Lemma request_first_reply_witness :
  (sendRequest_end reply_topic_of_asked 7 (handleMessage logging_user (reply_envelope "22")
    (handleMessage logging_user (reply_envelope "21") asked.1.1).1).1).2 = Some "21".
Proof.
  pose proof (request_first_reply logging_user "temp" "?" 7 0%Z two_callbacks asked.1.1 asked.1.2
    reply_topic_of_asked ["21"; "22"]
    (handleMessage logging_user (reply_envelope "22")
      (handleMessage logging_user (reply_envelope "21") asked.1.1).1).1) as K.
  destruct (sendRequest_end reply_topic_of_asked 7 _) as [s3 response].
  apply K.
  - exact asked_eq.
  - by vm_compute.
  - apply (request_reply _ _ _ _ (reply_envelope "21")); [reflexivity|].
    apply (request_reply _ _ _ _ (reply_envelope "22")); [reflexivity|]. apply request_done.
Defined.

Lemma registration_before_init_witness :
  client_init plain_config (register_all [("lights", UserFn 1, 0%Z)] fresh_state) =
  register_all [("lights", UserFn 1, 0%Z)] (client_init plain_config fresh_state).
Proof. apply (registration_before_init plain_config [("lights", UserFn 1, 0%Z)] []). Defined.






(** ** The C interface *)

Lemma api_sendMessage_code_witness :
  length (queued (api_sendMessage (Some "lights") (Some "on") two_callbacks).1) = 1.
Proof.
  pose proof (api_sendMessage_code (Some "lights") (Some "on") two_callbacks) as K.
  destruct (api_sendMessage (Some "lights") (Some "on") two_callbacks) as [s' code] eqn:E.
  destruct K as [(_ & t & x & c & _ & _ & _ & K)|[[K _]|(K & _)]].
  - by intros t [= <-].
  - cbn [fst]. rewrite K. by vm_compute.
  - apply (f_equal snd) in E. vm_compute in E. rewrite K in E. by vm_compute in E.
  - apply (f_equal snd) in E. vm_compute in E. rewrite K in E. by vm_compute in E.
Defined.

Lemma api_request_in_bounds_witness :
  String.length (api_sendRequest_finish (Some "21") "........" 8 0).1.2 = 8.
Proof.
  destruct (api_request_in_bounds (Some "21") "........" 8 0) as [K _].
  - intros r [= <-]. by vm_compute.
  - by vm_compute.
  - exact K.
Defined.

(** ** The inspector *)

(** Lower case for ASCII letters, integer part of a number. *)
Definition ascii_lower (c : ascii) : ascii :=
  let n := N_of_ascii c in if decide (65 <= n /\ n <= 90)%N then ascii_of_N (n + 32) else c.

#[export] Program Instance ascii_text : QtText := {|
  q_toLower := fun s => String.string_of_list_ascii (ascii_lower <$> String.list_ascii_of_string s);
  q_number_f2 := fun _ => "0.00"
|}.
Next Obligation. reflexivity. Qed.

Definition parse_no_stats (_ : string) : option SystemStats := None.

Definition captured : InspectorPacket := packet_of_envelope "12:00:00.000" sample_envelope.

Definition session : list ui_event :=
  [EvPacket captured; EvFilter "LIGHT"; EvPacket captured; EvToggle 0; EvToggle 0].

Lemma inspector_history_bounded_witness :
  mw_rows (ui_run parse_no_stats session) = 2%Z /\
  NoDup (mw_topicMenu (ui_run parse_no_stats session)).*1.
Proof.
  destruct (inspector_history_bounded parse_no_stats session) as (_ & _ & K1 & K2 & _).
  split; [rewrite K1; by vm_compute|exact K2].
Defined.

Lemma inspector_filter_exact_witness :
  filterAcceptsRow (ui_run parse_no_stats session) 1 = true.
Proof.
  apply (inspector_filter_exact parse_no_stats session 1). exists captured.
  split; [reflexivity|]. split; [by apply (bool_decide_unpack _); vm_compute|].
  right. right. right. by vm_compute.
Defined.

Lemma replay_exact_witness :
  exists env, payload env = "on" /\ uuid_ok (message_uuid (header env)) /\
    sender_id (header env) = "REPLAY_client1" /\
    sender_id (replay_header "u2" (header env)) = "REPLAY_client1".
Proof.
  destruct (replay_exact 0 0%Z (ui_run parse_no_stats session) captured)
    as (env & K1 & K2 & _ & K3 & _ & K4 & _).
  - reflexivity.
  - apply sample_header_wf.
  - exists env. split; [exact K1|]. split; [exact K2|]. specialize (K3 eq_refl).
    split; [exact K3|]. exact (eq_trans (K4 "u2") K3).
Defined.

(** ** Capture *)

#[local] Existing Instance trie_order.

(** A message of a known client, and a heartbeat of an unknown one. *)
Definition mirrored_traffic : list traffic :=
  [mkTraffic 5 (set_message_uuid "m1" sample_header) "on" "a" false;
   mkTraffic 6 (set_message_uuid "m2" (keyed_header Keys.HEARTBEAT "")) "" "stranger" false].

Definition waiting (sent : list Envelope) : QueueSocket :=
  idle_socket ((fun env => (encodeHeader (header env), payload_frames (payload env))) <$> sent).

Lemma waiting_pending sent : zmq_pending (waiting sent) = wire_frames <$> sent.
Proof. unfold waiting. cbn. rewrite <-list_fmap_compose. done. Qed.

Lemma mirrored_traffic_sent sent :
  Forall2 mirrored mirrored_traffic sent ->
  Forall (fun env => header_encodable IsStructurallyValidUTF8 (header env)) sent.
Proof.
  intros (e1 & l1 & M1 & (e2 & l2 & M2 & Hl & ->)%Forall2_cons_inv_l & ->)%Forall2_cons_inv_l.
  apply Forall2_nil_inv_l in Hl as ->.
  pose proof (mi_uuid _ _ M1 ltac:(discriminate)) as E1. pose proof (mi_uuid _ _ M2 ltac:(discriminate)) as E2.
  apply Forall_cons; split; [rewrite E1|apply Forall_cons; split; [rewrite E2|constructor]];
    (split; [repeat constructor|by vm_compute..]).
Qed.

Lemma mirrored_traffic_wf : Forall (fun m => header_wf (tr_header m)) mirrored_traffic.
Proof.
  apply Forall_cons; split; [|apply Forall_cons; split; [|constructor]];
    unfold keyed_header, sample_header; cbn [tr_header]; eauto 10 with wisp.
Qed.

Definition three_rounds : list (bool * Z) := [(true, 1%Z); (true, 2%Z); (true, 3%Z)].

Lemma inspector_shows_traffic_witness :
  exists w' sent r' ps, process_all mirrored_traffic sample_world = (w', Ok tt) /\
    inspector_run utc three_rounds (waiting sent) = (r', Ok ps) /\
    m_packetHistory (show_packets parse_no_stats ps window_new) = ps /\ length ps = 2.
Proof.
  destruct (inspector_shows_traffic utc parse_no_stats is_router router_ok accepts_all mirrored_traffic sample_world
    router_routing accepts_all_accepting sample_world_ready mirrored_traffic_wf) as (w' & sent & E & _ & Hm & K).
  destruct (K three_rounds (waiting sent) window_new) as (r' & ps & E' & _ & Eh & Hd).
  - apply mirrored_traffic_sent, Hm.
  - reflexivity.
  - apply waiting_pending.
  - repeat constructor.
  - cbn. lia.
  - vm_compute. discriminate.
  - exists w', sent, r', ps. split_and!; [exact E|exact E'|exact Eh|].
    rewrite <-(Forall2_length _ _ _ Hd), <-(Forall2_length _ _ _ Hm). reflexivity.
Defined.
