(* ===== verification/MeshWitnesses.v ===== *)
(** * Witnesses for the mesh

    Two brokers on in-memory sockets: broker 0 dials broker 1
    at two of its addresses; broker 1 knows the links and holds their wildcard
    subscription. *)

From stdpp Require Import relations.
From S2P Require Import Payload.
From S2P Require Import Prelude Keys CppString SafeQueue SubscriptionRegistry MessageHeader.
From S2P Require Import Stats ProtoWire Wire Worker Uuid Discovery Broker BrokerFacts.
From S2P Require Import BrokerTheorems Witnesses Mesh MeshSpread System MeshLink.

#[local] Existing Instance trie_order.

Definition pair_listens (addr : string) : option nat :=
  if decide (addr = "tcp://b" \/ addr = "ipc://b") then Some 1 else None.

Definition pair_link : string := clientId (peer_config (m_brokerId sample_broker) "tcp://b").

Definition world_of (b : ZmqBroker) : broker_world :=
  mkBrokerWorld b router_socket (idle_socket []) 1%Z 0%Z.

Definition pair_header : MessageHeader := stamped sample_header (world_of sample_broker).
Definition pair_envelope : Envelope := mkEnvelope _ pair_header "on".
Definition pair_uuid : string := message_uuid pair_header.

Lemma pair_copy : copy {[pair_uuid]} pair_envelope.
Proof.
  split.
  - apply elem_of_singleton. unfold pair_envelope, pair_uuid. cbn [Wire.header]. reflexivity.
  - apply (bool_decide_unpack _). by vm_compute.
  - apply (bool_decide_unpack _). by vm_compute.
  - by vm_compute.
  - unfold pair_envelope, pair_header, stamped; simpl. apply set_origin_broker_id_wf, set_message_uuid_wf, sample_header_wf.
  - split; [repeat constructor|by vm_compute|by vm_compute|by vm_compute].
Qed.

#[local] Opaque stamped.

(** The history of both brokers and what the links have queued. *)
Section pair.
Context (hist : list string) (load : list Envelope).
Context (Hnd : NoDup hist) (Hlen : length hist <= MaxHistorySize) (Hnew : pair_uuid ∉ hist).
Context (Hload : Forall (copy {[pair_uuid]}) load).

Definition pair_worker (addr : string) : ZmqWorker :=
  set_outboundQueue (mkQueue load false 5000) (worker_start (worker_new (peer_config (m_brokerId sample_broker) addr))).

Definition veteran : ZmqBroker := set_history (list_to_set hist) hist sample_broker.
Definition broker_a : ZmqBroker := set_peers {["b" := pair_worker "tcp://b"; "c" := pair_worker "ipc://b"]} veteran.
Definition broker_b : ZmqBroker := add_subscription pair_link "" (add_client pair_link veteran).

Definition pair_mesh : mesh := mkMesh {[0 := world_of broker_a; 1 := world_of broker_b]} [].

Lemma veteran_inv : broker_inv veteran.
Proof using Hnd Hlen. destruct sample_broker_inv as [I1 I2 I3 _ _ _]. by split. Qed.

Lemma pair_nodes i w :
  nodes pair_mesh !! i = Some w -> (i = 0 /\ w = world_of broker_a) \/ (i = 1 /\ w = world_of broker_b).
Proof using Type.
  unfold pair_mesh. simpl. intros [[<- <-]|[_ [<- <-]%lookup_singleton_Some]]%lookup_insert_Some; auto.
Qed.

Lemma pair_links i w key k :
  nodes pair_mesh !! i = Some w -> m_peers (bw_broker w) !! key = Some k ->
  i = 0 /\ w = world_of broker_a /\ exists addr, pair_listens addr = Some 1 /\ k = pair_worker addr.
Proof using Type.
  intros [[-> ->]|[-> ->]]%pair_nodes Hk.
  - cbn [world_of bw_broker broker_a set_peers m_peers] in Hk. split_and!; [done|done|].
    apply lookup_insert_Some in Hk as [[<- <-]|[_ [<- <-]%lookup_singleton_Some]]; (eexists; split; [|reflexivity]; done).
  - change (m_peers (bw_broker (world_of broker_b))) with (∅ : gmap string ZmqWorker) in Hk.
    by rewrite lookup_empty in Hk.
Qed.

Lemma pair_order i w : nodes pair_mesh !! i = Some w -> m_messageIdOrder (bw_broker w) = hist.
Proof using Type. by intros [[_ ->]|[_ ->]]%pair_nodes. Qed.

Lemma pair_node_ok i w :
  nodes pair_mesh !! i = Some w -> node_ok is_router accepts_all {[pair_uuid]} w.
Proof using Hnd Hlen Hnew Hload.
  intros Hi. split.
  - destruct (pair_nodes _ _ Hi) as [[_ ->]|[_ ->]]; by split.
  - destruct (pair_nodes _ _ Hi) as [[_ ->]|[_ ->]]; [apply (broker_inv_owned veteran); [done|apply veteran_inv]|].
    apply subscribe_inv; [simpl; eauto|]. apply touch_client_inv, veteran_inv.
  - rewrite (pair_order i w Hi). apply kept_fresh.
    + rewrite size_singleton. unfold MaxHistorySize. lia.
    + apply disjoint_singleton_l. by rewrite elem_of_list_to_set.
  - intros key k env Hk He. destruct (pair_links _ _ _ _ Hi Hk) as (_ & _ & addr & _ & ->).
    rewrite Forall_forall in Hload. by apply Hload.
  - intros env He. destruct (pair_nodes _ _ Hi) as [[_ ->]|[_ ->]]; by apply elem_of_nil in He.
Qed.

Lemma pair_inv : mesh_inv pair_listens is_router accepts_all {[pair_uuid]} pair_mesh.
Proof using Hnd Hlen Hnew Hload.
  split; [|by intros i w; apply pair_node_ok|constructor].
  intros i s key c. unfold mesh_shape. rewrite lookup_fmap.
  destruct (nodes pair_mesh !! i) as [w|] eqn:Hi; [|done]. intros Hs. apply (inj Some) in Hs as <-.
  unfold shape. cbn [snd]. rewrite lookup_fmap. destruct (m_peers (bw_broker w) !! key) as [k|] eqn:Hk; [|done].
  intros Hc. apply (inj Some) in Hc as <-. destruct (pair_links _ _ _ _ Hi Hk) as (_ & _ & addr & Ha & ->).
  exists 1, (shape (world_of broker_b)). split_and!; [exact Ha|done|].
  unfold shape. cbn [fst snd]. apply elem_of_dom. eauto.
Qed.

Lemma pair_open : inbound_open (mesh_shape pair_mesh).
Proof using Type.
  intros i s. unfold mesh_shape. rewrite lookup_fmap. destruct (nodes pair_mesh !! i) as [w|] eqn:Hi; [|done].
  intros Hs. apply (inj Some) in Hs as <-. by destruct (pair_nodes _ _ Hi) as [[_ ->]|[_ ->]].
Qed.

End pair.

(** ** Full histories *)

(** 10000 ids. *)
Lemma many_ids : exists hist, NoDup hist /\ length hist = MaxHistorySize /\ pair_uuid ∉ hist.
Proof.
  exists ((fun n => to_string (Z.of_nat n)) <$> seq 0 MaxHistorySize). split_and!.
  - apply NoDup_fmap_2_strong; [|apply NoDup_seq].
    intros a b Ha%elem_of_seq Hb%elem_of_seq E. apply (f_equal stoi) in E. unfold MaxHistorySize in *.
    rewrite !stoi_to_string in E by lia. injection E. lia.
  - by rewrite length_fmap, length_seq.
  - intros (n & E & _)%list_elem_of_fmap.
    assert (no_char "-" (to_string (Z.of_nat n))) as Hn.
    { apply to_dec_no_char; [lia|]. rewrite !not_elem_of_cons. by split_and!; [discriminate..|apply not_elem_of_nil]. }
    rewrite <-E in Hn. unfold no_char in Hn. apply (bool_decide_pack _) in Hn. by vm_compute in Hn.
Qed.

(** Both brokers have 10000 other messages behind them, and both links a copy of the new
    one to send: the histories forget old ids, and the mesh comes to rest. *)
Lemma mesh_flooding_ends_witness :
  exists hist, length hist = MaxHistorySize /\
  let m := pair_mesh hist [pair_envelope] in
  ~ idle m /\ (forall n m', nsteps (lossy_step pair_listens) n m m' -> n <= weight {[pair_uuid]} m) /\
  exists m', rtc (mesh_step pair_listens) m m' /\ idle m'.
Proof.
  destruct many_ids as (hist & Hn & Hl & Hu). exists hist. split; [exact Hl|]. intros m.
  destruct (mesh_flooding_ends pair_listens is_router router_ok accepts_all {[pair_uuid]} m) as (K1 & _ & K3).
  - apply router_routing.
  - apply accepts_all_accepting.
  - apply pair_inv; [exact Hn|by rewrite Hl|exact Hu|]. apply Forall_singleton, pair_copy.
  - apply pair_open.
  - split_and!; [|exact K1|exact K3]. intros (_ & K & _).
    specialize (K 0 (world_of (broker_a hist [pair_envelope])) eq_refl "b" (pair_worker [pair_envelope] "tcp://b")).
    discriminate (K eq_refl).
Defined.

(** ** A new message *)

Notation quiet := (pair_mesh [] []).
Notation broker_a0 := (world_of (broker_a [] [])).
Notation broker_b0 := (world_of (broker_b [])).

Lemma pair_stamped : stamped sample_header broker_a0 = pair_header.
Proof. Transparent stamped. reflexivity. Qed.

Lemma pair_stamped_uuid : message_uuid (stamped sample_header broker_a0) = pair_uuid.
Proof. exact (f_equal message_uuid pair_stamped). Qed.

#[local] Opaque stamped.

Lemma quiet_inv : mesh_inv pair_listens is_router accepts_all {[pair_uuid]} quiet.
Proof. apply pair_inv; [constructor|unfold MaxHistorySize; simpl; lia|apply not_elem_of_nil|constructor]. Qed.

Lemma quiet_wired : wired pair_listens router_ok {[pair_uuid]} quiet.
Proof.
  assert (Hw : (Z.of_nat (weight {[pair_uuid]} quiet) < 5000)%Z) by (by vm_compute).
  split.
  - intros i w key k j wj [L1 L2 L3 L4]. destruct (pair_links _ _ _ _ _ _ L1 L2) as (_ & _ & addr & Ha & ->).
    assert (j = 1) as -> by (unfold target in L3; change (address _) with addr in L3; congruence).
    destruct (pair_nodes _ _ _ _ L4) as [[? _]|[_ ->]]; [done|].
    split_and!; [apply (bool_decide_unpack _); by vm_compute|apply (bool_decide_unpack _); by vm_compute|reflexivity|exact Hw].
  - intros i w Hi. destruct (pair_nodes _ _ _ _ Hi) as [[_ ->]|[_ ->]]; (split; [reflexivity|exact Hw]).
  - intros i w key k i' w' key' k' j wj [L1 L2 L3 L4] [M1 M2 M3 M4] _.
    destruct (pair_links _ _ _ _ _ _ L1 L2) as (-> & _), (pair_links _ _ _ _ _ _ M1 M2) as (-> & _). done.
Qed.

Lemma quiet_copy : copy {[pair_uuid]} (mkEnvelope _ (stamped sample_header broker_a0) "on").
Proof. rewrite pair_stamped. apply pair_copy. Qed.

Definition injected : mesh :=
  arrive 0 5 (Some (mkEnvelope _ sample_header "on")) "a" false quiet.

Lemma injected_inv :
  mesh_inv pair_listens is_router accepts_all {[pair_uuid]} injected /\
  mesh_shape injected = mesh_shape quiet.
Proof.
  destruct (inject_step pair_listens is_router router_ok router_routing accepts_all accepts_all_accepting
    {[pair_uuid]} quiet 0 5 sample_header "on" "a" broker_a0 quiet_inv) as (w' & ids & E & Ha).
  - done.
  - apply quiet_copy.
  - by eexists.
  - unfold injected. rewrite E.
    destruct (arrival_inv pair_listens is_router router_ok accepts_all
      {[pair_uuid]} quiet 0 _ "a" false broker_a0 w' ids quiet_inv eq_refl quiet_copy Ha)
      as (K1 & _ & K2). exact (conj K1 K2).
Qed.

Lemma quiet_unseen : unseen (message_uuid (stamped sample_header broker_a0)) quiet.
Proof.
  intros i w Hi. split.
  - unfold known. rewrite (pair_order _ _ i w Hi). apply not_elem_of_nil.
  - intros key k Hk (e & He & _). destruct (pair_links _ _ _ _ _ _ Hi Hk) as (_ & _ & addr & _ & ->).
    by apply elem_of_nil in He.
Qed.

Lemma mesh_reaches_all_witness :
  exists m2 wj, rtc (mesh_step pair_listens) injected m2 /\ nodes m2 !! 1 = Some wj /\ known wj pair_uuid.
Proof.
  destruct (mesh_reaches_all pair_listens is_router router_ok accepts_all {[pair_uuid]} quiet 0 5
    sample_header "on" "a" broker_a0) as ((m2 & Hr & Hi) & _ & K).
  - apply router_routing.
  - apply accepts_all_accepting.
  - apply quiet_inv.
  - apply quiet_wired.
  - done.
  - apply quiet_copy.
  - by eexists.
  - intros i w key k Hi Hk Hj. by destruct (pair_links _ _ _ _ _ _ Hi Hk) as (-> & _ & addr & Ha & ->);
      unfold target in Hj; change (address _) with addr in Hj; rewrite Ha in Hj.
  - apply quiet_unseen.
  - destruct (lossless_inv pair_listens is_router router_ok router_routing accepts_all accepts_all_accepting
      {[pair_uuid]} injected m2 (proj1 injected_inv) Hr) as (_ & _ & Hs).
    rewrite (proj2 injected_inv) in Hs. apply (f_equal (fun f => f !! 1)) in Hs. unfold mesh_shape in Hs.
    rewrite !lookup_fmap in Hs. destruct (nodes m2 !! 1) as [wj|] eqn:E; [|done].
    exists m2, wj. split_and!; [exact Hr|exact E|]. rewrite <-pair_stamped_uuid. apply (K m2 1 wj Hr Hi); [|exact E].
    apply rtc_once. exists broker_a0, "b", (pair_worker [] "tcp://b"), broker_b0. left. by split.
Defined.

(** The worker of a link sends what is queued first. *)
Definition send_front (i : nat) (key : string) (now : Z) (m : mesh (G:=Z) (S:=QueueSocket)) :
    option (mesh (G:=Z) (S:=QueueSocket)) :=
  w ← nodes m !! i; k ← m_peers (bw_broker w) !! key; j ← target pair_listens k;
  match try_pop (m_outboundQueue k) with
  | (q, Some env) => Some (arrive j now (envelope_of_frames (wire_frames env)) (link_id k) false
      (put_node i (on_broker (put_link key (set_outboundQueue q k)) w) m))
  | (_, None) => None
  end.

Lemma send_front_step i key now m m' : send_front i key now m = Some m' -> mesh_step pair_listens m m'.
Proof.
  unfold send_front. destruct (nodes m !! i) as [w|] eqn:Ew; [|discriminate]. cbn [mbind option_bind].
  destruct (m_peers (bw_broker w) !! key) as [k|] eqn:Ek; [|discriminate]. cbn [mbind option_bind].
  destruct (target pair_listens k) as [j|] eqn:Ej; [|discriminate]. cbn [mbind option_bind].
  destruct (try_pop (m_outboundQueue k)) as [q [env|]] eqn:Eq; [|discriminate].
  intros [= <-]. exact (step_out pair_listens m i w key k q env j now Ew Ek Eq Ej).
Qed.

(** The copies of both links arrive at broker 1. *)
Definition twice : option mesh := m ← send_front 0 "b" 6 injected; send_front 0 "c" 7 m.

Definition sent_by (j : nat) (m : mesh (G:=Z) (S:=QueueSocket)) : list (list string) :=
  match nodes m !! j with Some x => zmq_sent (bw_router x) | None => [] end.

(** Of two copies the second changes nothing: the subscriber of broker 1 is sent one. *)
Lemma mesh_delivers_once_witness :
  exists m2 x, twice = Some m2 /\ rtc (mesh_step pair_listens) injected m2 /\ nodes m2 !! 1 = Some x /\
    hd "" <$> zmq_sent (bw_router x) = ["b"] /\ known x pair_uuid /\ sent_once {[pair_uuid]} pair_uuid quiet 1 x.
Proof.
  assert (Hb : bool_decide (hd "" <$> (default [] (sent_by 1 <$> twice)) = ["b"]) = true) by (by vm_compute).
  assert (Hk : bool_decide (pair_uuid ∈ default [] (m ← twice; x ← nodes m !! 1; Some (m_messageIdOrder (bw_broker x)))) = true)
    by (by vm_compute).
  apply bool_decide_eq_true_1 in Hb, Hk.
  destruct twice as [m2|] eqn:E; [|done]. cbn [default from_option fmap option_fmap option_map mbind option_bind id] in Hb, Hk. unfold sent_by in Hb.
  destruct (nodes m2 !! 1) as [x|] eqn:Ex; [|done].
  assert (Hr : rtc (mesh_step pair_listens) injected m2).
  { unfold twice in E. destruct (send_front 0 "b" 6 injected) as [m1|] eqn:E1; [|done].
    eapply rtc_l; [by eapply send_front_step|]. apply rtc_once. by eapply send_front_step. }
  exists m2, x. split_and!; [reflexivity|exact Hr|done|exact Hb|exact Hk|]. rewrite <-pair_stamped_uuid at 2.
  refine (mesh_delivers_once pair_listens is_router router_ok accepts_all {[pair_uuid]} quiet 0 5
    sample_header "on" "a" broker_a0 router_routing accepts_all_accepting quiet_inv _ quiet_copy _
    m2 1 x _ Ex).
  - done.
  - by eexists.
  - eapply rtc_subrel; [|exact Hr]. intros a b Hab. by left.
Defined.

(** ** A broker dials [sample_world] *)

Definition dialling : ConnectionConfig := peer_config "b2" "tcp://b".

Lemma dialling_encodable : Forall (header_encodable IsStructurallyValidUTF8) (handshake_headers dialling).
Proof. repeat constructor; by vm_compute. Qed.

Lemma dialling_unknown : m_clients (bw_broker sample_world) !! clientId dialling = None.
Proof. by vm_compute. Qed.

Lemma dialling_ok : router_ok (clientId dialling) = true.
Proof. by vm_compute. Qed.

Lemma link_established_witness :
  exists ww w', link_turn 10 (link_start "b2" "tcp://b" 5 (queue_new 8) (idle_socket []), sample_world) ≫= link_turn 20 =
    Some (ww, w') /\ ww_owner ww = Some (queue_new 8) /\ m_isOnline (ww_worker ww) = true /\ is_Some (m_clients (bw_broker w') !! clientId dialling) /\
  (forall c t, c ∈ subs_of (m_subscriptions (bw_broker w')) t <->
     c ∈ subs_of (m_subscriptions (bw_broker sample_world)) t \/ c = clientId dialling /\ t = "").
Proof.
  exact (link_established accepts_all accepts_all_accepting (fun s f fs Hs => Hs) is_router router_ok router_routing
    accepts_all accepts_all_accepting "b2" "tcp://b" 5 10 20 (queue_new 8) (idle_socket []) sample_world
    dialling_encodable eq_refl eq_refl eq_refl eq_refl sample_world_ready sample_broker_inv dialling_unknown dialling_ok
    eq_refl ltac:(vm_compute; discriminate)).
Defined.
