(* ===== verification/SystemWitnesses.v ===== *)
(** * A run of the whole system

    The two example programs ([client1/main.cpp], [client2/main.cpp]) with a broker
    on in-memory sockets: client2 publishes on the topic client1 listens to. *)

From stdpp Require Import relations.
From S2P Require Import Payload.
From S2P Require Import Prelude Keys CppString SafeQueue SubscriptionRegistry MessageHeader.
From S2P Require Import Stats ProtoWire Wire Worker Uuid Discovery Broker BrokerFacts.
From S2P Require Import BrokerTheorems Witnesses Client ClientTheorems System SystemFacts SystemTheorems.
From S2P Require Import Schedule SystemDelivery ClientWitnesses.

#[local] Existing Instance trie_order.

(** ** Two clients and a broker *)

(** A random engine that takes turns between two digits. *)
#[local] Program Instance turns_gen : HexGen bool := {|
  dis := fun g => ((if g then 7 else 3)%Z, negb g); dis2 := fun g => (9%Z, negb g)
|}.
Next Obligation. intros []; simpl; lia. Qed.
Next Obligation. intros g; simpl. lia. Qed.

Definition demo_config (id : string) : ConnectionConfig :=
  mkConfig "tcp://127.0.0.1:5555" id ZMQ 10000 5000 2.

Definition demo_regs (id : string) : list (string * MessageCallback * Z) :=
  if decide (id = "client1") then [("test", UserFn 1, 0%Z)] else [].

Definition demo_node (id : string) : node (S:=QueueSocket) :=
  node_start (demo_config id) 0 (register_all (demo_regs id) fresh_state) (idle_socket []).

Definition demo_start : system (G:=bool) (S:=QueueSocket) :=
  mkSystem (mkBrokerWorld (broker_start main_bindings 0 0 (broker_new true).1) (idle_socket []) (idle_socket [])
              (broker_new true).2 0)
    {["client1" := demo_node "client1"; "client2" := demo_node "client2"]} [] [].

Definition demo_id : string := Eval vm_compute in m_brokerId (bw_broker (sys_broker demo_start)).

Lemma demo_id_eq : m_brokerId (bw_broker (sys_broker demo_start)) = demo_id.
Proof. by vm_compute. Qed.

Definition demo_env (data : string) : Envelope :=
  mkEnvelope _ (set_topic "test" (set_sender_id "client2" (set_handler_key "test" header_new))) data.

(** Both clients introduce themselves, client1 subscribes when it is told to, then
    a message of client2 goes to the broker and on to client1. *)
Definition demo_commands : list (command (G:=bool)) :=
  [CWorker "client1" 1 1; CUp "client1"; CBroker 1 1 1; CDown "client1"; CWorker "client1" 2 2;
   CUp "client1"; CUp "client1"; CBroker 2 2 2; CBroker 3 3 3;
   CWorker "client2" 3 3; CUp "client2"; CBroker 4 4 4;
   CPublish "client2" (demo_env "hello"); CWorker "client2" 5 5; CUp "client2"; CBroker 6 6 6;
   CDown "client1"; CWorker "client1" 7 7; CProcess "client1"; CProcess "client1"].

Definition demo_result : option (list event * system) := exec_all (fun _ => silent) demo_commands demo_start.

Example demo_handled :
  (fun r => (handled "client2" "client1" "test" r.1, published "client2" "test" r.1)) <$> demo_result =
  Some ([("hello", "")], [("hello", "")]).
Proof. by vm_compute. Qed.

(** ** The theorem at this run *)

Ltac encodable :=
  split; [repeat (constructor; [by vm_compute|]); constructor|by vm_compute..].

Lemma demo_speaks id key t data :
  id = "client1" \/ id = "client2" -> key ∈ [Keys.CONNECT; Keys.DISCONNECT; Keys.HEARTBEAT; Keys.SUBSCRIBE; Keys.UNSUBSCRIBE; "test"] ->
  t = "" \/ t = "test" ->
  speaks (G:=bool) demo_id id (mkEnvelope _ (set_topic t (set_sender_id id (set_handler_key key header_new))) data).
Proof.
  intros Hid Hkey Ht.
  assert (Hw : forall id key t, header_wf (set_topic t (set_sender_id id (set_handler_key key header_new))))
    by (intros; auto 10 with wisp).
  assert (He : header_encodable IsStructurallyValidUTF8 (set_topic t (set_sender_id id (set_handler_key key header_new))) /\
    forall g : bool, header_encodable IsStructurallyValidUTF8 (set_origin_broker_id demo_id (set_message_uuid
      (generateUUID g).1 (set_topic t (set_sender_id id (set_handler_key key header_new)))))).
  { repeat (apply elem_of_cons in Hkey as [->|Hkey]); [..|by apply elem_of_nil in Hkey];
      destruct Hid as [->| ->], Ht as [->| ->]; (split; [encodable|intros []; encodable]). }
  destruct He as [He1 He2]. split; [by split; [apply Hw|]|done|done|done].
Qed.

Ltac demo_key := apply (bool_decide_unpack _); by vm_compute.

Lemma demo_nodes id nd :
  sys_nodes demo_start !! id = Some nd ->
  id = "client1" /\ nd = demo_node "client1" \/ id = "client2" /\ nd = demo_node "client2".
Proof.
  unfold demo_start. cbn [sys_nodes].
  intros [[<- <-]|[_ [<- <-]%lookup_singleton_Some]]%lookup_insert_Some; auto.
Qed.

Lemma demo_initial : initial demo_start.
Proof.
  split; [|intros id nd Hn|done|done].
  - exists true, main_bindings, 0%Z, 0%Z, (idle_socket []), (idle_socket []), 0%Z. by split_and!.
  - destruct (demo_nodes id nd Hn) as [[-> ->]|[-> ->]].
    + exists (demo_config "client1"), 0%Z, (demo_regs "client1"), (idle_socket []). split_and!; [done|done|done|].
      rewrite demo_id_eq. apply Forall_cons_2; [|apply Forall_nil_2]. split;
        [apply (demo_speaks "client1" Keys.SUBSCRIBE "test" "")|apply (demo_speaks "client1" Keys.UNSUBSCRIBE "test" "")];
        first [demo_key|by left|by right].
    + exists (demo_config "client2"), 0%Z, (demo_regs "client2"), (idle_socket []). split_and!; [done|done|done|].
      constructor.
Qed.

Lemma demo_polite id : id ∈ dom (sys_nodes demo_start) -> polite (G:=bool) demo_id id.
Proof.
  intros [nd Hn]%elem_of_dom. apply demo_nodes in Hn.
  assert (id = "client1" \/ id = "client2") as Hd by (destruct Hn as [[E _]|[E _]]; [by left|by right]).
  clear Hn. split_and!; (apply demo_speaks; [exact Hd|demo_key|by left]).
Qed.

Lemma demo_own :
  Forall (header_encodable IsStructurallyValidUTF8) [reset_header; ack_header; stats_header].
Proof. constructor; [encodable|constructor; [encodable|constructor; [encodable|constructor]]]. Qed.

Lemma delivery_in_order_witness :
  exists y', sys_run (fun _ => silent) (speaks (G:=bool) demo_id) demo_start
      (default [] (fst <$> demo_result)) y' /\
    handled "client2" "client1" "test" (default [] (fst <$> demo_result)) = [("hello", "")] /\
    handled "client2" "client1" "test" (default [] (fst <$> demo_result))
      `sublist_of` published "client2" "test" (default [] (fst <$> demo_result)).
Proof.
  assert (Hr : exists y', exec_all (fun _ => silent) demo_commands demo_start = Some (default [] (fst <$> demo_result), y')).
  { unfold demo_result. destruct (exec_all (fun _ => silent) demo_commands demo_start) as [[es y']|] eqn:E; [by exists y'|].
    pose proof demo_handled as D. unfold demo_result in D. by rewrite E in D. }
  destruct Hr as [y' Hr]. exists y'.
  assert (Hs : sys_run (fun _ => silent) (speaks (G:=bool) demo_id) demo_start (default [] (fst <$> demo_result)) y').
  { apply (exec_all_sound (fun _ => silent) (speaks (G:=bool) demo_id) demo_commands); [|exact Hr].
    assert (Hp : forall y : system (G:=bool) (S:=QueueSocket), command_ok (fun _ => silent) (speaks (G:=bool) demo_id) y (CPublish "client2" (demo_env "hello"))).
    { intros y. split; [apply (demo_speaks "client2" "test" "test" "hello"); [by right|demo_key|by right]|reflexivity]. }
    unfold demo_commands. repeat first [apply Forall_nil_2|apply Forall_cons_2; [first [exact Hp|intros ?; by apply silent_ok|intros ?; exact I]|]]. }
  split; [exact Hs|]. split; [vm_compute; reflexivity|].
  apply (delivery_in_order (fun _ => silent) demo_start (default [] (fst <$> demo_result)) y' "client2" "client1" "test").
  - exact demo_initial.
  - exact demo_polite.
  - exact demo_own.
  - discriminate.
  - discriminate.
  - reflexivity.
  - exact Hs.
Defined.

(** ** Delivery at this system *)

Lemma open_routing : routing_socket accepts_all (fun _ => true).
Proof.
  destruct accepts_all_accepting as [K1 K2]. split_and!; [| |done].
  - intros s id Hs _. destruct (K1 s id true Hs) as (s' & -> & ?). by split.
  - intros s f more Hs _. destruct (K1 s f more Hs) as (s' & -> & ?). done.
Qed.

Lemma accepts_all_deliver (s : QueueSocket) (f : string) (fs : list string) : accepts_all s -> accepts_all (zmq_deliver s f fs).
Proof. done. Qed.

(** Both clients are known, and client1 has subscribed; it handles the RESET it was sent.  The
    callbacks of the programs record their calls. *)
Definition settle_commands : list (command (G:=bool)) := take 12 demo_commands.

Notation recording_users := (fun _ : string => logging_user).

Definition introduced : system := default demo_start (snd <$> exec_all recording_users settle_commands demo_start).

Definition settled : system := default demo_start (snd <$> exec recording_users (CProcess "client1") introduced).

Lemma introduced_run : sys_run recording_users (speaks (G:=bool) demo_id) demo_start [] introduced.
Proof.
  assert (E : exists y, exec_all recording_users settle_commands demo_start = Some ([], y)).
  { assert (Hes : match exec_all recording_users settle_commands demo_start with Some ([], _) => true | _ => false end = true) by (by vm_compute).
    destruct (exec_all recording_users settle_commands demo_start) as [[[|e es] y]|]; [|done..]. by exists y. }
  unfold introduced. destruct E as [y E]. rewrite E.
  apply (exec_all_sound recording_users (speaks (G:=bool) demo_id) settle_commands); [|exact E].
  cbn [settle_commands take demo_commands app]. by repeat first [apply Forall_nil_2|apply Forall_cons_2; [intros ?; exact I|]].
Qed.

(** What client1 handles is the RESET, so no callback runs. *)
Lemma introduced_reset nd env s :
  sys_nodes introduced !! "client1" = Some nd -> pop_inbound (nd_state nd) = Some (env, s) -> handler_key (Wire.header env) = Keys.RESET.
Proof.
  intros Hn Hp.
  assert (K : (nd ← sys_nodes introduced !! "client1"; p ← pop_inbound (nd_state nd); Some (handler_key (Wire.header p.1))) = Some Keys.RESET)
    by (by vm_compute).
  rewrite Hn in K. cbn [mbind option_bind] in K. rewrite Hp in K. by injection K.
Qed.

Lemma settled_run : sys_run recording_users (speaks (G:=bool) demo_id) demo_start [] settled.
Proof.
  change ([] : list event) with ([] ++ [] : list event). eapply sys_run_app; [apply introduced_run|].
  assert (E : exists y, exec recording_users (CProcess "client1") introduced = Some ([], y)).
  { assert (Hes : match exec recording_users (CProcess "client1") introduced with Some ([], _) => true | _ => false end = true) by (by vm_compute).
    destruct (exec recording_users (CProcess "client1") introduced) as [[[|e es] y]|]; [|done..]. by exists y. }
  unfold settled. destruct E as [y E]. rewrite E. apply (exec_sound _ _ (CProcess "client1")); [|exact E].
  intros nd env s s' ok Hn Hp _ Hk. by destruct (Hk (introduced_reset nd env s Hn Hp)).
Qed.

Definition settled_node (id : string) : node (S:=QueueSocket) := default (demo_node id) (sys_nodes settled !! id).

Lemma settled_nodes id : id = "client1" \/ id = "client2" -> sys_nodes settled !! id = Some (settled_node id).
Proof.
  intros Hid. unfold settled_node. destruct (sys_nodes settled !! id) as [nd|] eqn:E; [done|exfalso].
  assert (K : bool_decide (is_Some (sys_nodes settled !! id)) = true) by (destruct Hid as [->| ->]; by vm_compute).
  apply bool_decide_eq_true in K as [nd K]. by rewrite E in K.
Qed.

Lemma zlen_zero {T} (l : list T) : zlen l = 0%Z -> l = [].
Proof. destruct l; [done|]. unfold zlen. cbn. lia. Qed.

Lemma settled_sender : ready_to_send accepts_all (settled_node "client2").
Proof.
  assert (K : (c ← cs_object (nd_state (settled_node "client2")); k ← m_pWorker c;
    Some (Worker.m_running k, zlen (m_queue (m_controlQueue k)), zlen (m_queue (m_outboundQueue k)))) = Some (true, 0, 0)%Z) by (by vm_compute).
  split; [|by vm_compute..]. destruct (cs_object _) as [c|]; [|done]. cbn in K. destruct (m_pWorker c) as [k|] eqn:Ek; [|done].
  injection K as K1 K2%zlen_zero K3%zlen_zero. by exists c, k.
Qed.

Lemma settled_receiver : ready_to_receive (settled_node "client1").
Proof.
  assert (K : (c ← cs_object (nd_state (settled_node "client1")); k ← m_pWorker c;
    Some (Worker.m_running k, Client.m_running c, zlen (m_queue (m_inbound c)), m_stop (m_inbound c), m_maxSize (m_inbound c))) =
    Some (true, true, 0%Z, false, 5000%Z)) by (by vm_compute).
  split; [|by vm_compute]. destruct (cs_object _) as [c|]; [|done]. cbn in K. destruct (m_pWorker c) as [k|] eqn:Ek; [|done].
  injection K as K1 K2 K3%zlen_zero K4 K5. exists c, k. split_and!; try done. by rewrite K5.
Qed.

Lemma settled_router : ready_to_route accepts_all accepts_all "client2" "client1" "test" (sys_broker settled).
Proof.
  split; [by split; vm_compute|by vm_compute| | |].
  - apply (bool_decide_unpack _). by vm_compute.
  - left. apply (bool_decide_unpack _). by vm_compute.
  - apply (bool_decide_unpack _). by vm_compute.
Qed.

Lemma message_delivered_witness :
  exists y' env' nd' s, exec_all recording_users (relay "client2" "client1" (demo_env "hello") 5 5 6 6 6 7 7) settled =
      Some ([Published "client2" (demo_env "hello")], y') /\
    sys_nodes y' !! "client1" = Some nd' /\ pop_inbound (nd_state nd') = Some (env', s) /\ Wire.payload env' = "hello" /\
    exists s', processing_round logging_user env' s = (s', Ok true) /\ call_log s' = call_log s ++ [(1%Z, "hello")].
Proof.
  destruct (message_delivered demo_id accepts_all accepts_all_accepting accepts_all (fun _ => true) open_routing accepts_all_deliver
    accepts_all accepts_all_accepting "client2" "client1" ltac:(discriminate) eq_refl recording_users demo_start [] settled
    (settled_node "client2") (settled_node "client1") (demo_env "hello") 5 5 6 6 6 7 7 demo_initial eq_refl demo_polite demo_own
    settled_run (settled_nodes _ (or_intror eq_refl)) settled_sender (settled_nodes _ (or_introl eq_refl)) settled_receiver
    settled_router ltac:(apply (bool_decide_unpack _); vm_compute; exact I) ltac:(apply (bool_decide_unpack _); vm_compute; exact I)
    (demo_speaks "client2" "test" "test" "hello" (or_intror eq_refl) ltac:(apply (bool_decide_unpack _); vm_compute; exact I) (or_intror eq_refl))
    eq_refl ltac:(vm_compute; reflexivity)) as (y' & env' & nd' & s & E & _ & N & Pp & Pl & _ & (s' & K1 & K2)).
  exists y', env', nd', s. split_and!; [exact E|exact N|exact Pp|exact Pl|].
  exists s'. split; [exact K1|]. rewrite (K2 call_log logging_user_logs). by vm_compute.
Defined.
