(* ===== verification/RequestWitness.v ===== *)
(** * A request in a running system

    The two example clients once more: client2 asks on the topic client1 listens
    to, and the callback of client1 answers. *)

From stdpp Require Import relations.
From S2P Require Import Payload.
From S2P Require Import Prelude Keys CppString SafeQueue SubscriptionRegistry MessageHeader.
From S2P Require Import Stats ProtoWire Wire Worker WorkerPhases Uuid Discovery Broker BrokerFacts.
From S2P Require Import BrokerTheorems Witnesses Client ClientTheorems System SystemFacts SystemTheorems.
From S2P Require Import Schedule SystemDelivery SystemRequest SystemResubscribe SystemWitnesses.

#[local] Existing Instance trie_order.
#[local] Existing Instance turns_gen.

(** Both clients have been told to reset, have subscribed what they listen to, and are idle. *)
Definition ready_commands : list (command (G:=bool)) :=
  [CWorker "client1" 1 1; CUp "client1"; CBroker 1 1 1; CDown "client1"; CWorker "client1" 2 2;
   CUp "client1"; CUp "client1"; CBroker 2 2 2; CBroker 3 3 3;
   CProcess "client1"; CWorker "client1" 3 3; CUp "client1"; CBroker 4 4 4;
   CWorker "client2" 4 4; CUp "client2"; CBroker 5 5 5; CDown "client2"; CWorker "client2" 5 5;
   CUp "client2"; CBroker 6 6 6; CProcess "client2"].

Definition ready : system (G:=bool) (S:=QueueSocket) :=
  default demo_start (snd <$> exec_all (fun _ => silent) ready_commands demo_start).

Lemma ready_run : sys_run (fun _ => silent) (speaks (G:=bool) demo_id) demo_start [] ready.
Proof.
  assert (E : exists y, exec_all (fun _ => silent) ready_commands demo_start = Some ([], y)).
  { assert (Hes : match exec_all (fun _ => silent) ready_commands demo_start with Some ([], _) => true | _ => false end = true) by (by vm_compute).
    destruct (exec_all (fun _ => silent) ready_commands demo_start) as [[[|e es] y]|]; [|done..]. by exists y. }
  unfold ready. destruct E as [y E]. rewrite E.
  apply (exec_all_sound (fun _ => silent) (speaks (G:=bool) demo_id) ready_commands); [|exact E].
  unfold ready_commands. by repeat first [apply Forall_nil_2|apply Forall_cons_2; [first [intros ?; by apply silent_ok|intros ?; exact I]|]].
Qed.

Lemma ready_invariant : world_inv (sys_broker ready).
Proof.
  destruct (initial_ok demo_start "A" "B" "t" demo_initial eq_refl) as [Hy0 _]; [rewrite demo_id_eq; exact demo_polite|].
  rewrite demo_id_eq in Hy0.
  destruct (run_orderly demo_id "A" "B" "t" eq_refl ltac:(done) demo_own (fun _ => silent) demo_start [] ready ready_run Hy0) as [[Y1 _ _ _ _ _ _] _].
  exact Y1.
Qed.

Definition ready_node (id : string) : node (S:=QueueSocket) := default (demo_node id) (sys_nodes ready !! id).

Lemma ready_nodes id : id = "client1" \/ id = "client2" -> sys_nodes ready !! id = Some (ready_node id).
Proof.
  intros Hid. unfold ready_node. destruct (sys_nodes ready !! id) as [nd|] eqn:E; [done|exfalso].
  assert (K : bool_decide (is_Some (sys_nodes ready !! id)) = true) by (destruct Hid as [->| ->]; by vm_compute).
  apply bool_decide_eq_true in K as [nd K]. by rewrite E in K.
Qed.

(** ** The request *)

Definition answering : user_code :=
  mkUser (fun _ data s => ((client_replyToSender ("re: " +:+ data) s).1, Ok tt)) (fun _ _ _ _ _ => mret tt).

Definition users (id : string) : user_code := if decide (id = "client1") then answering else silent.

Definition ask_topic : string := "test" +:+ (generateUUID false).1.

Definition ask_time : Z := 10.

(** What is computed of an idle process. *)
Definition queue_profile (q : SafeQueue Envelope) : Z * bool * bool :=
  (zlen (m_queue q), m_stop q, bool_decide (0 < m_maxSize q)%Z).

Definition profile (nd : node (S:=QueueSocket)) : option (bool * bool * bool * bool * bool * string * list (Z * bool * bool)) :=
  c ← cs_object (nd_state nd); k ← m_pWorker c;
  Some (Worker.m_running k, m_isOnline k, bool_decide (ask_time - m_lastRxTime k <= SERVER_TIMEOUT)%Z, m_connected c,
    Client.m_running c, m_clientId c, queue_profile <$> [m_inbound c; m_controlQueue k; m_outboundQueue k]).

Lemma queue_takes q : queue_profile q = (0%Z, false, true) -> takes q.
Proof. unfold queue_profile. intros [= K1%zlen_zero K2 K3]. split_and!; [done|done|]. by apply bool_decide_eq_true in K3. Qed.

Definition idle (nd : node (S:=QueueSocket)) (id : string) : Prop :=
  profile nd = Some (true, true, true, true, true, id, [(0%Z, false, true); (0%Z, false, true); (0%Z, false, true)]) /\
  cs_published (nd_state nd) = true /\ (ask_time - nd_heartbeat nd <= HEARTBEAT_INTERVAL)%Z /\
  accepts_all (nd_socket nd) /\ zmq_open (nd_socket nd) = [] /\ zmq_current (nd_socket nd) = [] /\ zmq_pending (nd_socket nd) = [].

Lemma idle_calm nd id c :
  idle nd id -> cs_object (nd_state nd) = Some c ->
  exists k, calm accepts_all ask_time [] [] [] nd c k /\ cs_published (nd_state nd) = true /\
    m_connected c = true /\ m_clientId c = id /\ listening c /\ takes (m_controlQueue k) /\ takes (m_outboundQueue k).
Proof.
  intros (K & Kp & Kh & S1 & S2 & S3 & S4) Ec. unfold profile in K. rewrite Ec in K. cbn [mbind option_bind] in K.
  destruct (m_pWorker c) as [k|] eqn:Ek; [|done]. cbn [mbind option_bind fmap list_fmap] in K.
  injection K as K1 K2 K3 K4 K5 K6 Q1 Q2 Q3 Q4 Q5 Q6 Q7 Q8 Q9. apply bool_decide_eq_true in K3.
  assert (J1 : takes (m_inbound c)) by (apply queue_takes; unfold queue_profile; congruence).
  assert (J2 : takes (m_controlQueue k)) by (apply queue_takes; unfold queue_profile; congruence).
  assert (J3 : takes (m_outboundQueue k)) by (apply queue_takes; unfold queue_profile; congruence).
  exists k. split; [|split_and!; try done; by destruct J1 as (? & ? & ?); split].
  destruct J2 as [J2 _], J3 as [J3 _]. by split.
Qed.

Lemma ready_idle1 : idle (ready_node "client1") "client1".
Proof. by vm_compute. Qed.

Lemma ready_idle2 : idle (ready_node "client2") "client2".
Proof. by vm_compute. Qed.

Definition handlers_of (nd : node (S:=QueueSocket)) (t : string) : option (list CallbackEntry) :=
  c ← cs_object (nd_state nd); m_msgHandlers c !! t.

Lemma ready_requester :
  exists c k, requester accepts_all ask_time "client2" ask_topic (ready_node "client2") c k.
Proof.
  assert (Hh : handlers_of (ready_node "client2") ask_topic = None) by (by vm_compute).
  pose proof ready_idle2 as Hi. revert Hh Hi. generalize (ready_node "client2"), ask_topic. intros nd t Hh Hi.
  assert (exists c, cs_object (nd_state nd) = Some c) as [c Ec].
  { destruct Hi as [Hi _]. unfold profile in Hi. destruct (cs_object (nd_state nd)) as [c|]; [by exists c|done]. }
  unfold handlers_of in Hh. rewrite Ec in Hh. destruct (idle_calm nd "client2" c Hi Ec) as (k & K1 & K2 & K3 & K4 & K5 & K6 & K7).
  exists c, k. by split.
Qed.

Lemma ready_responder : exists c k, responder accepts_all ask_time "client1" "test" 1 (ready_node "client1") c k.
Proof.
  assert (Hh : handlers_of (ready_node "client1") "test" = Some [mkEntry 0 (UserFn 1)]) by (by vm_compute).
  pose proof ready_idle1 as Hi. revert Hh Hi. generalize (ready_node "client1"). intros nd Hh Hi.
  assert (exists c, cs_object (nd_state nd) = Some c) as [c Ec].
  { destruct Hi as [Hi _]. unfold profile in Hi. destruct (cs_object (nd_state nd)) as [c|]; [by exists c|done]. }
  unfold handlers_of in Hh. rewrite Ec in Hh. destruct (idle_calm nd "client1" c Hi Ec) as (k & K1 & K2 & K3 & K4 & K5 & K6 & K7).
  exists c, k. split; try done. by exists 0%Z.
Qed.

Lemma ready_broker : ready_to_serve ask_time accepts_all accepts_all demo_id "client2" "client1" "test" (sys_broker ready).
Proof.
  split.
  - split; [exact ready_invariant|by split; vm_compute|apply zlen_zero; by vm_compute|by vm_compute..].
  - by vm_compute.
  - apply (bool_decide_unpack _). by vm_compute.
  - left. apply (bool_decide_unpack _). by vm_compute.
  - apply (bool_decide_unpack _). by vm_compute.
  - apply (bool_decide_unpack _). by vm_compute.
  - apply (bool_decide_unpack _). by vm_compute.
Qed.

(** Headers of the exchange survive the wire. *)
Lemma ask_speaks id key t r data :
  header_encodable IsStructurallyValidUTF8 (set_reply_topic r (set_topic t (set_sender_id id (set_handler_key key header_new)))) ->
  (forall g : bool, header_encodable IsStructurallyValidUTF8 (set_origin_broker_id demo_id (set_message_uuid (generateUUID g).1
    (set_reply_topic r (set_topic t (set_sender_id id (set_handler_key key header_new))))))) ->
  speaks (G:=bool) demo_id id (mkEnvelope _ (set_reply_topic r (set_topic t (set_sender_id id (set_handler_key key header_new)))) data).
Proof. intros He1 He2. split; [split; [cbn [Wire.header]; auto 10 with wisp|exact He1]|done|done|exact He2]. Qed.

Lemma plain_speaks id key t data :
  header_encodable IsStructurallyValidUTF8 (set_topic t (set_sender_id id (set_handler_key key header_new))) ->
  (forall g : bool, header_encodable IsStructurallyValidUTF8 (set_origin_broker_id demo_id (set_message_uuid (generateUUID g).1
    (set_topic t (set_sender_id id (set_handler_key key header_new)))))) ->
  speaks (G:=bool) demo_id id (mkEnvelope _ (set_topic t (set_sender_id id (set_handler_key key header_new))) data).
Proof. intros He1 He2. split; [split; [cbn [Wire.header]; auto 10 with wisp|exact He1]|done|done|exact He2]. Qed.

Lemma ask_control key : key = Keys.SUBSCRIBE \/ key = Keys.UNSUBSCRIBE -> speaks (G:=bool) demo_id "client2" (control "client2" key ask_topic).
Proof. intros [->| ->]; (apply plain_speaks; [encodable|intros []; encodable]). Qed.

Lemma ask_request c : m_clientId c = "client2" -> speaks (G:=bool) demo_id "client2" (request_envelope "test" ask_topic "ping" c).
Proof. intros E. unfold request_envelope. rewrite E. apply ask_speaks; [encodable|intros []; encodable]. Qed.

Lemma ask_reply data : speaks (G:=bool) demo_id "client1" (reply_envelope "client1" ask_topic data).
Proof. apply plain_speaks; [encodable|intros []; encodable]. Qed.

Lemma request_answered_witness :
  exists es y' nd', exec_all users (exchange (fun _ => ask_time) "client2" "client1" "test" "ping" 0 false) ready = Some (es, y') /\
    sys_nodes y' !! "client2" = Some nd' /\ (sendRequest_end ask_topic 0 (nd_state nd')).2 = Some "re: ping".
Proof.
  destruct ready_requester as (c1 & k1 & Hrq). destruct ready_responder as (c2 & k2 & Hrp).
  destruct (request_answered accepts_all accepts_all_accepting accepts_all_deliver ask_time accepts_all (fun _ => true) open_routing
    accepts_all_deliver accepts_all accepts_all_accepting users demo_id (fun _ => ask_time) ltac:(intros i; by split)
    "client2" "client1" "test" "ping" (fun data => "re: " +:+ data) 0 1 false ready (ready_node "client2") c1 k1 (ready_node "client1") c2 k2
    (ready_nodes _ (or_intror eq_refl)) Hrq (ready_nodes _ (or_introl eq_refl)) Hrp (fun _ _ => eq_refl) ready_broker ltac:(discriminate)
    eq_refl eq_refl ltac:(apply (bool_decide_unpack _); vm_compute; exact I) ltac:(apply (bool_decide_unpack _); vm_compute; exact I)
    ltac:(apply (bool_decide_unpack _); vm_compute; exact I) ltac:(apply (bool_decide_unpack _); vm_compute; exact I) eq_refl
    (ask_control _ (or_introl eq_refl)) (ask_control _ (or_intror eq_refl)) (ask_request c1 (rq_id _ _ _ _ _ _ _ Hrq)) (ask_reply _))
    as (y' & nd' & h1 & h2 & E & _ & Hn & Hr).
  eexists _, y', nd'. split; [exact E|]. split; [exact Hn|exact Hr].
Defined.

(** ** A restarted broker *)

(** The broker has just started and knows nobody; client1's heartbeat is on its way. *)
Definition restarted : system (G:=bool) (S:=QueueSocket) :=
  mkSystem (sys_broker demo_start) (sys_nodes ready) [("client1", wire_frames (control "client1" Keys.HEARTBEAT ""))] [].

Lemma restarted_broker : calm_broker ask_time accepts_all accepts_all [] (sys_broker restarted).
Proof.
  destruct (initial_ok demo_start "A" "B" "t" demo_initial eq_refl) as [[Y1 _ _ _ _ _ _] _]; [rewrite demo_id_eq; exact demo_polite|].
  split; [exact Y1|by split; vm_compute|apply zlen_zero; by vm_compute|by vm_compute..].
Qed.

Lemma ready_resubscriber :
  exists c k, resubscriber accepts_all ask_time "client1" (ready_node "client1") c k /\ topics c = ["test"].
Proof.
  assert (Ht : (topics <$> cs_object (nd_state (ready_node "client1"))) = Some ["test"]) by (by vm_compute).
  assert (Hm : (fun c => (fun k => bool_decide (1 <= m_maxSize (m_controlQueue k))%Z) <$> m_pWorker c) <$>
    cs_object (nd_state (ready_node "client1")) = Some (Some true)) by (by vm_compute).
  pose proof ready_idle1 as Hi. revert Ht Hm Hi. generalize (ready_node "client1"). intros nd Ht Hm Hi.
  destruct (cs_object (nd_state nd)) as [c|] eqn:Ec; [|done]. injection Ht as Ht.
  destruct (idle_calm nd "client1" c Hi Ec) as (k & K1 & K2 & K3 & K4 & K5 & K6 & K7).
  exists c, k. split; [|exact Ht]. destruct K6 as (Q1 & Q2 & Q3).
  split; [exact K1|exact K4|exact K5|exact Q2|]. rewrite Ht. unfold zlen. cbn [length].
  cbn in Hm. rewrite (cm_worker _ _ _ _ _ _ _ _ K1) in Hm. cbn in Hm. injection Hm as Hm.
  by apply bool_decide_eq_true in Hm.
Qed.

Lemma subscriptions_recovered_witness :
  "client1" ∉ subs_of (m_subscriptions (bw_broker (sys_broker restarted))) "test" /\
  exists y', exec_all (fun _ => silent) (recovery (fun _ => ask_time) "client1" 1) restarted = Some ([], y') /\
    "client1" ∈ subs_of (m_subscriptions (bw_broker (sys_broker y'))) "test".
Proof.
  split; [apply (bool_decide_unpack _); by vm_compute|].
  destruct ready_resubscriber as (c & k & Hrs & Ht).
  assert (Hh : forall t, is_Some (m_msgHandlers c !! t) <-> t = "test").
  { intros t. rewrite <- elem_of_topics, Ht. apply list_elem_of_singleton. }
  destruct (subscriptions_recovered accepts_all accepts_all_accepting accepts_all_deliver ask_time accepts_all (fun _ => true)
    open_routing accepts_all_deliver accepts_all accepts_all_accepting (fun _ => silent) demo_id (fun _ => ask_time)
    ltac:(intros i; by split) "client1" (control "client1" Keys.HEARTBEAT "") restarted (ready_node "client1") c k [] [])
    as (y' & E & _ & _ & Hs & _).
  - apply ready_nodes. by left.
  - exact Hrs.
  - reflexivity.
  - reflexivity.
  - apply not_elem_of_nil.
  - apply not_elem_of_nil.
  - exact restarted_broker.
  - by vm_compute.
  - apply (demo_speaks "client1" Keys.HEARTBEAT "" ""); [by left|demo_key|by left].
  - reflexivity.
  - discriminate.
  - split; [cbn [Wire.header]; unfold reset_header; auto 10 with wisp|exact (Forall_inv demo_own)].
  - intros t ->%Hh. apply (demo_speaks "client1" Keys.SUBSCRIBE "test" ""); [by left|demo_key|by right].
  - rewrite Ht in E. exists y'. split; [exact E|]. apply Hs, Hh. reflexivity.
Defined.
