(* ===== verification/LibraryWitnesses.v ===== *)
(** * Witnesses for the library files

    The theorems on [zmq.hpp] and [zmq_addon.hpp] applied to in-memory sockets
    and to concrete messages. *)

From stdpp Require Import relations.
From S2P Require Import Prelude Keys CppString SafeQueue MessageHeader Stats Payload ProtoWire Wire Worker.
From S2P Require Import Uuid Multipart MultipartClass Message Handles SocketBase Client QtAdapter Witnesses.
From S2P Require Import Poller Monitor Setup.

(** ** Multipart messages *)

Definition sample_parts : list (list ascii) :=
  [String.list_ascii_of_string "ab"; []; replicate 300 "x"%char].

Lemma multipart_roundtrip_witness :
  exists b, encode true sample_parts = Ok b /\ decode false b = (sample_parts, None).
Proof.
  destruct (multipart_roundtrip true false sample_parts) as [(_ & b & E & _ & D)|(K & _)].
  - vm_compute. done.
  - by exists b.
  - exfalso. apply K. repeat constructor; vm_compute; discriminate.
Defined.

Definition sample_multipart : multipart_t := addstr "second" (pushstr "first" multipart_new).

Lemma multipart_transfer_witness :
  exists s', msend (sample_multipart, idle_socket []) = ((multipart_new, s'), Ok true) /\
    zmq_sent s' = [["first"; "second"]] /\
    exists m' r', mrecv true (multipart_new, idle_socket [("first", ["second"]); ("next", [])]) =
        ((m', r'), Ok true) /\
      multipart_eq m' sample_multipart = true /\ zmq_pending r' = [["next"]].
Proof.
  destruct (multipart_transfer (R := QueueSocket) sample_multipart (idle_socket []))
    as [(s' & E & _ & frames & F & K)|(s' & r & E & Hr & _)]; [reflexivity|discriminate| |].
  - exists s'. split; [exact E|]. vm_compute in E. injection E as <-. split; [reflexivity|].
    vm_compute in F. injection F as <-.
    destruct (K (idle_socket [("first", ["second"]); ("next", [])]) [["next"]] multipart_new true)
      as (m' & r' & E & K1 & _ & K2); [reflexivity|reflexivity|]. by exists m', r'.
  - exfalso. vm_compute in E. injection E as _ <-. by apply Hr.
Defined.

Lemma recv_multipart_n_limit_witness :
  exists m' s', recv_multipart_n (Some 2%Z) true (multipart_new, idle_socket [("a", ["b"; "c"])]) =
      ((m', s'), Throw RUNTIME_ERROR) /\ msg_data <$> m_parts m' = ["a"; "b"].
Proof.
  destruct (recv_multipart_n_limit (idle_socket [("a", ["b"; "c"])]) ["a"; "b"; "c"] [] 2 true)
    as (m' & s' & E & K & _); [reflexivity|reflexivity|].
  exists m', s'. split; [|exact K]. rewrite decide_False in E; [exact E|simpl; lia].
Defined.

(** ** Messages *)

(** Up to four bytes are kept in the message, up to a hundred in a block of a
    heap that holds the bytes and the count of each block. *)
Inductive sample_msg :=
  | Closed
  | Inline (bytes : string)
  | Shared (c : nat).

Notation sample_heap := (gmap nat (string * nat)).

Definition ENOMEM : Z := 12.
Definition EFAULT : Z := 14.

Definition sm_block (t : sample_msg) : option nat := match t with Shared c => Some c | _ => None end.
Definition sm_refs (l : sample_heap) (c : nat) : nat := from_option snd 0 (l !! c).

Definition sm_bytes (l : sample_heap) (t : sample_msg) : string :=
  match t with Closed => "" | Inline b => b | Shared c => from_option fst "" (l !! c) end.

Definition sm_alloc (l : sample_heap) (t : sample_msg) (b : string) : sample_heap * sample_msg * option Z :=
  if decide (slen b <= 4)%Z then (l, Inline b, None)
  else if decide (slen b <= 100)%Z then
    let c := fresh (dom l) in (<[c := (b, 1)]> l, Shared c, None)
  else (l, t, Some ENOMEM).

Definition sm_init_size (l : sample_heap) (t : sample_msg) (n : Z) : sample_heap * sample_msg * option Z :=
  if decide (0 <= n <= 100)%Z
  then sm_alloc l t (String.string_of_list_ascii (replicate (Z.to_nat n) "x"%char))
  else (l, t, Some ENOMEM).

Definition sm_release (l : sample_heap) (t : sample_msg) : sample_heap :=
  match t with
  | Shared c =>
      match l !! c with
      | Some (b, S (S n)) => <[c := (b, S n)]> l
      | Some _ => delete c l
      | None => l
      end
  | _ => l
  end.

Definition sm_retain (l : sample_heap) (t : sample_msg) : sample_heap :=
  match t with
  | Shared c => match l !! c with Some (b, n) => <[c := (b, S n)]> l | None => l end
  | _ => l
  end.

Definition sm_close (l : sample_heap) (t : sample_msg) : sample_heap * sample_msg * option Z :=
  match t with Closed => (l, Closed, Some EFAULT) | _ => (sm_release l t, Closed, None) end.

Definition sm_move (l : sample_heap) (d s : sample_msg) : sample_heap * sample_msg * sample_msg * option Z :=
  match d, s with
  | Closed, _ | _, Closed => (l, d, s, Some EFAULT)
  | _, _ => (sm_release l d, s, Inline "", None)
  end.

Definition sm_copy (l : sample_heap) (d s : sample_msg) : sample_heap * sample_msg * sample_msg * option Z :=
  match d, s with
  | Closed, _ | _, Closed => (l, d, s, Some EFAULT)
  | _, _ => (sm_retain (sm_release l d) s, s, s, None)
  end.

Definition sm_store (l : sample_heap) (t : sample_msg) (b : string) : sample_heap * sample_msg :=
  match t with
  | Closed => (l, t)
  | Inline _ => (l, Inline b)
  | Shared c => (<[c := (b, sm_refs l c)]> l, t)
  end.

Lemma sm_counted l c : (forall c', refers (Some c) c' <= sm_refs l c') -> exists b n, l !! c = Some (b, S n).
Proof.
  intros Hc. specialize (Hc c). unfold refers, sm_refs in Hc. rewrite decide_True in Hc by done.
  destruct (l !! c) as [[b [|n]]|]; simpl in Hc; [lia|eauto|lia].
Qed.

Lemma sm_refers_ne c c' : c <> c' -> refers (Some c) c' = 0.
Proof. intros Hn. unfold refers. by rewrite decide_False by congruence. Qed.

Lemma sm_refers_eq c : refers (Some c) c = 1.
Proof. unfold refers. by rewrite decide_True. Qed.

Lemma sm_alloc_law l t b l' t' rc :
  sm_alloc l t b = (l', t', rc) ->
  (forall u, u <> Closed -> (forall c, refers (sm_block u) c <= sm_refs l c) -> sm_bytes l' u = sm_bytes l u) /\
  match rc with
  | None => t' <> Closed /\ sm_bytes l' t' = b /\ (forall c, sm_block t' = Some c -> sm_refs l c = 0) /\
      (forall c, sm_refs l' c = sm_refs l c + refers (sm_block t') c)
  | Some _ => forall c, sm_refs l' c = sm_refs l c
  end.
Proof.
  unfold sm_alloc. case_decide; [|case_decide].
  - intros [= <- <- <-]. split; [done|]. split_and!; [done|done|done|]. intros c. symmetry. apply Nat.add_0_r.
  - pose proof (is_fresh (dom l)) as Hf. intros [= <- <- <-]. set (c0 := fresh (dom l)) in *.
    apply not_elem_of_dom in Hf. split_and!; try done; simpl.
    + intros [|b'|c] _ Hu; [done|done|]. simpl in *. destruct (sm_counted l c Hu) as (b' & n & E).
      rewrite lookup_insert_ne by congruence. done.
    + by rewrite lookup_insert_eq.
    + intros c [= <-]. unfold sm_refs. by rewrite Hf.
    + intros c. unfold sm_refs. destruct (decide (c0 = c)) as [<-|Hn].
      * by rewrite lookup_insert_eq, Hf, sm_refers_eq.
      * rewrite lookup_insert_ne, sm_refers_ne by done. lia.
  - intros [= <- <- <-]. by split.
Qed.

Lemma sm_release_law l t :
  (forall c, refers (sm_block t) c <= sm_refs l c) ->
  (forall c, sm_refs (sm_release l t) c + refers (sm_block t) c = sm_refs l c) /\
  (forall u, (forall c, refers (sm_block u) c <= sm_refs (sm_release l t) c) ->
     sm_bytes (sm_release l t) u = sm_bytes l u).
Proof.
  intros Ht. destruct t as [|b|c0]; simpl in *; [by split; [intros; apply Nat.add_0_r|]|by split; [intros; apply Nat.add_0_r|]|].
  destruct (sm_counted l c0 Ht) as (b & n & E). rewrite E. split.
  - intros c. unfold sm_refs. destruct (decide (c0 = c)) as [<-|Hn].
    + rewrite E, sm_refers_eq. destruct n as [|n]; simplify_map_eq; simpl; lia.
    + rewrite sm_refers_ne by done. destruct n as [|n]; simplify_map_eq; lia.
  - intros [|b'|c] Hu; [done|done|]. simpl in *. destruct (sm_counted _ c Hu) as (b' & m & E').
    rewrite E'. destruct (decide (c0 = c)) as [<-|Hn]; destruct n as [|n]; simplify_map_eq; done.
Qed.

Lemma sm_retain_law l t :
  (forall c, refers (sm_block t) c <= sm_refs l c) ->
  (forall c, sm_refs (sm_retain l t) c = sm_refs l c + refers (sm_block t) c) /\
  (forall u, sm_bytes (sm_retain l t) u = sm_bytes l u).
Proof.
  intros Ht. destruct t as [|b|c0]; simpl in *; [by split; [intros; symmetry; apply Nat.add_0_r|]|by split; [intros; symmetry; apply Nat.add_0_r|]|].
  destruct (sm_counted l c0 Ht) as (b & n & E). rewrite E. split.
  - intros c. unfold sm_refs. destruct (decide (c0 = c)) as [<-|Hn].
    + rewrite E, sm_refers_eq, lookup_insert_eq. simpl. lia.
    + rewrite sm_refers_ne, lookup_insert_ne by done. lia.
  - intros [|b'|c]; [done|done|]. simpl.
    destruct (decide (c0 = c)) as [<-|Hn]; [by rewrite lookup_insert_eq, E|by rewrite lookup_insert_ne].
Qed.

#[export] Program Instance sample_zmq_msg : ZmqMsg sample_heap sample_msg := {|
  zmq_msg_init := fun _ => Inline "";
  zmq_msg_init_size := sm_init_size;
  zmq_msg_init_data := sm_alloc;
  zmq_msg_close := sm_close;
  zmq_msg_move := sm_move;
  zmq_msg_copy := sm_copy;
  zmq_msg_more := fun _ => false;
  zmq_msg_bytes := sm_bytes;
  zmq_msg_store := sm_store;
  zmq_msg_get := fun _ _ => inl 0%Z;
  zmq_msg_gets := fun _ _ => inr E_INVAL;
  msg_valid := fun t => t <> Closed;
  block := sm_block;
  refs := sm_refs
|}.
Next Obligation. done. Qed.
Next Obligation.
  intros l t n l' t' rc. unfold sm_init_size. case_decide as Hn; [|by intros [= <- <- <-]].
  intros E. destruct (sm_alloc_law _ _ _ _ _ _ E) as [Hk Hr]. split; [done|].
  destruct rc as [e|]; [done|]. destruct Hr as (? & -> & ? & ?). split_and!; try done.
  rewrite slen_replicate. lia.
Qed.
Next Obligation. intros l t d l' t' rc E. by destruct (sm_alloc_law _ _ _ _ _ _ E). Qed.
Next Obligation.
  intros l t Hv Hc. destruct (sm_release_law l t Hc) as [Hr Hk].
  exists (sm_release l t), Closed. split_and!; [by destruct t|done|]. intros u _. apply Hk.
Qed.
Next Obligation.
  intros l d s Hd Hs Hc. destruct (sm_release_law l d) as [Hr Hk]; [intros c; pose proof (Hc c); lia|].
  exists (sm_release l d), s, (Inline ""). split_and!; try done.
  - by destruct d, s.
  - apply Hk. intros c. pose proof (Hc c). pose proof (Hr c). lia.
  - intros c. pose proof (Hr c). change (refers (sm_block (Inline "")) c) with 0. lia.
  - intros u _ _. apply Hk.
Qed.
Next Obligation.
  intros l d s Hd Hs Hc. destruct (sm_release_law l d) as [Hr Hk]; [intros c; pose proof (Hc c); lia|].
  assert (Hsc : forall c, refers (sm_block s) c <= sm_refs (sm_release l d) c)
    by (intros c; pose proof (Hc c); pose proof (Hr c); lia).
  destruct (sm_retain_law (sm_release l d) s Hsc) as [Hr2 Hk2].
  exists (sm_retain (sm_release l d) s), s, s. split_and!; try done.
  - by destruct d, s.
  - rewrite Hk2. by apply Hk.
  - rewrite Hk2. by apply Hk.
  - intros c. pose proof (Hr c). pose proof (Hr2 c). lia.
  - intros u Hu Hl Hl'. rewrite Hk2. destruct u as [|b|c0]; [done|done|]. apply Hk. intros c.
    pose proof (Hl' c) as K. rewrite Hr2 in K. destruct s as [|b|c1]; simpl in *;
      [done|change (refers None c) with 0 in K; lia|].
    destruct (decide (c1 = c)) as [<-|Hn]; [|rewrite (sm_refers_ne c1 c Hn) in K; lia].
    specialize (Hsc c1). rewrite sm_refers_eq in Hsc. unfold refers at 1. case_decide; lia.
Qed.
Next Obligation.
  intros l t b Hv Hb Hone. destruct t as [|b0|c0]; simpl in *; [done|by split_and!|].
  split_and!; try done.
  - by rewrite lookup_insert_eq.
  - intros c. unfold sm_refs. destruct (decide (c0 = c)) as [<-|Hn].
    + by rewrite lookup_insert_eq.
    + by rewrite lookup_insert_ne.
  - intros [|b'|c] _ _ Hd; [done|done|]. simpl. rewrite lookup_insert_ne; [done|]. intros <-. by apply (Hd c0).
Qed.






(** ** Handles *)

(** Handles are numbered; [sl_signals] more terminations are interrupted. *)
Record sample_lib := mkLib {
  sl_next : nat;
  sl_ctx : gset nat;
  sl_sock : gset nat;
  sl_signals : nat
}.

Definition sl_fresh (l : sample_lib) : nat := fresh (sl_ctx l ∪ sl_sock l).

Lemma sl_fresh_ok l : sl_fresh l ∉ sl_ctx l /\ sl_fresh l ∉ sl_sock l.
Proof. pose proof (is_fresh (sl_ctx l ∪ sl_sock l)) as K. unfold sl_fresh. set_solver. Qed.

Definition sl_term (l : sample_lib) (h : nat) : sample_lib * option Z :=
  match sl_signals l with
  | O => (mkLib (sl_next l) (sl_ctx l ∖ {[h]}) (sl_sock l) 0, None)
  | S n => (mkLib (sl_next l) (sl_ctx l) (sl_sock l) n, Some EINTR)
  end.

Definition sl_socket (l : sample_lib) (c : option nat) : sample_lib * (nat + Z) :=
  match c with
  | Some _ => (mkLib (sl_next l) (sl_ctx l) ({[sl_fresh l]} ∪ sl_sock l) (sl_signals l), inl (sl_fresh l))
  | None => (l, inr EFAULT)
  end.

#[export] Program Instance sample_lib_zmq : LibZmq sample_lib := {|
  zmq_ctx_new := fun l =>
    (mkLib (sl_next l) ({[sl_fresh l]} ∪ sl_ctx l) (sl_sock l) (sl_signals l), inl (sl_fresh l));
  zmq_ctx_set := fun l _ _ _ => (l, None);
  zmq_ctx_get := fun _ _ _ => inl 1%Z;
  zmq_ctx_term := sl_term;
  zmq_ctx_shutdown := fun l _ => (l, None);
  zmq_socket := fun l c _ => sl_socket l c;
  zmq_close := fun l h => (mkLib (sl_next l) (sl_ctx l) (sl_sock l ∖ {[h]}) (sl_signals l), None);
  ctx_open := sl_ctx;
  sock_open := sl_sock;
  signals := sl_signals
|}.
Next Obligation. intros l l' r [= <- <-]. pose proof (sl_fresh_ok l). simpl. tauto. Qed.
Next Obligation. done. Qed.
Next Obligation. intros l h Hh. simpl. unfold sl_term. destruct (sl_signals l); by eexists _, _. Qed.
Next Obligation. done. Qed.
Next Obligation.
  intros l c ty l' r. pose proof (sl_fresh_ok l). simpl. unfold sl_socket. destruct c; intros [= <- <-]; simpl; tauto.
Qed.
Next Obligation. intros l h Hh. simpl. by eexists. Qed.

Definition empty_lib : sample_lib := mkLib 0 ∅ ∅ 2.

Lemma handles_one_owner_witness :
  exists s, rtc lib_step (mkObjects empty_lib ∅ ∅) s /\
    owned (ctxs s) (ctx_open (lib s)) /\ ctxs s !! 0 = Some (Some (sl_fresh empty_lib)).
Proof.
  eexists. assert (K : rtc lib_step (mkObjects empty_lib ∅ ∅) (mkObjects (context_new empty_lib).1
    {[0 := Some (sl_fresh empty_lib)]} ∅)).
  { apply rtc_once. left. apply (ctx_create (mkObjects empty_lib ∅ ∅) 0); [reflexivity|]. left. reflexivity. }
  split; [exact K|]. split; [|reflexivity].
  refine (proj1 (handles_one_owner empty_lib _ _ _ K)); reflexivity.
Defined.

(** ** Buffers and options *)

Definition sample_memory (a : Z) : ascii := ascii_of_N (Z.to_N a).

Lemma buffer_window_witness :
  buf_view sample_memory (buffer_advance (mkBuffer 100 5) 2) = drop 2 (buf_view sample_memory (mkBuffer 100 5)).
Proof. apply (buffer_window sample_memory (mkBuffer 100 5) 2 0); simpl; lia. Defined.

(** Options in a map; even ones are strings. *)
Record sample_socket := mkSampleSocket {
  ss_options : gmap Z string;
  ss_incoming : list string
}.

Definition option_value (s : sample_socket) (o max : Z) : string + Z :=
  match ss_options s !! o with
  | None => inr E_INVAL
  | Some v =>
      if Z.even o then (if decide (slen v + 1 <= max)%Z then inl (v +:+ String "000"%char "") else inr E_INVAL)
      else (if decide (slen v <= max)%Z then inl v else inr E_INVAL)
  end.

Definition ss_recv (s : sample_socket) : sample_socket * (string + Z) :=
  match ss_incoming s with
  | [] => (s, inr EAGAIN)
  | m :: ms => (mkSampleSocket (ss_options s) ms, inl m)
  end.

#[export] Program Instance sample_socket_api : SocketApi sample_socket := {|
  zmq_setsockopt := fun s o v => (mkSampleSocket (<[o := v]> (ss_options s)) (ss_incoming s), None);
  zmq_getsockopt := option_value;
  zmq_bind := fun s _ => (s, None);
  zmq_unbind := fun s _ => (s, None);
  zmq_connect := fun s _ => (s, None);
  zmq_disconnect := fun s _ => (s, None);
  zmq_send := fun s b _ => (s, inl (slen b));
  zmq_recv := fun s _ => ss_recv s;
  string_option := fun o => Z.even o = true;
  binary_option := fun o => Z.even o = false
|}.
Next Obligation.
  intros s o v s' Ho [= <-] max. unfold option_value. simpl. by rewrite lookup_insert_eq, Ho.
Qed.
Next Obligation.
  intros s o v s' Ho [= <-] max. unfold option_value. simpl. by rewrite lookup_insert_eq, Ho.
Qed.

Definition fresh_socket : sample_socket := mkSampleSocket ∅ ["hello"].

Lemma option_roundtrip_witness :
  get_string 2 1 1024 (set_string 2 "id" fresh_socket).1 = Ok "id".
Proof.
  destruct (option_roundtrip fresh_socket (set_string 2 "id" fresh_socket).1 2 "id" 1024) as (K & _);
    [reflexivity|lia|]. rewrite K by reflexivity. rewrite decide_True by (by vm_compute). reflexivity.
Defined.

Lemma recv_buffer_bounds_witness :
  exists r, recv_buffer "abc" 0 fresh_socket = (mkSampleSocket ∅ [], Ok ("hel", Some r)) /\ truncated r = true.
Proof.
  destruct (recv_buffer_bounds fresh_socket (mkSampleSocket ∅ []) "abc" 0 "hello") as (r & E & _ & _ & _ & _ & K);
    [reflexivity|]. exists r. split; [exact E|]. destruct (truncated r); [done|].
  exfalso. assert (E2 : false = false) by done. apply K in E2. by vm_compute in E2.
Defined.

(** ** The Qt binding *)

#[export] Program Instance sample_qt : QtTypes string string := {|
  toStdString := fun s => s;
  fromStdString := fun s => s;
  toJson := fun s => s;
  fromJson := fun s => s
|}.
Next Obligation. done. Qed.
Next Obligation. done. Qed.

Definition qt_handlers (f : Z) : qt_handler (V := string) :=
  if decide (f = 1)%Z then QtTyped (fun raw => Some raw) else QtVoid.

Definition qt_client : client_state :=
  qt_registerCallback (QJsonObject := string) "lights" 7 1
    (qt_new (mkConfig "tcp://b" "gui" ZMQ 10000 5000 2) (mkState None false [] "" ∅)).

Definition qt_manager : ConnectionManager :=
  performRegistration "lights" (UserFn 1) 7 (manager_new (mkConfig "tcp://b" "gui" ZMQ 10000 5000 2)).

Definition qt_request : Envelope :=
  mkEnvelope _ (set_reply_topic "r" (set_topic "lights" (set_handler_key "lights" header_new))) "on".

(** The handler answers what it is given, if it can. *)
Definition qt_replies (f : Z) (arg : option string) : list string := option_list arg.

Definition qt_start : qt_world (V := string) := mkWorld qt_client ∅ [] [].

(** The request is posted to the context. *)
Lemma qt_callbacks_marshalled_witness :
  qt_handleMessage qt_handlers CodecString qt_replies qt_request qt_start =
  mkWorld (set_replyTopic "" qt_client) ∅ [mkEvent 7 1 (Some "on")] [].
Proof.
  refine (proj1 (qt_callbacks_marshalled (QJsonObject := string) qt_handlers CodecString qt_replies qt_client qt_manager "lights" 8 2
    qt_request ∅ [] [] _ _ _)).
  - reflexivity.
  - reflexivity.
  - change (default [] _) with [mkEntry 7 (UserFn 1)]. constructor; [by exists 1%Z|constructor].
Defined.

(** After it ran on the thread of its context. *)
Definition qt_answered : qt_world (V := string) :=
  event_loop_step CodecString qt_replies (fun _ => 3%Z) 3 (qt_handleMessage qt_handlers CodecString qt_replies qt_request qt_start).

(** The handler tried and failed; run directly, while the processing thread handles the
    request, it would have replied. *)
Lemma qt_handler_cannot_reply_witness :
  qw_replies qt_answered = [(QtThread 3, false)] /\
  Forall (fun r => r.2 = false /\ r.1 <> ProcessingThread) (qw_replies qt_answered) /\
  qw_replies (invokeMethod CodecString qt_replies DirectConnection ProcessingThread 7 1 (Some "on")
    (with_client (set_replyTopic "r") qt_start)) = [(ProcessingThread, true)].
Proof.
  split; [by vm_compute|]. split; [|by vm_compute].
  refine (proj1 (qt_handler_cannot_reply (QJsonObject := string) qt_handlers CodecString qt_replies (fun _ => 3%Z) qt_start qt_answered
    eq_refl eq_refl _)).
  eapply rtc_l; [apply (qt_message _ _ _ _ qt_request)|]. apply rtc_once. apply qt_loop.
Defined.

(** ** A poller where everything is always ready *)

Definition ready_items : Type := gmap poller_ref_t (option nat * Z).

Definition ready_add (p : ready_items) (r : poller_ref_t) (u : option nat) (e : Z) : ready_items * option Z :=
  if decide (is_Some (p !! r)) then (p, Some Poller.EINVAL) else (<[r := (u, e)]> p, None).
Definition ready_remove (p : ready_items) (r : poller_ref_t) : ready_items * option Z :=
  if decide (is_Some (p !! r)) then (delete r p, None) else (p, Some Poller.EINVAL).
Definition ready_modify (p : ready_items) (r : poller_ref_t) (e : Z) : ready_items * option Z :=
  match (p !! r : option (option nat * Z)) with
  | Some (u, _) => (<[r := (u, e)]> p, None)
  | None => (p, Some Poller.EINVAL)
  end.
Definition ready_wait (p : ready_items) (n : nat) (_ : Z) : ready_items * (list (poller_ref_t * option nat * Z) + Z) :=
  let evs := take n ((fun x : poller_ref_t * (option nat * Z) => (x.1, x.2.1, x.2.2)) <$> map_to_list p) in
  (p, if decide (evs = []) then inr Poller.EAGAIN else inl evs).

#[export] Program Instance ready_poller : ZmqPoller ready_items := {|
  zmq_poller_add := ready_add;
  zmq_poller_remove := ready_remove;
  zmq_poller_modify := ready_modify;
  zmq_poller_wait_all := ready_wait;
  zmq_poller_new := ∅;
  poller_items := fun p => p
|}.
Next Obligation. done. Qed.
Next Obligation.
  intros p r u e p' E. unfold ready_add in E. case_decide as K; [done|]. injection E as <-.
  split; [by apply eq_None_not_Some|done].
Qed.
Next Obligation. intros p r u e p' n E. unfold ready_add in E. case_decide; [|done]. by injection E as <-. Qed.
Next Obligation. intros p r p' E. unfold ready_remove in E. case_decide; [|done]. by injection E as <-. Qed.
Next Obligation. intros p r p' n E. unfold ready_remove in E. case_decide; [done|]. by injection E as <-. Qed.
Next Obligation.
  intros p r e p' E. unfold ready_modify in E. destruct (p !! r) as [[u e0]|] eqn:K; [|done].
  injection E as <-. by exists u, e0.
Qed.
Next Obligation.
  intros p r e p' n E. unfold ready_modify in E. destruct (p !! r) as [[u e0]|] eqn:K; [done|]. by injection E as <-.
Qed.
Next Obligation.
  intros p n t p' evs E. unfold ready_wait in E. case_decide as Hn; [done|]. injection E as <- <-.
  split_and!; [done| |rewrite length_take; lia| |].
  { by destruct (take n _); [|cbn; lia]. }
  - rewrite !fmap_take. apply (sublist_NoDup _ (map_to_list p).*1); [apply NoDup_fst_map_to_list|].
    rewrite <-!list_fmap_compose. apply sublist_take.
  - intros r u e He%subseteq_take%list_elem_of_fmap. destruct He as [[r' [u' e']] [[= -> -> ->] Hm%elem_of_map_to_list]].
    by exists e'.
Qed.
Next Obligation. intros p n t p' e E. unfold ready_wait in E. case_decide; [|done]. by injection E as <-. Qed.

(** The handler [1] removes the other descriptor. *)
Definition removing (h : nat) (e : Z) : M (active_poller_t (Fn:=nat)) unit :=
  if decide (h = 1) then try_ignore (active_remove (RT_FD 8)) else mret tt.

Lemma removing_calls : handlers_call removing.
Proof.
  intros h e s. unfold removing. case_decide; [|apply rtc_refl].
  apply rtc_once. unfold try_ignore. pose proof (call_remove (RT_FD 8) s) as K.
  destruct (active_remove (RT_FD 8) s) as [s' r]. exact K.
Qed.

Definition watching : active_poller_t :=
  (active_add (RT_FD 8) 1 (Some 2) (active_add (RT_FD 7) 1 (Some 1) active_new).1).1.

Lemma watching_reachable : rtc (active_step removing) active_new watching.
Proof.
  eapply rtc_l; [apply step_call, (call_add (RT_FD 7) 1 (Some 1))|].
  apply rtc_once, step_call, (call_add (RT_FD 8) 1 (Some 2)).
Qed.

Lemma active_poller_safe_witness :
  exists s' res called, active_wait removing 10 watching = Some (s', res) /\ calls s' = called /\
    res = Ok 2 /\ length called = 2.
Proof.
  destruct (active_poller_safe removing watching 10 removing_calls watching_reachable)
    as (s' & res & called & E & Ec & Hn & _).
  assert (Er : (snd <$> active_wait removing 10 watching) = Some (Ok 2)) by (vm_compute; reflexivity).
  rewrite E in Er. injection Er as ->. exists s', (Ok 2), called.
  split; [exact E|]. split; [exact Ec|]. split; [reflexivity|]. apply Hn. reflexivity.
Defined.

(** ** Monitors *)

(** The library above, and the sockets that are monitored. *)
Record watched_lib := mkWatched {
  wl_lib : sample_lib;
  wl_monitored : gset nat
}.

Definition on_lib {A} (f : sample_lib -> sample_lib * A) (w : watched_lib) : watched_lib * A :=
  let '(l, a) := f (wl_lib w) in (mkWatched l (wl_monitored w), a).

#[export] Program Instance watched_lib_zmq : LibZmq watched_lib := {|
  zmq_ctx_new := on_lib zmq_ctx_new;
  zmq_ctx_set := fun w _ _ _ => (w, None);
  zmq_ctx_get := fun _ _ _ => inl 1%Z;
  zmq_ctx_term := fun w h => on_lib (fun l => sl_term l h) w;
  zmq_ctx_shutdown := fun w _ => (w, None);
  zmq_socket := fun w c _ => on_lib (fun l => sl_socket l c) w;
  zmq_close := fun w h => (mkWatched (zmq_close (wl_lib w) h).1 (wl_monitored w ∖ {[h]}), None);
  ctx_open := fun w => sl_ctx (wl_lib w);
  sock_open := fun w => sl_sock (wl_lib w);
  signals := fun w => sl_signals (wl_lib w)
|}.
Next Obligation. intros w w' r E. unfold on_lib in E. cbn in E. injection E as <- <-. pose proof (sl_fresh_ok (wl_lib w)). cbn. tauto. Qed.
Next Obligation. done. Qed.
Next Obligation.
  intros w h Hh. unfold on_lib, sl_term. destruct (sl_signals (wl_lib w)) eqn:E; eexists _, _; (split; [reflexivity|]); done.
Qed.
Next Obligation. done. Qed.
Next Obligation.
  intros w c ty w' r E. pose proof (sl_fresh_ok (wl_lib w)). unfold on_lib, sl_socket in E.
  destruct c; injection E as <- <-; cbn; tauto.
Qed.
Next Obligation. intros w h Hh. by eexists. Qed.

#[export] Program Instance watched_lib_monitor : ZmqMonitor watched_lib := {|
  zmq_socket_monitor := fun w h addr _ =>
    match h, addr with
    | Some x, Some _ => if decide (x ∈ sl_sock (wl_lib w)) then (mkWatched (wl_lib w) ({[x]} ∪ wl_monitored w), None)
                        else (w, Some EFAULT)
    | Some x, None => (mkWatched (wl_lib w) (wl_monitored w ∖ {[x]}), None)
    | None, _ => (w, Some EFAULT)
    end;
  zmq_connect_socket := fun w _ _ => (w, None);
  monitored := wl_monitored
|}.
Next Obligation.
  intros w h addr e w' r E. cbn in E. destruct h as [x|]; [|by injection E as <- <-].
  case_decide; injection E as <- <-; [|done]. by exists x.
Qed.
Next Obligation. done. Qed.
Next Obligation. intros w [x|] [a|] e; cbn; [case_decide|..]; done. Qed.
Next Obligation. done. Qed.
Next Obligation. intros w [x|] ty; done. Qed.
Next Obligation. done. Qed.

Definition one_socket : watched_lib := (on_lib (fun l => sl_socket l (Some 0)) (mkWatched empty_lib ∅)).1.

Definition user_socket : nat := sl_fresh empty_lib.

(** A monitor is made, started on the socket, and destroyed. *)
Definition started_monitor : monitor_t * watched_lib :=
  (monitor_init (mkSocketT (Some user_socket) (Some 0)) "inproc://m" 0 (monitor_new, one_socket)).1.

Lemma started_monitored : wl_monitored started_monitor.2 = {[user_socket]}.
Proof. apply (bool_decide_unpack _). vm_compute. exact I. Qed.

Definition gone : pool :=
  mkPool (monitor_destroy started_monitor.1 started_monitor.2) {[user_socket]}
    (delete 0 (<[0 := started_monitor.1]> (<[0 := monitor_new]> ∅))).

Lemma gone_reachable : rtc mon_step (mkPool one_socket {[user_socket]} ∅) gone.
Proof.
  eapply rtc_l; [apply (mon_create _ 0); reflexivity|].
  eapply rtc_l.
  { eapply (mon_init _ 0 monitor_new user_socket (Some 0) "inproc://m" 0 started_monitor.1 started_monitor.2
      (monitor_init (mkSocketT (Some user_socket) (Some 0)) "inproc://m" 0 (monitor_new, one_socket)).2).
    - reflexivity.
    - reflexivity.
    - cbn [pl_users]. apply elem_of_singleton. reflexivity.
    - unfold started_monitor. cbn [pl_lib].
      destruct (monitor_init _ _ _ _) as [[m l] r]. reflexivity. }
  apply rtc_once.
  exact (mon_destroy (mkPool started_monitor.2 {[user_socket]} (<[0 := started_monitor.1]> (<[0 := monitor_new]> ∅))) 0
    started_monitor.1 eq_refl).
Qed.

Lemma monitors_released_witness :
  monitored (pl_lib gone) = ∅ /\ sock_open (pl_lib gone) = {[user_socket]}.
Proof.
  refine (proj2 (proj2 (monitors_released one_socket {[user_socket]} gone eq_refl _ gone_reachable)) _).
  - apply (bool_decide_unpack _). vm_compute. exact I.
  - reflexivity.
Defined.

Definition sample_reports : list report := [mkReport 1 7 "tcp://a:1"; mkReport 0x400 (-1) ""].

Definition report_socket : QueueSocket :=
  idle_socket ((fun r => (event_frame true (rp_event r) (rp_value r), [rp_address r])) <$> sample_reports).

Lemma monitor_reports_exact_witness :
  exists s', check_events true 2 report_socket = (s', report_outcome <$> sample_reports) /\ zmq_pending s' = [].
Proof.
  destruct (monitor_reports_exact true sample_reports report_socket) as (s' & E & _ & Hp).
  - repeat constructor; vm_compute; congruence.
  - reflexivity.
  - reflexivity.
  - exists s'. split; [exact E|exact Hp].
Defined.

(** ** Socket set-up *)

(** A socket that keeps its options and endpoints; the address [busy] is in use. *)
Record setup_socket := mkSetupSocket {
  st_type : Z;
  st_options : gmap Z string;
  st_endpoints : list (bool * string * gmap Z string)
}.

Definition st_set (s : setup_socket) (o : Z) (v : string) : setup_socket * option Z :=
  if decide (o = ZMQ_ROUTING_ID /\ ~ (1 <= slen v <= 255)%Z) then (s, Some E_INVAL)
  else (mkSetupSocket (st_type s) (<[o := v]> (st_options s)) (st_endpoints s), None).

Definition st_add (b : bool) (s : setup_socket) (a : string) : setup_socket * option Z :=
  if decide (a = "busy") then (s, Some 98%Z)
  else (mkSetupSocket (st_type s) (st_options s) (st_endpoints s ++ [(b, a, st_options s)]), None).

#[export] Program Instance setup_socket_api : SocketApi setup_socket := {|
  zmq_setsockopt := st_set;
  zmq_getsockopt := fun s o max => match st_options s !! o with
    | Some v => if decide (slen v <= max)%Z then inl v else inr E_INVAL
    | None => inr E_INVAL
    end;
  zmq_bind := st_add true;
  zmq_unbind := fun s _ => (s, None);
  zmq_connect := st_add false;
  zmq_disconnect := fun s _ => (s, None);
  zmq_send := fun s b _ => (s, inl (slen b));
  zmq_recv := fun s _ => (s, inr EAGAIN);
  string_option := fun _ => False;
  binary_option := fun _ => True
|}.
Next Obligation. done. Qed.
Next Obligation.
  intros s o v s' _ E max. unfold st_set in E. case_decide; [done|]. injection E as <-. cbn. by rewrite lookup_insert_eq.
Qed.

#[export] Program Instance setup_socket_setup : SocketSetup setup_socket := {|
  socket_type := st_type;
  options := st_options;
  endpoints := st_endpoints
|}.
Next Obligation. intros s o v s' r. cbn. unfold st_set. case_decide; by intros [= <- <-]. Qed.
Next Obligation. intros s a s' r. cbn. unfold st_add. case_decide; intros [= <- <-]; by rewrite ?app_nil_r. Qed.
Next Obligation. intros s a s' r. cbn. unfold st_add. case_decide; intros [= <- <-]; by rewrite ?app_nil_r. Qed.
Next Obligation. intros s v _. cbn. unfold st_set. rewrite decide_False; [done|]. by intros []. Qed.
Next Obligation. intros s v _. cbn. unfold st_set. rewrite decide_False; [done|]. by intros []. Qed.
Next Obligation. intros s v _ _. cbn. unfold st_set. rewrite decide_False; [done|]. by intros []. Qed.
Next Obligation. intros s v _. cbn. unfold st_set. rewrite decide_False; [done|]. by intros []. Qed.
Next Obligation.
  intros s v. cbn. unfold st_set. repeat case_decide; try done; exfalso; tauto.
Qed.

Definition unnamed : ConnectionConfig := mkConfig "tcp://127.0.0.1:5555" "" ZMQ 10000 5000 2.

Lemma worker_socket_identity_witness :
  (worker_socket true unnamed (mkSetupSocket 5 ∅ [])).2 = Throw E_INVAL /\
  endpoints (worker_socket true unnamed (mkSetupSocket 5 ∅ [])).1 = [].
Proof.
  pose proof (worker_socket_identity true unnamed 5 (mkSetupSocket 5 ∅ []) ltac:(by split)) as K.
  destruct (worker_socket true unnamed (mkSetupSocket 5 ∅ [])) as [s' r]. destruct K as (K1 & K2 & _).
  assert (r = Throw E_INVAL) as -> by (apply K2; intros [Hn _]; by apply Hn). cbn. split; [reflexivity|apply K1].
Defined.

Lemma broker_sockets_bound_witness :
  exists router' inspector', broker_sockets true ["busy"; "tcp://*:5555"] (mkSetupSocket ZMQ_ROUTER ∅ [], mkSetupSocket 1 ∅ []) =
    ((router', inspector'), Ok tt) /\ length (endpoints router') = 1%nat.
Proof.
  destruct (broker_sockets_bound true ["busy"; "tcp://*:5555"] (mkSetupSocket ZMQ_ROUTER ∅ []) (mkSetupSocket 1 ∅ []) 1
    ltac:(by split) ltac:(by split)) as (r & i & bound & E & _). exists r, i. split; [exact E|].
  assert (Er : r = (broker_sockets true ["busy"; "tcp://*:5555"] (mkSetupSocket ZMQ_ROUTER ∅ [], mkSetupSocket 1 ∅ [])).1.1) by (by rewrite E).
  rewrite Er. vm_compute. reflexivity.
Defined.
